(* ===== verification/_CoqProject ===== *)
-Q . S2P
Prelude.v
Machine.v
Mmu.v
Cstring.v
Devices.v
KState.v
Printfmt.v
PageAlloc.v
PageTable.v
Vmem.v
Exits.v
SelfTest.v
Kdebug.v
Monitor.v
Spinlock.v
Env.v
Sched.v
Syscall.v
Trap.v
Isolation.v
Reclaim.v
Protection.v
UserLib.v
UserCalls.v
Cow.v
Stack.v
Fork.v
TempPage.v
ForkCall.v
Dumbfork.v
CowFork.v
Switch.v
UserPrograms.v
System.v
Mpconfig.v
KInit.v
Boot.v
