(* ===== verification/Prelude.v ===== *)
(** * JOS: a verification development for the teaching kernel under src/

    The program is a small exokernel for the i386.  boot/main.c loads the
    kernel image; kern/init.c starts the parts of the kernel, kern/pmap.c hands
    out physical pages and builds two-level page tables, kern/env.c keeps the
    environments (processes), kern/trap.c receives interrupts, faults and
    system calls, kern/syscall.c serves the calls, kern/sched.c picks what runs
    next; the user library lib/ builds fork, copy-on-write and page-fault
    handlers out of those calls.

    ** Files

    - [Prelude]: fixed-width integers, the tactics [word_lia] and [case_bool],
      generic lemmas on lists, options and maps.
    - [Machine], [Mmu]: byte memory with little-endian words (inc/types.h), and
      addresses, page-table entries, descriptors, memory map (inc/mmu.h,
      inc/memlayout.h).
    - [Cstring], [Printfmt]: lib/string.c; lib/printfmt.c with its clients
      kern/printf.c and lib/printf.c.
    - [Devices]: kern/console.c, kern/kclock.c, kern/picirq.c, lib/readline.c.
    - [KState]: the structures and the global variables of the kernel as one
      record [kstate], and the monad [M].  An operation of the source is one
      definition of type [M A], with the name it has in C.  It ends in [Ret]
      (a value and a state), [Leave] (into user mode, into hlt, into the
      monitor for good) or [Crash] (panic, failed assert, NULL or wild access).
    - [PageAlloc], [PageTable], [Vmem]: kern/pmap.c and kern/pmap.h; [Vmem] is
      the translation the processor performs, through which the kernel touches
      user memory.
    - [Exits]: which ways a computation can end, by rule for each operation.
    - [Kdebug]: kern/kdebug.c.  [Monitor]: kern/monitor.c.
    - [Spinlock]: kern/spinlock.c on one CPU, and Module [Smp], the lock used
      by any number of CPUs in any interleaving.
    - [Env], [Sched], [Syscall], [Trap]: the kernel files of the same names.
    - [Isolation]: the invariant [kernel_ok] of the memory of all environments
      together, kept by every change of a mapping, by allocation, by creating
      an environment and by changing its record.  [Reclaim]: env_free keeps it.
      [Protection]: the steps of a running process as a transition relation.
    - [UserLib]: lib/syscall.c, lib/fork.c, lib/pgfault.c, lib/ipc.c,
      lib/exit.c, lib/libmain.c, lib/panic.c, lib/console.c, lib/pfentry.S.  A
      system call runs [Syscall.syscall] on the same [kstate].  [UserCalls]: what
      those calls do for a process that runs in its own page tables, in terms of
      one changed mapping ([moved]).  [Cow]: the handler of copy-on-write faults.
      [Stack]: what the calls of fork store on the stack, and the write fault
      they raise once its page is copy-on-write, through the kernel's
      page_fault_handler, the upcall and the handler.  [Fork]: the copying loops
      of fork.  [TempPage]: filling a page of the child through a temporary
      address.  [ForkCall]: the whole of fork.  [CowFork]: a fork followed by a
      write of either side.
    - [Dumbfork], [UserPrograms]: programs of user/.
    - [Switch]: from one environment to the next, by the scheduler or by the
      death of the running one.  [System]: one turn of a process from trap to
      the return to user mode, and any number of turns.
    - [Mpconfig]: kern/mpconfig.c, kern/lapic.c, the AP start of kern/init.c.
    - [Boot]: boot/main.c.
    - [SelfTest]: the check_ functions of kern/pmap.c.  [KInit]:
      kern/entrypgdir.c, mem_init, and kern/init.c.

    ** State and pointers

    [kmem] maps a kernel virtual address to a byte: physical byte pa is at
    KERNBASE + pa.  A page directory or table is read from those bytes, so the
    page-table theorems are about the words in memory.  A [struct PageInfo *] or
    [struct Env *] is the index into its array, NULL is [None]; other pointers
    are addresses.  The arrays [pages], [envs] and [cpus] are finite maps.

    The abstract view of an address space is [trans s d va]: the physical page
    and the permissions at [va] under the directory in page [d].  The page-table
    operations are specified as updates of [trans] at one address with the exact
    change of the reference counts and of the free list ([pt_step]), and the
    system calls and fork's fault handler are proved from those specifications.
    The abstract view of the allocator is a stack of page numbers ([free_ok]).
    Over all environments [maps s p] counts how often page [p] is mapped; in a
    well-formed kernel that is the page's reference count.

    ** What the theorems show

    - Memory: page_init, page_alloc and page_free implement the stack;
      page_insert, page_remove and boot_map_region implement the address-space
      updates on every branch; user_mem_check ends and is sound for ranges that
      do not wrap.
    - Start-up: the boot page tables; the address space mem_init builds, which
      lacks the stacks memlayout.h has for the other CPUs; what the self-tests
      accept; and that the kernel as it stands cannot start: from every state
      i386_init does what its steps up to the self-test's call of mmio_map_region
      do, and then panics there.
    - Environments and system calls: env_alloc, env_run, envid2env, exofork,
      page_alloc, page_map, env_set_status on all branches; page_map cannot turn
      a read-only page writable; what a bad call number or an unmapped source
      does to the kernel.
    - The whole kernel: a process that makes harmless system calls and stores to
      its own memory, in any order, keeps the kernel well-formed and cannot
      reach the memory of an environment it has no authority over; destroying an
      environment gives back exactly what it alone used.  Harmless leaves out
      the calls that end in the scheduler, the unwritten ones, and the holes
      shown by theorems of their own: unmapped source of page_map, page_unmap
      where nothing is mapped, the 16-bit reference counter, and cputs of a text
      that leaves the mapped pages, which the kernel reads all the same.
    - The running system: a step is a store of the running process or a trap
      from it that ends with an environment being entered.  Whatever the
      processes do - every system call except through the two holes named above,
      calls with bad pointers, exits, faults, breakpoints, timer interrupts - the
      kernel is well formed at every entry (system_invariant); an environment
      that only strangers run beside keeps its registers and private memory
      through any number of switches (time_sharing); and a runnable one is
      entered after at most as many timer interrupts as it is places ahead in
      the table (no_starvation, whose time slices are stores).
    - Traps: the gates, the way back from a system call, the page-fault upcall,
      and its failure when the exception stack overflows.
    - User library: the copy-on-write handler gives the faulting page a private
      copy and changes nothing else; fork makes a runnable child with a
      copy-on-write copy of the address space, and by its return the parent's
      stack has already faulted and become a copy of its own; after it the first
      write of either side to a page that both still share stays private to it;
      dumbfork's eager copy.  Programs that
      pass bad pointers are destroyed, and the others go on.
    - Concurrency: mutual exclusion and absence of deadlock of the big lock; the
      scheduler picks the first runnable environment in ring order.
    - Text: the format engine against vsnprintf's buffer and the user's
      256-byte chunks, strtol reading back printnum, keyboard, ring buffer,
      line editor, screen, and the monitor's command line.
    - Tables and images: the symbol search against a linear specification, the
      MP table scan inside its bounds, the boot loader's segment reader.

    ** Fuel

    A loop bounded by a counter recurses on it.  Another loop takes fuel, and
    running out is [None] or [Crash OutOfFuel]; the theorems give the fuel
    that suffices (string length, range length over the step, number of
    waiting characters, table size).  The loops that may go on for ever in C -
    spinning on a lock, waiting for another CPU, retrying an IPC, waiting for a
    key - are given a number of tries, and only the branch where the
    awaited event occurs returns.

    ** Parameters

    What the linker or the assembly files provide: [Platform] (the symbols end
    and bootstack), [StabSections] (the symbol tables), [MonitorImage],
    [UserImage] and [DumbImage] (addresses of variables and entry points), the
    trap stubs of kern/trapentry.S, the frames on the kernel stack.  What the
    compiler decides: [StackUse], the bytes a call leaves on the stack of a
    program that forks (arguments, return address, saved registers and locals of
    everything that is called from there), the registers at a write fault, and
    the bytes the fault handler leaves on the exception stack; the theorems hold
    for all frames inside the page of the stack, provided that a call of
    sys_page_alloc leaves some.  What the IMCR of the chipset holds ([imcr]).

    ** Not modelled

    The assembly files boot.S, entry.S, trapentry.S, mpentry.S and lib/entry.S:
    no C code.  inc/console.c: a second copy of kern/console.c.
    Of user/, the programs whose point comes after a yield (a run of the
    library ends where another environment is entered), those that raise
    exceptions by inline assembly or division, and those that format text into
    user memory.  In a user-level run the locals of C are values.  Their
    homes on the stack appear only in fork and sfork, as frames that are stored
    where a call is made; a store between duppage of the stack's page and the next
    call (a spilled loop counter, say) would fault there instead, with the same
    effect.  The stacks of the other programs are not there.  The grading
    scripts: tests of what is modelled here.  obj/: compiler output.
    Delays (the reads of port 0x84, polling of the UART and of the disk)
    have no effect on the state and are left out, as are the segment and
    control registers, the accessed and dirty bits the processor sets, and the
    [%s] arguments of the messages in the log [klog]. *)

From stdpp Require Export base tactics option list gmap fin_maps strings.
From Stdlib Require Export ZArith Lia.

#[global] Open Scope Z_scope.

(** ** Machine integers

    A w-bit unsigned C integer is a [Z] in [0, 2^w); every arithmetic
    operation of the source is followed by the reduction of its C type. *)

Definition u8 (x : Z) : Z := x mod 2 ^ 8.
Definition u16 (x : Z) : Z := x mod 2 ^ 16.
Definition u32 (x : Z) : Z := x mod 2 ^ 32.
Definition u64 (x : Z) : Z := x mod 2 ^ 64.

(** Two's complement reading of a 32-bit (64-bit) pattern. *)
Definition s32 (x : Z) : Z := (x + 2 ^ 31) mod 2 ^ 32 - 2 ^ 31.
Definition s64 (x : Z) : Z := (x + 2 ^ 63) mod 2 ^ 64 - 2 ^ 63.
(** [char] is a signed 8-bit type on the target (i386 gcc). *)
Definition s8 (x : Z) : Z := (x + 2 ^ 7) mod 2 ^ 8 - 2 ^ 7.

(** [x & mask] read as a C truth value. *)
Definition has (x mask : Z) : bool := negb (Z.land x mask =? 0).

Definition is_u32 (x : Z) : Prop := 0 <= x < 2 ^ 32.

Create HintDb word discriminated.

Ltac div_mod_lia :=
  repeat match goal with
  | |- context [2 ^ ?n] => let v := eval vm_compute in (2 ^ n) in
                           progress change (2 ^ n) with v
  | H : context [2 ^ ?n] |- _ => let v := eval vm_compute in (2 ^ n) in
                           progress change (2 ^ n) with v in H
  end; Z.to_euclidean_division_equations; lia.

Ltac word_unfold := unfold u8, u16, u32, u64, s8, s32, s64, is_u32 in *.
(** Linear arithmetic over the fixed-width operations. *)
Ltac word_lia := word_unfold; div_mod_lia.

Lemma u32_range x : 0 <= u32 x < 2 ^ 32.
Proof. word_lia. Qed.

Lemma u32_id x : 0 <= x < 2 ^ 32 -> u32 x = x.
Proof. intros. unfold u32. by apply Z.mod_small. Qed.

Lemma u32_u32 x : u32 (u32 x) = u32 x.
Proof. word_lia. Qed.

Lemma u8_id x : 0 <= x < 256 -> u8 x = x.
Proof. intros. unfold u8. by apply Z.mod_small. Qed.

Lemma u16_id x : 0 <= x < 65536 -> u16 x = x.
Proof. intros. unfold u16. by apply Z.mod_small. Qed.

(** ** Bit patterns *)

Lemma testbit_small x n i : 0 <= x < 2 ^ n -> n <= i -> Z.testbit x i = false.
Proof.
  intros Hx Hi. destruct (decide (0 <= n)) as [Hn|Hn].
  - rewrite <- (Z.mod_small x (2 ^ n)) by done. by apply Z.mod_pow2_bits_high.
  - rewrite Z.pow_neg_r in Hx by lia. lia.
Qed.

(** Or-ing flags below bit [n] into a value whose low [n] bits are clear
    is addition. *)
Lemma lor_flags a f n : 0 <= n -> 0 <= f < 2 ^ n -> Z.lor (a * 2 ^ n) f = a * 2 ^ n + f.
Proof.
  intros Hn Hf. rewrite <- Z.lxor_lor, Z.add_nocarry_lxor; try done;
  apply Z.bits_inj'; intros i Hi; rewrite Z.land_spec, Z.bits_0;
  rewrite <- Z.shiftl_mul_pow2, Z.shiftl_spec by lia;
  destruct (decide (i < n)); rewrite ?(Z.testbit_neg_r a) by lia; try done;
  rewrite (testbit_small f n) by lia; by rewrite andb_false_r.
Qed.

Lemma lor_range a b n : 0 <= n -> 0 <= a < 2 ^ n -> 0 <= b < 2 ^ n -> 0 <= Z.lor a b < 2 ^ n.
Proof.
  intros Hn Ha Hb. assert (0 <= Z.lor a b) as H0 by (apply Z.lor_nonneg; lia). split; [done|].
  destruct (decide (Z.lor a b = 0)) as [->|]; [lia|].
  apply Z.log2_lt_pow2; [lia|]. rewrite Z.log2_lor by lia.
  assert (forall c, 0 <= c < 2 ^ n -> Z.log2 c < n \/ n = 0) as Hlog.
  { intros c Hc. destruct (decide (c = 0)) as [->|]; [simpl; lia|].
    left. apply Z.log2_lt_pow2; lia. }
  destruct (Hlog a Ha), (Hlog b Hb); subst; simpl in *; try lia.
  all: assert (a = 0 /\ b = 0) as [-> ->] by lia; done.
Qed.

Lemma land_low x n : 0 <= n -> Z.land x (2 ^ n - 1) = x mod 2 ^ n.
Proof. intros. rewrite <- Z.land_ones by done. by rewrite Z.ones_equiv, Z.sub_1_r. Qed.

Lemma land_lor_r x y : Z.land (Z.lor x y) y = y.
Proof.
  apply Z.bits_inj'. intros i _. rewrite Z.land_spec, Z.lor_spec. by destruct (Z.testbit x i), (Z.testbit y i).
Qed.

(** Masking out the low [n] bits of a 32-bit value. *)
Lemma land_high x n :
  0 <= n <= 32 -> 0 <= x < 2 ^ 32 -> Z.land x (2 ^ 32 - 2 ^ n) = x - x mod 2 ^ n.
Proof.
  intros Hn Hx.
  assert (2 ^ 32 - 2 ^ n = Z.shiftl (Z.ones (32 - n)) n) as ->.
  { rewrite Z.shiftl_mul_pow2, Z.ones_equiv by lia.
    assert (2 ^ (32 - n) * 2 ^ n = 2 ^ 32) by (rewrite <- Z.pow_add_r by lia; f_equal; lia).
    lia. }
  assert (x - x mod 2 ^ n = Z.shiftl (Z.shiftr x n) n) as ->.
  { rewrite Z.shiftl_mul_pow2, Z.shiftr_div_pow2 by lia.
    pose proof (Z.div_mod x (2 ^ n) ltac:(apply Z.pow_nonzero; lia)). lia. }
  apply Z.bits_inj'; intros i Hi. rewrite Z.land_spec.
  destruct (decide (i < n)).
  - rewrite !Z.shiftl_spec_low by lia. by rewrite andb_false_r.
  - rewrite !Z.shiftl_spec, Z.shiftr_spec by lia. replace (i - n + n) with i by lia.
    destruct (decide (i < 32)).
    + rewrite Z.ones_spec_low by lia. by rewrite andb_true_r.
    + rewrite Z.ones_spec_high by lia. rewrite andb_false_r.
      symmetry. by apply (testbit_small x 32); [|lia].
Qed.

Lemma has_bit x n : 0 <= n -> has x (2 ^ n) = Z.testbit x n.
Proof.
  intros Hn. unfold has. destruct (Z.testbit x n) eqn:E.
  - apply negb_true_iff, Z.eqb_neq. intros H.
    apply (f_equal (fun z => Z.testbit z n)) in H.
    rewrite Z.land_spec, E, Z.pow2_bits_true, Z.bits_0 in H by lia. done.
  - apply negb_false_iff, Z.eqb_eq. apply Z.bits_inj'; intros i Hi.
    rewrite Z.land_spec, Z.bits_0. destruct (decide (i = n)) as [->|].
    + by rewrite E.
    + rewrite Z.pow2_bits_false by lia. apply andb_false_r.
Qed.

(** ** Linked lists threaded through an indexed table

    [chain link t h l]: starting from head [h], the nodes of table [t]
    linked by [link] are exactly [l], in order, ending in NULL. *)

Section Chain.
Context {A : Type} (link : A -> option Z).
Implicit Types (t : gmap Z A) (l : list Z).

Fixpoint chain t (h : option Z) l : Prop :=
  match l with
  | [] => h = None
  | i :: l' => h = Some i /\ exists x, t !! i = Some x /\ chain t (link x) l'
  end.

Lemma chain_det t h l l' : chain t h l -> chain t h l' -> l = l'.
Proof.
  revert h l'. induction l as [|i l IH]; intros h [|j l']; simpl; try done.
  - by intros -> [? _].
  - by intros [-> _] ?.
  - intros [-> (x & Hx & Hc)] [[= <-] (y & Hy & Hd)]. simplify_eq. f_equal. eauto.
Qed.

Lemma chain_suffix t h l1 i l2 : chain t h (l1 ++ i :: l2) -> chain t (Some i) (i :: l2).
Proof.
  revert h. induction l1 as [|j l1 IH]; intros h.
  - by intros [-> H].
  - intros [_ (x & _ & H)]. by eapply IH.
Qed.

(** A NULL-terminated chain never visits a node twice. *)
Lemma chain_NoDup t h l : chain t h l -> NoDup l.
Proof.
  revert h. induction l as [|i l IH]; intros h Hc; [constructor|].
  pose proof Hc as [_ (x & Hx & Hc')]. constructor; [|eauto].
  intros Hin. apply list_elem_of_split in Hin as (l1 & l2 & ->).
  pose proof (chain_suffix t h [] i (l1 ++ i :: l2) Hc) as H1.
  pose proof (chain_suffix t _ l1 i l2 Hc') as H2.
  pose proof (chain_det _ _ _ _ H1 H2) as He.
  apply (f_equal length) in He. simpl in He. rewrite length_app in He. simpl in He. lia.
Qed.

Lemma chain_frame t h l i x : i ∉ l -> chain (<[i:=x]> t) h l <-> chain t h l.
Proof.
  revert h. induction l as [|j l IH]; intros h Hi; simpl; [done|].
  apply not_elem_of_cons in Hi as [Hij Hi].
  rewrite lookup_insert_ne by done. by setoid_rewrite IH.
Qed.

(** Only the links of the chain's own nodes matter. *)
Lemma chain_ext t t' h l :
  (forall i, i ∈ l -> link <$> t !! i = link <$> t' !! i) -> chain t h l -> chain t' h l.
Proof.
  revert h. induction l as [|j l IH]; intros h He; simpl; [done|].
  intros [-> (x & Hx & Hc)]. split; [done|].
  pose proof (He j ltac:(left)) as Hj. rewrite Hx in Hj. simpl in Hj.
  destruct (t' !! j) as [y|] eqn:Hy; simplify_eq/=. exists y. split; [done|].
  rewrite <- Hj. apply IH; [|done]. intros i Hi. apply He. by right.
Qed.

Lemma chain_lookup t h l i : chain t h l -> i ∈ l -> is_Some (t !! i).
Proof.
  revert h. induction l as [|j l IH]; intros h; simpl; [by intros _ ?%elem_of_nil|].
  intros [_ (x & Hx & Hc)] [->|Hi]%elem_of_cons; eauto.
Qed.

Lemma chain_head_nil t h l : chain t h l -> h = None -> l = [].
Proof. destruct l; simpl; [done|]. by intros [-> _]. Qed.
End Chain.

(** ** Iteration helpers *)

(** [zrange a n] = [a; a+1; ...; a+n-1]. *)
Fixpoint zrange (a : Z) (n : nat) : list Z :=
  match n with O => [] | S n => a :: zrange (a + 1) n end.

Lemma elem_of_zrange a n x : x ∈ zrange a n <-> a <= x < a + Z.of_nat n.
Proof.
  revert a. induction n as [|n IH]; intros a; simpl.
  - rewrite elem_of_nil. lia.
  - rewrite elem_of_cons, IH. lia.
Qed.

Lemma length_zrange a n : length (zrange a n) = n.
Proof. revert a; induction n; intros; simpl; auto. Qed.

Lemma NoDup_zrange a n : NoDup (zrange a n).
Proof.
  revert a. induction n as [|n IH]; intros a; simpl; constructor; auto.
  rewrite elem_of_zrange. lia.
Qed.

Lemma zrange_app a n m : zrange a (n + m) = zrange a n ++ zrange (a + Z.of_nat n) m.
Proof.
  revert a. induction n as [|n IH]; intros a; simpl.
  - by rewrite Z.add_0_r.
  - rewrite IH. do 3 f_equal. lia.
Qed.

(** ** Arrays as tables *)

(** The array of [n] elements that all equal [x]. *)
Definition table {A} (x : A) (n : nat) : gmap Z A :=
  foldr (fun i t => <[i := x]> t) ∅ (zrange 0 n).

Lemma lookup_foldr_insert {A} (x : A) l j :
  foldr (fun i t => <[i := x]> t) (∅ : gmap Z A) l !! j = if decide (j ∈ l) then Some x else None.
Proof.
  induction l as [|i l IH]; simpl.
  - by rewrite lookup_empty.
  - destruct (decide (i = j)) as [->|].
    + rewrite lookup_insert_eq, decide_True; [done|by left].
    + rewrite lookup_insert_ne, IH by done. destruct (decide (j ∈ l)).
      * rewrite decide_True; [done|by right].
      * rewrite decide_False; [done|]. by intros [?|?]%elem_of_cons.
Qed.

Lemma lookup_table {A} (x : A) n j :
  table x n !! j = if decide (0 <= j < Z.of_nat n) then Some x else None.
Proof.
  unfold table. rewrite lookup_foldr_insert.
  assert (j ∈ zrange 0 n <-> 0 <= j < Z.of_nat n) as Hz by (rewrite elem_of_zrange; lia).
  destruct (decide (j ∈ _)), (decide (0 <= j < _)); done || tauto.
Qed.
