(* ===== verification/Machine.v ===== *)
(** Byte-addressed memory of the 32-bit little-endian machine, the word
    accesses the kernel performs on it, and the rounding macros of
    src/inc/types.h.  A memory is a total function from addresses to bytes;
    the reader of a 32-bit word combines four bytes, the writer stores four. *)

From S2P Require Import Prelude.

Abbreviation mem := (Z -> Z).

(** ** src/inc/types.h *)

Definition ROUNDDOWN (a n : Z) : Z := u32 (u32 a - u32 a mod n).
Definition ROUNDUP (a n : Z) : Z := ROUNDDOWN (u32 (u32 a + u32 n - 1)) (u32 n).

(** ** Loads and stores *)

Definition st8 (m : mem) (a v : Z) : mem := fun x => if x =? a then u8 v else m x.

Definition ld16 (m : mem) (a : Z) : Z := m a + 2 ^ 8 * m (a + 1).
Definition ld32 (m : mem) (a : Z) : Z :=
  m a + 2 ^ 8 * m (a + 1) + 2 ^ 16 * m (a + 2) + 2 ^ 24 * m (a + 3).

Definition st16 (m : mem) (a v : Z) : mem := st8 (st8 m a v) (a + 1) (v / 2 ^ 8).
Definition st32 (m : mem) (a v : Z) : mem :=
  st8 (st8 (st8 (st8 m a v) (a + 1) (v / 2 ^ 8)) (a + 2) (v / 2 ^ 16)) (a + 3) (v / 2 ^ 24).

(** A block of [n] equal bytes, and a block copied from elsewhere in the
    original memory: the reference effects of memset and memmove. *)
Definition fill (m : mem) (a n v : Z) : mem :=
  fun x => if (a <=? x) && (x <? a + n) then u8 v else m x.
Definition copy (m : mem) (dst src n : Z) : mem :=
  fun x => if (dst <=? x) && (x <? dst + n) then m (src + (x - dst)) else m x.

(** Every cell holds a byte. *)
Definition bytes_ok (m : mem) : Prop := forall a, 0 <= m a < 256.

(** ** Lemmas *)

Ltac case_bool :=
  repeat match goal with
  | |- context [?a =? ?b] => destruct (Z.eqb_spec a b)
  | |- context [?a <=? ?b] => destruct (Z.leb_spec a b)
  | |- context [?a <? ?b] => destruct (Z.ltb_spec a b)
  end; cbn [andb orb negb] in *.

Lemma ROUNDDOWN_eq a n : is_u32 a -> 0 < n < 2 ^ 32 -> ROUNDDOWN a n = a - a mod n.
Proof.
  intros Ha Hn. unfold ROUNDDOWN. rewrite (u32_id a) by done.
  apply u32_id. pose proof (Z.mod_pos_bound a n ltac:(lia)).
  pose proof (Z.mod_le a n). unfold is_u32 in *. lia.
Qed.

Lemma ROUNDUP_eq a n :
  0 <= a -> 0 < n < 2 ^ 32 -> a + n - 1 < 2 ^ 32 ->
  ROUNDUP a n = a + n - 1 - (a + n - 1) mod n.
Proof.
  intros Ha Hn Hs. unfold ROUNDUP. rewrite (u32_id a), (u32_id n), (u32_id (_ - 1)) by lia.
  rewrite ROUNDDOWN_eq; [done|unfold is_u32; lia|done].
Qed.

(** [ROUNDUP a n] is the least multiple of [n] that is at least [a]. *)
Lemma ROUNDUP_bounds a n :
  0 <= a -> 0 < n < 2 ^ 32 -> a + n - 1 < 2 ^ 32 ->
  a <= ROUNDUP a n < a + n /\ ROUNDUP a n mod n = 0.
Proof.
  intros Ha Hn Hs. rewrite ROUNDUP_eq by done.
  pose proof (Z.mod_pos_bound (a + n - 1) n ltac:(lia)).
  split; [lia|]. rewrite Zminus_mod_idemp_r, Z.sub_diag. apply Z.mod_0_l. lia.
Qed.

Lemma ROUNDUP_0 n : 0 < n < 2 ^ 32 -> ROUNDUP 0 n = 0.
Proof. intros. rewrite ROUNDUP_eq by lia. rewrite (Z.mod_small (0 + n - 1)); lia. Qed.

(** A wrap-around: rounding up an address of the last page of the address
    space yields 0, not 2^32. *)
Lemma ROUNDUP_wraps a : 2 ^ 32 - 4095 <= a < 2 ^ 32 -> ROUNDUP a 4096 = 0.
Proof. intros. unfold ROUNDUP, ROUNDDOWN. word_lia. Qed.

Lemma st8_bytes m a v : bytes_ok m -> bytes_ok (st8 m a v).
Proof. intros Hm x. unfold st8. case_bool; [word_lia|apply Hm]. Qed.

Lemma st32_bytes m a v : bytes_ok m -> bytes_ok (st32 m a v).
Proof. intros. unfold st32. auto using st8_bytes. Qed.

Lemma fill_bytes m a n v : bytes_ok m -> bytes_ok (fill m a n v).
Proof. intros Hm x. unfold fill. case_bool; try apply Hm. word_lia. Qed.

Lemma copy_bytes m d s n : bytes_ok m -> bytes_ok (copy m d s n).
Proof. intros Hm x. unfold copy. case_bool; apply Hm. Qed.

Lemma ld32_range m a : bytes_ok m -> is_u32 (ld32 m a).
Proof.
  intros Hm. unfold ld32, is_u32.
  pose proof (Hm a). pose proof (Hm (a+1)). pose proof (Hm (a+2)). pose proof (Hm (a+3)). lia.
Qed.

Lemma ld32_st32_eq m a v : ld32 (st32 m a v) a = u32 v.
Proof. unfold ld32, st32, st8. case_bool; try lia. word_lia. Qed.

Lemma st32_out m a v x : x < a \/ a + 4 <= x -> st32 m a v x = m x.
Proof. intros. unfold st32, st8. case_bool; lia. Qed.

Lemma ld32_ext m m' a : (forall x, a <= x < a + 4 -> m x = m' x) -> ld32 m a = ld32 m' a.
Proof. intros H. unfold ld32. rewrite !H by lia. done. Qed.

Lemma ld32_st32_ne m a b v : a + 4 <= b \/ b + 4 <= a -> ld32 (st32 m a v) b = ld32 m b.
Proof. intros. apply ld32_ext. intros. apply st32_out. lia. Qed.

Lemma ld32_fill_out m a n v b : b + 4 <= a \/ a + n <= b -> ld32 (fill m a n v) b = ld32 m b.
Proof. intros. apply ld32_ext. intros. unfold fill. case_bool; lia. Qed.

Lemma ld32_fill0_in m a n b : a <= b -> b + 4 <= a + n -> ld32 (fill m a n 0) b = 0.
Proof. intros. unfold ld32, fill. change (u8 0) with 0. case_bool; lia. Qed.

Lemma ld32_copy_out m d s n b : b + 4 <= d \/ d + n <= b -> ld32 (copy m d s n) b = ld32 m b.
Proof. intros. apply ld32_ext. intros. unfold copy. case_bool; lia. Qed.

Lemma ld32_copy_in m d s n b :
  d <= b -> b + 4 <= d + n -> ld32 (copy m d s n) b = ld32 m (s + (b - d)).
Proof.
  intros. unfold ld32, copy. case_bool; try lia. by rewrite <- !Z.add_assoc, <- !Z.add_sub_swap.
Qed.

#[export] Hint Resolve st8_bytes st32_bytes fill_bytes copy_bytes ld32_range : word.

(** ** Extensional equality of memories *)

Definition mem_eq (m m' : mem) : Prop := forall x, m x = m' x.

#[export] Instance mem_eq_equiv : Equivalence mem_eq.
Proof.
  split; unfold mem_eq; [by intros m x|by intros m m' H x|].
  intros m1 m2 m3 H1 H2 x. by rewrite H1.
Qed.
#[export] Instance st8_proper : Proper (mem_eq ==> eq ==> eq ==> mem_eq) st8.
Proof. intros m m' Hm a ? <- v ? <- x. unfold st8. by rewrite (Hm x). Qed.
#[export] Instance st32_proper : Proper (mem_eq ==> eq ==> eq ==> mem_eq) st32.
Proof. intros m m' Hm a ? <- v ? <-. unfold st32. by rewrite Hm. Qed.
#[export] Instance ld32_proper : Proper (mem_eq ==> eq ==> eq) ld32.
Proof. intros m m' Hm a ? <-. apply ld32_ext. intros. apply Hm. Qed.
#[export] Instance fill_proper : Proper (mem_eq ==> eq ==> eq ==> eq ==> mem_eq) fill.
Proof. intros m m' Hm a ? <- n ? <- v ? <- x. unfold fill. by rewrite (Hm x). Qed.
#[export] Instance copy_proper : Proper (mem_eq ==> eq ==> eq ==> eq ==> mem_eq) copy.
Proof. intros m m' Hm a ? <- n ? <- v ? <- x. unfold copy. by rewrite (Hm x), (Hm (n + _)). Qed.

Lemma mem_eq_bytes m m' : mem_eq m m' -> bytes_ok m -> bytes_ok m'.
Proof. intros He Hm a. rewrite <- He. apply Hm. Qed.

(** Copying a prefix and then the rest is one copy, when the second half
    of the source is not overwritten by the first step. *)
Lemma copy_forward m d s a b :
  0 <= a -> 0 <= b -> d <= s \/ s + a + b <= d ->
  mem_eq (copy (copy m d s a) (d + a) (s + a) b) (copy m d s (a + b)).
Proof. intros Ha Hb Hov x. unfold copy. case_bool; try lia; f_equal; lia. Qed.

Lemma copy_backward m d s a b :
  0 <= a -> 0 <= b -> s <= d ->
  mem_eq (copy (copy m (d + b) (s + b) a) d s b) (copy m d s (b + a)).
Proof. intros Ha Hb Hov x. unfold copy. case_bool; try lia; f_equal; lia. Qed.

Lemma copy_0 m d s : mem_eq (copy m d s 0) m.
Proof. intros x. unfold copy. case_bool; try done. lia. Qed.

Lemma st8_copy m d s : bytes_ok m -> mem_eq (st8 m d (m s)) (copy m d s 1).
Proof.
  intros Hm x. unfold st8, copy. rewrite u8_id by apply Hm.
  case_bool; try lia. f_equal; lia.
Qed.

Lemma st32_copy m d s : bytes_ok m -> mem_eq (st32 m d (ld32 m s)) (copy m d s 4).
Proof.
  intros Hm x. unfold copy.
  destruct (decide (d <= x < d + 4)) as [Hin|Hout].
  - pose proof (Hm s). pose proof (Hm (s+1)). pose proof (Hm (s+2)). pose proof (Hm (s+3)).
    assert (x = d \/ x = d + 1 \/ x = d + 2 \/ x = d + 3) as [-> | [-> | [-> | ->]]] by lia;
    unfold st32, st8, ld32; case_bool; try lia;
    (rewrite ?Z.sub_diag, ?Z.add_0_r, ?Z.add_simpl_l); word_lia.
  - rewrite st32_out by lia. case_bool; try done; lia.
Qed.

(** ** Laying bytes out in memory *)

Fixpoint place (m : mem) (a : Z) (l : list Z) : mem :=
  match l with [] => m | c :: l => place (st8 m a c) (a + 1) l end.

Definition bytes_of_string (s : string) : list Z :=
  map (fun a => Z.of_N (Ascii.N_of_ascii a)) (String.list_ascii_of_string s).

(** A NUL-terminated literal. *)
Definition place_str (m : mem) (a : Z) (s : string) : mem := place m a (bytes_of_string s ++ [0]).
