(* ===== verification/Mmu.v ===== *)
(** Linear addresses, page-table entries and descriptors:
    src/inc/mmu.h and the address-space layout of src/inc/memlayout.h. *)

From S2P Require Import Prelude Machine.

(** ** src/inc/mmu.h, part 1: paging *)

Definition PGSIZE : Z := 4096.
Definition PGSHIFT : Z := 12.
Definition NPDENTRIES : Z := 1024.
Definition NPTENTRIES : Z := 1024.
Definition PTSIZE : Z := PGSIZE * NPTENTRIES.

Definition PGNUM (la : Z) : Z := Z.shiftr (u32 la) 12.
Definition PDX (la : Z) : Z := Z.land (Z.shiftr (u32 la) 22) 0x3FF.
Definition PTX (la : Z) : Z := Z.land (Z.shiftr (u32 la) 12) 0x3FF.
Definition PGOFF (la : Z) : Z := Z.land (u32 la) 0xFFF.
Definition PGADDR (d t o : Z) : Z := u32 (Z.lor (Z.lor (Z.shiftl d 22) (Z.shiftl t 12)) o).

Definition PTE_P : Z := 0x001.
Definition PTE_W : Z := 0x002.
Definition PTE_U : Z := 0x004.
Definition PTE_PWT : Z := 0x008.
Definition PTE_PCD : Z := 0x010.
Definition PTE_A : Z := 0x020.
Definition PTE_D : Z := 0x040.
Definition PTE_PS : Z := 0x080.
Definition PTE_G : Z := 0x100.
Definition PTE_AVAIL : Z := 0xE00.
Definition PTE_SYSCALL : Z := Z.lor (Z.lor (Z.lor PTE_AVAIL PTE_P) PTE_W) PTE_U.
Definition PTE_ADDR (pte : Z) : Z := Z.land (u32 pte) (u32 (Z.lnot 0xFFF)).

Definition FL_IF : Z := 0x200.

Definition FEC_PR : Z := 1.
Definition FEC_WR : Z := 2.
Definition FEC_U : Z := 4.

(** ** src/inc/memlayout.h *)

Definition KERNBASE : Z := 0xF0000000.
Definition IOPHYSMEM : Z := 0x0A0000.
Definition EXTPHYSMEM : Z := 0x100000.
Definition KSTACKTOP : Z := KERNBASE.
Definition KSTKSIZE : Z := 8 * PGSIZE.
Definition KSTKGAP : Z := 8 * PGSIZE.
Definition MMIOLIM : Z := KSTACKTOP - PTSIZE.
Definition MMIOBASE : Z := MMIOLIM - PTSIZE.
Definition ULIM : Z := MMIOBASE.
Definition UVPT : Z := ULIM - PTSIZE.
Definition UPAGES : Z := UVPT - PTSIZE.
Definition UENVS : Z := UPAGES - PTSIZE.
Definition UTOP : Z := UENVS.
Definition UXSTACKTOP : Z := UTOP.
Definition USTACKTOP : Z := UTOP - 2 * PGSIZE.
Definition UTEXT : Z := 2 * PTSIZE.
Definition UTEMP : Z := PTSIZE.
Definition PFTEMP : Z := UTEMP + PTSIZE - PGSIZE.
Definition USTABDATA : Z := PTSIZE / 2.
Definition MPENTRY_PADDR : Z := 0x7000.

(** Global descriptor numbers. *)
Definition GD_KT : Z := 0x08.
Definition GD_KD : Z := 0x10.
Definition GD_UT : Z := 0x18.
Definition GD_UD : Z := 0x20.
Definition GD_TSS0 : Z := 0x28.

(** ** src/inc/mmu.h, parts 2 and 3: descriptors as bit-field structs *)

Record Segdesc := {
  sd_lim_15_0 : Z; sd_base_15_0 : Z; sd_base_23_16 : Z; sd_type : Z; sd_s : Z;
  sd_dpl : Z; sd_p : Z; sd_lim_19_16 : Z; sd_avl : Z; sd_rsv1 : Z; sd_db : Z;
  sd_g : Z; sd_base_31_24 : Z }.

Definition SEG_NULL : Segdesc := Build_Segdesc 0 0 0 0 0 0 0 0 0 0 0 0 0.

Definition SEG (type base lim dpl : Z) : Segdesc :=
  Build_Segdesc (Z.land (Z.shiftr lim 12) 0xffff) (Z.land base 0xffff)
    (Z.land (Z.shiftr base 16) 0xff) type 1 dpl 1 (Z.shiftr (u32 lim) 28) 0 0 1 1
    (Z.shiftr (u32 base) 24).

Definition SEG16 (type base lim dpl : Z) : Segdesc :=
  Build_Segdesc (Z.land lim 0xffff) (Z.land base 0xffff)
    (Z.land (Z.shiftr base 16) 0xff) type 1 dpl 1 (Z.shiftr (u32 lim) 16) 0 0 1 0
    (Z.shiftr (u32 base) 24).

Record Gatedesc := {
  gd_off_15_0 : Z; gd_sel : Z; gd_args : Z; gd_rsv1 : Z; gd_type : Z; gd_s : Z;
  gd_dpl : Z; gd_p : Z; gd_off_31_16 : Z }.

Definition STS_T32A : Z := 0x9.
Definition STS_IG32 : Z := 0xE.
Definition STS_TG32 : Z := 0xF.

Definition SETGATE (istrap : bool) (sel off dpl : Z) : Gatedesc :=
  {| gd_off_15_0 := Z.land (u32 off) 0xffff; gd_sel := sel; gd_args := 0; gd_rsv1 := 0;
     gd_type := if istrap then STS_TG32 else STS_IG32; gd_s := 0; gd_dpl := dpl; gd_p := 1;
     gd_off_31_16 := Z.shiftr (u32 off) 16 |}.

(** ** Arithmetic reading of the macros *)

Lemma PGNUM_eq la : is_u32 la -> PGNUM la = la / 4096.
Proof. intros. unfold PGNUM. by rewrite u32_id, Z.shiftr_div_pow2. Qed.

Lemma PDX_eq la : is_u32 la -> PDX la = la / 2 ^ 22.
Proof.
  intros. unfold PDX. rewrite u32_id, Z.shiftr_div_pow2 by done.
  change 0x3FF with (2 ^ 10 - 1). rewrite land_low by done.
  apply Z.mod_small. word_lia.
Qed.

Lemma PTX_eq la : is_u32 la -> PTX la = (la / 4096) mod 1024.
Proof.
  intros. unfold PTX. rewrite u32_id, Z.shiftr_div_pow2 by done.
  change 0x3FF with (2 ^ 10 - 1). by rewrite land_low.
Qed.

Lemma PGOFF_eq la : is_u32 la -> PGOFF la = la mod 4096.
Proof.
  intros. unfold PGOFF. rewrite u32_id by done.
  change 0xFFF with (2 ^ 12 - 1). by rewrite land_low.
Qed.

Lemma PTE_ADDR_eq pte : is_u32 pte -> PTE_ADDR pte = pte - pte mod 4096.
Proof.
  intros. unfold PTE_ADDR. rewrite u32_id by done.
  change (u32 (Z.lnot 0xFFF)) with (2 ^ 32 - 2 ^ 12). by rewrite land_high.
Qed.

Lemma PDX_range la : 0 <= PDX la < 1024.
Proof.
  unfold PDX. change 0x3FF with (2 ^ 10 - 1). rewrite land_low by done.
  apply Z.mod_pos_bound. done.
Qed.

Lemma PTX_range la : 0 <= PTX la < 1024.
Proof.
  unfold PTX. change 0x3FF with (2 ^ 10 - 1). rewrite land_low by done.
  apply Z.mod_pos_bound. done.
Qed.

Lemma PGADDR_eq d t o :
  0 <= d < 1024 -> 0 <= t < 1024 -> 0 <= o < 4096 -> PGADDR d t o = d * 2 ^ 22 + t * 4096 + o.
Proof.
  intros. unfold PGADDR. rewrite !Z.shiftl_mul_pow2 by lia.
  rewrite lor_flags by lia.
  replace (d * 2 ^ 22 + t * 2 ^ 12) with ((d * 2 ^ 10 + t) * 2 ^ 12) by lia.
  rewrite lor_flags by lia. rewrite u32_id; lia.
Qed.

(** A page-table entry assembled from an aligned address and flag bits. *)
Lemma pte_make n f : 0 <= f < 4096 -> Z.lor (n * 4096) f = n * 4096 + f.
Proof. intros. change 4096 with (2 ^ 12). by apply lor_flags. Qed.

Lemma PTE_ADDR_make n f : 0 <= n < 2 ^ 20 -> 0 <= f < 4096 -> PTE_ADDR (n * 4096 + f) = n * 4096.
Proof. intros. rewrite PTE_ADDR_eq by word_lia. word_lia. Qed.

Lemma has_P x : has x PTE_P = Z.testbit x 0.
Proof. exact (has_bit x 0 ltac:(lia)). Qed.

Lemma has_P_odd x : has x PTE_P = Z.odd x.
Proof. change PTE_P with (2 ^ 0). rewrite has_bit by lia. apply Z.bit0_odd. Qed.

Lemma has_zero f : has 0 f = false.
Proof. unfold has. by rewrite Z.land_0_l. Qed.

Lemma has_P_make n f : has (n * 4096 + f) PTE_P = has f PTE_P.
Proof.
  rewrite !has_P_odd. rewrite Z.odd_add, Z.odd_mul. simpl. by rewrite andb_false_r.
Qed.

Lemma PDX_PTX_inj va va' :
  is_u32 va -> is_u32 va' -> PDX va = PDX va' -> PTX va = PTX va' -> va / 4096 = va' / 4096.
Proof. intros ??. rewrite !PDX_eq, !PTX_eq by done. word_lia. Qed.
