(* ===== verification/Cstring.v ===== *)
(** src/lib/string.c: the C string routines shared by kernel and user code,
    over an explicit byte memory.  A loop bounded by a size argument recurses
    on it; a loop that runs to a terminating NUL takes fuel and returns [None]
    when the fuel runs out, and its theorem gives the fuel that suffices. *)

From S2P Require Import Prelude Machine.

(** ** Length and copying *)

Fixpoint strlen_loop (fuel : nat) (m : mem) (s n : Z) : option Z :=
  match fuel with
  | O => None
  | S f => if m s =? 0 then Some n else strlen_loop f m (s + 1) (n + 1)
  end.
Definition strlen (fuel : nat) (m : mem) (s : Z) : option Z := strlen_loop fuel m s 0.

Fixpoint strnlen_loop (fuel : nat) (m : mem) (s size n : Z) : option Z :=
  match fuel with
  | O => None
  | S f => if (0 <? size) && negb (m s =? 0) then strnlen_loop f m (s + 1) (size - 1) (n + 1)
           else Some n
  end.
Definition strnlen (fuel : nat) (m : mem) (s size : Z) : option Z :=
  strnlen_loop fuel m s (u32 size) 0.

Fixpoint strcpy (fuel : nat) (m : mem) (dst src : Z) : option mem :=
  match fuel with
  | O => None
  | S f => let c := m src in
           let m := st8 m dst c in
           if c =? 0 then Some m else strcpy f m (dst + 1) (src + 1)
  end.

Definition strcat (fuel : nat) (m : mem) (dst src : Z) : option mem :=
  len ← strlen fuel m dst; strcpy fuel m (dst + len) src.

Fixpoint strncpy_loop (size : nat) (m : mem) (dst src : Z) : mem :=
  match size with
  | O => m
  | S size' => let m := st8 m dst (m src) in
               strncpy_loop size' m (dst + 1) (if m src =? 0 then src else src + 1)
  end.
Definition strncpy (m : mem) (dst src size : Z) : mem :=
  strncpy_loop (Z.to_nat (u32 size)) m dst src.

(** The loop [while (--size > 0 && *src != 0)]; [size] counts the remaining
    decrements. Returns the memory and the final [dst]. *)
Fixpoint strlcpy_loop (size : nat) (m : mem) (dst src : Z) : mem * Z :=
  match size with
  | O => (m, dst)
  | S size' => if m src =? 0 then (m, dst)
               else strlcpy_loop size' (st8 m dst (m src)) (dst + 1) (src + 1)
  end.
Definition strlcpy (m : mem) (dst src size : Z) : mem * Z :=
  if 0 <? size then
    let '(m, d) := strlcpy_loop (Z.to_nat (size - 1)) m dst src in
    (st8 m d 0, d - dst)
  else (m, dst - dst).

(** ** Comparison and search *)

Fixpoint strcmp (fuel : nat) (m : mem) (p q : Z) : option Z :=
  match fuel with
  | O => None
  | S f => if negb (m p =? 0) && (m p =? m q) then strcmp f m (p + 1) (q + 1)
           else Some (m p - m q)
  end.

Fixpoint strncmp_loop (n : nat) (m : mem) (p q : Z) : Z :=
  match n with
  | O => 0
  | S n' => if negb (m p =? 0) && (m p =? m q) then strncmp_loop n' m (p + 1) (q + 1)
            else m p - m q
  end.
Definition strncmp (m : mem) (p q n : Z) : Z := strncmp_loop (Z.to_nat (u32 n)) m p q.

(** [Some 0] is the null pointer. *)
Fixpoint strchr (fuel : nat) (m : mem) (s c : Z) : option Z :=
  match fuel with
  | O => None
  | S f => if m s =? 0 then Some 0
           else if m s =? u8 c then Some s else strchr f m (s + 1) c
  end.

Fixpoint strfind (fuel : nat) (m : mem) (s c : Z) : option Z :=
  match fuel with
  | O => None
  | S f => if m s =? 0 then Some s
           else if m s =? u8 c then Some s else strfind f m (s + 1) c
  end.

Fixpoint memcmp_loop (n : nat) (m : mem) (s1 s2 : Z) : Z :=
  match n with
  | O => 0
  | S n' => if negb (m s1 =? m s2) then m s1 - m s2 else memcmp_loop n' m (s1 + 1) (s2 + 1)
  end.
Definition memcmp (m : mem) (s1 s2 n : Z) : Z := memcmp_loop (Z.to_nat (u32 n)) m s1 s2.

Fixpoint memfind_loop (n : nat) (m : mem) (s c : Z) : Z :=
  match n with
  | O => s
  | S n' => if m s =? u8 c then s else memfind_loop n' m (s + 1) c
  end.
Definition memfind (m : mem) (s c n : Z) : Z := memfind_loop (Z.to_nat (u32 n)) m s c.

(** ** Block operations (the [#if ASM] versions)

    [rep stosb] and [rep stosl] store [ecx] copies of AL or EAX upwards from
    EDI; [rep movsb] and [rep movsl] move one element at a time, upwards or,
    with the direction flag set, downwards. *)

Definition rep_stosb (m : mem) (edi eax ecx : Z) : mem :=
  fun x => if (edi <=? x) && (x <? edi + ecx) then u8 eax else m x.
Definition rep_stosl (m : mem) (edi eax ecx : Z) : mem :=
  fun x => if (edi <=? x) && (x <? edi + 4 * ecx)
           then u8 (Z.shiftr eax (8 * ((x - edi) mod 4))) else m x.

Fixpoint rep_movsb (ecx : nat) (m : mem) (dir edi esi : Z) : mem :=
  match ecx with
  | O => m
  | S k => rep_movsb k (st8 m edi (m esi)) dir (edi + dir) (esi + dir)
  end.
Fixpoint rep_movsl (ecx : nat) (m : mem) (dir edi esi : Z) : mem :=
  match ecx with
  | O => m
  | S k => rep_movsl k (st32 m edi (ld32 m esi)) dir (edi + 4 * dir) (esi + 4 * dir)
  end.

Definition memset (m : mem) (v c n : Z) : mem :=
  if n =? 0 then m
  else if (v mod 4 =? 0) && (n mod 4 =? 0) then
    let c := Z.land c 0xFF in
    let c := Z.lor (Z.lor (Z.lor (Z.shiftl c 24) (Z.shiftl c 16)) (Z.shiftl c 8)) c in
    rep_stosl m v c (n / 4)
  else rep_stosb m v c n.

Definition memmove (m : mem) (dst src n : Z) : mem :=
  let s := src in
  let d := dst in
  if (s <? d) && (d <? u32 (s + n)) then
    let s := s + n in
    let d := d + n in
    if (s mod 4 =? 0) && (d mod 4 =? 0) && (n mod 4 =? 0)
    then rep_movsl (Z.to_nat (n / 4)) m (-1) (d - 4) (s - 4)
    else rep_movsb (Z.to_nat n) m (-1) (d - 1) (s - 1)
  else
    if (s mod 4 =? 0) && (d mod 4 =? 0) && (n mod 4 =? 0)
    then rep_movsl (Z.to_nat (n / 4)) m 1 d s
    else rep_movsb (Z.to_nat n) m 1 d s.

Definition memcpy (m : mem) (dst src n : Z) : mem := memmove m dst src n.

(** ** strtol *)

(** The [long] result and the end pointer. *)
Fixpoint skip_ws (fuel : nat) (m : mem) (s : Z) : option Z :=
  match fuel with
  | O => None
  | S f => if (m s =? 32) || (m s =? 9) then skip_ws f m (s + 1) else Some s
  end.

Definition strtol_digit (c : Z) : option Z :=
  if (48 <=? c) && (c <=? 57) then Some (c - 48)
  else if (97 <=? c) && (c <=? 122) then Some (c - 97 + 10)
  else if (65 <=? c) && (c <=? 90) then Some (c - 65 + 10)
  else None.

Fixpoint strtol_digits (fuel : nat) (m : mem) (base s val : Z) : option (Z * Z) :=
  match fuel with
  | O => None
  | S f =>
      match strtol_digit (s8 (m s)) with
      | None => Some (val, s)
      | Some dig => if base <=? dig then Some (val, s)
                    else strtol_digits f m base (s + 1) (s32 (val * base + dig))
      end
  end.

Definition strtol (fuel : nat) (m : mem) (s base : Z) : option (Z * Z) :=
  s ← skip_ws fuel m s;
  let '(s, neg) := if m s =? 43 then (s + 1, false)
                   else if m s =? 45 then (s + 1, true) else (s, false) in
  let '(s, base) :=
    if ((base =? 0) || (base =? 16)) && ((m s =? 48) && (m (s + 1) =? 120)) then (s + 2, 16)
    else if (base =? 0) && (m s =? 48) then (s + 1, 8)
    else if base =? 0 then (s, 10)
    else (s, base) in
  '(val, s) ← strtol_digits fuel m base s 0;
  Some (if (neg : bool) then s32 (- val) else val, s).

(** ** C strings in memory *)

(** The non-NUL bytes [l] stand at address [a], followed by a NUL. *)
Fixpoint cstr (m : mem) (a : Z) (l : list Z) : Prop :=
  match l with
  | [] => m a = 0
  | c :: l => m a = c /\ c <> 0 /\ cstr m (a + 1) l
  end.

Lemma cstr_det m a l l' : cstr m a l -> cstr m a l' -> l = l'.
Proof.
  revert a l'. induction l as [|c l IH]; intros a [|c' l']; simpl; try done.
  - intros H0 (H1 & H2 & _). lia.
  - intros (H1 & H2 & _) H0. lia.
  - intros (H1 & H2 & H3) (H1' & H2' & H3'). f_equal; [congruence|eauto].
Qed.

Lemma cstr_app_inv m a l1 l2 : cstr m a (l1 ++ l2) -> cstr m (a + Z.of_nat (length l1)) l2.
Proof.
  revert a. induction l1 as [|c l1 IH]; intros a; simpl.
  - by rewrite Z.add_0_r.
  - intros (_ & _ & H%IH). by replace (a + Z.of_nat (S (length l1)))
      with (a + 1 + Z.of_nat (length l1)) by lia.
Qed.

Lemma cstr_ext m m' a l :
  (forall x, a <= x <= a + Z.of_nat (length l) -> m x = m' x) -> cstr m a l -> cstr m' a l.
Proof.
  revert a. induction l as [|c l IH]; intros a He; simpl in *.
  - rewrite He; [done|lia].
  - rewrite <- He by lia. intros (? & ? & Hc). split_and!; auto.
    apply IH; [|done]. intros. apply He. lia.
Qed.

(** ** Length *)

Lemma strlen_loop_spec fuel m s l n :
  cstr m s l -> (length l < fuel)%nat -> strlen_loop fuel m s n = Some (n + Z.of_nat (length l)).
Proof.
  revert s l n. induction fuel as [|f IH]; intros s [|c l] n Hc Hf; simpl in *; try lia.
  - rewrite Hc. simpl. by rewrite Z.add_0_r.
  - destruct Hc as (-> & Hc & Hl). rewrite (proj2 (Z.eqb_neq c 0) Hc).
    rewrite (IH _ l) by (done || lia). f_equal. lia.
Qed.

Lemma strlen_spec fuel m s l :
  cstr m s l -> (length l < fuel)%nat -> strlen fuel m s = Some (Z.of_nat (length l)).
Proof. intros. unfold strlen. by erewrite strlen_loop_spec. Qed.

(** ** Comparison *)

(** Lexicographic comparison of unsigned bytes: the specification strcmp
    implements. *)
Fixpoint lex_cmp (l1 l2 : list Z) : Z :=
  match l1, l2 with
  | [], [] => 0
  | [], c :: _ => - c
  | c :: _, [] => c
  | c1 :: l1, c2 :: l2 => if c1 =? c2 then lex_cmp l1 l2 else c1 - c2
  end.

Lemma strcmp_lex fuel m p q l1 l2 :
  cstr m p l1 -> cstr m q l2 -> (length l1 < fuel)%nat -> strcmp fuel m p q = Some (lex_cmp l1 l2).
Proof.
  revert p q l1 l2. induction fuel as [|f IH]; intros p q l1 l2 Hp Hq Hf; [lia|]. simpl.
  destruct l1 as [|c1 l1], l2 as [|c2 l2]; simpl in *.
  - rewrite Hp, Hq. done.
  - destruct Hq as (-> & ? & _). rewrite Hp. simpl. done.
  - destruct Hp as (-> & ? & _). rewrite Hq. rewrite (proj2 (Z.eqb_neq c1 0)) by done.
    simpl. rewrite Z.sub_0_r. done.
  - destruct Hp as (-> & Hc1 & Hp), Hq as (-> & Hc2 & Hq).
    rewrite (proj2 (Z.eqb_neq c1 0)) by done. simpl. destruct (Z.eqb_spec c1 c2); [|done].
    apply IH; auto; lia.
Qed.

Lemma lex_cmp_eq l1 l2 :
  Forall (fun c => c <> 0) l1 -> Forall (fun c => c <> 0) l2 -> lex_cmp l1 l2 = 0 <-> l1 = l2.
Proof.
  revert l2. induction l1 as [|c1 l1 IH]; intros [|c2 l2] H1 H2; simpl; try done.
  - inversion H2. split; [lia|done].
  - inversion H1. split; [lia|done].
  - apply Forall_cons in H1 as [? H1], H2 as [? H2].
    destruct (Z.eqb_spec c1 c2) as [->|]; [rewrite IH by done|]; (split; [|congruence]).
    + congruence.
    + lia.
Qed.

Lemma cstr_nonzero m a l : cstr m a l -> Forall (fun c => c <> 0) l.
Proof. revert a. induction l as [|c l IH]; intros a; simpl; [by constructor|]. intros (? & ? & ?). eauto. Qed.

(** ** Block operations *)

Lemma rep_movsb_up k m d s :
  bytes_ok m -> d <= s \/ s + Z.of_nat k <= d ->
  mem_eq (rep_movsb k m 1 d s) (copy m d s (Z.of_nat k)).
Proof.
  revert m d s. induction k as [|k IH]; intros m d s Hm Hov; simpl rep_movsb.
  - by rewrite copy_0.
  - rewrite IH by (eauto using st8_bytes || lia). rewrite st8_copy by done.
    rewrite copy_forward by lia. by rewrite Nat2Z.inj_succ, Z.add_1_l.
Qed.

Lemma rep_movsl_up k m d s :
  bytes_ok m -> d <= s \/ s + 4 * Z.of_nat k <= d ->
  mem_eq (rep_movsl k m 1 d s) (copy m d s (4 * Z.of_nat k)).
Proof.
  revert m d s. induction k as [|k IH]; intros m d s Hm Hov; simpl rep_movsl.
  - by rewrite copy_0.
  - rewrite IH by (eauto using st32_bytes || lia). rewrite st32_copy by done.
    rewrite copy_forward by lia. by replace (4 + 4 * Z.of_nat k) with (4 * Z.of_nat (S k)) by lia.
Qed.

Lemma rep_movsb_down k m d s :
  bytes_ok m -> s <= d ->
  mem_eq (rep_movsb k m (-1) (d + Z.of_nat k - 1) (s + Z.of_nat k - 1)) (copy m d s (Z.of_nat k)).
Proof.
  revert m. induction k as [|k IH]; intros m Hm Hov; simpl rep_movsb.
  - by rewrite copy_0.
  - replace (d + Z.of_nat (S k) - 1) with (d + Z.of_nat k) by lia.
    replace (s + Z.of_nat (S k) - 1) with (s + Z.of_nat k) by lia.
    change (?a + -1) with (a - 1).
    rewrite IH by eauto using st8_bytes. rewrite st8_copy by done.
    rewrite copy_backward by lia. by rewrite Nat2Z.inj_succ, <- Z.add_1_r.
Qed.

Lemma rep_movsl_down k m d s :
  bytes_ok m -> s <= d ->
  mem_eq (rep_movsl k m (-1) (d + 4 * Z.of_nat k - 4) (s + 4 * Z.of_nat k - 4))
         (copy m d s (4 * Z.of_nat k)).
Proof.
  revert m. induction k as [|k IH]; intros m Hm Hov; simpl rep_movsl.
  - by rewrite copy_0.
  - replace (d + 4 * Z.of_nat (S k) - 4) with (d + 4 * Z.of_nat k) by lia.
    replace (s + 4 * Z.of_nat (S k) - 4) with (s + 4 * Z.of_nat k) by lia.
    replace (d + 4 * Z.of_nat k + 4 * -1) with (d + 4 * Z.of_nat k - 4) by lia.
    replace (s + 4 * Z.of_nat k + 4 * -1) with (s + 4 * Z.of_nat k - 4) by lia.
    rewrite IH by eauto using st32_bytes. rewrite st32_copy by done.
    rewrite copy_backward by lia.
    by replace (4 * Z.of_nat k + 4) with (4 * Z.of_nat (S k)) by lia.
Qed.

(** memmove is a simultaneous copy, whatever the overlap. *)
Lemma memmove_copy m d s n :
  bytes_ok m -> 0 <= n -> 0 <= s -> 0 <= d -> s + n < 2 ^ 32 \/ d <= s ->
  mem_eq (memmove m d s n) (copy m d s n).
Proof.
  intros Hm Hn Hs Hd Hw. unfold memmove.
  assert ((s <? d) && (d <? u32 (s + n)) = (s <? d) && (d <? s + n)) as ->.
  { destruct Hw; [by rewrite u32_id by lia|]. by rewrite (proj2 (Z.ltb_ge s d)). }
  destruct ((s <? d) && (d <? s + n)) eqn:E; simpl.
  - destruct ((_ && _) && _) eqn:A.
    + assert (n mod 4 = 0) by lia.
      assert (n = 4 * Z.of_nat (Z.to_nat (n / 4))) as Hk by (rewrite Z2Nat.id; word_lia).
      set (k := Z.to_nat (n / 4)) in *. rewrite Hk. apply rep_movsl_down; [done|lia].
    + assert (n = Z.of_nat (Z.to_nat n)) as Hk by lia.
      set (k := Z.to_nat n) in *. rewrite Hk. apply rep_movsb_down; [done|lia].
  - destruct ((_ && _) && _) eqn:A.
    + assert (n mod 4 = 0) by lia.
      assert (n = 4 * Z.of_nat (Z.to_nat (n / 4))) as Hk by (rewrite Z2Nat.id; word_lia).
      set (k := Z.to_nat (n / 4)) in *. rewrite Hk at 1. apply rep_movsl_up; [done|lia].
    + assert (n = Z.of_nat (Z.to_nat n)) as Hk by lia.
      set (k := Z.to_nat n) in *. rewrite Hk. apply rep_movsb_up; [done|lia].
Qed.

Lemma memset_fill m v c n :
  0 <= n -> mem_eq (memset m v c n) (fill m v n c).
Proof.
  intros Hn x. unfold memset, fill.
  destruct (Z.eqb_spec n 0) as [->|Hn0]; [case_bool; lia|].
  destruct ((_ =? 0) && (_ =? 0)) eqn:A; [|done].
  unfold rep_stosl. replace (4 * (n / 4)) with n by word_lia.
  destruct ((v <=? x) && (x <? v + n)) eqn:B; [|done].
  change 0xFF with (2 ^ 8 - 1). rewrite land_low by lia. change (c mod 2 ^ 8) with (u8 c).
  assert (0 <= u8 c < 256) as Hc by word_lia. set (b := u8 c) in *.
  assert (Z.lor (Z.lor (Z.lor (Z.shiftl b 24) (Z.shiftl b 16)) (Z.shiftl b 8)) b
          = b * 2 ^ 24 + b * 2 ^ 16 + b * 2 ^ 8 + b) as ->.
  { rewrite !Z.shiftl_mul_pow2 by lia. rewrite lor_flags by lia.
    replace (b * 2 ^ 24 + b * 2 ^ 16) with ((b * 2 ^ 8 + b) * 2 ^ 16) by lia.
    rewrite lor_flags by lia.
    replace ((b * 2 ^ 8 + b) * 2 ^ 16 + b * 2 ^ 8) with ((b * 2 ^ 16 + b * 2 ^ 8 + b) * 2 ^ 8) by lia.
    rewrite lor_flags by lia. lia. }
  assert (0 <= (x - v) mod 4 < 4) as Hj by (apply Z.mod_pos_bound; lia).
  rewrite Z.shiftr_div_pow2 by lia. clearbody b. clear -Hc Hj. unfold u8.
  assert ((x - v) mod 4 = 0 \/ (x - v) mod 4 = 1 \/ (x - v) mod 4 = 2 \/ (x - v) mod 4 = 3)
    as [-> | [-> | [-> | ->]]] by lia; word_lia.
Qed.

Lemma memset_bytes m v c n : bytes_ok m -> 0 <= n -> bytes_ok (memset m v c n).
Proof.
  intros. eapply mem_eq_bytes; [by symmetry; apply memset_fill|]. by apply fill_bytes.
Qed.

Lemma memmove_bytes m d s n :
  bytes_ok m -> 0 <= n -> 0 <= s -> 0 <= d -> s + n < 2 ^ 32 \/ d <= s -> bytes_ok (memmove m d s n).
Proof.
  intros. eapply mem_eq_bytes; [by symmetry; apply memmove_copy|]. by apply copy_bytes.
Qed.
