(* ===== verification/Devices.v ===== *)
(** The machine's devices as the kernel drives them through I/O ports: the
    8259A interrupt controllers (src/kern/picirq.c), the NVRAM
    (src/kern/kclock.c) and the console (src/kern/console.c): serial port,
    parallel port, CGA display, keyboard and the input ring buffer.

    Bytes the devices will deliver are part of the state; every [outb] is
    logged.  The bounded polling loops before a serial or parallel write only
    delay it and are not modelled. *)

From S2P Require Import Prelude Machine Mmu Cstring.

(** ** State *)

Record io := {
  outs : list (Z * Z);          (* port, value; newest first *)
  nvram : Z -> Z;               (* the RTC's registers *)
  irq_mask : Z;                 (* irq_mask_8259A *)
  didinit : bool;
  com1_present : bool;
  com1_rx : list Z;             (* bytes waiting in the serial port *)
  serial_exists : bool;
  kbd_rx : list Z;              (* scan codes waiting in the keyboard controller *)
  shift : Z;                    (* static of kbd_proc_data *)
  cursor : Z;                   (* the 6845's cursor location at boot *)
  has_cga : bool;               (* the CGA buffer holds what is written to it *)
  addr_6845 : Z;
  crt_buf : list Z;             (* the CRT_SIZE cells of the screen *)
  crt_pos : Z;
  cbuf : list Z;                (* cons.buf, CONSBUFSIZE bytes *)
  rpos : Z;
  wpos : Z;
  printed : list Z }.           (* characters given to cons_putc, newest first *)

Definition set_outs v (d : io) : io :=
  {| outs := v; nvram := nvram d; irq_mask := irq_mask d; didinit := didinit d;
     com1_present := com1_present d; com1_rx := com1_rx d; serial_exists := serial_exists d;
     kbd_rx := kbd_rx d; shift := shift d; cursor := cursor d; has_cga := has_cga d;
     addr_6845 := addr_6845 d; crt_buf := crt_buf d; crt_pos := crt_pos d; cbuf := cbuf d;
     rpos := rpos d; wpos := wpos d; printed := printed d |}.
Definition set_irq_mask v (d : io) : io :=
  {| outs := outs d; nvram := nvram d; irq_mask := v; didinit := didinit d;
     com1_present := com1_present d; com1_rx := com1_rx d; serial_exists := serial_exists d;
     kbd_rx := kbd_rx d; shift := shift d; cursor := cursor d; has_cga := has_cga d;
     addr_6845 := addr_6845 d; crt_buf := crt_buf d; crt_pos := crt_pos d; cbuf := cbuf d;
     rpos := rpos d; wpos := wpos d; printed := printed d |}.
Definition set_didinit v (d : io) : io :=
  {| outs := outs d; nvram := nvram d; irq_mask := irq_mask d; didinit := v;
     com1_present := com1_present d; com1_rx := com1_rx d; serial_exists := serial_exists d;
     kbd_rx := kbd_rx d; shift := shift d; cursor := cursor d; has_cga := has_cga d;
     addr_6845 := addr_6845 d; crt_buf := crt_buf d; crt_pos := crt_pos d; cbuf := cbuf d;
     rpos := rpos d; wpos := wpos d; printed := printed d |}.
Definition set_com1_rx v (d : io) : io :=
  {| outs := outs d; nvram := nvram d; irq_mask := irq_mask d; didinit := didinit d;
     com1_present := com1_present d; com1_rx := v; serial_exists := serial_exists d;
     kbd_rx := kbd_rx d; shift := shift d; cursor := cursor d; has_cga := has_cga d;
     addr_6845 := addr_6845 d; crt_buf := crt_buf d; crt_pos := crt_pos d; cbuf := cbuf d;
     rpos := rpos d; wpos := wpos d; printed := printed d |}.
Definition set_serial_exists v (d : io) : io :=
  {| outs := outs d; nvram := nvram d; irq_mask := irq_mask d; didinit := didinit d;
     com1_present := com1_present d; com1_rx := com1_rx d; serial_exists := v; kbd_rx := kbd_rx d;
     shift := shift d; cursor := cursor d; has_cga := has_cga d; addr_6845 := addr_6845 d;
     crt_buf := crt_buf d; crt_pos := crt_pos d; cbuf := cbuf d; rpos := rpos d; wpos := wpos d;
     printed := printed d |}.
Definition set_kbd_rx v (d : io) : io :=
  {| outs := outs d; nvram := nvram d; irq_mask := irq_mask d; didinit := didinit d;
     com1_present := com1_present d; com1_rx := com1_rx d; serial_exists := serial_exists d;
     kbd_rx := v; shift := shift d; cursor := cursor d; has_cga := has_cga d;
     addr_6845 := addr_6845 d; crt_buf := crt_buf d; crt_pos := crt_pos d; cbuf := cbuf d;
     rpos := rpos d; wpos := wpos d; printed := printed d |}.
Definition set_shift v (d : io) : io :=
  {| outs := outs d; nvram := nvram d; irq_mask := irq_mask d; didinit := didinit d;
     com1_present := com1_present d; com1_rx := com1_rx d; serial_exists := serial_exists d;
     kbd_rx := kbd_rx d; shift := v; cursor := cursor d; has_cga := has_cga d;
     addr_6845 := addr_6845 d; crt_buf := crt_buf d; crt_pos := crt_pos d; cbuf := cbuf d;
     rpos := rpos d; wpos := wpos d; printed := printed d |}.
Definition set_addr_6845 v (d : io) : io :=
  {| outs := outs d; nvram := nvram d; irq_mask := irq_mask d; didinit := didinit d;
     com1_present := com1_present d; com1_rx := com1_rx d; serial_exists := serial_exists d;
     kbd_rx := kbd_rx d; shift := shift d; cursor := cursor d; has_cga := has_cga d;
     addr_6845 := v; crt_buf := crt_buf d; crt_pos := crt_pos d; cbuf := cbuf d; rpos := rpos d;
     wpos := wpos d; printed := printed d |}.
Definition set_crt_buf v (d : io) : io :=
  {| outs := outs d; nvram := nvram d; irq_mask := irq_mask d; didinit := didinit d;
     com1_present := com1_present d; com1_rx := com1_rx d; serial_exists := serial_exists d;
     kbd_rx := kbd_rx d; shift := shift d; cursor := cursor d; has_cga := has_cga d;
     addr_6845 := addr_6845 d; crt_buf := v; crt_pos := crt_pos d; cbuf := cbuf d; rpos := rpos d;
     wpos := wpos d; printed := printed d |}.
Definition set_crt_pos v (d : io) : io :=
  {| outs := outs d; nvram := nvram d; irq_mask := irq_mask d; didinit := didinit d;
     com1_present := com1_present d; com1_rx := com1_rx d; serial_exists := serial_exists d;
     kbd_rx := kbd_rx d; shift := shift d; cursor := cursor d; has_cga := has_cga d;
     addr_6845 := addr_6845 d; crt_buf := crt_buf d; crt_pos := v; cbuf := cbuf d; rpos := rpos d;
     wpos := wpos d; printed := printed d |}.
Definition set_cbuf v (d : io) : io :=
  {| outs := outs d; nvram := nvram d; irq_mask := irq_mask d; didinit := didinit d;
     com1_present := com1_present d; com1_rx := com1_rx d; serial_exists := serial_exists d;
     kbd_rx := kbd_rx d; shift := shift d; cursor := cursor d; has_cga := has_cga d;
     addr_6845 := addr_6845 d; crt_buf := crt_buf d; crt_pos := crt_pos d; cbuf := v;
     rpos := rpos d; wpos := wpos d; printed := printed d |}.
Definition set_rpos v (d : io) : io :=
  {| outs := outs d; nvram := nvram d; irq_mask := irq_mask d; didinit := didinit d;
     com1_present := com1_present d; com1_rx := com1_rx d; serial_exists := serial_exists d;
     kbd_rx := kbd_rx d; shift := shift d; cursor := cursor d; has_cga := has_cga d;
     addr_6845 := addr_6845 d; crt_buf := crt_buf d; crt_pos := crt_pos d; cbuf := cbuf d;
     rpos := v; wpos := wpos d; printed := printed d |}.
Definition set_wpos v (d : io) : io :=
  {| outs := outs d; nvram := nvram d; irq_mask := irq_mask d; didinit := didinit d;
     com1_present := com1_present d; com1_rx := com1_rx d; serial_exists := serial_exists d;
     kbd_rx := kbd_rx d; shift := shift d; cursor := cursor d; has_cga := has_cga d;
     addr_6845 := addr_6845 d; crt_buf := crt_buf d; crt_pos := crt_pos d; cbuf := cbuf d;
     rpos := rpos d; wpos := v; printed := printed d |}.
Definition set_printed v (d : io) : io :=
  {| outs := outs d; nvram := nvram d; irq_mask := irq_mask d; didinit := didinit d;
     com1_present := com1_present d; com1_rx := com1_rx d; serial_exists := serial_exists d;
     kbd_rx := kbd_rx d; shift := shift d; cursor := cursor d; has_cga := has_cga d;
     addr_6845 := addr_6845 d; crt_buf := crt_buf d; crt_pos := crt_pos d; cbuf := cbuf d;
     rpos := rpos d; wpos := wpos d; printed := v |}.

Definition bytes (s : string) : list Z := bytes_of_string s.

Definition outb (port v : Z) (d : io) : io := set_outs ((port, u8 v) :: outs d) d.

(** ** src/kern/kclock.c *)

Definition IO_RTC : Z := 0x70.
Definition mc146818_read (reg : Z) (d : io) : Z * io := (u8 (nvram d reg), outb IO_RTC reg d).
Definition mc146818_write (reg datum : Z) (d : io) : io := outb (IO_RTC + 1) datum (outb IO_RTC reg d).

(** ** src/kern/picirq.c *)

Definition IO_PIC1 : Z := 0x20.
Definition IO_PIC2 : Z := 0xA0.
Definition IRQ_SLAVE : Z := 2.
Definition IRQ_OFFSET : Z := 32.

(** The mask's value before any call. *)
Definition irq_mask_init : Z := Z.land 0xFFFF (Z.lnot (Z.shiftl 1 IRQ_SLAVE)).

(** ** Serial port *)

Definition COM1 : Z := 0x3F8.
Definition COM_TX : Z := 0.
Definition COM_DLL : Z := 0.
Definition COM_DLM : Z := 1.
Definition COM_IER : Z := 1.
Definition COM_IER_RDI : Z := 0x01.
Definition COM_FCR : Z := 2.
Definition COM_LCR : Z := 3.
Definition COM_LCR_DLAB : Z := 0x80.
Definition COM_LCR_WLEN8 : Z := 0x03.
Definition COM_MCR : Z := 4.

(** The next received byte, -1 when none is waiting. *)
Definition serial_proc_data (d : io) : Z * io :=
  match com1_rx d with
  | [] => (-1, d)
  | b :: l => (u8 b, set_com1_rx l d)
  end.

Definition serial_putc (c : Z) (d : io) : io := outb (COM1 + COM_TX) c d.

(** The last [inb] discards a byte that is waiting. *)
Definition serial_init (d : io) : io :=
  let d := outb (COM1 + COM_FCR) 0 d in
  let d := outb (COM1 + COM_LCR) COM_LCR_DLAB d in
  let d := outb (COM1 + COM_DLL) (115200 / 9600) d in
  let d := outb (COM1 + COM_DLM) 0 d in
  let d := outb (COM1 + COM_LCR) (Z.land COM_LCR_WLEN8 (Z.lnot COM_LCR_DLAB)) d in
  let d := outb (COM1 + COM_MCR) 0 d in
  let d := outb (COM1 + COM_IER) COM_IER_RDI d in
  let d := set_serial_exists (com1_present d) d in
  set_com1_rx (tail (com1_rx d)) d.

(** ** Parallel port *)

Definition lpt_putc (c : Z) (d : io) : io :=
  outb (0x378 + 2) 0x08 (outb (0x378 + 2) (Z.lor (Z.lor 0x08 0x04) 0x01) (outb (0x378 + 0) c d)).

(** ** CGA display *)

Definition MONO_BASE : Z := 0x3B4.
Definition CGA_BASE : Z := 0x3D4.
Definition CRT_ROWS : Z := 25.
Definition CRT_COLS : Z := 80.
Definition CRT_SIZE : Z := CRT_ROWS * CRT_COLS.

Definition cga_init (d : io) : io :=
  let d := set_addr_6845 (if has_cga d then CGA_BASE else MONO_BASE) d in
  let d := outb (addr_6845 d) 15 (outb (addr_6845 d) 14 d) in
  set_crt_pos (u16 (cursor d)) d.

(** [crt_buf[i] = v]; a cell outside the screen is not kept. *)
Definition crt_put (i v : Z) (d : io) : io := set_crt_buf (<[Z.to_nat i := u16 v]> (crt_buf d)) d.

Definition blank : Z := Z.lor 0x0700 32.

(** The scroll when the position has left the screen: the rows move up by one
    and the last one is cleared. *)
Definition scroll (d : io) : io :=
  if CRT_SIZE <=? crt_pos d then
    let rows := drop (Z.to_nat CRT_COLS) (crt_buf d) in
    set_crt_pos (u16 (crt_pos d - CRT_COLS))
      (set_crt_buf (take (Z.to_nat (CRT_SIZE - CRT_COLS)) rows ++ repeat blank (Z.to_nat CRT_COLS)) d)
  else d.

Definition move_cursor (d : io) : io :=
  outb (addr_6845 d + 1) (crt_pos d) (outb (addr_6845 d) 15
  (outb (addr_6845 d + 1) (Z.shiftr (crt_pos d) 8) (outb (addr_6845 d) 14 d))).

(** The effect of the character [ch] on the screen, [c] with its attribute;
    [cons_putc] is the call a tab makes. *)
Definition cga_switch (cons_putc : Z -> io -> io) (c ch : Z) (d : io) : io :=
  if ch =? 8 then
    if 0 <? crt_pos d then
      let d := set_crt_pos (u16 (crt_pos d - 1)) d in
      crt_put (crt_pos d) (Z.lor (Z.land c (Z.lnot 0xff)) 32) d
    else d
  else if ch =? 10 then
    let d := set_crt_pos (u16 (crt_pos d + CRT_COLS)) d in
    set_crt_pos (u16 (crt_pos d - crt_pos d mod CRT_COLS)) d
  else if ch =? 13 then set_crt_pos (u16 (crt_pos d - crt_pos d mod CRT_COLS)) d
  else if ch =? 9 then Nat.iter 5 (cons_putc 32) d
  else set_crt_pos (u16 (crt_pos d + 1)) (crt_put (crt_pos d) c d).

Definition cga_putc (cons_putc : Z -> io -> io) (c : Z) (d : io) : io :=
  let c := if Z.land c (Z.lnot 0xFF) =? 0 then Z.lor c 0x0700 else c in
  move_cursor (scroll (cga_switch cons_putc c (Z.land c 0xff) d)).

(** cons_putc and cga_putc call each other: a tab is five spaces.  [depth]
    bounds the nesting, which is 1 (a space is not a tab). *)
Fixpoint cons_putc_aux (depth : nat) (c : Z) (d : io) : io :=
  cga_putc (match depth with O => fun _ d => d | S depth => cons_putc_aux depth end) c
    (lpt_putc c (serial_putc c (set_printed (c :: printed d) d))).

Definition cons_putc : Z -> io -> io := cons_putc_aux 1.

Definition cputchar : Z -> io -> io := cons_putc.

(** ** The interrupt controllers *)

(** What cprintf does with characters, and the digits of [%d] below 16. *)
Definition cons_write (l : list Z) (d : io) : io := fold_left (fun d c => cons_putc c d) l d.
Definition digits16 (i : Z) : list Z := if i <? 10 then [48 + i] else [49; 48 + (i - 10)].

(** The lines the closing message lists as enabled. *)
Definition enabled_irqs (mask : Z) : list Z :=
  filter (fun i => Z.land (Z.lnot mask) (Z.shiftl 1 i) <> 0) (zrange 0 16).

Definition irq_setmask_8259A (mask : Z) (d : io) : io :=
  let d := set_irq_mask (u16 mask) d in
  if negb (didinit d) then d
  else
    let d := outb (IO_PIC2 + 1) (Z.shiftr (u16 mask) 8) (outb (IO_PIC1 + 1) (u16 mask) d) in
    cons_write (bytes "enabled interrupts:" ++
                concat ((fun i => 32 :: digits16 i) <$> enabled_irqs (u16 mask)) ++ [10]) d.

Definition pic_init (d : io) : io :=
  let d := set_didinit true d in
  let d := outb (IO_PIC2 + 1) 0xFF (outb (IO_PIC1 + 1) 0xFF d) in
  let d := outb IO_PIC1 0x11 d in
  let d := outb (IO_PIC1 + 1) IRQ_OFFSET d in
  let d := outb (IO_PIC1 + 1) (Z.shiftl 1 IRQ_SLAVE) d in
  let d := outb (IO_PIC1 + 1) 0x3 d in
  let d := outb IO_PIC2 0x11 d in
  let d := outb (IO_PIC2 + 1) (IRQ_OFFSET + 8) d in
  let d := outb (IO_PIC2 + 1) IRQ_SLAVE d in
  let d := outb (IO_PIC2 + 1) 0x01 d in
  let d := outb IO_PIC1 0x68 d in
  let d := outb IO_PIC1 0x0a d in
  let d := outb IO_PIC2 0x68 d in
  let d := outb IO_PIC2 0x0a d in
  if negb (irq_mask d =? 0xFFFF) then irq_setmask_8259A (irq_mask d) d else d.

(** ** Keyboard *)

Definition SHIFT : Z := 1.
Definition CTL : Z := 2.
Definition ALT : Z := 4.
Definition CAPSLOCK : Z := 8.
Definition NUMLOCK : Z := 16.
Definition SCROLLLOCK : Z := 32.
Definition E0ESC : Z := 64.

Definition KEY_HOME : Z := 0xE0.
Definition KEY_END : Z := 0xE1.
Definition KEY_UP : Z := 0xE2.
Definition KEY_DN : Z := 0xE3.
Definition KEY_LF : Z := 0xE4.
Definition KEY_RT : Z := 0xE5.
Definition KEY_PGUP : Z := 0xE6.
Definition KEY_PGDN : Z := 0xE7.
Definition KEY_INS : Z := 0xE8.
Definition KEY_DEL : Z := 0xE9.

(** An initialised table of 256 bytes: a prefix, then designated entries; the
    rest is 0. *)
Definition keymap (prefix : list Z) (rest : list (Z * Z)) (i : Z) : Z :=
  match list_find (fun p => fst p = i) rest with
  | Some (_, (_, v)) => v
  | None => default 0 (prefix !! Z.to_nat i)
  end.

Definition shiftcode : Z -> Z :=
  keymap [] [(0x1D, CTL); (0x2A, SHIFT); (0x36, SHIFT); (0x38, ALT); (0x9D, CTL); (0xB8, ALT)].

Definition togglecode : Z -> Z := keymap [] [(0x3A, CAPSLOCK); (0x45, NUMLOCK); (0x46, SCROLLLOCK)].

(** The character tables, row by row; 0 is NO. *)
Definition normalmap : Z -> Z := keymap
  ([0; 0x1B] ++ bytes "123456" ++ bytes "7890-=" ++ [8; 9] ++
   bytes "qwertyui" ++ bytes "op[]" ++ [10; 0] ++ bytes "as" ++
   bytes "dfghjkl;" ++ bytes "'`" ++ [0] ++ bytes "\zxcv" ++
   bytes "bnm,./" ++ [0] ++ bytes "*" ++ [0] ++ bytes " " ++ repeat 0 6 ++
   repeat 0 7 ++ bytes "7" ++ bytes "89-456+1" ++
   bytes "230." ++ repeat 0 4)
  [(0xC7, KEY_HOME); (0x9C, 10); (0xB5, 47); (0xC8, KEY_UP); (0xC9, KEY_PGUP); (0xCB, KEY_LF);
   (0xCD, KEY_RT); (0xCF, KEY_END); (0xD0, KEY_DN); (0xD1, KEY_PGDN); (0xD2, KEY_INS); (0xD3, KEY_DEL)].

Definition shiftmap : Z -> Z := keymap
  ([0; 27] ++ bytes "!@#$%^" ++ bytes "&*()_+" ++ [8; 9] ++
   bytes "QWERTYUI" ++ bytes "OP{}" ++ [10; 0] ++ bytes "AS" ++
   bytes "DFGHJKL:" ++ [34; 126; 0] ++ bytes "|ZXCV" ++
   bytes "BNM<>?" ++ [0] ++ bytes "*" ++ [0] ++ bytes " " ++ repeat 0 6 ++
   repeat 0 7 ++ bytes "7" ++ bytes "89-456+1" ++
   bytes "230." ++ repeat 0 4)
  [(0xC7, KEY_HOME); (0x9C, 10); (0xB5, 47); (0xC8, KEY_UP); (0xC9, KEY_PGUP); (0xCB, KEY_LF);
   (0xCD, KEY_RT); (0xCF, KEY_END); (0xD0, KEY_DN); (0xD1, KEY_PGDN); (0xD2, KEY_INS); (0xD3, KEY_DEL)].

Definition ctl (s : string) : list Z := (fun x => u8 (x - 64)) <$> bytes s.

Definition ctlmap : Z -> Z := keymap
  (repeat 0 16 ++ ctl "QWERTYUI" ++ ctl "OP" ++ [0; 0; 13; 0] ++ ctl "AS" ++
   ctl "DFGHJKL" ++ repeat 0 4 ++ ctl "\ZXCV" ++ ctl "BNM" ++ [0; 0] ++ ctl "/" ++ [0; 0])
  [(0x97, KEY_HOME); (0xB5, u8 (47 - 64)); (0xC8, KEY_UP); (0xC9, KEY_PGUP); (0xCB, KEY_LF);
   (0xCD, KEY_RT); (0xCF, KEY_END); (0xD0, KEY_DN); (0xD1, KEY_PGDN); (0xD2, KEY_INS); (0xD3, KEY_DEL)].

Definition charcode (i : Z) : Z -> Z :=
  if i =? 0 then normalmap else if i =? 1 then shiftmap else ctlmap.

Definition cons_puts (s : string) (d : io) : io := cons_write (bytes s ++ [10]) d.

(** The effect of the scan code [data]: the character it completes, 0 for none
    yet, and the new [shift]. *)
Definition kbd_key (shift data : Z) : Z * Z :=
  if data =? 0xE0 then (0, Z.lor shift E0ESC)
  else if has data 0x80 then
    let data := if has shift E0ESC then data else Z.land data 0x7F in
    (0, Z.land shift (Z.lnot (Z.lor (shiftcode data) E0ESC)))
  else
    let '(data, shift) := if has shift E0ESC then (Z.lor data 0x80, Z.land shift (Z.lnot E0ESC))
                          else (data, shift) in
    let shift := Z.lor shift (shiftcode data) in
    let shift := Z.lxor shift (togglecode data) in
    let c := charcode (Z.land shift (Z.lor CTL SHIFT)) data in
    (if has shift CAPSLOCK then
       if (97 <=? c) && (c <=? 122) then c + (65 - 97)
       else if (65 <=? c) && (c <=? 90) then c + (97 - 65) else c
     else c, shift).

(** -1 without data; Ctrl-Alt-Del reboots. *)
Definition kbd_proc_data (d : io) : Z * io :=
  match kbd_rx d with
  | [] => (-1, d)
  | b :: l =>
      let '(c, sh) := kbd_key (shift d) (u8 b) in
      let d := set_shift sh (set_kbd_rx l d) in
      (c, if negb (has (Z.lnot sh) (Z.lor CTL ALT)) && (c =? KEY_DEL)
          then outb 0x92 0x3 (cons_puts "Rebooting!" d) else d)
  end.

(** ** The input ring buffer *)

Definition CONSBUFSIZE : Z := 512.

(** [cons.buf[cons.wpos++] = c], wrapping. *)
Definition cons_store (c : Z) (d : io) : io :=
  let d' := set_wpos (wpos d + 1) (set_cbuf (<[Z.to_nat (wpos d) := u8 c]> (cbuf d)) d) in
  if wpos d' =? CONSBUFSIZE then set_wpos 0 d' else d'.

(** Every call of [proc] that does not return -1 consumes a waiting byte, so
    [fuel] above their number is enough. *)
Fixpoint cons_intr (fuel : nat) (proc : io -> Z * io) (d : io) : io :=
  match fuel with
  | O => d
  | S fuel =>
      let '(c, d) := proc d in
      if c =? -1 then d
      else if c =? 0 then cons_intr fuel proc d
      else cons_intr fuel proc (cons_store c d)
  end.

Definition serial_intr (d : io) : io :=
  if serial_exists d then cons_intr (S (length (com1_rx d))) serial_proc_data d else d.

Definition kbd_intr (d : io) : io := cons_intr (S (length (kbd_rx d))) kbd_proc_data d.

Definition cons_getc (d : io) : Z * io :=
  let d := kbd_intr (serial_intr d) in
  if negb (rpos d =? wpos d) then
    let c := default 0 (cbuf d !! Z.to_nat (rpos d)) in
    let d := set_rpos (rpos d + 1) d in
    (c, if rpos d =? CONSBUFSIZE then set_rpos 0 d else d)
  else (0, d).

Definition kbd_init (d : io) : io :=
  let d := kbd_intr d in
  irq_setmask_8259A (Z.land (irq_mask d) (Z.lnot (Z.shiftl 1 1))) d.

Definition cons_init (d : io) : io :=
  let d := serial_init (kbd_init (cga_init d)) in
  if negb (serial_exists d) then cons_puts "Serial port does not exist!" d else d.

(** [tries] polls of cons_getc. *)
Fixpoint getchar (tries : nat) (d : io) : option (Z * io) :=
  match tries with
  | O => None
  | S tries => let '(c, d) := cons_getc d in if c =? 0 then getchar tries d else Some (c, d)
  end.

(** ** src/lib/readline.c *)

Definition BUFLEN : Z := 1024.

(** The loop over the characters that arrive, with [i] characters in [line].
    [echo] is [iscons(0)]. *)
Fixpoint readline_loop (fuel tries : nat) (echo : bool) (line : list Z) (i : Z) (d : io)
    : option (list Z * io) :=
  match fuel with
  | O => None
  | S fuel =>
      '(c, d) ← getchar tries d;
      let put (c : Z) (d : io) := if echo then cputchar c d else d in
      if ((c =? 8) || (c =? 0x7f)) && (0 <? i) then
        readline_loop fuel tries echo (take (Z.to_nat (i - 1)) line) (i - 1) (put 8 d)
      else if (32 <=? c) && (i <? BUFLEN - 1) then
        readline_loop fuel tries echo (line ++ [u8 c]) (i + 1) (put c d)
      else if (c =? 10) || (c =? 13) then Some (line, put 10 d)
      else readline_loop fuel tries echo line i d
  end.

Definition readline (fuel tries : nat) (prompt : list Z) (d : io) : option (list Z * io) :=
  readline_loop fuel tries true [] 0 (cons_write prompt d).

(** * Properties *)

(** ** What each operation leaves alone

    Output changes the port log, the screen and nothing of the input side. *)

Record same_input (d d' : io) : Prop := {
  si_com1_rx : com1_rx d' = com1_rx d;
  si_serial_exists : serial_exists d' = serial_exists d;
  si_kbd_rx : kbd_rx d' = kbd_rx d;
  si_shift : shift d' = shift d;
  si_cbuf : cbuf d' = cbuf d;
  si_rpos : rpos d' = rpos d;
  si_wpos : wpos d' = wpos d }.

#[export] Instance same_input_preorder : PreOrder same_input.
Proof.
  split; [by split|]. intros d1 d2 d3 [] []. split; congruence.
Qed.

Create HintDb io discriminated.

Section Preserved.
Context (d0 : io).
Lemma si_refl : same_input d0 d0. Proof. done. Qed.
Lemma si_outb p v d : same_input d0 d -> same_input d0 (outb p v d). Proof. by intros []; split. Qed.
Lemma si_printed v d : same_input d0 d -> same_input d0 (set_printed v d). Proof. by intros []; split. Qed.
Lemma si_crt_pos v d : same_input d0 d -> same_input d0 (set_crt_pos v d). Proof. by intros []; split. Qed.
Lemma si_crt_buf v d : same_input d0 d -> same_input d0 (set_crt_buf v d). Proof. by intros []; split. Qed.
End Preserved.
#[export] Hint Resolve si_refl si_outb si_printed si_crt_pos si_crt_buf : io.

Lemma scroll_same_input d0 d : same_input d0 d -> same_input d0 (scroll d).
Proof. intros. unfold scroll. destruct (_ <=? _); auto with io. Qed.

Lemma move_cursor_same_input d0 d : same_input d0 d -> same_input d0 (move_cursor d).
Proof. intros. unfold move_cursor. auto with io. Qed.

Lemma iter_same_input n (f : io -> io) d0 d :
  (forall d, same_input d0 d -> same_input d0 (f d)) -> same_input d0 d -> same_input d0 (Nat.iter n f d).
Proof. intros Hf Hd. induction n as [|n IH]; [done|]. by apply Hf. Qed.
#[export] Hint Resolve scroll_same_input move_cursor_same_input iter_same_input : io.

Lemma cga_putc_same_input rec c d0 d :
  (forall d, same_input d0 d -> same_input d0 (rec 32 d)) ->
  same_input d0 d -> same_input d0 (cga_putc rec c d).
Proof.
  intros Hrec Hd. unfold cga_putc. apply move_cursor_same_input, scroll_same_input.
  unfold cga_switch, crt_put. case_bool; auto with io.
Qed.

Lemma cons_putc_aux_same_input depth c d0 d :
  same_input d0 d -> same_input d0 (cons_putc_aux depth c d).
Proof.
  revert c d. induction depth as [|depth IH]; intros c d Hd; simpl cons_putc_aux;
    (apply cga_putc_same_input; [|unfold lpt_putc, serial_putc; auto 10 with io]); auto.
Qed.

Lemma cons_write_same_input l d : same_input d (cons_write l d).
Proof.
  revert d. induction l as [|c l IH]; intros d; [done|].
  etrans; [apply (cons_putc_aux_same_input 1 c d d), si_refl|apply IH].
Qed.

(** ** The input ring buffer as a queue *)

Definition ring_ok (d : io) : Prop :=
  length (cbuf d) = Z.to_nat CONSBUFSIZE /\ 0 <= rpos d < CONSBUFSIZE /\ 0 <= wpos d < CONSBUFSIZE.

Definition queue_len (d : io) : Z := (wpos d - rpos d) mod CONSBUFSIZE.
Definition cell (d : io) (i : Z) : Z := default 0 (cbuf d !! Z.to_nat (i mod CONSBUFSIZE)).

(** The characters waiting, oldest first. *)
Definition queue (d : io) : list Z := cell d <$> zrange (rpos d) (Z.to_nat (queue_len d)).

(** What storing one more character does to the queue: the 512th character
    makes the two positions meet, which reads as empty. *)
Definition push (q : list Z) (c : Z) : list Z :=
  if Z.of_nat (length q) =? CONSBUFSIZE - 1 then [] else q ++ [u8 c].

Lemma length_queue d : Z.of_nat (length (queue d)) = queue_len d.
Proof.
  unfold queue. rewrite length_fmap, length_zrange, Z2Nat.id; [done|].
  apply Z.mod_pos_bound. by vm_compute.
Qed.

Lemma same_input_queue d d' : same_input d d' -> ring_ok d -> ring_ok d' /\ queue d' = queue d.
Proof.
  intros [? ? ? ? Hb Hr Hw] Hok. unfold ring_ok, queue, queue_len, cell. by rewrite Hb, Hr, Hw.
Qed.

Lemma zrange_S_r a n : zrange a (S n) = zrange a n ++ [a + Z.of_nat n].
Proof. replace (S n) with (n + 1)%nat by lia. by rewrite zrange_app. Qed.

Lemma map_zrange_ext {A} (f g : Z -> A) a n :
  (forall i, a <= i < a + Z.of_nat n -> f i = g i) -> f <$> zrange a n = g <$> zrange a n.
Proof. intros H. apply list_fmap_ext. intros i x Hx%list_elem_of_lookup_2%elem_of_zrange. auto. Qed.

Lemma cons_store_ring c d :
  ring_ok d -> ring_ok (cons_store c d) /\ queue (cons_store c d) = push (queue d) c.
Proof.
  intros (Hl & Hr & Hw). unfold CONSBUFSIZE in *.
  assert (wpos (cons_store c d) = (wpos d + 1) mod 512 /\ rpos (cons_store c d) = rpos d /\
          cbuf (cons_store c d) = <[Z.to_nat (wpos d) := u8 c]> (cbuf d)) as (Ew & Er & Eb).
  { unfold cons_store. simpl. destruct (Z.eqb_spec (wpos d + 1) CONSBUFSIZE) as [E|E];
      unfold CONSBUFSIZE in *; split_and!; simpl; try done.
    - by rewrite E.
    - rewrite Z.mod_small; lia. }
  split.
  { unfold ring_ok, CONSBUFSIZE. rewrite Ew, Er, Eb, length_insert.
    pose proof (Z.mod_pos_bound (wpos d + 1) 512 ltac:(lia)). split_and!; done || lia. }
  assert (forall n, (forall i, rpos d <= i < rpos d + Z.of_nat n -> i mod 512 <> wpos d) ->
            cell (cons_store c d) <$> zrange (rpos d) n = cell d <$> zrange (rpos d) n) as Hold.
  { intros n Hn. apply map_zrange_ext. intros i Hi. unfold cell, CONSBUFSIZE. rewrite Eb.
    rewrite list_lookup_insert_ne; [done|]. specialize (Hn i Hi).
    pose proof (Z.mod_pos_bound i 512 ltac:(lia)). lia. }
  unfold push. rewrite length_queue. unfold queue, queue_len, CONSBUFSIZE. rewrite Er, Ew.
  destruct (Z.eqb_spec ((wpos d - rpos d) mod 512) (512 - 1)) as [E|E].
  - by replace (((wpos d + 1) mod 512 - rpos d) mod 512) with 0 by div_mod_lia.
  - replace (Z.to_nat (((wpos d + 1) mod 512 - rpos d) mod 512))
      with (S (Z.to_nat ((wpos d - rpos d) mod 512))) by div_mod_lia.
    rewrite zrange_S_r, fmap_app, Hold by (intros; div_mod_lia). f_equal. simpl. f_equal.
    unfold cell, CONSBUFSIZE. rewrite Eb.
    replace ((rpos d + Z.of_nat (Z.to_nat ((wpos d - rpos d) mod 512))) mod 512) with (wpos d)
      by div_mod_lia.
    rewrite list_lookup_insert_eq; [done|]. rewrite Hl. lia.
Qed.

(** ** Sources of input

    What cons_intr relies on: [pending] are the results the device's [proc]
    will return before it has no more data.  A result of 0 is no character. *)

Class InputSource (proc : io -> Z * io) (pending : io -> list Z) := {
  src_empty d : pending d = [] -> proc d = (-1, d);
  src_next d c l : pending d = c :: l ->
    c <> -1 /\ exists d', proc d = (c, d') /\ pending d' = l /\
      cbuf d' = cbuf d /\ rpos d' = rpos d /\ wpos d' = wpos d;
  src_store c d : pending (cons_store c d) = pending d }.

(** The characters among the results. *)
Definition chars (l : list Z) : list Z := filter (fun c => c <> 0) l.

Lemma ring_ok_ext d d' :
  cbuf d' = cbuf d -> rpos d' = rpos d -> wpos d' = wpos d ->
  (ring_ok d -> ring_ok d') /\ queue d' = queue d.
Proof. intros Hb Hr Hw. unfold ring_ok, queue, queue_len, cell. by rewrite Hb, Hr, Hw. Qed.

Lemma cons_intr_queue `{InputSource proc pending} fuel d :
  ring_ok d -> (length (pending d) < fuel)%nat ->
  let d' := cons_intr fuel proc d in
  ring_ok d' /\ pending d' = [] /\ queue d' = fold_left push (chars (pending d)) (queue d).
Proof.
  revert d. induction fuel as [|fuel IH]; intros d Hok Hf; [lia|]. simpl.
  destruct (pending d) as [|c l] eqn:E.
  - rewrite src_empty by done. simpl. by rewrite E.
  - destruct (src_next d c l E) as (Hc & d' & -> & Hl & Hb & Hr & Hw).
    destruct (ring_ok_ext d d' Hb Hr Hw) as [Hok' Hq]. specialize (Hok' Hok).
    rewrite (proj2 (Z.eqb_neq c (-1)) Hc). unfold chars. rewrite filter_cons.
    simpl in Hf. destruct (Z.eqb_spec c 0) as [->|Hc0].
    + rewrite decide_False by tauto. rewrite <- Hq, <- Hl. apply IH; [done|]. rewrite Hl. lia.
    + rewrite decide_True by done. simpl. destruct (cons_store_ring c d' Hok') as [Hok2 Hq2].
      assert (pending (cons_store c d') = l) as Hl2 by (rewrite (src_store (proc:=proc)); done).
      rewrite <- Hq, <- Hq2, <- Hl2. apply IH; [done|]. rewrite Hl2. lia.
Qed.

Lemma cons_intr_preserves (P : io -> Prop) proc fuel d :
  (forall d, P d -> P (snd (proc d))) -> (forall c d, P d -> P (cons_store c d)) ->
  P d -> P (cons_intr fuel proc d).
Proof.
  intros Hp Hs. revert d. induction fuel as [|fuel IH]; intros d Hd; [done|]. simpl.
  specialize (Hp d Hd). destruct (proc d) as [c d']. simpl in Hp. case_bool; auto.
Qed.

(** The serial port. *)
Definition serial_pending (d : io) : list Z := u8 <$> com1_rx d.

Lemma cons_store_frame c d :
  com1_rx (cons_store c d) = com1_rx d /\ serial_exists (cons_store c d) = serial_exists d /\
  kbd_rx (cons_store c d) = kbd_rx d /\ shift (cons_store c d) = shift d /\
  rpos (cons_store c d) = rpos d.
Proof. unfold cons_store. simpl. by destruct (_ =? _). Qed.

#[export] Instance serial_source : InputSource serial_proc_data serial_pending.
Proof.
  unfold serial_pending. split.
  - intros d Hd. unfold serial_proc_data. by destruct (com1_rx d).
  - intros d c l Hd. unfold serial_proc_data. destruct (com1_rx d) as [|b rx]; simplify_eq/=.
    split; [word_lia|]. eexists. split; [done|]. by split_and!.
  - intros c d. by rewrite (proj1 (cons_store_frame c d)).
Qed.

(** The keyboard: its scan codes decoded one after the other. *)
Fixpoint kbd_decode (sh : Z) (l : list Z) : list Z :=
  match l with
  | [] => []
  | b :: l => let '(c, sh) := kbd_key sh (u8 b) in c :: kbd_decode sh l
  end.
Definition kbd_pending (d : io) : list Z := kbd_decode (shift d) (kbd_rx d).

Lemma keymap_range prefix rest i :
  Forall (fun c => 0 <= c < 256) prefix -> Forall (fun p => 0 <= snd p < 256) rest ->
  0 <= keymap prefix rest i < 256.
Proof.
  intros Hp Hr. unfold keymap. destruct (list_find _ rest) as [[k [x v]]|] eqn:E.
  - apply list_find_Some in E as (Hk & _ & _).
    by apply (Forall_lookup_1 _ _ _ _ Hr Hk).
  - destruct (prefix !! Z.to_nat i) as [c|] eqn:Hc; [|simpl; lia].
    by apply (Forall_lookup_1 _ _ _ _ Hp Hc).
Qed.

Lemma charcode_range k i : 0 <= charcode k i < 256.
Proof.
  unfold charcode, normalmap, shiftmap, ctlmap.
  destruct (_ =? 0); [|destruct (_ =? 1)]; apply keymap_range;
    apply (bool_decide_unpack _); by vm_compute.
Qed.

Lemma kbd_key_range sh data c sh' : kbd_key sh data = (c, sh') -> 0 <= c < 256.
Proof.
  unfold kbd_key. destruct (data =? 0xE0); [intros [= <- <-]; lia|].
  destruct (has data 0x80); [intros [= <- <-]; lia|].
  destruct (if has sh E0ESC then _ else _) as [data' sh2]. intros [= <- <-].
  pose proof (charcode_range (Z.land (Z.lxor (Z.lor sh2 (shiftcode data')) (togglecode data'))
    (Z.lor CTL SHIFT)) data') as Hr.
  destruct (has _ CAPSLOCK); [|done]. case_bool; lia.
Qed.

Lemma kbd_proc_cons d b l :
  kbd_rx d = b :: l ->
  exists d', kbd_proc_data d = (fst (kbd_key (shift d) (u8 b)), d') /\
    kbd_rx d' = l /\ shift d' = snd (kbd_key (shift d) (u8 b)) /\
    same_input (set_shift (snd (kbd_key (shift d) (u8 b))) (set_kbd_rx l d)) d'.
Proof.
  intros Hd. unfold kbd_proc_data. rewrite Hd. destruct (kbd_key (shift d) (u8 b)) as [c sh]. simpl.
  destruct (negb _ && _); eexists; (split; [done|]); [|by split_and!].
  assert (same_input (set_shift sh (set_kbd_rx l d))
    (outb 0x92 0x3 (cons_puts "Rebooting!" (set_shift sh (set_kbd_rx l d))))) as Hsi.
  { apply si_outb, cons_write_same_input. }
  split_and!; [by rewrite (si_kbd_rx _ _ Hsi)|by rewrite (si_shift _ _ Hsi)|done].
Qed.

#[export] Instance kbd_source : InputSource kbd_proc_data kbd_pending.
Proof.
  unfold kbd_pending. split.
  - intros d. unfold kbd_proc_data. destruct (kbd_rx d); [done|]. simpl. by destruct (kbd_key _ _).
  - intros d c l Hd. destruct (kbd_rx d) as [|b rx] eqn:E; [done|]. simpl in Hd.
    destruct (kbd_proc_cons d b rx E) as (d' & -> & Hrx & Hsh & Hsi).
    destruct (kbd_key (shift d) (u8 b)) as [c' sh'] eqn:Ek. simplify_eq/=.
    split; [apply kbd_key_range in Ek; lia|]. exists d'. split; [done|].
    split; [done|]. by destruct Hsi.
  - intros c d. destruct (cons_store_frame c d) as (_ & _ & -> & -> & _). done.
Qed.

(** ** cons_getc *)

(** What is there to read: the queue, after the characters the devices hold. *)
Definition serial_waiting (d : io) : list Z := if serial_exists d then serial_pending d else [].
Definition waiting (d : io) : list Z :=
  fold_left push (chars (serial_waiting d) ++ chars (kbd_pending d)) (queue d).

Lemma queue_empty d : ring_ok d -> (rpos d = wpos d <-> queue d = []).
Proof.
  intros (_ & Hr & Hw). rewrite <- length_zero_iff_nil. unfold CONSBUFSIZE in *.
  pose proof (length_queue d) as Hl. unfold queue_len, CONSBUFSIZE in Hl. div_mod_lia.
Qed.

Lemma queue_pop d : ring_ok d -> rpos d <> wpos d ->
  queue d = cell d (rpos d) :: (cell d <$> zrange (rpos d + 1) (Z.to_nat (queue_len d - 1))).
Proof.
  intros (_ & Hr & Hw) Hne. unfold queue. unfold CONSBUFSIZE in *.
  assert (0 < queue_len d) by (unfold queue_len, CONSBUFSIZE; div_mod_lia).
  by replace (Z.to_nat (queue_len d)) with (S (Z.to_nat (queue_len d - 1))) by lia.
Qed.

Lemma rpos_advance d d' :
  ring_ok d -> rpos d <> wpos d -> cbuf d' = cbuf d -> wpos d' = wpos d ->
  rpos d' = (rpos d + 1) mod CONSBUFSIZE -> ring_ok d' /\ queue d' = tail (queue d).
Proof.
  intros Hok Hne Hb Hw Hr. pose proof Hok as (Hl & Hr0 & Hw0).
  rewrite (queue_pop d Hok Hne). simpl. unfold ring_ok, queue, queue_len, cell.
  rewrite Hb, Hw, Hr. unfold CONSBUFSIZE in *. split.
  { pose proof (Z.mod_pos_bound (rpos d + 1) 512 ltac:(lia)). split_and!; done || lia. }
  replace (Z.to_nat ((wpos d - (rpos d + 1) mod 512) mod 512))
    with (Z.to_nat ((wpos d - rpos d) mod 512 - 1)) by div_mod_lia.
  generalize (Z.to_nat ((wpos d - rpos d) mod 512 - 1)) as n. intros n.
  assert (forall k, (fun i => default 0 (cbuf d !! Z.to_nat (i mod 512))) <$> zrange ((rpos d + 1) mod 512 + k) n
    = (fun i => default 0 (cbuf d !! Z.to_nat (i mod 512))) <$> zrange (rpos d + 1 + k) n) as Hz.
  { induction n as [|n IH]; intros k; [done|]. simpl. f_equal.
    - by rewrite Z.add_mod_idemp_l by lia.
    - specialize (IH (k + 1)). by rewrite !Z.add_assoc in IH. }
  specialize (Hz 0). by rewrite !Z.add_0_r in Hz.
Qed.

Lemma serial_intr_spec d :
  ring_ok d ->
  let d' := serial_intr d in
  ring_ok d' /\ serial_waiting d' = [] /\ kbd_pending d' = kbd_pending d /\
  queue d' = fold_left push (chars (serial_waiting d)) (queue d).
Proof.
  intros Hok. unfold serial_intr, serial_waiting. destruct (serial_exists d) eqn:E; cbv zeta; [|by rewrite E].
  destruct (cons_intr_queue (proc:=serial_proc_data) (S (length (com1_rx d))) d Hok) as (H1 & H2 & H3).
  { unfold serial_pending. rewrite length_fmap. lia. }
  split_and!; [done|rewrite H2; by case (serial_exists _)| |done].
  apply (cons_intr_preserves (fun d' => kbd_pending d' = kbd_pending d)); [| |done].
  - intros d' <-. unfold serial_proc_data. by destruct (com1_rx d').
  - intros c d' <-. apply (src_store (proc:=kbd_proc_data)).
Qed.

Lemma kbd_intr_spec d :
  ring_ok d ->
  let d' := kbd_intr d in
  ring_ok d' /\ serial_waiting d' = serial_waiting d /\ kbd_pending d' = [] /\
  queue d' = fold_left push (chars (kbd_pending d)) (queue d).
Proof.
  intros Hok. unfold kbd_intr. cbv zeta.
  destruct (cons_intr_queue (proc:=kbd_proc_data) (S (length (kbd_rx d))) d Hok) as (H1 & H2 & H3).
  { unfold kbd_pending. generalize (shift d). induction (kbd_rx d) as [|b l IH]; intros sh; simpl; [lia|].
    destruct (kbd_key sh (u8 b)) as [c sh']. simpl. specialize (IH sh'). lia. }
  split_and!; [done| |done|done].
  apply (cons_intr_preserves (fun d' => serial_waiting d' = serial_waiting d)); [| |done].
  - intros d' <-. destruct (kbd_rx d') as [|b l] eqn:E; [unfold kbd_proc_data; by rewrite E|].
    destruct (kbd_proc_cons d' b l E) as (d2 & -> & _ & _ & Hsi). simpl.
    unfold serial_waiting, serial_pending.
    by rewrite (si_serial_exists _ _ Hsi), (si_com1_rx _ _ Hsi).
  - intros c d' <-. unfold serial_waiting, serial_pending.
    by destruct (cons_store_frame c d') as (-> & -> & _).
Qed.

Lemma cons_getc_spec d :
  ring_ok d ->
  let d' := snd (cons_getc d) in
  fst (cons_getc d) = hd 0 (waiting d) /\ ring_ok d' /\ queue d' = tail (waiting d) /\
  serial_waiting d' = [] /\ kbd_pending d' = [].
Proof.
  intros Hok. unfold cons_getc. unfold waiting. rewrite fold_left_app.
  destruct (serial_intr_spec d Hok) as (H1 & H2 & H3 & H4).
  destruct (kbd_intr_spec _ H1) as (K1 & K2 & K3 & K4).
  rewrite <- H4, <- H3, <- K4. rewrite H2 in K2. set (d' := kbd_intr (serial_intr d)) in *. clearbody d'.
  destruct (Z.eqb_spec (rpos d') (wpos d')) as [E|E]; simpl.
  { apply (queue_empty d' K1) in E as Hq. by rewrite Hq. }
  rewrite (queue_pop d' K1 E) at 1. simpl.
  pose proof K1 as (_ & Hr & _).
  split. { unfold cell. by rewrite Z.mod_small. }
  assert (exists d2, (if rpos d' + 1 =? CONSBUFSIZE then set_rpos 0 (set_rpos (rpos d' + 1) d')
    else set_rpos (rpos d' + 1) d') = d2 /\ cbuf d2 = cbuf d' /\ wpos d2 = wpos d' /\
    rpos d2 = (rpos d' + 1) mod CONSBUFSIZE /\ serial_waiting d2 = serial_waiting d' /\
    kbd_pending d2 = kbd_pending d') as (d2 & -> & Hb & Hw & Hr2 & Hs & Hk).
  { destruct (Z.eqb_spec (rpos d' + 1) CONSBUFSIZE) as [E2|E2]; eexists; split_and!; try done; simpl.
    - by rewrite E2.
    - rewrite Z.mod_small; lia. }
  destruct (rpos_advance d' d2 K1 E Hb Hw Hr2). rewrite Hs, Hk. by split_and!.
Qed.

(** With nothing left in the devices, the queue is all there is. *)
Lemma waiting_drained d : serial_waiting d = [] -> kbd_pending d = [] -> waiting d = queue d.
Proof. intros Hs Hk. unfold waiting. by rewrite Hs, Hk. Qed.

(** C25. Console input is a queue: cons_getc first stores what the serial port
    and the keyboard hold, in that order, dropping results of 0, and then
    returns and removes the oldest character, or returns 0 when there is none.
    Afterwards the devices are drained and the ring buffer is well formed.
    [push] says what storing does: a character that would be the 512th waiting
    one empties the queue. *)
Theorem console_input_is_queue d :
  ring_ok d ->
  let d' := snd (cons_getc d) in
  fst (cons_getc d) = hd 0 (waiting d) /\ waiting d' = tail (waiting d) /\
  ring_ok d' /\ serial_waiting d' = [] /\ kbd_pending d' = [] /\
  (forall c, queue (cons_store c d') = push (queue d') c).
Proof.
  intros Hok. destruct (cons_getc_spec d Hok) as (Hc & Hok' & Hq & Hs & Hk). cbv zeta.
  rewrite (waiting_drained (snd (cons_getc d))) by done. split_and!; try done.
  intros c. by apply cons_store_ring.
Qed.

(** ** Typing

    The keyboard as it is printed: the rows of keys of a US keyboard, each with
    the scan code (set 1) of its first key, what the keys read and what they read
    with Shift.  Codes within a row are consecutive. *)
Definition us_rows : list (Z * list Z * list Z) :=
  [ (2, bytes "1234567890-=", bytes "!@#$%^&*()_+");
    (16, bytes "qwertyuiop[]", bytes "QWERTYUIOP{}");
    (30, bytes "asdfghjkl;'`", bytes "ASDFGHJKL:" ++ [34; 126]);
    (43, bytes "\zxcvbnm,./", bytes "|ZXCVBNM<>?");
    (57, bytes " ", bytes " ");
    (28, [10], [10]) ].

Fixpoint index (c : Z) (l : list Z) : option Z :=
  match l with
  | [] => None
  | x :: l => if x =? c then Some 0 else (fun i => i + 1) <$> index c l
  end.

(** The key for [c], and whether Shift is held. *)
Fixpoint key_of (c : Z) (rows : list (Z * list Z * list Z)) : option (Z * bool) :=
  match rows with
  | [] => None
  | (first, plain, shifted) :: rows =>
      match index c plain, index c shifted with
      | Some i, _ => Some (first + i, false)
      | None, Some i => Some (first + i, true)
      | None, None => key_of c rows
      end
  end.

(** A key sends its code when it is pressed and that plus 128 when it is let go;
    42 is the left Shift key. *)
Definition keystrokes (c : Z) : list Z :=
  match key_of c us_rows with
  | Some (k, false) => [k; k + 128]
  | Some (k, true) => [42; k; k + 128; 42 + 128]
  | None => []
  end.
Definition typable (c : Z) : Prop := 32 <= c <= 126 \/ c = 10.

(** What [n] calls of kbd_proc_data return. *)
Fixpoint kbd_poll (n : nat) (d : io) : list Z * io :=
  match n with
  | O => ([], d)
  | S n => let '(c, d) := kbd_proc_data d in let '(cs, d) := kbd_poll n d in (c :: cs, d)
  end.

Fixpoint kbd_shift (sh : Z) (l : list Z) : Z :=
  match l with [] => sh | b :: l => kbd_shift (snd (kbd_key sh (u8 b))) l end.

Lemma kbd_decode_app sh k l : kbd_decode sh (k ++ l) = kbd_decode sh k ++ kbd_decode (kbd_shift sh k) l.
Proof.
  revert sh. induction k as [|b k IH]; intros sh; simpl; [done|].
  destruct (kbd_key sh (u8 b)) as [c sh']. simpl. by rewrite IH.
Qed.

Lemma kbd_shift_app sh k l : kbd_shift sh (k ++ l) = kbd_shift (kbd_shift sh k) l.
Proof. revert sh. induction k; intros sh; simpl; auto. Qed.

Lemma kbd_poll_all n d :
  n = length (kbd_rx d) ->
  exists d', kbd_poll n d = (kbd_decode (shift d) (kbd_rx d), d') /\ kbd_rx d' = [] /\ shift d' = kbd_shift (shift d) (kbd_rx d).
Proof.
  revert d. induction n as [|n IH]; intros d Hn; destruct (kbd_rx d) as [|b l] eqn:E; try done; [by exists d|].
  injection Hn as Hn. destruct (kbd_proc_cons d b l E) as (d1 & H1 & R1 & S1 & _).
  destruct (IH d1) as (d2 & H2 & R2 & S2); [by rewrite R1|]. exists d2. cbn [kbd_poll kbd_decode kbd_shift].
  rewrite H1, H2, R1, S1. rewrite R1, S1 in S2. by destruct (kbd_key (shift d) (u8 b)).
Qed.

Lemma keystroke_decodes c :
  typable c -> kbd_shift 0 (keystrokes c) = 0 /\ chars (kbd_decode 0 (keystrokes c)) = [c].
Proof.
  intros Hc.
  assert (forall c, c ∈ 10 :: zrange 32 95 ->
    kbd_shift 0 (keystrokes c) = 0 /\ chars (kbd_decode 0 (keystrokes c)) = [c]) as H.
  { apply Forall_forall, (bool_decide_unpack _). by vm_compute. }
  apply H. unfold typable in Hc. apply elem_of_cons. rewrite elem_of_zrange. lia.
Qed.

(** C37. The keyboard driver reads a US keyboard: when the controller holds the
    scan codes of typing a text of printable characters and newlines on the keys
    they are printed on, each pressed and released, with Shift held for the
    upper legends, and no modifier was on before, then calling kbd_proc_data
    once per scan code returns exactly the characters of the text, in order,
    besides zeros; no scan code is left, the next call returns -1, and no
    modifier is on. *)
Theorem keyboard_roundtrip d l :
  Forall typable l -> shift d = 0 -> kbd_rx d = (l ≫= keystrokes) ->
  exists cs d', kbd_poll (length (kbd_rx d)) d = (cs, d') /\ chars cs = l /\
    kbd_rx d' = [] /\ fst (kbd_proc_data d') = -1 /\ shift d' = 0.
Proof.
  intros Hl Hs Hr. destruct (kbd_poll_all _ d eq_refl) as (d' & H & R & S).
  exists (kbd_decode 0 (l ≫= keystrokes)), d'. rewrite H, R, S, Hs, Hr. split; [done|].
  assert (chars (kbd_decode 0 (l ≫= keystrokes)) = l /\ kbd_shift 0 (l ≫= keystrokes) = 0) as [-> ->].
  { clear - Hl. induction Hl as [|c l Hc Hl [IH1 IH2]]; [done|]. rewrite bind_cons.
    destruct (keystroke_decodes c Hc) as [Hs Hd].
    rewrite kbd_decode_app, kbd_shift_app, Hs. split; [|done]. unfold chars in *. by rewrite filter_app, Hd, IH1. }
  split_and!; try done. unfold kbd_proc_data. by rewrite R.
Qed.

(** ** Line input *)

(** The editing readline performs on the characters that arrive: [None] while
    no end of line has arrived, else the line and the characters left. *)
Fixpoint edit (line cs : list Z) : option (list Z * list Z) :=
  match cs with
  | [] => None
  | c :: cs =>
      if ((c =? 8) || (c =? 0x7f)) && bool_decide (line <> []) then edit (removelast line) cs
      else if (32 <=? c) && (Z.of_nat (length line) <? BUFLEN - 1) then edit (line ++ [c]) cs
      else if (c =? 10) || (c =? 13) then Some (line, cs)
      else edit line cs
  end.

Definition is_char (c : Z) : Prop := 0 < c < 256.

Lemma same_input_waiting d d' : same_input d d' -> (ring_ok d -> ring_ok d') /\ waiting d' = waiting d.
Proof.
  intros [H1 H2 H3 H4 H5 H6 H7]. destruct (ring_ok_ext d d' H5 H6 H7) as [Hok Hq]. split; [done|].
  unfold waiting, serial_waiting, serial_pending, kbd_pending. by rewrite Hq, H1, H2, H3, H4.
Qed.

Lemma push_chars q c : Forall is_char q -> is_char c -> Forall is_char (push q c).
Proof.
  intros Hq Hc. unfold push. destruct (_ =? _); [constructor|].
  apply Forall_app. split; [done|]. constructor; [|done]. by rewrite u8_id by (unfold is_char in *; lia).
Qed.

Lemma kbd_decode_range sh l c : c ∈ kbd_decode sh l -> 0 <= c < 256.
Proof.
  revert sh. induction l as [|b l IH]; intros sh; simpl; [by intros ?%elem_of_nil|].
  destruct (kbd_key sh (u8 b)) as [c' sh'] eqn:E.
  intros [->|Hc]%elem_of_cons; [by eapply kbd_key_range|eauto].
Qed.

Lemma waiting_chars d : Forall is_char (queue d) -> Forall is_char (waiting d).
Proof.
  intros Hq. unfold waiting.
  assert (Forall is_char (chars (serial_waiting d) ++ chars (kbd_pending d))) as Hl.
  { apply Forall_app. unfold chars, is_char. split; apply Forall_forall; intros c [Hc Hin]%list_elem_of_filter.
    - unfold serial_waiting in Hin. destruct (serial_exists d); [|by apply elem_of_nil in Hin].
      unfold serial_pending in Hin. apply list_elem_of_fmap in Hin as (b & -> & _). word_lia.
    - apply kbd_decode_range in Hin. lia. }
  revert Hl. generalize (chars (serial_waiting d) ++ chars (kbd_pending d)) as l. intros l Hl.
  revert Hq. generalize (queue d) as q. induction Hl as [|c l Hc Hl IH]; intros q Hq; [done|].
  simpl. apply IH, push_chars; done.
Qed.

(** One character arrives, or none is there. *)
Lemma getchar_spec tries d :
  ring_ok d -> Forall is_char (queue d) ->
  match waiting d with
  | c :: cs => exists d', getchar (S tries) d = Some (c, d') /\ is_char c /\
                 ring_ok d' /\ Forall is_char (queue d') /\ waiting d' = cs
  | [] => getchar tries d = None
  end.
Proof.
  revert d. induction tries as [|tries IH]; intros d Hok Hq;
    destruct (cons_getc_spec d Hok) as (Hc & Hok' & Hq' & Hs & Hk);
    pose proof (waiting_chars d Hq) as Hw; destruct (waiting d) as [|c cs] eqn:E; simpl in *; try done.
  - apply Forall_cons in Hw as [Hc0 Hw]. destruct (cons_getc d) as [c' d'] eqn:Eg. simpl in *. subst c'.
    rewrite (proj2 (Z.eqb_neq c 0)) by (unfold is_char in *; lia). exists d'.
    rewrite waiting_drained by done. split_and!; try done. by rewrite Hq'.
  - destruct (cons_getc d) as [c' d'] eqn:Eg. simpl in *. subst c'. simpl.
    specialize (IH d' Hok'). rewrite waiting_drained, Hq' in IH by done. apply IH. constructor.
  - apply Forall_cons in Hw as [Hc0 Hw]. destruct (cons_getc d) as [c' d'] eqn:Eg. simpl in *. subst c'.
    rewrite (proj2 (Z.eqb_neq c 0)) by (unfold is_char in *; lia). exists d'.
    rewrite waiting_drained by done. split_and!; try done. by rewrite Hq'.
Qed.

Definition idle_ok (d : io) : Prop := ring_ok d /\ Forall is_char (queue d).

Lemma put_ok (echo : bool) c d :
  idle_ok d -> idle_ok (if echo then cputchar c d else d) /\
  waiting (if echo then cputchar c d else d) = waiting d.
Proof.
  intros [Hok Hq]. destruct echo; [|done].
  pose proof (cons_putc_aux_same_input 1 c d d (si_refl d)) as Hsi.
  change (cons_putc_aux 1 c d) with (cputchar c d) in Hsi.
  destruct (same_input_waiting _ _ Hsi) as [H1 H2]. split; [split; [auto|]|done].
  by rewrite (proj2 (ring_ok_ext d _ (si_cbuf _ _ Hsi) (si_rpos _ _ Hsi) (si_wpos _ _ Hsi))).
Qed.

Lemma take_removelast (l : list Z) : l <> [] -> take (Z.to_nat (Z.of_nat (length l) - 1)) l = removelast l.
Proof.
  intros Hl. rewrite removelast_firstn_len. f_equal. destruct l; [done|]. simpl. lia.
Qed.

Lemma length_removelast (l : list Z) : l <> [] -> Z.of_nat (length (removelast l)) = Z.of_nat (length l) - 1.
Proof.
  intros Hl. rewrite removelast_firstn_len, length_firstn. destruct l; [done|]. simpl. lia.
Qed.

Lemma getchar_none tries d : ring_ok d -> Forall is_char (queue d) -> waiting d = [] -> getchar tries d = None.
Proof. intros Hok Hq Hw. pose proof (getchar_spec tries d Hok Hq) as Hg. by rewrite Hw in Hg. Qed.

Lemma readline_loop_spec fuel tries echo line d :
  idle_ok d -> (length (waiting d) < fuel)%nat ->
  match edit line (waiting d) with
  | Some (l, rest) =>
      exists d', readline_loop fuel (S tries) echo line (Z.of_nat (length line)) d = Some (l, d') /\
        idle_ok d' /\ waiting d' = rest
  | None => readline_loop fuel (S tries) echo line (Z.of_nat (length line)) d = None
  end.
Proof.
  revert line d. induction fuel as [|fuel IH]; intros line d [Hok Hq] Hf; [lia|].
  pose proof (getchar_spec tries d Hok Hq) as Hg.
  destruct (waiting d) as [|c cs] eqn:Ew; cbn [readline_loop edit].
  { by rewrite getchar_none. }
  destruct Hg as (d' & -> & Hc & Hok' & Hq' & <-). cbn [mbind option_bind].
  simpl in Hf.
  assert (forall line' e, match edit line' (waiting d') with
    | Some (l, rest) => exists d2, readline_loop fuel (S tries) echo line' (Z.of_nat (length line'))
        (if echo then cputchar e d' else d') = Some (l, d2) /\ idle_ok d2 /\ waiting d2 = rest
    | None => readline_loop fuel (S tries) echo line' (Z.of_nat (length line'))
        (if echo then cputchar e d' else d') = None end) as Hput.
  { intros line' e. destruct (put_ok echo e d' (conj Hok' Hq')) as [Hi Hw].
    specialize (IH line' _ Hi). rewrite Hw in IH. apply IH. lia. }
  destruct ((c =? 8) || (c =? 0x7f)) eqn:Eb.
  - destruct (decide (line = [])) as [->|Hl].
    + rewrite bool_decide_eq_false_2 by tauto. simpl.
      destruct (32 <=? c) eqn:E1; simpl.
      * specialize (Hput [c] c). by rewrite u8_id by (unfold is_char in Hc; lia).
      * destruct ((c =? 10) || (c =? 13)) eqn:E2; [|apply (IH [] d'); [done|lia]].
        exfalso. lia.
    + rewrite bool_decide_eq_true_2 by done.
      rewrite (proj2 (Z.ltb_lt 0 _)) by (destruct line; [done|simpl; lia]). simpl.
      rewrite take_removelast, <- length_removelast by done. apply Hput.
  - simpl. destruct ((32 <=? c) && (Z.of_nat (length line) <? BUFLEN - 1)) eqn:E1.
    + rewrite u8_id by (unfold is_char in Hc; lia). specialize (Hput (line ++ [c]) c).
      rewrite length_app in Hput. simpl in Hput. by rewrite Nat2Z.inj_add in Hput.
    + destruct ((c =? 10) || (c =? 13)); [|apply (IH line d'); [done|lia]].
      destruct (put_ok echo 10 d' (conj Hok' Hq')) as [Hi Hw]. by eexists.
Qed.

Lemma edit_bound line cs l rest :
  edit line cs = Some (l, rest) -> Z.of_nat (length line) <= BUFLEN - 1 ->
  Z.of_nat (length l) <= BUFLEN - 1.
Proof.
  revert line. induction cs as [|c cs IH]; intros line; simpl; [done|].
  destruct (_ && bool_decide _) eqn:E1; [|destruct ((32 <=? c) && _) eqn:E2].
  - intros He Hl. eapply IH; [done|]. apply andb_true_iff in E1 as [_ E1%bool_decide_eq_true].
    rewrite length_removelast by done. lia.
  - intros He Hl. eapply IH; [done|]. rewrite length_app. simpl. lia.
  - destruct ((c =? 10) || (c =? 13)); [intros; by simplify_eq|apply IH].
Qed.

(** C38. readline is a line editor over the waiting characters: it echoes, a
    backspace takes back the last character, other control characters but the
    end of line are ignored, as is text beyond 1023 characters.  It returns the
    edited line, which with its terminating NUL fits the 1024-byte buffer, and
    leaves the characters after the end of line for the next reader; without an
    end of line among the waiting characters it does not return. *)
Theorem readline_correct fuel tries prompt d :
  idle_ok d -> (length (waiting d) < fuel)%nat ->
  match edit [] (waiting d) with
  | Some (line, rest) =>
      (exists d', readline fuel (S tries) prompt d = Some (line, d') /\ idle_ok d' /\ waiting d' = rest) /\
      Z.of_nat (length line) + 1 <= BUFLEN
  | None => readline fuel (S tries) prompt d = None
  end.
Proof.
  intros [Hok Hq] Hf. unfold readline.
  pose proof (cons_write_same_input prompt d) as Hsi.
  destruct (same_input_waiting _ _ Hsi) as [Hok' Hw].
  assert (idle_ok (cons_write prompt d)) as Hi.
  { split; [auto|]. by rewrite (proj2 (ring_ok_ext d _ (si_cbuf _ _ Hsi) (si_rpos _ _ Hsi) (si_wpos _ _ Hsi))). }
  pose proof (readline_loop_spec fuel tries true [] _ Hi) as H. rewrite Hw in H. specialize (H Hf).
  destruct (edit [] (waiting d)) as [[line rest]|] eqn:E; [|done]. split; [done|].
  apply edit_bound in E; simpl; unfold BUFLEN in *; lia.
Qed.

(** A console on which [l] has just been typed. *)
Definition typed (l : list Z) : io :=
  {| outs := []; nvram := fun _ => 0; irq_mask := irq_mask_init; didinit := false; com1_present := true;
     com1_rx := []; serial_exists := true; kbd_rx := l ≫= keystrokes; shift := 0; cursor := 0;
     has_cga := true; addr_6845 := CGA_BASE; crt_buf := repeat blank (Z.to_nat CRT_SIZE); crt_pos := 0;
     cbuf := repeat 0 (Z.to_nat CONSBUFSIZE); rpos := 510; wpos := 510; printed := [] |}.

Lemma readline_correct_witness :
  edit [] (waiting (typed (bytes "hix" ++ [10]))) = Some (bytes "hix", []) /\
  (exists d', readline 10 1 (bytes "K> ") (typed (bytes "hix" ++ [10])) = Some (bytes "hix", d') /\
     idle_ok d' /\ waiting d' = []) /\ Z.of_nat (length (bytes "hix")) + 1 <= BUFLEN.
Proof.
  assert (edit [] (waiting (typed (bytes "hix" ++ [10]))) = Some (bytes "hix", [])) as E by (vm_compute; reflexivity).
  split; [exact E|].
  pose proof (readline_correct 10 0 (bytes "K> ") (typed (bytes "hix" ++ [10]))) as H.
  rewrite E in H. apply H.
  - split; [split; [reflexivity|split; split; vm_compute; congruence]|]. vm_compute. constructor.
  - vm_compute. lia.
Defined.

Lemma console_input_is_queue_witness :
  ring_ok (typed [104]) /\ fst (cons_getc (typed [104])) = 104.
Proof.
  assert (ring_ok (typed [104])) as Hok by (split; [reflexivity|split; split; vm_compute; congruence]).
  split; [exact Hok|]. rewrite (proj1 (console_input_is_queue _ Hok)). vm_compute. reflexivity.
Defined.

Lemma keyboard_roundtrip_witness :
  exists d cs d', kbd_rx d = [42; 35; 163; 170; 23; 151; 6; 134] /\
    kbd_poll 8 d = (cs, d') /\ chars cs = bytes "Hi5" /\ shift d' = 0.
Proof.
  set (d := {| outs := []; nvram := fun _ => 0; irq_mask := 0; didinit := false; com1_present := false; com1_rx := [];
    serial_exists := false; kbd_rx := bytes "Hi5" ≫= keystrokes; shift := 0; cursor := 0; has_cga := true;
    addr_6845 := CGA_BASE; crt_buf := []; crt_pos := 0; cbuf := []; rpos := 0; wpos := 0; printed := [] |}).
  assert (Forall typable (bytes "Hi5")) as H by (repeat constructor; vm_compute; intuition congruence).
  destruct (keyboard_roundtrip d (bytes "Hi5") H eq_refl eq_refl) as (cs & d' & E & Hc & _ & _ & Hs).
  exists d, cs, d'. split; [reflexivity|]. split; [exact E|]. exact (conj Hc Hs).
Defined.

(** ** The screen *)

Definition screen_ok (d : io) : Prop :=
  length (crt_buf d) = Z.to_nat CRT_SIZE /\ 0 <= crt_pos d < CRT_SIZE.
(** Between the effect of a character and the scroll. *)
Definition screen_pending (d : io) : Prop :=
  length (crt_buf d) = Z.to_nat CRT_SIZE /\ 0 <= crt_pos d < CRT_SIZE + CRT_COLS.

Ltac screen_unfold := unfold screen_ok, screen_pending, CRT_SIZE, CRT_COLS, CRT_ROWS in *.

Lemma scroll_ok d : screen_pending d -> screen_ok (scroll d).
Proof.
  screen_unfold. intros [Hl Hp]. unfold scroll. unfold CRT_SIZE, CRT_ROWS, CRT_COLS.
  destruct (Z.leb_spec (25 * 80) (crt_pos d)); cbn [crt_buf crt_pos set_crt_pos set_crt_buf]; [|lia].
  rewrite length_app, length_take, length_drop, repeat_length, Hl. split; [done|].
  rewrite u16_id; lia.
Qed.

Lemma crt_put_length i v d : length (crt_buf (crt_put i v d)) = length (crt_buf d).
Proof. apply length_insert. Qed.

Lemma cga_switch_ok rec c ch d :
  (forall d, screen_ok d -> screen_ok (rec 32 d)) -> screen_ok d -> screen_pending (cga_switch rec c ch d).
Proof.
  intros Hrec Hok. assert (screen_ok (Nat.iter 5 (rec 32) d)) as Hit by (simpl; auto 8).
  destruct Hok as [Hl Hp]. unfold cga_switch. screen_unfold.
  destruct (ch =? 8).
  { destruct (Z.ltb_spec 0 (crt_pos d)); cbn zeta; [|lia]. rewrite crt_put_length.
    cbn [crt_buf crt_pos crt_put set_crt_pos set_crt_buf]. rewrite u16_id by lia. lia. }
  destruct (ch =? 10).
  { cbn [crt_buf crt_pos set_crt_pos]. split; [done|]. rewrite (u16_id (crt_pos d + 80)) by lia.
    rewrite u16_id by div_mod_lia. div_mod_lia. }
  destruct (ch =? 13).
  { cbn [crt_buf crt_pos set_crt_pos]. split; [done|]. rewrite u16_id by div_mod_lia. div_mod_lia. }
  destruct (ch =? 9).
  { lia. }
  cbn [crt_buf crt_pos set_crt_pos]. rewrite crt_put_length, u16_id by (cbn; lia).
  cbn [crt_pos crt_put set_crt_buf]. lia.
Qed.

Lemma cons_putc_aux_ok depth c d : screen_ok d -> screen_ok (cons_putc_aux depth c d).
Proof.
  revert c d. induction depth as [|depth IH]; intros c d Hok; cbn [cons_putc_aux]; unfold cga_putc;
  match goal with |- screen_ok (move_cursor ?x) => change (screen_ok x) end;
  apply scroll_ok, cga_switch_ok; auto.
Qed.

(** What [move_cursor] programs into the 6845. *)
Definition cursor_outs (a pos : Z) : list (Z * Z) :=
  [(a + 1, u8 pos); (a, 15); (a + 1, u8 (Z.shiftr pos 8)); (a, 14)].

(** Whatever is printed, control characters, tabs and scrolling included,
    the CGA position stays inside the 25 x 80 screen, so that no cell outside
    it is ever written, the screen keeps its size, and the last thing the
    driver does is to show the cursor at that position. *)
Theorem screen_invariant l d :
  screen_ok d -> l <> [] ->
  let d' := cons_write l d in
  screen_ok d' /\ exists earlier, outs d' = cursor_outs (addr_6845 d') (crt_pos d') ++ earlier.
Proof.
  revert d. induction l as [|c l IH]; intros d Hok Hl; [done|]. clear Hl.
  pose proof (cons_putc_aux_ok 1 c d Hok) as Hok1.
  destruct (decide (l = [])) as [->|Hl]; [|apply (IH (cons_putc c d)); done].
  split; [done|]. by eexists.
Qed.

(** Text on one line: characters that are not control characters. *)
Definition plain (c : Z) : Prop := 32 <= c < 256.

Lemma plain_attr c : plain c ->
  (if Z.land c (Z.lnot 0xFF) =? 0 then Z.lor c 0x0700 else c) = Z.lor c 0x0700 /\ Z.land (Z.lor c 0x0700) 0xff = c.
Proof.
  intros Hc. assert (forall c, c ∈ zrange 32 224 ->
    (if Z.land c (Z.lnot 0xFF) =? 0 then Z.lor c 0x0700 else c) = Z.lor c 0x0700 /\
    Z.land (Z.lor c 0x0700) 0xff = c /\ u16 (Z.lor c 0x0700) = Z.lor c 0x0700) as H.
  { apply Forall_forall, (bool_decide_unpack _). by vm_compute. }
  destruct (H c) as (? & ? & ?); [|done]. apply elem_of_zrange. unfold plain in Hc. lia.
Qed.

Lemma plain_u16 c : plain c -> u16 (Z.lor c 0x0700) = Z.lor c 0x0700.
Proof.
  intros Hc. apply u16_id. change 65536 with (2 ^ 16).
  apply lor_range; unfold plain in *; lia.
Qed.

Lemma cons_putc_plain c d :
  plain c -> 0 <= crt_pos d < CRT_SIZE - 1 ->
  crt_pos (cons_putc c d) = crt_pos d + 1 /\
  crt_buf (cons_putc c d) = <[Z.to_nat (crt_pos d) := Z.lor c 0x0700]> (crt_buf d).
Proof.
  intros Hc Hp. unfold cons_putc. cbn [cons_putc_aux]. unfold cga_putc.
  destruct (plain_attr c Hc) as [-> ->]. unfold cga_switch.
  unfold plain in Hc. rewrite !(proj2 (Z.eqb_neq c _)) by lia. screen_unfold.
  unfold scroll. cbn [crt_pos set_crt_pos crt_put set_crt_buf lpt_putc serial_putc outb set_outs set_printed].
  rewrite (u16_id (crt_pos d + 1)) by lia. unfold CRT_SIZE, CRT_ROWS, CRT_COLS.
  rewrite (proj2 (Z.leb_gt (25 * 80) _)) by lia. split; [done|].
  cbn. by rewrite plain_u16.
Qed.

(** The cells a text occupies. *)
Lemma cons_write_plain l d :
  Forall plain l -> screen_ok d -> crt_pos d + Z.of_nat (length l) < CRT_SIZE ->
  crt_pos (cons_write l d) = crt_pos d + Z.of_nat (length l) /\
  crt_buf (cons_write l d) = take (Z.to_nat (crt_pos d)) (crt_buf d) ++ ((fun c => Z.lor c 0x0700) <$> l) ++
                             drop (Z.to_nat (crt_pos d) + length l) (crt_buf d).
Proof.
  intros Hp. revert d. induction Hp as [|c l Hc Hp IH]; intros d Hok Hlen.
  - simpl. rewrite Nat.add_0_r, take_drop. split; [lia|done].
  - simpl in Hlen. pose proof Hok as [Hlb Hpos].
    destruct (cons_putc_plain c d Hc) as [E1 E2]; [unfold CRT_SIZE in *; lia|].
    destruct (IH (cons_putc c d)) as [E3 E4]; [by apply cons_putc_aux_ok|rewrite E1; lia|].
    change (cons_write (c :: l) d) with (cons_write l (cons_putc c d)).
    rewrite E3, E4, E1, E2. simpl. split; [lia|].
    replace (Z.to_nat (crt_pos d + 1)) with (S (Z.to_nat (crt_pos d))) by lia.
    assert (Z.to_nat (crt_pos d) < length (crt_buf d))%nat by (rewrite Hlb; unfold CRT_SIZE in *; lia).
    rewrite (take_S_r _ _ (Z.lor c 0x0700)) by (apply list_lookup_insert_eq; lia).
    rewrite take_insert_ge, drop_insert_lt by lia. rewrite <- app_assoc. simpl.
    by rewrite Nat.add_succ_r.
Qed.

(** Printing a line of plain text and a newline at the start of a row puts
    the text there, white on black, and moves to the start of the next row;
    on the last row the screen scrolls by one row, the oldest row is lost and
    the new last row is blank. *)
Theorem screen_prints_line l r d :
  Forall plain l -> (length l < Z.to_nat CRT_COLS)%nat -> 0 <= r < CRT_ROWS ->
  length (crt_buf d) = Z.to_nat CRT_SIZE -> crt_pos d = CRT_COLS * r ->
  let d' := cons_write (l ++ [10]) d in
  let filled := take (Z.to_nat (CRT_COLS * r)) (crt_buf d) ++ ((fun c => Z.lor c 0x0700) <$> l) ++
                drop (Z.to_nat (CRT_COLS * r) + length l) (crt_buf d) in
  crt_buf d' = (if r =? CRT_ROWS - 1
                then drop (Z.to_nat CRT_COLS) filled ++ repeat blank (Z.to_nat CRT_COLS) else filled) /\
  crt_pos d' = CRT_COLS * Z.min (r + 1) (CRT_ROWS - 1).
Proof.
  intros Hp Hlen Hr Hb Hpos. cbv zeta. unfold cons_write. rewrite fold_left_app.
  change (fold_left _ l d) with (cons_write l d).
  assert (screen_ok d) as Hok by (screen_unfold; lia).
  destruct (cons_write_plain l d Hp Hok) as [E1 E2]; [screen_unfold; lia|].
  rewrite Hpos in E1, E2. rewrite <- E2.
  assert (length (crt_buf (cons_write l d)) = 2000%nat) as Hl2.
  { rewrite E2, !length_app, length_take, length_fmap, length_drop, Hb. screen_unfold. lia. }
  clear E2. set (d1 := cons_write l d) in *. clearbody d1.
  change (fold_left _ [10] d1) with (cons_putc 10 d1).
  unfold cons_putc. cbn [cons_putc_aux]. unfold cga_putc. change (Z.land 10 (Z.lnot 255) =? 0) with true. cbn iota.
  change (Z.land (Z.lor 10 1792) 255) with 10. unfold cga_switch. change (10 =? 8) with false.
  change (10 =? 10) with true. cbn iota. unfold scroll, CRT_SIZE, CRT_ROWS, CRT_COLS in *.
  cbn [crt_pos set_crt_pos lpt_putc serial_putc outb set_outs set_printed].
  rewrite E1. rewrite (u16_id (80 * r + Z.of_nat (length l) + 80)) by lia.
  replace (80 * r + Z.of_nat (length l) + 80 - (80 * r + Z.of_nat (length l) + 80) mod 80)
    with (80 * (r + 1)) by div_mod_lia.
  rewrite (u16_id (80 * (r + 1))) by lia.
  destruct (Z.eqb_spec r (25 - 1)) as [->|Hr2].
  - change (25 * 80 <=? 80 * (25 - 1 + 1)) with true. cbn iota.
    cbn [crt_pos crt_buf move_cursor outb set_outs set_crt_pos set_crt_buf lpt_putc serial_putc set_printed].
    rewrite take_ge by (rewrite length_drop, Hl2; lia). done.
  - rewrite (proj2 (Z.leb_gt (25 * 80) (80 * (r + 1)))) by lia.
    cbn [crt_pos crt_buf move_cursor outb set_outs set_crt_pos set_crt_buf lpt_putc serial_putc set_printed].
    split; [done|]. rewrite Z.min_l; lia.
Qed.

Lemma screen_invariant_witness :
  screen_ok (typed []) /\ bytes "a" <> [] /\ screen_ok (cons_write (bytes "a") (typed [])).
Proof.
  assert (screen_ok (typed [])) as H by (split; [reflexivity|split; vm_compute; congruence]).
  assert (bytes "a" <> []) as H2 by discriminate.
  split; [exact H|split; [exact H2|]]. exact (proj1 (screen_invariant (bytes "a") _ H H2)).
Defined.

Lemma screen_prints_line_witness :
  crt_pos (cons_write (bytes "ab" ++ [10]) (typed [])) = 80.
Proof.
  refine (proj2 (screen_prints_line (bytes "ab") 0 (typed []) _ _ _ _ _)).
  - repeat constructor; vm_compute; congruence.
  - vm_compute. lia.
  - vm_compute. intuition congruence.
  - reflexivity.
  - reflexivity.
Defined.
