(* ===== verification/KState.v ===== *)
(** The kernel's global state, the structures it holds, and the monad the
    kernel code is written in.

    A kernel function runs on one CPU and either returns a value, leaves the
    kernel (into user mode, or into [hlt]), or crashes: [panic], a failed
    [assert], or an access the C source leaves undefined. *)

From S2P Require Import Prelude Machine Mmu Devices.

(** ** src/inc/error.h, src/inc/env.h, src/inc/trap.h, src/kern/cpu.h *)

Definition E_UNSPECIFIED : Z := 1.
Definition E_BAD_ENV : Z := 2.
Definition E_INVAL : Z := 3.
Definition E_NO_MEM : Z := 4.
Definition E_NO_FREE_ENV : Z := 5.
Definition E_FAULT : Z := 6.
Definition E_NO_SYS : Z := 7.
Definition E_IPC_NOT_RECV : Z := 8.
Definition E_EOF : Z := 9.

Definition NENV : Z := 1024.
Definition ENVX (envid : Z) : Z := Z.land envid (NENV - 1).
Definition NCPU : Z := 8.

(** [struct PageInfo]: a pointer into [pages] is its index, NULL is [None]. *)
Record PageInfo := { pp_link : option Z; pp_ref : Z }.

Inductive EnvStatus := ENV_FREE | ENV_DYING | ENV_RUNNABLE | ENV_RUNNING | ENV_NOT_RUNNABLE.
Inductive EnvType := ENV_TYPE_USER | ENV_TYPE_IDLE | ENV_TYPE_YIELD.
Inductive CpuStatus := CPU_UNUSED | CPU_STARTED | CPU_HALTED.

#[export] Instance EnvStatus_eq_dec : EqDecision EnvStatus.
Proof. solve_decision. Defined.
#[export] Instance EnvType_eq_dec : EqDecision EnvType.
Proof. solve_decision. Defined.
#[export] Instance CpuStatus_eq_dec : EqDecision CpuStatus.
Proof. solve_decision. Defined.

Record PushRegs := {
  reg_edi : Z; reg_esi : Z; reg_ebp : Z; reg_oesp : Z;
  reg_ebx : Z; reg_edx : Z; reg_ecx : Z; reg_eax : Z }.

Record Trapframe := {
  tf_regs : PushRegs; tf_es : Z; tf_ds : Z; tf_trapno : Z; tf_err : Z; tf_eip : Z;
  tf_cs : Z; tf_eflags : Z; tf_esp : Z; tf_ss : Z }.

Record Env := {
  env_tf : Trapframe;
  env_link : option Z;
  env_id : Z;
  env_parent_id : Z;
  env_type : EnvType;
  env_status : EnvStatus;
  env_runs : Z;
  env_cpunum : Z;
  env_pgdir : Z;                (* kernel virtual address, 0 is NULL *)
  env_pgfault_upcall : Z;
  env_ipc_recving : bool;
  env_ipc_dstva : Z;
  env_ipc_value : Z;
  env_ipc_from : Z;
  env_ipc_perm : Z }.

(** The sizes of [struct PageInfo] and [struct Env] in bytes. *)
Definition SIZEOF_PAGEINFO : Z := 8.
Definition SIZEOF_ENV : Z := 124.

(** [cpu_ts] is the task state segment's kernel stack pointer and segment. *)
Record CpuInfo := {
  cpu_id : Z; cpu_status : CpuStatus; cpu_env : option Z; ts_esp0 : Z; ts_ss0 : Z }.

Definition set_cpu_id v (c : CpuInfo) : CpuInfo :=
  {| cpu_id := v; cpu_status := cpu_status c; cpu_env := cpu_env c; ts_esp0 := ts_esp0 c; ts_ss0 := ts_ss0 c |}.
Definition set_cpu_status v (c : CpuInfo) : CpuInfo :=
  {| cpu_id := cpu_id c; cpu_status := v; cpu_env := cpu_env c; ts_esp0 := ts_esp0 c; ts_ss0 := ts_ss0 c |}.
Definition set_cpu_env v (c : CpuInfo) : CpuInfo :=
  {| cpu_id := cpu_id c; cpu_status := cpu_status c; cpu_env := v; ts_esp0 := ts_esp0 c; ts_ss0 := ts_ss0 c |}.
Definition set_cpu_ts esp0 ss0 (c : CpuInfo) : CpuInfo :=
  {| cpu_id := cpu_id c; cpu_status := cpu_status c; cpu_env := cpu_env c; ts_esp0 := esp0; ts_ss0 := ss0 |}.

(** [struct spinlock]; [lk_cpu] is the index of the holding CPU. *)
Record spinlock := { locked : Z; lk_cpu : option Z; pcs : list Z }.

(** ** Global variables *)

Record kstate := {
  kmem : mem;                   (* physical byte pa is at KERNBASE + pa *)
  npages : Z;
  npages_basemem : Z;
  nextfree : Z;                 (* static of boot_alloc, 0 before the first call *)
  kern_pgdir : Z;
  pages : gmap Z PageInfo;
  pages_va : Z;                 (* value of the pointer [pages] *)
  page_free_list : option Z;
  user_mem_check_addr : Z;
  cr3 : Z;
  tlb_flushed : list Z;         (* addresses given to invlpg, newest first *)
  envs : gmap Z Env;
  envs_va : Z;
  env_free_list : option Z;
  cpus : gmap Z CpuInfo;
  cpunum : Z;                   (* the CPU this code runs on *)
  kernel_lock : spinlock;
  idt : Z -> Gatedesc;
  tss_desc : gmap Z Segdesc;    (* the GDT slots trap_init_percpu fills *)
  ts : Z * Z * Z;               (* trap.c's static ts: esp0, ss0, iomb *)
  task_reg : Z;                 (* the selector given to ltr *)
  last_tf : option Z;           (* environment whose env_tf it is; None: NULL or a stack frame *)
  panicstr : bool;              (* a panic has been entered *)
  ncpu : Z;
  bootcpu : option Z;           (* index into cpus *)
  ismp : bool;
  lapicaddr : Z;
  lapic : Z;                    (* 0 until lapic_init maps it *)
  lapic_regs : Z -> Z;          (* the registers behind it *)
  lapic_out : list (Z * Z);     (* writes to them, newest first *)
  kio : io;                     (* the devices *)
  klog : list (string * list Z) (* cprintf calls, newest first *)
}.

Definition set_kmem v (s : kstate) : kstate :=
  {| kmem := v; npages := npages s; npages_basemem := npages_basemem s; nextfree := nextfree s;
     kern_pgdir := kern_pgdir s; pages := pages s; pages_va := pages_va s;
     page_free_list := page_free_list s; user_mem_check_addr := user_mem_check_addr s;
     cr3 := cr3 s; tlb_flushed := tlb_flushed s; envs := envs s; envs_va := envs_va s;
     env_free_list := env_free_list s; cpus := cpus s; cpunum := cpunum s;
     kernel_lock := kernel_lock s; idt := idt s; tss_desc := tss_desc s; ts := ts s; task_reg := task_reg s;
     last_tf := last_tf s; panicstr := panicstr s; ncpu := ncpu s; bootcpu := bootcpu s;
     ismp := ismp s; lapicaddr := lapicaddr s; lapic := lapic s; lapic_regs := lapic_regs s;
     lapic_out := lapic_out s; kio := kio s; klog := klog s |}.
Definition set_npages v (s : kstate) : kstate :=
  {| kmem := kmem s; npages := v; npages_basemem := npages_basemem s; nextfree := nextfree s;
     kern_pgdir := kern_pgdir s; pages := pages s; pages_va := pages_va s;
     page_free_list := page_free_list s; user_mem_check_addr := user_mem_check_addr s;
     cr3 := cr3 s; tlb_flushed := tlb_flushed s; envs := envs s; envs_va := envs_va s;
     env_free_list := env_free_list s; cpus := cpus s; cpunum := cpunum s;
     kernel_lock := kernel_lock s; idt := idt s; tss_desc := tss_desc s; ts := ts s; task_reg := task_reg s;
     last_tf := last_tf s; panicstr := panicstr s; ncpu := ncpu s; bootcpu := bootcpu s;
     ismp := ismp s; lapicaddr := lapicaddr s; lapic := lapic s; lapic_regs := lapic_regs s;
     lapic_out := lapic_out s; kio := kio s; klog := klog s |}.
Definition set_npages_basemem v (s : kstate) : kstate :=
  {| kmem := kmem s; npages := npages s; npages_basemem := v; nextfree := nextfree s;
     kern_pgdir := kern_pgdir s; pages := pages s; pages_va := pages_va s;
     page_free_list := page_free_list s; user_mem_check_addr := user_mem_check_addr s;
     cr3 := cr3 s; tlb_flushed := tlb_flushed s; envs := envs s; envs_va := envs_va s;
     env_free_list := env_free_list s; cpus := cpus s; cpunum := cpunum s;
     kernel_lock := kernel_lock s; idt := idt s; tss_desc := tss_desc s; ts := ts s; task_reg := task_reg s;
     last_tf := last_tf s; panicstr := panicstr s; ncpu := ncpu s; bootcpu := bootcpu s;
     ismp := ismp s; lapicaddr := lapicaddr s; lapic := lapic s; lapic_regs := lapic_regs s;
     lapic_out := lapic_out s; kio := kio s; klog := klog s |}.
Definition set_nextfree v (s : kstate) : kstate :=
  {| kmem := kmem s; npages := npages s; npages_basemem := npages_basemem s; nextfree := v;
     kern_pgdir := kern_pgdir s; pages := pages s; pages_va := pages_va s;
     page_free_list := page_free_list s; user_mem_check_addr := user_mem_check_addr s;
     cr3 := cr3 s; tlb_flushed := tlb_flushed s; envs := envs s; envs_va := envs_va s;
     env_free_list := env_free_list s; cpus := cpus s; cpunum := cpunum s;
     kernel_lock := kernel_lock s; idt := idt s; tss_desc := tss_desc s; ts := ts s; task_reg := task_reg s;
     last_tf := last_tf s; panicstr := panicstr s; ncpu := ncpu s; bootcpu := bootcpu s;
     ismp := ismp s; lapicaddr := lapicaddr s; lapic := lapic s; lapic_regs := lapic_regs s;
     lapic_out := lapic_out s; kio := kio s; klog := klog s |}.
Definition set_kern_pgdir v (s : kstate) : kstate :=
  {| kmem := kmem s; npages := npages s; npages_basemem := npages_basemem s;
     nextfree := nextfree s; kern_pgdir := v; pages := pages s; pages_va := pages_va s;
     page_free_list := page_free_list s; user_mem_check_addr := user_mem_check_addr s;
     cr3 := cr3 s; tlb_flushed := tlb_flushed s; envs := envs s; envs_va := envs_va s;
     env_free_list := env_free_list s; cpus := cpus s; cpunum := cpunum s;
     kernel_lock := kernel_lock s; idt := idt s; tss_desc := tss_desc s; ts := ts s; task_reg := task_reg s;
     last_tf := last_tf s; panicstr := panicstr s; ncpu := ncpu s; bootcpu := bootcpu s;
     ismp := ismp s; lapicaddr := lapicaddr s; lapic := lapic s; lapic_regs := lapic_regs s;
     lapic_out := lapic_out s; kio := kio s; klog := klog s |}.
Definition set_pages v (s : kstate) : kstate :=
  {| kmem := kmem s; npages := npages s; npages_basemem := npages_basemem s;
     nextfree := nextfree s; kern_pgdir := kern_pgdir s; pages := v; pages_va := pages_va s;
     page_free_list := page_free_list s; user_mem_check_addr := user_mem_check_addr s;
     cr3 := cr3 s; tlb_flushed := tlb_flushed s; envs := envs s; envs_va := envs_va s;
     env_free_list := env_free_list s; cpus := cpus s; cpunum := cpunum s;
     kernel_lock := kernel_lock s; idt := idt s; tss_desc := tss_desc s; ts := ts s; task_reg := task_reg s;
     last_tf := last_tf s; panicstr := panicstr s; ncpu := ncpu s; bootcpu := bootcpu s;
     ismp := ismp s; lapicaddr := lapicaddr s; lapic := lapic s; lapic_regs := lapic_regs s;
     lapic_out := lapic_out s; kio := kio s; klog := klog s |}.
Definition set_pages_va v (s : kstate) : kstate :=
  {| kmem := kmem s; npages := npages s; npages_basemem := npages_basemem s;
     nextfree := nextfree s; kern_pgdir := kern_pgdir s; pages := pages s; pages_va := v;
     page_free_list := page_free_list s; user_mem_check_addr := user_mem_check_addr s;
     cr3 := cr3 s; tlb_flushed := tlb_flushed s; envs := envs s; envs_va := envs_va s;
     env_free_list := env_free_list s; cpus := cpus s; cpunum := cpunum s;
     kernel_lock := kernel_lock s; idt := idt s; tss_desc := tss_desc s; ts := ts s; task_reg := task_reg s;
     last_tf := last_tf s; panicstr := panicstr s; ncpu := ncpu s; bootcpu := bootcpu s;
     ismp := ismp s; lapicaddr := lapicaddr s; lapic := lapic s; lapic_regs := lapic_regs s;
     lapic_out := lapic_out s; kio := kio s; klog := klog s |}.
Definition set_page_free_list v (s : kstate) : kstate :=
  {| kmem := kmem s; npages := npages s; npages_basemem := npages_basemem s;
     nextfree := nextfree s; kern_pgdir := kern_pgdir s; pages := pages s; pages_va := pages_va s;
     page_free_list := v; user_mem_check_addr := user_mem_check_addr s; cr3 := cr3 s;
     tlb_flushed := tlb_flushed s; envs := envs s; envs_va := envs_va s;
     env_free_list := env_free_list s; cpus := cpus s; cpunum := cpunum s;
     kernel_lock := kernel_lock s; idt := idt s; tss_desc := tss_desc s; ts := ts s; task_reg := task_reg s;
     last_tf := last_tf s; panicstr := panicstr s; ncpu := ncpu s; bootcpu := bootcpu s;
     ismp := ismp s; lapicaddr := lapicaddr s; lapic := lapic s; lapic_regs := lapic_regs s;
     lapic_out := lapic_out s; kio := kio s; klog := klog s |}.
Definition set_user_mem_check_addr v (s : kstate) : kstate :=
  {| kmem := kmem s; npages := npages s; npages_basemem := npages_basemem s;
     nextfree := nextfree s; kern_pgdir := kern_pgdir s; pages := pages s; pages_va := pages_va s;
     page_free_list := page_free_list s; user_mem_check_addr := v; cr3 := cr3 s;
     tlb_flushed := tlb_flushed s; envs := envs s; envs_va := envs_va s;
     env_free_list := env_free_list s; cpus := cpus s; cpunum := cpunum s;
     kernel_lock := kernel_lock s; idt := idt s; tss_desc := tss_desc s; ts := ts s; task_reg := task_reg s;
     last_tf := last_tf s; panicstr := panicstr s; ncpu := ncpu s; bootcpu := bootcpu s;
     ismp := ismp s; lapicaddr := lapicaddr s; lapic := lapic s; lapic_regs := lapic_regs s;
     lapic_out := lapic_out s; kio := kio s; klog := klog s |}.
Definition set_cr3 v (s : kstate) : kstate :=
  {| kmem := kmem s; npages := npages s; npages_basemem := npages_basemem s;
     nextfree := nextfree s; kern_pgdir := kern_pgdir s; pages := pages s; pages_va := pages_va s;
     page_free_list := page_free_list s; user_mem_check_addr := user_mem_check_addr s; cr3 := v;
     tlb_flushed := tlb_flushed s; envs := envs s; envs_va := envs_va s;
     env_free_list := env_free_list s; cpus := cpus s; cpunum := cpunum s;
     kernel_lock := kernel_lock s; idt := idt s; tss_desc := tss_desc s; ts := ts s; task_reg := task_reg s;
     last_tf := last_tf s; panicstr := panicstr s; ncpu := ncpu s; bootcpu := bootcpu s;
     ismp := ismp s; lapicaddr := lapicaddr s; lapic := lapic s; lapic_regs := lapic_regs s;
     lapic_out := lapic_out s; kio := kio s; klog := klog s |}.
Definition set_tlb_flushed v (s : kstate) : kstate :=
  {| kmem := kmem s; npages := npages s; npages_basemem := npages_basemem s;
     nextfree := nextfree s; kern_pgdir := kern_pgdir s; pages := pages s; pages_va := pages_va s;
     page_free_list := page_free_list s; user_mem_check_addr := user_mem_check_addr s;
     cr3 := cr3 s; tlb_flushed := v; envs := envs s; envs_va := envs_va s;
     env_free_list := env_free_list s; cpus := cpus s; cpunum := cpunum s;
     kernel_lock := kernel_lock s; idt := idt s; tss_desc := tss_desc s; ts := ts s; task_reg := task_reg s;
     last_tf := last_tf s; panicstr := panicstr s; ncpu := ncpu s; bootcpu := bootcpu s;
     ismp := ismp s; lapicaddr := lapicaddr s; lapic := lapic s; lapic_regs := lapic_regs s;
     lapic_out := lapic_out s; kio := kio s; klog := klog s |}.
Definition set_envs v (s : kstate) : kstate :=
  {| kmem := kmem s; npages := npages s; npages_basemem := npages_basemem s;
     nextfree := nextfree s; kern_pgdir := kern_pgdir s; pages := pages s; pages_va := pages_va s;
     page_free_list := page_free_list s; user_mem_check_addr := user_mem_check_addr s;
     cr3 := cr3 s; tlb_flushed := tlb_flushed s; envs := v; envs_va := envs_va s;
     env_free_list := env_free_list s; cpus := cpus s; cpunum := cpunum s;
     kernel_lock := kernel_lock s; idt := idt s; tss_desc := tss_desc s; ts := ts s; task_reg := task_reg s;
     last_tf := last_tf s; panicstr := panicstr s; ncpu := ncpu s; bootcpu := bootcpu s;
     ismp := ismp s; lapicaddr := lapicaddr s; lapic := lapic s; lapic_regs := lapic_regs s;
     lapic_out := lapic_out s; kio := kio s; klog := klog s |}.
Definition set_envs_va v (s : kstate) : kstate :=
  {| kmem := kmem s; npages := npages s; npages_basemem := npages_basemem s;
     nextfree := nextfree s; kern_pgdir := kern_pgdir s; pages := pages s; pages_va := pages_va s;
     page_free_list := page_free_list s; user_mem_check_addr := user_mem_check_addr s;
     cr3 := cr3 s; tlb_flushed := tlb_flushed s; envs := envs s; envs_va := v;
     env_free_list := env_free_list s; cpus := cpus s; cpunum := cpunum s;
     kernel_lock := kernel_lock s; idt := idt s; tss_desc := tss_desc s; ts := ts s; task_reg := task_reg s;
     last_tf := last_tf s; panicstr := panicstr s; ncpu := ncpu s; bootcpu := bootcpu s;
     ismp := ismp s; lapicaddr := lapicaddr s; lapic := lapic s; lapic_regs := lapic_regs s;
     lapic_out := lapic_out s; kio := kio s; klog := klog s |}.
Definition set_env_free_list v (s : kstate) : kstate :=
  {| kmem := kmem s; npages := npages s; npages_basemem := npages_basemem s;
     nextfree := nextfree s; kern_pgdir := kern_pgdir s; pages := pages s; pages_va := pages_va s;
     page_free_list := page_free_list s; user_mem_check_addr := user_mem_check_addr s;
     cr3 := cr3 s; tlb_flushed := tlb_flushed s; envs := envs s; envs_va := envs_va s;
     env_free_list := v; cpus := cpus s; cpunum := cpunum s; kernel_lock := kernel_lock s;
     idt := idt s; tss_desc := tss_desc s; ts := ts s; task_reg := task_reg s; last_tf := last_tf s;
     panicstr := panicstr s; ncpu := ncpu s; bootcpu := bootcpu s; ismp := ismp s;
     lapicaddr := lapicaddr s; lapic := lapic s; lapic_regs := lapic_regs s;
     lapic_out := lapic_out s; kio := kio s; klog := klog s |}.
Definition set_cpus v (s : kstate) : kstate :=
  {| kmem := kmem s; npages := npages s; npages_basemem := npages_basemem s;
     nextfree := nextfree s; kern_pgdir := kern_pgdir s; pages := pages s; pages_va := pages_va s;
     page_free_list := page_free_list s; user_mem_check_addr := user_mem_check_addr s;
     cr3 := cr3 s; tlb_flushed := tlb_flushed s; envs := envs s; envs_va := envs_va s;
     env_free_list := env_free_list s; cpus := v; cpunum := cpunum s; kernel_lock := kernel_lock s;
     idt := idt s; tss_desc := tss_desc s; ts := ts s; task_reg := task_reg s; last_tf := last_tf s;
     panicstr := panicstr s; ncpu := ncpu s; bootcpu := bootcpu s; ismp := ismp s;
     lapicaddr := lapicaddr s; lapic := lapic s; lapic_regs := lapic_regs s;
     lapic_out := lapic_out s; kio := kio s; klog := klog s |}.
Definition set_kernel_lock v (s : kstate) : kstate :=
  {| kmem := kmem s; npages := npages s; npages_basemem := npages_basemem s;
     nextfree := nextfree s; kern_pgdir := kern_pgdir s; pages := pages s; pages_va := pages_va s;
     page_free_list := page_free_list s; user_mem_check_addr := user_mem_check_addr s;
     cr3 := cr3 s; tlb_flushed := tlb_flushed s; envs := envs s; envs_va := envs_va s;
     env_free_list := env_free_list s; cpus := cpus s; cpunum := cpunum s; kernel_lock := v;
     idt := idt s; tss_desc := tss_desc s; ts := ts s; task_reg := task_reg s; last_tf := last_tf s;
     panicstr := panicstr s; ncpu := ncpu s; bootcpu := bootcpu s; ismp := ismp s;
     lapicaddr := lapicaddr s; lapic := lapic s; lapic_regs := lapic_regs s;
     lapic_out := lapic_out s; kio := kio s; klog := klog s |}.
Definition set_idt v (s : kstate) : kstate :=
  {| kmem := kmem s; npages := npages s; npages_basemem := npages_basemem s;
     nextfree := nextfree s; kern_pgdir := kern_pgdir s; pages := pages s; pages_va := pages_va s;
     page_free_list := page_free_list s; user_mem_check_addr := user_mem_check_addr s;
     cr3 := cr3 s; tlb_flushed := tlb_flushed s; envs := envs s; envs_va := envs_va s;
     env_free_list := env_free_list s; cpus := cpus s; cpunum := cpunum s;
     kernel_lock := kernel_lock s; idt := v; tss_desc := tss_desc s; ts := ts s; task_reg := task_reg s;
     last_tf := last_tf s; panicstr := panicstr s; ncpu := ncpu s; bootcpu := bootcpu s;
     ismp := ismp s; lapicaddr := lapicaddr s; lapic := lapic s; lapic_regs := lapic_regs s;
     lapic_out := lapic_out s; kio := kio s; klog := klog s |}.
Definition set_tss_desc v (s : kstate) : kstate :=
  {| kmem := kmem s; npages := npages s; npages_basemem := npages_basemem s;
     nextfree := nextfree s; kern_pgdir := kern_pgdir s; pages := pages s; pages_va := pages_va s;
     page_free_list := page_free_list s; user_mem_check_addr := user_mem_check_addr s;
     cr3 := cr3 s; tlb_flushed := tlb_flushed s; envs := envs s; envs_va := envs_va s;
     env_free_list := env_free_list s; cpus := cpus s; cpunum := cpunum s;
     kernel_lock := kernel_lock s; idt := idt s; tss_desc := v; ts := ts s; task_reg := task_reg s;
     last_tf := last_tf s; panicstr := panicstr s; ncpu := ncpu s; bootcpu := bootcpu s;
     ismp := ismp s; lapicaddr := lapicaddr s; lapic := lapic s; lapic_regs := lapic_regs s;
     lapic_out := lapic_out s; kio := kio s; klog := klog s |}.
Definition set_ts v (s : kstate) : kstate :=
  {| kmem := kmem s; npages := npages s; npages_basemem := npages_basemem s;
     nextfree := nextfree s; kern_pgdir := kern_pgdir s; pages := pages s; pages_va := pages_va s;
     page_free_list := page_free_list s; user_mem_check_addr := user_mem_check_addr s;
     cr3 := cr3 s; tlb_flushed := tlb_flushed s; envs := envs s; envs_va := envs_va s;
     env_free_list := env_free_list s; cpus := cpus s; cpunum := cpunum s;
     kernel_lock := kernel_lock s; idt := idt s; tss_desc := tss_desc s; ts := v; task_reg := task_reg s;
     last_tf := last_tf s; panicstr := panicstr s; ncpu := ncpu s; bootcpu := bootcpu s;
     ismp := ismp s; lapicaddr := lapicaddr s; lapic := lapic s; lapic_regs := lapic_regs s;
     lapic_out := lapic_out s; kio := kio s; klog := klog s |}.
Definition set_task_reg v (s : kstate) : kstate :=
  {| kmem := kmem s; npages := npages s; npages_basemem := npages_basemem s;
     nextfree := nextfree s; kern_pgdir := kern_pgdir s; pages := pages s; pages_va := pages_va s;
     page_free_list := page_free_list s; user_mem_check_addr := user_mem_check_addr s;
     cr3 := cr3 s; tlb_flushed := tlb_flushed s; envs := envs s; envs_va := envs_va s;
     env_free_list := env_free_list s; cpus := cpus s; cpunum := cpunum s;
     kernel_lock := kernel_lock s; idt := idt s; tss_desc := tss_desc s; ts := ts s; task_reg := v;
     last_tf := last_tf s; panicstr := panicstr s; ncpu := ncpu s; bootcpu := bootcpu s;
     ismp := ismp s; lapicaddr := lapicaddr s; lapic := lapic s; lapic_regs := lapic_regs s;
     lapic_out := lapic_out s; kio := kio s; klog := klog s |}.
Definition set_last_tf v (s : kstate) : kstate :=
  {| kmem := kmem s; npages := npages s; npages_basemem := npages_basemem s;
     nextfree := nextfree s; kern_pgdir := kern_pgdir s; pages := pages s; pages_va := pages_va s;
     page_free_list := page_free_list s; user_mem_check_addr := user_mem_check_addr s;
     cr3 := cr3 s; tlb_flushed := tlb_flushed s; envs := envs s; envs_va := envs_va s;
     env_free_list := env_free_list s; cpus := cpus s; cpunum := cpunum s;
     kernel_lock := kernel_lock s; idt := idt s; tss_desc := tss_desc s; ts := ts s; task_reg := task_reg s;
     last_tf := v; panicstr := panicstr s; ncpu := ncpu s; bootcpu := bootcpu s; ismp := ismp s;
     lapicaddr := lapicaddr s; lapic := lapic s; lapic_regs := lapic_regs s;
     lapic_out := lapic_out s; kio := kio s; klog := klog s |}.
Definition set_panicstr v (s : kstate) : kstate :=
  {| kmem := kmem s; npages := npages s; npages_basemem := npages_basemem s;
     nextfree := nextfree s; kern_pgdir := kern_pgdir s; pages := pages s; pages_va := pages_va s;
     page_free_list := page_free_list s; user_mem_check_addr := user_mem_check_addr s;
     cr3 := cr3 s; tlb_flushed := tlb_flushed s; envs := envs s; envs_va := envs_va s;
     env_free_list := env_free_list s; cpus := cpus s; cpunum := cpunum s;
     kernel_lock := kernel_lock s; idt := idt s; tss_desc := tss_desc s; ts := ts s; task_reg := task_reg s;
     last_tf := last_tf s; panicstr := v; ncpu := ncpu s; bootcpu := bootcpu s; ismp := ismp s;
     lapicaddr := lapicaddr s; lapic := lapic s; lapic_regs := lapic_regs s;
     lapic_out := lapic_out s; kio := kio s; klog := klog s |}.
Definition set_ncpu v (s : kstate) : kstate :=
  {| kmem := kmem s; npages := npages s; npages_basemem := npages_basemem s;
     nextfree := nextfree s; kern_pgdir := kern_pgdir s; pages := pages s; pages_va := pages_va s;
     page_free_list := page_free_list s; user_mem_check_addr := user_mem_check_addr s;
     cr3 := cr3 s; tlb_flushed := tlb_flushed s; envs := envs s; envs_va := envs_va s;
     env_free_list := env_free_list s; cpus := cpus s; cpunum := cpunum s;
     kernel_lock := kernel_lock s; idt := idt s; tss_desc := tss_desc s; ts := ts s; task_reg := task_reg s;
     last_tf := last_tf s; panicstr := panicstr s; ncpu := v; bootcpu := bootcpu s; ismp := ismp s;
     lapicaddr := lapicaddr s; lapic := lapic s; lapic_regs := lapic_regs s;
     lapic_out := lapic_out s; kio := kio s; klog := klog s |}.
Definition set_bootcpu v (s : kstate) : kstate :=
  {| kmem := kmem s; npages := npages s; npages_basemem := npages_basemem s;
     nextfree := nextfree s; kern_pgdir := kern_pgdir s; pages := pages s; pages_va := pages_va s;
     page_free_list := page_free_list s; user_mem_check_addr := user_mem_check_addr s;
     cr3 := cr3 s; tlb_flushed := tlb_flushed s; envs := envs s; envs_va := envs_va s;
     env_free_list := env_free_list s; cpus := cpus s; cpunum := cpunum s;
     kernel_lock := kernel_lock s; idt := idt s; tss_desc := tss_desc s; ts := ts s; task_reg := task_reg s;
     last_tf := last_tf s; panicstr := panicstr s; ncpu := ncpu s; bootcpu := v; ismp := ismp s;
     lapicaddr := lapicaddr s; lapic := lapic s; lapic_regs := lapic_regs s;
     lapic_out := lapic_out s; kio := kio s; klog := klog s |}.
Definition set_ismp v (s : kstate) : kstate :=
  {| kmem := kmem s; npages := npages s; npages_basemem := npages_basemem s;
     nextfree := nextfree s; kern_pgdir := kern_pgdir s; pages := pages s; pages_va := pages_va s;
     page_free_list := page_free_list s; user_mem_check_addr := user_mem_check_addr s;
     cr3 := cr3 s; tlb_flushed := tlb_flushed s; envs := envs s; envs_va := envs_va s;
     env_free_list := env_free_list s; cpus := cpus s; cpunum := cpunum s;
     kernel_lock := kernel_lock s; idt := idt s; tss_desc := tss_desc s; ts := ts s; task_reg := task_reg s;
     last_tf := last_tf s; panicstr := panicstr s; ncpu := ncpu s; bootcpu := bootcpu s; ismp := v;
     lapicaddr := lapicaddr s; lapic := lapic s; lapic_regs := lapic_regs s;
     lapic_out := lapic_out s; kio := kio s; klog := klog s |}.
Definition set_lapicaddr v (s : kstate) : kstate :=
  {| kmem := kmem s; npages := npages s; npages_basemem := npages_basemem s;
     nextfree := nextfree s; kern_pgdir := kern_pgdir s; pages := pages s; pages_va := pages_va s;
     page_free_list := page_free_list s; user_mem_check_addr := user_mem_check_addr s;
     cr3 := cr3 s; tlb_flushed := tlb_flushed s; envs := envs s; envs_va := envs_va s;
     env_free_list := env_free_list s; cpus := cpus s; cpunum := cpunum s;
     kernel_lock := kernel_lock s; idt := idt s; tss_desc := tss_desc s; ts := ts s; task_reg := task_reg s;
     last_tf := last_tf s; panicstr := panicstr s; ncpu := ncpu s; bootcpu := bootcpu s;
     ismp := ismp s; lapicaddr := v; lapic := lapic s; lapic_regs := lapic_regs s;
     lapic_out := lapic_out s; kio := kio s; klog := klog s |}.
Definition set_lapic v (s : kstate) : kstate :=
  {| kmem := kmem s; npages := npages s; npages_basemem := npages_basemem s;
     nextfree := nextfree s; kern_pgdir := kern_pgdir s; pages := pages s; pages_va := pages_va s;
     page_free_list := page_free_list s; user_mem_check_addr := user_mem_check_addr s;
     cr3 := cr3 s; tlb_flushed := tlb_flushed s; envs := envs s; envs_va := envs_va s;
     env_free_list := env_free_list s; cpus := cpus s; cpunum := cpunum s;
     kernel_lock := kernel_lock s; idt := idt s; tss_desc := tss_desc s; ts := ts s; task_reg := task_reg s;
     last_tf := last_tf s; panicstr := panicstr s; ncpu := ncpu s; bootcpu := bootcpu s;
     ismp := ismp s; lapicaddr := lapicaddr s; lapic := v; lapic_regs := lapic_regs s;
     lapic_out := lapic_out s; kio := kio s; klog := klog s |}.
Definition set_lapic_regs v (s : kstate) : kstate :=
  {| kmem := kmem s; npages := npages s; npages_basemem := npages_basemem s;
     nextfree := nextfree s; kern_pgdir := kern_pgdir s; pages := pages s; pages_va := pages_va s;
     page_free_list := page_free_list s; user_mem_check_addr := user_mem_check_addr s;
     cr3 := cr3 s; tlb_flushed := tlb_flushed s; envs := envs s; envs_va := envs_va s;
     env_free_list := env_free_list s; cpus := cpus s; cpunum := cpunum s;
     kernel_lock := kernel_lock s; idt := idt s; tss_desc := tss_desc s; ts := ts s; task_reg := task_reg s;
     last_tf := last_tf s; panicstr := panicstr s; ncpu := ncpu s; bootcpu := bootcpu s;
     ismp := ismp s; lapicaddr := lapicaddr s; lapic := lapic s; lapic_regs := v;
     lapic_out := lapic_out s; kio := kio s; klog := klog s |}.
Definition set_lapic_out v (s : kstate) : kstate :=
  {| kmem := kmem s; npages := npages s; npages_basemem := npages_basemem s;
     nextfree := nextfree s; kern_pgdir := kern_pgdir s; pages := pages s; pages_va := pages_va s;
     page_free_list := page_free_list s; user_mem_check_addr := user_mem_check_addr s;
     cr3 := cr3 s; tlb_flushed := tlb_flushed s; envs := envs s; envs_va := envs_va s;
     env_free_list := env_free_list s; cpus := cpus s; cpunum := cpunum s;
     kernel_lock := kernel_lock s; idt := idt s; tss_desc := tss_desc s; ts := ts s; task_reg := task_reg s;
     last_tf := last_tf s; panicstr := panicstr s; ncpu := ncpu s; bootcpu := bootcpu s;
     ismp := ismp s; lapicaddr := lapicaddr s; lapic := lapic s; lapic_regs := lapic_regs s;
     lapic_out := v; kio := kio s; klog := klog s |}.
Definition set_kio v (s : kstate) : kstate :=
  {| kmem := kmem s; npages := npages s; npages_basemem := npages_basemem s;
     nextfree := nextfree s; kern_pgdir := kern_pgdir s; pages := pages s; pages_va := pages_va s;
     page_free_list := page_free_list s; user_mem_check_addr := user_mem_check_addr s;
     cr3 := cr3 s; tlb_flushed := tlb_flushed s; envs := envs s; envs_va := envs_va s;
     env_free_list := env_free_list s; cpus := cpus s; cpunum := cpunum s;
     kernel_lock := kernel_lock s; idt := idt s; tss_desc := tss_desc s; ts := ts s; task_reg := task_reg s;
     last_tf := last_tf s; panicstr := panicstr s; ncpu := ncpu s; bootcpu := bootcpu s;
     ismp := ismp s; lapicaddr := lapicaddr s; lapic := lapic s; lapic_regs := lapic_regs s;
     lapic_out := lapic_out s; kio := v; klog := klog s |}.
Definition set_klog v (s : kstate) : kstate :=
  {| kmem := kmem s; npages := npages s; npages_basemem := npages_basemem s;
     nextfree := nextfree s; kern_pgdir := kern_pgdir s; pages := pages s; pages_va := pages_va s;
     page_free_list := page_free_list s; user_mem_check_addr := user_mem_check_addr s;
     cr3 := cr3 s; tlb_flushed := tlb_flushed s; envs := envs s; envs_va := envs_va s;
     env_free_list := env_free_list s; cpus := cpus s; cpunum := cpunum s;
     kernel_lock := kernel_lock s; idt := idt s; tss_desc := tss_desc s; ts := ts s; task_reg := task_reg s;
     last_tf := last_tf s; panicstr := panicstr s; ncpu := ncpu s; bootcpu := bootcpu s;
     ismp := ismp s; lapicaddr := lapicaddr s; lapic := lapic s; lapic_regs := lapic_regs s;
     lapic_out := lapic_out s; kio := kio s; klog := v |}.

Definition set_env_tf v (e : Env) : Env :=
  {| env_tf := v; env_link := env_link e; env_id := env_id e;
     env_parent_id := env_parent_id e; env_type := env_type e; env_status := env_status e;
     env_runs := env_runs e; env_cpunum := env_cpunum e; env_pgdir := env_pgdir e;
     env_pgfault_upcall := env_pgfault_upcall e; env_ipc_recving := env_ipc_recving e;
     env_ipc_dstva := env_ipc_dstva e; env_ipc_value := env_ipc_value e;
     env_ipc_from := env_ipc_from e; env_ipc_perm := env_ipc_perm e |}.
Definition set_env_link v (e : Env) : Env :=
  {| env_tf := env_tf e; env_link := v; env_id := env_id e;
     env_parent_id := env_parent_id e; env_type := env_type e; env_status := env_status e;
     env_runs := env_runs e; env_cpunum := env_cpunum e; env_pgdir := env_pgdir e;
     env_pgfault_upcall := env_pgfault_upcall e; env_ipc_recving := env_ipc_recving e;
     env_ipc_dstva := env_ipc_dstva e; env_ipc_value := env_ipc_value e;
     env_ipc_from := env_ipc_from e; env_ipc_perm := env_ipc_perm e |}.
Definition set_env_id v (e : Env) : Env :=
  {| env_tf := env_tf e; env_link := env_link e; env_id := v;
     env_parent_id := env_parent_id e; env_type := env_type e; env_status := env_status e;
     env_runs := env_runs e; env_cpunum := env_cpunum e; env_pgdir := env_pgdir e;
     env_pgfault_upcall := env_pgfault_upcall e; env_ipc_recving := env_ipc_recving e;
     env_ipc_dstva := env_ipc_dstva e; env_ipc_value := env_ipc_value e;
     env_ipc_from := env_ipc_from e; env_ipc_perm := env_ipc_perm e |}.
Definition set_env_parent_id v (e : Env) : Env :=
  {| env_tf := env_tf e; env_link := env_link e; env_id := env_id e; env_parent_id := v;
     env_type := env_type e; env_status := env_status e; env_runs := env_runs e;
     env_cpunum := env_cpunum e; env_pgdir := env_pgdir e;
     env_pgfault_upcall := env_pgfault_upcall e; env_ipc_recving := env_ipc_recving e;
     env_ipc_dstva := env_ipc_dstva e; env_ipc_value := env_ipc_value e;
     env_ipc_from := env_ipc_from e; env_ipc_perm := env_ipc_perm e |}.
Definition set_env_type v (e : Env) : Env :=
  {| env_tf := env_tf e; env_link := env_link e; env_id := env_id e;
     env_parent_id := env_parent_id e; env_type := v; env_status := env_status e;
     env_runs := env_runs e; env_cpunum := env_cpunum e; env_pgdir := env_pgdir e;
     env_pgfault_upcall := env_pgfault_upcall e; env_ipc_recving := env_ipc_recving e;
     env_ipc_dstva := env_ipc_dstva e; env_ipc_value := env_ipc_value e;
     env_ipc_from := env_ipc_from e; env_ipc_perm := env_ipc_perm e |}.
Definition set_env_status v (e : Env) : Env :=
  {| env_tf := env_tf e; env_link := env_link e; env_id := env_id e;
     env_parent_id := env_parent_id e; env_type := env_type e; env_status := v;
     env_runs := env_runs e; env_cpunum := env_cpunum e; env_pgdir := env_pgdir e;
     env_pgfault_upcall := env_pgfault_upcall e; env_ipc_recving := env_ipc_recving e;
     env_ipc_dstva := env_ipc_dstva e; env_ipc_value := env_ipc_value e;
     env_ipc_from := env_ipc_from e; env_ipc_perm := env_ipc_perm e |}.
Definition set_env_runs v (e : Env) : Env :=
  {| env_tf := env_tf e; env_link := env_link e; env_id := env_id e;
     env_parent_id := env_parent_id e; env_type := env_type e; env_status := env_status e;
     env_runs := v; env_cpunum := env_cpunum e; env_pgdir := env_pgdir e;
     env_pgfault_upcall := env_pgfault_upcall e; env_ipc_recving := env_ipc_recving e;
     env_ipc_dstva := env_ipc_dstva e; env_ipc_value := env_ipc_value e;
     env_ipc_from := env_ipc_from e; env_ipc_perm := env_ipc_perm e |}.
Definition set_env_cpunum v (e : Env) : Env :=
  {| env_tf := env_tf e; env_link := env_link e; env_id := env_id e;
     env_parent_id := env_parent_id e; env_type := env_type e; env_status := env_status e;
     env_runs := env_runs e; env_cpunum := v; env_pgdir := env_pgdir e;
     env_pgfault_upcall := env_pgfault_upcall e; env_ipc_recving := env_ipc_recving e;
     env_ipc_dstva := env_ipc_dstva e; env_ipc_value := env_ipc_value e;
     env_ipc_from := env_ipc_from e; env_ipc_perm := env_ipc_perm e |}.
Definition set_env_pgdir v (e : Env) : Env :=
  {| env_tf := env_tf e; env_link := env_link e; env_id := env_id e;
     env_parent_id := env_parent_id e; env_type := env_type e; env_status := env_status e;
     env_runs := env_runs e; env_cpunum := env_cpunum e; env_pgdir := v;
     env_pgfault_upcall := env_pgfault_upcall e; env_ipc_recving := env_ipc_recving e;
     env_ipc_dstva := env_ipc_dstva e; env_ipc_value := env_ipc_value e;
     env_ipc_from := env_ipc_from e; env_ipc_perm := env_ipc_perm e |}.
Definition set_env_pgfault_upcall v (e : Env) : Env :=
  {| env_tf := env_tf e; env_link := env_link e; env_id := env_id e;
     env_parent_id := env_parent_id e; env_type := env_type e; env_status := env_status e;
     env_runs := env_runs e; env_cpunum := env_cpunum e; env_pgdir := env_pgdir e;
     env_pgfault_upcall := v; env_ipc_recving := env_ipc_recving e;
     env_ipc_dstva := env_ipc_dstva e; env_ipc_value := env_ipc_value e;
     env_ipc_from := env_ipc_from e; env_ipc_perm := env_ipc_perm e |}.
Definition set_env_ipc_recving v (e : Env) : Env :=
  {| env_tf := env_tf e; env_link := env_link e; env_id := env_id e;
     env_parent_id := env_parent_id e; env_type := env_type e; env_status := env_status e;
     env_runs := env_runs e; env_cpunum := env_cpunum e; env_pgdir := env_pgdir e;
     env_pgfault_upcall := env_pgfault_upcall e; env_ipc_recving := v;
     env_ipc_dstva := env_ipc_dstva e; env_ipc_value := env_ipc_value e;
     env_ipc_from := env_ipc_from e; env_ipc_perm := env_ipc_perm e |}.

(** ** The monad *)

Inductive crash :=
| Panic (msg : string)
| AssertFailed
| NullDeref
| WildAccess (addr : Z)
| OutOfFuel.                    (* of the model only: theorems exclude it *)

Inductive leave :=
| ToUser (e : Z)                (* iret into environment [e] *)
| Halted                        (* sti; hlt, until the next interrupt *)
| MonitorLoop.                  (* while (1) monitor(NULL) *)

Inductive outcome (A : Type) :=
| Ret (a : A) (s : kstate)
| Leave (l : leave) (s : kstate)
| Crash (c : crash) (s : kstate).
Arguments Ret {A} _ _.
Arguments Leave {A} _ _.
Arguments Crash {A} _ _.

Definition M (A : Type) : Type := kstate -> outcome A.

Definition kret {A} (a : A) : M A := fun s => Ret a s.
Definition kbind {A B} (c : M A) (k : A -> M B) : M B :=
  fun s => match c s with
           | Ret a s' => k a s'
           | Leave l s' => Leave l s'
           | Crash e s' => Crash e s'
           end.
Definition get {A} (f : kstate -> A) : M A := fun s => Ret (f s) s.
Definition modify (f : kstate -> kstate) : M unit := fun s => Ret tt (f s).
Definition crash_with {A} (c : crash) : M A := fun s => Crash c s.
Definition leave_with {A} (l : leave) : M A := fun s => Leave l s.
Definition panic {A} (msg : string) : M A := crash_with (Panic msg).

Declare Scope kern_scope.
Delimit Scope kern_scope with kern.
Notation "'let!' p ':=' c 'in' k" := (kbind c (fun p => k))
  (at level 100, p pattern, c at level 100, k at level 200) : kern_scope.
Notation "c ;; k" := (kbind c (fun _ => k))
  (at level 100, k at level 200, right associativity) : kern_scope.
#[global] Open Scope kern_scope.

Definition assert (b : bool) : M unit := if b then kret tt else crash_with AssertFailed.

Definition cprintf (fmt : string) (args : list Z) : M unit :=
  modify (fun s => set_klog ((fmt, args) :: klog s) s).

(** ** Memory access through the kernel's direct mapping

    The kernel dereferences pointers it obtained from [KADDR]; an address
    below [KERNBASE] (NULL in particular) is not one of them. *)

Definition kptr (p : Z) : M unit :=
  if p =? 0 then crash_with NullDeref
  else if p <? KERNBASE then crash_with (WildAccess p) else kret tt.

Definition read32 (p : Z) : M Z := kptr p ;; get (fun s => ld32 (kmem s) p).
Definition write32 (p v : Z) : M unit :=
  kptr p ;; modify (fun s => set_kmem (st32 (kmem s) p v) s).

(** ** Table access: an index outside an array is a wild access *)

Definition get_page (i : Z) : M PageInfo :=
  fun s => match pages s !! i with Some p => Ret p s | None => Crash (WildAccess i) s end.
Definition put_page (i : Z) (p : PageInfo) : M unit :=
  modify (fun s => set_pages (<[i := p]> (pages s)) s).
Definition get_env (i : Z) : M Env :=
  fun s => match envs s !! i with Some e => Ret e s | None => Crash (WildAccess i) s end.
Definition put_env (i : Z) (e : Env) : M unit :=
  modify (fun s => set_envs (<[i := e]> (envs s)) s).
Definition upd_env (i : Z) (f : Env -> Env) : M unit :=
  let! e := get_env i in put_env i (f e).

(** [thiscpu] and [curenv]. *)
Definition thiscpu : M CpuInfo :=
  fun s => match cpus s !! cpunum s with Some c => Ret c s | None => Crash (WildAccess (cpunum s)) s end.
Definition set_thiscpu (c : CpuInfo) : M unit :=
  modify (fun s => set_cpus (<[cpunum s := c]> (cpus s)) s).
Definition curenv : M (option Z) := let! c := thiscpu in kret (cpu_env c).
Definition set_curenv (e : option Z) : M unit :=
  let! c := thiscpu in
  set_thiscpu (set_cpu_env e c).

(** Dereference of a possibly NULL environment pointer. *)
Definition deref (p : option Z) : M Z :=
  match p with Some i => kret i | None => crash_with NullDeref end.

(** ** Equations *)

Lemma bind_ret {A B} (a : A) (k : A -> M B) s : kbind (kret a) k s = k a s.
Proof. done. Qed.

Lemma bind_Ret {A B} (c : M A) (k : A -> M B) s a s' : c s = Ret a s' -> kbind c k s = k a s'.
Proof. unfold kbind. by intros ->. Qed.

Lemma bind_get {A B} (f : kstate -> A) (k : A -> M B) s : kbind (get f) k s = k (f s) s.
Proof. done. Qed.

Lemma bind_Crash {A B} (c : M A) (k : A -> M B) s e s' : c s = Crash e s' -> kbind c k s = Crash e s'.
Proof. unfold kbind. by intros ->. Qed.

Lemma bind_Leave {A B} (c : M A) (k : A -> M B) s l s' : c s = Leave l s' -> kbind c k s = Leave l s'.
Proof. unfold kbind. by intros ->. Qed.

Lemma bind_assoc {A B C} (c : M A) (k : A -> M B) (h : B -> M C) s :
  kbind (kbind c k) h s = kbind c (fun a => kbind (k a) h) s.
Proof. unfold kbind. by destruct (c s). Qed.

Lemma bind_inv {A B} (c : M A) (k : A -> M B) s b s' :
  kbind c k s = Ret b s' -> exists a s1, c s = Ret a s1 /\ k a s1 = Ret b s'.
Proof. unfold kbind. destruct (c s); intros; simplify_eq. eauto. Qed.

Lemma kptr_ok p s : KERNBASE <= p -> kptr p s = Ret tt s.
Proof.
  unfold kptr, KERNBASE. intros.
  destruct (Z.eqb_spec p 0); [lia|]. destruct (Z.ltb_spec p 0xF0000000); [lia|done].
Qed.

Lemma read32_eq p s : KERNBASE <= p -> read32 p s = Ret (ld32 (kmem s) p) s.
Proof. intros. unfold read32. by rewrite (bind_Ret _ _ _ _ _ (kptr_ok p s H)). Qed.

Lemma write32_eq p v s : KERNBASE <= p -> write32 p v s = Ret tt (set_kmem (st32 (kmem s) p v) s).
Proof. intros. unfold write32. by rewrite (bind_Ret _ _ _ _ _ (kptr_ok p s H)). Qed.

Lemma get_page_eq i p s : pages s !! i = Some p -> get_page i s = Ret p s.
Proof. unfold get_page. by intros ->. Qed.

Lemma get_env_eq i e s : envs s !! i = Some e -> get_env i s = Ret e s.
Proof. unfold get_env. by intros ->. Qed.

Lemma thiscpu_eq c s : cpus s !! cpunum s = Some c -> thiscpu s = Ret c s.
Proof. unfold thiscpu. by intros ->. Qed.

Lemma curenv_eq c s : cpus s !! cpunum s = Some c -> curenv s = Ret (cpu_env c) s.
Proof. intros H. unfold curenv. by rewrite (bind_Ret _ _ _ _ _ (thiscpu_eq _ _ H)). Qed.

(** Run one bind whose first action has a known outcome. *)
Ltac mstep H := rewrite (bind_Ret _ _ _ _ _ H).
Ltac mstep_by L := erewrite (bind_Ret _ _ _ _ _) by (eapply L; eauto).
(** Run the primitive actions at the head of the program. *)
Ltac mrun := repeat first
  [ rewrite bind_assoc
  | progress change (kbind (get ?f) ?k ?s) with (k (f s) s); cbn beta
  | progress change (kbind (modify ?f) ?k ?s) with (k tt (f s)); cbn beta
  | progress change (kbind (kret ?a) ?k ?s) with (k a s); cbn beta ].

(** ** A concrete state, for evaluating the definitions *)

Definition regs0 : PushRegs := Build_PushRegs 0 0 0 0 0 0 0 0.
Definition tf0 : Trapframe := Build_Trapframe regs0 0 0 0 0 0 0 0 0 0.
Definition env0 : Env :=
  {| env_tf := tf0; env_link := None; env_id := 0; env_parent_id := 0; env_type := ENV_TYPE_USER;
     env_status := ENV_FREE; env_runs := 0; env_cpunum := 0; env_pgdir := 0;
     env_pgfault_upcall := 0; env_ipc_recving := false; env_ipc_dstva := 0; env_ipc_value := 0;
     env_ipc_from := 0; env_ipc_perm := 0 |}.
Definition cpu0 : CpuInfo :=
  {| cpu_id := 0; cpu_status := CPU_STARTED; cpu_env := None; ts_esp0 := 0; ts_ss0 := 0 |}.
Definition io0 : io :=
  {| outs := []; nvram := fun _ => 0; irq_mask := irq_mask_init; didinit := false; com1_present := true;
     com1_rx := []; serial_exists := true; kbd_rx := []; shift := 0; cursor := 0; has_cga := true;
     addr_6845 := CGA_BASE; crt_buf := repeat 0 2000; crt_pos := 0; cbuf := repeat 0 512; rpos := 0;
     wpos := 0; printed := [] |}.
Definition gate0 : Gatedesc := SETGATE false 0 0 0.

(** [n] zeroed pages of memory, [NENV] free environments not yet linked, one
    CPU, boot_alloc's mark at [mark] (a physical address above 1 MB). *)
Definition sample (n : nat) (mark : Z) : kstate :=
  {| kmem := fun _ => 0; npages := Z.of_nat n; npages_basemem := 160; nextfree := KERNBASE + mark;
     kern_pgdir := 0; pages := table {| pp_link := None; pp_ref := 0 |} n; pages_va := 0;
     page_free_list := None; user_mem_check_addr := 0; cr3 := 0; tlb_flushed := [];
     envs := table env0 1024; envs_va := 0; env_free_list := None; cpus := table cpu0 1;
     cpunum := 0; kernel_lock := {| locked := 0; lk_cpu := None; pcs := [] |};
     idt := fun _ => gate0; tss_desc := ∅; ts := (0, 0, 0); task_reg := 0; last_tf := None; panicstr := false;
     ncpu := 1; bootcpu := Some 0; ismp := false; lapicaddr := 0; lapic := 0; lapic_regs := fun _ => 0;
     lapic_out := []; kio := io0; klog := [] |}.
