(* ===== verification/Printfmt.v ===== *)
(** src/lib/printfmt.c: the formatting engine behind cprintf, snprintf and
    panic, generic in the output function [putch]; with its clients
    src/kern/printf.c and src/lib/printf.c.

    The format and the string arguments live in a byte memory [m].  The
    variable arguments are the list of 32-bit words the i386 calling
    convention pushes; reading past its end is the outcome [BadArg]. *)

From S2P Require Import Prelude Machine Cstring.
From S2P Require KState.
From Stdlib Require Import Ascii.

Inductive fres (A : Type) :=
| Done (a : A)
| NoFuel
| BadArg.
Arguments Done {A} _.
Arguments NoFuel {A}.
Arguments BadArg {A}.

Definition fbind {A B} (r : fres A) (k : A -> fres B) : fres B :=
  match r with Done a => k a | NoFuel => NoFuel | BadArg => BadArg end.

Declare Scope fmt_scope.
Delimit Scope fmt_scope with fmt.
Notation "'let*' p ':=' c 'in' k" := (fbind c (fun p => k))
  (at level 100, p pattern, c at level 100, k at level 200) : fmt_scope.
Definition of_option {A} (o : option A) : fres A :=
  match o with Some a => Done a | None => NoFuel end.

Definition chr (a : ascii) : Z := Z.of_N (N_of_ascii a).
Arguments chr _%_char_scope.

(** src/inc/stdio.h, src/inc/error.h *)
Definition COLOR_RED : Z := 0x04.
Definition COLOR_GRN : Z := 0x02.
Definition MAXERROR : Z := 10.

Definition va_int (ap : list Z) : fres (Z * list Z) :=
  match ap with [] => BadArg | w :: ap => Done (s32 w, ap) end.
Definition va_word (ap : list Z) : fres (Z * list Z) :=
  match ap with [] => BadArg | w :: ap => Done (u32 w, ap) end.
Definition va_dword (ap : list Z) : fres (Z * list Z) :=
  match ap with lo :: hi :: ap => Done (u32 lo + 2 ^ 32 * u32 hi, ap) | _ => BadArg end.

(** The result is an unsigned 64-bit pattern. *)
Definition getuint (ap : list Z) (lflag : Z) : fres (Z * list Z) :=
  if 2 <=? lflag then va_dword ap
  else if negb (lflag =? 0) then va_word ap else va_word ap.
Definition getint (ap : list Z) (lflag : Z) : fres (Z * list Z) :=
  if 2 <=? lflag then fbind (va_dword ap) (fun '(d, ap) => Done (s64 d, ap))
  else if negb (lflag =? 0) then va_int ap else va_int ap.

Definition digit_char (d : Z) : Z := if d <? 10 then 48 + d else 87 + d.

Record flags := { padc : Z; width : Z; precision : Z; lflag : Z; altflag : bool }.
Definition set_padc f (v : Z) := {| padc := v; width := width f; precision := precision f; lflag := lflag f; altflag := altflag f |}.
Definition set_width f (v : Z) := {| padc := padc f; width := v; precision := precision f; lflag := lflag f; altflag := altflag f |}.
Definition set_precision f (v : Z) := {| padc := padc f; width := width f; precision := v; lflag := lflag f; altflag := altflag f |}.
Definition set_lflag f (v : Z) := {| padc := padc f; width := width f; precision := precision f; lflag := v; altflag := altflag f |}.
Definition set_altflag f (v : bool) := {| padc := padc f; width := width f; precision := precision f; lflag := lflag f; altflag := v |}.
Definition flags0 : flags :=
  {| padc := chr " "; width := -1; precision := -1; lflag := 0; altflag := false |}.

(** [process_precision]: the number just read is the width, unless a width
    (or a '.') was seen before. *)
Definition process_precision (f : flags) : flags :=
  if width f <? 0 then set_precision (set_width f (precision f)) (-1) else f.

Section Printfmt.
Context {S : Type} (putch : Z -> S -> S) (m : mem).
(** The linker's placement of the string literals the routine passes on, and
    the pointer table [error_string] (0 is NULL). *)
Context (lit_error_d lit_s lit_null : Z) (error_string : Z -> Z).
#[local] Open Scope fmt_scope.

Fixpoint putn (n : nat) (c : Z) (st : S) : S :=
  match n with O => st | Datatypes.S n => putn n c (putch c st) end.

(** [width] is decremented before each test: [width - 1] pad characters. *)
Fixpoint printnum (fuel : nat) (num base width padc : Z) (st : S) : fres S :=
  match fuel with
  | O => NoFuel
  | Datatypes.S f =>
      let* st := (if base <=? num then printnum f (num / base) base (width - 1) padc st
             else Done (putn (Z.to_nat (width - 1)) padc st)) in
      Done (putch (digit_char (num mod base)) st)
  end.

Fixpoint width_digits (fuel : nat) (fmt precision ch : Z) : fres (Z * Z) :=
  match fuel with
  | O => NoFuel
  | Datatypes.S f =>
      let precision := s32 (precision * 10 + ch - chr "0") in
      let ch := s8 (m fmt) in
      if (ch <? chr "0") || (chr "9" <? ch) then Done (fmt, precision)
      else width_digits f (fmt + 1) precision ch
  end.

(** The body of [case 's']: characters until NUL or until the precision is
    used up; returns what is left of [width]. *)
Fixpoint print_chars (fuel : nat) (p precision width : Z) (alt : bool) (st : S) : fres (Z * S) :=
  match fuel with
  | O => NoFuel
  | Datatypes.S f =>
      let ch := s8 (m p) in
      if negb (ch =? 0) && ((precision <? 0) || (0 <=? precision - 1)) then
        let st := putch (if alt && ((ch <? chr " ") || (chr "~" <? ch)) then chr "?" else ch) st in
        print_chars f (p + 1) (if precision <? 0 then precision else precision - 1)
          (width - 1) alt st
      else Done (width, st)
  end.

(** [for (fmt--; fmt[-1] != '%'; fmt--);] *)
Fixpoint rewind (fuel : nat) (fmt : Z) : fres Z :=
  match fuel with
  | O => NoFuel
  | Datatypes.S f => if m (fmt - 1) =? chr "%" then Done fmt else rewind f (fmt - 1)
  end.

Definition number (num base : Z) (fl : flags) (st : S) : fres S :=
  printnum 65 num base (width fl) (padc fl) st.

(** One directive from the label [reswitch]; [printfmt] is the recursive
    call of [case 'e'], [fuel] bounds the characters of the directive and
    [rfuel] the inner loops.  Returns the format position, the remaining
    arguments, [Color] and the output state. *)
Fixpoint directive (printfmt : Z -> list Z -> S -> fres S)
    (rfuel fuel : nat) (fmt : Z) (ap : list Z) (fl : flags) (Color : Z) (st : S)
    : fres (Z * list Z * Z * S) :=
  match fuel with
  | O => NoFuel
  | Datatypes.S f =>
    let reswitch := directive printfmt rfuel f in
    let ch := m fmt in
    let fmt := fmt + 1 in
    if ch =? chr "-" then reswitch fmt ap (set_padc fl (chr "-")) Color st
    else if ch =? chr "0" then reswitch fmt ap (set_padc fl (chr "0")) Color st
    else if (chr "1" <=? ch) && (ch <=? chr "9") then
      let* (fmt, p) := width_digits rfuel fmt 0 ch in
      reswitch fmt ap (process_precision (set_precision fl p)) Color st
    else if ch =? chr "*" then
      let* (p, ap) := va_int ap in
      reswitch fmt ap (process_precision (set_precision fl p)) Color st
    else if ch =? chr "." then
      reswitch fmt ap (if width fl <? 0 then set_width fl 0 else fl) Color st
    else if ch =? chr "#" then reswitch fmt ap (set_altflag fl true) Color st
    else if ch =? chr "l" then reswitch fmt ap (set_lflag fl (lflag fl + 1)) Color st
    else if ch =? chr "c" then
      let* (c, ap) := va_int ap in
      Done (fmt, ap, 0, putch (s32 (c + Color)) st)
    else if ch =? chr "C" then
      let* (c, ap) := va_int ap in
      let Color := if c =? COLOR_RED then Z.shiftl COLOR_RED 8
                   else if c =? COLOR_GRN then Z.shiftl COLOR_GRN 8 else 0 in
      reswitch fmt ap fl Color st
    else if ch =? chr "e" then
      let* (err, ap) := va_int ap in
      let err := if err <? 0 then s32 (- err) else err in
      (* [error_string[err]] with a negative index reads outside the table;
         only err = INT_MIN gets there. *)
      if err <? 0 then BadArg else
      let* st := (if (MAXERROR <=? err) || (error_string err =? 0)
             then printfmt lit_error_d [err] st
             else printfmt lit_s [error_string err] st) in
      Done (fmt, ap, Color, st)
    else if ch =? chr "s" then
      let* (p, ap) := va_word ap in
      let p := if p =? 0 then lit_null else p in
      let* (w, st) :=
        if (0 <? width fl) && negb (padc fl =? chr "-") then
          let* n := of_option (strnlen rfuel m p (precision fl)) in
          let w := width fl - n in
          Done (Z.min w 0, putn (Z.to_nat w) (padc fl) st)
        else Done (width fl, st) in
      let* (w, st) := print_chars rfuel p (precision fl) w (altflag fl) st in
      Done (fmt, ap, Color, putn (Z.to_nat w) (chr " ") st)
    else if ch =? chr "d" then
      let* (num, ap) := getint ap (lflag fl) in
      let '(num, st) := if num <? 0 then (u64 (- num), putch (chr "-") st) else (num, st) in
      let* st := number num 10 fl st in
      Done (fmt, ap, Color, st)
    else if ch =? chr "u" then
      let* (num, ap) := getuint ap (lflag fl) in
      let* st := number num 10 fl st in Done (fmt, ap, Color, st)
    else if ch =? chr "o" then
      let* (num, ap) := getuint ap (lflag fl) in
      let* st := number num 8 fl st in Done (fmt, ap, Color, st)
    else if ch =? chr "p" then
      let* (num, ap) := va_word ap in
      let* st := number num 16 fl (putch (chr "x") (putch (chr "0") st)) in
      Done (fmt, ap, Color, st)
    else if ch =? chr "x" then
      let* (num, ap) := getuint ap (lflag fl) in
      let* st := number num 16 fl st in Done (fmt, ap, Color, st)
    else if ch =? chr "%" then Done (fmt, ap, Color, putch ch st)
    else
      let* fmt' := rewind rfuel (fmt - 1) in
      Done (fmt', ap, Color, putch (chr "%") st)
  end.

(** The literal text up to a directive ([Some] position after '%') or to the
    terminating NUL ([None]). *)
Fixpoint literal (fuel : nat) (fmt : Z) (st : S) : fres (option Z * S) :=
  match fuel with
  | O => NoFuel
  | Datatypes.S f =>
      let ch := m fmt in
      if ch =? chr "%" then Done (Some (fmt + 1), st)
      else if ch =? 0 then Done (None, st)
      else literal f (fmt + 1) (putch ch st)
  end.

Fixpoint vprintfmt_loop (fuel : nat) (fmt : Z) (ap : list Z) (Color : Z) (st : S) : fres S :=
  match fuel with
  | O => NoFuel
  | Datatypes.S f =>
      let* (next, st) := literal fuel fmt st in
      match next with
      | None => Done st
      | Some fmt =>
          let* (fmt, ap, Color, st) :=
            directive (fun fmt ap st => vprintfmt_loop f fmt ap 0 st) fuel fuel fmt ap flags0 Color st in
          vprintfmt_loop f fmt ap Color st
      end
  end.

Definition vprintfmt (fuel : nat) (fmt : Z) (ap : list Z) (st : S) : fres S :=
  vprintfmt_loop fuel fmt ap 0 st.
End Printfmt.

(** ** vsnprintf *)

(** [obuf] is the memory that holds the destination buffer; the format and
    its arguments are read from the other memory [m]. *)
Record sprintbuf := { obuf : mem; buf : Z; ebuf : Z; cnt : Z }.

Definition sprintputch (ch : Z) (b : sprintbuf) : sprintbuf :=
  let b := {| obuf := obuf b; buf := buf b; ebuf := ebuf b; cnt := cnt b + 1 |} in
  if buf b <? ebuf b
  then {| obuf := st8 (obuf b) (buf b) ch; buf := buf b + 1; ebuf := ebuf b; cnt := cnt b |}
  else b.


Section Clients.
Context (m : mem) (lit_error_d lit_s lit_null : Z) (error_string : Z -> Z).

(** Returns the buffer memory and the result. *)
Definition vsnprintf (fuel : nat) (o : mem) (b n fmt : Z) (ap : list Z) : fres (mem * Z) :=
  let sb := {| obuf := o; buf := b; ebuf := b + n - 1; cnt := 0 |} in
  if (b =? 0) || (n <? 1) then Done (o, - KState.E_INVAL)
  else fbind (vprintfmt sprintputch m lit_error_d lit_s lit_null error_string fuel fmt ap sb)
         (fun sb => Done (st8 (obuf sb) (buf sb) 0, cnt sb)).

Definition snprintf := vsnprintf.

(** ** src/kern/printf.c

    [*cnt++] increments the local pointer, not the counter it points to. *)
Section KernPrintf.
Context {C : Type} (cputchar : Z -> C -> C).

Definition kern_putch (ch : Z) (s : C * Z) : C * Z :=
  let '(con, count) := s in (cputchar ch con, count).

Definition kern_vcprintf (fuel : nat) (fmt : Z) (ap : list Z) (con : C) : fres (C * Z) :=
  vprintfmt kern_putch m lit_error_d lit_s lit_null error_string fuel fmt ap (con, 0).

Definition kern_cprintf := kern_vcprintf.
End KernPrintf.

(** ** src/lib/printf.c *)

Record printbuf := { idx : Z; pcnt : Z; pbuf : Z -> Z }.

(** The characters of [pbuf[0 .. n-1]], as passed to sys_cputs. *)
Definition pbuf_take (p : Z -> Z) (n : Z) : list Z := p <$> zrange 0 (Z.to_nat n).

(** The state is the buffer and the list of sys_cputs calls made, oldest
    first. *)
Definition user_putch (ch : Z) (s : printbuf * list (list Z)) : printbuf * list (list Z) :=
  let '(b, calls) := s in
  let b := {| idx := idx b + 1; pcnt := pcnt b;
              pbuf := fun i => if i =? idx b then u8 ch else pbuf b i |} in
  let '(b, calls) :=
    if idx b =? 256 - 1
    then ({| idx := 0; pcnt := pcnt b; pbuf := pbuf b |}, calls ++ [pbuf_take (pbuf b) (idx b)])
    else (b, calls) in
  ({| idx := idx b; pcnt := pcnt b + 1; pbuf := pbuf b |}, calls).

(** [junk] is the uninitialised content of the buffer on the stack. *)
Definition user_vcprintf (fuel : nat) (junk : Z -> Z) (fmt : Z) (ap : list Z) : fres (list (list Z) * Z) :=
  fbind (vprintfmt user_putch m lit_error_d lit_s lit_null error_string fuel fmt ap
           ({| idx := 0; pcnt := 0; pbuf := junk |}, []))
    (fun '(b, calls) => Done (calls ++ [pbuf_take (pbuf b) (idx b)], pcnt b)).
End Clients.

(** * Properties *)

(** ** The output function is a parameter

    Two runs that differ only in [putch] stay related as long as each character
    keeps the states related.  Each client of the engine is compared in this way
    with [text], which collects the characters. *)

Definition fres_rel {A B} (Q : A -> B -> Prop) (r1 : fres A) (r2 : fres B) : Prop :=
  match r1, r2 with
  | Done a, Done b => Q a b
  | NoFuel, NoFuel | BadArg, BadArg => True
  | _, _ => False
  end.

Lemma fbind_rel {A B A' B'} (Q : A -> B -> Prop) (Q' : A' -> B' -> Prop) r1 r2 k1 k2 :
  fres_rel Q r1 r2 -> (forall a b, Q a b -> fres_rel Q' (k1 a) (k2 b)) ->
  fres_rel Q' (fbind r1 k1) (fbind r2 k2).
Proof. intros Hr Hk. destruct r1, r2; simpl in *; try done. auto. Qed.

(** A step both runs make alike: it does not involve the state. *)
Lemma fbind_same {A A' B'} (Q' : A' -> B' -> Prop) (r : fres A) k1 k2 :
  (forall a, fres_rel Q' (k1 a) (k2 a)) -> fres_rel Q' (fbind r k1) (fbind r k2).
Proof. intros Hk. apply (fbind_rel eq); [by destruct r|]. by intros a ? <-. Qed.

Section Simulation.
Context {S1 S2 : Type} (putch1 : Z -> S1 -> S1) (putch2 : Z -> S2 -> S2) (R : S1 -> S2 -> Prop).
Context (putch_rel : forall c s1 s2, R s1 s2 -> R (putch1 c s1) (putch2 c s2)).
Context (m : mem) (lit_error_d lit_s lit_null : Z) (error_string : Z -> Z).

Definition with_state {A} (x : A * S1) (y : A * S2) : Prop := fst x = fst y /\ R (snd x) (snd y).

Lemma putn_rel n c s1 s2 : R s1 s2 -> R (putn putch1 n c s1) (putn putch2 n c s2).
Proof. revert s1 s2. induction n as [|n IH]; intros s1 s2 H; simpl; auto. Qed.

Lemma printnum_rel fuel num base width padc s1 s2 :
  R s1 s2 ->
  fres_rel R (printnum putch1 fuel num base width padc s1) (printnum putch2 fuel num base width padc s2).
Proof.
  revert num width s1 s2. induction fuel as [|fuel IH]; intros num width s1 s2 H; [done|].
  cbn [printnum]. apply (fbind_rel R).
  - destruct (base <=? num); [by apply IH|]. simpl. by apply putn_rel.
  - intros a b Hab. simpl. by apply putch_rel.
Qed.

Lemma print_chars_rel fuel p prec w alt s1 s2 :
  R s1 s2 ->
  fres_rel with_state (print_chars putch1 m fuel p prec w alt s1) (print_chars putch2 m fuel p prec w alt s2).
Proof.
  revert p prec w s1 s2. induction fuel as [|fuel IH]; intros p prec w s1 s2 H; [done|].
  cbn [print_chars]. destruct (negb _ && _); [|by split]. apply IH, putch_rel, H.
Qed.

Lemma literal_rel fuel fmt s1 s2 :
  R s1 s2 -> fres_rel with_state (literal putch1 m fuel fmt s1) (literal putch2 m fuel fmt s2).
Proof.
  revert fmt s1 s2. induction fuel as [|fuel IH]; intros fmt s1 s2 H; [done|]. cbn [literal].
  destruct (_ =? _); [by split|]. destruct (_ =? _); [by split|]. apply IH, putch_rel, H.
Qed.

Ltac sim :=
  repeat match goal with
  | |- fres_rel _ (fbind (va_int _) _) _ => apply fbind_same; intros [? ?]
  | |- fres_rel _ (fbind (va_word _) _) _ => apply fbind_same; intros [? ?]
  | |- fres_rel _ (fbind (getuint _ _) _) _ => apply fbind_same; intros [? ?]
  | |- fres_rel _ (fbind (getint _ _) _) _ => apply fbind_same; intros [? ?]
  | |- fres_rel _ (fbind (width_digits _ _ _ _ _) _) _ => apply fbind_same; intros [? ?]
  | |- fres_rel _ (fbind (rewind _ _ _) _) _ => apply fbind_same; intros ?
  end.

Lemma directive_rel pf1 pf2 rfuel fuel fmt ap fl Color s1 s2 :
  (forall fmt ap s1 s2, R s1 s2 -> fres_rel R (pf1 fmt ap s1) (pf2 fmt ap s2)) ->
  R s1 s2 ->
  fres_rel with_state
    (directive putch1 m lit_error_d lit_s lit_null error_string pf1 rfuel fuel fmt ap fl Color s1)
    (directive putch2 m lit_error_d lit_s lit_null error_string pf2 rfuel fuel fmt ap fl Color s2).
Proof.
  intros Hpf. revert fmt ap fl Color s1 s2.
  induction fuel as [|fuel IH]; intros fmt ap fl Color s1 s2 H; [done|].
  assert (forall num base fl t1 t2 (A : Type) (x : A), R t1 t2 ->
    fres_rel with_state
      (fbind (number putch1 num base fl t1) (fun s => Done (x, s)))
      (fbind (number putch2 num base fl t2) (fun s => Done (x, s)))) as Hnum.
  { intros. apply (fbind_rel R); [by apply printnum_rel|]. intros. by split. }
  cbn [directive].
  repeat match goal with
  | |- fres_rel _ (if ?b then _ else _) _ => destruct b; sim; try (by auto)
  end; sim.
  - split; [done|]. simpl. auto.
  - apply (fbind_rel R).
    + destruct (_ || _); by apply Hpf.
    + intros. by split.
  - apply (fbind_rel with_state).
    + destruct (_ && _); [|by split]. apply fbind_same. intros n. split; [done|]. by apply putn_rel.
    + intros [w1 t1] [w2 t2] [Hw Ht]. simpl in Hw, Ht. subst w2. apply (fbind_rel with_state).
      * by apply print_chars_rel.
      * intros [v1 u1] [v2 u2] [Hv Hu]. simpl in Hv, Hu. subst v2. split; [done|]. by apply putn_rel.
  - destruct (_ <? 0); auto.
  - split; [done|]. simpl. auto.
  - split; [done|]. simpl. auto.
Qed.
End Simulation.

(** ** The text of a format *)

Section Text.
Context (m : mem) (lit_error_d lit_s lit_null : Z) (error_string : Z -> Z).

Lemma vprintfmt_loop_rel {S1 S2} (putch1 : Z -> S1 -> S1) (putch2 : Z -> S2 -> S2) (R : S1 -> S2 -> Prop)
    fuel fmt ap Color s1 s2 :
  (forall c s1 s2, R s1 s2 -> R (putch1 c s1) (putch2 c s2)) -> R s1 s2 ->
  fres_rel R (vprintfmt_loop putch1 m lit_error_d lit_s lit_null error_string fuel fmt ap Color s1)
             (vprintfmt_loop putch2 m lit_error_d lit_s lit_null error_string fuel fmt ap Color s2).
Proof.
  intros Hp. revert fmt ap Color s1 s2.
  induction fuel as [|fuel IH]; intros fmt ap Color s1 s2 H; [done|].
  cbn [vprintfmt_loop]. apply (fbind_rel (with_state R)); [by apply literal_rel|].
  intros [next1 t1] [next2 t2] [Hn Ht]. simpl in Hn, Ht. subst next2.
  destruct next1 as [fmt'|]; [|done].
  apply (fbind_rel (with_state R)).
  - apply directive_rel; auto.
  - intros [[[fmt1 ap1] C1] u1] [[[fmt2 ap2] C2] u2] [Hx Hu]. simpl in Hx, Hu. simplify_eq. auto.
Qed.

(** The characters a format produces, in order. *)
Definition text (fuel : nat) (fmt : Z) (ap : list Z) : fres (list Z) :=
  vprintfmt (fun c l => l ++ [c]) m lit_error_d lit_s lit_null error_string fuel fmt ap [].

Lemma vprintfmt_text {S} (putch : Z -> S -> S) fuel fmt ap s :
  vprintfmt putch m lit_error_d lit_s lit_null error_string fuel fmt ap s =
  fbind (text fuel fmt ap) (fun l => Done (fold_left (fun s c => putch c s) l s)).
Proof.
  pose proof (vprintfmt_loop_rel putch (fun c l => l ++ [c])
    (fun s' l => s' = fold_left (fun s c => putch c s) l s) fuel fmt ap 0 s [] ) as H.
  unfold text, vprintfmt in *.
  destruct (vprintfmt_loop putch _ _ _ _ _ _ _ _ _ _), (vprintfmt_loop _ _ _ _ _ _ _ _ _ _ _);
    simpl in *; try done; try (by destruct H; [intros c ? l ->; by rewrite fold_left_app|]).
  rewrite H; [done| |done]. intros c ? l' ->. by rewrite fold_left_app.
Qed.
End Text.

(** ** vsnprintf *)

Lemma place_app m a l1 l2 : place m a (l1 ++ l2) = place (place m a l1) (a + Z.of_nat (length l1)) l2.
Proof.
  revert m a. induction l1 as [|c l1 IH]; intros m a; simpl; [by rewrite Z.add_0_r|].
  rewrite IH. f_equal. lia.
Qed.

Lemma place_out m a l x : x < a \/ a + Z.of_nat (length l) <= x -> place m a l x = m x.
Proof.
  revert m a. induction l as [|c l IH]; intros m a Hx; simpl in *; [done|].
  rewrite IH by lia. unfold st8. rewrite (proj2 (Z.eqb_neq x a)) by lia. done.
Qed.

Lemma place_in m a l (i : nat) c : l !! i = Some c -> place m a l (a + Z.of_nat i) = u8 c.
Proof.
  revert m a i. induction l as [|d l IH]; intros m a i Hi; simpl in *; [done|].
  destruct i as [|i]; simplify_eq/=.
  - rewrite Z.add_0_r, place_out by lia. unfold st8. by rewrite Z.eqb_refl.
  - replace (a + Z.of_nat (S i)) with (a + 1 + Z.of_nat i) by lia. by apply IH.
Qed.

(** The buffer after the characters [l]: the first [n - 1] of them. *)
Lemma sprintputch_fold o b n l :
  1 <= n ->
  fold_left (fun s c => sprintputch c s) l {| obuf := o; buf := b; ebuf := b + n - 1; cnt := 0 |} =
  {| obuf := place o b (take (Z.to_nat (n - 1)) l);
     buf := b + Z.min (Z.of_nat (length l)) (n - 1); ebuf := b + n - 1; cnt := Z.of_nat (length l) |}.
Proof.
  intros Hn. induction l as [|c l IH] using rev_ind; simpl.
  - rewrite take_nil, Z.min_l, Z.add_0_r by lia. done.
  - rewrite fold_left_app, IH, length_app. simpl. unfold sprintputch. simpl.
    rewrite Nat2Z.inj_add, take_app. simpl.
    destruct (Z.ltb_spec (b + Z.min (Z.of_nat (length l)) (n - 1)) (b + n - 1)) as [Hlt|Hge].
    + rewrite (take_ge l) by lia. rewrite (take_ge [c]) by (simpl; lia). rewrite place_app. simpl.
      f_equal; [f_equal|]; lia.
    + replace (Z.to_nat (n - 1) - length l)%nat with 0%nat by lia. rewrite take_0, app_nil_r.
      f_equal; lia.
Qed.

Section Clients_correct.
Context (m : mem) (lit_error_d lit_s lit_null : Z) (error_string : Z -> Z).
Abbreviation text := (text m lit_error_d lit_s lit_null error_string).
Abbreviation vsnprintf := (vsnprintf m lit_error_d lit_s lit_null error_string).

(** C24. vsnprintf stores the first [n - 1] characters of the formatted text and
    a NUL, and returns the length of the whole text; a NULL buffer or a size
    below one is refused without a store. *)
Theorem vsnprintf_correct fuel o b n fmt ap :
  vsnprintf fuel o b n fmt ap =
  if (b =? 0) || (n <? 1) then Done (o, - KState.E_INVAL)
  else fbind (text fuel fmt ap) (fun l =>
         Done (place o b (take (Z.to_nat (n - 1)) l ++ [0]), Z.of_nat (length l))).
Proof.
  unfold vsnprintf. destruct ((b =? 0) || (n <? 1)) eqn:E; [done|].
  rewrite vprintfmt_text. destruct (text fuel fmt ap) as [l| |]; simpl; [|done..].
  rewrite sprintputch_fold by lia. simpl. rewrite place_app. simpl.
  rewrite length_take. do 4 f_equal. lia.
Qed.

(** vsnprintf never stores outside the [n] bytes it is given, and leaves a
    terminated string there, whatever the format, the arguments and the size. *)
Theorem vsnprintf_bounds fuel o b n fmt ap o' r :
  vsnprintf fuel o b n fmt ap = Done (o', r) ->
  (forall x, x < b \/ b + n <= x -> o' x = o x) /\
  (b <> 0 -> 1 <= n -> exists k, 0 <= k < n /\ o' (b + k) = 0).
Proof.
  unfold vsnprintf. destruct ((b =? 0) || (n <? 1)) eqn:E.
  { intros [= <- _]. split; [done|]. lia. }
  rewrite vprintfmt_text. destruct (text fuel fmt ap) as [l| |]; simpl; [|done..].
  rewrite sprintputch_fold by lia. simpl. intros [= <- _]. split.
  - intros x Hx. unfold st8. rewrite (proj2 (Z.eqb_neq x _)) by lia.
    apply place_out. rewrite length_take. lia.
  - intros _ _. exists (Z.min (Z.of_nat (length l)) (n - 1)). split; [lia|].
    unfold st8. by rewrite Z.eqb_refl.
Qed.

(** The kernel's cprintf gives the console exactly the characters of the
    text, in order, and always returns 0: [*cnt++] advances the pointer
    instead of counting, so a caller that tests the result sees no output. *)
Theorem kern_cprintf_correct {C} (cputchar : Z -> C -> C) fuel fmt ap con :
  kern_cprintf m lit_error_d lit_s lit_null error_string cputchar fuel fmt ap con =
  fbind (text fuel fmt ap) (fun l => Done (fold_left (fun s c => cputchar c s) l con, 0)).
Proof.
  unfold kern_cprintf, kern_vcprintf. rewrite vprintfmt_text.
  destruct (text fuel fmt ap) as [l| |]; simpl; [|done..].
  assert (forall n, fold_left (fun s c => kern_putch cputchar c s) l (con, n) =
                    (fold_left (fun s c => cputchar c s) l con, n)) as ->; [|done].
  revert con. induction l as [|c l IH]; intros con n; simpl; [done|]. apply IH.
Qed.

(** The 256-byte buffer after some characters: full blocks of 255 went to
    sys_cputs, the rest is in the buffer. *)
Definition printbuf_inv (l : list Z) (s : printbuf * list (list Z)) : Prop :=
  let '(b, calls) := s in
  0 <= idx b < 255 /\ pcnt b = Z.of_nat (length l) /\
  Forall (fun c => length c = 255%nat) calls /\ concat calls ++ pbuf_take (pbuf b) (idx b) = u8 <$> l.

Lemma pbuf_take_snoc p n c : 0 <= n ->
  pbuf_take (fun i => if i =? n then c else p i) (n + 1) = pbuf_take p n ++ [c].
Proof.
  intros Hn. unfold pbuf_take. replace (Z.to_nat (n + 1)) with (Z.to_nat n + 1)%nat by lia.
  rewrite zrange_app, fmap_app. f_equal.
  - apply list_fmap_ext. intros i x Hx%list_elem_of_lookup_2%elem_of_zrange.
    rewrite (proj2 (Z.eqb_neq x n)) by lia. done.
  - simpl. rewrite Z.add_0_l, Z2Nat.id, Z.eqb_refl by lia. done.
Qed.

Lemma user_putch_inv l c s : printbuf_inv l s -> printbuf_inv (l ++ [c]) (user_putch c s).
Proof.
  destruct s as [b calls]. intros (Hi & Hc & Hf & Ht). unfold user_putch, printbuf_inv. cbn [idx pcnt pbuf].
  rewrite length_app, Nat2Z.inj_add, fmap_app. simpl.
  destruct (Z.eqb_spec (idx b + 1) (256 - 1)) as [E|E]; cbn [idx pcnt pbuf]; split_and!; try lia; try done.
  - apply Forall_app. split; [done|]. constructor; [|done]. unfold pbuf_take.
    rewrite length_fmap, length_zrange. lia.
  - rewrite pbuf_take_snoc by lia. rewrite concat_app. simpl. unfold pbuf_take at 2. simpl.
    rewrite !app_nil_r, app_assoc. by rewrite Ht.
  - rewrite pbuf_take_snoc by lia. by rewrite app_assoc, Ht.
Qed.

(** User-level printing passes the text to sys_cputs unchanged, in blocks
    of 255 characters and a last shorter one, so the 256-byte buffer is never
    overrun, and returns the number of characters. *)
Theorem user_vcprintf_correct fuel junk fmt ap :
  match text fuel fmt ap with
  | Done l => exists calls last,
      user_vcprintf m lit_error_d lit_s lit_null error_string fuel junk fmt ap =
        Done (calls ++ [last], Z.of_nat (length l)) /\
      concat (calls ++ [last]) = u8 <$> l /\
      Forall (fun c => length c = 255%nat) calls /\ (length last < 255)%nat
  | _ => forall r, user_vcprintf m lit_error_d lit_s lit_null error_string fuel junk fmt ap <> Done r
  end.
Proof.
  unfold user_vcprintf. rewrite vprintfmt_text.
  destruct (text fuel fmt ap) as [l| |]; simpl; [|done..].
  assert (printbuf_inv l (fold_left (fun s c => user_putch c s) l
    ({| idx := 0; pcnt := 0; pbuf := junk |}, []))) as H.
  { induction l as [|c l IH] using rev_ind; [by split_and!|].
    rewrite fold_left_app. by apply user_putch_inv. }
  destruct (fold_left _ l _) as [b calls]. destruct H as (Hi & Hc & Hf & Ht).
  exists calls, (pbuf_take (pbuf b) (idx b)). split_and!; try done.
  - by rewrite Hc.
  - rewrite concat_app. simpl. by rewrite app_nil_r.
  - unfold pbuf_take. rewrite length_fmap, length_zrange. lia.
Qed.
End Clients_correct.

(** ** Numbers *)

(** The value a list of digits denotes, read from the value [v] so far. *)
Definition digits_value (base v : Z) (ds : list Z) : Z := fold_left (fun v d => v * base + d) ds v.

(** [ds] are the digits of [num]: in range and without leading zeros. *)
Record digits_of (base num : Z) (ds : list Z) : Prop := {
  do_nonempty : ds <> [];
  do_range : Forall (fun d => 0 <= d < base) ds;
  do_value : digits_value base 0 ds = num;
  do_lead : num <> 0 -> hd 0 ds <> 0 }.

Lemma digits_value_snoc base v ds d : digits_value base v (ds ++ [d]) = digits_value base v ds * base + d.
Proof. unfold digits_value. by rewrite fold_left_app. Qed.

Lemma putn_fold {S} (putch : Z -> S -> S) n c s :
  putn putch n c s = fold_left (fun s c => putch c s) (repeat c n) s.
Proof. revert s. induction n as [|n IH]; intros s; simpl; auto. Qed.

Lemma printnum_spec {S} (putch : Z -> S -> S) fuel num base width padc st :
  2 <= base -> 0 <= num < base ^ Z.of_nat fuel -> (0 < fuel)%nat ->
  exists ds, digits_of base num ds /\
    printnum putch fuel num base width padc st =
    Done (fold_left (fun s c => putch c s)
           (repeat padc (Z.to_nat (width - Z.of_nat (length ds))) ++ (digit_char <$> ds)) st).
Proof.
  intros Hb. revert num width st.
  induction fuel as [|fuel IH]; intros num width st Hn Hf; [lia|]. cbn [printnum].
  destruct (Z.leb_spec base num) as [Hle|Hlt].
  - assert (0 < fuel)%nat.
    { destruct fuel; [|lia]. change (Z.of_nat 1) with 1 in Hn. lia. }
    rewrite Nat2Z.inj_succ, Z.pow_succ_r in Hn by lia.
    destruct (IH (num / base) (width - 1) st) as (ds & Hd & ->); [|done|].
    { split; [apply Z.div_pos; lia|]. apply Z.div_lt_upper_bound; lia. }
    exists (ds ++ [num mod base]). pose proof (Z.mod_pos_bound num base ltac:(lia)). split.
    + destruct Hd as [H1 H2 H3 H4]. split.
      * by destruct ds.
      * apply Forall_app. split; [done|]. by constructor.
      * rewrite digits_value_snoc, H3. pose proof (Z.div_mod num base ltac:(lia)). lia.
      * intros _. destruct ds; [done|]. simpl in *. apply H4.
        pose proof (Z.div_str_pos num base ltac:(lia)). lia.
    + simpl. rewrite fmap_app, app_assoc, !fold_left_app. simpl.
      by replace (width - 1 - Z.of_nat (length ds)) with (width - Z.of_nat (length (ds ++ [num mod base])))
        by (rewrite length_app; simpl; lia).
  - exists [num]. split.
    + split; [done|repeat constructor; lia|unfold digits_value; simpl; lia|done].
    + simpl. rewrite fold_left_app, putn_fold. simpl. by rewrite Z.mod_small by lia.
Qed.

(** The numeric conversions print a 64-bit number in full: padding up to the
    width, then its digits in the base, without leading zeros; the bound on the
    recursion is enough for every 64-bit number and base. *)
Theorem printnum_correct {S} (putch : Z -> S -> S) num base fl st :
  2 <= base <= 16 -> 0 <= num < 2 ^ 64 ->
  exists ds, digits_of base num ds /\
    number putch num base fl st =
    Done (fold_left (fun s c => putch c s)
           (repeat (padc fl) (Z.to_nat (width fl - Z.of_nat (length ds))) ++ (digit_char <$> ds)) st).
Proof.
  intros Hb Hn. apply printnum_spec; [lia| |lia]. split; [lia|].
  apply Z.lt_le_trans with (2 ^ 64); [lia|].
  etrans; [|apply Z.pow_le_mono_l with (a := 2); lia]. by apply Z.pow_le_mono_r.
Qed.

Lemma strtol_digit_char d : 0 <= d < 36 -> strtol_digit (s8 (digit_char d)) = Some d.
Proof.
  intros Hd. assert (forall d, d ∈ zrange 0 36 -> strtol_digit (s8 (digit_char d)) = Some d) as H.
  { apply Forall_forall, (bool_decide_unpack _). by vm_compute. }
  apply H, elem_of_zrange. lia.
Qed.

Lemma digits_value_mono base v ds :
  2 <= base -> 0 <= v -> Forall (fun d => 0 <= d < base) ds -> v <= digits_value base v ds.
Proof.
  intros Hb Hv Hd. revert v Hv. induction Hd as [|d ds Hd Hds IH]; intros v Hv; [done|].
  assert (v <= v * base + d) by nia. specialize (IH (v * base + d) ltac:(lia)).
  unfold digits_value in *. simpl. lia.
Qed.

Lemma strtol_digits_spec fuel m base s v ds :
  2 <= base <= 16 -> 0 <= v -> Forall (fun d => 0 <= d < base) ds ->
  digits_value base v ds < 2 ^ 31 -> cstr m s (digit_char <$> ds) -> (length ds < fuel)%nat ->
  strtol_digits fuel m base s v = Some (digits_value base v ds, s + Z.of_nat (length ds)).
Proof.
  intros Hb Hv Hd. revert s v ds Hv Hd.
  induction fuel as [|fuel IH]; intros s v ds Hv Hd Hlt Hc Hf; [lia|]. cbn [strtol_digits].
  destruct Hd as [|d ds Hd Hds]; simpl in Hc.
  - rewrite Hc. simpl. rewrite Z.add_0_r. done.
  - destruct Hc as (Hm & _ & Hc). rewrite Hm, strtol_digit_char by lia.
    rewrite (proj2 (Z.leb_gt base d)) by lia. simpl in Hf.
    assert (0 <= v * base + d < 2 ^ 31) as Hr.
    { pose proof (digits_value_mono base (v * base + d) ds ltac:(lia) ltac:(nia) Hds) as Hm2.
      unfold digits_value in *. simpl in Hlt. split; [nia|]. lia. }
    replace (s32 (v * base + d)) with (v * base + d) by word_lia.
    rewrite (IH (s + 1) (v * base + d) ds) by (done || lia). unfold digits_value. simpl.
    do 2 f_equal. lia.
Qed.

(** C36. Reading back a printed number: when a number from 0 to 2^31 - 1 (what
    fits a long) has been printed without padding, strtol, in the base it was
    printed in (2 to 16), returns the number and stops at the end of the text. *)
Theorem strtol_printnum fuel m a base num width padc l :
  2 <= base <= 16 -> 0 <= num < 2 ^ 31 -> width <= 0 ->
  printnum (fun c l => l ++ [c]) 65 num base width padc [] = Done l ->
  cstr m a l -> (length l < fuel)%nat ->
  strtol fuel m a base = Some (num, a + Z.of_nat (length l)).
Proof.
  intros Hb Hn Hw Hp Hc Hf.
  destruct (printnum_spec (fun c l => l ++ [c]) 65 num base width padc []) as (ds & Hd & E); [lia| |lia|].
  { split; [lia|]. apply Z.lt_le_trans with (2 ^ Z.of_nat 65); [lia|]. apply Z.pow_le_mono_l. lia. }
  rewrite E in Hp. clear E. replace (Z.to_nat (width - Z.of_nat (length ds))) with 0%nat in Hp by lia.
  assert (forall (k r : list Z), fold_left (fun s c => s ++ [c]) k r = r ++ k) as Hfold.
  { induction k as [|c k IH]; intros r; simpl; [by rewrite app_nil_r|]. by rewrite IH, <- app_assoc. }
  simpl in Hp. rewrite Hfold in Hp. injection Hp as <-. simpl in *. rewrite length_fmap in *.
  destruct Hd as [H1 H2 H3 H4]. destruct ds as [|d ds]; [done|].
  assert (48 <= digit_char d <= 102 /\ m a = digit_char d) as [Hd Hm].
  { apply Forall_cons in H2 as [Hd _]. destruct Hc as (Hm & _). split; [|done].
    unfold digit_char. case_bool; lia. }
  assert (m (a + 1) <> 120) as Hx.
  { destruct Hc as (_ & _ & Hc). apply Forall_cons in H2 as [_ H2]. destruct ds as [|d2 ds]; simpl in Hc.
    - rewrite Hc. lia.
    - destruct Hc as (-> & _). apply Forall_cons in H2 as [Hd2 _]. unfold digit_char. case_bool; lia. }
  unfold strtol. destruct fuel as [|fuel]; [simpl in Hf; lia|]. cbn [skip_ws].
  assert (forall c, c < 48 -> (m a =? c) = false) as Hlow by (intros; apply Z.eqb_neq; lia).
  rewrite (Hlow 32), (Hlow 9) by lia. cbn [orb mbind option_bind].
  rewrite (Hlow 43), (Hlow 45) by lia.
  rewrite (proj2 (Z.eqb_neq (m (a + 1)) 120) Hx), andb_false_r, andb_false_r.
  rewrite (proj2 (Z.eqb_neq base 0)) by lia. cbn [andb].
  assert (digits_value base 0 (d :: ds) < 2 ^ 31) as Hlt by (rewrite H3; apply Hn).
  rewrite (strtol_digits_spec _ _ _ _ _ (d :: ds) Hb (Z.le_refl 0) H2 Hlt Hc Hf).
  cbn [mbind option_bind]. by rewrite H3.
Qed.

(** ** Concrete runs *)

Definition no_memory : mem := fun _ => 0.

Lemma printnum_correct_witness :
  exists ds, digits_of 10 1234 ds /\
    number (fun c l => l ++ [c]) 1234 10 (set_width flags0 6) [] =
    Done (fold_left (fun s c => s ++ [c])
      (repeat 32 (Z.to_nat (6 - Z.of_nat (length ds))) ++ (digit_char <$> ds)) []).
Proof. apply (printnum_correct (fun c l => l ++ [c]) 1234 10 (set_width flags0 6) []); lia. Defined.

Lemma strtol_printnum_witness :
  strtol 20 (place_str no_memory 100 "beef") 100 16 = Some (48879, 100 + Z.of_nat 4).
Proof.
  refine (strtol_printnum 20 (place_str no_memory 100 "beef") 100 16 48879 0 32 [98; 101; 101; 102] _ _ _ _ _ _).
  - lia.
  - lia.
  - lia.
  - reflexivity.
  - repeat split; vm_compute; congruence.
  - simpl. lia.
Defined.

(** [snprintf(b, 4, "n=%d", 42)] with the format at 100 and the buffer at 10:
    "n=4", a NUL, and the result 4. *)
Lemma vsnprintf_bounds_witness :
  exists k, 0 <= k < 4 /\
    match vsnprintf (place_str no_memory 100 "n=%d") 0 0 0 (fun _ => 0) 20 no_memory 10 4 100 [42] with
    | Done (o', _) => o' (10 + k) | _ => 1
    end = 0.
Proof.
  set (m := place_str no_memory 100 "n=%d").
  assert (vsnprintf m 0 0 0 (fun _ => 0) 20 no_memory 10 4 100 [42] =
          Done (place no_memory 10 [110; 61; 52; 0], 4)) as E by reflexivity.
  rewrite E.
  exact (proj2 (vsnprintf_bounds m 0 0 0 (fun _ => 0) 20 no_memory 10 4 100 [42] _ 4 E)
           ltac:(lia) ltac:(lia)).
Defined.
