(* ===== verification/PageAlloc.v ===== *)
(** The physical page allocator of src/kern/pmap.c: memory detection,
    boot_alloc, page_init, page_alloc, page_free, page_decref, and the address
    conversions of src/kern/pmap.h. *)

From S2P Require Import Prelude Machine Mmu Cstring Devices KState.

(** What the linker provides: the symbols [end] and [bootstack]. *)
Class Platform := {
  link_end : Z;
  link_bootstack : Z }.

(** ** src/kern/pmap.h *)

Definition ALLOC_ZERO : Z := 1.

Definition PADDR (kva : Z) : M Z :=
  if u32 kva <? KERNBASE then panic "PADDR called with invalid kva %08lx"
  else kret (u32 (kva - KERNBASE)).

Definition KADDR (pa : Z) : M Z :=
  let! n := get npages in
  if n <=? PGNUM pa then panic "KADDR called with invalid pa %08lx"
  else kret (u32 (pa + KERNBASE)).

Definition page2pa (pp : Z) : Z := u32 (Z.shiftl pp PGSHIFT).

Definition pa2page (pa : Z) : M Z :=
  let! n := get npages in
  if n <=? PGNUM pa then panic "pa2page called with invalid pa" else kret (PGNUM pa).

Definition page2kva (pp : Z) : M Z := KADDR (page2pa pp).

(** memset on a kernel pointer. *)
Definition kmemset (v c n : Z) : M unit :=
  kptr v ;; modify (fun s => set_kmem (memset (kmem s) v c n) s).

(** ** Boot-time allocation *)

Section Boot.
Context `{Platform}.

(** A device operation that returns a value. *)
Definition device {A} (f : io -> A * io) : M A :=
  let! d := get kio in let '(a, d) := f d in modify (set_kio d) ;; kret a.

Definition nvram_read (r : Z) : M Z :=
  let! lo := device (mc146818_read r) in
  let! hi := device (mc146818_read (r + 1)) in
  kret (Z.lor lo (Z.shiftl hi 8)).

Definition NVRAM_BASELO : Z := 0x15.
Definition NVRAM_EXTLO : Z := 0x17.

Definition i386_detect_memory : M unit :=
  let! baselo := nvram_read NVRAM_BASELO in
  modify (set_npages_basemem (baselo * 1024 / PGSIZE)) ;;
  let! extlo := nvram_read NVRAM_EXTLO in
  let npages_extmem := extlo * 1024 / PGSIZE in
  let! base := get npages_basemem in
  let n := if negb (npages_extmem =? 0) then EXTPHYSMEM / PGSIZE + npages_extmem else base in
  modify (set_npages n) ;;
  cprintf "Physical memory: %uK available, base = %uK, extended = %uK" 
    [n * PGSIZE / 1024; base * PGSIZE / 1024; npages_extmem * PGSIZE / 1024].

Definition boot_alloc (n : Z) : M Z :=
  let! nf := get nextfree in
  (if nf =? 0 then modify (set_nextfree (ROUNDUP link_end PGSIZE)) else kret tt) ;;
  let! result := get nextfree in
  modify (fun s => set_nextfree (u32 (nextfree s + ROUNDUP n PGSIZE)) s) ;;
  kret result.

(** ** page_init *)

(** [pages[i].pp_ref = r; pages[i].pp_link = l] *)
Definition set_pageinfo (i r : Z) (l : option Z) : M unit :=
  let! _ := get_page i in put_page i {| pp_link := l; pp_ref := r |}.

(** Put page [i] at the head of the free list. *)
Definition push_free (i : Z) : M unit :=
  let! fl := get page_free_list in
  set_pageinfo i 0 fl ;; modify (set_page_free_list (Some i)).

Definition kernel_limit : M Z :=
  let! b := boot_alloc 0 in kret (Z.shiftr (u32 (b - KERNBASE)) PGSHIFT).

Definition page_init_step (i : Z) : M unit :=
  if i =? 0 then set_pageinfo 0 1 None
  else
    let! base := get npages_basemem in
    (if i =? MPENTRY_PADDR / PGSIZE then set_pageinfo i 1 None
     else if i <? base then push_free i
     else
       let! reserved := (if i <=? EXTPHYSMEM / PGSIZE then kret true
                         else let! lim := kernel_limit in kret (i <? lim)) in
       if (reserved : bool) then
         let! p := get_page i in set_pageinfo i (u16 (pp_ref p + 1)) None
       else push_free i) ;;
    let pa := page2pa i in
    let! suspicious := (if pa =? 0 then kret true
                        else if pa <? IOPHYSMEM
                             then let! lim := kernel_limit in kret (pa <=? lim)
                             else kret false) in
    let! p := get_page i in
    if (suspicious : bool) && (pp_ref p =? 0) then cprintf "page error : i %d" [i] else kret tt.

Fixpoint page_init_loop (k : nat) (i : Z) : M unit :=
  match k with
  | O => kret tt
  | S k => page_init_step i ;; page_init_loop k (i + 1)
  end.

Definition page_init : M unit :=
  modify (set_page_free_list None) ;;
  let! n := get npages in
  page_init_loop (Z.to_nat n) 0.
End Boot.

(** ** The allocator *)

Definition page_alloc (alloc_flags : Z) : M (option Z) :=
  let! fl := get page_free_list in
  match fl with
  | None => kret None
  | Some pp =>
      let! p := get_page pp in
      modify (set_page_free_list (pp_link p)) ;;
      (if has alloc_flags ALLOC_ZERO then let! kva := page2kva pp in kmemset kva 0 PGSIZE
       else kret tt) ;;
      kret (Some pp)
  end.

Definition page_free (pp : Z) : M unit :=
  let! p := get_page pp in
  assert ((pp_ref p =? 0) || bool_decide (pp_link p = None)) ;;
  let! fl := get page_free_list in
  put_page pp {| pp_link := fl; pp_ref := pp_ref p |} ;;
  modify (set_page_free_list (Some pp)).

Definition page_decref (pp : Z) : M unit :=
  let! p := get_page pp in
  let r := u16 (pp_ref p - 1) in
  put_page pp {| pp_link := pp_link p; pp_ref := r |} ;;
  if r =? 0 then page_free pp else kret tt.

(** ** Well-formed states *)

(** The kernel address of page [i]. *)
Definition page_kva (i : Z) : Z := KERNBASE + i * PGSIZE.

(** At most 256 MB of physical memory, one PageInfo per page, 16-bit
    reference counts, byte-valued memory. *)
Record mem_wf (s : kstate) : Prop := {
  wf_npages : 0 <= npages s <= 2 ^ 16;
  wf_pages : forall i, is_Some (pages s !! i) <-> 0 <= i < npages s;
  wf_bytes : bytes_ok (kmem s) }.

(** The free list is the chain of exactly the pages [l], all in range and
    unreferenced. *)
Definition free_list (s : kstate) (l : list Z) : Prop :=
  chain pp_link (pages s) (page_free_list s) l.

Definition unref (s : kstate) (i : Z) : Prop := exists p, pages s !! i = Some p /\ pp_ref p = 0.

Record free_ok (s : kstate) (l : list Z) : Prop := {
  fo_chain : free_list s l;
  fo_unref : forall i, i ∈ l -> unref s i }.

(** ** Address conversions *)

Lemma page2pa_eq i : 0 <= i < 2 ^ 20 -> page2pa i = i * PGSIZE.
Proof.
  intros. unfold page2pa, PGSHIFT, PGSIZE. rewrite Z.shiftl_mul_pow2 by lia.
  change (2 ^ 12) with 4096. apply u32_id. lia.
Qed.

Lemma KADDR_eq pa s : mem_wf s -> 0 <= pa < npages s * PGSIZE -> KADDR pa s = Ret (pa + KERNBASE) s.
Proof.
  intros [Hn _ _] Hpa. unfold KADDR, PGSIZE, KERNBASE in *. mrun.
  rewrite PGNUM_eq by (unfold is_u32; lia).
  destruct (Z.leb_spec (npages s) (pa / 4096)).
  - word_lia.
  - unfold kret. rewrite u32_id by lia. done.
Qed.

Lemma page2kva_eq i s : mem_wf s -> 0 <= i < npages s -> page2kva i s = Ret (page_kva i) s.
Proof.
  intros Hwf Hi. pose proof (wf_npages _ Hwf). unfold page2kva, page_kva.
  rewrite page2pa_eq by lia. rewrite KADDR_eq by (done || unfold PGSIZE; lia).
  by rewrite Z.add_comm.
Qed.

Lemma pa2page_eq pa s :
  mem_wf s -> 0 <= pa < npages s * PGSIZE -> pa2page pa s = Ret (pa / PGSIZE) s.
Proof.
  intros [Hn _ _] Hpa. unfold pa2page, PGSIZE in *. mrun.
  rewrite PGNUM_eq by (unfold is_u32; lia).
  destruct (Z.leb_spec (npages s) (pa / 4096)); [word_lia|done].
Qed.

Lemma PADDR_page i s : mem_wf s -> 0 <= i < npages s -> PADDR (page_kva i) s = Ret (i * PGSIZE) s.
Proof.
  intros [Hn _ _] Hi. unfold PADDR, page_kva, KERNBASE, PGSIZE.
  rewrite u32_id by lia. destruct (Z.ltb_spec (0xF0000000 + i * 4096) 0xF0000000); [lia|].
  unfold kret. rewrite u32_id by lia. f_equal. lia.
Qed.

Lemma page_kva_kern i : 0 <= i -> KERNBASE <= page_kva i.
Proof. unfold page_kva, PGSIZE. lia. Qed.

Lemma mem_wf_lookup s i : mem_wf s -> 0 <= i < npages s -> exists p, pages s !! i = Some p.
Proof. intros Hwf Hi. by apply (wf_pages _ Hwf) in Hi as [p Hp]; eauto. Qed.

Lemma free_ok_range s l i : mem_wf s -> free_ok s l -> i ∈ l -> 0 <= i < npages s.
Proof. intros Hwf Hf Hi. apply (wf_pages _ Hwf). destruct (fo_unref _ _ Hf i Hi) as (p & -> & _). eauto. Qed.

Lemma free_ok_NoDup s l : free_ok s l -> NoDup l.
Proof. intros [Hc _]. by eapply chain_NoDup. Qed.

Lemma mem_wf_put_page s i p : mem_wf s -> 0 <= i < npages s -> mem_wf (set_pages (<[i:=p]> (pages s)) s).
Proof.
  intros [Hn Hp Hb] Hi. split; [done| |done]. intros j. simpl.
  destruct (decide (i = j)) as [->|].
  - rewrite lookup_insert_eq. split; eauto.
  - rewrite lookup_insert_ne by done. apply Hp.
Qed.

Lemma mem_wf_kmem s m : mem_wf s -> bytes_ok m -> mem_wf (set_kmem m s).
Proof. intros [Hn Hp Hb] Hm. by split. Qed.

Lemma kmemset_eq v c n s :
  KERNBASE <= v -> kmemset v c n s = Ret tt (set_kmem (memset (kmem s) v c n) s).
Proof. intros Hv. unfold kmemset. mstep (kptr_ok v s Hv). done. Qed.

(** ** page_alloc *)

(** The state page_alloc leaves when it hands out the head [i] of [i :: l]. *)
Definition after_alloc (zero : bool) (i : Z) (l : list Z) (s : kstate) : kstate :=
  let s := set_page_free_list (head l) s in
  if zero then set_kmem (memset (kmem s) (page_kva i) 0 PGSIZE) s else s.

Lemma chain_head {A} (link : A -> option Z) t h l : chain link t h l -> h = head l.
Proof. destruct l; simpl; [done|]. by intros [-> _]. Qed.

Lemma page_alloc_nil flags s : free_ok s [] -> page_alloc flags s = Ret None s.
Proof. intros [Hc _]. unfold page_alloc. mrun. unfold free_list in Hc. simpl in Hc. by rewrite Hc. Qed.

Lemma page_alloc_cons flags s i l :
  mem_wf s -> free_ok s (i :: l) ->
  page_alloc flags s = Ret (Some i) (after_alloc (has flags ALLOC_ZERO) i l s).
Proof.
  intros Hwf Hf. pose proof (free_ok_range s _ i Hwf Hf ltac:(left)) as Hi.
  destruct Hf as [[Hh (p & Hp & Hc)] _]. unfold page_alloc. mrun. rewrite Hh.
  mstep (get_page_eq _ _ _ Hp). mrun. rewrite (chain_head _ _ _ _ Hc). unfold after_alloc.
  destruct (has flags ALLOC_ZERO); [|done]. mrun.
  rewrite (bind_Ret _ _ _ _ _ (page2kva_eq i (set_page_free_list _ s) ltac:(by destruct Hwf) Hi)).
  by rewrite (bind_Ret _ _ _ _ _ (kmemset_eq _ _ _ _ (page_kva_kern i ltac:(lia)))).
Qed.

Lemma after_alloc_wf z i l s : mem_wf s -> mem_wf (after_alloc z i l s).
Proof.
  intros [Hn Hp Hb]. unfold after_alloc. destruct z; split; try done. simpl.
  by apply memset_bytes.
Qed.

Lemma after_alloc_free z i l s : free_ok s (i :: l) -> free_ok (after_alloc z i l s) l.
Proof.
  intros [[_ (p & Hp & Hc)] Hu]. pose proof (chain_head _ _ _ _ Hc) as Hh.
  assert (pages (after_alloc z i l s) = pages s) as Hpg by by destruct z.
  assert (page_free_list (after_alloc z i l s) = head l) as Hfl by by destruct z.
  split.
  - unfold free_list. rewrite Hpg, Hfl, <- Hh. done.
  - intros j Hj. unfold unref. rewrite Hpg. apply Hu. by right.
Qed.

Lemma after_alloc_pages z i l s : pages (after_alloc z i l s) = pages s.
Proof. by destruct z. Qed.
Lemma after_alloc_npages z i l s : npages (after_alloc z i l s) = npages s.
Proof. by destruct z. Qed.
Lemma after_alloc_kmem_out z i l s x :
  x < page_kva i \/ page_kva i + PGSIZE <= x -> kmem (after_alloc z i l s) x = kmem s x.
Proof.
  intros Hx. destruct z; [|done]. simpl. rewrite memset_fill by (unfold PGSIZE; lia).
  unfold fill. case_bool; try done; lia.
Qed.
Lemma after_alloc_kmem_in i l s x :
  page_kva i <= x < page_kva i + PGSIZE -> kmem (after_alloc true i l s) x = 0.
Proof.
  intros Hx. simpl. rewrite memset_fill by (unfold PGSIZE; lia).
  unfold fill. case_bool; try done; lia.
Qed.

(** ** page_free and page_decref *)

Definition after_free (i : Z) (s : kstate) : kstate :=
  set_page_free_list (Some i)
    (set_pages (<[i := {| pp_link := page_free_list s; pp_ref := 0 |}]> (pages s)) s).

Lemma page_free_eq i p s :
  pages s !! i = Some p -> pp_ref p = 0 -> page_free i s = Ret tt (after_free i s).
Proof.
  intros Hp Hr. unfold page_free. mstep (get_page_eq _ _ _ Hp). rewrite Hr. simpl.
  unfold assert. mrun. unfold put_page. by mrun.
Qed.

Lemma after_free_ok i l s : i ∉ l -> free_ok s l -> free_ok (after_free i s) (i :: l).
Proof.
  intros Hi [Hc Hu]. split.
  - unfold free_list, after_free. simpl. split; [done|]. eexists.
    rewrite lookup_insert_eq. split; [done|]. simpl. by apply chain_frame.
  - intros j [->|Hj]%elem_of_cons; unfold unref; simpl.
    + eexists. by rewrite lookup_insert_eq.
    + rewrite lookup_insert_ne by set_solver. by apply Hu.
Qed.

(** Writing the PageInfo of a page that is not free. *)
Lemma free_ok_put i x l s :
  i ∉ l -> free_ok s l -> free_ok (set_pages (<[i := x]> (pages s)) s) l.
Proof.
  intros Hi [Hc Hu]. split.
  - unfold free_list. simpl. by apply chain_frame.
  - intros j Hj. unfold unref. simpl. rewrite lookup_insert_ne by set_solver. by apply Hu.
Qed.

Lemma after_free_wf i s : mem_wf s -> 0 <= i < npages s -> mem_wf (after_free i s).
Proof.
  intros Hwf Hi. unfold after_free.
  assert (mem_wf (set_pages (<[i:={| pp_link := page_free_list s; pp_ref := 0 |}]> (pages s)) s))
    as [H1 H2 H3] by by apply mem_wf_put_page. by split.
Qed.

Lemma page_decref_keep i p s :
  pages s !! i = Some p -> u16 (pp_ref p - 1) <> 0 ->
  page_decref i s =
    Ret tt (set_pages (<[i := {| pp_link := pp_link p; pp_ref := u16 (pp_ref p - 1) |}]> (pages s)) s).
Proof.
  intros Hp Hr. unfold page_decref. mstep (get_page_eq _ _ _ Hp). unfold put_page. mrun.
  by rewrite (proj2 (Z.eqb_neq _ _) Hr).
Qed.

Lemma page_decref_free i p s :
  pages s !! i = Some p -> u16 (pp_ref p - 1) = 0 ->
  page_decref i s = Ret tt (after_free i s).
Proof.
  intros Hp Hr. unfold page_decref. mstep (get_page_eq _ _ _ Hp). unfold put_page. mrun.
  rewrite Hr. simpl. erewrite page_free_eq; [|apply lookup_insert_eq|done].
  unfold after_free. simpl. by rewrite insert_insert_eq.
Qed.

(** ** page_init *)

Section PageInit.
Context `{Platform}.

(** The first page number above the kernel and its boot-time allocations. *)
Definition kernel_end (s : kstate) : Z := Z.shiftr (u32 (nextfree s - KERNBASE)) PGSHIFT.

(** The pages page_init puts on the free list. *)
Definition usable (s : kstate) (i : Z) : Prop :=
  i <> 0 /\ i <> MPENTRY_PADDR / PGSIZE /\
  (i < npages_basemem s \/ (EXTPHYSMEM / PGSIZE < i /\ kernel_end s <= i)).

#[global] Instance usable_dec s i : Decision (usable s i).
Proof. unfold usable. apply _. Defined.

Definition usable_below (s : kstate) (i : Z) : list Z :=
  rev (filter (usable s) (zrange 0 (Z.to_nat i))).

(** What page_init writes into a reserved page's PageInfo. *)
Definition reserved_info (i : Z) (p : PageInfo) : PageInfo :=
  {| pp_link := None;
     pp_ref := if decide (i = 0 \/ i = MPENTRY_PADDR / PGSIZE) then 1 else u16 (pp_ref p + 1) |}.

Record init_inv (s0 : kstate) (i : Z) (s : kstate) : Prop := {
  ii_npages : npages s = npages s0;
  ii_base : npages_basemem s = npages_basemem s0;
  ii_next : nextfree s = nextfree s0;
  ii_kmem : kmem s = kmem s0;
  ii_free : free_ok s (usable_below s0 i);
  ii_done : forall j, 0 <= j < i -> ~ usable s0 j -> pages s !! j = reserved_info j <$> pages s0 !! j;
  ii_todo : forall j, i <= j -> pages s !! j = pages s0 !! j;
  ii_dom : forall j, is_Some (pages s !! j) <-> is_Some (pages s0 !! j) }.

Lemma boot_alloc_0 s :
  nextfree s <> 0 -> is_u32 (nextfree s) -> boot_alloc 0 s = Ret (nextfree s) s.
Proof.
  intros Hn Hu. unfold boot_alloc. mrun.
  rewrite (proj2 (Z.eqb_neq _ 0) Hn). mrun. unfold kret. f_equal.
  rewrite ROUNDUP_0 by (unfold PGSIZE; lia). rewrite Z.add_0_r, u32_id by done. by destruct s.
Qed.

Lemma kernel_limit_eq s :
  nextfree s <> 0 -> is_u32 (nextfree s) -> kernel_limit s = Ret (kernel_end s) s.
Proof. intros Hn Hu. unfold kernel_limit. by mstep (boot_alloc_0 s Hn Hu). Qed.

Lemma usable_below_succ s i : 0 <= i ->
  usable_below s (i + 1) = if decide (usable s i) then i :: usable_below s i else usable_below s i.
Proof.
  intros Hi. unfold usable_below. replace (Z.to_nat (i + 1)) with (Z.to_nat i + 1)%nat by lia.
  rewrite zrange_app, filter_app. simpl. rewrite Z2Nat.id by lia.
  rewrite Z.add_0_l, filter_cons. destruct (decide (usable s i)); simpl; rewrite ?filter_nil.
  - by rewrite rev_app_distr.
  - by rewrite app_nil_r.
Qed.

Lemma usable_below_elem s i j : j ∈ usable_below s i <-> usable s j /\ 0 <= j < Z.max 0 i.
Proof.
  unfold usable_below. rewrite list_elem_of_In, <- in_rev, <- list_elem_of_In.
  rewrite list_elem_of_filter, elem_of_zrange. split; intros [? ?]; split; auto; lia.
Qed.

Lemma usable_below_next s i : i ∉ usable_below s i.
Proof. rewrite usable_below_elem. lia. Qed.

(** Page [i] becomes the new head of the free list. *)
Lemma init_push s0 s i :
  0 <= i -> is_Some (pages s0 !! i) -> usable s0 i -> init_inv s0 i s ->
  exists s', push_free i s = Ret tt s' /\ init_inv s0 (i + 1) s'.
Proof.
  intros Hi [p Hp] Hu Hinv. pose proof (ii_todo _ _ _ Hinv i ltac:(lia)) as Hpi. rewrite Hp in Hpi.
  unfold push_free, set_pageinfo. mrun. mstep (get_page_eq _ _ _ Hpi). unfold put_page. mrun.
  eexists. split; [done|]. change (init_inv s0 (i + 1) (after_free i s)).
  destruct Hinv as [H1 H2 H3 H4 H5 H6 H7 H8]. split; try done.
  - rewrite usable_below_succ, decide_True by done.
    apply after_free_ok; [apply usable_below_next|done].
  - intros j Hj Hn. simpl. assert (j <> i) by (intros ->; done).
    rewrite lookup_insert_ne by done. apply H6; [lia|done].
  - intros j Hj. simpl. rewrite lookup_insert_ne by lia. apply H7. lia.
  - intros j. simpl. destruct (decide (i = j)) as [->|].
    + rewrite lookup_insert_eq, Hp. split; eauto.
    + by rewrite lookup_insert_ne.
Qed.

(** Page [i] is marked in use. *)
Lemma init_reserve s0 s i p :
  0 <= i -> pages s0 !! i = Some p -> ~ usable s0 i -> init_inv s0 i s ->
  exists s', set_pageinfo i (pp_ref (reserved_info i p)) None s = Ret tt s' /\ init_inv s0 (i + 1) s'.
Proof.
  intros Hi Hp Hu Hinv. pose proof (ii_todo _ _ _ Hinv i ltac:(lia)) as Hpi. rewrite Hp in Hpi.
  unfold set_pageinfo. mstep (get_page_eq _ _ _ Hpi). unfold put_page.
  eexists. split; [done|].
  destruct Hinv as [H1 H2 H3 H4 H5 H6 H7 H8]. split; try done.
  - rewrite usable_below_succ, decide_False by done.
    apply free_ok_put; [apply usable_below_next|done].
  - intros j Hj Hn. simpl. destruct (decide (i = j)) as [->|].
    + by rewrite lookup_insert_eq, Hp.
    + rewrite lookup_insert_ne by done. apply H6; [lia|done].
  - intros j Hj. simpl. rewrite lookup_insert_ne by lia. apply H7. lia.
  - intros j. simpl. destruct (decide (i = j)) as [->|].
    + rewrite lookup_insert_eq, Hp. split; eauto.
    + by rewrite lookup_insert_ne.
Qed.

Lemma init_inv_klog s0 i s v : init_inv s0 i s -> init_inv s0 i (set_klog v s).
Proof. intros [H1 H2 H3 H4 [H51 H52] H6 H7 H8]. split; try done. Qed.

(** The diagnostic at the end of the loop body changes nothing but the log. *)
Lemma init_diag s0 s i p :
  nextfree s0 <> 0 -> is_u32 (nextfree s0) -> pages s0 !! i = Some p -> init_inv s0 (i + 1) s ->
  exists s',
    (let pa := page2pa i in
     let! suspicious := (if pa =? 0 then kret true
                         else if pa <? IOPHYSMEM
                              then let! lim := kernel_limit in kret (pa <=? lim)
                              else kret false) in
     let! p := get_page i in
     if (suspicious : bool) && (pp_ref p =? 0) then cprintf "page error : i %d" [i] else kret tt) s
    = Ret tt s' /\ init_inv s0 (i + 1) s'.
Proof.
  intros Hn Hu Hp Hinv. cbv zeta.
  assert (exists b, (if page2pa i =? 0 then kret true
                     else if page2pa i <? IOPHYSMEM
                          then let! lim := kernel_limit in kret (page2pa i <=? lim)
                          else kret false) s = Ret b s) as [b Hb].
  { destruct (_ =? _); [by eexists|]. destruct (_ <? _); [|by eexists].
    rewrite <- (ii_next _ _ _ Hinv) in Hn, Hu. mstep (kernel_limit_eq s Hn Hu). by eexists. }
  mstep Hb. assert (is_Some (pages s !! i)) as [q Hq] by (apply (ii_dom _ _ _ Hinv); eauto).
  mstep (get_page_eq _ _ _ Hq). destruct (_ && _); eexists; (split; [done|]); [|done].
  by apply init_inv_klog.
Qed.

Lemma page_init_step_inv s0 s i :
  nextfree s0 <> 0 -> is_u32 (nextfree s0) -> 0 <= i -> is_Some (pages s0 !! i) -> init_inv s0 i s ->
  exists s', page_init_step i s = Ret tt s' /\ init_inv s0 (i + 1) s'.
Proof.
  intros Hn Hu Hi [p Hp] Hinv. unfold page_init_step.
  destruct (Z.eqb_spec i 0) as [->|Hi0].
  { apply (init_reserve s0 s 0 p); auto. unfold usable. tauto. }
  assert (exists s1,
    (let! base := get npages_basemem in
     if i =? MPENTRY_PADDR / PGSIZE then set_pageinfo i 1 None
     else if i <? base then push_free i
     else
       let! reserved := (if i <=? EXTPHYSMEM / PGSIZE then kret true
                         else let! lim := kernel_limit in kret (i <? lim)) in
       if (reserved : bool) then
         let! p := get_page i in set_pageinfo i (u16 (pp_ref p + 1)) None
       else push_free i) s = Ret tt s1 /\ init_inv s0 (i + 1) s1) as (s1 & Hs1 & Hinv1).
  { mrun. rewrite (ii_base _ _ _ Hinv).
    destruct (Z.eqb_spec i (MPENTRY_PADDR / PGSIZE)) as [Hi7|Hi7].
    { assert (pp_ref (reserved_info i p) = 1) as Hr by (simpl; rewrite decide_True; auto).
      destruct (init_reserve s0 s i p) as (s1 & Hs1 & Hinv1); auto; [unfold usable; tauto|].
      rewrite Hr in Hs1. eauto. }
    destruct (Z.ltb_spec i (npages_basemem s0)).
    { apply init_push; eauto. unfold usable. auto. }
    assert ((if i <=? EXTPHYSMEM / PGSIZE then kret true
             else let! lim := kernel_limit in kret (i <? lim)) s
            = Ret ((i <=? EXTPHYSMEM / PGSIZE) || (i <? kernel_end s0)) s) as Hr.
    { destruct (_ <=? _); [done|]. rewrite <- (ii_next _ _ _ Hinv) in Hn, Hu.
      mstep (kernel_limit_eq s Hn Hu). unfold kernel_end. by rewrite (ii_next _ _ _ Hinv). }
    mstep Hr. pose proof (ii_todo _ _ _ Hinv i ltac:(lia)) as Hpi. rewrite Hp in Hpi.
    destruct ((i <=? _) || _) eqn:Hb.
    - mstep (get_page_eq _ _ _ Hpi).
      replace (u16 (pp_ref p + 1)) with (pp_ref (reserved_info i p)) by
        (simpl; rewrite decide_False; [done|tauto]).
      apply init_reserve; auto. unfold usable. lia.
    - apply init_push; eauto. unfold usable. lia. }
  rewrite <- bind_assoc. mstep Hs1. by apply (init_diag s0 s1 i p).
Qed.

Lemma page_init_loop_inv s0 k : forall i s,
  nextfree s0 <> 0 -> is_u32 (nextfree s0) -> 0 <= i ->
  (forall j, i <= j < i + Z.of_nat k -> is_Some (pages s0 !! j)) -> init_inv s0 i s ->
  exists s', page_init_loop k i s = Ret tt s' /\ init_inv s0 (i + Z.of_nat k) s'.
Proof.
  induction k as [|k IH]; intros i s Hn Hu Hi Hd Hinv; simpl page_init_loop.
  - rewrite Z.add_0_r. eexists. by split.
  - destruct (page_init_step_inv s0 s i Hn Hu Hi ltac:(apply Hd; lia) Hinv) as (s1 & Hs1 & Hinv1).
    mstep Hs1. replace (i + Z.of_nat (S k)) with (i + 1 + Z.of_nat k) by lia.
    apply IH; auto; [lia|]. intros j Hj. apply Hd. lia.
Qed.

(** C16. [page_init] terminates normally; afterwards the free list holds
    exactly the usable pages (not page 0, not the AP entry page, below the
    base-memory limit or above the kernel's boot allocations), highest first,
    each with no references, and every other page is marked in use. *)
Theorem page_init_correct (s : kstate) :
  mem_wf s -> nextfree s <> 0 -> is_u32 (nextfree s) ->
  exists s', page_init s = Ret tt s' /\ mem_wf s' /\
    free_ok s' (rev (filter (usable s) (zrange 0 (Z.to_nat (npages s))))) /\
    (forall i, 0 <= i < npages s -> ~ usable s i ->
       pages s' !! i = reserved_info i <$> pages s !! i) /\
    kmem s' = kmem s.
Proof.
  intros Hwf Hn Hu. unfold page_init. mrun. pose proof (wf_npages _ Hwf).
  destruct (page_init_loop_inv s (Z.to_nat (npages s)) 0 (set_page_free_list None s) Hn Hu ltac:(lia))
    as (s' & Hs' & Hinv).
  - intros j Hj. apply (wf_pages _ Hwf). lia.
  - split; try done; [by split; [|intros ? ?%elem_of_nil]|lia].
  - exists s'. simpl. rewrite Z.add_0_l, Z2Nat.id in Hinv by lia.
    destruct Hinv as [H1 H2 H3 H4 H5 H6 H7 H8]. split_and!; try done.
    split; rewrite ?H1, ?H4; try apply Hwf. intros i. rewrite H8. apply Hwf.
Qed.
End PageInit.

(** ** The allocator against its specification

    The abstract allocator is a stack of page numbers. *)

Inductive alloc_op := OpAlloc (flags : Z) | OpFree (pp : Z).

Definition run_op (o : alloc_op) : M (option Z) :=
  match o with
  | OpAlloc flags => page_alloc flags
  | OpFree pp => page_free pp ;; kret None
  end.

Fixpoint run_ops (ops : list alloc_op) : M (list (option Z)) :=
  match ops with
  | [] => kret []
  | o :: ops => let! r := run_op o in let! rs := run_ops ops in kret (r :: rs)
  end.

(** A page may be freed only when it is not free already. *)
Definition spec_op (o : alloc_op) (l : list Z) : option (option Z * list Z) :=
  match o, l with
  | OpAlloc _, [] => Some (None, [])
  | OpAlloc _, i :: l => Some (Some i, l)
  | OpFree i, l => if decide (i ∈ l) then None else Some (None, i :: l)
  end.

Fixpoint spec_ops (ops : list alloc_op) (l : list Z) : option (list (option Z) * list Z) :=
  match ops with
  | [] => Some ([], l)
  | o :: ops => '(r, l) ← spec_op o l; '(rs, l) ← spec_ops ops l; Some (r :: rs, l)
  end.

Lemma sample_wf n mark : Z.of_nat n <= 65536 -> mem_wf (sample n mark).
Proof.
  intros Hn. split; simpl; [lia| |intros a; lia].
  intros i. rewrite lookup_table. case_decide; [split; eauto|].
  split; [intros [? ?]; done|lia].
Qed.

Lemma free_ok_nil s : page_free_list s = None -> free_ok s [].
Proof. intros H. split; [done|]. by intros ? ?%elem_of_nil. Qed.

Lemma unref_after_alloc z i l s j : unref s j -> unref (after_alloc z i l s) j.
Proof. unfold unref. by rewrite after_alloc_pages. Qed.

Lemma unref_after_free i s j : unref s j -> unref (after_free i s) j.
Proof.
  intros (p & Hp & Hr). unfold unref, after_free. simpl.
  destruct (decide (i = j)) as [->|]; [|rewrite lookup_insert_ne by done; eauto].
  rewrite lookup_insert_eq. eauto.
Qed.

Lemma run_op_refines o s l r l' :
  mem_wf s -> free_ok s l -> (forall i, o = OpFree i -> unref s i) ->
  spec_op o l = Some (r, l') ->
  exists s', run_op o s = Ret r s' /\ mem_wf s' /\ free_ok s' l' /\ (forall i, unref s i -> unref s' i).
Proof.
  intros Hwf Hf Hfree Hs. destruct o as [flags|i].
  - destruct l as [|i l]; simplify_eq/=.
    + exists s. by rewrite page_alloc_nil.
    + eexists. split; [by apply page_alloc_cons|].
      split_and!; [by apply after_alloc_wf|by apply after_alloc_free|].
      intros. by apply unref_after_alloc.
  - simpl in Hs. case_decide; simplify_eq. destruct (Hfree i eq_refl) as (p & Hp & Hr).
    assert (0 <= i < npages s) by (apply (wf_pages _ Hwf); eauto).
    exists (after_free i s). unfold run_op. mstep (page_free_eq _ _ _ Hp Hr).
    split_and!; [done|by apply after_free_wf|by apply after_free_ok|].
    intros. by apply unref_after_free.
Qed.

(** C12. Refinement: any sequence of [page_alloc] and [page_free] calls that
    frees only pages that are unreferenced and not already free returns
    exactly what a stack of page numbers returns, and never panics. *)
Theorem page_allocator_refines (ops : list alloc_op) (s : kstate) (l l' : list Z) (rs : list (option Z)) :
  mem_wf s -> free_ok s l -> (forall i, OpFree i ∈ ops -> unref s i) ->
  spec_ops ops l = Some (rs, l') ->
  exists s', run_ops ops s = Ret rs s' /\ mem_wf s' /\ free_ok s' l'.
Proof.
  revert s l rs. induction ops as [|o ops IH]; intros s l rs Hwf Hf Hfree Hs; simplify_eq/=; [eauto|].
  destruct (spec_op o l) as [[r l1]|] eqn:Ho; simplify_eq/=.
  destruct (spec_ops ops l1) as [[rs1 l2]|] eqn:Hos; simplify_eq/=.
  destruct (run_op_refines o s l r l1) as (s1 & H1 & Hwf1 & Hf1 & Hu1); auto.
  { intros i ->. apply Hfree. by left. }
  destruct (IH s1 l1 rs1) as (s2 & H2 & Hwf2 & Hf2); auto.
  { intros i Hi. apply Hu1, Hfree. by right. }
  exists s2. mstep H1. mstep H2. done.
Qed.

(** [page_alloc(ALLOC_ZERO)] hands out the head of the free list, and
    clears that page and no byte outside it; without the flag memory is
    untouched.  Reference counts are not changed. *)
Theorem page_alloc_correct (flags : Z) (s : kstate) (i : Z) (l : list Z) :
  mem_wf s -> free_ok s (i :: l) ->
  exists s', page_alloc flags s = Ret (Some i) s' /\ free_ok s' l /\ pages s' = pages s /\
    (forall x, page_kva i <= x < page_kva i + PGSIZE ->
       kmem s' x = if has flags ALLOC_ZERO then 0 else kmem s x) /\
    (forall x, x < page_kva i \/ page_kva i + PGSIZE <= x -> kmem s' x = kmem s x).
Proof.
  intros Hwf Hf. eexists. split; [by apply page_alloc_cons|].
  split; [by apply after_alloc_free|]. split; [apply after_alloc_pages|].
  split; intros x Hx; [|by apply after_alloc_kmem_out].
  destruct (has flags ALLOC_ZERO); [by apply after_alloc_kmem_in|done].
Qed.

Lemma chain_through {A} (link : A -> option Z) t t' h l1 i l2 l :
  chain link t h (l1 ++ i :: l2) -> (forall j, j ∈ l1 -> t' !! j = t !! j) -> chain link t' h l -> i ∈ l.
Proof.
  revert h l. induction l1 as [|j l1 IH]; intros h l; simpl.
  - intros [-> _] _ Hl. destruct l; simpl in Hl; [done|]. destruct Hl as [[= ->] _]. by left.
  - intros [-> (x & Hx & Hc)] Hext Hl. destruct l as [|k l]; [done|].
    destruct Hl as [[= <-] (y & Hy & Hd)]. right.
    rewrite Hext in Hy by by left. simplify_eq. eapply IH; eauto.
    intros k Hk. apply Hext. by right.
Qed.

(** A double free is not caught: [page_free] of a page that is already
    on the free list passes its assertion (the page has no references) and
    leaves a free list that is cyclic, so it no longer lists any finite set of
    pages. *)
Theorem page_free_twice_corrupts (s : kstate) (l : list Z) (i : Z) :
  free_ok s l -> i ∈ l ->
  exists s', page_free i s = Ret tt s' /\ forall l', ~ free_list s' l'.
Proof.
  intros Hf Hi. destruct (fo_unref _ _ Hf i Hi) as (p & Hp & Hr).
  eexists. split; [by apply (page_free_eq i p)|].
  intros l' Hl'. pose proof (chain_NoDup _ _ _ _ Hl') as Hnd.
  apply list_elem_of_split in Hi as (l1 & l2 & ->).
  unfold free_list, after_free in Hl'. simpl in Hl'.
  destruct l' as [|j l']; [done|]. destruct Hl' as [[= <-] (x & Hx & Hc)].
  rewrite lookup_insert_eq in Hx. simplify_eq/=. apply NoDup_cons in Hnd as [Hnd _].
  apply Hnd. pose proof (fo_chain _ _ Hf) as Hfc.
  eapply (chain_through _ _ _ _ l1 i l2); [exact Hfc| |exact Hc].
  intros j Hj. apply lookup_insert_ne. intros <-.
  apply free_ok_NoDup, NoDup_app in Hf as (_ & Hd & _). apply (Hd i Hj). by left.
Qed.

(** *** Witnesses *)

#[local] Instance sample_platform : Platform :=
  {| link_end := 0xF0110000; link_bootstack := 0xF0100000 |}.

Lemma page_init_correct_witness :
  mem_wf (sample 300 0x110000) /\
  exists s', page_init (sample 300 0x110000) = Ret tt s' /\ mem_wf s' /\ kmem s' = kmem (sample 300 0x110000).
Proof.
  assert (mem_wf (sample 300 0x110000)) as Hwf by (apply sample_wf; lia).
  split; [done|].
  destruct (page_init_correct (sample 300 0x110000) Hwf) as (s' & H1 & H2 & _ & _ & H5);
    [done|by vm_compute|eauto].
Defined.

Lemma page_allocator_refines_witness :
  exists s', run_ops [OpAlloc 0; OpFree 2; OpFree 1; OpAlloc 0; OpAlloc 0] (sample 4 0) =
    Ret [None; None; None; Some 1; Some 2] s'.
Proof.
  destruct (page_allocator_refines [OpAlloc 0; OpFree 2; OpFree 1; OpAlloc 0; OpAlloc 0]
    (sample 4 0) [] [] [None; None; None; Some 1; Some 2]) as (s' & H & _).
  - apply sample_wf. lia.
  - by apply free_ok_nil.
  - intros i Hi. assert (i = 2 \/ i = 1) as [-> | ->] by set_solver; eexists; by split.
  - reflexivity.
  - eauto.
Defined.

Lemma page_alloc_correct_witness :
  exists s', page_alloc ALLOC_ZERO (after_free 3 (sample 4 0)) = Ret (Some 3) s' /\ free_ok s' [].
Proof.
  destruct (page_alloc_correct ALLOC_ZERO (after_free 3 (sample 4 0)) 3 []) as (s' & H1 & H2 & _).
  - apply after_free_wf; [apply sample_wf|simpl]; lia.
  - apply after_free_ok; [apply not_elem_of_nil|by apply free_ok_nil].
  - eauto.
Defined.

Lemma page_free_twice_corrupts_witness :
  exists s', page_free 3 (after_free 3 (sample 4 0)) = Ret tt s' /\ forall l', ~ free_list s' l'.
Proof.
  apply (page_free_twice_corrupts (after_free 3 (sample 4 0)) [3] 3).
  - apply after_free_ok; [apply not_elem_of_nil|by apply free_ok_nil].
  - by left.
Defined.
