(* ===== verification/PageTable.v ===== *)
(** Two-level page tables: pgdir_walk, boot_map_region, page_insert,
    page_lookup, page_remove, tlb_invalidate, user_mem_check, check_va2pa
    (src/kern/pmap.c), over the byte memory that holds the tables.

    A [pde_t *] or [pte_t *] is a kernel virtual address; 0 is NULL. *)

From S2P Require Import Prelude Machine Mmu Cstring Devices KState PageAlloc.

(** ** The operations *)

Definition pgdir_walk (pgdir va : Z) (create : bool) : M Z :=
  let pde := pgdir + 4 * PDX va in
  let! e := read32 pde in
  if has e PTE_P then
    let! pgtable := KADDR (PTE_ADDR e) in
    kret (pgtable + 4 * PTX va)
  else if negb create then kret 0
  else
    let! pp := page_alloc ALLOC_ZERO in
    match pp with
    | None => kret 0
    | Some pp =>
        let! pgtable := page2kva pp in
        if pgtable =? 0 then kret 0
        else
          let! p := get_page pp in
          put_page pp {| pp_link := pp_link p; pp_ref := u16 (pp_ref p + 1) |} ;;
          let! pa := PADDR pgtable in
          write32 pde (Z.lor (Z.lor (Z.lor pa PTE_P) PTE_W) PTE_U) ;;
          kret (pgtable + 4 * PTX va)
    end.

(** [n] iterations of the mapping loop; stops when a table cannot be allocated. *)
Fixpoint boot_map_loop (n : nat) (pgdir va_next pa_next perm : Z) : M unit :=
  match n with
  | O => kret tt
  | S n =>
      let! pte := pgdir_walk pgdir va_next true in
      if pte =? 0 then kret tt
      else
        write32 pte (Z.lor (Z.lor (PTE_ADDR pa_next) perm) PTE_P) ;;
        boot_map_loop n pgdir (u32 (va_next + PGSIZE)) (u32 (pa_next + PGSIZE)) perm
  end.

(** The kernel's [cprintf] returns 0, so a size that is not a multiple of the
    page size fails the assertion after printing. *)
Definition boot_map_region (pgdir va size pa perm : Z) : M unit :=
  (if size mod PGSIZE =? 0 then kret tt
   else cprintf "size : %x" [size] ;; assert false) ;;
  boot_map_loop (Z.to_nat (size / PGSIZE)) pgdir va pa perm.

Definition tlb_invalidate (pgdir va : Z) : M unit :=
  let! c := curenv in
  let! flush := (match c with
                 | None => kret true
                 | Some i => let! e := get_env i in kret (env_pgdir e =? pgdir)
                 end) in
  if (flush : bool) then modify (fun s => set_tlb_flushed (va :: tlb_flushed s) s) else kret tt.

(** Returns the page and the PTE address stored through [pte_store]. *)
Definition page_lookup (pgdir va : Z) : M (option (Z * Z)) :=
  let! pte := pgdir_walk pgdir va false in
  if pte =? 0 then kret None
  else
    let! e := read32 pte in
    let! pp := pa2page (PTE_ADDR e) in
    kret (Some (pp, pte)).

Definition page_remove (pgdir va : Z) : M unit :=
  let! _ := pgdir_walk pgdir va false in
  let! r := page_lookup pgdir va in
  match r with
  | None => kret tt
  | Some (pp, pte) =>
      page_decref pp ;;
      write32 pte 0 ;;
      tlb_invalidate pgdir va
  end.

(** The store through the PTE pointer and the bookkeeping that end page_insert. *)
Definition insert_pte (pgdir pp va perm pte : Z) : M Z :=
  write32 pte (Z.lor (Z.lor (page2pa pp) PTE_P) perm) ;;
  let! p := get_page pp in
  put_page pp {| pp_link := pp_link p; pp_ref := u16 (pp_ref p + 1) |} ;;
  tlb_invalidate pgdir va ;;
  kret 0.

Definition page_insert (pgdir pp va perm : Z) : M Z :=
  let! pte := pgdir_walk pgdir va false in
  if negb (pte =? 0) then
    let! e := read32 pte in
    (if has e PTE_P then page_remove pgdir va else kret tt) ;;
    let! fl := get page_free_list in
    (if bool_decide (fl = Some pp) then
       let! p := get_page pp in modify (set_page_free_list (pp_link p))
     else kret tt) ;;
    insert_pte pgdir pp va perm pte
  else
    let! pte := pgdir_walk pgdir va true in
    if pte =? 0 then kret (- E_NO_MEM) else insert_pte pgdir pp va perm pte.

Definition check_va2pa (pgdir va : Z) : M Z :=
  let! e := read32 (pgdir + 4 * PDX va) in
  if negb (has e PTE_P) then kret (u32 (-1))
  else
    let! p := KADDR (PTE_ADDR e) in
    let! e := read32 (p + 4 * PTX va) in
    if negb (has e PTE_P) then kret (u32 (-1)) else kret (PTE_ADDR e).

Definition mmio_map_region (pa size : Z) : M Z := panic "mmio_map_region not implemented".

(** ** user_mem_check *)

Definition umc_err (va pte : Z) : M Z :=
  let! a := get user_mem_check_addr in
  (if a =? va then modify (set_user_mem_check_addr va)
   else let! v := read32 pte in modify (set_user_mem_check_addr v)) ;;
  kret (- E_FAULT).

Fixpoint umc_loop (fuel : nat) (pgdir va end_va perm : Z) : M Z :=
  let! a := get user_mem_check_addr in
  if negb (a <? end_va) then kret 0
  else match fuel with
  | O => crash_with OutOfFuel
  | S fuel =>
      let! pte := pgdir_walk pgdir a false in
      if pte =? 0 then umc_err va pte
      else if ULIM <? a then umc_err va pte
      else
        let! e := read32 pte in
        if negb (Z.land e perm =? perm) then umc_err va pte
        else
          modify (set_user_mem_check_addr (u32 (a + PGSIZE))) ;;
          umc_loop fuel pgdir va end_va perm
  end.

(** [env] is an index into [envs].  The loop makes at most one iteration per
    page of [va, end_va). *)
Definition user_mem_check (env va len perm : Z) : M Z :=
  let end_va := ROUNDUP (u32 (va + len)) PGSIZE in
  let perm := Z.lor perm PTE_P in
  modify (set_user_mem_check_addr va) ;;
  let! e := get_env env in
  umc_loop (Z.to_nat ((end_va - va) / PGSIZE + 1)) (env_pgdir e) va end_va perm.

(** ** The abstract view of an address space

    [tbl s d i] is the page-table page directory entry [i] of the directory in
    page [d] points to; [trans s d va] is the page and flag bits virtual address
    [va] is mapped to. *)

Definition pde_addr (d i : Z) : Z := page_kva d + 4 * i.
Definition pte_addr (t va : Z) : Z := page_kva t + 4 * PTX va.

Definition entry (e : Z) : option (Z * Z) :=
  if has e PTE_P then Some (PTE_ADDR e / PGSIZE, e mod PGSIZE) else None.

Definition tbl (s : kstate) (d i : Z) : option Z := fst <$> entry (ld32 (kmem s) (pde_addr d i)).

Definition trans (s : kstate) (d va : Z) : option (Z * Z) :=
  match tbl s d (PDX va) with
  | Some t => entry (ld32 (kmem s) (pte_addr t va))
  | None => None
  end.

(** A directory whose tables are distinct allocated pages.  The slot of UVPT
    maps the directory into itself and is not a table. *)
Record pgdir_ok (s : kstate) (l : list Z) (d : Z) : Prop := {
  pd_range : 0 <= d < npages s;
  pd_alloc : d ∉ l;
  pd_tbl : forall i t, 0 <= i < NPDENTRIES -> i <> PDX UVPT -> tbl s d i = Some t ->
             0 <= t < npages s /\ (t ∉ l) /\ t <> d;
  pd_inj : forall i j t, 0 <= i < NPDENTRIES -> 0 <= j < NPDENTRIES -> i <> PDX UVPT -> j <> PDX UVPT ->
             tbl s d i = Some t -> tbl s d j = Some t -> i = j }.

(** Page [i] is neither the directory nor one of its tables. *)
Definition data_page (s : kstate) (d i : Z) : Prop :=
  i <> d /\ forall j, 0 <= j < NPDENTRIES -> j <> PDX UVPT -> tbl s d j <> Some i.

(** ** Memory facts *)

Lemma entry_make n f :
  0 <= n < 2 ^ 20 -> 0 <= f < PGSIZE -> has f PTE_P = true -> entry (n * PGSIZE + f) = Some (n, f).
Proof.
  unfold PGSIZE, entry. intros Hn Hf Hp. rewrite has_P_make, Hp, PTE_ADDR_make by done.
  unfold PGSIZE. rewrite Z.div_mul by done. do 2 f_equal. word_lia.
Qed.

Lemma entry_0 : entry 0 = None.
Proof. done. Qed.

Lemma entry_Some e t f :
  is_u32 e -> entry e = Some (t, f) ->
  has e PTE_P = true /\ PTE_ADDR e = t * PGSIZE /\ 0 <= t < 2 ^ 20 /\ 0 <= f < PGSIZE.
Proof.
  unfold entry, PGSIZE. intros He H. destruct (has e PTE_P); simplify_eq.
  rewrite PTE_ADDR_eq by done. split; [done|]. word_lia.
Qed.

Lemma entry_None e : entry e = None -> has e PTE_P = false.
Proof. unfold entry. by destruct (has e PTE_P). Qed.

Lemma pages_disjoint i j o : i <> j -> 0 <= o -> o + 4 <= PGSIZE ->
  page_kva i + o + 4 <= page_kva j \/ page_kva j + PGSIZE <= page_kva i + o.
Proof. unfold page_kva, PGSIZE. lia. Qed.

Lemma pde_in_page i : 0 <= i < NPDENTRIES -> 0 <= 4 * i /\ 4 * i + 4 <= PGSIZE.
Proof. unfold NPDENTRIES, PGSIZE. lia. Qed.

Lemma ptx_in_page va : 0 <= 4 * PTX va /\ 4 * PTX va + 4 <= PGSIZE.
Proof. pose proof (PTX_range va). unfold PGSIZE. lia. Qed.

(** [same_page s s' i]: the two states agree on the bytes of page [i]. *)
Definition same_page (s s' : kstate) (i : Z) : Prop :=
  forall x, page_kva i <= x < page_kva i + PGSIZE -> kmem s x = kmem s' x.

Lemma tbl_ext s s' d i : 0 <= i < NPDENTRIES -> same_page s s' d -> tbl s d i = tbl s' d i.
Proof.
  intros Hi Hs. unfold tbl, pde_addr. pose proof (pde_in_page i Hi).
  rewrite (ld32_ext (kmem s) (kmem s')); [done|]. intros x Hx. apply Hs. lia.
Qed.

Lemma PDX_in va : 0 <= PDX va < NPDENTRIES.
Proof. apply PDX_range. Qed.

Lemma trans_ext s s' d va :
  same_page s s' d -> (forall t, tbl s d (PDX va) = Some t -> same_page s s' t) ->
  trans s d va = trans s' d va.
Proof.
  intros Hd Ht. unfold trans. rewrite <- (tbl_ext s s') by (apply PDX_in || done).
  destruct (tbl s d (PDX va)) as [t|]; simpl; [|done].
  unfold pte_addr. pose proof (ptx_in_page va).
  rewrite (ld32_ext (kmem s) (kmem s')); [done|]. intros x Hx. apply (Ht t); [done|lia].
Qed.

(** The invariant depends on the directory's bytes and on the free list only. *)
Lemma pgdir_ok_ext s s' l l' d :
  pgdir_ok s l d -> npages s' = npages s -> same_page s s' d -> (forall i, i ∈ l' -> i ∈ l) ->
  pgdir_ok s' l' d.
Proof.
  intros [H1 H2 H3 H4] Hn Hs Hl. split.
  - by rewrite Hn.
  - intros Hd. by apply H2, Hl.
  - intros i t Hi Hu Ht. rewrite <- (tbl_ext s s') in Ht by done. rewrite Hn.
    destruct (H3 i t Hi Hu Ht) as (? & Htl & ?). split_and!; try lia. by intros ?%Hl.
  - intros i j t Hi Hj Hui Huj Hti Htj. rewrite <- (tbl_ext s s') in Hti, Htj by done. eauto.
Qed.

Lemma data_page_ext s s' d i : same_page s s' d -> data_page s d i -> data_page s' d i.
Proof.
  intros Hs [Hd Ht]. split; [done|]. intros j Hj Hu. rewrite <- (tbl_ext s s') by done. by apply Ht.
Qed.

Section Walk.
Context (s : kstate) (l : list Z) (d : Z).
Hypothesis Hwf : mem_wf s.
Hypothesis Hpd : pgdir_ok s l d.

Lemma page_kva_range i : 0 <= i < npages s -> KERNBASE <= page_kva i /\ page_kva i + PGSIZE <= 2 ^ 32.
Proof. pose proof (wf_npages _ Hwf). unfold page_kva, KERNBASE, PGSIZE. lia. Qed.

Lemma read_pde va :
  read32 (page_kva d + 4 * PDX va) s = Ret (ld32 (kmem s) (pde_addr d (PDX va))) s.
Proof.
  pose proof (page_kva_range d (pd_range _ _ _ Hpd)) as Hk.
  pose proof (PDX_range va). unfold pde_addr. apply read32_eq. lia.
Qed.

Lemma entry_word a : is_u32 (ld32 (kmem s) a).
Proof. apply ld32_range, Hwf. Qed.

(** *** pgdir_walk on each of its paths *)

Lemma walk_present va c t :
  PDX va <> PDX UVPT -> tbl s d (PDX va) = Some t ->
  pgdir_walk (page_kva d) va c s = Ret (pte_addr t va) s.
Proof.
  intros Hu Ht. destruct (pd_tbl _ _ _ Hpd _ _ (PDX_in va) Hu Ht) as (Hr & _ & _).
  unfold pgdir_walk. mstep (read_pde va). unfold tbl in Ht.
  destruct (entry _) as [[t' f]|] eqn:He; simplify_eq/=.
  apply entry_Some in He as (-> & Ha & _); [|apply entry_word].
  assert (KADDR (PTE_ADDR (ld32 (kmem s) (pde_addr d (PDX va)))) s = Ret (page_kva t) s) as Hk.
  { rewrite Ha, KADDR_eq by (done || unfold PGSIZE; lia). unfold page_kva. f_equal. lia. }
  by mstep Hk.
Qed.

Lemma walk_absent va : tbl s d (PDX va) = None -> pgdir_walk (page_kva d) va false s = Ret 0 s.
Proof.
  intros Ht. unfold pgdir_walk. mstep (read_pde va). unfold tbl in Ht.
  destruct (entry _) eqn:He; simplify_eq/=. by rewrite (entry_None _ He).
Qed.

Lemma walk_nomem va :
  free_ok s [] -> tbl s d (PDX va) = None -> pgdir_walk (page_kva d) va true s = Ret 0 s.
Proof.
  intros Hf Ht. unfold pgdir_walk. mstep (read_pde va). unfold tbl in Ht.
  destruct (entry _) eqn:He; simplify_eq/=. rewrite (entry_None _ He). simpl.
  by mstep (page_alloc_nil ALLOC_ZERO s Hf).
Qed.
End Walk.


(** ** What a page-table operation leaves alone

    [mm_frame s s']: only memory, the page table entries' bookkeeping, the
    free list and the flush log may differ. *)

Definition mm_frame (s s' : kstate) : Prop :=
  s' = set_kmem (kmem s') (set_pages (pages s') (set_page_free_list (page_free_list s')
         (set_tlb_flushed (tlb_flushed s') s))).

#[export] Instance mm_frame_po : PreOrder mm_frame.
Proof.
  split; [by intros []|]. unfold mm_frame. intros s1 s2 s3 H1 H2. rewrite H2 at 1. by rewrite H1.
Qed.

Lemma mm_npages s s' : mm_frame s s' -> npages s' = npages s.
Proof. intros H. exact (f_equal npages H). Qed.
Lemma mm_cpus s s' : mm_frame s s' -> cpus s' = cpus s.
Proof. intros H. exact (f_equal cpus H). Qed.
Lemma mm_cpunum s s' : mm_frame s s' -> cpunum s' = cpunum s.
Proof. intros H. exact (f_equal cpunum H). Qed.
Lemma mm_envs s s' : mm_frame s s' -> envs s' = envs s.
Proof. intros H. exact (f_equal envs H). Qed.
Lemma mm_env_free_list s s' : mm_frame s s' -> env_free_list s' = env_free_list s.
Proof. intros H. exact (f_equal env_free_list H). Qed.

Create Rewrite HintDb mm.
#[export] Hint Rewrite mm_npages mm_cpus mm_cpunum mm_envs mm_env_free_list using eassumption : mm.

(** [thiscpu] exists, and [curenv] is NULL or an element of [envs]. *)
Definition cpu_ok (s : kstate) : Prop :=
  exists c, cpus s !! cpunum s = Some c /\ forall i, cpu_env c = Some i -> is_Some (envs s !! i).

Lemma cpu_ok_mm s s' : mm_frame s s' -> cpu_ok s -> cpu_ok s'.
Proof. intros Hf (c & H1 & H2). exists c. by rewrite (mm_cpus _ _ Hf), (mm_cpunum _ _ Hf), (mm_envs _ _ Hf). Qed.

Lemma tlb_invalidate_ok pgdir va s :
  cpu_ok s -> exists fl, tlb_invalidate pgdir va s = Ret tt (set_tlb_flushed fl s).
Proof.
  intros (c & Hc & Henv). unfold tlb_invalidate. mstep (curenv_eq _ _ Hc).
  assert (Ret tt s = Ret tt (set_tlb_flushed (tlb_flushed s) s)) as Hs by by destruct s.
  destruct (cpu_env c) as [i|].
  - destruct (Henv i eq_refl) as [e He]. rewrite bind_assoc. mstep (get_env_eq _ _ _ He). mrun.
    destruct (_ =? _); [by eexists|]. eauto.
  - mrun. by eexists.
Qed.

(** ** Reference counts *)

Definition refs (s : kstate) (i : Z) : Z := default 0 (pp_ref <$> pages s !! i).

Lemma free_ok_ext s s' l :
  pages s' = pages s -> page_free_list s' = page_free_list s -> free_ok s l -> free_ok s' l.
Proof. intros Hp Hl [Hc Hu]. split; unfold free_list, unref; by rewrite ?Hp, ?Hl. Qed.

Lemma mem_wf_ext s s' : npages s' = npages s -> pages s' = pages s -> kmem s' = kmem s -> mem_wf s -> mem_wf s'.
Proof. intros Hn Hp Hm [H1 H2 H3]. split; [|intros i|]; by rewrite ?Hn, ?Hp, ?Hm. Qed.

Lemma refs_free s l i : free_ok s l -> i ∈ l -> refs s i = 0.
Proof. intros Hf Hi. destruct (fo_unref _ _ Hf i Hi) as (p & Hp & Hr). unfold refs. by rewrite Hp. Qed.

(** What [page_decref] of a referenced page leaves. *)
Record decref_post (i : Z) (l : list Z) (s s' : kstate) : Prop := {
  dr_wf : mem_wf s';
  dr_free : free_ok s' (if decide (refs s i = 1) then i :: l else l);
  dr_kmem : kmem s' = kmem s;
  dr_refs : forall j, refs s' j = refs s j - (if decide (j = i) then 1 else 0);
  dr_mm : mm_frame s s' }.

Lemma page_decref_post i l s :
  mem_wf s -> free_ok s l -> i ∉ l -> 0 <= i < npages s -> 1 <= refs s i < 65536 ->
  exists s', page_decref i s = Ret tt s' /\ decref_post i l s s'.
Proof.
  intros Hwf Hf Hi Hr Href. destruct (mem_wf_lookup _ _ Hwf Hr) as [p Hp].
  assert (refs s i = pp_ref p) as Hrp by (unfold refs; by rewrite Hp). rewrite Hrp in Href.
  destruct (decide (pp_ref p = 1)) as [H1|H1].
  - eexists. split; [apply (page_decref_free i p s Hp); rewrite H1; done|].
    split; [by apply after_free_wf| |done| |done].
    + rewrite decide_True by lia. by apply after_free_ok.
    + intros j. unfold refs, after_free; simpl. case_decide; subst.
      * rewrite lookup_insert_eq, Hp. simpl. lia.
      * rewrite lookup_insert_ne by done. lia.
  - assert (u16 (pp_ref p - 1) = pp_ref p - 1) as Hu by (apply u16_id; lia).
    eexists. split; [apply (page_decref_keep i p s Hp); lia|].
    split; [by apply mem_wf_put_page| |done| |done].
    + rewrite decide_False by lia. by apply free_ok_put.
    + intros j. unfold refs; simpl. case_decide; subst.
      * rewrite lookup_insert_eq, Hp. simpl. lia.
      * rewrite lookup_insert_ne by done. lia.
Qed.

(** ** Storing one table entry *)

Lemma st32_same_page s s' i a w :
  kmem s' = st32 (kmem s) a w -> a + 4 <= page_kva i \/ page_kva i + PGSIZE <= a -> same_page s s' i.
Proof. intros Hm Ha x Hx. rewrite Hm, st32_out; [done|lia]. Qed.

Lemma pte_same_page s s' t va w i :
  kmem s' = st32 (kmem s) (pte_addr t va) w -> i <> t -> same_page s s' i.
Proof.
  intros Hm Hi. pose proof (ptx_in_page va). eapply st32_same_page; [done|].
  unfold pte_addr. pose proof (pages_disjoint t i (4 * PTX va)). lia.
Qed.

(** The part of an address that selects its mapping. *)
Lemma same_slot va va' :
  is_u32 va -> is_u32 va' -> PDX va = PDX va' -> PTX va = PTX va' -> PGNUM va = PGNUM va'.
Proof.
  intros H H' Hd Ht. rewrite !PDX_eq in Hd by done. rewrite !PTX_eq in Ht by done.
  rewrite !PGNUM_eq by done. word_lia.
Qed.

Lemma slot_same va va' :
  is_u32 va -> is_u32 va' -> PGNUM va = PGNUM va' -> PDX va = PDX va' /\ PTX va = PTX va'.
Proof.
  intros H H'. rewrite !PGNUM_eq, !PDX_eq, !PTX_eq by done. word_lia.
Qed.

Section StorePte.
Context (s s' : kstate) (l : list Z) (d va t w : Z).
Hypothesis Hpd : pgdir_ok s l d.
Hypothesis Hu : PDX va <> PDX UVPT.
Hypothesis Ht : tbl s d (PDX va) = Some t.
Hypothesis Hm : kmem s' = st32 (kmem s) (pte_addr t va) w.

Lemma store_same_dir : same_page s s' d.
Proof.
  eapply pte_same_page; [done|]. destruct (pd_tbl _ _ _ Hpd _ _ (PDX_in va) Hu Ht) as (_ & _ & ?). done.
Qed.

Lemma store_tbl i : 0 <= i < NPDENTRIES -> tbl s' d i = tbl s d i.
Proof. intros. symmetry. by apply tbl_ext, store_same_dir. Qed.

Lemma store_pde i : 0 <= i < NPDENTRIES -> ld32 (kmem s') (pde_addr d i) = ld32 (kmem s) (pde_addr d i).
Proof.
  intros Hi. pose proof (pde_in_page i Hi). apply ld32_ext. intros x Hx. symmetry.
  apply store_same_dir. unfold pde_addr in Hx. lia.
Qed.

Lemma store_trans_eq va' :
  is_u32 va -> is_u32 va' -> PGNUM va' = PGNUM va -> trans s' d va' = entry (u32 w).
Proof.
  intros Hv Hv' Hp. destruct (slot_same va' va) as [Hd Hx]; try done.
  unfold trans. rewrite store_tbl by apply PDX_in. rewrite Hd, Ht. unfold pte_addr.
  rewrite Hx, Hm. by rewrite ld32_st32_eq.
Qed.

Lemma store_trans_ne va' :
  is_u32 va -> is_u32 va' -> PDX va' <> PDX UVPT -> PGNUM va' <> PGNUM va ->
  trans s' d va' = trans s d va'.
Proof.
  intros Hv Hv' Hu' Hp. unfold trans. rewrite store_tbl by apply PDX_in.
  destruct (tbl s d (PDX va')) as [t'|] eqn:Ht'; [|done].
  destruct (decide (t' = t)) as [->|Hne].
  - pose proof (pd_inj _ _ _ Hpd _ _ _ (PDX_in va') (PDX_in va) Hu' Hu Ht' Ht) as Hd.
    rewrite Hm. unfold pte_addr. rewrite ld32_st32_ne; [done|].
    destruct (decide (PTX va = PTX va')); [|lia].
    exfalso. apply Hp, same_slot; done.
  - pose proof (pte_same_page _ _ _ _ _ t' Hm Hne) as Hs. pose proof (ptx_in_page va').
    unfold pte_addr in *. rewrite (ld32_ext (kmem s) (kmem s')); [done|].
    intros x Hx. apply Hs. lia.
Qed.
End StorePte.

(** ** pgdir_walk creating a table *)

(** A slot of the directory that a user program can reach memory through when it
    is present: the page directory entry grants user and write access. *)
Definition user_slot (s : kstate) (d i : Z) : Prop :=
  tbl s d i = None \/ Z.land (ld32 (kmem s) (pde_addr d i)) 7 = 7.

Record walk_post (s : kstate) (l : list Z) (d va n : Z) (s' : kstate) : Prop := {
  wk_wf : mem_wf s';
  wk_free : free_ok s' l;
  wk_pd : pgdir_ok s' l d;
  wk_tbl : tbl s' d (PDX va) = Some n;
  wk_pde : forall i, 0 <= i < NPDENTRIES -> i <> PDX va ->
             ld32 (kmem s') (pde_addr d i) = ld32 (kmem s) (pde_addr d i);
  wk_trans : forall va', PDX va' <> PDX UVPT -> trans s' d va' = trans s d va';
  wk_refs : forall j, refs s' j = refs s j + (if decide (j = n) then 1 else 0);
  wk_mem : forall i, i <> d -> i <> n -> same_page s s' i;
  wk_user : forall i, 0 <= i < NPDENTRIES -> user_slot s d i -> user_slot s' d i;
  wk_mm : mm_frame s s' }.

Arguments wk_wf {_ _ _ _ _ _} _.
Arguments wk_free {_ _ _ _ _ _} _.
Arguments wk_pd {_ _ _ _ _ _} _.
Arguments wk_tbl {_ _ _ _ _ _} _.
Arguments wk_mm {_ _ _ _ _ _} _.

Section Create.
Context (s : kstate) (l : list Z) (d va n : Z) (p : PageInfo).
Hypothesis Hwf : mem_wf s.
Hypothesis Hf : free_ok s (n :: l).
Hypothesis Hpd : pgdir_ok s (n :: l) d.
Hypothesis Hu : PDX va <> PDX UVPT.
Hypothesis Habs : tbl s d (PDX va) = None.
Hypothesis Hp : pages s !! n = Some p.

Definition new_pde : Z := Z.lor (Z.lor (Z.lor (n * PGSIZE) PTE_P) PTE_W) PTE_U.

Definition after_walk : kstate :=
  let s1 := after_alloc true n l s in
  let s2 := set_pages (<[n := {| pp_link := pp_link p; pp_ref := u16 (pp_ref p + 1) |}]> (pages s1)) s1 in
  set_kmem (st32 (kmem s2) (pde_addr d (PDX va)) new_pde) s2.

Lemma create_range : 0 <= n < npages s.
Proof. apply (free_ok_range s (n :: l)); [done..|by left]. Qed.

Lemma create_ne : n <> d.
Proof. intros <-. apply (pd_alloc _ _ _ Hpd). by left. Qed.

Lemma new_pde_eq : new_pde = n * PGSIZE + 7.
Proof. unfold new_pde. rewrite <- !Z.lor_assoc. change (Z.lor PTE_P (Z.lor PTE_W PTE_U)) with 7. 
  apply (lor_flags n 7 12); [lia|done]. Qed.

Lemma walk_create : pgdir_walk (page_kva d) va true s = Ret (pte_addr n va) after_walk.
Proof.
  pose proof create_range as Hr. pose proof (page_kva_range s Hwf n Hr) as Hk. 
  pose proof (page_kva_range s Hwf d (pd_range _ _ _ Hpd)) as Hkd. pose proof (PDX_range va).
  unfold pgdir_walk. mstep (read_pde s _ d Hwf Hpd va). unfold tbl in Habs.
  destruct (entry _) eqn:He; simplify_eq/=. rewrite (entry_None _ He). simpl.
  mstep (page_alloc_cons ALLOC_ZERO s n l Hwf Hf). change (has ALLOC_ZERO ALLOC_ZERO) with true.
  pose proof (after_alloc_wf true n l s Hwf) as Hwf1.
  mstep (page2kva_eq n _ Hwf1 Hr). 
  rewrite (proj2 (Z.eqb_neq (page_kva n) 0)) by (unfold KERNBASE in *; lia).
  mstep (get_page_eq n p (after_alloc true n l s) Hp). unfold put_page. mrun.
  rewrite (bind_Ret _ _ _ _ _ (PADDR_page n _ (mem_wf_put_page _ n _ Hwf1 Hr) Hr)).
  rewrite (bind_Ret _ _ _ _ _ (write32_eq (page_kva d + 4 * PDX va) _ _ ltac:(lia))). done.
Qed.

Lemma after_walk_mem : kmem after_walk =
  st32 (memset (kmem s) (page_kva n) 0 PGSIZE) (pde_addr d (PDX va)) new_pde.
Proof. done. Qed.

Lemma after_walk_mm : mm_frame s after_walk.
Proof. done. Qed.

Lemma after_walk_same i : i <> d -> i <> n -> same_page s after_walk i.
Proof.
  intros Hid Hin x Hx. rewrite after_walk_mem. pose proof (pde_in_page _ (PDX_in va)).
  pose proof (pages_disjoint d i (4 * PDX va)). unfold pde_addr.
  rewrite st32_out by lia. pose proof (pages_disjoint n i 0). unfold page_kva, PGSIZE in *.
  rewrite memset_fill by lia. unfold fill. case_bool; try done; lia.
Qed.

Lemma after_walk_pde i :
  0 <= i < NPDENTRIES ->
  ld32 (kmem after_walk) (pde_addr d i) =
    if decide (i = PDX va) then new_pde else ld32 (kmem s) (pde_addr d i).
Proof.
  intros Hi. rewrite after_walk_mem. pose proof create_range. pose proof (wf_npages _ Hwf).
  case_decide as Hd.
  - subst i. rewrite ld32_st32_eq, new_pde_eq. apply u32_id. unfold PGSIZE. lia.
  - unfold pde_addr. rewrite ld32_st32_ne by lia. apply ld32_ext. intros x Hx.
    pose proof create_ne. pose proof (pde_in_page _ Hi). 
    pose proof (pages_disjoint d n (4 * i)). unfold PGSIZE in *.
    rewrite memset_fill by lia. unfold fill. case_bool; try done; unfold page_kva, PGSIZE in *; lia.
Qed.

Lemma after_walk_tbl i :
  0 <= i < NPDENTRIES -> tbl after_walk d i = if decide (i = PDX va) then Some n else tbl s d i.
Proof.
  intros Hi. unfold tbl. rewrite after_walk_pde by done. case_decide; [|done].
  pose proof create_range. pose proof (wf_npages _ Hwf).
  rewrite new_pde_eq, entry_make; [done|lia|done|done].
Qed.

Lemma after_walk_new va' :
  (PDX va' = PDX va /\ trans after_walk d va' = None) \/ PDX va' <> PDX va.
Proof.
  destruct (decide (PDX va' = PDX va)) as [He|]; [left; split; [done|]|by right].
  unfold trans. rewrite after_walk_tbl by apply PDX_in. rewrite decide_True by done.
  assert (ld32 (kmem after_walk) (pte_addr n va') = 0) as ->; [|apply entry_0].
  rewrite after_walk_mem. pose proof create_ne. pose proof (pde_in_page _ (PDX_in va)).
  pose proof (ptx_in_page va'). pose proof (pages_disjoint d n (4 * PDX va)).
  unfold pte_addr, pde_addr. rewrite ld32_st32_ne by (unfold page_kva, PGSIZE in *; lia).
  rewrite (ld32_ext _ (fill (kmem s) (page_kva n) PGSIZE 0)).
  - apply ld32_fill0_in; lia.
  - intros. apply memset_fill. unfold PGSIZE. lia.
Qed.

Lemma walk_create_post : walk_post s l d va n after_walk.
Proof.
  pose proof create_range as Hr. pose proof create_ne as Hne.
  pose proof (after_alloc_wf true n l s Hwf) as Hwf1.
  pose proof (mem_wf_put_page _ n {| pp_link := pp_link p; pp_ref := u16 (pp_ref p + 1) |} Hwf1 Hr) as Hwf2.
  pose proof (free_ok_NoDup _ _ Hf) as [Hnl _]%NoDup_cons.
  assert (forall i, 0 <= i < NPDENTRIES -> i <> PDX UVPT -> tbl s d i <> Some n) as Hnt.
  { intros i Hi Hiu Ht. destruct (pd_tbl _ _ _ Hpd _ _ Hi Hiu Ht) as (_ & H & _). apply H. by left. }
  split.
  - apply mem_wf_kmem; [done|]. apply st32_bytes. apply Hwf2.
  - by refine (free_ok_ext _ _ _ _ _ (free_ok_put n _ l _ Hnl (after_alloc_free true n l s Hf))).
  - destruct Hpd as [P1 P2 P3 P4]. apply not_elem_of_cons in P2 as [_ P2]. split; [done|done| |].
    + intros i t Hi Hiu. rewrite after_walk_tbl by done. case_decide; intros; simplify_eq; [done|].
      destruct (P3 i t) as (? & [_ ?]%not_elem_of_cons & ?); done.
    + intros i j t Hi Hj Hiu Hju. rewrite !after_walk_tbl by done.
      repeat case_decide; intros; simplify_eq; [done|by destruct (Hnt j)|by destruct (Hnt i)|eauto].
  - rewrite after_walk_tbl by apply PDX_in. by rewrite decide_True.
  - intros i Hi Hd. rewrite after_walk_pde by done. by rewrite decide_False.
  - intros va' Hu'. destruct (after_walk_new va') as [[Hd Hn]|Hd].
    + unfold trans at 2. by rewrite Hd, Habs, Hn.
    + unfold trans. rewrite after_walk_tbl, decide_False by (done || apply PDX_in).
      destruct (tbl s d (PDX va')) as [t|] eqn:Ht; [|done].
      destruct (pd_tbl _ _ _ Hpd _ _ (PDX_in va') Hu' Ht) as (_ & [Htn _]%not_elem_of_cons & Htd).
      pose proof (ptx_in_page va'). f_equal. apply ld32_ext. intros x Hx. symmetry.
      apply (after_walk_same t); [done|done|unfold pte_addr in Hx; lia].
  - intros j. unfold refs. simpl. case_decide; subst.
    + rewrite lookup_insert_eq, Hp. simpl. destruct (fo_unref _ _ Hf n ltac:(by left)) as (p' & Hp' & Hr0).
      simplify_eq. rewrite Hr0. done.
    + rewrite lookup_insert_ne by done. lia.
  - intros i Hid Hin. by apply after_walk_same.
  - intros i Hi Hus. unfold user_slot. rewrite after_walk_pde, after_walk_tbl by done.
    case_decide; [right|exact Hus]. rewrite new_pde_eq. unfold PGSIZE. change 7 with (2 ^ 3 - 1) at 2.
    rewrite land_low by lia. word_lia.
  - apply after_walk_mm.
Qed.
End Create.

(** ** One change of a mapping

    [pt_step s s' l' d va m dr]: directory [d] now maps [va]'s page to [m] and
    every other page as before, the free list is [l'], the reference count of
    page [j] grew by [dr j], and only the directory and the table of [va] were
    written. *)

Record pt_step (s s' : kstate) (l' : list Z) (d va : Z) (m : option (Z * Z)) (dr : Z -> Z) : Prop := {
  ps_wf : mem_wf s';
  ps_free : free_ok s' l';
  ps_pd : pgdir_ok s' l' d;
  ps_here : forall va', is_u32 va' -> PGNUM va' = PGNUM va -> trans s' d va' = m;
  ps_else : forall va', is_u32 va' -> PDX va' <> PDX UVPT -> PGNUM va' <> PGNUM va ->
              trans s' d va' = trans s d va';
  ps_refs : forall j, refs s' j = refs s j + dr j;
  ps_tbl : forall i t, 0 <= i < NPDENTRIES -> tbl s d i = Some t -> tbl s' d i = Some t;
  ps_pde : forall i, 0 <= i < NPDENTRIES -> i <> PDX va ->
             ld32 (kmem s') (pde_addr d i) = ld32 (kmem s) (pde_addr d i);
  ps_mem : forall i, i <> d -> tbl s' d (PDX va) <> Some i -> same_page s s' i;
  ps_user : forall i, 0 <= i < NPDENTRIES -> user_slot s d i -> user_slot s' d i;
  ps_mm : mm_frame s s' }.

Arguments ps_wf {_ _ _ _ _ _ _} _.
Arguments ps_free {_ _ _ _ _ _ _} _.
Arguments ps_pd {_ _ _ _ _ _ _} _.
Arguments ps_here {_ _ _ _ _ _ _} _.
Arguments ps_else {_ _ _ _ _ _ _} _.
Arguments ps_refs {_ _ _ _ _ _ _} _.
Arguments ps_tbl {_ _ _ _ _ _ _} _.
Arguments ps_pde {_ _ _ _ _ _ _} _.
Arguments ps_mem {_ _ _ _ _ _ _} _.
Arguments ps_user {_ _ _ _ _ _ _} _.
Arguments ps_mm {_ _ _ _ _ _ _} _.

Lemma ps_tbl_other {s s' l' d va m dr} (S : pt_step s s' l' d va m dr) i :
  0 <= i < NPDENTRIES -> i <> PDX va -> tbl s' d i = tbl s d i.
Proof. intros Hi Hne. unfold tbl. by rewrite (ps_pde S). Qed.

Lemma pt_step_trans s s1 s2 l1 l2 d va m1 m2 dr1 dr2 :
  pt_step s s1 l1 d va m1 dr1 -> pt_step s1 s2 l2 d va m2 dr2 ->
  pt_step s s2 l2 d va m2 (fun j => dr1 j + dr2 j).
Proof.
  intros [] []. split; try done.
  - intros. by rewrite ps_else1, ps_else0.
  - intros. rewrite ps_refs1, ps_refs0. lia.
  - eauto.
  - intros. by rewrite ps_pde1, ps_pde0.
  - intros i Hi Ht x Hx. rewrite (ps_mem0 i Hi); [by apply (ps_mem1 i)| |done].
    intros Ht'. apply Ht, ps_tbl1; [apply PDX_in|done].
  - eauto.
  - by etrans.
Qed.

Lemma pt_step_refs s s' l d va m dr dr' :
  (forall j, dr j = dr' j) -> pt_step s s' l d va m dr -> pt_step s s' l d va m dr'.
Proof. intros He []. split; try done. intros. by rewrite <- He. Qed.

(** Taking the page just freed off the free list again. *)
Lemma pt_step_pop s s' l d va m dr i p :
  pt_step s s' (i :: l) d va m dr -> pages s' !! i = Some p ->
  pt_step s (set_page_free_list (pp_link p) s') l d va m dr.
Proof.
  intros [[] [Hc Hun] ? ? ? ? ? ? ? ? Hmm] Hp.
  assert (mm_frame s' (set_page_free_list (pp_link p) s')) as Hmm' by done.
  split; try done.
  - destruct Hc as (_ & x & Hx & Hc). simplify_eq. split; [done|].
    intros j Hj. apply Hun. by right.
  - eapply pgdir_ok_ext; [done..|]. by right.
  - by etrans.
Qed.

Section SetPte.
Context (s : kstate) (l : list Z) (d va t : Z).
Hypothesis Hwf : mem_wf s.
Hypothesis Hf : free_ok s l.
Hypothesis Hpd : pgdir_ok s l d.
Hypothesis Hcpu : cpu_ok s.
Hypothesis Hva : is_u32 va.
Hypothesis Hu : PDX va <> PDX UVPT.
Hypothesis Ht : tbl s d (PDX va) = Some t.

Lemma pte_kern : KERNBASE <= pte_addr t va.
Proof.
  destruct (pd_tbl _ _ _ Hpd _ _ (PDX_in va) Hu Ht) as (Hr & _ & _).
  pose proof (page_kva_range s Hwf t Hr). pose proof (PTX_range va). unfold pte_addr. lia.
Qed.

(** The step a store of [w] to the entry performs, whatever else it does to the
    page table's bookkeeping. *)
Lemma store_step s' l' w dr :
  kmem s' = st32 (kmem s) (pte_addr t va) w -> mm_frame s s' ->
  (forall i, is_Some (pages s' !! i) <-> is_Some (pages s !! i)) ->
  free_ok s' l' -> (forall i, i ∈ l' -> i ∈ l \/ data_page s d i) ->
  (forall j, refs s' j = refs s j + dr j) ->
  pt_step s s' l' d va (entry (u32 w)) dr.
Proof.
  intros Hm Hmm Hdom Hf' Hl' Hr. pose proof (store_tbl s s' l d va t w Hpd Hu Ht Hm) as Htb.
  split; try done.
  - split; [by rewrite (mm_npages _ _ Hmm); apply Hwf| |rewrite Hm; by apply st32_bytes, Hwf].
    intros i. by rewrite Hdom, (mm_npages _ _ Hmm), (wf_pages _ Hwf).
  - destruct Hpd as [P1 P2 P3 P4]. split; rewrite ?(mm_npages _ _ Hmm); [done| | |].
    + intros [?|[? _]]%Hl'; [done|congruence].
    + intros i t' Hi Hiu. rewrite Htb by done. intros Hti. destruct (P3 i t') as (? & ? & ?); try done.
      split_and!; try lia. intros [?|[_ Hd]]%Hl'; [done|]. by apply (Hd i).
    + intros i j t' Hi Hj Hiu Hju. rewrite !Htb by done. eauto.
  - intros. by apply (store_trans_eq s s' l d va t w).
  - intros. by apply (store_trans_ne s s' l d va t w).
  - intros. by rewrite Htb.
  - intros i Hi _. by apply (store_pde s s' l d va t w Hpd Hu Ht Hm).
  - intros i Hi. rewrite Htb by apply PDX_in. rewrite Ht. intros Hne.
    eapply pte_same_page; [done|]. congruence.
  - intros i Hi. unfold user_slot. by rewrite Htb, (store_pde s s' l d va t w Hpd Hu Ht Hm).
Qed.

Lemma insert_pte_step pp perm :
  pp ∉ l -> 0 <= pp < npages s -> refs s pp < 65535 -> 0 <= refs s pp -> 0 <= perm < PGSIZE ->
  exists s', insert_pte (page_kva d) pp va perm (pte_addr t va) s = Ret 0 s' /\
    pt_step s s' l d va (Some (pp, Z.lor PTE_P perm)) (fun j => if decide (j = pp) then 1 else 0).
Proof.
  intros Hpl Hr Href Href0 Hperm. destruct (mem_wf_lookup _ _ Hwf Hr) as [p Hp].
  pose proof (wf_npages _ Hwf) as Hn. unfold insert_pte.
  rewrite page2pa_eq by lia.
  assert (0 <= Z.lor PTE_P perm < PGSIZE) as Hfl by (by apply (lor_range _ _ 12)).
  rewrite <- Z.lor_assoc.
  assert (Z.lor (pp * PGSIZE) (Z.lor PTE_P perm) = pp * PGSIZE + Z.lor PTE_P perm) as Hw
    by (apply (lor_flags _ _ 12); [lia|done]).
  rewrite Hw. mstep (write32_eq _ (pp * PGSIZE + Z.lor PTE_P perm) s pte_kern).
  rewrite (bind_Ret _ _ _ _ _ (get_page_eq pp p (set_kmem _ s) Hp)). unfold put_page. mrun.
  set (s1 := set_pages _ _). 
  assert (cpu_ok s1) as Hcpu1 by by apply (cpu_ok_mm s).
  destruct (tlb_invalidate_ok (page_kva d) va s1 Hcpu1) as [fl Hfl1]. mstep Hfl1.
  eexists. split; [done|].
  assert (u32 (pp * PGSIZE + Z.lor PTE_P perm) = pp * PGSIZE + Z.lor PTE_P perm) as Hu32
    by (apply u32_id; unfold PGSIZE in *; lia).
  assert (has (Z.lor PTE_P perm) PTE_P = true) as Hpp.
  { by rewrite has_P, Z.lor_spec. }
  rewrite <- (entry_make pp (Z.lor PTE_P perm)), <- Hu32 by (done || lia).
  eapply store_step; [done|done| | |by left|].
  - intros i. subst s1. simpl. destruct (decide (pp = i)) as [->|].
    + rewrite lookup_insert_eq, Hp. split; eauto.
    + by rewrite lookup_insert_ne.
  - by refine (free_ok_ext _ _ _ _ _ (free_ok_put pp _ l s Hpl Hf)).
  - intros j. subst s1. unfold refs in *. simpl. case_decide; subst.
    + rewrite lookup_insert_eq, Hp in *. simpl in *. rewrite u16_id by lia. lia.
    + rewrite lookup_insert_ne by done. lia.
Qed.

(** The counter is 16 bits wide: the 65536th mapping of a page makes it 0. *)
Lemma page_ref_wraps pp perm :
  0 <= pp < npages s -> refs s pp = 65535 ->
  exists s', insert_pte (page_kva d) pp va perm (pte_addr t va) s = Ret 0 s' /\ refs s' pp = 0 /\
    kmem s' = st32 (kmem s) (pte_addr t va) (Z.lor (Z.lor (page2pa pp) PTE_P) perm).
Proof.
  intros Hr Href. destruct (mem_wf_lookup _ _ Hwf Hr) as [p Hp]. unfold insert_pte.
  mstep (write32_eq _ (Z.lor (Z.lor (page2pa pp) PTE_P) perm) s pte_kern).
  rewrite (bind_Ret _ _ _ _ _ (get_page_eq pp p (set_kmem _ s) Hp)). unfold put_page. mrun.
  set (s1 := set_pages _ _). assert (cpu_ok s1) as Hcpu1 by by apply (cpu_ok_mm s).
  destruct (tlb_invalidate_ok (page_kva d) va s1 Hcpu1) as [fl Hfl1]. mstep Hfl1.
  eexists. split; [done|]. split; [|done]. unfold refs in *. subst s1. simpl.
  rewrite lookup_insert_eq. rewrite Hp in Href. simpl in *. by rewrite Href.
Qed.
End SetPte.

(** ** page_lookup and page_remove *)

Section Remove.
Context (s : kstate) (l : list Z) (d va t : Z).
Hypothesis Hwf : mem_wf s.
Hypothesis Hf : free_ok s l.
Hypothesis Hpd : pgdir_ok s l d.
Hypothesis Hcpu : cpu_ok s.
Hypothesis Hva : is_u32 va.
Hypothesis Hu : PDX va <> PDX UVPT.
Hypothesis Ht : tbl s d (PDX va) = Some t.

(** The page number in the entry, whether or not the entry is present. *)
Definition slot_page : Z := PTE_ADDR (ld32 (kmem s) (pte_addr t va)) / PGSIZE.

Lemma page_lookup_eq :
  slot_page < npages s -> page_lookup (page_kva d) va s = Ret (Some (slot_page, pte_addr t va)) s.
Proof.
  intros Hs. pose proof (entry_word s Hwf (pte_addr t va)) as Hw.
  pose proof (pte_kern s l d va t Hwf Hpd Hu Ht) as Hk. unfold page_lookup.
  mstep (walk_present s l d Hwf Hpd va false t Hu Ht).
  rewrite (proj2 (Z.eqb_neq (pte_addr t va) 0)) by (unfold KERNBASE in *; lia).
  mstep (read32_eq (pte_addr t va) s Hk).
  unfold slot_page in *. rewrite PTE_ADDR_eq in * by done. unfold PGSIZE in *.
  assert (0 <= ld32 (kmem s) (pte_addr t va) - ld32 (kmem s) (pte_addr t va) mod 4096 < npages s * PGSIZE)
    as Hr by (unfold PGSIZE; word_lia).
  by mstep (pa2page_eq _ s Hwf Hr).
Qed.

Lemma page_remove_step :
  slot_page ∉ l -> data_page s d slot_page -> 0 <= slot_page < npages s -> 1 <= refs s slot_page < 65536 ->
  exists s', page_remove (page_kva d) va s = Ret tt s' /\
    pt_step s s' (if decide (refs s slot_page = 1) then slot_page :: l else l) d va None
      (fun j => if decide (j = slot_page) then -1 else 0).
Proof.
  intros Hl Hd Hr Href. pose proof (pte_kern s l d va t Hwf Hpd Hu Ht) as Hk. unfold page_remove.
  mstep (walk_present s l d Hwf Hpd va false t Hu Ht).
  mstep (page_lookup_eq ltac:(lia)).
  destruct (page_decref_post slot_page l s Hwf Hf Hl Hr Href) as (s1 & H1 & D). mstep H1.
  mstep (write32_eq (pte_addr t va) 0 s1 Hk).
  set (s2 := set_kmem _ s1).
  assert (cpu_ok s2) as Hcpu2 by (apply (cpu_ok_mm s); [|done]; by etrans; [apply (dr_mm _ _ _ _ D)|]).
  destruct (tlb_invalidate_ok (page_kva d) va s2 Hcpu2) as [fl Hfl]. rewrite Hfl.
  eexists. split; [done|]. rewrite <- entry_0. change (entry 0) with (entry (u32 0)).
  destruct D as [D1 D2 D3 D4 D5]. eapply (store_step s l d va t).
  all: try done.
  - simpl. by rewrite D3.
  - by etrans; [exact D5|].
  - intros i. simpl. by rewrite (wf_pages _ D1), (wf_pages _ Hwf), (mm_npages _ _ D5).
  - by refine (free_ok_ext s1 _ _ _ _ D2).
  - intros i. case_decide; [|by left]. intros [->|?]%elem_of_cons; [by right|by left].
  - intros j. change (refs (set_tlb_flushed fl s2) j) with (refs s1 j). rewrite D4.
    repeat case_decide; lia.
Qed.
End Remove.

(** A mapped page that can be unmapped: it is an allocated page, referenced,
    and not part of the page table itself. *)
Record mapped_ok (s : kstate) (l : list Z) (d o : Z) : Prop := {
  mo_range : 0 <= o < npages s;
  mo_alloc : o ∉ l;
  mo_data : data_page s d o;
  mo_refs : 1 <= refs s o < 65536 }.

Definition b2z (P : Prop) `{Decision P} : Z := if decide P then 1 else 0.

Lemma trans_slot s d va o f :
  mem_wf s -> trans s d va = Some (o, f) ->
  exists t, tbl s d (PDX va) = Some t /\ slot_page s va t = o /\
    has (ld32 (kmem s) (pte_addr t va)) PTE_P = true /\
    ld32 (kmem s) (pte_addr t va) mod PGSIZE = f.
Proof.
  intros Hwf. unfold trans, slot_page, entry. destruct (tbl _ _ _) as [t|]; [|done].
  destruct (has _ _) eqn:Hp; [|done]. intros [= <- <-]. eauto.
Qed.

Lemma page_remove_spec (s : kstate) (l : list Z) (d va o f : Z) :
  mem_wf s -> free_ok s l -> pgdir_ok s l d -> cpu_ok s -> is_u32 va -> PDX va <> PDX UVPT ->
  trans s d va = Some (o, f) -> mapped_ok s l d o ->
  exists s', page_remove (page_kva d) va s = Ret tt s' /\
    pt_step s s' (if decide (refs s o = 1) then o :: l else l) d va None (fun j => - b2z (j = o)).
Proof.
  intros Hwf Hf Hpd Hcpu Hva Hu Htr [M1 M2 M3 M4].
  destruct (trans_slot _ _ _ _ _ Hwf Htr) as (t & Ht & <- & _).
  destruct (page_remove_step s l d va t Hwf Hf Hpd Hcpu Hva Hu Ht M2 M3 M1 M4) as (s' & H1 & H2).
  exists s'. split; [done|]. eapply pt_step_refs; [|exact H2].
  intros j. simpl. unfold b2z. repeat case_decide; lia.
Qed.

(** C22. [page_remove] of a mapped address unmaps that page and no other, drops
    one reference of the page that was there, and puts it on the free list
    exactly when that was the last one. *)
Theorem page_remove_correct (s : kstate) (l : list Z) (d va o f : Z) :
  mem_wf s -> free_ok s l -> pgdir_ok s l d -> cpu_ok s -> is_u32 va -> PDX va <> PDX UVPT ->
  trans s d va = Some (o, f) -> mapped_ok s l d o ->
  exists s', page_remove (page_kva d) va s = Ret tt s' /\
    pt_step s s' (if decide (refs s o = 1) then o :: l else l) d va None (fun j => - b2z (j = o)).
Proof. apply page_remove_spec. Qed.

(** [page_lookup] reads the page out of a page-table entry without testing
    its present bit: at an address whose table exists but whose entry is 0 it
    reports page 0.  [page_remove] of such an address takes a reference away
    from page 0, and when [page_init]'s single reference was left, hands page 0
    (the real-mode interrupt vectors) to the allocator. *)
Theorem page_remove_unmapped_frees_page0 (s : kstate) (l : list Z) (d va t : Z) :
  mem_wf s -> free_ok s l -> pgdir_ok s l d -> cpu_ok s -> is_u32 va -> PDX va <> PDX UVPT ->
  tbl s d (PDX va) = Some t -> ld32 (kmem s) (pte_addr t va) = 0 ->
  0 < npages s -> 0 ∉ l -> data_page s d 0 -> refs s 0 = 1 ->
  page_lookup (page_kva d) va s = Ret (Some (0, pte_addr t va)) s /\
  exists s', page_remove (page_kva d) va s = Ret tt s' /\ free_ok s' (0 :: l).
Proof.
  intros Hwf Hf Hpd Hcpu Hva Hu Ht Hz Hn Hl Hd Hr.
  assert (slot_page s va t = 0) as Hs by (unfold slot_page; by rewrite Hz).
  split; [rewrite <- Hs; by apply (page_lookup_eq s l d va t); rewrite ?Hs|].
  destruct (page_remove_step s l d va t Hwf Hf Hpd Hcpu Hva Hu Ht) as (s' & H1 & H2);
    rewrite ?Hs; try lia; try done.
  exists s'. split; [done|]. apply (@ps_free _ _ _ _ _ _ _) in H2. by rewrite Hs, decide_True in H2.
Qed.

(** ** page_insert *)

Lemma walk_step s l d va n s' :
  walk_post s l d va n s' -> tbl s d (PDX va) = None -> pgdir_ok s (n :: l) d ->
  is_u32 va -> PDX va <> PDX UVPT ->
  pt_step s s' l d va None (fun j => b2z (j = n)).
Proof.
  intros [] Ht Hpd Hva Hu. split; try done.
  - intros va' Hva' Hs. destruct (slot_same va' va) as [Hd _]; try done.
    rewrite wk_trans0 by congruence. unfold trans. by rewrite Hd, Ht.
  - intros. by apply wk_trans0.
  - intros i t Hi. unfold tbl. intros Hti. rewrite wk_pde0; [done..|]. intros ->. unfold tbl in Ht. congruence.
  - intros i Hi. rewrite wk_tbl0. intros. apply wk_mem0; congruence.
Qed.

(** The free list and the changes of the reference counts after page [pp] has
    been mapped at an address that mapped [old]; [new] is the page taken for a
    page table. *)
Definition insert_list (s : kstate) (l : list Z) (pp : Z) (old : option Z) : list Z :=
  match old with
  | Some o => if decide (refs s o = 1 /\ o <> pp) then o :: l else l
  | None => l
  end.

Definition insert_refs (pp : Z) (old new : option Z) (j : Z) : Z :=
  b2z (j = pp) - b2z (old = Some j) + b2z (new = Some j).

Record insertable (s : kstate) (l : list Z) (d pp va perm : Z) : Prop := {
  in_range : 0 <= pp < npages s;
  in_alloc : pp ∉ l;
  in_refs : 0 <= refs s pp < 65535;
  in_perm : 0 <= perm < PGSIZE;
  in_old : forall o f, trans s d va = Some (o, f) -> mapped_ok s l d o }.

Section Insert.
Context (s : kstate) (l : list Z) (d pp va perm : Z).
Hypothesis Hwf : mem_wf s.
Hypothesis Hf : free_ok s l.
Hypothesis Hpd : pgdir_ok s l d.
Hypothesis Hcpu : cpu_ok s.
Hypothesis Hva : is_u32 va.
Hypothesis Hu : PDX va <> PDX UVPT.
Hypothesis Hin : insertable s l d pp va perm.

(** A new table is allocated for the mapping. *)
Lemma page_insert_fresh n l' :
  l = n :: l' -> tbl s d (PDX va) = None ->
  exists s', page_insert (page_kva d) pp va perm s = Ret 0 s' /\
    pt_step s s' l' d va (Some (pp, Z.lor PTE_P perm)) (insert_refs pp None (Some n)) /\
    tbl s' d (PDX va) = Some n.
Proof.
  intros -> Ht. destruct Hin as [I1 I2 I3 I4 _]. apply not_elem_of_cons in I2 as [I2n I2].
  pose proof (free_ok_range s _ n Hwf Hf ltac:(left)) as Hr.
  destruct (mem_wf_lookup _ _ Hwf Hr) as [p Hp].
  pose proof (walk_create_post s l' d va n p Hwf Hf Hpd Hu Ht Hp) as W.
  pose proof (walk_step _ _ _ _ _ _ W Ht Hpd Hva Hu) as S1.
  set (s1 := after_walk s l' d va n p) in *.
  assert (refs s1 pp = refs s pp) as Hr1.
  { rewrite (ps_refs S1). unfold b2z. rewrite decide_False by done. lia. }
  pose proof (mm_npages _ _ (ps_mm S1)) as Hn1.
  destruct (insert_pte_step s1 l' d va n (wk_wf W) (wk_free W) (wk_pd W) 
    (cpu_ok_mm _ _ (wk_mm W) Hcpu) Hva Hu (wk_tbl W) pp perm) as (s2 & H2 & S2); try lia; try done.
  exists s2. split.
  - unfold page_insert. mstep (walk_absent s _ d Hwf Hpd va Ht). simpl.
    mstep (walk_create s l' d va n p Hwf Hf Hpd Hu Ht Hp). fold s1.
    pose proof (pte_kern s1 l' d va n (wk_wf W) (wk_pd W) Hu (wk_tbl W)).
    by rewrite (proj2 (Z.eqb_neq (pte_addr n va) 0)) by (unfold KERNBASE in *; lia).
  - split; [|exact (ps_tbl S2 _ _ (PDX_in va) (wk_tbl W))].
    eapply pt_step_refs; [|by eapply pt_step_trans]. intros j. unfold insert_refs, b2z. simpl.
    repeat case_decide; simplify_eq; lia.
Qed.

(** The table is there and the entry is not present. *)
Lemma page_insert_vacant t :
  tbl s d (PDX va) = Some t -> trans s d va = None ->
  exists s', page_insert (page_kva d) pp va perm s = Ret 0 s' /\
    pt_step s s' l d va (Some (pp, Z.lor PTE_P perm)) (insert_refs pp None None).
Proof.
  intros Ht Htr. destruct Hin as [I1 I2 I3 I4 _].
  pose proof (pte_kern s l d va t Hwf Hpd Hu Ht) as Hk.
  destruct (insert_pte_step s l d va t Hwf Hf Hpd Hcpu Hva Hu Ht pp perm) as (s2 & H2 & S2);
    try lia; try done.
  exists s2. split.
  - unfold page_insert. mstep (walk_present s l d Hwf Hpd va false t Hu Ht).
    rewrite (proj2 (Z.eqb_neq (pte_addr t va) 0)) by (unfold KERNBASE in *; lia). simpl.
    mstep (read32_eq (pte_addr t va) s Hk). unfold trans in Htr. rewrite Ht in Htr.
    rewrite (entry_None _ Htr). mrun. rewrite bool_decide_false; [by mrun|].
    intros Hh. destruct Hf as [Hc _]. pose proof (chain_head _ _ _ _ Hc) as Hl.
    rewrite Hh in Hl. apply I2. destruct l; simplify_eq/=. by left.
  - eapply pt_step_refs; [|exact S2]. intros j. unfold insert_refs, b2z. simpl.
    repeat case_decide; simplify_eq; lia.
Qed.

(** The address maps page [o], perhaps [pp] itself. *)
Lemma page_insert_replace t o f :
  tbl s d (PDX va) = Some t -> trans s d va = Some (o, f) ->
  exists s', page_insert (page_kva d) pp va perm s = Ret 0 s' /\
    pt_step s s' (insert_list s l pp (Some o)) d va (Some (pp, Z.lor PTE_P perm))
      (insert_refs pp (Some o) None).
Proof.
  intros Ht Htr. destruct Hin as [I1 I2 I3 I4 I5]. destruct (I5 o f Htr) as [M1 M2 M3 M4].
  pose proof (pte_kern s l d va t Hwf Hpd Hu Ht) as Hk.
  destruct (trans_slot _ _ _ _ _ Hwf Htr) as (t' & Ht' & <- & Hp & _). simplify_eq.
  set (o := slot_page s va t) in *.
  destruct (page_remove_step s l d va t Hwf Hf Hpd Hcpu Hva Hu Ht M2 M3 M1 M4) as (s1 & H1 & S1).
  fold o in S1.
  assert (exists p, pages s1 !! pp = Some p) as [p Hpp].
  { apply mem_wf_lookup; [apply S1|]. by rewrite (mm_npages _ _ (ps_mm S1)). }
  (* the page just freed is taken back when it is [pp] itself *)
  assert (exists s2, (let! fl := get page_free_list in
      if bool_decide (fl = Some pp)
      then let! p := get_page pp in modify (set_page_free_list (pp_link p)) else kret tt) s1 = Ret tt s2 /\
    pt_step s s2 (insert_list s l pp (Some o)) d va None (fun j => if decide (j = o) then -1 else 0))
    as (s2 & H2 & S2).
  { mrun. destruct (ps_free S1) as [Hc _]. apply chain_head in Hc. rewrite Hc.
    simpl. destruct (decide (o = pp /\ refs s o = 1)) as [[Ho Hr]|Hn].
    - rewrite decide_True in * by done. rewrite decide_False by (rewrite Ho; tauto).
      rewrite Ho in S1 |- *. simpl. rewrite bool_decide_true by done.
      mstep (get_page_eq _ _ _ Hpp). eexists. split; [done|]. exact (pt_step_pop _ _ _ _ _ _ _ _ _ S1 Hpp).
    - rewrite bool_decide_false.
      + exists s1. split; [done|]. by destruct (decide (refs s o = 1)), (decide (refs s o = 1 /\ o <> pp)); tauto.
      + intros Hh. case_decide; simplify_eq/=; [tauto|]. apply I2. destruct l; simplify_eq/=. by left. }
  pose proof (ps_tbl S2 _ _ (PDX_in va) Ht) as Ht2.
  pose proof (ps_refs S2 pp) as Hr2. simpl in Hr2.
  destruct (insert_pte_step s2 (insert_list s l pp (Some o)) d va t (ps_wf S2) (ps_free S2) (ps_pd S2)
    (cpu_ok_mm _ _ (ps_mm S2) Hcpu) Hva Hu Ht2 pp perm) as (s3 & H3 & S3); try done.
  { unfold insert_list. destruct (decide (refs s o = 1 /\ o <> pp)); [|done]. apply not_elem_of_cons. split; [|done]. intros ->. tauto. }
  { by rewrite (mm_npages _ _ (ps_mm S2)). }
  { case_decide; lia. }
  { case_decide; subst; lia. }
  exists s3. split.
  - unfold page_insert. mstep (walk_present s l d Hwf Hpd va false t Hu Ht).
    rewrite (proj2 (Z.eqb_neq (pte_addr t va) 0)) by (unfold KERNBASE in *; lia). simpl.
    mstep (read32_eq (pte_addr t va) s Hk). rewrite Hp. mstep H1.
    rewrite <- H3, <- (bind_Ret _ (fun _ => insert_pte (page_kva d) pp va perm (pte_addr t va)) _ _ _ H2).
    by rewrite bind_assoc.
  - eapply pt_step_refs; [|by eapply pt_step_trans]. intros j. unfold insert_refs, b2z. simpl.
    repeat case_decide; simplify_eq; lia.
Qed.

End Insert.

Lemma page_insert_spec (s : kstate) (l : list Z) (d pp va perm : Z) :
  mem_wf s -> free_ok s l -> pgdir_ok s l d -> cpu_ok s -> is_u32 va -> PDX va <> PDX UVPT ->
  insertable s l d pp va perm ->
  match tbl s d (PDX va), l with
  | None, [] => page_insert (page_kva d) pp va perm s = Ret (- E_NO_MEM) s
  | None, n :: l' =>
      exists s', page_insert (page_kva d) pp va perm s = Ret 0 s' /\
        pt_step s s' l' d va (Some (pp, Z.lor PTE_P perm)) (insert_refs pp None (Some n)) /\
        tbl s' d (PDX va) = Some n
  | Some _, _ =>
      exists s', page_insert (page_kva d) pp va perm s = Ret 0 s' /\
        pt_step s s' (insert_list s l pp (fst <$> trans s d va)) d va (Some (pp, Z.lor PTE_P perm))
          (insert_refs pp (fst <$> trans s d va) None)
  end.
Proof.
  intros Hwf Hf Hpd Hcpu Hva Hu Hin. destruct (tbl s d (PDX va)) as [t|] eqn:Ht.
  - destruct (trans s d va) as [[o f]|] eqn:Htr; simpl.
    + by eapply page_insert_replace.
    + by eapply page_insert_vacant.
  - destruct l as [|n l'].
    + unfold page_insert. mstep (walk_absent s _ d Hwf Hpd va Ht). simpl.
      by mstep (walk_nomem s _ d Hwf Hpd va Hf Ht).
    + by eapply page_insert_fresh.
Qed.

(** One change of a mapping together with its bookkeeping: [new] is the page
    taken for a missing table, and the page mapped before is freed with its last
    reference. *)
Record remapped (s s' : kstate) (l l' : list Z) (d va : Z) (m : option (Z * Z)) (new : option Z) : Prop := {
  rmp_step : pt_step s s' l' d va m
    (fun j => b2z (fst <$> m = Some j) - b2z (fst <$> trans s d va = Some j) + b2z (new = Some j));
  rmp_free : forall i, i ∈ l' <->
    (i ∈ l /\ new <> Some i) \/ (fst <$> trans s d va = Some i /\ refs s i = 1 /\ fst <$> m <> Some i);
  rmp_new : match new with
           | None => exists t, tbl s d (PDX va) = Some t /\ tbl s' d (PDX va) = Some t
           | Some n => n ∈ l /\ (n ∉ l') /\ tbl s d (PDX va) = None /\ tbl s' d (PDX va) = Some n
           end }.

Arguments rmp_step {_ _ _ _ _ _ _ _} _.
Arguments rmp_free {_ _ _ _ _ _ _ _} _.
Arguments rmp_new {_ _ _ _ _ _ _ _} _.

Lemma rmp_from {s s' l l' d va m new} n : remapped s s' l l' d va m new -> new = Some n -> n ∈ l.
Proof. intros [_ _ Hn] ->. apply Hn. Qed.

Lemma insert_refs_eq (pp f : Z) (old new : option Z) (j : Z) :
  insert_refs pp old new j = b2z (fst <$> Some (pp, f) = Some j) - b2z (old = Some j) + b2z (new = Some j).
Proof. unfold insert_refs, b2z. simpl. repeat case_decide; simplify_eq; lia. Qed.

Lemma insert_list_elem s l pp old i :
  i ∈ insert_list s l pp old <-> i ∈ l \/ (old = Some i /\ refs s i = 1 /\ i <> pp).
Proof.
  unfold insert_list. destruct old as [o|]; [|naive_solver].
  case_decide; rewrite ?elem_of_cons; naive_solver.
Qed.

Lemma page_insert_remaps (s : kstate) (l : list Z) (d pp va perm : Z) :
  mem_wf s -> free_ok s l -> pgdir_ok s l d -> cpu_ok s -> is_u32 va -> PDX va <> PDX UVPT ->
  insertable s l d pp va perm ->
  (l = [] /\ tbl s d (PDX va) = None /\ page_insert (page_kva d) pp va perm s = Ret (- E_NO_MEM) s) \/
  exists s' l' new, page_insert (page_kva d) pp va perm s = Ret 0 s' /\
    remapped s s' l l' d va (Some (pp, Z.lor PTE_P perm)) new.
Proof.
  intros Hwf Hf Hpd Hcpu Hva Hu Hin.
  pose proof (page_insert_spec s l d pp va perm Hwf Hf Hpd Hcpu Hva Hu Hin) as H.
  destruct (tbl s d (PDX va)) as [t|] eqn:Ht.
  - right. destruct H as (s' & H1 & H2). do 3 eexists. split; [exact H1|]. split.
    + eapply pt_step_refs; [|exact H2]. intros j. apply insert_refs_eq.
    + intros i. rewrite insert_list_elem. simpl. naive_solver.
    + exists t. split; [done|]. apply (ps_tbl H2); [apply PDX_in|done].
  - destruct l as [|n l']; [by left|right]. destruct H as (s' & H1 & H2 & H3).
    assert (trans s d va = None) as Hn by (unfold trans; by rewrite Ht).
    pose proof (free_ok_NoDup _ _ Hf) as [Hnl _]%NoDup_cons.
    exists s', l', (Some n). split; [exact H1|]. split; rewrite ?Hn.
    + eapply pt_step_refs; [|exact H2]. intros j. apply insert_refs_eq.
    + intros i. rewrite elem_of_cons. simpl. naive_solver.
    + split_and!; try done. by left.
Qed.

Lemma page_remove_remaps (s : kstate) (l : list Z) (d va o f : Z) :
  mem_wf s -> free_ok s l -> pgdir_ok s l d -> cpu_ok s -> is_u32 va -> PDX va <> PDX UVPT ->
  trans s d va = Some (o, f) -> mapped_ok s l d o ->
  exists s' l', page_remove (page_kva d) va s = Ret tt s' /\ remapped s s' l l' d va None None.
Proof.
  intros Hwf Hf Hpd Hcpu Hva Hu Ht Ho.
  destruct (page_remove_spec s l d va o f Hwf Hf Hpd Hcpu Hva Hu Ht Ho) as (s' & H1 & H2).
  do 2 eexists. split; [exact H1|]. split; rewrite ?Ht.
  - eapply pt_step_refs; [|exact H2]. intros j. unfold b2z. simpl. repeat case_decide; simplify_eq; lia.
  - intros i. simpl. case_decide; rewrite ?elem_of_cons; naive_solver.
  - destruct (trans_slot _ _ _ _ _ Hwf Ht) as (t & Ht' & _). exists t. split; [done|].
    apply (ps_tbl H2); [apply PDX_in|done].
Qed.

(** C6. [page_insert(pgdir, pp, va, perm)] makes [va]'s page map to [pp] with
    permissions [perm | PTE_P] and changes no other mapping.  When a page table
    is missing it takes one page from the free list, and if that list is empty
    it returns -E_NO_MEM and changes nothing.  The page mapped before loses a
    reference (and is freed with its last one), [pp] gains one; mapping a page
    again where it already is mapped leaves its count and the free list alone. *)
Theorem page_insert_correct (s : kstate) (l : list Z) (d pp va perm : Z) :
  mem_wf s -> free_ok s l -> pgdir_ok s l d -> cpu_ok s -> is_u32 va -> PDX va <> PDX UVPT ->
  insertable s l d pp va perm ->
  match tbl s d (PDX va), l with
  | None, [] => page_insert (page_kva d) pp va perm s = Ret (- E_NO_MEM) s
  | None, n :: l' =>
      exists s', page_insert (page_kva d) pp va perm s = Ret 0 s' /\
        pt_step s s' l' d va (Some (pp, Z.lor PTE_P perm)) (insert_refs pp None (Some n)) /\
        tbl s' d (PDX va) = Some n
  | Some _, _ =>
      exists s', page_insert (page_kva d) pp va perm s = Ret 0 s' /\
        pt_step s s' (insert_list s l pp (fst <$> trans s d va)) d va (Some (pp, Z.lor PTE_P perm))
          (insert_refs pp (fst <$> trans s d va) None)
  end.
Proof. apply page_insert_spec. Qed.

(** [check_va2pa], the walker of the kernel's self-tests, computes the
    translation the page table defines. *)
Theorem check_va2pa_correct (s : kstate) (l : list Z) (d va : Z) :
  mem_wf s -> pgdir_ok s l d -> PDX va <> PDX UVPT ->
  check_va2pa (page_kva d) va s =
    Ret (match trans s d va with Some (p, _) => p * PGSIZE | None => 2 ^ 32 - 1 end) s.
Proof.
  intros Hwf Hpd Hu. unfold check_va2pa, trans. mstep (read_pde s l d Hwf Hpd va).
  destruct (tbl s d (PDX va)) as [t|] eqn:Ht.
  - destruct (pd_tbl _ _ _ Hpd _ _ (PDX_in va) Hu Ht) as (Hr & _ & _).
    pose proof (pte_kern s l d va t Hwf Hpd Hu Ht) as Hk. unfold tbl in Ht.
    destruct (entry (ld32 (kmem s) (pde_addr d (PDX va)))) as [[t' f]|] eqn:He; simplify_eq/=.
    apply entry_Some in He as (-> & Ha & _); [|by apply entry_word]. simpl.
    rewrite Ha. mstep (KADDR_eq (t * PGSIZE) s Hwf ltac:(unfold PGSIZE; lia)).
    assert (t * PGSIZE + KERNBASE + 4 * PTX va = pte_addr t va) as -> by (unfold pte_addr, page_kva; lia).
    mstep (read32_eq (pte_addr t va) s Hk).
    destruct (entry (ld32 (kmem s) (pte_addr t va))) as [[p f']|] eqn:He.
    + apply entry_Some in He as (-> & Hp & _); [|by apply entry_word]. simpl. by rewrite Hp.
    + by rewrite (entry_None _ He).
  - unfold tbl in Ht. destruct (entry _) eqn:He; simplify_eq/=. by rewrite (entry_None _ He).
Qed.

(** ** user_mem_check *)

(** The directory maps itself at UVPT, as mem_init and env_setup_vm arrange. *)
Definition self_mapped (s : kstate) (d : Z) : Prop := tbl s d (PDX UVPT) = Some d.

(** The test user_mem_check applies to one address of the range. *)
Definition allowed (s : kstate) (d perm a : Z) : bool :=
  match tbl s d (PDX a) with
  | Some t => (a <=? ULIM) && (Z.land (ld32 (kmem s) (pte_addr t a)) perm =? perm)
  | None => false
  end.

(** The addresses visited: [va], [va + PGSIZE], ... below [end_va]. *)
Fixpoint page_steps (a : Z) (n : nat) : list Z :=
  match n with O => [] | S n => a :: page_steps (a + PGSIZE) n end.
Definition visited (va end_va : Z) : list Z :=
  page_steps va (Z.to_nat ((end_va - va + (PGSIZE - 1)) / PGSIZE)).

Definition refused (s : kstate) (d perm va end_va : Z) : option Z :=
  head (filter (fun a => allowed s d perm a = false) (visited va end_va)).

(** What happens at the first refused address: the caller's first address is
    reported as it is; otherwise the error path loads the reported address from
    the page-table entry, through a NULL pointer when there is no table. *)
Definition refusal (s : kstate) (d va a : Z) : outcome Z :=
  if a =? va then Ret (- E_FAULT) (set_user_mem_check_addr va s)
  else match tbl s d (PDX a) with
       | Some t => Ret (- E_FAULT) (set_user_mem_check_addr (ld32 (kmem s) (pte_addr t a)) s)
       | None => Crash NullDeref (set_user_mem_check_addr a s)
       end.

Section UserMemCheck.
Context (s : kstate) (l : list Z) (d va end_va perm : Z).
Hypothesis Hwf : mem_wf s.
Hypothesis Hpd : pgdir_ok s l d.
Hypothesis Hself : self_mapped s d.
Hypothesis Hend : end_va <= 2 ^ 32 - PGSIZE.
Hypothesis Hva : 0 <= va.

Lemma tbl_range a t : tbl s d (PDX a) = Some t -> 0 <= t < npages s.
Proof.
  destruct (decide (PDX a = PDX UVPT)) as [->|Hu].
  - rewrite Hself. intros [= <-]. apply Hpd.
  - intros Ht. by destruct (pd_tbl _ _ _ Hpd _ _ (PDX_in a) Hu Ht) as (? & _).
Qed.

Lemma umc_walk v a :
  pgdir_walk (page_kva d) a false (set_user_mem_check_addr v s) =
    Ret (match tbl s d (PDX a) with Some t => pte_addr t a | None => 0 end) (set_user_mem_check_addr v s).
Proof.
  set (s1 := set_user_mem_check_addr v s).
  assert (mem_wf s1) as Hwf1 by by apply (mem_wf_ext s).
  assert (pgdir_ok s1 l d) as Hpd1 by by apply (pgdir_ok_ext s s1 l l d Hpd).
  change (tbl s d (PDX a)) with (tbl s1 d (PDX a)). destruct (tbl s1 d (PDX a)) as [t|] eqn:Ht.
  - unfold pgdir_walk. mstep (read_pde s1 l d Hwf1 Hpd1 a). pose proof (tbl_range a t Ht) as Hr.
    unfold tbl in Ht. destruct (entry _) as [[t' f]|] eqn:He; simplify_eq/=.
    apply entry_Some in He as (-> & Ha & _); [|by apply entry_word]. rewrite Ha.
    assert (0 <= t * PGSIZE < npages s1 * PGSIZE) as Hr1 by (simpl; unfold PGSIZE; lia).
    mstep (KADDR_eq (t * PGSIZE) s1 Hwf1 Hr1). unfold kret, pte_addr, page_kva. f_equal. lia.
  - by apply (walk_absent s1 l d).
Qed.

Lemma umc_step fuel a :
  a < end_va ->
  umc_loop (S fuel) (page_kva d) va end_va perm (set_user_mem_check_addr a s) =
    if allowed s d perm a
    then umc_loop fuel (page_kva d) va end_va perm (set_user_mem_check_addr (u32 (a + PGSIZE)) s)
    else refusal s d va a.
Proof.
  intros Ha. cbn [umc_loop]. mrun. cbn [user_mem_check_addr set_user_mem_check_addr].
  rewrite (proj2 (Z.ltb_lt a end_va) Ha). cbn [negb].
  mstep (umc_walk a a). unfold allowed, refusal. simpl.
  assert (forall t, tbl s d (PDX a) = Some t -> KERNBASE <= pte_addr t a) as Hk.
  { intros t Ht. pose proof (page_kva_range s Hwf t (tbl_range _ _ Ht)).
    pose proof (PTX_range a). unfold pte_addr. lia. }
  assert (forall p : Z, umc_err va p (set_user_mem_check_addr a s) =
     if a =? va then Ret (- E_FAULT) (set_user_mem_check_addr va s)
     else (let! v := read32 p in modify (set_user_mem_check_addr v) ;; kret (- E_FAULT)) 
            (set_user_mem_check_addr a s)) as Herr.
  { intros p. unfold umc_err. mrun. simpl. case_bool; [done|]. by rewrite bind_assoc. }
  destruct (tbl s d (PDX a)) as [t|]; [|by rewrite Z.eqb_refl, Herr].
  specialize (Hk t eq_refl). rewrite (proj2 (Z.eqb_neq (pte_addr t a) 0)) by (unfold KERNBASE in *; lia).
  rewrite (Z.ltb_antisym a ULIM).
  pose proof (read32_eq (pte_addr t a) (set_user_mem_check_addr a s) Hk) as Hrd.
  destruct (a <=? ULIM); cbn [negb andb].
  - mstep Hrd. destruct (_ =? perm); cbn [negb]; [done|]. rewrite Herr.
    destruct (a =? va); [done|]. by mstep Hrd.
  - rewrite Herr. destruct (a =? va); [done|]. by mstep Hrd.
Qed.

Lemma visited_cons a : a < end_va -> visited a end_va = a :: visited (a + PGSIZE) end_va.
Proof.
  intros Ha. unfold visited.
  replace (end_va - a + (PGSIZE - 1)) with (end_va - (a + PGSIZE) + (PGSIZE - 1) + 1 * PGSIZE) by lia.
  rewrite Z.div_add by done. rewrite Z2Nat.inj_add by (unfold PGSIZE; word_lia).
  rewrite Nat.add_comm. done.
Qed.

Lemma visited_nil a : end_va <= a -> visited a end_va = [].
Proof. intros Ha. unfold visited. 
  destruct (Z.to_nat _) eqn:E; [done|]. unfold PGSIZE in *. word_lia. Qed.

Definition umc_result (a : Z) : outcome Z :=
  match refused s d perm a end_va with
  | None => Ret 0 (set_user_mem_check_addr (a + PGSIZE * Z.of_nat (length (visited a end_va))) s)
  | Some b => refusal s d va b
  end.

Lemma umc_loop_eq fuel a :
  va <= a -> end_va - a <= PGSIZE * Z.of_nat fuel ->
  umc_loop fuel (page_kva d) va end_va perm (set_user_mem_check_addr a s) = umc_result a.
Proof.
  revert a. induction fuel as [|fuel IH]; intros a Ha Hfuel; unfold umc_result, refused.
  - rewrite visited_nil by lia. simpl. mrun. simpl. rewrite (proj2 (Z.ltb_ge a end_va)) by lia.
    simpl. unfold kret. do 3 f_equal; lia.
  - destruct (decide (a < end_va)) as [Hlt|].
    + rewrite umc_step, visited_cons by done. rewrite filter_cons. case_decide as Hal.
      * by rewrite Hal.
      * apply not_false_iff_true in Hal. rewrite Hal, u32_id by (unfold PGSIZE in *; lia).
        rewrite IH by (unfold PGSIZE in *; lia). unfold umc_result, refused.
        destruct (head _); [done|]. cbn [length]. do 2 f_equal. unfold PGSIZE. lia.
    + rewrite visited_nil by lia. cbn [umc_loop]. mrun. simpl.
      rewrite (proj2 (Z.ltb_ge a end_va)) by lia. simpl. unfold kret. do 3 f_equal; lia.
Qed.
End UserMemCheck.

Lemma ROUNDUP_page_le x : ROUNDUP x PGSIZE <= 2 ^ 32 - PGSIZE.
Proof. unfold ROUNDUP, ROUNDDOWN, PGSIZE. word_lia. Qed.

Lemma user_mem_check_eq (s : kstate) (l : list Z) (env va len perm d : Z) (e : Env) :
  mem_wf s -> pgdir_ok s l d -> self_mapped s d -> is_u32 va ->
  envs s !! env = Some e -> env_pgdir e = page_kva d ->
  let end_va := ROUNDUP (u32 (va + len)) PGSIZE in
  user_mem_check env va len perm s =
    match refused s d (Z.lor perm PTE_P) va end_va with
    | None => Ret 0 (set_user_mem_check_addr (va + PGSIZE * Z.of_nat (length (visited va end_va))) s)
    | Some a => refusal s d va a
    end.
Proof.
  intros Hwf Hpd Hself Hva He Hd end_va. unfold user_mem_check. mrun.
  rewrite (bind_Ret _ _ _ _ _ (get_env_eq env e (set_user_mem_check_addr va s) He)). rewrite Hd.
  fold end_va. pose proof (ROUNDUP_page_le (u32 (va + len))).
  eapply umc_loop_eq; try done; unfold is_u32 in *; try lia. unfold PGSIZE. word_lia.
Qed.

(** C32. [user_mem_check] always returns or faults (the loop ends), and its
    outcome is decided by the first visited address that is refused: none gives
    0, the first address of the range gives -E_FAULT with that address reported,
    a later one gives -E_FAULT with the contents of its page-table entry
    reported, or a NULL dereference inside the kernel when it has no table. *)
Theorem user_mem_check_correct (s : kstate) (l : list Z) (env va len perm d : Z) (e : Env) :
  mem_wf s -> pgdir_ok s l d -> self_mapped s d -> is_u32 va ->
  envs s !! env = Some e -> env_pgdir e = page_kva d ->
  let end_va := ROUNDUP (u32 (va + len)) PGSIZE in
  user_mem_check env va len perm s =
    match refused s d (Z.lor perm PTE_P) va end_va with
    | None => Ret 0 (set_user_mem_check_addr (va + PGSIZE * Z.of_nat (length (visited va end_va))) s)
    | Some a => refusal s d va a
    end.
Proof. apply user_mem_check_eq. Qed.

(** Every address of the range is in the page of a visited one. *)
Lemma elem_of_page_steps a n x :
  a - a mod PGSIZE <= x < a - a mod PGSIZE + PGSIZE * Z.of_nat n ->
  exists b, b ∈ page_steps a n /\ x / PGSIZE = b / PGSIZE.
Proof.
  revert a. induction n as [|n IH]; intros a Hx; [lia|]. simpl.
  destruct (decide (x < a - a mod PGSIZE + PGSIZE)).
  - exists a. split; [by left|]. unfold PGSIZE in *. word_lia.
  - destruct (IH (a + PGSIZE)) as (b & Hb & Hd); [|exists b; split; [by right|done]].
    assert ((a + PGSIZE) mod PGSIZE = a mod PGSIZE) as -> by (unfold PGSIZE; word_lia).
    unfold PGSIZE in *. lia.
Qed.

Lemma page_steps_bound a n b : b ∈ page_steps a n -> a <= b < a + PGSIZE * Z.of_nat n.
Proof.
  revert a. induction n as [|n IH]; intros a; simpl; [by intros ?%elem_of_nil|].
  intros [->|Hb]%elem_of_cons; [|apply IH in Hb]; unfold PGSIZE in *; lia.
Qed.

Lemma PDX_same_page x a : is_u32 x -> is_u32 a -> x / PGSIZE = a / PGSIZE -> PDX x = PDX a /\ PTX x = PTX a.
Proof. intros Hx Ha H. apply slot_same; [done..|]. by rewrite !PGNUM_eq. Qed.

Lemma allowed_trans s d perm a :
  0 <= perm < PGSIZE -> has perm PTE_P = true -> allowed s d perm a = true ->
  exists p f, trans s d a = Some (p, f) /\ Z.land f perm = perm /\ a <= ULIM.
Proof.
  intros Hp HP. unfold allowed, trans, entry. destruct (tbl s d (PDX a)) as [t|]; [|done].
  intros [Ha Hl]%andb_true_iff. apply Z.leb_le in Ha. apply Z.eqb_eq in Hl.
  set (e := ld32 _ _) in *.
  assert (has e PTE_P = true) as ->.
  { rewrite has_P in HP |- *.
    assert (Z.testbit (Z.land e perm) 0 = true) as Hb by by rewrite Hl.
    rewrite Z.land_spec in Hb. by apply andb_true_iff in Hb as []. }
  eexists _, _. split; [done|]. split; [|done]. rewrite <- Hl at 2.
  unfold PGSIZE in *. change 4096 with (2 ^ 12) in *. rewrite <- (land_low e 12), <- Z.land_assoc by lia.
  rewrite (Z.land_comm (2 ^ 12 - 1)), (land_low perm 12), Z.mod_small by lia. done.
Qed.

(** C17. When the range does not wrap around the address space and
    [user_mem_check] returns 0, every byte of it is mapped with the permissions
    asked for, and nothing but [user_mem_check_addr] has changed. *)
Theorem user_mem_check_sound (s s' : kstate) (l : list Z) (env va len perm d : Z) (e : Env) :
  mem_wf s -> pgdir_ok s l d -> self_mapped s d ->
  envs s !! env = Some e -> env_pgdir e = page_kva d ->
  0 <= va -> 0 <= len -> va + len + PGSIZE <= 2 ^ 32 -> 0 <= perm < PGSIZE ->
  user_mem_check env va len perm s = Ret 0 s' ->
  s' = set_user_mem_check_addr (user_mem_check_addr s') s /\
  forall x, va <= x < va + len ->
    exists p f, trans s d x = Some (p, f) /\ Z.land f (Z.lor perm PTE_P) = Z.lor perm PTE_P /\ x < ULIM + PGSIZE.
Proof.
  intros Hwf Hpd Hself He Hd Hva Hlen Hend Hperm.
  rewrite (user_mem_check_eq s l env va len perm d e) by (done || (unfold is_u32, PGSIZE in *; lia)).
  rewrite u32_id by (unfold PGSIZE in *; lia).
  set (end_va := ROUNDUP (va + len) PGSIZE). set (P := Z.lor perm PTE_P).
  destruct (refused s d P va end_va) as [a|] eqn:Hr; [|intros [= <-]].
  { unfold refusal. destruct (a =? va); [done|]. by destruct (tbl _ _ _). }
  split; [done|]. intros x Hx.
  destruct (ROUNDUP_bounds (va + len) PGSIZE) as [Hb Hb0]; [lia|done|unfold PGSIZE in *; lia|].
  fold end_va in Hb, Hb0.
  destruct (elem_of_page_steps va (Z.to_nat ((end_va - va + (PGSIZE - 1)) / PGSIZE)) x) as (a & Ha & Hdiv).
  { unfold PGSIZE in *. word_lia. }
  pose proof (page_steps_bound _ _ _ Ha) as Hab. pose proof (ROUNDUP_page_le (va + len)) as Hle. fold end_va in Hle.
  assert (is_u32 x /\ is_u32 a) as [Hux Hua] by (unfold is_u32, PGSIZE in *; word_lia).
  destruct (allowed s d P a) eqn:Hal.
  - destruct (allowed_trans s d P a) as (p & f & Htr & Hpf & Hul); try done.
    + by apply (lor_range _ _ 12).
    + unfold P. rewrite has_P, Z.lor_spec. apply orb_true_r.
    + exists p, f. destruct (PDX_same_page x a Hux Hua Hdiv) as [H1 H2].
      split; [|split; [done|unfold PGSIZE in *; word_lia]].
      rewrite <- Htr. unfold trans, pte_addr. by rewrite H1, H2.
  - exfalso. unfold refused, visited in Hr.
    assert (a ∈ filter (fun a => allowed s d P a = false) (page_steps va (Z.to_nat ((end_va - va + (PGSIZE - 1)) / PGSIZE)))) as Hin
      by by apply list_elem_of_filter.
    destruct (filter _ _); [by apply elem_of_nil in Hin|done].
Qed.

(** A range that wraps around the end of the address space passes the
    check without any page being looked at. *)
Theorem user_mem_check_wraps (s : kstate) (env va len perm : Z) (e : Env) :
  is_u32 va -> envs s !! env = Some e -> 2 ^ 32 <= va + len -> va + len - 2 ^ 32 <= va - PGSIZE ->
  user_mem_check env va len perm s = Ret 0 (set_user_mem_check_addr va s).
Proof.
  intros Hva He Hw Hl. unfold user_mem_check. mrun.
  rewrite (bind_Ret _ _ _ _ _ (get_env_eq env e (set_user_mem_check_addr va s) He)).
  assert (ROUNDUP (u32 (va + len)) PGSIZE <= va) as Hle
    by (unfold ROUNDUP, ROUNDDOWN, PGSIZE in *; word_lia).
  destruct (Z.to_nat _); cbn [umc_loop]; mrun; simpl; by rewrite (proj2 (Z.ltb_ge va _) Hle).
Qed.

(** ** boot_map_region *)

(** How many of the directory's entries [slots] have no page table. *)
Definition missing (slots : list Z) (s : kstate) (d : Z) : Z :=
  Z.of_nat (length (filter (fun i => tbl s d i = None) slots)).

Lemma missing_same slots s s' d : (forall i, i ∈ slots -> tbl s' d i = tbl s d i) -> missing slots s' d = missing slots s d.
Proof.
  intros H. unfold missing. do 2 f_equal. induction slots as [|i slots IH]; [done|].
  rewrite !filter_cons, (H i) by left. rewrite IH by (intros j Hj; apply H; by right). done.
Qed.

Lemma missing_fill slots s s' d j :
  NoDup slots -> j ∈ slots -> (forall i, i ∈ slots -> i <> j -> tbl s' d i = tbl s d i) -> tbl s d j = None ->
  tbl s' d j <> None -> missing slots s' d = missing slots s d - 1.
Proof.
  intros Hnd Hj H H0 H1. induction slots as [|i slots IH]; [by apply elem_of_nil in Hj|].
  apply NoDup_cons in Hnd as [Hi Hnd]. destruct (decide (i = j)) as [->|Hne].
  - pose proof (missing_same slots s s' d) as Hs. unfold missing in *. rewrite !filter_cons.
    rewrite (decide_False (P := tbl s' d j = None)), (decide_True (P := tbl s d j = None)) by done.
    cbn [length]. rewrite Hs; [lia|]. intros i Hi'. apply H; [by right|]. by intros ->.
  - apply elem_of_cons in Hj as [->|Hj]; [done|]. specialize (IH Hnd Hj ltac:(intros; apply H; [by right|done])).
    unfold missing in *. rewrite !filter_cons, (H i) by (done || by left). case_decide; cbn [length]; lia.
Qed.

(** One iteration: the page is mapped, or no table could be allocated. *)
Lemma boot_map_step s l d va pa perm :
  mem_wf s -> free_ok s l -> pgdir_ok s l d -> is_u32 va -> PDX va <> PDX UVPT ->
  is_u32 pa -> pa mod PGSIZE = 0 -> 0 <= perm < PGSIZE ->
  (l = [] /\ pgdir_walk (page_kva d) va true s = Ret 0 s) \/
  exists pte s1 s2 l' dr,
    pgdir_walk (page_kva d) va true s = Ret pte s1 /\ pte <> 0 /\
    write32 pte (Z.lor (Z.lor (PTE_ADDR pa) perm) PTE_P) s1 = Ret tt s2 /\
    pt_step s s2 l' d va (Some (pa / PGSIZE, Z.lor perm PTE_P)) dr /\ tbl s2 d (PDX va) <> None /\
    ((l' = l /\ tbl s d (PDX va) <> None) \/ (length l = S (length l') /\ tbl s d (PDX va) = None)).
Proof.
  intros Hwf Hf Hpd Hva Hu Hpa Hal Hperm. pose proof (PDX_in va) as Hi.
  set (w := Z.lor (Z.lor (PTE_ADDR pa) perm) PTE_P).
  assert (entry (u32 w) = Some (pa / PGSIZE, Z.lor perm PTE_P)) as Hw.
  { assert (0 <= Z.lor perm PTE_P < PGSIZE) as Hfl by (by apply (lor_range _ _ 12)).
    assert (w = pa / PGSIZE * PGSIZE + Z.lor perm PTE_P) as ->.
    { unfold w. rewrite PTE_ADDR_eq, <- Z.lor_assoc by done.
      replace (pa - pa mod 4096) with (pa / PGSIZE * 2 ^ 12) by (unfold PGSIZE; word_lia).
      by apply (lor_flags _ _ 12). }
    rewrite u32_id by (unfold is_u32, PGSIZE in *; word_lia).
    apply entry_make; [unfold is_u32, PGSIZE in *; word_lia|done|].
    rewrite has_P, Z.lor_spec. apply orb_true_r. }
  (* the store, in a state where the table exists *)
  assert (forall s1 l1 t dr1 m1, pt_step s s1 l1 d va m1 dr1 -> tbl s1 d (PDX va) = Some t ->
    exists s2 dr, write32 (pte_addr t va) w s1 = Ret tt s2 /\ pte_addr t va <> 0 /\
      pt_step s s2 l1 d va (Some (pa / PGSIZE, Z.lor perm PTE_P)) dr /\ tbl s2 d (PDX va) = Some t) as Hstore.
  { intros s1 l1 t dr1 m1 S Ht1.
    pose proof (pte_kern s1 l1 d va t (ps_wf S) (ps_pd S) Hu Ht1) as Hk.
    set (s2 := set_kmem (st32 (kmem s1) (pte_addr t va) w) s1).
    assert (pt_step s1 s2 l1 d va (Some (pa / PGSIZE, Z.lor perm PTE_P)) (fun _ => 0)) as S2.
    { rewrite <- Hw. eapply (store_step s1 l1 d va t) with (dr := fun _ => 0);
        [apply S|apply S|done..| |by left|intros; simpl; unfold refs; simpl; lia].
      by refine (free_ok_ext s1 _ _ _ _ (ps_free S)). }
    exists s2, (fun j => dr1 j + 0). split; [by apply write32_eq|]. split; [unfold KERNBASE in *; lia|].
    split; [by eapply pt_step_trans|by apply (ps_tbl S2)]. }
  destruct (tbl s d (PDX va)) as [t|] eqn:Ht; [right|].
  - assert (pt_step s s l d va (trans s d va) (fun _ => 0)) as S0.
    { split; try done; [|intros; lia].
      intros va' Hva' Hp. destruct (slot_same va' va) as [Hd Hx]; try done.
      unfold trans, pte_addr. by rewrite Hd, Hx. }
    destruct (Hstore s l t _ _ S0 Ht) as (s2 & dr & H1 & H2 & H3 & H4).
    exists (pte_addr t va), s, s2, l, dr. split_and!; try done; [by apply (walk_present s l d)|congruence|by left].
  - destruct l as [|n l']; [left; split; [done|by apply (walk_nomem s [] d)]|right].
    pose proof (free_ok_range s _ n Hwf Hf ltac:(left)) as Hr.
    destruct (mem_wf_lookup _ _ Hwf Hr) as [p Hp].
    pose proof (walk_create_post s l' d va n p Hwf Hf Hpd Hu Ht Hp) as W.
    destruct (Hstore _ l' n _ _ (walk_step _ _ _ _ _ _ W Ht Hpd Hva Hu) (wk_tbl W)) as (s2 & dr & H1 & H2 & H3 & H4).
    exists (pte_addr n va), (after_walk s l' d va n p), s2, l', dr. split_and!; try done; [by apply walk_create|congruence|by right].
Qed.

(** The first [k] pages of the region are mapped, nothing else changed. *)
Record region_mapped (s s' : kstate) (l' : list Z) (d va pa perm k : Z) : Prop := {
  rm_wf : mem_wf s';
  rm_free : free_ok s' l';
  rm_pd : pgdir_ok s' l' d;
  rm_trans : forall va', is_u32 va' -> PDX va' <> PDX UVPT ->
    trans s' d va' =
      if decide (va <= va' < va + k * PGSIZE)
      then Some ((pa + (va' - va)) / PGSIZE, Z.lor perm PTE_P) else trans s d va';
  rm_mm : mm_frame s s' }.

Lemma boot_map_loop_eq n s l d va pa perm :
  mem_wf s -> free_ok s l -> pgdir_ok s l d -> 0 <= perm < PGSIZE ->
  0 <= va -> va mod PGSIZE = 0 -> va + Z.of_nat n * PGSIZE <= 2 ^ 32 ->
  0 <= pa -> pa mod PGSIZE = 0 -> pa + Z.of_nat n * PGSIZE <= 2 ^ 32 ->
  (forall a, va <= a < va + Z.of_nat n * PGSIZE -> PDX a <> PDX UVPT) ->
  exists s' l' k, boot_map_loop n (page_kva d) (u32 va) (u32 pa) perm s = Ret tt s' /\
    0 <= k <= Z.of_nat n /\ (k < Z.of_nat n -> l' = []) /\ region_mapped s s' l' d va pa perm k /\
    (forall slots, NoDup slots -> (forall i, i ∈ slots -> 0 <= i < NPDENTRIES) ->
       (forall a, va <= a < va + Z.of_nat n * PGSIZE -> PDX a ∈ slots) ->
       Z.of_nat (length l) - missing slots s d <= Z.of_nat (length l') - missing slots s' d).
Proof.
  revert s l va pa. induction n as [|n IH];
    intros s l va pa Hwf Hf Hpd Hperm Hva Hva0 Hvan Hpa Hpa0 Hpan Hu.
  { exists s, l, 0. split_and!; try done. split; try done. intros. by rewrite decide_False by lia. }
  assert (is_u32 va /\ is_u32 pa) as [Hua Hup] by (unfold is_u32, PGSIZE in *; lia).
  cbn [boot_map_loop]. rewrite (u32_id va), (u32_id pa) by done.
  assert (PDX va <> PDX UVPT) as Hu0 by (apply Hu; unfold PGSIZE; lia).
  destruct (boot_map_step s l d va pa perm) as [[-> Hw]|(pte & s1 & s2 & l1 & dr & H1 & Hne & H2 & S & Ht2 & Hl1)]; try done.
  { exists s, [], 0. mstep Hw. split_and!; try lia; try done. split; try done.
    intros. by rewrite decide_False by lia. }
  mstep H1. rewrite (proj2 (Z.eqb_neq pte 0)) by done. mstep H2.
  destruct (IH s2 l1 (va + PGSIZE) (pa + PGSIZE)) as (s' & l' & k & H3 & Hk & Hl & R & Hl2);
    try exact (ps_wf S); try exact (ps_free S); try exact (ps_pd S);
    try done; try (unfold PGSIZE in *; word_lia).
  { intros a Ha. apply Hu. unfold PGSIZE in *. lia. }
  exists s', l', (k + 1). split_and!; try lia; [done|intros; apply Hl; lia| |].
  2: { intros slots Hnd Hin Hsl. etrans; [|apply Hl2; [done..|intros a Ha; apply Hsl; unfold PGSIZE in *; lia]].
       assert (PDX va ∈ slots) as Hvs by (apply Hsl; unfold PGSIZE; lia).
       pose proof (fun i Hi => ps_tbl_other S i (Hin i Hi)) as Ho. destruct Hl1 as [[-> Ht]|[-> Ht]].
       - rewrite (missing_same slots s s2 d); [lia|]. intros i Hi. destruct (decide (i = PDX va)) as [->|]; [|by apply Ho].
         destruct (tbl s d (PDX va)) as [t|] eqn:E; [|done]. by apply (ps_tbl S); [apply Hin|].
       - rewrite (missing_fill slots s s2 d (PDX va)) by (done || intros; by apply Ho). lia. }
  destruct R as [R1 R2 R3 R4 R5]. split; try done; [|by etrans; [exact (ps_mm S)|]].
  intros va' Hva' Hu'. rewrite R4 by done. case_decide as Hin.
  - rewrite decide_True by (unfold PGSIZE in *; lia). do 3 f_equal. lia.
  - destruct (decide (PGNUM va' = PGNUM va)) as [Hp|Hp].
    + rewrite (ps_here S va') by done. rewrite !PGNUM_eq in Hp by done.
      rewrite decide_True by (unfold PGSIZE in *; word_lia). do 2 f_equal. unfold PGSIZE in *. word_lia.
    + rewrite (ps_else S va') by done. rewrite !PGNUM_eq in Hp by done.
      rewrite decide_False; [done|]. unfold PGSIZE in *. word_lia.
Qed.

Lemma boot_map_region_spec (s : kstate) (l : list Z) (d va size pa perm : Z) :
  mem_wf s -> free_ok s l -> pgdir_ok s l d -> 0 <= perm < PGSIZE ->
  0 <= va -> va mod PGSIZE = 0 -> 0 <= size -> size mod PGSIZE = 0 -> va + size <= 2 ^ 32 ->
  0 <= pa -> pa mod PGSIZE = 0 -> pa + size <= 2 ^ 32 ->
  (forall a, va <= a < va + size -> PDX a <> PDX UVPT) ->
  exists s' l' k, boot_map_region (page_kva d) (u32 va) size (u32 pa) perm s = Ret tt s' /\
    0 <= k <= size / PGSIZE /\ (k < size / PGSIZE -> l' = []) /\ region_mapped s s' l' d va pa perm k /\
    (forall slots, NoDup slots -> (forall i, i ∈ slots -> 0 <= i < NPDENTRIES) ->
       (forall a, va <= a < va + size -> PDX a ∈ slots) ->
       Z.of_nat (length l) - missing slots s d <= Z.of_nat (length l') - missing slots s' d).
Proof.
  intros Hwf Hf Hpd Hperm Hva Hva0 Hs Hs0 Hvs Hpa Hpa0 Hps Hu.
  assert (Z.of_nat (Z.to_nat (size / PGSIZE)) = size / PGSIZE) as Hn by (unfold PGSIZE; word_lia).
  assert (size / PGSIZE * PGSIZE = size) as Hsz by (unfold PGSIZE in *; word_lia).
  destruct (boot_map_loop_eq (Z.to_nat (size / PGSIZE)) s l d va pa perm) as (s' & l' & k & H);
    rewrite ?Hn, ?Hsz; try done.
  exists s', l', k. unfold boot_map_region. rewrite Hs0. simpl. mrun. by rewrite Hn, Hsz in H.
Qed.

(** [boot_map_region] of a page-aligned region maps its pages in order to
    the consecutive physical pages from [pa], with [perm | PTE_P], and changes
    no other translation; it stops early, silently, only when the free list has
    run out of pages for page tables. *)
Theorem boot_map_region_correct (s : kstate) (l : list Z) (d va size pa perm : Z) :
  mem_wf s -> free_ok s l -> pgdir_ok s l d -> 0 <= perm < PGSIZE ->
  0 <= va -> va mod PGSIZE = 0 -> 0 <= size -> size mod PGSIZE = 0 -> va + size <= 2 ^ 32 ->
  0 <= pa -> pa mod PGSIZE = 0 -> pa + size <= 2 ^ 32 ->
  (forall a, va <= a < va + size -> PDX a <> PDX UVPT) ->
  exists s' l' k, boot_map_region (page_kva d) (u32 va) size (u32 pa) perm s = Ret tt s' /\
    0 <= k <= size / PGSIZE /\ (k < size / PGSIZE -> l' = []) /\ region_mapped s s' l' d va pa perm k.
Proof.
  intros H1 H2 H3 H4 H5 H6 H7 H8 H9 H10 H11 H12 H13.
  destruct (boot_map_region_spec s l d va size pa perm H1 H2 H3 H4 H5 H6 H7 H8 H9 H10 H11 H12 H13)
    as (s' & l' & k & E & Hk & Hl & R & _). by exists s', l', k.
Qed.

(** *** Witnesses *)

(** Eight pages, each referenced once; page 1 is a directory that maps itself
    at UVPT and whose first table is page 2; address 0 is mapped to page 3. *)
Definition mapped : kstate :=
  let s := sample 8 0 in
  set_envs (<[0 := set_env_pgdir (page_kva 1) env0]> (envs s))
  (set_pages (table {| pp_link := None; pp_ref := 1 |} 8)
  (set_kmem (st32 (st32 (st32 (fun _ => 0) (pde_addr 1 0) 0x2007) (pte_addr 2 0) 0x3007)
                  (pde_addr 1 (PDX UVPT)) 0x1005) s)).

Lemma mapped_wf : mem_wf mapped.
Proof.
  split; [done| |].
  - intros i. change (pages mapped) with (table {| pp_link := None; pp_ref := 1 |} 8).
    rewrite lookup_table. simpl. case_decide; split; try lia; eauto. by intros [].
  - simpl. do 3 apply st32_bytes. intros a. lia.
Qed.

Lemma mapped_tbl i : 0 <= i < NPDENTRIES -> i <> PDX UVPT -> tbl mapped 1 i = if decide (i = 0) then Some 2 else None.
Proof.
  intros Hi Hu. unfold tbl. case_decide; subst; [done|].
  assert (ld32 (kmem mapped) (pde_addr 1 i) = 0) as ->; [|done]. simpl.
  assert (PDX UVPT = 957) as Hv by done. rewrite Hv in *. unfold pde_addr, pte_addr.
  change (PTX 0) with 0. unfold page_kva, PGSIZE, KERNBASE, NPDENTRIES in *.
  rewrite !ld32_st32_ne by lia. done.
Qed.

Lemma mapped_pgdir_ok : pgdir_ok mapped [] 1.
Proof.
  split; [done|apply not_elem_of_nil| |].
  - intros i t Hi Hu. rewrite mapped_tbl by done. case_decide; intros; simplify_eq.
    split_and!; try done. apply not_elem_of_nil.
  - intros i j t Hi Hj Hu Hv. rewrite !mapped_tbl by done. repeat case_decide; intros; congruence.
Qed.

Lemma mapped_data i : i <> 1 -> i <> 2 -> data_page mapped 1 i.
Proof.
  intros H1 H2. split; [done|]. intros j Hj Hu. rewrite mapped_tbl by done. case_decide; congruence.
Qed.

Lemma mapped_free : free_ok mapped [].
Proof. by apply free_ok_nil. Qed.

Lemma mapped_cpu : cpu_ok mapped.
Proof. exists cpu0. split; [done|]. by intros i. Qed.

Lemma mapped_mapped_ok : mapped_ok mapped [] 1 3.
Proof. split; [done|apply not_elem_of_nil|by apply mapped_data|done]. Qed.

Lemma mapped_tbl0 : tbl mapped 1 (PDX 0) = Some 2.
Proof. by vm_compute. Qed.
Lemma mapped_trans : trans mapped 1 0 = Some (3, 7).
Proof. by vm_compute. Qed.

Lemma mapped_refs : refs mapped 3 = 1 /\ refs mapped 4 = 1.
Proof. by vm_compute. Qed.

Lemma mapped_insertable : insertable mapped [] 1 4 0 6.
Proof.
  split; [done|apply not_elem_of_nil|done|done|].
  intros o f. rewrite mapped_trans. intros [= <- <-]. apply mapped_mapped_ok.
Qed.

Lemma page_insert_correct_witness :
  exists s', page_insert (page_kva 1) 4 0 6 mapped = Ret 0 s' /\ trans s' 1 0 = Some (4, 7) /\
    refs s' 3 = 0 /\ refs s' 4 = 2 /\ free_ok s' [3].
Proof.
  pose proof (page_insert_correct mapped [] 1 4 0 6 mapped_wf mapped_free mapped_pgdir_ok mapped_cpu
    ltac:(done) ltac:(done) mapped_insertable) as H.
  rewrite mapped_tbl0, mapped_trans in H. destruct H as (s' & H1 & H2).
  destruct mapped_refs as [Hr3 Hr4].
  pose proof (ps_refs H2 3) as R3. pose proof (ps_refs H2 4) as R4. rewrite Hr3 in R3. rewrite Hr4 in R4.
  pose proof (ps_free H2) as Hf. unfold insert_list in Hf. cbn [fmap option_fmap option_map fst] in Hf.
  rewrite Hr3 in Hf. exists s'.
  split; [exact H1|]. split; [apply (ps_here H2); [split|]; reflexivity|]. split; [exact R3|]. split; [exact R4|exact Hf].
Defined.

Lemma page_remove_correct_witness :
  exists s', page_remove (page_kva 1) 0 mapped = Ret tt s' /\ trans s' 1 0 = None /\ free_ok s' [3].
Proof.
  destruct (page_remove_correct mapped [] 1 0 3 7 mapped_wf mapped_free mapped_pgdir_ok mapped_cpu
    ltac:(done) ltac:(done) mapped_trans mapped_mapped_ok) as (s' & H1 & H2).
  destruct mapped_refs as [Hr3 _]. rewrite Hr3 in H2. pose proof (ps_free H2) as Hf.
  exists s'. split; [exact H1|]. split; [apply (ps_here H2); [split|]; reflexivity|exact Hf].
Defined.

Lemma mapped_vacant :
  tbl mapped 1 (PDX 0x5000) = Some 2 /\ ld32 (kmem mapped) (pte_addr 2 0x5000) = 0 /\ refs mapped 0 = 1.
Proof. by vm_compute. Qed.

Lemma page_remove_unmapped_witness :
  exists s', page_remove (page_kva 1) 0x5000 mapped = Ret tt s' /\ free_ok s' [0].
Proof.
  destruct mapped_vacant as (V1 & V2 & V3).
  destruct (page_remove_unmapped_frees_page0 mapped [] 1 0x5000 2 mapped_wf mapped_free mapped_pgdir_ok
    mapped_cpu ltac:(done) ltac:(done) V1 V2 ltac:(done) (not_elem_of_nil 0)
    (mapped_data 0 ltac:(done) ltac:(done)) V3) as (_ & s' & H1 & H2).
  exists s'. split; [exact H1|exact H2].
Defined.

Lemma check_va2pa_witness : check_va2pa (page_kva 1) 0 mapped = Ret 0x3000 mapped.
Proof.
  rewrite (check_va2pa_correct mapped [] 1 0 mapped_wf mapped_pgdir_ok ltac:(done)), mapped_trans.
  reflexivity.
Defined.

Lemma user_mem_check_correct_witness :
  user_mem_check 0 0x10 0x1000 PTE_U mapped = Ret (- E_FAULT) (set_user_mem_check_addr 0 mapped).
Proof.
  rewrite (user_mem_check_correct mapped [] 0 0x10 0x1000 PTE_U 1 (set_env_pgdir (page_kva 1) env0)
    mapped_wf mapped_pgdir_ok); done.
Defined.

Lemma user_mem_check_sound_witness :
  exists p f, trans mapped 1 0x20 = Some (p, f) /\ Z.land f 5 = 5.
Proof.
  destruct (user_mem_check_sound mapped (set_user_mem_check_addr 0x1010 mapped) [] 0 0x10 0x100 PTE_U 1
    (set_env_pgdir (page_kva 1) env0) mapped_wf mapped_pgdir_ok) as (_ & H); try done.
  destruct (H 0x20) as (p & f & H1 & H2 & _); [lia|eauto].
Defined.

Lemma user_mem_check_wraps_witness :
  user_mem_check 0 0x5000 0xFFFFC000 PTE_U mapped = Ret 0 (set_user_mem_check_addr 0x5000 mapped).
Proof.
  by apply (user_mem_check_wraps mapped 0 0x5000 0xFFFFC000 PTE_U (set_env_pgdir (page_kva 1) env0)).
Defined.

Lemma not_UVPT a : 0x1000 <= a < 0x1000 + 0x2000 -> PDX a <> PDX UVPT.
Proof. intros Ha. change (PDX UVPT) with 957. rewrite PDX_eq by (unfold is_u32; lia). word_lia. Qed.

Lemma boot_map_region_witness :
  exists s', boot_map_region (page_kva 1) (u32 0x1000) 0x2000 (u32 0x5000) PTE_W mapped = Ret tt s' /\
    mem_wf s' /\ mm_frame mapped s'.
Proof.
  destruct (boot_map_region_correct mapped [] 1 0x1000 0x2000 0x5000 PTE_W mapped_wf mapped_free
    mapped_pgdir_ok ltac:(done) ltac:(done) ltac:(done) ltac:(done) ltac:(done) ltac:(done) ltac:(done)
    ltac:(done) ltac:(done) not_UVPT) as (s' & l' & k & H1 & _ & _ & R).
  exists s'. split; [exact H1|]. split; [exact (rm_wf _ _ _ _ _ _ _ _ R)|exact (rm_mm _ _ _ _ _ _ _ _ R)].
Defined.
