(* ===== verification/Vmem.v ===== *)
(** Kernel accesses to virtual memory: the two-level translation the MMU
    performs from [cr3], and the byte loops of src/lib/string.c run through it.

    Addresses from [KERNBASE] up are the kernel's direct mapping of physical
    memory.  A page fault taken in kernel mode is fatal (src/kern/trap.c
    panics), so an access the tables do not allow is a crash. *)

From S2P Require Import Prelude Machine Mmu Cstring Devices KState PageAlloc PageTable.

(** The entry of directory [pd] (a physical address) and of its table that
    translate [va]. *)
Definition mmu_pde (s : kstate) (pd va : Z) : Z := ld32 (kmem s) (KERNBASE + PTE_ADDR pd + 4 * PDX va).
Definition mmu_pte (s : kstate) (pd va : Z) : Z :=
  ld32 (kmem s) (KERNBASE + PTE_ADDR (mmu_pde s pd va) + 4 * PTX va).

(** The direct-map address behind [va]; CR0_WP is set, so a kernel write needs
    PTE_W in both entries. *)
Definition translate (s : kstate) (pd va : Z) (write : bool) : option Z :=
  if KERNBASE <=? va then Some va
  else if has (mmu_pde s pd va) PTE_P && has (mmu_pte s pd va) PTE_P &&
          (negb write || (has (mmu_pde s pd va) PTE_W && has (mmu_pte s pd va) PTE_W))
       then Some (KERNBASE + PTE_ADDR (mmu_pte s pd va) + PGOFF va)
       else None.

Definition vaddr (va : Z) (write : bool) : M Z :=
  fun s => match translate s (cr3 s) va write with
           | Some k => Ret k s
           | None => Crash (WildAccess va) s
           end.

Definition vread8 (va : Z) : M Z := let! k := vaddr va false in get (fun s => kmem s k).
Definition vwrite8 (va v : Z) : M unit :=
  let! k := vaddr va true in modify (fun s => set_kmem (st8 (kmem s) k v) s).

Definition vread32 (va : Z) : M Z :=
  let! a := vread8 va in let! b := vread8 (u32 (va + 1)) in
  let! c := vread8 (u32 (va + 2)) in let! d := vread8 (u32 (va + 3)) in
  kret (a + 2 ^ 8 * b + 2 ^ 16 * c + 2 ^ 24 * d).
Definition vread16 (va : Z) : M Z :=
  let! a := vread8 va in let! b := vread8 (u32 (va + 1)) in kret (a + 2 ^ 8 * b).

Definition vwrite32 (va v : Z) : M unit :=
  vwrite8 va v ;; vwrite8 (u32 (va + 1)) (v / 2 ^ 8) ;;
  vwrite8 (u32 (va + 2)) (v / 2 ^ 16) ;; vwrite8 (u32 (va + 3)) (v / 2 ^ 24).

(** memset and memmove between addresses that do not overlap. *)
Fixpoint vmemset (n : nat) (va c : Z) : M unit :=
  match n with
  | O => kret tt
  | S n => vwrite8 va c ;; vmemset n (u32 (va + 1)) c
  end.

Fixpoint vmemmove (n : nat) (dst src : Z) : M unit :=
  match n with
  | O => kret tt
  | S n => let! b := vread8 src in vwrite8 dst b ;; vmemmove n (u32 (dst + 1)) (u32 (src + 1))
  end.

Definition lcr3 (pa : Z) : M unit := modify (set_cr3 pa).

(** ** Translation and the abstract page table *)

(** Reading through directory page [d]: the bytes of the page [trans] gives. *)
Lemma translate_trans s l d va p f :
  mem_wf s -> pgdir_ok s l d -> PDX va <> PDX UVPT -> is_u32 va -> va < KERNBASE ->
  trans s d va = Some (p, f) ->
  translate s (d * PGSIZE) va false = Some (page_kva p + va mod PGSIZE).
Proof.
  intros Hwf Hpd Hu Hva Hk Htr. unfold translate.
  rewrite (proj2 (Z.leb_gt KERNBASE va)) by lia.
  pose proof (wf_npages _ Hwf) as Hn. pose proof (pd_range _ _ _ Hpd) as Hd.
  assert (mmu_pde s (d * PGSIZE) va = ld32 (kmem s) (pde_addr d (PDX va))) as Hpde.
  { unfold mmu_pde, pde_addr, page_kva. rewrite PTE_ADDR_eq by (unfold is_u32, PGSIZE; lia).
    do 2 f_equal. unfold PGSIZE. rewrite Z.mod_mul by done. lia. }
  unfold trans, tbl in Htr. rewrite Hpde.
  destruct (entry (ld32 (kmem s) (pde_addr d (PDX va)))) as [[t f1]|] eqn:He; simplify_eq/=.
  assert (0 <= t < npages s) as Ht.
  { refine (proj1 (pd_tbl _ _ _ Hpd _ t (PDX_in va) Hu _)). unfold tbl. by rewrite He. }
  apply entry_Some in He as (HP & Ha & _); [|by apply entry_word]. rewrite HP.
  assert (mmu_pte s (d * PGSIZE) va = ld32 (kmem s) (pte_addr t va)) as Hpte.
  { unfold mmu_pte. rewrite Hpde, Ha. unfold pte_addr, page_kva. done. }
  rewrite Hpte. apply entry_Some in Htr as (-> & Hp & _); [|by apply entry_word]. simpl.
  rewrite Hp, PGOFF_eq by done. done.
Qed.

(** ** Access to a page through its mapping *)

(** Directory page [d], loaded in cr3, maps the page at [base] to page [p],
    through table [t], with at least the permissions [mask] in both entries. *)
Record window (mask : Z) (s : kstate) (d t p base : Z) : Prop := {
  wi_cr3 : cr3 s = d * PGSIZE;
  wi_d : 0 <= d < 2 ^ 20;
  wi_base : 0 <= base < KERNBASE /\ base mod PGSIZE = 0;
  wi_pde : Z.land (ld32 (kmem s) (pde_addr d (PDX base))) mask = mask /\
           PTE_ADDR (ld32 (kmem s) (pde_addr d (PDX base))) = t * PGSIZE;
  wi_pte : Z.land (ld32 (kmem s) (pte_addr t base)) mask = mask /\
           PTE_ADDR (ld32 (kmem s) (pte_addr t base)) = p * PGSIZE }.

(** The permission bits: read, write, and the same for the user. *)
Definition M_R : Z := 1.
Definition M_RW : Z := 3.
Definition M_UR : Z := 5.
Definition M_URW : Z := 7.

Lemma land_mask_has x mask k : 0 <= k -> Z.land x mask = mask -> Z.testbit mask k = true -> has x (2 ^ k) = true.
Proof.
  intros Hk H E. rewrite has_bit by lia. apply (f_equal (fun z => Z.testbit z k)) in H.
  rewrite Z.land_spec, E, andb_true_r in H. exact H.
Qed.

Lemma land_mask_sub x m m' : Z.land x m = m -> Z.land m m' = m' -> Z.land x m' = m'.
Proof. intros H1 H2. by rewrite <- H2, Z.land_assoc, H1, H2. Qed.

Lemma window_sub m m' s d t p base : Z.land m m' = m' -> window m s d t p base -> window m' s d t p base.
Proof. intros H [? ? ? [? ?] [? ?]]. split; try done; (split; [by eapply land_mask_sub|done]). Qed.

(** Writes to other pages than the directory and the table keep the window. *)
Lemma window_ext m s s' d t p q base :
  window m s d t p base -> cr3 s' = cr3 s -> q <> d -> q <> t ->
  (forall x, x < page_kva q \/ page_kva q + PGSIZE <= x -> kmem s' x = kmem s x) -> window m s' d t p base.
Proof.
  intros [W1 W2 W3 W5 W6] Hc Hd Ht Hm.
  assert (forall i o, i <> q -> 0 <= o -> o + 4 <= PGSIZE -> ld32 (kmem s') (page_kva i + o) = ld32 (kmem s) (page_kva i + o))
    as He.
  { intros i o Hi H0 H1. apply ld32_ext. intros x Hx. apply Hm. unfold page_kva, PGSIZE in *. lia. }
  pose proof (pde_in_page (PDX base) (PDX_in base)) as [? ?]. pose proof (ptx_in_page base) as [? ?].
  split; try done; [congruence| |]; unfold pde_addr, pte_addr in *; by rewrite !He by done.
Qed.

(** The entries the processor finds for an address in the window. *)
Lemma window_entries m s d t p base o :
  window m s d t p base -> 0 <= o < PGSIZE ->
  base + o < KERNBASE /\ mmu_pde s (cr3 s) (base + o) = ld32 (kmem s) (pde_addr d (PDX base)) /\
  mmu_pte s (cr3 s) (base + o) = ld32 (kmem s) (pte_addr t base).
Proof.
  intros [W1 W2 [W3 W3'] (P1 & P3) (E1 & E3)] Ho.
  assert (base + o < KERNBASE /\ (base + o) / 4096 = base / 4096 /\ is_u32 base /\ is_u32 (base + o))
    as (Hk & Hq & Hu & Hu').
  { unfold is_u32, KERNBASE, PGSIZE in *. word_lia. }
  assert (PDX (base + o) = PDX base /\ PTX (base + o) = PTX base) as [Hd Hx].
  { rewrite !PDX_eq, !PTX_eq, Hq by done. split; [word_lia|done]. }
  assert (mmu_pde s (cr3 s) (base + o) = ld32 (kmem s) (pde_addr d (PDX base))) as Hpde.
  { unfold mmu_pde, pde_addr, page_kva. rewrite W1, Hd, PTE_ADDR_eq by (unfold is_u32, PGSIZE; lia).
    do 2 f_equal. unfold PGSIZE. rewrite Z.mod_mul by done. lia. }
  split; [done|]. split; [done|]. unfold mmu_pte. by rewrite Hpde, P3, Hx.
Qed.

Lemma window_translate m s d t p base o b :
  window m s d t p base -> Z.testbit m 0 = true -> (b = true -> Z.testbit m 1 = true) -> 0 <= o < PGSIZE ->
  translate s (cr3 s) (base + o) b = Some (page_kva p + o).
Proof.
  intros W Hmp Hmw Ho. destruct (window_entries m s d t p base o W Ho) as (Hk & Hpde & Hpte).
  destruct W as [W1 W2 [W3 W3'] (P1 & P3) (E1 & E3)].
  assert ((base + o) mod 4096 = o /\ is_u32 (base + o)) as [Hm Hu'] by (unfold is_u32, KERNBASE, PGSIZE in *; word_lia).
  unfold translate. rewrite (proj2 (Z.leb_gt KERNBASE _)) by lia. rewrite Hpde, Hpte.
  change PTE_P with (2 ^ 0). change PTE_W with (2 ^ 1).
  rewrite (land_mask_has _ _ 0 ltac:(lia) P1 Hmp), (land_mask_has _ _ 0 ltac:(lia) E1 Hmp), E3.
  cbn [andb]. destruct b; cbn [negb orb].
  - rewrite (land_mask_has _ _ 1 ltac:(lia) P1 (Hmw eq_refl)), (land_mask_has _ _ 1 ltac:(lia) E1 (Hmw eq_refl)).
    by rewrite PGOFF_eq, Hm.
  - by rewrite PGOFF_eq, Hm.
Qed.

Lemma window_vwrite8 s d t p base o v :
  window M_RW s d t p base -> p <> d -> p <> t -> 0 <= o < PGSIZE ->
  vwrite8 (base + o) v s = Ret tt (set_kmem (st8 (kmem s) (page_kva p + o) v) s) /\
  window M_RW (set_kmem (st8 (kmem s) (page_kva p + o) v) s) d t p base.
Proof.
  intros W Hpd Hpt Ho. split.
  - unfold vwrite8. assert (vaddr (base + o) true s = Ret (page_kva p + o) s) as Hv
      by (unfold vaddr; by rewrite (window_translate M_RW s d t p base o true W eq_refl (fun _ => eq_refl) Ho)).
    by mstep Hv.
  - apply (window_ext _ s _ d t p p); try done. intros x Hx. cbn [kmem set_kmem]. unfold st8. case_bool; lia || done.
Qed.

Lemma window_vwrite32 s d t p base o v :
  window M_RW s d t p base -> p <> d -> p <> t -> 0 <= o -> o + 4 <= PGSIZE ->
  vwrite32 (base + o) v s = Ret tt (set_kmem (st32 (kmem s) (page_kva p + o) v) s) /\
  window M_RW (set_kmem (st32 (kmem s) (page_kva p + o) v) s) d t p base.
Proof.
  intros W Hpd Hpt H0 H4. destruct (wi_base _ _ _ _ _ _ W) as [Hb Hb'].
  assert (forall k, 0 <= k < 4 -> u32 (base + o + k) = base + (o + k)) as Hu.
  { intros k Hk. rewrite u32_id; [lia|]. unfold KERNBASE, PGSIZE in *. word_lia. }
  unfold vwrite32. rewrite !Hu by lia.
  destruct (window_vwrite8 s d t p base o v W Hpd Hpt ltac:(lia)) as [E1 W1]. mstep E1.
  destruct (window_vwrite8 _ d t p base (o + 1) (v / 2 ^ 8) W1 Hpd Hpt ltac:(lia)) as [E2 W2]. mstep E2.
  destruct (window_vwrite8 _ d t p base (o + 2) (v / 2 ^ 16) W2 Hpd Hpt ltac:(lia)) as [E3 W3]. mstep E3.
  destruct (window_vwrite8 _ d t p base (o + 3) (v / 2 ^ 24) W3 Hpd Hpt ltac:(lia)) as [E4 W4]. rewrite E4.
  cbn [kmem set_kmem] in *. unfold st32. rewrite <- !Z.add_assoc. split; [done|].
  apply W4.
Qed.

(** A translation with enough permissions is a window. *)
Lemma trans_window m s l d t base p f :
  mem_wf s -> pgdir_ok s l d -> PDX base <> PDX UVPT -> 0 <= base < KERNBASE -> base mod PGSIZE = 0 ->
  cr3 s = d * PGSIZE -> 0 <= m < 8 ->
  tbl s d (PDX base) = Some t -> trans s d base = Some (p, f) ->
  Z.land (ld32 (kmem s) (pde_addr d (PDX base))) m = m -> Z.land f m = m -> window m s d t p base.
Proof.
  intros Hwf Hpd Hu Hb Hb0 Hc Hm8 Ht Htr Hpde Hf. pose proof (pd_range _ _ _ Hpd). pose proof (wf_npages _ Hwf).
  split; try done; [lia| |].
  - split; [done|]. unfold tbl in Ht. destruct (entry _) as [[t' f']|] eqn:E; simplify_eq/=.
    by apply entry_Some in E as (_ & E & _); [|apply entry_word].
  - unfold trans in Htr. rewrite Ht in Htr.
    pose proof (entry_word s Hwf (pte_addr t base)) as Hw. set (w := ld32 (kmem s) (pte_addr t base)) in *.
    pose proof (entry_Some w p f Hw Htr) as (_ & E & _). split; [|done].
    unfold entry in Htr. destruct (has w PTE_P); simplify_eq. etrans; [|exact Hf].
    change PGSIZE with (2 ^ 12). rewrite <- Z.land_ones, <- Z.land_assoc by lia. f_equal.
    rewrite Z.land_comm, Z.land_ones by lia. symmetry. apply Z.mod_small. lia.
Qed.

(** Consecutive words. *)
Fixpoint store_words (m : mem) (a : Z) (ws : list Z) : mem :=
  match ws with [] => m | w :: ws => store_words (st32 m a w) (a + 4) ws end.

Lemma store_words_out m a ws x : x < a \/ a + 4 * Z.of_nat (length ws) <= x -> store_words m a ws x = m x.
Proof.
  revert m a. induction ws as [|w ws IH]; intros m a Hx; cbn [store_words length] in *; [done|].
  rewrite IH by lia. apply st32_out. lia.
Qed.

Lemma ld32_store_words m a ws i w :
  ws !! i = Some w -> ld32 (store_words m a ws) (a + 4 * Z.of_nat i) = u32 w.
Proof.
  revert m a i. induction ws as [|w' ws IH]; intros m a [|i] Hi; cbn [store_words]; simplify_eq/=.
  - rewrite Z.add_0_r, <- (ld32_st32_eq m a w). apply ld32_ext. intros x Hx. apply store_words_out. lia.
  - rewrite <- (IH (st32 m a w') (a + 4) i Hi). f_equal. lia.
Qed.
