(* ===== verification/Exits.v ===== *)
(** * How a kernel computation can end

    [exits Q c]: when [c] leaves the kernel it does so in one of the ways [Q]
    allows.  The predicate is closed under the constructs of the monad, and the
    operations of the memory components never leave at all, so that for larger
    computations it is proved by walking through their text. *)
From S2P Require Import Prelude Machine Mmu KState PageAlloc PageTable Vmem.

Definition exits (Q : leave -> Prop) {A} (c : M A) : Prop := forall s l s', c s = Leave l s' -> Q l.

Create HintDb exits discriminated.

(** * Properties *)

Lemma exits_bind (Q : leave -> Prop) {A B} (c : M A) (k : A -> M B) : exits Q c -> (forall a, exits Q (k a)) -> exits Q (kbind c k).
Proof.
  intros Hc Hk s l s'. specialize (Hc s). unfold kbind. destruct (c s) as [a s1|l1 s1|e s1]; [apply Hk| |done].
  intros [= -> ->]. by apply (Hc l s').
Qed.

(** Walk through a program: a bind, a case distinction, a known operation. *)
Ltac exits_step :=
  match goal with
  | |- forall _, _ => intros ?
  | |- exits _ (kbind _ _) => apply exits_bind
  | |- exits _ (if ?b then _ else _) => destruct b
  | |- exits _ (match ?x with _ => _ end) => destruct x
  | |- exits _ (let '(_, _) := ?x in _) => destruct x
  | |- exits _ _ => solve [auto with exits nocore]
  end.
Ltac exits_tac := repeat exits_step.

Section Exits.
Context (Q : leave -> Prop).

Lemma exits_leave {A} l : Q l -> exits Q (@leave_with A l).
Proof. by intros Hl s l' s' [= <- _]. Qed.
Lemma exits_ret {A} (a : A) : exits Q (kret a).
Proof. by intros s l s'. Qed.
Lemma exits_get {A} (f : kstate -> A) : exits Q (get f).
Proof. by intros s l s'. Qed.
Lemma exits_modify f : exits Q (modify f).
Proof. by intros s l s'. Qed.
Lemma exits_crash {A} e : exits Q (@crash_with A e).
Proof. by intros s l s'. Qed.
Lemma exits_get_page i : exits Q (get_page i).
Proof. intros s l s'. unfold get_page. by destruct (_ !! _). Qed.
Lemma exits_get_env i : exits Q (get_env i).
Proof. intros s l s'. unfold get_env. by destruct (_ !! _). Qed.
Lemma exits_thiscpu : exits Q thiscpu.
Proof. intros s l s'. unfold thiscpu. by destruct (_ !! _). Qed.

#[local] Hint Resolve exits_ret exits_get exits_modify exits_crash exits_get_page exits_get_env exits_thiscpu : exits.

Lemma exits_assert b : exits Q (assert b).
Proof. unfold assert. exits_tac. Qed.
Lemma exits_cprintf f l : exits Q (cprintf f l).
Proof. apply exits_modify. Qed.
Lemma exits_kptr p : exits Q (kptr p).
Proof. unfold kptr. exits_tac. Qed.
Lemma exits_put_page i p : exits Q (put_page i p).
Proof. apply exits_modify. Qed.
#[local] Hint Resolve exits_assert exits_cprintf exits_kptr exits_put_page : exits.

Lemma exits_read32 p : exits Q (read32 p).
Proof. unfold read32. exits_tac. Qed.
Lemma exits_write32 p v : exits Q (write32 p v).
Proof. unfold write32. exits_tac. Qed.
Lemma exits_PADDR v : exits Q (PADDR v).
Proof. unfold PADDR, panic. exits_tac. Qed.
Lemma exits_KADDR v : exits Q (KADDR v).
Proof. unfold KADDR, panic. exits_tac. Qed.
Lemma exits_page2kva v : exits Q (page2kva v).
Proof. apply exits_KADDR. Qed.
Lemma exits_pa2page v : exits Q (pa2page v).
Proof. unfold pa2page, panic. exits_tac. Qed.
Lemma exits_kmemset v c n : exits Q (kmemset v c n).
Proof. unfold kmemset. exits_tac. Qed.
#[local] Hint Resolve exits_read32 exits_write32 exits_PADDR exits_KADDR exits_page2kva exits_pa2page exits_kmemset : exits.

Lemma exits_page_alloc f : exits Q (page_alloc f).
Proof. unfold page_alloc. exits_tac. Qed.
Lemma exits_page_free p : exits Q (page_free p).
Proof. unfold page_free. exits_tac. Qed.
#[local] Hint Resolve exits_page_alloc exits_page_free : exits.
Lemma exits_pgdir_walk d va b : exits Q (pgdir_walk d va b).
Proof. unfold pgdir_walk. exits_tac. Qed.
Lemma exits_page_decref p : exits Q (page_decref p).
Proof. unfold page_decref. exits_tac. Qed.
Lemma exits_tlb_invalidate d va : exits Q (tlb_invalidate d va).
Proof. unfold tlb_invalidate, curenv. exits_tac. Qed.
#[local] Hint Resolve exits_pgdir_walk exits_page_decref exits_tlb_invalidate : exits.
Lemma exits_page_lookup d va : exits Q (page_lookup d va).
Proof. unfold page_lookup. exits_tac. Qed.
#[local] Hint Resolve exits_page_lookup : exits.
Lemma exits_page_remove d va : exits Q (page_remove d va).
Proof. unfold page_remove. exits_tac. Qed.
Lemma exits_insert_pte d p va perm a : exits Q (insert_pte d p va perm a).
Proof. unfold insert_pte. exits_tac. Qed.
#[local] Hint Resolve exits_page_remove exits_insert_pte : exits.
Lemma exits_page_insert d p va perm : exits Q (page_insert d p va perm).
Proof. unfold page_insert. exits_tac. Qed.
End Exits.

#[export] Hint Resolve exits_ret exits_get exits_modify exits_crash exits_get_page exits_get_env exits_thiscpu
  exits_assert exits_cprintf exits_kptr exits_put_page exits_read32 exits_write32 exits_PADDR exits_KADDR
  exits_page2kva exits_pa2page exits_kmemset exits_page_alloc exits_page_free exits_pgdir_walk
  exits_page_decref exits_tlb_invalidate exits_page_lookup exits_page_remove exits_insert_pte
  exits_page_insert : exits.
