(* ===== verification/SelfTest.v ===== *)
(** The kernel's self-tests of its memory management: the check_ functions of
    src/kern/pmap.c, which mem_init runs between its steps.

    A test is a computation of the monad: it either returns, having used the
    operations it tests, or crashes with [AssertFailed].  The walks along the
    free list take as fuel the number of pages, which a list without a cycle
    cannot exceed. *)

From S2P Require Import Prelude Machine Mmu Cstring Devices KState PageAlloc PageTable Vmem.

(** ** Walking the free list *)

(** [for (pp = start; pp; pp = pp->pp_link) body] *)
Fixpoint for_free (fuel : nat) (body : Z -> M unit) (pp : option Z) : M unit :=
  match pp with
  | None => kret tt
  | Some p =>
      match fuel with
      | O => crash_with OutOfFuel
      | S fuel => body p ;; let! x := get_page p in for_free fuel body (pp_link x)
      end
  end.

Definition walk_free (body : Z -> M unit) : M unit :=
  let! n := get npages in let! fl := get page_free_list in for_free (Z.to_nat n) body fl.

(** The same with a counter. *)
Fixpoint count_from (fuel : nat) (pp : option Z) (nfree step : Z) : M Z :=
  match pp with
  | None => kret nfree
  | Some p =>
      match fuel with
      | O => crash_with OutOfFuel
      | S fuel => let! x := get_page p in count_from fuel (pp_link x) (nfree + step) step
      end
  end.
Definition count_free (nfree step : Z) : M Z :=
  let! n := get npages in let! fl := get page_free_list in count_from (Z.to_nat n) fl nfree step.

(** [pp->pp_link = v], [pp->pp_ref = v] *)
Definition set_link (pp : Z) (v : option Z) : M unit :=
  let! x := get_page pp in put_page pp {| pp_link := v; pp_ref := pp_ref x |}.
Definition set_ref (pp v : Z) : M unit :=
  let! x := get_page pp in put_page pp {| pp_link := pp_link x; pp_ref := v |}.
Definition ref_of (pp : Z) : M Z := let! x := get_page pp in kret (pp_ref x).

(** ** check_page_free_list *)

Section FreeList.
Context `{Platform}.

(** [*tail = v], where [tail] is the local variable [loc] ([None]) or the link
    field of a page; the result is the local variable's value. *)
Definition store_tail (tail loc v : option Z) : M (option Z) :=
  match tail with
  | None => kret v
  | Some p => set_link p v ;; kret loc
  end.

(** Pages below the limit first: [l1], [l2] are pp1 and pp2, [t1], [t2] the two
    entries of tp. *)
Fixpoint sort_free (fuel : nat) (pdx_limit : Z) (pp l1 l2 t1 t2 : option Z) : M unit :=
  match pp with
  | None =>
      let! l2 := store_tail t2 l2 None in
      let! l1 := store_tail t1 l1 l2 in
      modify (set_page_free_list l1)
  | Some p =>
      match fuel with
      | O => crash_with OutOfFuel
      | S fuel =>
          if pdx_limit <=? PDX (page2pa p) then
            let! l2 := store_tail t2 l2 (Some p) in
            let! x := get_page p in sort_free fuel pdx_limit (pp_link x) l1 l2 t1 (Some p)
          else
            let! l1 := store_tail t1 l1 (Some p) in
            let! x := get_page p in sort_free fuel pdx_limit (pp_link x) l1 l2 (Some p) t2
      end
  end.

Definition poison (pdx_limit pp : Z) : M unit :=
  if PDX (page2pa pp) <? pdx_limit then let! v := page2kva pp in kmemset v 0x97 128 else kret tt.

(** The assertions on one page; an index is aligned by construction. *)
Definition check_free_page (first_free_page pp : Z) : M unit :=
  let! n := get npages in
  assert (0 <=? pp) ;;
  assert (pp <? n) ;;
  let pa := page2pa pp in
  assert (negb (pa =? 0)) ;;
  assert (negb (pa =? IOPHYSMEM)) ;;
  assert (negb (pa =? EXTPHYSMEM - PGSIZE)) ;;
  assert (negb (pa =? EXTPHYSMEM)) ;;
  (if pa <? EXTPHYSMEM then kret tt
   else let! v := page2kva pp in assert (first_free_page <=? v)) ;;
  assert (negb (pa =? MPENTRY_PADDR)).

(** The counts of pages in base and in extended memory. *)
Fixpoint check_free_pages (fuel : nat) (first_free_page : Z) (pp : option Z) (nb ne : Z) : M (Z * Z) :=
  match pp with
  | None => kret (nb, ne)
  | Some p =>
      match fuel with
      | O => crash_with OutOfFuel
      | S fuel =>
          check_free_page first_free_page p ;;
          let! x := get_page p in
          if page2pa p <? EXTPHYSMEM then check_free_pages fuel first_free_page (pp_link x) (nb + 1) ne
          else check_free_pages fuel first_free_page (pp_link x) nb (ne + 1)
      end
  end.

Definition check_page_free_list (only_low_memory : bool) : M unit :=
  let pdx_limit := if only_low_memory then 1 else NPDENTRIES in
  let! fl := get page_free_list in
  (if bool_decide (fl = None) then panic "'page_free_list' is a null pointer!" else kret tt) ;;
  let! n := get npages in
  (if only_low_memory then sort_free (Z.to_nat n) pdx_limit fl None None None None else kret tt) ;;
  walk_free (poison pdx_limit) ;;
  let! first_free_page := boot_alloc 0 in
  let! fl := get page_free_list in
  let! r := check_free_pages (Z.to_nat n) first_free_page fl 0 0 in
  assert (0 <? r.1) ;;
  assert (0 <? r.2).
End FreeList.

(** ** check_page_alloc *)

(** [assert((pp = page_alloc(flags)))] and [assert(!page_alloc(0))] *)
Definition must_alloc (flags : Z) : M Z :=
  let! r := page_alloc flags in
  match r with Some pp => kret pp | None => crash_with AssertFailed end.
Definition must_fail : M unit := let! r := page_alloc 0 in assert (bool_decide (r = None)).

Definition distinct3 (pp0 pp1 pp2 : Z) : M unit :=
  assert (negb (pp1 =? pp0)) ;; assert (negb (pp2 =? pp1) && negb (pp2 =? pp0)).

Definition in_memory (pp : Z) : M unit :=
  let! n := get npages in assert (page2pa pp <? u32 (n * PGSIZE)).

(** [for (i = 0; i < n; i++) assert(c[i] == 0)] *)
Fixpoint assert_zero (n : nat) (c : Z) : M unit :=
  match n with
  | O => kret tt
  | S n => kptr c ;; let! b := get (fun s => kmem s c) in assert (b =? 0) ;; assert_zero n (c + 1)
  end.

Definition check_page_alloc : M unit :=
  let! va := get pages_va in
  (if va =? 0 then panic "'pages' is a null pointer!" else kret tt) ;;
  let! nfree := count_free 0 1 in
  let! pp0 := must_alloc 0 in
  let! pp1 := must_alloc 0 in
  let! pp2 := must_alloc 0 in
  distinct3 pp0 pp1 pp2 ;;
  in_memory pp0 ;; in_memory pp1 ;; in_memory pp2 ;;
  let! fl := get page_free_list in
  modify (set_page_free_list None) ;;
  must_fail ;;
  page_free pp0 ;; page_free pp1 ;; page_free pp2 ;;
  let! pp0 := must_alloc 0 in
  let! pp1 := must_alloc 0 in
  let! pp2 := must_alloc 0 in
  distinct3 pp0 pp1 pp2 ;;
  must_fail ;;
  let! v := page2kva pp0 in
  kmemset v 1 PGSIZE ;;
  page_free pp0 ;;
  let! pp := must_alloc ALLOC_ZERO in
  assert (pp0 =? pp) ;;
  let! c := page2kva pp in
  assert_zero (Z.to_nat PGSIZE) c ;;
  modify (set_page_free_list fl) ;;
  page_free pp0 ;; page_free pp1 ;; page_free pp2 ;;
  let! nfree := count_free nfree (-1) in
  assert (nfree =? 0) ;;
  cprintf "check_page_alloc() succeeded!" [].

(** ** check_page *)

(** [assert(check_va2pa(pgdir, va) == pa)], [assert(pp->pp_ref == r)] and
    [assert(PTE_ADDR(pgdir[0]) == page2pa(pp))] *)
Definition maps_to (pgdir va pa : Z) : M unit := let! r := check_va2pa pgdir va in assert (r =? u32 pa).
Definition ref_is (pp r : Z) : M unit := let! x := ref_of pp in assert (x =? r).
Definition table_is (pgdir pp : Z) : M unit :=
  let! e := read32 pgdir in assert (PTE_ADDR e =? page2pa pp).
(** [*pgdir_walk(pgdir, va, 0)] *)
Definition walk_pte (pgdir va : Z) : M Z := let! p := pgdir_walk pgdir va false in read32 p.
Definition insert_is (pgdir pp va perm r : Z) : M unit :=
  let! x := page_insert pgdir pp va perm in assert (x =? r).
Definition insert_fails (pgdir pp va perm : Z) : M unit :=
  let! x := page_insert pgdir pp va perm in assert (x <? 0).
(** [for (i = 0; i < n; i++) assert((ptep[i] & PTE_P) == 0)] *)
Fixpoint assert_absent (n : nat) (ptep : Z) : M unit :=
  match n with
  | O => kret tt
  | S n => let! e := read32 ptep in assert (negb (has e PTE_P)) ;; assert_absent n (ptep + 4)
  end.

(** Mapping, remapping and unmapping with three pages. *)
Definition check_insert_remove (pgdir pp0 pp1 pp2 : Z) : M unit :=
  let! r := page_lookup pgdir 0 in
  assert (bool_decide (r = None)) ;;
  insert_fails pgdir pp1 0 PTE_W ;;
  page_free pp0 ;;
  insert_is pgdir pp1 0 PTE_W 0 ;;
  table_is pgdir pp0 ;; maps_to pgdir 0 (page2pa pp1) ;; ref_is pp1 1 ;; ref_is pp0 1 ;;
  insert_is pgdir pp2 PGSIZE PTE_W 0 ;;
  maps_to pgdir PGSIZE (page2pa pp2) ;; ref_is pp2 1 ;;
  must_fail ;;
  insert_is pgdir pp2 PGSIZE PTE_W 0 ;;
  maps_to pgdir PGSIZE (page2pa pp2) ;; ref_is pp2 1 ;;
  must_fail ;;
  let! e := read32 (pgdir + 4 * PDX PGSIZE) in
  let! ptep := KADDR (PTE_ADDR e) in
  let! p := pgdir_walk pgdir PGSIZE false in
  assert (p =? ptep + 4 * PTX PGSIZE) ;;
  insert_is pgdir pp2 PGSIZE (Z.lor PTE_W PTE_U) 0 ;;
  maps_to pgdir PGSIZE (page2pa pp2) ;; ref_is pp2 1 ;;
  let! e := walk_pte pgdir PGSIZE in assert (has e PTE_U) ;;
  let! e := read32 pgdir in assert (has e PTE_U) ;;
  insert_is pgdir pp2 PGSIZE PTE_W 0 ;;
  let! e := walk_pte pgdir PGSIZE in assert (has e PTE_W) ;;
  let! e := walk_pte pgdir PGSIZE in assert (negb (has e PTE_U)) ;;
  insert_fails pgdir pp0 PTSIZE PTE_W ;;
  insert_is pgdir pp1 PGSIZE PTE_W 0 ;;
  let! e := walk_pte pgdir PGSIZE in assert (negb (has e PTE_U)) ;;
  maps_to pgdir 0 (page2pa pp1) ;; maps_to pgdir PGSIZE (page2pa pp1) ;;
  ref_is pp1 2 ;; ref_is pp2 0 ;;
  let! pp := must_alloc 0 in assert (pp =? pp2) ;;
  page_remove pgdir 0 ;;
  maps_to pgdir 0 (-1) ;; maps_to pgdir PGSIZE (page2pa pp1) ;; ref_is pp1 1 ;; ref_is pp2 0 ;;
  insert_is pgdir pp1 PGSIZE 0 0 ;;
  let! r := ref_of pp1 in assert (negb (r =? 0)) ;;
  let! x := get_page pp1 in assert (bool_decide (pp_link x = None)) ;;
  page_remove pgdir PGSIZE ;;
  maps_to pgdir 0 (-1) ;; maps_to pgdir PGSIZE (-1) ;; ref_is pp1 0 ;; ref_is pp2 0 ;;
  let! pp := must_alloc 0 in assert (pp =? pp1) ;;
  must_fail ;;
  table_is pgdir pp0 ;;
  write32 pgdir 0 ;;
  ref_is pp0 1 ;;
  set_ref pp0 0.

(** The pointer that pgdir_walk returns, and that new page tables are cleared. *)
Definition check_walk (pgdir pp0 : Z) : M unit :=
  page_free pp0 ;;
  let va := PGSIZE * NPDENTRIES + PGSIZE in
  let! ptep := pgdir_walk pgdir va true in
  let! e := read32 (pgdir + 4 * PDX va) in
  let! ptep1 := KADDR (PTE_ADDR e) in
  assert (ptep =? ptep1 + 4 * PTX va) ;;
  write32 (pgdir + 4 * PDX va) 0 ;;
  set_ref pp0 0 ;;
  let! v := page2kva pp0 in
  kmemset v 0xFF PGSIZE ;;
  page_free pp0 ;;
  let! _ := pgdir_walk pgdir 0 true in
  let! ptep := page2kva pp0 in
  assert_absent (Z.to_nat NPTENTRIES) ptep ;;
  write32 pgdir 0 ;;
  set_ref pp0 0.

Definition check_mmio (pgdir : Z) : M unit :=
  let! mm1 := mmio_map_region 0 4097 in
  let! mm2 := mmio_map_region 0 4096 in
  assert ((MMIOBASE <=? mm1) && (u32 (mm1 + 8096) <? MMIOLIM)) ;;
  assert ((MMIOBASE <=? mm2) && (u32 (mm2 + 8096) <? MMIOLIM)) ;;
  assert ((mm1 mod PGSIZE =? 0) && (mm2 mod PGSIZE =? 0)) ;;
  assert (u32 (mm1 + 8096) <=? mm2) ;;
  maps_to pgdir mm1 0 ;; maps_to pgdir (u32 (mm1 + PGSIZE)) PGSIZE ;;
  maps_to pgdir mm2 0 ;; maps_to pgdir (u32 (mm2 + PGSIZE)) (-1) ;;
  let! e := walk_pte pgdir mm1 in assert (has e (Z.lor (Z.lor PTE_W PTE_PWT) PTE_PCD)) ;;
  let! e := walk_pte pgdir mm1 in assert (negb (has e PTE_U)) ;;
  let! p := pgdir_walk pgdir mm1 false in write32 p 0 ;;
  let! p := pgdir_walk pgdir (u32 (mm1 + PGSIZE)) false in write32 p 0 ;;
  let! p := pgdir_walk pgdir mm2 false in write32 p 0.

Definition check_page : M unit :=
  let! pgdir := get kern_pgdir in
  let! pp0 := must_alloc 0 in
  let! pp1 := must_alloc 0 in
  let! pp2 := must_alloc 0 in
  distinct3 pp0 pp1 pp2 ;;
  let! fl := get page_free_list in
  modify (set_page_free_list None) ;;
  must_fail ;;
  check_insert_remove pgdir pp0 pp1 pp2 ;;
  check_walk pgdir pp0 ;;
  modify (set_page_free_list fl) ;;
  page_free pp0 ;; page_free pp1 ;; page_free pp2 ;;
  check_mmio pgdir ;;
  cprintf "check_page() succeeded!" [].

(** ** check_kern_pgdir *)

(** [for (i = 0; i < n; i += PGSIZE) assert(check_va2pa(pgdir, va + i) == pa + i)];
    with [pa] = None, the addresses must not be mapped. *)
Fixpoint check_range (n : nat) (pgdir va : Z) (pa : option Z) : M unit :=
  match n with
  | O => kret tt
  | S n =>
      maps_to pgdir (u32 va) (default (-1) pa) ;;
      check_range n pgdir (va + PGSIZE) ((fun p => p + PGSIZE) <$> pa)
  end.
(** The iterations for a bound of [size] bytes. *)
Definition pages_in (size : Z) : nat := Z.to_nat ((size + PGSIZE - 1) / PGSIZE).

(** The entries of the directory: the named slots are present, those from
    KERNBASE up are writable too, the others are empty. *)
Definition named_slot (i : Z) : bool :=
  (i =? PDX UVPT) || (i =? PDX (KSTACKTOP - 1)) || (i =? PDX UPAGES) || (i =? PDX UENVS) || (i =? PDX MMIOBASE).
Fixpoint check_pdes (n : nat) (pgdir i : Z) : M unit :=
  match n with
  | O => kret tt
  | S n =>
      let! e := read32 (pgdir + 4 * i) in
      (if named_slot i then assert (has e PTE_P)
       else if PDX KERNBASE <=? i then assert (has e PTE_P) ;; assert (has e PTE_W)
       else assert (e =? 0)) ;;
      check_pdes n pgdir (i + 1)
  end.

Section KernPgdir.
(** The array of kernel stacks, which the linker places. *)
Context (percpu_kstacks : Z -> Z).

Fixpoint check_stacks (n : nat) (pgdir cpu : Z) : M unit :=
  match n with
  | O => kret tt
  | S n =>
      let base := KSTACKTOP - (KSTKSIZE + KSTKGAP) * (cpu + 1) in
      let! pa := PADDR (percpu_kstacks cpu) in
      check_range (pages_in KSTKSIZE) pgdir (base + KSTKGAP) (Some pa) ;;
      check_range (pages_in KSTKGAP) pgdir base None ;;
      check_stacks n pgdir (cpu + 1)
  end.

Definition check_kern_pgdir : M unit :=
  let! pgdir := get kern_pgdir in
  let! n := get npages in
  let! pg := get pages_va in
  let! en := get envs_va in
  let! pgpa := PADDR pg in
  check_range (pages_in (ROUNDUP (u32 (n * SIZEOF_PAGEINFO)) PGSIZE)) pgdir UPAGES (Some pgpa) ;;
  let! enpa := PADDR en in
  check_range (pages_in (ROUNDUP (NENV * SIZEOF_ENV) PGSIZE)) pgdir UENVS (Some enpa) ;;
  check_range (pages_in (u32 (n * PGSIZE))) pgdir KERNBASE (Some 0) ;;
  check_stacks (Z.to_nat NCPU) pgdir 0 ;;
  check_pdes (Z.to_nat NPDENTRIES) pgdir 0 ;;
  cprintf "check_kern_pgdir() succeeded!" [].
End KernPgdir.

(** ** check_page_installed_pgdir *)

Definition check_page_installed_pgdir : M unit :=
  let! pgdir := get kern_pgdir in
  let! pp0 := must_alloc 0 in
  let! pp1 := must_alloc 0 in
  let! pp2 := must_alloc 0 in
  page_free pp0 ;;
  let! v1 := page2kva pp1 in kmemset v1 1 PGSIZE ;;
  let! v2 := page2kva pp2 in kmemset v2 2 PGSIZE ;;
  let! _ := page_insert pgdir pp1 PGSIZE PTE_W in
  ref_is pp1 1 ;;
  let! w := vread32 PGSIZE in assert (w =? 0x01010101) ;;
  let! _ := page_insert pgdir pp2 PGSIZE PTE_W in
  let! w := vread32 PGSIZE in assert (w =? 0x02020202) ;;
  ref_is pp2 1 ;; ref_is pp1 0 ;;
  vwrite32 PGSIZE 0x03030303 ;;
  let! w := read32 v2 in assert (w =? 0x03030303) ;;
  page_remove pgdir PGSIZE ;;
  ref_is pp2 0 ;;
  table_is pgdir pp0 ;;
  write32 pgdir 0 ;;
  ref_is pp0 1 ;;
  set_ref pp0 0 ;;
  page_free pp0 ;;
  cprintf "check_page_installed_pgdir() succeeded!" [].

(** * Properties *)

(** ** Walks along the free list *)

Lemma NoDup_range_length l n : NoDup l -> (forall i, i ∈ l -> 0 <= i < Z.of_nat n) -> (length l <= n)%nat.
Proof.
  intros Hnd Hr. rewrite <- (length_zrange 0 n).
  apply submseteq_length, NoDup_submseteq; [done|]. intros i Hi. apply elem_of_zrange. specialize (Hr i Hi). lia.
Qed.

Lemma free_ok_length s l : mem_wf s -> free_ok s l -> (length l <= Z.to_nat (npages s))%nat.
Proof.
  intros Hwf Hf. apply NoDup_range_length; [by apply (free_ok_NoDup s)|].
  intros i Hi. pose proof (free_ok_range s l i Hwf Hf Hi). lia.
Qed.

Lemma count_from_eq fuel l s h n step :
  chain pp_link (pages s) h l -> (length l <= fuel)%nat ->
  count_from fuel h n step s = Ret (n + step * Z.of_nat (length l)) s.
Proof.
  revert fuel h n. induction l as [|i l IH]; intros fuel h n; cbn [chain length].
  - intros -> _. destruct fuel; cbn; unfold kret; do 2 f_equal; lia.
  - intros [-> (x & Hx & Hc)] Hf. destruct fuel as [|fuel]; [lia|]. cbn [count_from].
    mstep (get_page_eq _ _ _ Hx). rewrite (IH fuel) by (done || lia). f_equal. lia.
Qed.

Lemma count_free_eq s l n step :
  mem_wf s -> free_ok s l -> count_free n step s = Ret (n + step * Z.of_nat (length l)) s.
Proof.
  intros Hwf Hf. unfold count_free. mrun. apply count_from_eq; [apply Hf|by apply free_ok_length].
Qed.

(** ** The stable partition of check_page_free_list *)

(** The links of [l] from [h] on, the last one being [e]. *)
Fixpoint seg (pg : gmap Z PageInfo) (h : option Z) (l : list Z) (e : option Z) : Prop :=
  match l with
  | [] => h = e
  | i :: l => h = Some i /\ exists x, pg !! i = Some x /\ seg pg (pp_link x) l e
  end.

Lemma seg_chain pg h l : seg pg h l None <-> chain pp_link pg h l.
Proof. revert h. induction l as [|i l IH]; intros h; cbn; [done|]. by setoid_rewrite IH. Qed.

Lemma seg_app pg h l1 e l2 f : seg pg h l1 e -> seg pg e l2 f -> seg pg h (l1 ++ l2) f.
Proof.
  revert h. induction l1 as [|i l1 IH]; intros h; cbn; [by intros ->|].
  intros [-> (x & Hx & H1)] H2. split; [done|]. eauto.
Qed.

Lemma seg_ext pg pg' h l e : (forall i, i ∈ l -> pg' !! i = pg !! i) -> seg pg h l e -> seg pg' h l e.
Proof.
  revert h. induction l as [|i l IH]; intros h He; cbn; [done|].
  intros [-> (x & Hx & H1)]. split; [done|]. exists x. rewrite He by (by left). split; [done|].
  apply IH; [|done]. intros j Hj. apply He. by right.
Qed.

Lemma seg_snoc pg h l p x : seg pg h l (Some p) -> pg !! p = Some x -> seg pg h (l ++ [p]) (pp_link x).
Proof. intros H1 Hx. apply (seg_app _ _ _ (Some p)); [done|]. cbn. eauto. Qed.

(** Same pages and reference counts; the links outside [l] unchanged. *)
Record relinked (l : list Z) (pg pg' : gmap Z PageInfo) : Prop := {
  rl_refs : forall j, pp_ref <$> pg' !! j = pp_ref <$> pg !! j;
  rl_else : forall j, j ∉ l -> pg' !! j = pg !! j }.

Lemma store_tail_eq s pg tail loc v l e :
  seg pg loc l e -> tail = last l -> NoDup l ->
  exists pg' loc', store_tail tail loc v (set_pages pg s) = Ret loc' (set_pages pg' s) /\
    seg pg' loc' l v /\ relinked l pg pg'.
Proof.
  intros Hs -> Hnd. destruct l as [|p l _] using rev_ind.
  { exists pg, v. split_and!; [done|done|by split]. }
  rewrite last_snoc. cbn [store_tail].
  assert (exists x, pg !! p = Some x /\ seg pg loc l (Some p)) as (x & Hx & Hl).
  { clear Hnd. revert loc Hs. induction l as [|i l IH]; intros loc; cbn.
    - intros [-> (x & Hx & _)]. eauto.
    - intros [-> (y & Hy & Hs)]. destruct (IH _ Hs) as (x & Hx & Hl). eauto 6. }
  apply NoDup_app in Hnd as (_ & Hnp & _).
  set (pg' := <[p := {| pp_link := v; pp_ref := pp_ref x |}]> pg).
  exists pg', loc. split; [|split].
  - unfold set_link. rewrite bind_assoc. mstep (get_page_eq p x (set_pages pg s) Hx). done.
  - apply (seg_snoc pg' loc l p {| pp_link := v; pp_ref := pp_ref x |}); [|apply lookup_insert_eq].
    apply (seg_ext pg); [|done]. intros i Hi. apply lookup_insert_ne. intros ->. apply (Hnp i Hi). by left.
  - split.
    + intros j. unfold pg'. destruct (decide (p = j)) as [->|]; [by rewrite lookup_insert_eq, Hx|by rewrite lookup_insert_ne].
    + intros j Hj. apply lookup_insert_ne. intros ->. apply Hj, elem_of_app. right. by left.
Qed.

Lemma relinked_trans l1 l2 l3 pg1 pg2 pg3 :
  relinked l1 pg1 pg2 -> relinked l2 pg2 pg3 -> (forall j, j ∈ l1 \/ j ∈ l2 -> j ∈ l3) -> relinked l3 pg1 pg3.
Proof.
  intros [R1 E1] [R2 E2] Hin. split; [intros j; by rewrite R2|].
  intros j Hj. rewrite E2, E1; [done|intros ?; apply Hj, Hin; by left|intros ?; apply Hj, Hin; by right].
Qed.

Lemma filter_bool {A} (b : A -> bool) x l :
  filter (fun i => b i) (x :: l) = if b x then x :: filter (fun i => b i) l else filter (fun i => b i) l.
Proof. rewrite filter_cons. destruct (b x); by destruct (decide _). Qed.

Definition low_page (lim i : Z) : bool := negb (lim <=? PDX (page2pa i)).

Lemma sort_free_eq s lim R : forall fuel pg h l1 l2 t1 t2 A B e1 e2,
  chain pp_link pg h R -> seg pg l1 A e1 -> seg pg l2 B e2 -> t1 = last A -> t2 = last B ->
  NoDup (A ++ B ++ R) -> (length R <= fuel)%nat ->
  exists pg' h', sort_free fuel lim h l1 l2 t1 t2 (set_pages pg s) = Ret tt (set_page_free_list h' (set_pages pg' s)) /\
    chain pp_link pg' h' ((A ++ filter (low_page lim) R) ++ (B ++ filter (fun i => negb (low_page lim i)) R)) /\
    relinked (A ++ B ++ R) pg pg'.
Proof.
  induction R as [|p R IH]; intros fuel pg h l1 l2 t1 t2 A B e1 e2 Hc H1 H2 Ht1 Ht2 Hnd Hf.
  - cbn in Hc. subst h. cbn. rewrite !app_nil_r in *. apply NoDup_app in Hnd as (NA & Hdis & NB).
    assert (forall c, sort_free fuel lim None l1 l2 t1 t2 c =
      kbind (store_tail t2 l2 None) (fun l2 => kbind (store_tail t1 l1 l2) (fun l1 => modify (set_page_free_list l1))) c) as ->
      by by destruct fuel.
    destruct (store_tail_eq s pg t2 l2 None B e2 H2 Ht2 NB) as (pg1 & l2' & E1 & S2 & R1). mstep E1.
    assert (seg pg1 l1 A e1) as H1'.
    { apply (seg_ext pg); [|done]. intros i Hi. apply (rl_else _ _ _ R1). by apply Hdis. }
    destruct (store_tail_eq s pg1 t1 l1 l2' A e1 H1' Ht1 NA) as (pg2 & l1' & E2 & S1 & R2). mstep E2.
    exists pg2, l1'. split; [done|]. split.
    + apply seg_chain, (seg_app _ _ _ l2'); [done|]. apply (seg_ext pg1); [|done].
      intros i Hi. apply (rl_else _ _ _ R2). intros Hi'. by apply (Hdis i).
    + apply (relinked_trans B A _ _ pg1); [done|done|]. intros j. rewrite elem_of_app. tauto.
  - destruct Hc as [-> (x & Hx & Hc)]. destruct fuel as [|fuel]; [cbn in Hf; lia|]. cbn in Hf.
    cbn [sort_free]. rewrite (filter_bool (low_page lim)), (filter_bool (fun i => negb (low_page lim i))).
    change (low_page lim p) with (negb (lim <=? PDX (page2pa p))).
    apply NoDup_app in Hnd as (NA & Hdis & [NB [Hdis' [Hp NR]%NoDup_cons]]%NoDup_app).
    assert ((p ∉ A) /\ (p ∉ B)) as [HpA HpB].
    { split; intros Hi; [apply (Hdis p Hi), elem_of_app; right; by left|apply (Hdis' p Hi); by left]. }
    assert (forall i, i ∈ R -> (i ∉ A) /\ (i ∉ B)) as HR.
    { intros i Hi. split; intros Hi'; [apply (Hdis i Hi'), elem_of_app; right; by right|apply (Hdis' i Hi'); by right]. }
    destruct (Z.leb_spec lim (PDX (page2pa p))) as [Hlim|Hlim]; cbn [negb].
    + destruct (store_tail_eq s pg t2 l2 (Some p) B e2 H2 Ht2 NB) as (pg1 & l2' & E1 & S2 & R1). mstep E1.
      assert (pg1 !! p = Some x) as Hx1 by (rewrite (rl_else _ _ _ R1); done).
      mstep (get_page_eq p x (set_pages pg1 s) Hx1).
      destruct (IH fuel pg1 (pp_link x) l1 l2' t1 (Some p) A (B ++ [p]) e1 (pp_link x)) as (pg' & h' & E & C & RL).
      * apply (chain_ext pp_link pg); [|done]. intros i Hi. f_equal. rewrite (rl_else _ _ _ R1); [done|by apply HR].
      * apply (seg_ext pg); [|done]. intros i Hi. apply (rl_else _ _ _ R1). intros Hi'.
        apply (Hdis i Hi), elem_of_app. by left.
      * by apply seg_snoc.
      * done.
      * by rewrite last_snoc.
      * rewrite <- app_assoc. apply NoDup_app. split; [done|]. split; [done|]. apply NoDup_app. split; [done|].
        split; [done|]. by constructor.
      * lia.
      * exists pg', h'. split; [exact E|]. split.
        { rewrite <- (app_assoc B) in C. exact C. }
        apply (relinked_trans B (A ++ (B ++ [p]) ++ R) _ _ pg1); [done|done|].
        intros j. rewrite !elem_of_app, !elem_of_cons, elem_of_nil. tauto.
    + destruct (store_tail_eq s pg t1 l1 (Some p) A e1 H1 Ht1 NA) as (pg1 & l1' & E1 & S1 & R1). mstep E1.
      assert (pg1 !! p = Some x) as Hx1 by (rewrite (rl_else _ _ _ R1); done).
      mstep (get_page_eq p x (set_pages pg1 s) Hx1).
      destruct (IH fuel pg1 (pp_link x) l1' l2 (Some p) t2 (A ++ [p]) B (pp_link x) e2) as (pg' & h' & E & C & RL).
      * apply (chain_ext pp_link pg); [|done]. intros i Hi. f_equal. rewrite (rl_else _ _ _ R1); [done|by apply HR].
      * by apply seg_snoc.
      * apply (seg_ext pg); [|done]. intros i Hi. apply (rl_else _ _ _ R1). intros Hi'.
        apply (Hdis i Hi'), elem_of_app. by left.
      * by rewrite last_snoc.
      * done.
      * rewrite <- app_assoc. apply NoDup_app. split; [done|]. split.
        { intros i Hi [->|Hi']%elem_of_cons; [done|]. apply (Hdis i Hi). apply elem_of_app in Hi' as [?|?]; apply elem_of_app;
            [by left|right; by right]. }
        constructor; [intros [?|?]%elem_of_app; done|]. apply NoDup_app. split; [done|]. split; [|done].
        intros i Hi Hi'. apply (Hdis' i Hi). by right.
      * lia.
      * exists pg', h'. split; [exact E|]. split.
        { rewrite <- (app_assoc A [p]) in C. exact C. }
        apply (relinked_trans A ((A ++ [p]) ++ B ++ R) _ _ pg1); [done|done|].
        intros j. rewrite !elem_of_app, !elem_of_cons, elem_of_nil. tauto.
Qed.

(** ** check_page_free_list *)

(** The memory after poisoning the low pages of [l]. *)
Definition poisoned (lim : Z) (l : list Z) (m : mem) : mem :=
  foldl (fun m i => if low_page lim i then memset m (page_kva i) 0x97 128 else m) m l.

Lemma poisoned_bytes lim l m : bytes_ok m -> bytes_ok (poisoned lim l m).
Proof.
  revert m. induction l as [|i l IH]; intros m Hm; [done|]. apply IH. destruct (low_page lim i); [|done].
  apply memset_bytes; [done|lia].
Qed.

Lemma poisoned_out lim l m x :
  (forall i, i ∈ l -> low_page lim i = true -> ~ page_kva i <= x < page_kva i + 128) -> poisoned lim l m x = m x.
Proof.
  revert m. induction l as [|i l IH]; intros m Hx; [done|]. 
  change (poisoned lim (i :: l) m) with (poisoned lim l (if low_page lim i then memset m (page_kva i) 0x97 128 else m)).
  rewrite IH by (intros j Hj; apply Hx; by right). specialize (Hx i ltac:(left)).
  destruct (low_page lim i); [|done]. rewrite memset_fill by lia. unfold fill. case_bool; try done.
  exfalso. apply Hx; [done|lia].
Qed.

Lemma poison_eq lim i s : mem_wf s -> 0 <= i < npages s ->
  poison lim i s = Ret tt (set_kmem (poisoned lim [i] (kmem s)) s).
Proof.
  intros Hwf Hi. unfold poison. cbn [poisoned foldl]. unfold low_page. rewrite Z.leb_antisym, negb_involutive.
  destruct (PDX (page2pa i) <? lim); [|by destruct s].
  mstep (page2kva_eq i s Hwf Hi). apply kmemset_eq, page_kva_kern. lia.
Qed.

Lemma for_free_poison lim l : forall fuel h s,
  chain pp_link (pages s) h l -> (forall i, i ∈ l -> 0 <= i < npages s) -> mem_wf s -> (length l <= fuel)%nat ->
  for_free fuel (poison lim) h s = Ret tt (set_kmem (poisoned lim l (kmem s)) s).
Proof.
  induction l as [|i l IH]; intros fuel h s Hc Hr Hwf Hf.
  - cbn in Hc. subst h. destruct fuel; by destruct s.
  - destruct Hc as [-> (x & Hx & Hc)]. destruct fuel as [|fuel]; [cbn in Hf; lia|]. cbn in Hf. cbn [for_free].
    mstep (poison_eq lim i s Hwf (Hr i ltac:(left))). set (s1 := set_kmem _ s).
    mstep (get_page_eq i x s1 Hx). rewrite (IH fuel (pp_link x) s1); [done|done| |by apply mem_wf_kmem, poisoned_bytes, Hwf|lia].
    intros j Hj. apply Hr. by right.
Qed.

(** What the assertions ask of a free page, [first] being boot_alloc's mark. *)
Definition free_page_good (first i : Z) : bool :=
  let pa := i * PGSIZE in
  negb (pa =? 0) && negb (pa =? IOPHYSMEM) && negb (pa =? EXTPHYSMEM - PGSIZE) && negb (pa =? EXTPHYSMEM) &&
  ((pa <? EXTPHYSMEM) || (first <=? page_kva i)) && negb (pa =? MPENTRY_PADDR).

Lemma assert_seq {A} (b : bool) (c : M A) s :
  kbind (assert b) (fun _ => c) s = if b then c s else Crash AssertFailed s.
Proof. by destruct b. Qed.

Lemma check_free_page_eq first i s : mem_wf s -> 0 <= i < npages s ->
  check_free_page first i s = if free_page_good first i then Ret tt s else Crash AssertFailed s.
Proof.
  intros Hwf Hi. pose proof (wf_npages _ Hwf). unfold check_free_page, free_page_good. mrun.
  rewrite !assert_seq, page2pa_eq by lia.
  rewrite (proj2 (Z.leb_le _ _)), (proj2 (Z.ltb_lt _ _)) by lia.
  do 4 (destruct (negb _); [|done]). cbn [andb].
  destruct (_ <? EXTPHYSMEM); cbn [orb andb].
  - rewrite bind_ret. unfold assert. by destruct (negb _).
  - rewrite bind_assoc. mstep (page2kva_eq i s Hwf Hi). rewrite assert_seq.
    destruct (_ <=? _); [|done]. unfold assert. cbn [andb]. by destruct (negb _).
Qed.

Definition base_page (i : Z) : bool := i * PGSIZE <? EXTPHYSMEM.
Definition count (f : Z -> bool) (l : list Z) : Z := Z.of_nat (length (filter (fun i => f i) l)).

Lemma count_cons f i l : count f (i :: l) = (if f i then 1 else 0) + count f l.
Proof. unfold count. rewrite filter_bool. destruct (f i); cbn [length]; lia. Qed.

Lemma check_free_pages_eq first l : forall fuel h nb ne s,
  chain pp_link (pages s) h l -> (forall i, i ∈ l -> 0 <= i < npages s) -> mem_wf s -> (length l <= fuel)%nat ->
  check_free_pages fuel first h nb ne s =
    if forallb (free_page_good first) l
    then Ret (nb + count base_page l, ne + count (fun i => negb (base_page i)) l) s else Crash AssertFailed s.
Proof.
  induction l as [|i l IH]; intros fuel h nb ne s Hc Hr Hwf Hf.
  - cbn in Hc. subst h. cbn. rewrite !Z.add_0_r. by destruct fuel.
  - destruct Hc as [-> (x & Hx & Hc)]. destruct fuel as [|fuel]; [cbn in Hf; lia|]. cbn in Hf. cbn [check_free_pages forallb].
    pose proof (Hr i ltac:(left)) as Hi. pose proof (wf_npages _ Hwf).
    pose proof (check_free_page_eq first i s Hwf Hi) as E. destruct (free_page_good first i); cbn [andb];
      [mstep E|by rewrite (bind_Crash _ _ _ _ _ E)].
    mstep (get_page_eq i x s Hx). rewrite page2pa_eq by lia. fold (base_page i).
    assert (forall j, j ∈ l -> 0 <= j < npages s) as Hr' by (intros j Hj; apply Hr; by right).
    destruct (base_page i) eqn:Eb; (rewrite (IH fuel) by (done || lia)); destruct (forallb _ l); try done;
      rewrite !count_cons, Eb; cbn; do 2 f_equal; lia.
Qed.

Lemma partition_perm (b : Z -> bool) l : filter (fun i => b i) l ++ filter (fun i => negb (b i)) l ≡ₚ l.
Proof.
  induction l as [|i l IH]; [done|]. rewrite (filter_bool b), (filter_bool (fun i => negb (b i))).
  destruct (b i); cbn [negb app]; [by f_equiv|]. by rewrite <- Permutation_middle, IH.
Qed.

(** The test's verdict on a free list. *)
Definition free_list_good (first : Z) (l : list Z) : bool :=
  forallb (free_page_good first) l && (0 <? count base_page l) && (0 <? count (fun i => negb (base_page i)) l).

Lemma count_perm f l l' : l ≡ₚ l' -> count f l = count f l'.
Proof. intros H. unfold count. f_equal. by rewrite H. Qed.

Lemma forallb_perm (f : Z -> bool) l l' : l ≡ₚ l' -> forallb f l = forallb f l'.
Proof. induction 1; cbn; try congruence. by rewrite !andb_assoc, (andb_comm (f _)). Qed.

Lemma free_list_good_perm first l l' : l ≡ₚ l' -> free_list_good first l = free_list_good first l'.
Proof. intros H. unfold free_list_good. by rewrite (forallb_perm _ _ _ H), !(count_perm _ _ _ H). Qed.

Section CheckFreeList.
Context `{Platform}.

(** The order in which the free list is left. *)
Definition resorted (only_low : bool) (l : list Z) : list Z :=
  if only_low then filter (fun i => low_page 1 i) l ++ filter (fun i => negb (low_page 1 i)) l else l.

Lemma resorted_perm only_low l : resorted only_low l ≡ₚ l.
Proof. destruct only_low; [apply partition_perm|done]. Qed.

(** The first step: the free list is put in order. *)
Lemma resort_eq (only_low : bool) (s : kstate) (l : list Z) :
  mem_wf s -> free_ok s l ->
  exists s1, (if only_low then sort_free (Z.to_nat (npages s)) 1 (page_free_list s) None None None None else kret tt) s
      = Ret tt s1 /\
    mem_wf s1 /\ free_ok s1 (resorted only_low l) /\ (forall j, refs s1 j = refs s j) /\
    kmem s1 = kmem s /\ npages s1 = npages s /\ nextfree s1 = nextfree s.
Proof.
  intros Hwf Hf. destruct only_low; [|by exists s].
  assert (set_pages (pages s) s = s) as Es by by destruct s.
  destruct (sort_free_eq s 1 l (Z.to_nat (npages s)) (pages s) (page_free_list s) None None None None [] [] None None)
    as (pg & h & E & C & [R1 R2]); try done; [apply Hf|by apply (free_ok_NoDup s)|by apply free_ok_length|].
  rewrite Es in E. exists (set_page_free_list h (set_pages pg s)). split; [exact E|].
  assert (forall j : Z, is_Some (pg !! j) <-> is_Some (pages s !! j)) as Hdom.
  { intros j. specialize (R1 j). destruct (pg !! j), (pages s !! j); try done; by split; eauto. }
  split_and!; try done.
  - destruct Hwf as [W1 W2 W3]. split; [done| |done]. intros i. cbn. by rewrite Hdom.
  - split; [exact C|]. intros i Hi. rewrite (resorted_perm true l) in Hi.
    destruct (fo_unref _ _ Hf i Hi) as (x & Hx & H0). specialize (R1 i). rewrite Hx in R1.
    destruct (pg !! i) as [y|] eqn:Hy; [|done]. injection R1 as R1. exists y. split; [exact Hy|congruence].
  - intros j. unfold refs. cbn. by rewrite R1.
Qed.

(** C23. check_page_free_list accepts exactly the free lists that are as they
    should be: no page that is in use for something else (page 0, the ends of
    the I/O hole, the first page of extended memory, the AP boot page, kernel
    memory below boot_alloc's mark) and pages of both kinds of memory.  It
    leaves the same pages free - the ones entry_pgdir maps first, in their
    order, when asked to - with their first 128 bytes overwritten when the page
    is below the limit, and nothing else changed. *)
Theorem check_page_free_list_correct (only_low : bool) (s : kstate) (l : list Z) :
  mem_wf s -> free_ok s l -> l <> [] -> 0 < nextfree s < 2 ^ 32 ->
  let lim := if only_low then 1 else NPDENTRIES in
  if free_list_good (nextfree s) l then
    exists s', check_page_free_list only_low s = Ret tt s' /\ mem_wf s' /\ free_ok s' (resorted only_low l) /\
      (forall j, refs s' j = refs s j) /\
      (forall x, (forall i, i ∈ l -> low_page lim i = true -> ~ page_kva i <= x < page_kva i + 128) -> kmem s' x = kmem s x)
  else exists s', check_page_free_list only_low s = Crash AssertFailed s'.
Proof.
  intros Hwf Hf Hne Hnf lim.
  destruct (resort_eq only_low s l Hwf Hf) as (s1 & E1 & Hwf1 & Hf1 & Hr1 & Hk1 & Hn1 & Hnf1).
  set (l1 := resorted only_low l) in *.
  assert (page_free_list s <> None) as Hfl.
  { intros Hn. apply Hne. pose proof (fo_chain _ _ Hf) as Hc. by apply (chain_head_nil pp_link _ _ _ Hc). }
  assert (forall i, i ∈ l1 -> 0 <= i < npages s1) as Hrange by (intros i; by apply free_ok_range).
  set (m := poisoned lim l1 (kmem s)).
  assert (exists s2, s2 = set_kmem m s1) as [s2 E2] by eauto.
  assert (mem_wf s2 /\ free_ok s2 l1) as [Hwf2 Hf2].
  { subst s2. split; [apply mem_wf_kmem; [done|]; apply poisoned_bytes, Hwf|by apply (free_ok_ext s1)]. }
  assert (check_page_free_list only_low s =
    if forallb (free_page_good (nextfree s)) l1
    then (assert (0 <? count base_page l1) ;; assert (0 <? count (fun i => negb (base_page i)) l1)) s2
    else Crash AssertFailed s2) as ->.
  { unfold check_page_free_list. fold lim. mrun. rewrite bool_decide_false by done. mrun.
    assert ((if only_low then sort_free (Z.to_nat (npages s)) lim (page_free_list s) None None None None else kret tt) s
      = Ret tt s1) as E1' by (unfold lim; by destruct only_low).
    mstep E1'. unfold walk_free. mrun.
    mstep (for_free_poison lim l1 (Z.to_nat (npages s1)) _ s1 (fo_chain _ _ Hf1) Hrange Hwf1 (free_ok_length s1 l1 Hwf1 Hf1)).
    rewrite Hk1. fold m. rewrite <- E2.
    assert (nextfree s2 = nextfree s) as Hnf2 by by rewrite E2.
    assert (npages s2 = npages s) as Hn2 by by rewrite E2.
    mstep (boot_alloc_0 s2 ltac:(lia) ltac:(unfold is_u32; lia)). mrun. rewrite Hnf2.
    pose proof (check_free_pages_eq (nextfree s) l1 (Z.to_nat (npages s)) (page_free_list s2) 0 0 s2 (fo_chain _ _ Hf2)
      ltac:(intros i Hi; rewrite Hn2, <- Hn1; by apply Hrange) Hwf2 ltac:(rewrite <- Hn2; by apply free_ok_length)) as Hc.
    destruct (forallb _ l1); [by mstep Hc|by rewrite (bind_Crash _ _ _ _ _ Hc)]. }
  rewrite <- (free_list_good_perm (nextfree s) l1 l) by apply resorted_perm. unfold free_list_good.
  destruct (forallb _ l1); [|by eexists]. rewrite assert_seq. cbn [andb].
  destruct (0 <? count base_page l1); [|by eexists]. unfold assert. cbn [andb].
  destruct (0 <? count _ l1); [|by eexists].
  exists s2. split_and!; try done.
  - intros j. by rewrite E2, <- Hr1.
  - intros x Hx. rewrite E2. apply poisoned_out. intros i Hi. apply Hx. by rewrite <- (resorted_perm only_low l).
Qed.
End CheckFreeList.

(** ** check_page_alloc *)

(** While the test runs: [l] is the free list, [X] the pages it has taken, [R]
    the free list it has put aside. *)
Record held (s : kstate) (l X R : list Z) : Prop := {
  he_wf : mem_wf s;
  he_free : free_ok s l;
  he_aside : free_ok (set_page_free_list (head R) s) R;
  he_taken : forall i, i ∈ X -> unref s i;
  he_nodup : NoDup (X ++ l ++ R) }.

(** Page [c] is the only one that is written to. *)
Record only_page (c : Z) (s s' : kstate) : Prop := {
  op_refs : forall j, refs s' j = refs s j;
  op_npages : npages s' = npages s;
  op_mem : forall x, ~ page_kva c <= x < page_kva c + PGSIZE -> kmem s' x = kmem s x }.

#[export] Instance only_page_po c : PreOrder (only_page c).
Proof.
  split; [by split|]. intros s1 s2 s3 [A1 A2 A3] [B1 B2 B3].
  split; [intros j; by rewrite B1|by rewrite B2|intros x Hx; by rewrite B3, A3].
Qed.

Lemma held_range s l X R i : held s l X R -> i ∈ X ++ l ++ R -> 0 <= i < npages s.
Proof.
  intros H Hi. apply (wf_pages _ (he_wf _ _ _ _ H)).
  apply elem_of_app in Hi as [Hi|Hi]; [destruct (he_taken _ _ _ _ H i Hi) as (p & -> & _); eauto|].
  apply elem_of_app in Hi as [Hi|Hi].
  - destruct (fo_unref _ _ (he_free _ _ _ _ H) i Hi) as (p & -> & _); eauto.
  - destruct (fo_unref _ _ (he_aside _ _ _ _ H) i Hi) as (p & Hp & _). cbn in Hp. rewrite Hp. eauto.
Qed.

Lemma held_alloc c z s i l X R : held s (i :: l) X R -> (z = true -> c = i) ->
  held (after_alloc z i l s) l (i :: X) R /\ only_page c s (after_alloc z i l s).
Proof.
  intros H Hz. pose proof H as [H1 H2 H3 H4 H5]. split; [split|split].
  - by apply after_alloc_wf.
  - by apply after_alloc_free.
  - destruct H3 as [C U]. split; [|intros j Hj; destruct z; by apply U]. unfold free_list in *. cbn in C |- *.
    by rewrite after_alloc_pages.
  - intros j Hj. unfold unref. rewrite after_alloc_pages. apply elem_of_cons in Hj as [->|Hj]; [|by apply H4].
    apply (fo_unref _ _ H2). by left.
  - cbn [app] in *. revert H5. by rewrite (Permutation_middle X (l ++ R)).
  - intros j. unfold refs. by rewrite after_alloc_pages.
  - apply after_alloc_npages.
  - intros x Hx. destruct z; [|done]. rewrite Hz in Hx by done. apply after_alloc_kmem_out. lia.
Qed.

Lemma held_free c s i l X R : held s l (i :: X) R ->
  exists s', page_free i s = Ret tt s' /\ held s' (i :: l) X R /\ only_page c s s' /\ kmem s' = kmem s.
Proof.
  intros H. pose proof H as [H1 H2 H3 H4 H5]. destruct (H4 i ltac:(left)) as (p & Hp & Hp0).
  exists (after_free i s). split; [by apply (page_free_eq i p)|].
  cbn [app] in H5. pose proof H5 as [Hi _]%NoDup_cons. rewrite !elem_of_app in Hi.
  assert (forall j, unref s j -> unref (after_free i s) j) as Hu.
  { intros j (q & Hq & Hq0). unfold unref, after_free. cbn. destruct (decide (i = j)) as [->|].
    - eexists. by rewrite lookup_insert_eq.
    - exists q. by rewrite lookup_insert_ne. }
  split; [split|split; [split|done]].
  - apply after_free_wf; [done|]. apply (held_range _ _ _ _ _ H). by left.
  - apply after_free_ok; [tauto|done].
  - destruct H3 as [C U]. split; [|intros j Hj; apply Hu, U, Hj]. unfold free_list in *. cbn in C |- *.
    apply chain_frame; [tauto|done].
  - intros j Hj. apply Hu, H4. by right.
  - cbn [app]. revert H5. by rewrite (Permutation_middle X (l ++ R)).
  - intros j. unfold refs, after_free. cbn. destruct (decide (i = j)) as [->|]; [|by rewrite lookup_insert_ne].
    by rewrite lookup_insert_eq, Hp, <- Hp0.
  - done.
  - done.
Qed.

Lemma must_alloc_eq flags s i l X R : held s (i :: l) X R ->
  must_alloc flags s = Ret i (after_alloc (has flags ALLOC_ZERO) i l s).
Proof. intros H. unfold must_alloc. by mstep (page_alloc_cons flags s i l (he_wf _ _ _ _ H) (he_free _ _ _ _ H)). Qed.

Lemma must_fail_eq s X R : held s [] X R -> must_fail s = Ret tt s.
Proof. intros H. unfold must_fail. by mstep (page_alloc_nil 0 s (he_free _ _ _ _ H)). Qed.

(** Three pages off the list, and three pages back. *)
Lemma take3 c s i0 i1 i2 l X R : held s (i0 :: i1 :: i2 :: l) X R ->
  exists s', held s' l (i2 :: i1 :: i0 :: X) R /\ only_page c s s' /\ kmem s' = kmem s /\
    forall B (k : Z -> Z -> Z -> M B),
      kbind (must_alloc 0) (fun p0 => kbind (must_alloc 0) (fun p1 => kbind (must_alloc 0) (fun p2 => k p0 p1 p2))) s
      = k i0 i1 i2 s'.
Proof.
  intros H. destruct (held_alloc c false s i0 _ X R H ltac:(done)) as [H1 P1].
  destruct (held_alloc c false _ i1 _ _ R H1 ltac:(done)) as [H2 P2].
  destruct (held_alloc c false _ i2 _ _ R H2 ltac:(done)) as [H3 P3].
  eexists. split; [exact H3|]. split; [by etrans; [etrans|]|]. split; [done|]. intros B k.
  by mstep (must_alloc_eq 0 s i0 _ X R H); mstep (must_alloc_eq 0 _ i1 _ _ R H1); mstep (must_alloc_eq 0 _ i2 _ _ R H2).
Qed.

Lemma give3 c s i0 i1 i2 l X R : held s l (i0 :: i1 :: i2 :: X) R ->
  exists s', held s' (i2 :: i1 :: i0 :: l) X R /\ only_page c s s' /\ kmem s' = kmem s /\
    forall B (k : M B), (page_free i0 ;; page_free i1 ;; page_free i2 ;; k) s = k s'.
Proof.
  intros H. destruct (held_free c s i0 _ _ R H) as (s1 & E1 & H1 & P1 & K1).
  destruct (held_free c s1 i1 _ _ R H1) as (s2 & E2 & H2 & P2 & K2).
  destruct (held_free c s2 i2 _ _ R H2) as (s3 & E3 & H3 & P3 & K3).
  exists s3. split; [done|]. split; [by etrans; [etrans|]|]. split; [congruence|]. intros B k.
  by mstep E1; mstep E2; mstep E3.
Qed.

Lemma held_steal s l X : held s l X [] -> held (set_page_free_list None s) [] X l.
Proof.
  intros [H1 H2 H3 H4 H5]. split.
  - by destruct H1.
  - split; [done|]. by intros i ?%elem_of_nil.
  - destruct H2 as [C U]. split; [|done]. unfold free_list in *. cbn.
    by rewrite <- (chain_head _ _ _ _ C).
  - done.
  - by rewrite app_nil_r in H5.
Qed.

Lemma held_return s X l : held s [] X l -> held (set_page_free_list (head l) s) l X [].
Proof.
  intros [H1 H2 H3 H4 H5]. split; [by destruct H1|done| |done|by rewrite app_nil_r].
  split; [done|]. by intros i ?%elem_of_nil.
Qed.

Lemma held_perm s l X X' R : X ≡ₚ X' -> held s l X R -> held s l X' R.
Proof. intros HX [H1 H2 H3 H4 H5]. split; [done..| |by rewrite <- HX]. intros i. rewrite <- HX. apply H4. Qed.

(** Writing a taken page. *)
Lemma held_write s l X R i m' :
  held s l X R -> bytes_ok m' -> (forall x, ~ page_kva i <= x < page_kva i + PGSIZE -> m' x = kmem s x) ->
  held (set_kmem m' s) l X R /\ only_page i s (set_kmem m' s).
Proof.
  intros [H1 H2 H3 H4 H5] Hb Hm. split; [|done]. split; try done.
  - by apply mem_wf_kmem.
  - by apply (free_ok_ext s).
  - by apply (free_ok_ext (set_page_free_list (head R) s)).
Qed.

Lemma assert_zero_eq n : forall c s,
  KERNBASE <= c -> (forall x, c <= x < c + Z.of_nat n -> kmem s x = 0) -> assert_zero n c s = Ret tt s.
Proof.
  induction n as [|n IH]; intros c s Hc Hz; [done|]. cbn [assert_zero].
  mstep (kptr_ok c s Hc). mrun. rewrite Hz, Z.eqb_refl by lia. apply IH; [lia|]. intros x Hx. apply Hz. lia.
Qed.

Lemma distinct3_eq i0 i1 i2 X l s : NoDup (i2 :: i1 :: i0 :: X ++ l) -> distinct3 i0 i1 i2 s = Ret tt s.
Proof.
  intros [H2 [H1 _]%NoDup_cons]%NoDup_cons. rewrite !not_elem_of_cons in *. unfold distinct3.
  rewrite !(proj2 (Z.eqb_neq _ _)) by (intros ->; tauto). done.
Qed.

Lemma in_memory_eq i s : mem_wf s -> 0 <= i < npages s -> in_memory i s = Ret tt s.
Proof.
  intros Hwf Hi. pose proof (wf_npages _ Hwf). unfold in_memory. mrun. unfold PGSIZE.
  rewrite page2pa_eq, u32_id by lia. unfold PGSIZE. by rewrite (proj2 (Z.ltb_lt _ _)) by lia.
Qed.

(** The allocator passes its own test: from any well-formed state with three
    free pages check_page_alloc returns, with the free list in the order it was
    and every reference count as before; the only memory it has written to is
    the third free page, which is left zeroed. *)
Theorem check_page_alloc_correct (s : kstate) (a b c : Z) (l : list Z) :
  mem_wf s -> free_ok s (a :: b :: c :: l) -> pages_va s <> 0 ->
  exists s', check_page_alloc s = Ret tt s' /\ mem_wf s' /\ free_ok s' (a :: b :: c :: l) /\ only_page c s s' /\
    (forall x, page_kva c <= x < page_kva c + PGSIZE -> kmem s' x = 0).
Proof.
  intros Hwf Hf Hva. assert (held s (a :: b :: c :: l) [] []) as H0.
  { split; [done|done| |by intros i ?%elem_of_nil|].
    - split; [done|]. by intros i ?%elem_of_nil.
    - rewrite app_nil_r. by apply (free_ok_NoDup s). }
  unfold check_page_alloc. mrun. rewrite (proj2 (Z.eqb_neq _ _) Hva). mrun.
  mstep (count_free_eq s _ 0 1 Hwf Hf).
  destruct (take3 c s a b c l [] [] H0) as (s1 & H1 & P1 & K1 & ->).
  mstep (distinct3_eq a b c _ _ s1 (he_nodup _ _ _ _ H1)).
  pose proof (he_wf _ _ _ _ H1) as W1.
  mstep (in_memory_eq a s1 W1 (held_range _ _ _ _ a H1 ltac:(set_solver))).
  mstep (in_memory_eq b s1 W1 (held_range _ _ _ _ b H1 ltac:(set_solver))).
  mstep (in_memory_eq c s1 W1 (held_range _ _ _ _ c H1 ltac:(set_solver))).
  mrun. assert (page_free_list s1 = head l) as -> by (apply (chain_head pp_link (pages s1)), (he_free _ _ _ _ H1)).
  pose proof (held_perm _ _ _ [a; b; c] _ ltac:(apply (Permutation_rev [c; b; a])) (held_steal s1 l _ H1)) as H2.
  mstep (must_fail_eq _ _ _ H2).
  destruct (give3 c _ a b c [] [] l H2) as (s3 & H3 & P3 & K3 & ->).
  destruct (take3 c s3 c b a [] [] l H3) as (s4 & H4 & P4 & K4 & ->).
  mstep (distinct3_eq c b a _ _ s4 (he_nodup _ _ _ _ H4)). mstep (must_fail_eq _ _ _ H4).
  apply (held_perm _ _ _ [c; b; a]) in H4; [|apply (Permutation_rev [a; b; c])].
  pose proof (held_range _ _ _ _ c H4 ltac:(set_solver)) as Hc. pose proof (page_kva_kern c ltac:(lia)) as Hk.
  mstep (page2kva_eq c s4 (he_wf _ _ _ _ H4) Hc). mstep (kmemset_eq (page_kva c) 1 PGSIZE s4 Hk).
  destruct (held_write s4 _ _ _ c (memset (kmem s4) (page_kva c) 1 PGSIZE) H4) as [H5 P5].
  { apply memset_bytes; [apply (he_wf _ _ _ _ H4)|done]. }
  { intros x Hx. rewrite memset_fill by done. unfold fill. case_bool; try done; lia. }
  destruct (held_free c _ c _ _ _ H5) as (s6 & E6 & H6 & P6 & _). mstep E6.
  mstep (must_alloc_eq ALLOC_ZERO s6 c _ _ _ H6). change (has ALLOC_ZERO ALLOC_ZERO) with true.
  destruct (held_alloc c true s6 c _ _ _ H6 ltac:(done)) as [H7 P7]. set (s7 := after_alloc true c [] s6) in *.
  rewrite assert_seq, Z.eqb_refl. assert (npages s7 = npages s4) as Hn7.
  { by rewrite (op_npages _ _ _ P7), (op_npages _ _ _ P6), (op_npages _ _ _ P5). }
  mstep (page2kva_eq c s7 (he_wf _ _ _ _ H7) ltac:(by rewrite Hn7)).
  assert (forall x, page_kva c <= x < page_kva c + PGSIZE -> kmem s7 x = 0) as Hz
    by (intros x; apply after_alloc_kmem_in).
  mstep (assert_zero_eq (Z.to_nat PGSIZE) (page_kva c) s7 Hk Hz). mrun.
  pose proof (held_return s7 _ l H7) as H8.
  destruct (give3 c _ c b a l [] [] H8) as (s9 & H9 & P9 & K9 & ->).
  mstep (count_free_eq s9 _ (0 + 1 * Z.of_nat (length (a :: b :: c :: l))) (-1) (he_wf _ _ _ _ H9) (he_free _ _ _ _ H9)).
  rewrite assert_seq. rewrite (proj2 (Z.eqb_eq _ _)) by lia.
  eexists. split; [done|]. destruct H9 as [W9 F9 _ _ _]. split; [by destruct W9|]. split; [by apply (free_ok_ext s9)|].
  split; [|intros x Hx; cbn; rewrite K9; by apply Hz].
  transitivity s7; [|transitivity s9; [|by split]].
  - transitivity s1; [done|]. transitivity s3; [by etrans; [|exact P3]; split|]. transitivity s4; [done|]. etrans; [exact P5|]. by etrans.
  - etrans; [|exact P9]. by split.
Qed.

(** *** Witnesses *)

(** 300 pages of which 1, 257, 258 and 2 are free, in that order, and the
    kernel ends at page 256. *)
Definition few_free : kstate :=
  set_pages_va KERNBASE (set_nextfree (page_kva 256)
    (after_free 1 (after_free 257 (after_free 258 (after_free 2 (sample 300 0)))))).

Lemma few_free_ok : mem_wf few_free /\ free_ok few_free [1; 257; 258; 2].
Proof.
  assert (H : forall l, (forall s, mem_wf s -> free_ok s l -> mem_wf (set_pages_va KERNBASE (set_nextfree (page_kva 256) s)) /\
    free_ok (set_pages_va KERNBASE (set_nextfree (page_kva 256) s)) l)).
  { intros l s [W1 W2 W3] [F1 F2]. by split; split. }
  apply H.
  - assert (forall i s, mem_wf s /\ npages s = 300 -> 0 <= i < 300 -> mem_wf (after_free i s) /\ npages (after_free i s) = 300)
      as Hstep by (intros i s [W N] Hi; split; [apply after_free_wf; [done|lia]|done]).
    apply (Hstep 1); [|lia]. apply Hstep; [|lia]. apply Hstep; [|lia]. apply Hstep; [|lia].
    split; [apply sample_wf; lia|done].
  - repeat apply after_free_ok; try (by apply free_ok_nil); rewrite ?not_elem_of_cons; repeat split; try lia; apply not_elem_of_nil.
Qed.

#[local] Instance sample_platform : Platform :=
  {| link_end := 0xF0110000; link_bootstack := 0xF0100000 |}.

Lemma check_page_free_list_correct_witness :
  exists s', check_page_free_list true few_free = Ret tt s' /\ free_ok s' [1; 257; 258; 2].
Proof.
  destruct few_free_ok as [Hwf Hf].
  pose proof (check_page_free_list_correct true few_free [1; 257; 258; 2] Hwf Hf ltac:(discriminate)
    ltac:(split; reflexivity)) as H.
  replace (free_list_good (nextfree few_free) [1; 257; 258; 2]) with true in H by (vm_compute; reflexivity).
  destruct H as (s' & H1 & _ & H2 & _). exists s'. split; [exact H1|].
  replace [1; 257; 258; 2] with (resorted true [1; 257; 258; 2]) by (vm_compute; reflexivity). exact H2.
Defined.

Lemma check_page_alloc_correct_witness :
  exists s', check_page_alloc few_free = Ret tt s' /\ free_ok s' [1; 257; 258; 2].
Proof.
  destruct few_free_ok as [Hwf Hf].
  destruct (check_page_alloc_correct few_free 1 257 258 [2] Hwf Hf ltac:(discriminate)) as (s' & H1 & _ & H2 & _).
  exists s'. split; [exact H1|exact H2].
Defined.
