(* ===== verification/Kdebug.v ===== *)
(** Symbol lookup for backtraces: src/kern/kdebug.c over the STABS tables of
    src/inc/stab.h. *)

From S2P Require Import Prelude Machine Mmu Cstring Devices KState PageAlloc PageTable Vmem.

(** ** src/inc/stab.h *)

Definition N_FUN : Z := 0x24.
Definition N_SLINE : Z := 0x44.
Definition N_SO : Z := 0x64.
Definition N_SOL : Z := 0x84.
Definition N_PSYM : Z := 0xa0.

Record Stab := { n_strx : Z; n_type : Z; n_other : Z; n_desc : Z; n_value : Z }.

(** ** stab_binsearch

    The table is a function from indices to entries; [None] is memory that
    cannot be read.  [scan_down] is the inner [while], and the final [for]. *)

Fixpoint scan_down (fuel : nat) (stabs : Z -> option Stab) (m l type : Z) : option Z :=
  if m <? l then Some m
  else match fuel with
       | O => None
       | S fuel =>
           e ← stabs m;
           if n_type e =? type then Some m else scan_down fuel stabs (m - 1) l type
       end.

(** State of the search: [l], [r], [addr], [any_matches], and the two results. *)
Record search := {
  sl : Z; sr : Z; saddr : Z; any_matches : bool; region_left : Z; region_right : Z }.

(** One iteration of the outer loop. *)
Definition search_step (stabs : Z -> option Stab) (type : Z) (s : search) : option search :=
  let true_m := Z.quot (s.(sl) + s.(sr)) 2 in
  m ← scan_down (Z.to_nat (true_m - s.(sl) + 1)) stabs true_m s.(sl) type;
  if m <? s.(sl) then
    Some {| sl := true_m + 1; sr := s.(sr); saddr := s.(saddr); any_matches := s.(any_matches);
            region_left := s.(region_left); region_right := s.(region_right) |}
  else
    e ← stabs m;
    if n_value e <? s.(saddr) then
      Some {| sl := true_m + 1; sr := s.(sr); saddr := s.(saddr); any_matches := true;
              region_left := m; region_right := s.(region_right) |}
    else if s.(saddr) <? n_value e then
      Some {| sl := s.(sl); sr := m - 1; saddr := s.(saddr); any_matches := true;
              region_left := s.(region_left); region_right := m - 1 |}
    else
      Some {| sl := m; sr := s.(sr); saddr := u32 (s.(saddr) + 1); any_matches := true;
              region_left := m; region_right := s.(region_right) |}.

Fixpoint search_loop (fuel : nat) (stabs : Z -> option Stab) (type : Z) (s : search) : option search :=
  if s.(sl) <=? s.(sr) then
    match fuel with
    | O => None
    | S fuel => s ← search_step stabs type s; search_loop fuel stabs type s
    end
  else Some s.

(** The closing [for]: down from [region_right] to an entry of the type, or to
    [region_left]. *)
Definition search_finish (stabs : Z -> option Stab) (type : Z) (s : search) : option (Z * Z) :=
  if s.(any_matches) then
    l ← (if s.(region_right) <=? s.(region_left) then Some s.(region_right)
         else scan_down (Z.to_nat (s.(region_right) - s.(region_left)))
                stabs s.(region_right) (s.(region_left) + 1) type);
    Some (l, s.(region_right))
  else Some (s.(region_left), s.(region_left) - 1).

(** An iteration shortens the range, or is an exact match that leaves it and
    changes [addr], after which the next one shortens it. *)
Definition stab_binsearch (stabs : Z -> option Stab) (left right type addr : Z) : option (Z * Z) :=
  s ← search_loop (Z.to_nat (2 * (right - left + 1) + 1)) stabs type
        {| sl := left; sr := right; saddr := addr; any_matches := false;
           region_left := left; region_right := right |};
  search_finish stabs type s.

(** ** debuginfo_eip *)

(** The linker's symbols around the kernel's tables, and the address of the
    literal "<unknown>". *)
Class StabSections := {
  STAB_BEGIN : Z; STAB_END : Z; STABSTR_BEGIN : Z; STABSTR_END : Z; lit_unknown : Z }.

Record Eipdebuginfo := {
  eip_file : Z; eip_line : Z; eip_fn_name : Z; eip_fn_namelen : Z; eip_fn_addr : Z; eip_fn_narg : Z }.

Definition peek8 (s : kstate) (va : Z) : option Z := kmem s <$> translate s (cr3 s) va false.
Definition peek16 (s : kstate) (va : Z) : option Z :=
  a ← peek8 s va; b ← peek8 s (u32 (va + 1)); Some (a + 2 ^ 8 * b).
Definition peek32 (s : kstate) (va : Z) : option Z :=
  a ← peek16 s va; b ← peek16 s (u32 (va + 2)); Some (a + 2 ^ 16 * b).

(** Entry [i] of the array of [struct Stab] (12 bytes each) at [base]. *)
Definition stab_at (s : kstate) (base i : Z) : option Stab :=
  let a := u32 (base + 12 * i) in
  strx ← peek32 s a; t ← peek8 s (u32 (a + 4)); o ← peek8 s (u32 (a + 5));
  d ← peek16 s (u32 (a + 6)); v ← peek32 s (u32 (a + 8));
  Some {| n_strx := strx; n_type := t; n_other := o; n_desc := d; n_value := v |}.

(** strfind through the page tables. *)
Fixpoint vstrfind (fuel : nat) (s : kstate) (p c : Z) : option Z :=
  match fuel with
  | O => None
  | S fuel =>
      b ← peek8 s p;
      if (b =? 0) || (s8 b =? c) then Some p else vstrfind fuel s (u32 (p + 1)) c
  end.

(** The backward search for the file name of a line. *)
Fixpoint find_file (fuel : nat) (stabs : Z -> option Stab) (lline lfile : Z) : option Z :=
  if lline <? lfile then Some lline
  else match fuel with
       | O => None
       | S fuel =>
           e ← stabs lline;
           if negb (n_type e =? N_SOL) && (negb (n_type e =? N_SO) || (n_value e =? 0))
           then find_file fuel stabs (lline - 1) lfile else Some lline
       end.

(** The number of N_PSYM entries from [lline] on, below [rfun]. *)
Fixpoint count_args (fuel : nat) (stabs : Z -> option Stab) (lline rfun : Z) : option Z :=
  if rfun <=? lline then Some 0
  else match fuel with
       | O => None
       | S fuel =>
           e ← stabs lline;
           if n_type e =? N_PSYM then n ← count_args fuel stabs (lline + 1) rfun; Some (n + 1) else Some 0
       end.

Section Debuginfo.
Context `{StabSections}.

(** The lookup once the four table pointers are known.  Returns the C result
    and the final [*info]. *)
Definition lookup_stabs (s : kstate) (stabs stab_end stabstr stabstr_end addr : Z)
    : option (Z * Eipdebuginfo) :=
  let info0 := {| eip_file := lit_unknown; eip_line := 0; eip_fn_name := lit_unknown;
                  eip_fn_namelen := 9; eip_fn_addr := addr; eip_fn_narg := 0 |} in
  let size := u32 (stabstr_end - stabstr) in
  let st := stab_at s stabs in
  if stabstr_end <=? stabstr then Some (-1, info0) else
  last ← peek8 s (u32 (stabstr_end - 1));
  if negb (last =? 0) then Some (-1, info0) else
  '(lfile, rfile) ← stab_binsearch st 0 (Z.quot (s32 (stab_end - stabs)) 12 - 1) N_SO addr;
  if lfile =? 0 then Some (-1, info0) else
  '(lfun, rfun) ← stab_binsearch st lfile rfile N_FUN addr;
  '(name, fn_addr, addr', lline, rline) ←
    (if lfun <=? rfun then
       e ← st lfun;
       Some (if n_strx e <? size then u32 (stabstr + n_strx e) else lit_unknown,
             n_value e, u32 (addr - n_value e), lfun, rfun)
     else Some (lit_unknown, addr, addr, lfile, rfile));
  colon ← vstrfind (Z.to_nat size + 10) s name 58;
  let info1 := {| eip_file := lit_unknown; eip_line := 0; eip_fn_name := name;
                  eip_fn_namelen := s32 (colon - name); eip_fn_addr := fn_addr; eip_fn_narg := 0 |} in
  '(lline, rline) ← stab_binsearch st lline rline N_SLINE addr';
  if rline <? lline then Some (-1, info1) else
  e ← st lline;
  let line := n_desc e in
  lline ← find_file (Z.to_nat (lline - lfile + 1)) st lline lfile;
  file ← (if lfile <=? lline then
            e ← st lline;
            Some (if n_strx e <? size then u32 (stabstr + n_strx e) else lit_unknown)
          else Some lit_unknown);
  narg ← (if lfun <? rfun then count_args (Z.to_nat (rfun - lfun)) st (lfun + 1) rfun else Some 0);
  Some (0, {| eip_file := file; eip_line := line; eip_fn_name := name;
              eip_fn_namelen := s32 (colon - name); eip_fn_addr := fn_addr; eip_fn_narg := narg |}).

(** A table or string that cannot be read faults; the model names the table's
    base. *)
Definition debuginfo_eip (addr : Z) : M (Z * Eipdebuginfo) :=
  let! tables :=
    (if ULIM <=? addr then kret (STAB_BEGIN, STAB_END, STABSTR_BEGIN, STABSTR_END)
     else
       let! a := vread32 USTABDATA in let! b := vread32 (USTABDATA + 4) in
       let! c := vread32 (USTABDATA + 8) in let! d := vread32 (USTABDATA + 12) in
       kret (a, b, c, d)) in
  let '(stabs, stab_end, stabstr, stabstr_end) := tables in
  let! s := get id in
  match lookup_stabs s stabs stab_end stabstr stabstr_end addr with
  | Some r => kret r
  | None => crash_with (WildAccess stabs)
  end.
End Debuginfo.

(** * Properties of the binary search *)

Section Binsearch.
Context (stabs : Z -> option Stab) (type left right : Z).
(** The table can be read in the range searched. *)
Context (left_nonneg : 0 <= left).
Context (readable : forall i, left <= i <= right -> is_Some (stabs i)).

(** Entry [i] has the type searched for, and value [v]. *)
Definition matches (i v : Z) : Prop := exists e, stabs i = Some e /\ n_type e = type /\ n_value e = v.

Lemma matches_det i v v' : matches i v -> matches i v' -> v = v'.
Proof. intros (e & He & _ & <-) (e' & He' & _ & <-). congruence. Qed.

(** scan_down finds the last entry of the type at or below [m], or ends below
    [l]. *)
Lemma scan_down_spec fuel m l :
  left <= l -> l - 1 <= m <= right -> (Z.to_nat (m - l + 1) <= fuel)%nat ->
  exists k, scan_down fuel stabs m l type = Some k /\ l - 1 <= k <= m /\
    (l <= k -> exists v, matches k v) /\ (forall i v, k < i <= m -> ~ matches i v).
Proof.
  intros Hl. revert m. induction fuel as [|fuel IH]; intros m Hm Hf; simpl;
    (destruct (Z.ltb_spec m l); [exists m; split_and!; intros; try done; try lia; exfalso; lia|]); [lia|].
  destruct (readable m) as [e He]; [lia|]. rewrite He. simpl.
  destruct (Z.eqb_spec (n_type e) type) as [Ht|Ht].
  - exists m. split_and!; try lia; [done|]. intros _. exists (n_value e), e. done.
  - destruct (IH (m - 1)) as (k & Hk & Hr & Hv & Hn); [lia..|].
    exists k. split_and!; try lia; try done. intros i v Hi (e' & He' & Ht' & Hv').
    destruct (decide (i = m)) as [->|]; [congruence|]. apply (Hn i v); [lia|]. by exists e'.
Qed.

(** The state between two iterations, whatever the order of the table. *)
Definition range_ok (s : search) : Prop :=
  left <= s.(sl) /\ s.(sr) <= right /\ s.(sl) <= s.(sr) + 1.

(** The middle entry the next iteration finds. *)
Definition probe (s : search) : option Z :=
  scan_down (Z.to_nat (Z.quot (s.(sl) + s.(sr)) 2 - s.(sl) + 1)) stabs
    (Z.quot (s.(sl) + s.(sr)) 2) s.(sl) type.

(** One more iteration is spent on an exact match at the left end. *)
Definition measure (s : search) : nat :=
  (Z.to_nat (2 * (s.(sr) - s.(sl) + 1)) +
   match probe s with
   | Some m => match stabs m with
               | Some e => if ((m =? s.(sl)) && (n_value e =? s.(saddr)))%Z then 1 else 0
               | None => 0
               end
   | None => 0
   end)%nat.

Lemma half_range l r : 0 <= l <= r -> l <= Z.quot (l + r) 2 <= r.
Proof. intros. rewrite Z.quot_div_nonneg by lia. div_mod_lia. Qed.

(** What one iteration does with the middle entry [m]. *)
Lemma search_step_spec s :
  range_ok s -> s.(sl) <= s.(sr) ->
  exists m s', probe s = Some m /\ search_step stabs type s = Some s' /\
    let t := Z.quot (s.(sl) + s.(sr)) 2 in
    s.(sl) <= t <= s.(sr) /\ s.(sl) - 1 <= m <= t /\ (forall i v, m < i <= t -> ~ matches i v) /\
    ((m < s.(sl) /\ s' = {| sl := t + 1; sr := s.(sr); saddr := s.(saddr); any_matches := s.(any_matches);
        region_left := s.(region_left); region_right := s.(region_right) |}) \/
     exists v, matches m v /\ s.(sl) <= m /\
       ((v < s.(saddr) /\ s' = {| sl := t + 1; sr := s.(sr); saddr := s.(saddr); any_matches := true;
           region_left := m; region_right := s.(region_right) |}) \/
        (s.(saddr) < v /\ s' = {| sl := s.(sl); sr := m - 1; saddr := s.(saddr); any_matches := true;
           region_left := s.(region_left); region_right := m - 1 |}) \/
        (v = s.(saddr) /\ s' = {| sl := m; sr := s.(sr); saddr := u32 (s.(saddr) + 1); any_matches := true;
           region_left := m; region_right := s.(region_right) |}))).
Proof.
  intros (Hl & Hr & _) Hle. pose proof (half_range s.(sl) s.(sr)) as Hh. cbv zeta.
  unfold probe, search_step. set (t := Z.quot (s.(sl) + s.(sr)) 2) in *.
  destruct (scan_down_spec (Z.to_nat (t - s.(sl) + 1)) t s.(sl)) as (m & E & Hm & Hv & Hn); [lia..|].
  rewrite E. simpl. destruct (Z.ltb_spec m s.(sl)) as [Hlt|Hge].
  - do 2 eexists. split_and!; [done..|lia|lia|lia|lia|done|]. by left.
  - destruct (Hv Hge) as (v & Hmv). pose proof Hmv as (e & He & Ht & Hval). rewrite He. simpl. rewrite Hval.
    case_bool; (do 2 eexists; split_and!; [done..|lia|lia|lia|lia|done|]; right; exists v;
      split_and!; [done|lia|]).
    + by left.
    + right. by left.
    + right. right. split; [lia|done].
Qed.

Lemma search_step_progress s :
  range_ok s -> s.(sl) <= s.(sr) ->
  exists s', search_step stabs type s = Some s' /\ range_ok s' /\ (measure s' < measure s)%nat.
Proof.
  intros Hs Hle. destruct (search_step_spec s Hs Hle) as (m & s' & Ep & E & Ht & Hm & _ & Hc).
  exists s'. split; [done|]. destruct Hs as (Hl & Hr & _). unfold range_ok.
  assert (forall s1 : search, (measure s1 <= Z.to_nat (2 * (s1.(sr) - s1.(sl) + 1)) + 1)%nat) as Hub.
  { intros s1. unfold measure. destruct (probe s1) as [k|]; [|lia]. destruct (stabs k); [|lia].
    destruct (_ && _); lia. }
  specialize (Hub s') as Hub'. assert (Z.to_nat (2 * (s.(sr) - s.(sl) + 1)) <= measure s)%nat as Hlb
    by (unfold measure; lia).
  destruct Hc as [[Hlt ->] | (v & Hv & Hge & [[Hlt ->] | [[Hlt ->] | [Heq ->]]])]; cbn [sl sr] in *.
  - split; [lia|]. lia.
  - split; [lia|]. lia.
  - split; [lia|]. lia.
  - split; [lia|]. destruct (decide (m = s.(sl))) as [->|Hne]; [|lia].
    pose proof Hv as (e & He & _ & Hval).
    unfold measure. cbn [sl sr saddr]. unfold probe at 1. cbn [sl sr].
    fold (probe s). rewrite Ep, He, Z.eqb_refl. cbn [andb].
    rewrite Hval, Heq, Z.eqb_refl. rewrite (proj2 (Z.eqb_neq s.(saddr) _)); [lia|].
    intros Hbad. clear -Hbad. word_lia.
Qed.

Lemma search_loop_total fuel s :
  range_ok s -> (measure s <= fuel)%nat ->
  exists s', search_loop fuel stabs type s = Some s' /\ range_ok s' /\ s'.(sr) < s'.(sl).
Proof.
  revert s. induction fuel as [|fuel IH]; intros s Hs Hf; simpl;
    (destruct (Z.leb_spec s.(sl) s.(sr)) as [Hle|Hgt]; [|by exists s]);
    destruct (search_step_progress s Hs Hle) as (s' & E & Hs' & Hm); [lia|].
  rewrite E. simpl. apply IH; [done|lia].
Qed.

(** A property of the state that every iteration keeps holds at the end. *)
Lemma search_loop_inv (P : search -> Prop) fuel s s' :
  (forall s s', P s -> range_ok s -> s.(sl) <= s.(sr) -> search_step stabs type s = Some s' -> P s') ->
  P s -> range_ok s -> search_loop fuel stabs type s = Some s' -> P s'.
Proof.
  intros Hstep. revert s. induction fuel as [|fuel IH]; intros s HP Hs; simpl;
    (destruct (Z.leb_spec s.(sl) s.(sr)) as [Hle|Hgt]; [|by intros [= <-]]); [done|].
  destruct (search_step_progress s Hs Hle) as (s1 & E & Hs1 & _). rewrite E. simpl. eauto.
Qed.

Definition start (addr : Z) : search :=
  {| sl := left; sr := right; saddr := addr; any_matches := false;
     region_left := left; region_right := right |}.

Lemma start_measure addr : left <= right + 1 -> (measure (start addr) <= Z.to_nat (2 * (right - left + 1) + 1))%nat.
Proof.
  intros. unfold measure, start. cbn [sl sr]. destruct (probe _) as [k|]; [|lia]. destruct (stabs k); [|lia].
  destruct (_ && _); lia.
Qed.
End Binsearch.

Section Binsearch_correct.
Context (stabs : Z -> option Stab) (type left right addr : Z).
Abbreviation matches := (matches stabs type).

(** The entries of the type are in increasing order of address, and none is
    at [addr + 1] (see [stab_binsearch_adjacent] for what happens then). *)
Record sorted_table : Prop := {
  st_left : 0 <= left;
  st_range : left <= right + 1;
  st_readable i : left <= i <= right -> is_Some (stabs i);
  st_sorted i j v w : left <= i -> i < j -> j <= right -> matches i v -> matches j w -> v <= w;
  st_addr : 0 <= addr < 2 ^ 32 - 1;
  st_gap i : left <= i <= right -> ~ matches i (addr + 1) }.

(** What the search establishes. *)
Inductive search_result : Z -> Z -> Prop :=
| NoEntry :
    (forall i v, left <= i <= right -> ~ matches i v) -> search_result left (left - 1)
| Found l r v :
    left <= l <= r -> r <= right -> matches l v -> v <= addr ->
    (forall i w, l < i <= right -> matches i w -> addr < w /\ r < i) ->
    r = right \/ (exists w, matches (r + 1) w) -> search_result l r
| AllAbove f v :
    left <= f <= right -> matches f v -> addr < v ->
    (forall i w, left <= i < f -> ~ matches i w) -> search_result (Z.min left (f - 1)) (f - 1).

Context (T : sorted_table).

(** The invariant of the loop; [best] is the last entry at or below [addr] seen
    so far. *)
Record search_inv (s : search) : Prop := {
  si_addr : s.(saddr) = addr \/ (s.(saddr) = addr + 1 /\ exists v, matches s.(region_left) v);
  si_right : s.(region_right) = s.(sr);
  si_above i v : s.(sr) < i <= right -> matches i v -> addr < v;
  si_edge : s.(sr) = right \/ exists w, s.(sr) + 1 <= right /\ matches (s.(sr) + 1) w;
  si_left i v : left <= i < s.(sl) -> matches i v -> i <= s.(region_left);
  si_best : (s.(region_left) = left /\ s.(saddr) = addr /\ (forall i v, left <= i < s.(sl) -> ~ matches i v)) \/
            (left <= s.(region_left) <= s.(sr) /\ s.(any_matches) = true /\
             exists v, matches s.(region_left) v /\ v <= addr);
  si_none : s.(any_matches) = false -> s.(sr) = right /\ forall i v, left <= i < s.(sl) -> ~ matches i v;
  si_some : s.(any_matches) = true -> exists i v, left <= i <= right /\ matches i v }.

Lemma start_inv : search_inv (start left right addr).
Proof.
  split; simpl; try done; auto; try lia.
  - left. split_and!; [done..|]. intros; lia.
  - intros _. split; [done|]. intros; lia.
Qed.

Lemma step_inv s s' :
  search_inv s -> range_ok left right s -> s.(sl) <= s.(sr) ->
  search_step stabs type s = Some s' -> search_inv s'.
Proof.
  intros I R Hle E. destruct T as [T0 _ Trd Tsort Taddr Tgap].
  destruct (search_step_spec stabs type left right T0 Trd s R Hle) as (m & s1 & _ & E1 & Ht & Hm & Hn & Hc).
  rewrite E in E1. injection E1 as <-.
  destruct R as (Rl & Rr & _). destruct I as [Ia Ir Iab Ie Il Ib In Is].
  destruct Hc as [[Hlt ->] | (v & Hv & Hge & [[Hlt ->] | [[Hlt ->] | [Heq ->]]])].
  - (* nothing of the type in the lower half *)
    assert (forall i w, left <= i < Z.quot (sl s + sr s) 2 + 1 -> matches i w -> i < sl s) as Hlow.
    { intros i w Hi Hw. destruct (Z.lt_ge_cases i (sl s)); [done|]. destruct (Hn i w); [lia|done]. }
    split; cbn [sl sr saddr any_matches region_left region_right] in *; try done.
    + intros i w Hi Hw. apply (Il i w); [|done]. specialize (Hlow i w Hi Hw). lia.
    + destruct Ib as [(? & ? & Hnm)|Hb]; [left; split_and!; [done..|]|by right].
      intros i w Hi Hw. apply (Hnm i w); [|done]. specialize (Hlow i w Hi Hw). lia.
    + intros Hany. destruct (In Hany) as [? Hnm]. split; [done|].
      intros i w Hi Hw. apply (Hnm i w); [|done]. specialize (Hlow i w Hi Hw). lia.
  - (* below: the new best *)
    assert (v <= addr) as Hva.
    { destruct (decide (v = addr + 1)) as [->|]; [destruct (Tgap m); [lia|done]|]. destruct Ia as [|[? _]]; lia. }
    split; cbn [sl sr saddr any_matches region_left region_right] in *; try done.
    + destruct Ia as [?|[? _]]; [by left|right; eauto].
    + intros i w Hi Hw. destruct (Z.le_gt_cases i m); [done|]. destruct (Hn i w); [lia|done].
    + right. split; [lia|eauto].
    + intros _. exists m, v. split; [lia|done].
  - (* above: the range ends before it *)
    assert (addr < v) as Hva by (destruct Ia as [|[? _]]; lia).
    split; cbn [sl sr saddr any_matches region_left region_right] in *; try done.
    + intros i w Hi Hw. destruct (Z.le_gt_cases i m).
      * assert (i = m) as -> by lia. by rewrite (matches_det _ _ _ _ _ Hw Hv).
      * assert (v <= w); [|lia]. apply (Tsort m i); done || lia.
    + right. exists v. replace (m - 1 + 1) with m by lia. split; [lia|done].
    + destruct Ib as [Hb|(Hb1 & Hb2 & w & Hw & Hwa)]; [by left|right]. split_and!; [lia| |done|eauto].
      destruct (Z.le_gt_cases m (region_left s)); [|lia].
      assert (v <= w) as Hvw; [|lia]. destruct (decide (m = region_left s)) as [->|].
      * by rewrite (matches_det _ _ _ _ _ Hv Hw).
      * apply (Tsort m (region_left s)); done || lia.
    + intros _. exists m, v. split; [lia|done].
  - (* exact match *)
    assert (v = addr) as Hva.
    { destruct Ia as [|[? _]]; [lia|]. destruct (Tgap m); [lia|]. by replace (addr + 1) with v by lia. }
    assert (u32 (saddr s + 1) = addr + 1) as -> by (rewrite <- Heq, Hva; apply u32_id; lia).
    split; cbn [sl sr saddr any_matches region_left region_right] in *; try done.
    + right. split; [done|]. by exists v.
    + intros i w Hi Hw. lia.
    + right. split; [lia|]. split; [done|]. exists v. split; [done|lia].
    + intros _. exists m, v. split; [lia|done].
Qed.

Lemma search_finish_spec s :
  search_inv s -> range_ok left right s -> s.(sr) < s.(sl) ->
  exists l r, search_finish stabs type s = Some (l, r) /\ search_result l r.
Proof.
  intros [Ia Ir Iab Ie Il Ib In Is] (Rl & Rr & Rlr) Hend. unfold search_finish.
  destruct (any_matches s) eqn:Hany.
  2: { destruct (In eq_refl) as [Hr Hnm]. destruct Ib as [(-> & _ & _)|(_ & ? & _)]; [|done].
       do 2 eexists. split; [done|]. constructor. intros i v Hi. apply Hnm. lia. }
  rewrite Ir. destruct Ib as [(Hrl & _ & Hnm)|(Hrl & _ & v & Hv & Hva)].
  - assert (exists w, sr s + 1 <= right /\ matches (sr s + 1) w) as (w & Hw1 & Hw).
    { destruct Ie as [Hr|He]; [|done]. destruct (Is eq_refl) as (i & v & Hi & Hv).
      destruct (Hnm i v); [lia|done]. }
    assert (exists l, (if sr s <=? region_left s then Some (sr s)
      else scan_down (Z.to_nat (sr s - region_left s)) stabs (sr s) (region_left s + 1) type) = Some l /\
      l = Z.min left (sr s)) as (l & -> & ->).
    { rewrite Hrl. destruct (Z.leb_spec (sr s) left).
      - eexists. split; [done|]. lia.
      - destruct (scan_down_spec stabs type left right (st_readable T)
          (Z.to_nat (sr s - left)) (sr s) (left + 1)) as (k & E & Hk & Hkv & _); [lia..|].
        exists k. split; [done|]. destruct (Z.le_gt_cases (left + 1) k) as [Hge|]; [|lia].
        destruct (Hkv Hge) as [w' Hw']. destruct (Hnm k w'); [lia|done]. }
    simpl. do 2 eexists. split; [done|].
    replace (sr s) with (sr s + 1 - 1) by lia. apply (AllAbove _ w); [lia|done| |].
    + apply (Iab (sr s + 1)); [lia|done].
    + intros i w' Hi. apply Hnm. lia.
  - assert (exists l, (if sr s <=? region_left s then Some (sr s)
      else scan_down (Z.to_nat (sr s - region_left s)) stabs (sr s) (region_left s + 1) type) = Some l /\
      l = region_left s) as (l & -> & ->).
    { destruct (Z.leb_spec (sr s) (region_left s)).
      - eexists. split; [done|]. lia.
      - destruct (scan_down_spec stabs type left right (st_readable T)
          (Z.to_nat (sr s - region_left s)) (sr s) (region_left s + 1)) as (k & E & Hk & Hkv & _); [lia..|].
        exists k. split; [done|]. destruct (Z.le_gt_cases (region_left s + 1) k) as [Hge|]; [|lia].
        destruct (Hkv Hge) as [w Hw]. specialize (Il k w ltac:(lia) Hw). lia. }
    simpl. do 2 eexists. split; [done|].
    apply (Found _ _ v); [lia|lia|done|done| |].
    + intros i w Hi Hw. assert (sr s < i).
      { destruct (Z.lt_ge_cases (sr s) i); [done|]. specialize (Il i w ltac:(lia) Hw). lia. }
      split; [|done]. apply (Iab i); [lia|done].
    + destruct Ie as [?|(w & _ & Hw)]; [by left|right; by exists w].
Qed.
End Binsearch_correct.

Lemma search_ends stabs type left right addr :
  0 <= left <= right + 1 -> (forall i, left <= i <= right -> is_Some (stabs i)) ->
  exists s, search_loop (Z.to_nat (2 * (right - left + 1) + 1)) stabs type (start left right addr) = Some s /\
    range_ok left right s /\ s.(sr) < s.(sl).
Proof.
  intros Hl Hrd. apply (search_loop_total stabs type left right); [lia|done| |apply start_measure; lia].
  unfold range_ok. simpl. lia.
Qed.

(** The binary search over the symbol table always ends, whatever the table
    holds and in whatever order, as long as its entries can be read. *)
Theorem stab_binsearch_terminates stabs type left right addr :
  0 <= left <= right + 1 -> (forall i, left <= i <= right -> is_Some (stabs i)) ->
  exists l r, stab_binsearch stabs left right type addr = Some (l, r).
Proof.
  intros Hl Hrd. unfold stab_binsearch. fold (start left right addr).
  destruct (search_ends stabs type left right addr Hl Hrd) as (s & E & Hs & Hend). rewrite E. simpl.
  assert (left <= region_left s /\ region_right s = sr s) as [Hrl Hrr].
  { revert E. apply (search_loop_inv stabs type left right ltac:(lia) Hrd
      (fun s => left <= region_left s /\ region_right s = sr s)); [|simpl; lia|unfold range_ok; simpl; lia].
    clear - Hl Hrd. intros s s' [H1 H2] Hs Hle E.
    destruct (search_step_spec stabs type left right (proj1 Hl) Hrd s Hs Hle)
      as (m & s1 & _ & E1 & Ht & Hm & _ & Hc).
    rewrite E in E1. injection E1 as <-. destruct Hs as (Hl' & _).
    destruct Hc as [[Hlt ->] | (v & Hv & Hge & [[Hlt ->] | [[Hlt ->] | [Heq ->]]])]; simpl; lia. }
  unfold search_finish. destruct (any_matches s); [|by do 2 eexists].
  destruct Hs as (Hs1 & Hs2 & Hs3). rewrite Hrr.
  destruct (Z.leb_spec (sr s) (region_left s)); simpl; [by do 2 eexists|].
  destruct (scan_down_spec stabs type left right Hrd (Z.to_nat (sr s - region_left s)) (sr s) (region_left s + 1))
    as (k & -> & _); [lia..|]. by do 2 eexists.
Qed.

(** C27. In a table whose entries of one type are in increasing order of address,
    none of them at [addr + 1], and for an address below 2^32 - 1, the search
    returns the last entry at or below the address, with the right end just
    before the next one; an empty interval when there is no entry of the type.
    When all entries lie above the address the result is not the empty interval
    the comment promises, but [AllAbove]'s. *)
Theorem stab_binsearch_correct stabs type left right addr :
  sorted_table stabs type left right addr ->
  exists l r, stab_binsearch stabs left right type addr = Some (l, r) /\
    search_result stabs type left right addr l r.
Proof.
  intros T. pose proof T as [T1 T2 T3 _ _ _]. unfold stab_binsearch. fold (start left right addr).
  destruct (search_ends stabs type left right addr (conj T1 T2) T3) as (s & E & Hs & Hend).
  rewrite E. simpl. apply search_finish_spec; [done| |done|done].
  revert E. apply (search_loop_inv stabs type left right T1 T3 (search_inv stabs type left right addr)).
  - intros s1 s2. by apply step_inv.
  - by apply start_inv.
  - unfold range_ok. simpl. lia.
Qed.

(** Two entries of type [type]. *)
Definition two_entries (type v w : Z) (i : Z) : option Stab :=
  if i =? 0 then Some {| n_strx := 0; n_type := type; n_other := 0; n_desc := 0; n_value := v |}
  else if i =? 1 then Some {| n_strx := 0; n_type := type; n_other := 0; n_desc := 0; n_value := w |}
  else None.

(** After an exact match the search goes on with the next address, so an
    entry exactly one byte above is taken for a match too: looking up [addr]
    between entries at [addr] and [addr + 1] returns the second entry, although
    the entry of [addr] is the first. *)
Theorem stab_binsearch_adjacent type addr :
  0 <= addr < 2 ^ 32 - 2 ->
  stab_binsearch (two_entries type addr (addr + 1)) 0 1 type addr = Some (1, 1).
Proof.
  intros Ha. unfold stab_binsearch. change (Z.to_nat (2 * (1 - 0 + 1) + 1)) with 5%nat.
  set (t := two_entries type addr (addr + 1)).
  assert (forall k v a any rl rr, (k = 0 /\ v = addr) \/ (k = 1 /\ v = addr + 1) ->
    search_step t type {| sl := k; sr := 1; saddr := a; any_matches := any; region_left := rl; region_right := rr |} =
    Some (if v <? a then {| sl := k + 1; sr := 1; saddr := a; any_matches := true; region_left := k; region_right := rr |}
          else if a <? v then {| sl := k; sr := k - 1; saddr := a; any_matches := true; region_left := rl; region_right := k - 1 |}
          else {| sl := k; sr := 1; saddr := u32 (a + 1); any_matches := true; region_left := k; region_right := rr |})) as Hstep.
  { intros k v a any rl rr [[-> ->]|[-> ->]]; unfold search_step; simpl; rewrite Z.eqb_refl; simpl; by case_bool. }
  cbn [search_loop sl sr]. change (0 <=? 1) with true. cbn iota.
  rewrite (Hstep 0 addr) by auto. rewrite Z.ltb_irrefl. cbn [mbind option_bind sl sr].
  change (0 <=? 1) with true. cbn iota.
  rewrite (u32_id (addr + 1)), (Hstep 0 addr) by (auto || lia).
  rewrite (proj2 (Z.ltb_lt addr _)) by lia. cbn [mbind option_bind sl sr].
  change (0 + 1 <=? 1) with true. cbn iota.
  rewrite (Hstep (0 + 1) (addr + 1)) by auto. rewrite Z.ltb_irrefl. cbn [mbind option_bind sl sr].
  change (0 + 1 <=? 1) with true. cbn iota.
  rewrite (u32_id (addr + 1 + 1)), (Hstep (0 + 1) (addr + 1)) by (auto || lia).
  rewrite (proj2 (Z.ltb_lt (addr + 1) _)) by lia. done.
Qed.

Lemma stab_binsearch_adjacent_witness :
  stab_binsearch (two_entries N_SLINE 0xf0100000 (0xf0100000 + 1)) 0 1 N_SLINE 0xf0100000 = Some (1, 1).
Proof. apply (stab_binsearch_adjacent N_SLINE 0xf0100000). lia. Defined.

Lemma stab_binsearch_terminates_witness :
  exists l r, stab_binsearch (two_entries N_FUN 9 3) 0 1 N_FUN 5 = Some (l, r).
Proof.
  apply (stab_binsearch_terminates (two_entries N_FUN 9 3) N_FUN 0 1 5); [lia|].
  intros i Hi. assert (i = 0 \/ i = 1) as [-> | ->] by lia; eexists; reflexivity.
Defined.

Lemma stab_binsearch_correct_witness :
  exists l r, stab_binsearch (two_entries N_FUN 3 9) 0 1 N_FUN 5 = Some (l, r) /\
    search_result (two_entries N_FUN 3 9) N_FUN 0 1 5 l r.
Proof.
  apply (stab_binsearch_correct (two_entries N_FUN 3 9) N_FUN 0 1 5). split; try lia.
  - intros i Hi. assert (i = 0 \/ i = 1) as [-> | ->] by lia; eexists; reflexivity.
  - intros i j v w Hi Hij Hj. assert (i = 0 /\ j = 1) as [-> ->] by lia.
    intros (e & [= <-] & _ & <-) (f & [= <-] & _ & <-). simpl. lia.
  - intros i Hi. assert (i = 0 \/ i = 1) as [-> | ->] by lia; intros (e & [= <-] & _ & Hv); simpl in Hv; lia.
Defined.
