(* ===== verification/Monitor.v ===== *)
(** The kernel monitor: src/kern/monitor.c - the command line, its commands and
    the stack backtrace. *)

From S2P Require Import Prelude Machine Mmu Cstring Devices KState PageAlloc PageTable Vmem Kdebug.

(** What the linker provides: readline's static buffer and the symbols that
    mon_kerninfo prints. *)
Class MonitorImage := {
  readline_buf : Z;
  sym_start : Z; sym_entry : Z; sym_etext : Z; sym_edata : Z; sym_end : Z }.

(** ** The commands *)

Definition MAXARGS : Z := 16.

Inductive command := mon_help_cmd | mon_kerninfo_cmd.
Definition commands : list (string * string * command) :=
  [("help", "Display this list of commands", mon_help_cmd);
   ("kerninfo", "Display information about the kernel", mon_kerninfo_cmd)]%string.

(** A [%s] argument is recorded in the format. *)
Definition mon_help : M Z :=
  foldr (fun c k => cprintf (c.1.1 +:+ " - " +:+ c.1.2)%string [] ;; k) (kret 0) commands.

Section Monitor.
Context `{MonitorImage} `{StabSections}.

Definition mon_kerninfo : M Z :=
  cprintf "Special kernel symbols:" [] ;;
  cprintf "  _start                  %08x (phys)" [sym_start] ;;
  cprintf "  entry  %08x (virt)  %08x (phys)" [sym_entry; u32 (sym_entry - KERNBASE)] ;;
  cprintf "  etext  %08x (virt)  %08x (phys)" [sym_etext; u32 (sym_etext - KERNBASE)] ;;
  cprintf "  edata  %08x (virt)  %08x (phys)" [sym_edata; u32 (sym_edata - KERNBASE)] ;;
  cprintf "  end    %08x (virt)  %08x (phys)" [sym_end; u32 (sym_end - KERNBASE)] ;;
  cprintf "Kernel executable memory footprint: %dKB" [ROUNDUP (u32 (sym_end - sym_entry)) 1024 / 1024] ;;
  kret 0.

(** ** The backtrace (not in the command table)

    The frames are read through the kernel's mapping; [fuel] bounds the chain,
    which ends with a saved frame pointer of 0. *)

Fixpoint dump_args (n : nat) (p i : Z) : M unit :=
  match n with
  | O => kret tt
  | S n => let! a := vread32 (u32 (p + 4 * i)) in cprintf " %08x " [a] ;; dump_args n p (i + 1)
  end.

Definition dump_stack (p : Z) : M Z :=
  let! eip := vread32 (u32 (p + 4)) in
  cprintf "ebp %08x eip %08x args" [p; eip] ;;
  dump_args 5 p 2 ;;
  vread32 p.

(** [info] is the static result of the last lookup, which the next line prints. *)
Definition dump_backstrace_symbols (info : Eipdebuginfo) (p : Z) : M (Z * Eipdebuginfo) :=
  cprintf "%s %d" [eip_fn_name info; eip_line info] ;;
  let! eip := vread32 (u32 (p + 4)) in
  let! r := debuginfo_eip eip in
  let! q := vread32 p in
  kret (q, r.2).

Fixpoint dump_stacks (fuel : nat) (p : Z) : M unit :=
  match fuel with
  | O => crash_with OutOfFuel
  | S fuel => let! q := dump_stack p in if q =? 0 then kret tt else dump_stacks fuel q
  end.

Fixpoint dump_symbols (fuel : nat) (info : Eipdebuginfo) (p : Z) : M unit :=
  match fuel with
  | O => crash_with OutOfFuel
  | S fuel =>
      let! r := dump_backstrace_symbols info p in
      if r.1 =? 0 then kret tt else dump_symbols fuel r.2 r.1
  end.

(** [ebp] is the function's own frame pointer, [eip] what read_eip finds. *)
Definition mon_backtrace (fuel : nat) (ebp eip : Z) : M Z :=
  cprintf "current eip=%08x" [eip] ;;
  let! r := debuginfo_eip eip in
  cprintf "" [] ;;
  dump_stacks fuel ebp ;;
  cprintf "" [] ;;
  dump_symbols fuel r.2 ebp ;;
  kret 0.

(** ** The command line *)

(** [c] is one of the characters of WHITESPACE. *)
Definition is_space (c : Z) : bool := (c =? 9) || (c =? 13) || (c =? 10) || (c =? 32).

(** Overwriting white space with NULs. *)
Fixpoint gobble (fuel : nat) (m : mem) (buf : Z) : option (mem * Z) :=
  match fuel with
  | O => None
  | S fuel => if negb (m buf =? 0) && is_space (m buf) then gobble fuel (st8 m buf 0) (buf + 1)
              else Some (m, buf)
  end.

Fixpoint scan_word (fuel : nat) (m : mem) (buf : Z) : option Z :=
  match fuel with
  | O => None
  | S fuel => if negb (m buf =? 0) && negb (is_space (m buf)) then scan_word fuel m (buf + 1) else Some buf
  end.

(** The loop that splits the buffer: [argv] so far, [None] for too many. *)
Fixpoint parse (fuel : nat) (m : mem) (buf : Z) (argv : list Z) : option (mem * option (list Z)) :=
  match fuel with
  | O => None
  | S fuel =>
      r ← gobble (S fuel) m buf;
      let '(m, buf) := r in
      if m buf =? 0 then Some (m, Some argv)
      else if Z.of_nat (length argv) =? MAXARGS - 1 then Some (m, None)
      else buf' ← scan_word (S fuel) m buf; parse fuel m buf' (argv ++ [buf])
  end.

(** strcmp with a literal. *)
Fixpoint strcmp_lit (m : mem) (p : Z) (l : list Z) : Z :=
  match l with
  | [] => m p
  | c :: l => if negb (m p =? 0) && (m p =? c) then strcmp_lit m (p + 1) l else m p - c
  end.

Definition find_command (m : mem) (p : Z) : option command :=
  (fun x => x.2.2) <$> list_find (fun c => strcmp_lit m p (bytes_of_string c.1.1) = 0) commands.

Definition run (c : command) : M Z :=
  match c with mon_help_cmd => mon_help | mon_kerninfo_cmd => mon_kerninfo end.

Definition runcmd (fuel : nat) (buf : Z) : M Z :=
  let! r := get (fun s => parse fuel (kmem s) buf []) in
  match r with
  | None => crash_with OutOfFuel
  | Some (m, args) =>
      modify (set_kmem m) ;;
      match args with
      | None => cprintf "Too many arguments (max %d)" [MAXARGS] ;; kret 0
      | Some [] => kret 0
      | Some (arg :: _) =>
          match find_command m arg with
          | Some c => run c
          | None => cprintf "Unknown command '%s'" [arg] ;; kret 0
          end
      end
  end.

(** The read-and-execute loop.  A line that is never completed leaves the
    monitor waiting for input; every other line takes characters from the
    devices, so [fuel] above their number is enough. *)
Fixpoint monitor_loop (fuel : nat) : M unit :=
  match fuel with
  | O => crash_with OutOfFuel
  | S fuel =>
      let! d := get kio in
      match readline (S (length (waiting d))) 1 (bytes "K> ") d with
      | None => leave_with MonitorLoop
      | Some (line, d') =>
          modify (set_kio d') ;;
          modify (fun s => set_kmem (place (kmem s) readline_buf (line ++ [0])) s) ;;
          let! r := runcmd (S (length line)) readline_buf in
          if r <? 0 then kret tt else monitor_loop fuel
      end
  end.
End Monitor.

(** ** Reference: the words of a line *)

Definition flush (w : list Z) (ws : list (list Z)) : list (list Z) :=
  match w with [] => ws | _ => w :: ws end.

(** [w] is the word being read. *)
Fixpoint words_from (w l : list Z) : list (list Z) :=
  match l with
  | [] => flush w []
  | c :: l => if is_space c then flush w (words_from [] l) else words_from (w ++ [c]) l
  end.
Definition words (l : list Z) : list (list Z) := words_from [] l.

(** The two kinds of stretch that the parser walks over. *)
Definition spaces (l : list Z) : Prop := Forall (fun c => is_space c = true) l.
Definition solid (l : list Z) : Prop := Forall (fun c => is_space c = false) l.
Definition at_break (l : list Z) : Prop := match l with [] => True | c :: _ => is_space c = true end.

Lemma split_spaces l : exists sp rest,
  l = sp ++ rest /\ spaces sp /\ match rest with [] => True | c :: _ => is_space c = false end.
Proof.
  induction l as [|c l (sp & rest & -> & Hs & Hr)]; [by exists [], []; repeat split; constructor|].
  destruct (is_space c) eqn:E.
  - exists (c :: sp), rest. repeat split; [by constructor|done].
  - exists [], (c :: sp ++ rest). repeat split; [constructor|done].
Qed.

Lemma split_word l : exists w rest, l = w ++ rest /\ solid w /\ at_break rest.
Proof.
  induction l as [|c l (w & rest & -> & Hs & Hr)]; [by exists [], []; repeat split; constructor|].
  destruct (is_space c) eqn:E.
  - exists [], (c :: w ++ rest). repeat split; [constructor|done].
  - exists (c :: w), rest. repeat split; [by constructor|done].
Qed.

Lemma words_spaces sp l : spaces sp -> words (sp ++ l) = words l.
Proof. induction 1 as [|c sp Hc _ IH]; [done|]. unfold words in *. cbn. by rewrite Hc. Qed.

Lemma words_from_solid w w' rest : solid w' -> words_from w (w' ++ rest) = words_from (w ++ w') rest.
Proof.
  intros Hw. revert w. induction Hw as [|c w' Hc _ IH]; intros w; [by rewrite app_nil_r|].
  cbn. by rewrite Hc, IH, <- app_assoc.
Qed.

Lemma words_word w rest :
  w <> [] -> solid w -> at_break rest -> words (w ++ rest) = w :: words rest.
Proof.
  intros Hn Hw Hb. unfold words. rewrite words_from_solid by done. cbn [app].
  destruct rest as [|c rest]; cbn in *; [by destruct w|]. rewrite Hb. by destruct w.
Qed.

(** ** The two scanning loops *)

Lemma cstr_end m p l : cstr m p l -> m (p + Z.of_nat (length l)) = 0.
Proof. intros H. rewrite <- (app_nil_r l) in H. by apply cstr_app_inv in H. Qed.

Lemma gobble_spec fuel m p sp rest :
  cstr m p (sp ++ rest) -> spaces sp -> (length sp < fuel)%nat ->
  match rest with [] => True | c :: _ => is_space c = false end ->
  exists m', gobble fuel m p = Some (m', p + Z.of_nat (length sp)) /\
    (forall x, p <= x < p + Z.of_nat (length sp) -> m' x = 0) /\
    (forall x, ~ p <= x < p + Z.of_nat (length sp) -> m' x = m x).
Proof.
  revert m p fuel. induction sp as [|c sp IH]; intros m p [|fuel] Hm Hs Hf Hr; cbn in Hf; try lia.
  - exists m. cbn [gobble length]. rewrite Z.add_0_r.
    assert (E : negb (m p =? 0) && is_space (m p) = false).
    { destruct rest as [|c rest]; cbn in Hm; [by rewrite Hm|]. destruct Hm as (-> & _ & _).
      rewrite Hr. by rewrite andb_false_r. }
    rewrite E. split; [done|]. split; intros x Hx; [cbn in Hx; lia|done].
  - apply Forall_cons in Hs as [Hc Hs]. cbn in Hm. destruct Hm as (Hp & Hz & Hm).
    cbn [gobble]. rewrite Hp, Hc. assert (Ec : (c =? 0) = false) by lia. rewrite Ec. cbn [negb andb].
    destruct (IH (st8 m p 0) (p + 1) fuel) as (m' & E & H0 & Hk); [|done|lia|done|].
    { eapply cstr_ext; [|exact Hm]. intros x Hx. unfold st8.
      destruct (Z.eqb_spec x p); [lia|done]. }
    exists m'. rewrite E. cbn [length]. split; [by f_equal; f_equal; lia|]. split; intros x Hx.
    + destruct (decide (x = p)) as [->|Hne]; [|apply H0; lia].
      rewrite Hk by lia. unfold st8. by rewrite Z.eqb_refl.
    + rewrite Hk by lia. unfold st8. destruct (Z.eqb_spec x p); [lia|done].
Qed.

Lemma scan_word_spec fuel m p w rest :
  cstr m p (w ++ rest) -> solid w -> (length w < fuel)%nat -> at_break rest ->
  scan_word fuel m p = Some (p + Z.of_nat (length w)).
Proof.
  revert p fuel. induction w as [|c w IH]; intros p [|fuel] Hm Hs Hf Hr; cbn in Hf; try lia; cbn [scan_word].
  - assert (E : negb (m p =? 0) && negb (is_space (m p)) = false).
    { destruct rest as [|c rest]; cbn in Hm; [by rewrite Hm|]. destruct Hm as (-> & _ & _).
      cbn in Hr. rewrite Hr. by rewrite andb_false_r. }
    rewrite E. f_equal. cbn. lia.
  - apply Forall_cons in Hs as [Hc Hs]. cbn in Hm. destruct Hm as (Hp & Hz & Hm).
    rewrite Hp, Hc. assert (Ec : (c =? 0) = false) by lia. rewrite Ec. cbn [negb andb].
    rewrite IH by (done || lia). cbn [length]. f_equal. lia.
Qed.

(** A word followed by a NUL is a C string. *)
Lemma cstr_word m m' p w rest :
  cstr m p (w ++ rest) -> (forall x, p <= x < p + Z.of_nat (length w) -> m' x = m x) ->
  m' (p + Z.of_nat (length w)) = 0 -> cstr m' p w.
Proof.
  revert p. induction w as [|c w IH]; intros p Hm Hk H0; cbn in *.
  - by rewrite Z.add_0_r in H0.
  - destruct Hm as (Hp & Hz & Hm). repeat split; [rewrite Hk by lia; done|done|].
    apply (IH (p + 1) Hm); [intros x Hx; apply Hk; lia|].
    by replace (p + 1 + Z.of_nat (length w)) with (p + Z.pos (Pos.of_succ_nat (length w))) by lia.
Qed.

(** ** The parser *)

Record parsed (m m' : mem) (p : Z) (l : list Z) (argv : list Z) (r : option (list Z)) : Prop := {
  pa_kept : forall x, ~ p <= x < p + Z.of_nat (length l) -> m' x = m x;
  pa_break : at_break l -> m' p = 0;
  pa_args : match r with
            | None => (15 < length argv + length (words l))%nat
            | Some argv' => exists starts, argv' = argv ++ starts /\ (length argv' <= 15)%nat /\
                Forall (fun a => p <= a < p + Z.of_nat (length l)) starts /\
                Forall2 (cstr m') starts (words l)
            end }.

Lemma parse_spec fuel m p l argv :
  cstr m p l -> (length l < fuel)%nat -> (length argv <= 15)%nat ->
  exists m' r, parse fuel m p argv = Some (m', r) /\ parsed m m' p l argv r.
Proof.
  revert m p l argv. induction fuel as [|fuel IH]; intros m p l argv Hm Hf Ha; [lia|].
  destruct (split_spaces l) as (sp & body & -> & Hsp & Hb).
  rewrite length_app in Hf. cbn [parse].
  destruct (gobble_spec (S fuel) m p sp body) as (m1 & -> & Hz & Hk); [done|done|lia|done|].
  set (q := p + Z.of_nat (length sp)) in *. assert (Hq : q = p + Z.of_nat (length sp)) by done. cbn [mbind option_bind].
  assert (Hm1 : cstr m1 q body).
  { apply cstr_app_inv in Hm. eapply cstr_ext; [|exact Hm]. intros x Hx. symmetry. apply Hk. lia. }
  assert (Hsp0 : sp <> [] -> m1 p = 0) by (intros; apply Hz; unfold q; destruct sp; cbn; [done|lia]).
  destruct body as [|c body].
  { cbn in Hm1. rewrite Hm1, Z.eqb_refl. exists m1, (Some argv). split; [done|].
    rewrite !app_nil_r. split.
    - intros x Hx. by apply Hk.
    - intros _. destruct sp; [|by apply Hsp0]. unfold q in Hm1. cbn in Hm1. by rewrite Z.add_0_r in Hm1.
    - exists []. rewrite app_nil_r. rewrite <- (app_nil_r sp), words_spaces by done.
      repeat split; [lia|constructor|constructor]. }
  assert (Hc : m1 q <> 0) by (cbn in Hm1; destruct Hm1 as (-> & ? & _); done).
  rewrite (proj2 (Z.eqb_neq _ _) Hc).
  destruct (split_word (c :: body)) as (w & rest & E & Hw & Hr).
  assert (Hwn : w <> []).
  { intros ->. cbn in E. subst rest. cbn in Hr. congruence. }
  rewrite E in *. clear E c body Hb Hc.
  assert (Hlw : (0 < length w)%nat) by (destruct w; [done|cbn; lia]).
  rewrite length_app in Hf.
  unfold MAXARGS. destruct (Z.eqb_spec (Z.of_nat (length argv)) (16 - 1)).
  { exists m1, None. split; [done|]. split.
    - intros x Hx. apply Hk. rewrite length_app in Hx. lia.
    - intros Hbr. apply Hsp0. intros ->. destruct w; [done|]. cbn in Hbr.
      apply Forall_cons in Hw as [? _]. congruence.
    - rewrite words_spaces, words_word by done. cbn. lia. }
  rewrite (scan_word_spec (S fuel) m1 q w rest) by (done || lia). cbn [mbind option_bind].
  destruct (IH m1 (q + Z.of_nat (length w)) rest (argv ++ [q])) as (m' & r & -> & [Hk' Hbr' Har']);
    [by apply cstr_app_inv in Hm1|lia|rewrite length_app; cbn; lia|].
  exists m', r. split; [done|]. rewrite length_app in *.
  assert (Hwc : cstr m' q w).
  { apply (cstr_word m1 m' q w rest Hm1); [intros x Hx; apply Hk'; lia|by apply Hbr']. }
  split.
  - rewrite !length_app. intros x Hx. rewrite Hk' by lia. apply Hk. lia.
  - intros Hbr. rewrite Hk' by lia. apply Hsp0. intros ->. destruct w; [done|]. cbn in Hbr.
    apply Forall_cons in Hw as [? _]. congruence.
  - rewrite words_spaces, words_word by done. destruct r as [argv'|]; [|cbn in *; lia].
    destruct Har' as (starts & -> & Hle & Hin & Hall). exists (q :: starts).
    rewrite <- app_assoc in *. split; [done|]. split; [done|]. rewrite !length_app. split.
    + constructor; [lia|]. eapply Forall_impl; [exact Hin|]. cbn. intros a Ha'. lia.
    + by constructor.
Qed.

(** ** Finding the command *)

Lemma strcmp_lit_zero m p w l :
  cstr m p w -> Forall (fun c => c <> 0) l -> strcmp_lit m p l = 0 <-> w = l.
Proof.
  intros Hm Hl. revert p w Hm. induction Hl as [|c l Hc Hl IH]; intros p w Hm; cbn [strcmp_lit].
  - destruct w as [|d w]; cbn in Hm; [by rewrite Hm|]. destruct Hm as (-> & ? & _). by split.
  - destruct w as [|d w]; cbn in Hm.
    + rewrite Hm. cbn. split; [lia|done].
    + destruct Hm as (-> & Hd & Hm). rewrite (proj2 (Z.eqb_neq _ _) Hd). cbn [negb andb].
      destruct (Z.eqb_spec d c) as [->|Hdc].
      * rewrite IH by exact Hm. split; [by intros ->|by intros [= ->]].
      * split; [lia|by intros [= -> ->]].
Qed.

Lemma find_command_spec m p w :
  cstr m p w ->
  find_command m p = if decide (w = bytes_of_string "help") then Some mon_help_cmd
                     else if decide (w = bytes_of_string "kerninfo") then Some mon_kerninfo_cmd
                     else None.
Proof.
  intros Hm. unfold find_command. cbn [list_find commands fst snd].
  pose proof (strcmp_lit_zero m p w (bytes_of_string "help") Hm) as H1.
  pose proof (strcmp_lit_zero m p w (bytes_of_string "kerninfo") Hm) as H2.
  assert (N1 : Forall (fun c => c <> 0) (bytes_of_string "help")) by (vm_compute; repeat (apply List.Forall_cons; [done|]); constructor).
  assert (N2 : Forall (fun c => c <> 0) (bytes_of_string "kerninfo")) by (vm_compute; repeat (apply List.Forall_cons; [done|]); constructor).
  specialize (H1 N1). specialize (H2 N2).
  destruct (decide (strcmp_lit m p (bytes_of_string "help") = 0)) as [E|E];
    destruct (decide (w = bytes_of_string "help")) as [E'|E']; try tauto.
  destruct (decide (strcmp_lit m p (bytes_of_string "kerninfo") = 0)) as [F|F];
    destruct (decide (w = bytes_of_string "kerninfo")) as [F'|F']; tauto.
Qed.

(** No command returns a negative number, so the monitor never returns. *)
Definition returns_zero (c : M Z) : Prop := forall s, exists s', c s = Ret 0 s'.

Lemma returns_zero_ret : returns_zero (kret 0).
Proof. by eexists. Qed.

Lemma returns_zero_print fmt args c : returns_zero c -> returns_zero (cprintf fmt args ;; c).
Proof. intros Hc s. erewrite bind_Ret by done. apply Hc. Qed.

Lemma run_zero `{MonitorImage} c : returns_zero (run c).
Proof. destruct c; repeat apply returns_zero_print; apply returns_zero_ret. Qed.

Lemma runcmd_zero `{MonitorImage} fuel buf s r s' : runcmd fuel buf s = Ret r s' -> r = 0.
Proof.
  assert (Z : forall c s1, returns_zero c -> c s1 = Ret r s' -> r = 0).
  { intros c s1 Hc. destruct (Hc s1) as [s2 ->]. by intros [=]. }
  unfold runcmd. erewrite bind_Ret by done.
  destruct (parse _ _ _ _) as [[m [[|arg argv]|]]|]; [..|done]; erewrite bind_Ret by done; apply Z.
  - apply returns_zero_ret.
  - destruct (find_command m arg); [apply run_zero|apply returns_zero_print, returns_zero_ret].
  - apply returns_zero_print, returns_zero_ret.
Qed.

Lemma monitor_loop_stays `{MonitorImage} fuel s s' : monitor_loop fuel s <> Ret tt s'.
Proof.
  revert s. induction fuel as [|fuel IH]; intros s; [done|]. cbn [monitor_loop].
  erewrite bind_Ret by done. destruct (readline _ _ _ _) as [[line d]|]; [|done].
  erewrite bind_Ret by done. erewrite bind_Ret by done.
  unfold kbind at 1. destruct (runcmd _ _ _) as [r s1| |] eqn:E; [|done|done].
  apply runcmd_zero in E as ->. apply IH.
Qed.

(** C35. Running a command line never touches memory outside the line.  With
    more than 15 words it only complains; otherwise the line is cut, in place,
    into the NUL-terminated strings of its words, and the first word chooses
    what runs: nothing on a blank line, [help], [kerninfo], or the complaint
    about an unknown command, which names that word.  Fuel one above the
    line's length is enough. *)
Theorem runcmd_correct `{MonitorImage} s buf l :
  cstr (kmem s) buf l ->
  exists m', (forall x, ~ buf <= x < buf + Z.of_nat (length l) -> m' x = kmem s x) /\
    if (15 <? length (words l))%nat then
      runcmd (S (length l)) buf s = (cprintf "Too many arguments (max %d)" [16] ;; kret 0) (set_kmem m' s)
    else exists starts,
      Forall (fun a => buf <= a < buf + Z.of_nat (length l)) starts /\
      Forall2 (cstr m') starts (words l) /\
      runcmd (S (length l)) buf s =
        match starts, words l with
        | arg :: _, w :: _ =>
            if decide (w = bytes_of_string "help") then mon_help
            else if decide (w = bytes_of_string "kerninfo") then mon_kerninfo
            else cprintf "Unknown command '%s'" [arg] ;; kret 0
        | _, _ => kret 0
        end (set_kmem m' s).
Proof.
  intros Hm. destruct (parse_spec (S (length l)) (kmem s) buf l []) as (m' & r & E & [Hk _ Ha]);
    [done|lia|cbn; lia|].
  exists m'. split; [done|]. unfold runcmd. erewrite bind_Ret by done. rewrite E.
  erewrite bind_Ret by done.
  destruct (Nat.ltb_spec 15 (length (words l))) as [Hl|Hl].
  - destruct r as [argv|]; [|done]. destruct Ha as (starts & -> & Hle & _ & Hall).
    apply Forall2_length in Hall. cbn in *. lia.
  - destruct r as [argv|]; [|cbn in Ha; lia]. destruct Ha as (starts & -> & _ & Hin & Hall).
    exists starts. split; [done|]. split; [done|].
    destruct Hall as [|arg w starts ws Hw Hall]; [done|]. cbn [app].
    rewrite (find_command_spec _ _ _ Hw). repeat case_decide; done.
Qed.

#[local] Instance monitor_image : MonitorImage :=
  {| readline_buf := 0xf0200000; sym_start := 0x10000c; sym_entry := 0xf010000c;
     sym_etext := 0xf0108000; sym_edata := 0xf0120000; sym_end := 0xf0300000 |}.

Lemma runcmd_correct_witness :
  let s := set_kmem (place (fun _ => 0) 0xf0200000 (bytes_of_string " quit now" ++ [0])) (sample 4 0) in
  exists m' arg,
    cstr m' arg (bytes_of_string "quit") /\
    runcmd 10 0xf0200000 s = (cprintf "Unknown command '%s'" [arg] ;; kret 0) (set_kmem m' s).
Proof.
  intros s.
  assert (H : cstr (kmem s) 0xf0200000 (bytes_of_string " quit now")) by (vm_compute; repeat (split; [reflexivity|split; [discriminate|]]); reflexivity).
  destruct (runcmd_correct s 0xf0200000 (bytes_of_string " quit now") H) as (m' & _ & R).
  replace (words (bytes_of_string " quit now"))
    with [bytes_of_string "quit"; bytes_of_string "now"] in R by (vm_compute; reflexivity).
  cbn [length Nat.ltb Nat.leb] in R. destruct R as (starts & _ & F & R).
  inversion F as [|arg w starts' ws Fw]. subst. exists m', arg. split; [exact Fw|exact R].
Defined.
