(* ===== verification/Spinlock.v ===== *)
(** Spin locks: src/kern/spinlock.c and src/kern/spinlock.h.

    Section [Kernel] has the functions as the kernel code of one CPU runs them.
    Module [Smp] has several CPUs taking their atomic steps in any order, which
    is where the lock's contract (mutual exclusion, and no false "already
    holding" panic) is stated and proved. *)

From S2P Require Import Prelude Machine Mmu Cstring Devices KState PageAlloc PageTable Vmem Kdebug.

(** ** The debugging data *)

(** Ten saved instruction pointers from the chain of frames at [ebp]: a frame
    is the caller's ebp followed by the return address. *)
Fixpoint caller_pcs (n : nat) (m : mem) (ebp : Z) : list Z :=
  match n with
  | O => []
  | S n =>
      if (ebp =? 0) || (ebp <? ULIM) then repeat 0 (S n)
      else ld32 m (ebp + 4) :: caller_pcs n m (ld32 m ebp)
  end.
Definition get_caller_pcs (m : mem) (ebp : Z) : list Z := caller_pcs 10 m ebp.

Definition holding (lock : spinlock) (cpu : Z) : bool :=
  negb (locked lock =? 0) && bool_decide (lk_cpu lock = Some cpu).

Definition __spin_initlock (lk : spinlock) : spinlock :=
  {| locked := 0; lk_cpu := None; pcs := pcs lk |}.

(** xchg: the value stored before, and the lock with the new value. *)
Definition xchg (lk : spinlock) (v : Z) : Z * spinlock :=
  (locked lk, {| locked := v; lk_cpu := lk_cpu lk; pcs := pcs lk |}).

(** ** On one CPU *)

Section Kernel.
Context `{StabSections}.

(** [tries] bounds the spinning: alone, one CPU spins for ever on a lock that
    another one holds. *)
Fixpoint spin (tries : nat) : M unit :=
  match tries with
  | O => crash_with OutOfFuel
  | S tries =>
      let! lk := get kernel_lock in
      let '(old, lk') := xchg lk 1 in
      modify (set_kernel_lock lk') ;;
      if negb (old =? 0) then spin tries else kret tt
  end.

Definition spin_lock (tries : nat) (ebp : Z) : M unit :=
  let! me := get cpunum in
  let! lk := get kernel_lock in
  (if holding lk me then panic "CPU %d cannot acquire %s: already holding" else kret tt) ;;
  spin tries ;;
  modify (fun s => set_kernel_lock
    {| locked := locked (kernel_lock s); lk_cpu := Some (cpunum s); pcs := get_caller_pcs (kmem s) ebp |} s).

Definition lock_kernel := spin_lock.

(** The report of a release by a CPU that does not hold the lock. *)
Fixpoint report_pcs (l : list Z) : M unit :=
  match l with
  | [] => kret tt
  | pc :: l =>
      if pc =? 0 then kret tt
      else
        let! r := debuginfo_eip pc in
        let '(ret, info) := r in
        (if 0 <=? ret
         then cprintf "  %08x %s:%d: %.*s+%x"
                [pc; eip_file info; eip_line info; eip_fn_namelen info; eip_fn_name info;
                 u32 (pc - eip_fn_addr info)]
         else cprintf "  %08x" [pc]) ;;
        report_pcs l
  end.

Definition spin_unlock : M unit :=
  let! me := get cpunum in
  let! lk := get kernel_lock in
  (if negb (holding lk me) then
     let! holder := deref (lk_cpu lk) in
     let! id := get (fun s => cpu_id <$> cpus s !! holder) in
     cprintf "CPU %d cannot release %s: held by CPU %d" [me; default 0 id] ;;
     report_pcs (pcs lk) ;;
     panic "spin_unlock"
   else kret tt) ;;
  modify (set_kernel_lock {| locked := locked lk; lk_cpu := None; pcs := <[0%nat := 0]> (pcs lk) |}) ;;
  modify (fun s => set_kernel_lock (snd (xchg (kernel_lock s) 0)) s).

Definition unlock_kernel := spin_unlock.

(** Taking the free lock and releasing it again. *)
Lemma spin_lock_free n ebp s :
  locked (kernel_lock s) = 0 ->
  spin_lock (S n) ebp s = Ret tt (set_kernel_lock
    {| locked := 1; lk_cpu := Some (cpunum s); pcs := get_caller_pcs (kmem s) ebp |} s).
Proof.
  intros Hl. unfold spin_lock. mrun. unfold holding. rewrite Hl. simpl. mrun. simpl.
  unfold xchg. simpl. mrun. simpl. rewrite Hl. simpl. by mrun.
Qed.
End Kernel.

(** ** Several CPUs *)

Module Smp.

(** Where a CPU is in [spin_lock] or [spin_unlock].  The test [holding] reads
    [locked] and [cpu] one after the other; the debugging stores happen before
    the release and after the acquisition. *)
Inductive pc :=
| Idle
| LockTest                      (* spin_lock read locked <> 0, about to read cpu *)
| Spinning                      (* before an xchg *)
| SetCpu                        (* won the xchg, about to store cpu *)
| Critical
| UnlockTest                    (* spin_unlock read locked <> 0, about to read cpu *)
| ClearCpu                      (* before lk->cpu = 0 *)
| Release                       (* before the xchg that stores 0 *)
| Panicked.

Record state := { lk_locked : Z; lk_owner : option Z; at_pc : Z -> pc }.

Definition move (s : state) (c : Z) (p : pc) : Z -> pc := fun i => if i =? c then p else at_pc s i.
Definition goto (s : state) (c : Z) (p : pc) : state :=
  {| lk_locked := lk_locked s; lk_owner := lk_owner s; at_pc := move s c p |}.

(** One atomic step of CPU [c]. *)
Inductive step (s : state) (c : Z) : state -> Prop :=
| lock_unlocked : at_pc s c = Idle -> lk_locked s = 0 -> step s c (goto s c Spinning)
| lock_locked : at_pc s c = Idle -> lk_locked s <> 0 -> step s c (goto s c LockTest)
| lock_mine : at_pc s c = LockTest -> lk_owner s = Some c -> step s c (goto s c Panicked)
| lock_other : at_pc s c = LockTest -> lk_owner s <> Some c -> step s c (goto s c Spinning)
| spin_busy : at_pc s c = Spinning -> lk_locked s <> 0 ->
    step s c {| lk_locked := 1; lk_owner := lk_owner s; at_pc := at_pc s |}
| spin_won : at_pc s c = Spinning -> lk_locked s = 0 ->
    step s c {| lk_locked := 1; lk_owner := lk_owner s; at_pc := move s c SetCpu |}
| set_cpu : at_pc s c = SetCpu ->
    step s c {| lk_locked := lk_locked s; lk_owner := Some c; at_pc := move s c Critical |}
| unlock_locked : at_pc s c = Critical -> lk_locked s <> 0 -> step s c (goto s c UnlockTest)
| unlock_unlocked : at_pc s c = Critical -> lk_locked s = 0 -> step s c (goto s c Panicked)
| unlock_mine : at_pc s c = UnlockTest -> lk_owner s = Some c -> step s c (goto s c ClearCpu)
| unlock_other : at_pc s c = UnlockTest -> lk_owner s <> Some c -> step s c (goto s c Panicked)
| clear_cpu : at_pc s c = ClearCpu ->
    step s c {| lk_locked := lk_locked s; lk_owner := None; at_pc := move s c Release |}
| release : at_pc s c = Release ->
    step s c {| lk_locked := 0; lk_owner := lk_owner s; at_pc := move s c Idle |}.

Definition init : state := {| lk_locked := 0; lk_owner := None; at_pc := fun _ => Idle |}.

Inductive reachable : state -> Prop :=
| reach_init : reachable init
| reach_step s c s' : reachable s -> step s c s' -> reachable s'.

(** Between winning the xchg and releasing. *)
Definition owns (p : pc) : bool :=
  match p with SetCpu | Critical | UnlockTest | ClearCpu | Release => true | _ => false end.
(** The owner whose [cpu] field is in place. *)
Definition named (p : pc) : bool :=
  match p with Critical | UnlockTest | ClearCpu => true | _ => false end.

(** [h] is the CPU between winning the xchg and releasing, if any. *)
Record held (s : state) (h : option Z) : Prop := {
  held_owns : forall c, owns (at_pc s c) = bool_decide (h = Some c);
  held_locked : lk_locked s = 0 <-> h = None;
  held_owner : lk_owner s = (c ← h; if named (at_pc s c) then Some c else None);
  held_safe : forall c, at_pc s c <> Panicked }.

Lemma held_init : held init None.
Proof. by split. Qed.

(** CPU [c] moves to [p] and the holder becomes [h']. *)
Lemma held_move s h h' c p loc own :
  held s h -> owns p = bool_decide (h' = Some c) -> p <> Panicked ->
  (forall d, d <> c -> h' = Some d <-> h = Some d) -> (loc = 0 <-> h' = None) ->
  (if decide (h' = Some c) then own = if named p then Some c else None
   else own = lk_owner s /\ (h' = h \/ h' = None /\ own = None)) ->
  held {| lk_locked := loc; lk_owner := own; at_pc := move s c p |} h'.
Proof.
  intros [H1 H2 H3 H4] Hp Hnp Hd Hl Ho. split; simpl; unfold move; [|done| |].
  - intros d. destruct (Z.eqb_spec d c) as [->|Hdc]; [done|]. rewrite H1.
    apply bool_decide_ext. by rewrite Hd.
  - case_decide as Hc.
    + rewrite Hc, Ho. simpl. by rewrite Z.eqb_refl.
    + destruct Ho as [-> [->|[-> Ho]]]; [|done]. rewrite H3. destruct h as [o|]; [|done]. simpl.
      destruct (Z.eqb_spec o c); [congruence|done].
  - intros d. destruct (Z.eqb_spec d c); [done|apply H4].
Qed.

Ltac by_held :=
  eapply held_move; try eassumption; try done;
  repeat first [ rewrite bool_decide_true by done | rewrite bool_decide_false by done
               | rewrite decide_True by done | rewrite decide_False by done ];
  try (by split; [|left]);
  try done; try (intros; split; congruence).

Lemma held_step s h c s' : held s h -> step s c s' -> exists h', held s' h'.
Proof.
  intros Hh Hs. pose proof Hh as [H1 H2 H3 H4]. specialize (H1 c).
  assert (owns (at_pc s c) = true -> h = Some c /\ lk_locked s <> 0 /\
          lk_owner s = if named (at_pc s c) then Some c else None) as Hown.
  { rewrite H1. intros ->%bool_decide_eq_true. split; [done|]. rewrite H2. split; [done|]. by rewrite H3. }
  assert (owns (at_pc s c) = false -> h <> Some c) as Hnot.
  { rewrite H1. by intros ?%bool_decide_eq_false. }
  assert (lk_owner s = Some c -> named (at_pc s c) = true) as Hnm.
  { rewrite H3. destruct h as [o|]; simpl; [|done]. destruct (named (at_pc s o)) eqn:E; [|done].
    by intros [= ->]. }
  inversion Hs as [P|P|P Q|P|P|P Q|P|P|P Q|P|P Q|P|P]; subst; rewrite P in *; simpl in *;
    try (destruct Hown as (-> & Hl & Ho); [done|]); try (specialize (Hnot eq_refl));
    try (by specialize (Hnm Q)); try congruence.
  - exists h. by_held.
  - exists h. by_held.
  - exists h. by_held.
  - exists h. destruct Hh. split; try done. simpl. rewrite <- held_locked0. lia.
  - apply H2 in Q as ->. exists (Some c). by_held.
  - exists (Some c). by_held.
  - exists (Some c). by_held.
  - exists (Some c). by_held.
  - exists (Some c). by_held.
  - exists None. by_held. split; [done|]. by right.
Qed.

Lemma reachable_held s : reachable s -> exists h, held s h.
Proof.
  induction 1 as [|s c s' _ [h IH] Hs]; [exists None; apply held_init|by eapply held_step].
Qed.

(** C21. In every interleaving of the CPUs' steps at most one of them is
    between winning the lock and releasing it, and neither debugging check
    misfires: [spin_lock] never reports "already holding" and [spin_unlock]
    never reports a release by a CPU that does not hold the lock. *)
Theorem mutual_exclusion (s : state) (c d : Z) :
  reachable s ->
  (owns (at_pc s c) = true -> owns (at_pc s d) = true -> c = d) /\ at_pc s c <> Panicked.
Proof.
  intros [h [H1 _ _ H4]]%reachable_held. split; [|done].
  rewrite !H1. intros Hc%bool_decide_eq_true Hd%bool_decide_eq_true. congruence.
Qed.

Definition any_step (s s' : state) : Prop := exists c, step s c s'.

(** What CPU [c] does when it runs alone. *)
Lemma run_lock s c :
  at_pc s c = Spinning -> lk_locked s = 0 -> exists s', rtc any_step s s' /\ at_pc s' c = Critical.
Proof.
  intros Hc Hl. eexists. split.
  - eapply rtc_l; [exists c; by apply spin_won|]. eapply rtc_once. exists c. apply set_cpu.
    simpl. unfold move. by rewrite Z.eqb_refl.
  - simpl. unfold move. by rewrite Z.eqb_refl.
Qed.

Lemma held_step_owner s h c s' :
  held s h -> step s c s' -> owns (at_pc s' c) = true -> held s' (Some c).
Proof.
  intros Hh Hs Ho. destruct (held_step s h c s' Hh Hs) as [h' Hh'].
  pose proof (held_owns _ _ Hh' c) as Hc. rewrite Ho in Hc.
  symmetry in Hc. apply bool_decide_eq_true in Hc. by subst.
Qed.

(** The steps the owner still has to take. *)
Definition rank (p : pc) : nat :=
  match p with SetCpu => 5 | Critical => 4 | UnlockTest => 3 | ClearCpu => 2 | Release => 1 | _ => 0 end.

Lemma owner_step s c :
  held s (Some c) ->
  exists s1, step s c s1 /\ (forall d, d <> c -> at_pc s1 d = at_pc s d) /\
    rank (at_pc s c) = S (rank (at_pc s1 c)) /\ (rank (at_pc s1 c) = O -> lk_locked s1 = 0).
Proof.
  intros [H1 H2 H3 _]. specialize (H1 c). rewrite bool_decide_true in H1 by done. simpl in H3.
  assert (lk_locked s <> 0) as Hl by (rewrite H2; done).
  assert (forall d p, d <> c -> move s c p d = at_pc s d) as Hmd.
  { intros d p Hd. unfold move. by rewrite (proj2 (Z.eqb_neq d c)). }
  assert (forall p, move s c p c = p) as Hmc by (intros; unfold move; by rewrite Z.eqb_refl).
  destruct (at_pc s c) eqn:E; try done; simpl in H3; eexists;
    (split; [first [by apply set_cpu|by apply unlock_locked|by apply unlock_mine
                   |by apply clear_cpu|by apply release]|]); simpl; rewrite Hmc; split_and!; try done; auto.
Qed.

Lemma run_unlock s c d :
  held s (Some c) -> d <> c ->
  exists s', rtc any_step s s' /\ lk_locked s' = 0 /\ at_pc s' d = at_pc s d.
Proof.
  remember (rank (at_pc s c)) as n eqn:Hn. revert s Hn.
  induction n as [|n IH]; intros s Hn Hh Hd;
    destruct (owner_step s c Hh) as (s1 & Hs & Hp & Hr & Hz); [lia|].
  destruct (owns (at_pc s1 c)) eqn:Ho.
  - destruct (IH s1) as (s' & Hs' & Hl & Hd'); [lia|by eapply held_step_owner|done|].
    exists s'. split; [|by rewrite Hd', Hp]. eapply rtc_l; [by exists c|done].
  - exists s1. split; [by eapply rtc_once; exists c|]. split; [|by apply Hp].
    apply Hz. by destruct (at_pc s1 c).
Qed.

(** C31. No deadlock: whenever a CPU is waiting for the lock, the CPUs can take
    steps after which it is in the critical section. *)
Theorem waiting_can_enter (s : state) (c : Z) :
  reachable s -> at_pc s c = Spinning -> exists s', rtc any_step s s' /\ at_pc s' c = Critical.
Proof.
  intros [h Hh]%reachable_held Hc. pose proof Hh as [H1 H2 _ _]. destruct h as [o|].
  - destruct (decide (c = o)) as [->|Hne].
    + specialize (H1 o). rewrite Hc, bool_decide_true in H1; done.
    + destruct (run_unlock s o c Hh Hne) as (s1 & Hr & Hl & Hp).
      destruct (run_lock s1 c) as (s2 & Hr2 & Hc2); [congruence|done|].
      exists s2. split; [by etrans|done].
  - apply run_lock; [done|]. by apply H2.
Qed.

Lemma two_waiting : reachable (goto (goto init 0 Spinning) 1 Spinning).
Proof.
  eapply (reach_step _ 1); [eapply (reach_step _ 0); [apply reach_init|]|]; by apply lock_unlocked.
Qed.

Lemma mutual_exclusion_witness :
  reachable (goto (goto init 0 Spinning) 1 Spinning) /\
  at_pc (goto (goto init 0 Spinning) 1 Spinning) 1 <> Panicked.
Proof. split; [apply two_waiting|]. apply (mutual_exclusion _ 1 1 two_waiting). Defined.

Lemma waiting_can_enter_witness :
  exists s', rtc any_step (goto (goto init 0 Spinning) 1 Spinning) s' /\ at_pc s' 1 = Critical.
Proof. by apply (waiting_can_enter _ 1 two_waiting). Defined.

End Smp.
