(* ===== verification/Env.v ===== *)
(** Environments: src/kern/env.c, and the address-space and lifecycle
    operations on the [envs] table.

    An environment pointer is its index in [envs]; NULL is [None]. *)

From S2P Require Import Prelude Machine Mmu Cstring Devices KState PageAlloc PageTable Vmem.

Definition ENVGENSHIFT : Z := 12.

(** ** The global descriptor table *)

Definition STA_X : Z := 0x8.
Definition STA_W : Z := 0x2.
Definition STA_R : Z := 0x2.

(** [gdt[NCPU + 5]]: the named slots; the per-CPU TSS slots start empty. *)
Definition gdt (i : Z) : Segdesc :=
  if i =? Z.shiftr GD_KT 3 then SEG (Z.lor STA_X STA_R) 0 0xffffffff 0
  else if i =? Z.shiftr GD_KD 3 then SEG STA_W 0 0xffffffff 0
  else if i =? Z.shiftr GD_UT 3 then SEG (Z.lor STA_X STA_R) 0 0xffffffff 3
  else if i =? Z.shiftr GD_UD 3 then SEG STA_W 0 0xffffffff 3
  else SEG_NULL.

(** ** Looking up and initialising *)

(** Returns the C result and [*env_store]. *)
Definition envid2env (envid : Z) (checkperm : bool) : M (Z * option Z) :=
  let! cur := curenv in
  if envid =? 0 then kret (0, cur)
  else
    let i := ENVX envid in
    let! e := get_env i in
    if bool_decide (env_status e = ENV_FREE) || negb (env_id e =? envid) then kret (- E_BAD_ENV, None)
    else
      let! denied := (if checkperm && negb (bool_decide (cur = Some i)) then
                        let! c := deref cur in let! ce := get_env c in
                        kret (negb (env_parent_id e =? env_id ce))
                      else kret false) in
      if (denied : bool) then kret (- E_BAD_ENV, None) else kret (0, Some i).

Definition env_init_one (i : Z) : M unit :=
  let! fl := get env_free_list in
  upd_env i (fun e => set_env_link fl (set_env_pgdir 0 (set_env_runs 0
    (set_env_status ENV_FREE (set_env_type ENV_TYPE_USER (set_env_parent_id 0 (set_env_id 0 e))))))) ;;
  modify (set_env_free_list (Some i)).

(** [for (temp = n - 1; temp >= 0; temp--)] *)
Fixpoint env_init_loop (n : nat) : M unit :=
  match n with
  | O => kret tt
  | S n => env_init_one (Z.of_nat n) ;; env_init_loop n
  end.

(** [&envs[temp]] after the loop is the address below the array. *)
Definition env_init : M unit :=
  modify (set_env_free_list None) ;;
  cprintf "NENV -1 : %u" [NENV - 1] ;;
  env_init_loop (Z.to_nat NENV) ;;
  let! fl := get env_free_list in
  cprintf "env_free_list : 0x%08x, & envs[temp]: 0x%08x" [default 0 fl; -1].

(** ** Creation *)

Definition env_setup_vm (e : Z) : M Z :=
  let! pp := page_alloc ALLOC_ZERO in
  match pp with
  | None => kret (- E_NO_MEM)
  | Some p =>
      let! pi := get_page p in
      put_page p {| pp_link := pp_link pi; pp_ref := u16 (pp_ref pi + 1) |} ;;
      let! page_dir := page2kva p in
      let! kd := get kern_pgdir in
      kptr kd ;;
      modify (fun s => set_kmem (memcpy (kmem s) page_dir kd PGSIZE) s) ;;
      upd_env e (set_env_pgdir page_dir) ;;
      let! pa := PADDR page_dir in
      write32 (page_dir + 4 * PDX UVPT) (Z.lor (Z.lor pa PTE_P) PTE_U) ;;
      kret 0
  end.

Definition new_generation (id : Z) : Z :=
  let g := s32 (Z.land (s32 (id + Z.shiftl 1 ENVGENSHIFT)) (Z.lnot (NENV - 1))) in
  if g <=? 0 then Z.shiftl 1 ENVGENSHIFT else g.

(** The register state a new environment starts from. *)
Definition initial_tf : Trapframe :=
  {| tf_regs := tf_regs tf0; tf_es := Z.lor GD_UD 3; tf_ds := Z.lor GD_UD 3; tf_trapno := 0; tf_err := 0;
     tf_eip := 0; tf_cs := Z.lor GD_UT 3; tf_eflags := Z.lor 0 FL_IF; tf_esp := USTACKTOP;
     tf_ss := Z.lor GD_UD 3 |}.

(** Returns the C result and [*newenv_store]. *)
Definition env_alloc (parent_id : Z) : M (Z * option Z) :=
  let! fl := get env_free_list in
  match fl with
  | None => kret (- E_NO_FREE_ENV, None)
  | Some e =>
      let! r := env_setup_vm e in
      if r <? 0 then kret (r, None)
      else
        upd_env e (fun x =>
          set_env_ipc_recving false (set_env_pgfault_upcall 0 (set_env_tf initial_tf
          (set_env_runs 0 (set_env_status ENV_RUNNABLE (set_env_type ENV_TYPE_USER
          (set_env_parent_id parent_id
          (set_env_id (Z.lor (new_generation (env_id x)) e) x)))))))) ;;
        let! x := get_env e in
        modify (set_env_free_list (env_link x)) ;;
        let! cur := curenv in
        let! me := (match cur with Some c => let! ce := get_env c in kret (env_id ce) | None => kret 0 end) in
        cprintf "[%08x] new env %08x" [me; env_id x] ;;
        kret (0, Some e)
  end.

(** The loop over the [n] pages of [len]. *)
Fixpoint region_alloc_loop (n : nat) (pgdir va : Z) : M unit :=
  match n with
  | O => kret tt
  | S n =>
      let! pp := page_alloc 0 in
      match pp with
      | None => panic "region_alloc failed"
      | Some pp =>
          let! ret := page_insert pgdir pp va (Z.lor (Z.lor PTE_U PTE_W) PTE_P) in
          if negb (ret =? 0) then panic "region_alloc failed"
          else region_alloc_loop n pgdir (u32 (va + PGSIZE))
      end
  end.

Definition region_alloc (e va len : Z) : M unit :=
  let va := ROUNDDOWN va PGSIZE in
  let len := ROUNDUP len PGSIZE in
  let! x := get_env e in
  region_alloc_loop (Z.to_nat (len / PGSIZE)) (env_pgdir x) va.

(** ** Loading a program: offsets of src/inc/elf.h *)

Definition ELF_MAGIC : Z := 0x464C457F.
Definition ELF_PROG_LOAD : Z := 1.
Definition e_entry (b : Z) : Z := b + 24.
Definition e_phoff (b : Z) : Z := b + 28.
Definition e_phnum (b : Z) : Z := b + 44.
Definition p_type (ph : Z) : Z := ph.
Definition p_offset (ph : Z) : Z := ph + 4.
Definition p_va (ph : Z) : Z := ph + 8.
Definition p_pa (ph : Z) : Z := ph + 12.
Definition p_filesz (ph : Z) : Z := ph + 16.
Definition p_memsz (ph : Z) : Z := ph + 20.
Definition SIZEOF_PROGHDR : Z := 32.

Definition load_segment (e binary ph : Z) : M unit :=
  let! type := vread32 (p_type ph) in
  if negb (type =? ELF_PROG_LOAD) then kret tt
  else
    let! filesz := vread32 (p_filesz ph) in
    let! memsz := vread32 (p_memsz ph) in
    (if memsz <? filesz then panic "file size is great than memory size" else kret tt) ;;
    let! va := vread32 (p_va ph) in
    let! off := vread32 (p_offset ph) in
    region_alloc e va memsz ;;
    vmemmove (Z.to_nat filesz) va (u32 (binary + off)) ;;
    vmemset (Z.to_nat (memsz - filesz)) (u32 (va + filesz)) 0.

Fixpoint load_segments (n : nat) (e binary ph : Z) : M unit :=
  match n with
  | O => kret tt
  | S n => load_segment e binary ph ;; load_segments n e binary (ph + SIZEOF_PROGHDR)
  end.

Definition load_icode (e binary : Z) : M unit :=
  let! magic := vread32 binary in
  (if negb (magic =? ELF_MAGIC) then panic "elf header's magic is not correct" else kret tt) ;;
  let! phoff := vread32 (e_phoff binary) in
  let! phnum := vread16 (e_phnum binary) in
  let! x := get_env e in
  let! pd := PADDR (env_pgdir x) in
  lcr3 pd ;;
  load_segments (Z.to_nat phnum) e binary (u32 (binary + phoff)) ;;
  let! kd := get kern_pgdir in
  let! kpa := PADDR kd in
  lcr3 kpa ;;
  let! entry := vread32 (e_entry binary) in
  upd_env e (fun x => set_env_tf
    {| tf_regs := tf_regs (env_tf x); tf_es := tf_es (env_tf x); tf_ds := tf_ds (env_tf x);
       tf_trapno := tf_trapno (env_tf x); tf_err := tf_err (env_tf x); tf_eip := entry;
       tf_cs := tf_cs (env_tf x); tf_eflags := tf_eflags (env_tf x); tf_esp := tf_esp (env_tf x);
       tf_ss := tf_ss (env_tf x) |} x) ;;
  region_alloc e (USTACKTOP - PGSIZE) PGSIZE.

Definition env_create (binary : Z) (type : EnvType) : M unit :=
  let! r := env_alloc 0 in
  let '(ret, e) := r in
  (if ret <? 0 then panic "env_create: %e" else kret tt) ;;
  let! e := deref e in
  load_icode e binary ;;
  upd_env e (set_env_type type).

(** ** Destruction *)

(** [for (pteno = ...)]: unmap the present entries of table [pdeno]. *)
Fixpoint free_ptes (n : nat) (pgdir pt pdeno pteno : Z) : M unit :=
  match n with
  | O => kret tt
  | S n =>
      let! e := read32 (pt + 4 * pteno) in
      (if has e PTE_P then page_remove pgdir (PGADDR pdeno pteno 0) else kret tt) ;;
      free_ptes n pgdir pt pdeno (pteno + 1)
  end.

Definition free_table (pgdir pdeno : Z) : M unit :=
  let! pde := read32 (pgdir + 4 * pdeno) in
  if negb (has pde PTE_P) then kret tt
  else
    let pa := PTE_ADDR pde in
    let! pt := KADDR pa in
    free_ptes (Z.to_nat (PTX (Z.lnot 0) + 1)) pgdir pt pdeno 0 ;;
    write32 (pgdir + 4 * pdeno) 0 ;;
    let! pp := pa2page pa in
    page_decref pp.

Fixpoint free_tables (n : nat) (e pdeno : Z) : M unit :=
  match n with
  | O => kret tt
  | S n =>
      let! x := get_env e in
      free_table (env_pgdir x) pdeno ;;
      free_tables n e (pdeno + 1)
  end.

Definition env_free (e : Z) : M unit :=
  let! cur := curenv in
  (if bool_decide (cur = Some e) then
     let! kd := get kern_pgdir in let! pa := PADDR kd in lcr3 pa
   else kret tt) ;;
  let! x := get_env e in
  let! me := (match cur with Some c => let! ce := get_env c in kret (env_id ce) | None => kret 0 end) in
  cprintf "[%08x] free env %08x" [me; env_id x] ;;
  free_tables (Z.to_nat (PDX UTOP)) e 0 ;;
  let! x := get_env e in
  let! pa := PADDR (env_pgdir x) in
  upd_env e (set_env_pgdir 0) ;;
  let! pp := pa2page pa in
  page_decref pp ;;
  let! fl := get env_free_list in
  upd_env e (fun x => set_env_link fl (set_env_status ENV_FREE x)) ;;
  modify (set_env_free_list (Some e)).

(** ** Running *)

(** The [iret] sequence loads every register from the environment's trap
    frame; the model leaves the kernel for environment [e]. *)
Definition env_pop_tf (e : Z) : M unit :=
  let! cur := curenv in
  let! c := deref cur in
  let! me := get cpunum in
  upd_env c (set_env_cpunum me) ;;
  leave_with (ToUser e).

Definition env_run (e : Z) : M unit :=
  let! cur := curenv in
  (match cur with
   | Some c =>
       let! x := get_env c in
       if bool_decide (env_status x = ENV_RUNNING) then upd_env c (set_env_status ENV_RUNNABLE) else kret tt
   | None => kret tt
   end) ;;
  set_curenv (Some e) ;;
  upd_env e (set_env_status ENV_RUNNING) ;;
  upd_env e (fun x => set_env_runs (u32 (env_runs x + 1)) x) ;;
  let! x := get_env e in
  let! pa := PADDR (env_pgdir x) in
  lcr3 pa ;;
  env_pop_tf e.

(** ** Equations *)

Lemma upd_env_eq i f e s : envs s !! i = Some e -> upd_env i f s = Ret tt (set_envs (<[i := f e]> (envs s)) s).
Proof. intros He. unfold upd_env. by mstep (get_env_eq _ _ _ He). Qed.

Lemma set_curenv_eq c e s :
  cpus s !! cpunum s = Some c ->
  set_curenv e s =
    Ret tt (set_cpus (<[cpunum s := set_cpu_env e c]> (cpus s)) s).
Proof. intros Hc. unfold set_curenv. by mstep (thiscpu_eq _ _ Hc). Qed.

(** The table has exactly NENV slots. *)
Definition envs_wf (s : kstate) : Prop := forall i, is_Some (envs s !! i) <-> 0 <= i < NENV.

Lemma envs_lookup s i : envs_wf s -> 0 <= i < NENV -> exists e, envs s !! i = Some e.
Proof. intros Hwf Hi. by apply Hwf in Hi as [e He]; eauto. Qed.

Lemma envs_wf_insert s i e : envs_wf s -> 0 <= i < NENV -> envs_wf (set_envs (<[i := e]> (envs s)) s).
Proof.
  intros Hwf Hi j. simpl. destruct (decide (i = j)) as [->|].
  - rewrite lookup_insert_eq. split; eauto.
  - rewrite lookup_insert_ne by done. apply Hwf.
Qed.

Lemma ENVX_eq id : ENVX id = id mod NENV.
Proof. exact (land_low id 10 ltac:(lia)). Qed.

Lemma ENVX_range id : 0 <= ENVX id < NENV.
Proof. rewrite ENVX_eq. by apply Z.mod_pos_bound. Qed.

(** ** envid2env *)

Lemma envid2env_spec (s : kstate) (envid : Z) (checkperm : bool) (c : CpuInfo) (cur : Z) (ce : Env) :
  envs_wf s -> cpus s !! cpunum s = Some c -> cpu_env c = Some cur -> envs s !! cur = Some ce ->
  exists r, envid2env envid checkperm s = Ret r s /\
    ((envid = 0 /\ r = (0, Some cur)) \/
     (envid <> 0 /\ exists e, envs s !! ENVX envid = Some e /\
        ((r = (0, Some (ENVX envid)) /\ env_status e <> ENV_FREE /\ env_id e = envid /\
          (checkperm = true -> ENVX envid = cur \/ env_parent_id e = env_id ce)) \/
         (r = (- E_BAD_ENV, None) /\
          (env_status e = ENV_FREE \/ env_id e <> envid \/
           (checkperm = true /\ ENVX envid <> cur /\ env_parent_id e <> env_id ce)))))).
Proof.
  intros Hwf Hc Hcur Hce. unfold envid2env. mstep (curenv_eq _ _ Hc). rewrite Hcur.
  destruct (Z.eqb_spec envid 0) as [->|H0]; [eexists; split; [done|by left]|].
  destruct (envs_lookup s (ENVX envid) Hwf (ENVX_range envid)) as [e He]. mstep (get_env_eq _ _ _ He).
  destruct (decide (env_status e = ENV_FREE)) as [Hf|Hf].
  { rewrite bool_decide_true by done. eexists. split; [done|]. right. split; [done|].
    exists e. split; [done|]. right. eauto. }
  rewrite bool_decide_false by done. destruct (Z.eqb_spec (env_id e) envid) as [Hid|Hid]; simpl.
  2: { eexists. split; [done|]. right. split; [done|]. exists e. split; [done|]. right. eauto. }
  destruct (decide (checkperm = true /\ ENVX envid <> cur)) as [[-> Hne]|Hok].
  - rewrite bool_decide_false by congruence. simpl. mrun. mstep (get_env_eq _ _ _ Hce). mrun.
    destruct (Z.eqb_spec (env_parent_id e) (env_id ce)) as [Hp|Hp]; simpl;
      (eexists; split; [done|]; right; split; [done|]; exists e; split; [done|]); [left|right]; auto 8.
  - assert (checkperm && negb (bool_decide (Some cur = Some (ENVX envid))) = false) as ->.
    { destruct checkperm; [|done]. simpl. apply negb_false_iff, bool_decide_eq_true. f_equal.
      destruct (decide (ENVX envid = cur)); [done|tauto]. }
    mrun. eexists. split; [done|]. right. split; [done|]. exists e. split; [done|]. left.
    split_and!; try done. intros ->. left. destruct (decide (ENVX envid = cur)); [done|tauto].
Qed.

(** C30. [envid2env] yields the current environment for 0; otherwise it yields
    the environment in the slot the id names exactly when that slot is in use
    under this very id and, when permission is checked, is the caller or a
    child of the caller; in every other case it returns -E_BAD_ENV and NULL.
    The state is not changed. *)
Theorem envid2env_correct (s : kstate) (envid : Z) (checkperm : bool) (c : CpuInfo) (cur : Z) (ce : Env) :
  envs_wf s -> cpus s !! cpunum s = Some c -> cpu_env c = Some cur -> envs s !! cur = Some ce ->
  exists r, envid2env envid checkperm s = Ret r s /\
    ((envid = 0 /\ r = (0, Some cur)) \/
     (envid <> 0 /\ exists e, envs s !! ENVX envid = Some e /\
        ((r = (0, Some (ENVX envid)) /\ env_status e <> ENV_FREE /\ env_id e = envid /\
          (checkperm = true -> ENVX envid = cur \/ env_parent_id e = env_id ce)) \/
         (r = (- E_BAD_ENV, None) /\
          (env_status e = ENV_FREE \/ env_id e <> envid \/
           (checkperm = true /\ ENVX envid <> cur /\ env_parent_id e <> env_id ce)))))).
Proof. apply envid2env_spec. Qed.

(** ** env_init *)

Definition env_free_chain (s : kstate) (l : list Z) : Prop := chain env_link (envs s) (env_free_list s) l.

Definition cleared (e : Env) : Prop :=
  env_id e = 0 /\ env_parent_id e = 0 /\ env_type e = ENV_TYPE_USER /\ env_status e = ENV_FREE /\
  env_runs e = 0 /\ env_pgdir e = 0.

Lemma env_init_loop_eq n m s :
  envs_wf s -> Z.of_nat (n + m) = NENV -> env_free_chain s (zrange (Z.of_nat n) m) ->
  (forall i, Z.of_nat n <= i < NENV -> exists e, envs s !! i = Some e /\ cleared e) ->
  exists s', env_init_loop n s = Ret tt s' /\ envs_wf s' /\ env_free_chain s' (zrange 0 (n + m)) /\
    (forall i, 0 <= i < NENV -> exists e, envs s' !! i = Some e /\ cleared e) /\
    s' = set_envs (envs s') (set_env_free_list (env_free_list s') s).
Proof.
  revert m s. induction n as [|n IH]; intros m s Hwf Hn Hc Hcl.
  { exists s. split_and!; try done. by destruct s. }
  assert (0 <= Z.of_nat n < NENV) as Hr by lia.
  destruct (envs_lookup s _ Hwf Hr) as [e He].
  set (e' := set_env_link (env_free_list s) (set_env_pgdir 0 (set_env_runs 0
    (set_env_status ENV_FREE (set_env_type ENV_TYPE_USER (set_env_parent_id 0 (set_env_id 0 e))))))).
  set (s1 := set_env_free_list (Some (Z.of_nat n)) (set_envs (<[Z.of_nat n := e']> (envs s)) s)).
  assert (env_init_one (Z.of_nat n) s = Ret tt s1) as H1.
  { unfold env_init_one. mrun. by mstep (upd_env_eq _ (fun e => set_env_link (env_free_list s) (set_env_pgdir 0
      (set_env_runs 0 (set_env_status ENV_FREE (set_env_type ENV_TYPE_USER (set_env_parent_id 0
      (set_env_id 0 e))))))) _ _ He). }
  destruct (IH (S m) s1) as (s' & H2 & Hwf' & Hc' & Hcl' & Hs').
  - by apply (envs_wf_insert s).
  - lia.
  - unfold env_free_chain, s1. simpl. split; [done|]. exists e'. rewrite lookup_insert_eq.
    split; [done|]. apply chain_frame; [rewrite elem_of_zrange; lia|].
    replace (Z.of_nat n + 1) with (Z.of_nat (S n)) by lia. done.
  - intros i Hi. unfold s1. simpl. destruct (decide (Z.of_nat n = i)) as [<-|].
    + exists e'. by rewrite lookup_insert_eq.
    + rewrite lookup_insert_ne by done. apply Hcl. lia.
  - exists s'. cbn [env_init_loop]. mstep H1. split; [done|]. rewrite Nat.add_succ_r in Hc'.
    by split_and!.
Qed.

(** [env_init] links all NENV environments into the free list in the order
    of the array, so that the first allocation returns [envs[0]], and leaves
    each of them free, with id 0 and no address space. *)
Theorem env_init_correct (s : kstate) :
  envs_wf s ->
  exists s', env_init s = Ret tt s' /\ env_free_chain s' (zrange 0 (Z.to_nat NENV)) /\
    forall i, 0 <= i < NENV -> exists e, envs s' !! i = Some e /\ cleared e.
Proof.
  intros Hwf. unfold env_init. mrun. unfold cprintf at 1. mrun.
  edestruct (env_init_loop_eq (Z.to_nat NENV) 0) as (s' & H1 & _ & H2 & H3 & _);
    [| | | |mstep H1]; try done.
  { intros i Hi. lia. }
  mrun. unfold cprintf, modify. eexists. split; [done|].
  rewrite Nat.add_0_r in H2. split; [exact H2|exact H3].
Qed.

(** ** env_setup_vm and env_alloc *)

(** The kernel's directory: an allocated page other than those on the free
    list, whose UVPT slot aside the new directory copies. *)
Record template_ok (s : kstate) (l : list Z) (k : Z) : Prop := {
  tm_va : kern_pgdir s = page_kva k;
  tm_pd : pgdir_ok s l k }.

Section SetupVm.
Context (s : kstate) (n : Z) (l : list Z) (k e : Z) (p : PageInfo) (x : Env).
Hypothesis Hwf : mem_wf s.
Hypothesis Hf : free_ok s (n :: l).
Hypothesis Hk : template_ok s (n :: l) k.
Hypothesis Hp : pages s !! n = Some p.
Hypothesis He : envs s !! e = Some x.

Definition uvpt_pde : Z := Z.lor (Z.lor (n * PGSIZE) PTE_P) PTE_U.

Definition after_setup : kstate :=
  let s1 := after_alloc true n l s in
  let s2 := set_pages (<[n := {| pp_link := pp_link p; pp_ref := u16 (pp_ref p + 1) |}]> (pages s1)) s1 in
  let s3 := set_kmem (memcpy (kmem s2) (page_kva n) (page_kva k) PGSIZE) s2 in
  let s4 := set_envs (<[e := set_env_pgdir (page_kva n) x]> (envs s3)) s3 in
  set_kmem (st32 (kmem s4) (page_kva n + 4 * PDX UVPT) uvpt_pde) s4.

Lemma setup_range : 0 <= n < npages s.
Proof. apply (free_ok_range s (n :: l)); [done..|by left]. Qed.

Lemma setup_ne : n <> k.
Proof. intros <-. apply (pd_alloc _ _ _ (tm_pd _ _ _ Hk)). by left. Qed.

(** The copied page is not both last and below the copy. *)
Lemma setup_nowrap : page_kva k + PGSIZE < 2 ^ 32 \/ page_kva n <= page_kva k.
Proof.
  pose proof setup_range. pose proof (wf_npages _ Hwf).
  assert (0 <= k < npages s) by apply (tm_pd _ _ _ Hk).
  unfold page_kva, PGSIZE, KERNBASE. lia.
Qed.

Lemma uvpt_pde_eq : uvpt_pde = n * PGSIZE + 5.
Proof.
  unfold uvpt_pde. rewrite <- Z.lor_assoc. change (Z.lor PTE_P PTE_U) with 5.
  apply (lor_flags n 5 12); [lia|done].
Qed.

Lemma env_setup_vm_eq : env_setup_vm e s = Ret 0 after_setup.
Proof.
  pose proof setup_range as Hr. pose proof (after_alloc_wf true n l s Hwf) as Hwf1.
  pose proof (page_kva_kern n ltac:(lia)) as Hkn.
  pose proof (page_kva_kern k ltac:(apply (tm_pd _ _ _ Hk))) as Hkk.
  unfold env_setup_vm. mstep (page_alloc_cons ALLOC_ZERO s n l Hwf Hf).
  change (has ALLOC_ZERO ALLOC_ZERO) with true.
  mstep (get_page_eq n p (after_alloc true n l s) Hp). unfold put_page. mrun.
  set (s2 := set_pages _ _).
  assert (mem_wf s2) as Hwf2 by by apply mem_wf_put_page.
  mstep (page2kva_eq n s2 Hwf2 Hr). mrun.
  change (kern_pgdir s2) with (kern_pgdir s). rewrite (tm_va _ _ _ Hk).
  mstep (kptr_ok (page_kva k) s2 Hkk). mrun.
  set (s3 := set_kmem _ s2).
  assert (envs s3 !! e = Some x) as He3 by done.
  mstep (upd_env_eq e (set_env_pgdir (page_kva n)) x s3 He3).
  set (s4 := set_envs _ s3).
  assert (mem_wf s4) as Hwf4.
  { apply (mem_wf_ext s3); [done..|]. apply mem_wf_kmem; [done|].
    apply memmove_bytes; [apply Hwf2|done|by etrans; [|exact Hkk]|by etrans; [|exact Hkn]|exact setup_nowrap]. }
  mstep (PADDR_page n s4 Hwf4 Hr). pose proof (PDX_range UVPT).
  by mstep (write32_eq (page_kva n + 4 * PDX UVPT) uvpt_pde s4 ltac:(lia)).
Qed.

Lemma after_setup_word i :
  0 <= i < NPDENTRIES ->
  ld32 (kmem after_setup) (pde_addr n i) =
    if decide (i = PDX UVPT) then uvpt_pde else ld32 (kmem s) (pde_addr k i).
Proof.
  intros Hi. pose proof setup_range. pose proof setup_ne. pose proof (wf_npages _ Hwf).
  assert (0 <= k < npages s) as Hkr by apply (tm_pd _ _ _ Hk).
  unfold after_setup. cbn [kmem set_kmem set_envs set_pages set_page_free_list after_alloc].
  case_decide as Hd.
  - subst i. unfold pde_addr. rewrite ld32_st32_eq, uvpt_pde_eq. apply u32_id. unfold PGSIZE in *. lia.
  - pose proof (PDX_range UVPT). unfold pde_addr. rewrite ld32_st32_ne by lia.
    unfold page_kva, PGSIZE, KERNBASE, NPDENTRIES in *.
    unfold memcpy. rewrite (ld32_ext _ (copy (memset (kmem s) (0xF0000000 + n * 4096) 0 4096)
       (0xF0000000 + n * 4096) (0xF0000000 + k * 4096) 4096)).
    2: { intros y Hy. apply memmove_copy; [|lia..]. apply memset_bytes; [apply Hwf|lia]. }
    rewrite ld32_copy_in by lia.
    rewrite (ld32_ext _ (kmem s)); [f_equal; lia|]. intros y Hy.
    rewrite memset_fill by lia. unfold fill. case_bool; try done; lia.
Qed.
End SetupVm.

(** Clearing the slot bits of a signed id. *)
Lemma land_slot y : Z.land y (Z.lnot (NENV - 1)) = y - y mod NENV.
Proof.
  assert (y mod NENV = Z.land y (NENV - 1)) as -> by (symmetry; exact (land_low y 10 ltac:(lia))).
  assert (Z.lor (Z.land y (NENV - 1)) (Z.land y (Z.lnot (NENV - 1))) = y) as Hy.
  { rewrite <- Z.land_lor_distr_r, Z.lor_lnot_diag. apply Z.land_m1_r. }
  rewrite <- Z.lxor_lor, <- Z.add_nocarry_lxor in Hy; [lia|..];
    rewrite (Z.land_comm y (NENV - 1)), <- Z.land_assoc, (Z.land_assoc y y), Z.land_diag,
      (Z.land_comm y), Z.land_assoc, Z.land_lnot_diag; done.
Qed.

Lemma new_generation_spec id :
  0 <= id < 2 ^ 31 ->
  0 < new_generation id < 2 ^ 31 /\ new_generation id mod NENV = 0 /\
  forall e, 0 <= e < NENV -> new_generation id + e <> id.
Proof.
  intros Hid. unfold new_generation. change (Z.shiftl 1 ENVGENSHIFT) with 4096.
  rewrite land_slot. unfold NENV. set (y := s32 (id + 4096)).
  assert (s32 (y - y mod 1024) = y - y mod 1024) as ->.
  { assert (- 2 ^ 31 <= y < 2 ^ 31) by (unfold y; word_lia). unfold s32. rewrite Z.mod_small; word_lia. }
  destruct (decide (id + 4096 < 2 ^ 31)).
  - assert (y = id + 4096) as -> by (unfold y, s32; rewrite Z.mod_small; lia).
    destruct (Z.leb_spec (id + 4096 - (id + 4096) mod 1024) 0); [word_lia|].
    split; [word_lia|]. split; [word_lia|]. intros. word_lia.
  - assert (y = id + 4096 - 2 ^ 32) as -> by (unfold y, s32; word_lia).
    destruct (Z.leb_spec (id + 4096 - 2 ^ 32 - (id + 4096 - 2 ^ 32) mod 1024) 0); [|word_lia].
    split; [lia|]. split; [done|]. intros. lia.
Qed.

Lemma slot_id g e : g mod NENV = 0 -> 0 <= e < NENV -> Z.lor g e = g + e.
Proof.
  intros Hg He. replace g with (g / NENV * 2 ^ 10) at 1 by (unfold NENV in *; word_lia).
  rewrite lor_flags by (done || lia). unfold NENV in *. word_lia.
Qed.

Lemma trans_kmem s s' d va : kmem s' = kmem s -> trans s' d va = trans s d va.
Proof. intros H. unfold trans, tbl. by rewrite H. Qed.
Lemma tbl_kmem s s' d i : kmem s' = kmem s -> tbl s' d i = tbl s d i.
Proof. intros H. unfold tbl. by rewrite H. Qed.

(** What env_setup_vm establishes about the new directory [n]. *)
Record new_space (s s' : kstate) (n : Z) (l : list Z) (k : Z) : Prop := {
  ns_wf : mem_wf s';
  ns_free : free_ok s' l;
  ns_pd : pgdir_ok s' l n;
  ns_self : self_mapped s' n;
  ns_uvpt : Z.land (ld32 (kmem s') (pde_addr n (PDX UVPT))) (Z.lor PTE_P PTE_U) = Z.lor PTE_P PTE_U;
  ns_tbl : forall i, 0 <= i < NPDENTRIES -> i <> PDX UVPT -> tbl s' n i = tbl s k i;
  ns_trans : forall va, PDX va <> PDX UVPT -> trans s' n va = trans s k va;
  ns_refs : forall j, refs s' j = refs s j + (if decide (j = n) then 1 else 0);
  ns_mem : forall i, i <> n -> same_page s s' i;
  ns_cr3 : cr3 s' = cr3 s }.

Section NewSpace.
Context (s : kstate) (n : Z) (l : list Z) (k e : Z) (p : PageInfo) (x : Env).
Hypothesis Hwf : mem_wf s.
Hypothesis Hf : free_ok s (n :: l).
Hypothesis Hk : template_ok s (n :: l) k.
Hypothesis Hp : pages s !! n = Some p.

Let s' := after_setup s n l k e p x.

Lemma new_space_tbl i : 0 <= i < NPDENTRIES ->
  tbl s' n i = if decide (i = PDX UVPT) then Some n else tbl s k i.
Proof.
  intros Hi. unfold tbl. unfold s'. rewrite after_setup_word by done. case_decide; [|done].
  pose proof (setup_range s n l Hwf Hf). pose proof (wf_npages _ Hwf).
  rewrite uvpt_pde_eq, entry_make by (done || lia). done.
Qed.

Lemma new_space_mem i : i <> n -> same_page s s' i.
Proof.
  intros Hi y Hy. unfold s', after_setup. cbn [kmem set_kmem set_envs set_pages set_page_free_list after_alloc].
  pose proof (PDX_range UVPT). pose proof (setup_range s n l Hwf Hf).
  pose proof (setup_nowrap s n l k Hwf Hf Hk).
  assert (0 <= k) by apply (tm_pd _ _ _ Hk). pose proof (wf_npages _ Hwf).
  unfold page_kva, PGSIZE, KERNBASE in *. unfold memcpy.
  rewrite st32_out by lia. rewrite memmove_copy; [|apply memset_bytes; [apply Hwf|lia]|lia..].
  unfold copy. case_bool; try lia;
    rewrite memset_fill by lia; unfold fill; case_bool; try done; lia.
Qed.

Lemma setup_new_space : new_space s s' n l k.
Proof.
  pose proof (setup_range s n l Hwf Hf) as Hr. pose proof (setup_ne s n l k Hk) as Hne.
  pose proof (after_alloc_wf true n l s Hwf) as Hwf1.
  pose proof (free_ok_NoDup _ _ Hf) as [Hnl _]%NoDup_cons.
  pose proof (mem_wf_put_page _ n {| pp_link := pp_link p; pp_ref := u16 (pp_ref p + 1) |} Hwf1 Hr) as Hwf2.
  pose proof (tm_pd _ _ _ Hk) as [P1 P2 P3 P4].
  split.
  - destruct Hwf2 as [W1 W2 W3]. split; [done..|]. unfold s', after_setup. simpl.
    apply st32_bytes, memmove_bytes; [apply W3|done| | |exact (setup_nowrap s n l k Hwf Hf Hk)];
      unfold page_kva, PGSIZE, KERNBASE; lia.
  - by refine (free_ok_ext _ _ _ _ _ (free_ok_put n _ l _ Hnl (after_alloc_free true n l s Hf))).
  - split; [done|done| |].
    + intros i t Hi Hu. rewrite new_space_tbl, decide_False by done. intros Ht.
      by destruct (P3 i t) as (? & [? ?]%not_elem_of_cons & ?).
    + intros i j t Hi Hj Hiu Hju. rewrite !new_space_tbl, !decide_False by done. eauto.
  - unfold self_mapped. rewrite new_space_tbl by apply PDX_in. by rewrite decide_True.
  - unfold s'. rewrite (after_setup_word s n l k e p x Hwf Hf Hk) by apply PDX_in. rewrite decide_True by done.
    unfold uvpt_pde. by rewrite <- Z.lor_assoc, land_lor_r.
  - intros i Hi Hiu. rewrite new_space_tbl by done. by rewrite decide_False.
  - intros va Hu. unfold trans. rewrite new_space_tbl, decide_False by (done || apply PDX_in).
    destruct (tbl s k (PDX va)) as [t|] eqn:Ht; [|done].
    destruct (P3 _ t (PDX_in va) Hu Ht) as (_ & [Htn _]%not_elem_of_cons & _).
    pose proof (ptx_in_page va). f_equal. apply ld32_ext. intros y Hy. symmetry.
    apply (new_space_mem t Htn). unfold pte_addr in Hy. lia.
  - intros j. unfold refs, s', after_setup. simpl. case_decide; subst.
    + rewrite lookup_insert_eq, Hp. simpl.
      destruct (fo_unref _ _ Hf n ltac:(by left)) as (p' & Hp' & Hr0). simplify_eq. by rewrite Hr0.
    + rewrite lookup_insert_ne by done. lia.
  - apply new_space_mem.
  - done.
Qed.
End NewSpace.

Record new_env (x x' : Env) (e parent pd : Z) : Prop := {
  ne_id : 0 < env_id x' < 2 ^ 31;
  ne_slot : ENVX (env_id x') = e;
  ne_fresh : env_id x' <> env_id x;
  ne_parent : env_parent_id x' = parent;
  ne_status : env_status x' = ENV_RUNNABLE;
  ne_runs : env_runs x' = 0;
  ne_tf : env_tf x' = initial_tf;
  ne_pgdir : env_pgdir x' = pd;
  ne_upcall : env_pgfault_upcall x' = 0;
  ne_recv : env_ipc_recving x' = false }.

(** What creating an environment leaves alone outside it. *)
Definition same_machine (s s' : kstate) : Prop :=
  cpus s' = cpus s /\ cpunum s' = cpunum s /\ kern_pgdir s' = kern_pgdir s /\ npages s' = npages s.

(** The id of the current environment, 0 when there is none. *)
Lemma current_id s c :
  cpus s !! cpunum s = Some c -> (forall i, cpu_env c = Some i -> is_Some (envs s !! i)) ->
  exists v, (match cpu_env c with
             | Some i => let! ce := get_env i in kret (env_id ce)
             | None => kret 0
             end) s = Ret v s.
Proof.
  intros _ He. destruct (cpu_env c) as [i|]; [|by eexists].
  destruct (He i eq_refl) as [ce Hce]. eexists. by mstep (get_env_eq _ _ _ Hce).
Qed.

Definition new_space_ext s s1 s2 n l k :
  kmem s2 = kmem s1 -> pages s2 = pages s1 -> npages s2 = npages s1 -> page_free_list s2 = page_free_list s1 -> cr3 s2 = cr3 s1 ->
  new_space s s1 n l k -> new_space s s2 n l k.
Proof.
  intros Hm Hp Hn Hl Hc [N1 N2 N3 N4 Nu Nt N5 N6 N7 N8]. split.
  - by apply (mem_wf_ext s1).
  - by apply (free_ok_ext s1).
  - apply (pgdir_ok_ext s1 s2 l l n N3 Hn); [|done]. intros y _. by rewrite Hm.
  - unfold self_mapped. by rewrite (tbl_kmem s1 s2).
  - by rewrite Hm.
  - intros. rewrite (tbl_kmem s1 s2) by done. auto.
  - intros. rewrite (trans_kmem s1 s2) by done. auto.
  - intros. unfold refs. rewrite Hp. apply N6.
  - intros i Hi y Hy. rewrite Hm. by apply (N7 i).
  - congruence.
Qed.

Lemma env_alloc_spec (s : kstate) (parent : Z) (le l : list Z) (k : Z) :
  mem_wf s -> envs_wf s -> cpu_ok s -> free_ok s l -> env_free_chain s le -> template_ok s l k ->
  (forall i e, envs s !! i = Some e -> 0 <= env_id e < 2 ^ 31) ->
  match le, l with
  | [], _ => env_alloc parent s = Ret (- E_NO_FREE_ENV, None) s
  | _ :: _, [] => env_alloc parent s = Ret (- E_NO_MEM, None) s
  | e :: le', n :: l' =>
      exists s' x x', env_alloc parent s = Ret (0, Some e) s' /\ envs s !! e = Some x /\
        envs s' = <[e := x']> (envs s) /\ new_env x x' e parent (page_kva n) /\
        env_free_chain s' le' /\ new_space s s' n l' k /\
        same_machine s s'
  end.
Proof.
  intros Hwf Hewf Hcpu Hf Hc Hk Hid. unfold env_free_chain in Hc. destruct le as [|e le'].
  { unfold env_alloc. mrun. simpl in Hc. by rewrite Hc. }
  pose proof (chain_NoDup _ _ _ _ Hc) as [Hnl _]%NoDup_cons. destruct Hc as (Hh & x & Hx & Hc).
  destruct l as [|n l'].
  { unfold env_alloc. mrun. rewrite Hh. unfold env_setup_vm. rewrite bind_assoc.
    mstep (page_alloc_nil ALLOC_ZERO s Hf). by mrun. }
  pose proof (setup_range s n l' Hwf Hf) as Hr. destruct (mem_wf_lookup _ _ Hwf Hr) as [p Hp].
  pose proof (env_setup_vm_eq s n l' k e p x Hwf Hf Hk Hp Hx) as Hsetup.
  pose proof (setup_new_space s n l' k e p x Hwf Hf Hk Hp) as Hns.
  set (s1 := after_setup s n l' k e p x) in *.
  set (x1 := set_env_pgdir (page_kva n) x).
  assert (envs s1 = <[e := x1]> (envs s)) as He1 by done.
  assert (envs s1 !! e = Some x1) as Hx1 by (rewrite He1; apply lookup_insert_eq).
  set (f := fun x => set_env_ipc_recving false (set_env_pgfault_upcall 0 (set_env_tf initial_tf
          (set_env_runs 0 (set_env_status ENV_RUNNABLE (set_env_type ENV_TYPE_USER
          (set_env_parent_id parent
          (set_env_id (Z.lor (new_generation (env_id x)) e) x)))))))).
  set (s2 := set_envs (<[e := f x1]> (envs s1)) s1).
  assert (envs s2 !! e = Some (f x1)) as Hx2 by (unfold s2; simpl; apply lookup_insert_eq).
  set (s3 := set_env_free_list (env_link (f x1)) s2).
  assert (0 <= e < NENV) as Her by (apply Hewf; eauto).
  destruct Hcpu as (c & Hcc & Hce).
  assert (forall i, cpu_env c = Some i -> is_Some (envs s3 !! i)) as Hce3.
  { intros i Hi. unfold s3, s2. cbn [envs set_env_free_list set_envs]. rewrite He1.
    destruct (decide (e = i)) as [->|]; [by rewrite lookup_insert_eq|].
    rewrite !lookup_insert_ne by done. auto. }
  assert (cpus s3 !! cpunum s3 = Some c) as Hcc3 by done.
  destruct (current_id s3 c Hcc3 Hce3) as [v Hv].
  exists (set_klog (("[%08x] new env %08x"%string, [v; env_id (f x1)]) :: klog s3) s3), x, (f x1).
  split.
  { unfold env_alloc. mrun. rewrite Hh. mstep Hsetup. change (0 <? 0) with false. cbn match.
    mstep (upd_env_eq e f x1 s1 Hx1). fold s2. mstep (get_env_eq e (f x1) s2 Hx2). mrun. fold s3.
    mstep (curenv_eq _ _ Hcc3). by mstep Hv. }
  split; [done|]. split.
  { cbn [envs set_klog]. unfold s3, s2. cbn [envs set_env_free_list set_envs]. rewrite He1.
    apply insert_insert_eq. }
  destruct (new_generation_spec (env_id x) (Hid e x Hx)) as (G1 & G2 & G3). split.
  { split; try done; simpl; rewrite slot_id by done.
    - unfold NENV in *. word_lia.
    - rewrite ENVX_eq. unfold NENV in *. word_lia.
    - auto. }
  split.
  - unfold env_free_chain. cbn [envs env_free_list set_klog]. unfold s3, s2.
    cbn [envs env_free_list set_env_free_list set_envs]. rewrite He1.
    rewrite insert_insert_eq. apply chain_frame; [done|]. exact Hc.
  - split; [by apply (new_space_ext s s1)|done].
Qed.

(** C18. [env_alloc] takes the first free environment, and the first free page
    for its directory.  The environment gets a fresh positive id that names its
    slot and differs from the slot's last one, starts runnable in user mode with
    interrupts on, an empty register file and no page-fault handler; its address
    space is the kernel's, except that UVPT maps its own directory.  Without a
    free environment it returns -E_NO_FREE_ENV, without a free page -E_NO_MEM,
    and in both cases the state is as before. *)
Theorem env_alloc_correct (s : kstate) (parent : Z) (le l : list Z) (k : Z) :
  mem_wf s -> envs_wf s -> cpu_ok s -> free_ok s l -> env_free_chain s le -> template_ok s l k ->
  (forall i e, envs s !! i = Some e -> 0 <= env_id e < 2 ^ 31) ->
  match le, l with
  | [], _ => env_alloc parent s = Ret (- E_NO_FREE_ENV, None) s
  | _ :: _, [] => env_alloc parent s = Ret (- E_NO_MEM, None) s
  | e :: le', n :: l' =>
      exists s' x x', env_alloc parent s = Ret (0, Some e) s' /\ envs s !! e = Some x /\
        envs s' = <[e := x']> (envs s) /\ new_env x x' e parent (page_kva n) /\
        env_free_chain s' le' /\ new_space s s' n l' k /\
        same_machine s s'
  end.
Proof. apply env_alloc_spec. Qed.

(** ** env_run *)

Lemma env_run_spec (s : kstate) (e d : Z) (x : Env) (c : CpuInfo) :
  mem_wf s -> cpu_ok s -> cpus s !! cpunum s = Some c ->
  envs s !! e = Some x -> env_pgdir x = page_kva d -> 0 <= d < npages s ->
  exists s' x', env_run e s = Leave (ToUser e) s' /\
    cpu_env <$> cpus s' !! cpunum s' = Some (Some e) /\ cr3 s' = d * PGSIZE /\
    envs s' !! e = Some x' /\ env_status x' = ENV_RUNNING /\ env_runs x' = u32 (env_runs x + 1) /\
    env_cpunum x' = cpunum s /\ env_tf x' = env_tf x /\ env_id x' = env_id x /\
    (forall i y, i <> e -> envs s !! i = Some y ->
       exists y', envs s' !! i = Some y' /\
         if decide (cpu_env c = Some i /\ env_status y = ENV_RUNNING)
         then y' = set_env_status ENV_RUNNABLE y else y' = y) /\
    kmem s' = kmem s /\ pages s' = pages s.
Proof.
  intros Hwf (c' & Hc' & Hce) Hc Hx Hd Hr. assert (c' = c) as -> by congruence.
  (* step 1: the environment that was running *)
  assert (exists t x1, (match cpu_env c with
     | Some c => let! x := get_env c in
         if bool_decide (env_status x = ENV_RUNNING) then upd_env c (set_env_status ENV_RUNNABLE) else kret tt
     | None => kret tt end) s = Ret tt (set_envs t s) /\
     t !! e = Some x1 /\ env_runs x1 = env_runs x /\ env_tf x1 = env_tf x /\ env_id x1 = env_id x /\
     env_pgdir x1 = env_pgdir x /\
     forall i y, i <> e -> envs s !! i = Some y -> exists y', t !! i = Some y' /\
         if decide (cpu_env c = Some i /\ env_status y = ENV_RUNNING)
         then y' = set_env_status ENV_RUNNABLE y else y' = y)
    as (t & x1 & Hstep & Ht & Hruns & Htf & Hid & Hpg & Hother).
  { destruct (cpu_env c) as [cu|]; [|exists (envs s), x; split_and!; try done; [by destruct s|];
      intros i y Hi Hy; exists y; rewrite decide_False by (by intros []); done].
    destruct (Hce cu eq_refl) as [z Hz]. 
    destruct (decide (env_status z = ENV_RUNNING)) as [Hrun|Hrun].
    - exists (<[cu := set_env_status ENV_RUNNABLE z]> (envs s)),
        (if decide (cu = e) then set_env_status ENV_RUNNABLE x else x).
      split; [mstep (get_env_eq _ _ _ Hz); rewrite bool_decide_true by done; by apply upd_env_eq|].
      destruct (decide (cu = e)) as [->|Hne].
      + simplify_eq. rewrite lookup_insert_eq. split_and!; try done. intros i y Hi Hy. exists y.
        rewrite lookup_insert_ne, decide_False by naive_solver. done.
      + rewrite lookup_insert_ne by done. split_and!; try done. intros i y Hi Hy.
        destruct (decide (cu = i)) as [->|]; simplify_eq.
        * eexists. by rewrite lookup_insert_eq, decide_True.
        * exists y. rewrite lookup_insert_ne, decide_False by naive_solver. done.
    - exists (envs s), x. split; [mstep (get_env_eq _ _ _ Hz); rewrite bool_decide_false by done; by destruct s|].
      split_and!; try done. intros i y Hi Hy. exists y. split; [done|].
      rewrite decide_False; [done|]. intros [[= <-] ?]. by simplify_eq. }
  unfold env_run. mstep (curenv_eq _ _ Hc). mstep Hstep.
  mstep (set_curenv_eq c (Some e) (set_envs t s) Hc). set (s2 := set_cpus _ _).
  mstep (upd_env_eq e (set_env_status ENV_RUNNING) x1 s2 Ht). set (s3 := set_envs _ s2).
  set (x2 := set_env_status ENV_RUNNING x1).
  assert (envs s3 !! e = Some x2) as Hx2 by apply lookup_insert_eq.
  mstep (upd_env_eq e (fun x => set_env_runs (u32 (env_runs x + 1)) x) x2 s3 Hx2). set (s4 := set_envs _ s3).
  set (x3 := set_env_runs (u32 (env_runs x2 + 1)) x2).
  assert (envs s4 !! e = Some x3) as Hx3 by apply lookup_insert_eq. mstep (get_env_eq _ _ _ Hx3).
  assert (env_pgdir x3 = page_kva d) as -> by (unfold x3, x2; simpl; congruence).
  assert (mem_wf s4) as Hwf4 by by apply (mem_wf_ext s). mstep (PADDR_page d s4 Hwf4 Hr).
  unfold lcr3. mrun. set (s5 := set_cr3 _ s4).
  unfold env_pop_tf.
  assert (cpus s5 !! cpunum s5 = Some (set_cpu_env (Some e) c))
    as Hc5 by apply lookup_insert_eq.
  mstep (curenv_eq _ _ Hc5). simpl. mrun.
  mstep (upd_env_eq e (set_env_cpunum (cpunum s5)) x3 s5 Hx3).
  eexists _, (set_env_cpunum (cpunum s5) x3). split; [done|]. cbn [cpus set_envs set_cr3 cpunum envs cr3].
  split; [by rewrite (Hc5 : cpus s5 !! _ = _)|]. split; [done|]. split; [apply lookup_insert_eq|].
  split_and!; try done; [unfold x3, x2; simpl; by rewrite Hruns|].
  intros i y Hi Hy. destruct (Hother i y Hi Hy) as (y' & Hy' & Hif). exists y'.
  split; [|done]. unfold s5, s4, s3, s2. cbn [envs set_envs set_cpus set_cr3].
  by rewrite !lookup_insert_ne.
Qed.

(** [env_run(e)] leaves the kernel into environment [e]: it is the current
    environment, marked running, with one more run counted and its directory in
    cr3; the environment that was current becomes runnable if it was running
    (and is another one), and no other environment changes. *)
Theorem env_run_correct (s : kstate) (e d : Z) (x : Env) (c : CpuInfo) :
  mem_wf s -> cpu_ok s -> cpus s !! cpunum s = Some c ->
  envs s !! e = Some x -> env_pgdir x = page_kva d -> 0 <= d < npages s ->
  exists s' x', env_run e s = Leave (ToUser e) s' /\
    cpu_env <$> cpus s' !! cpunum s' = Some (Some e) /\ cr3 s' = d * PGSIZE /\
    envs s' !! e = Some x' /\ env_status x' = ENV_RUNNING /\ env_runs x' = u32 (env_runs x + 1) /\
    env_cpunum x' = cpunum s /\ env_tf x' = env_tf x /\ env_id x' = env_id x /\
    (forall i y, i <> e -> envs s !! i = Some y ->
       exists y', envs s' !! i = Some y' /\
         if decide (cpu_env c = Some i /\ env_status y = ENV_RUNNING)
         then y' = set_env_status ENV_RUNNABLE y else y' = y) /\
    kmem s' = kmem s /\ pages s' = pages s.
Proof. apply env_run_spec. Qed.

(** ** region_alloc *)

(** The pages of [va, va + n pages) are mapped to pages taken from [l], user
    and writable; every other translation is as before. *)
Record region_post (s s' : kstate) (l l' : list Z) (d va n : Z) : Prop := {
  rp_wf : mem_wf s';
  rp_free : free_ok s' l';
  rp_pd : pgdir_ok s' l' d;
  rp_in : forall a, is_u32 a -> PDX a <> PDX UVPT -> va <= a < va + n * PGSIZE ->
            exists p, p ∈ l /\ trans s' d a = Some (p, Z.lor (Z.lor PTE_U PTE_W) PTE_P);
  rp_out : forall a, is_u32 a -> PDX a <> PDX UVPT -> ~ (va <= a < va + n * PGSIZE) ->
             trans s' d a = trans s d a;
  rp_sub : forall p, p ∈ l' -> p ∈ l;
  rp_mm : mm_frame s s' }.

Definition no_memory : crash := Panic "region_alloc failed".

Lemma region_alloc_loop_eq n s l d va :
  mem_wf s -> free_ok s l -> pgdir_ok s l d -> cpu_ok s ->
  0 <= va -> va mod PGSIZE = 0 -> va + Z.of_nat n * PGSIZE <= 2 ^ 32 ->
  (forall a, va <= a < va + Z.of_nat n * PGSIZE -> PDX a <> PDX UVPT /\ trans s d a = None) ->
  ((length l < 2 * n)%nat /\ exists s', region_alloc_loop n (page_kva d) va s = Crash no_memory s') \/
  (exists s' l', region_alloc_loop n (page_kva d) va s = Ret tt s' /\
     region_post s s' l l' d va (Z.of_nat n)).
Proof.
  revert s l va. induction n as [|n IH]; intros s l va Hwf Hf Hpd Hcpu Hva Hva0 Hend Hnone.
  { right. exists s, l. split; [done|]. split; try done. intros a Ha Hu Hin. lia. }
  cbn [region_alloc_loop]. destruct l as [|pp l].
  { left. split; [simpl; lia|]. exists s. by mstep (page_alloc_nil 0 s Hf). }
  mstep (page_alloc_cons 0 s pp l Hwf Hf). change (has 0 ALLOC_ZERO) with false.
  set (s1 := after_alloc false pp l s).
  pose proof (free_ok_NoDup _ _ Hf) as [Hnl _]%NoDup_cons.
  pose proof (free_ok_range s _ pp Hwf Hf ltac:(left)) as Hr.
  assert (mem_wf s1) as Hwf1 by by apply after_alloc_wf.
  assert (free_ok s1 l) as Hf1 by by apply after_alloc_free.
  assert (pgdir_ok s1 l d) as Hpd1 by (apply (pgdir_ok_ext s s1 (pp :: l) l d Hpd); [done|done|by right]).
  assert (cpu_ok s1) as Hcpu1 by done.
  assert (is_u32 va) as Hua by (unfold is_u32, PGSIZE in *; lia).
  destruct (Hnone va) as [Hu Htr]; [unfold PGSIZE; lia|].
  assert (insertable s1 l d pp va (Z.lor (Z.lor PTE_U PTE_W) PTE_P)) as Hin.
  { split; try done.
    - change (refs s1 pp) with (refs s pp). by rewrite (refs_free s (pp :: l)) by (done || by left).
    - intros o f H. change (trans s1 d va) with (trans s d va) in H. congruence. }
  pose proof (page_insert_spec s1 l d pp va _ Hwf1 Hf1 Hpd1 Hcpu1 Hua Hu Hin) as Hins.
  change (trans s1 d va) with (trans s d va) in Hins. rewrite Htr in Hins.
  set (ins := page_insert (page_kva d) pp va (Z.lor (Z.lor PTE_U PTE_W) PTE_P) s1) in *.
  assert ((l = [] /\ ins = Ret (- E_NO_MEM) s1) \/
     exists s2 l2 dr, ins = Ret 0 s2 /\ (forall p, p ∈ l2 -> p ∈ l) /\ (length l <= S (length l2))%nat /\
     pt_step s1 s2 l2 d va (Some (pp, Z.lor PTE_P (Z.lor (Z.lor PTE_U PTE_W) PTE_P))) dr)
    as [[-> Hi]|(s2 & l2 & dr & Hi & Hsub & Hlen & S)].
  { destruct (tbl s1 d (PDX va)).
    - destruct Hins as (s2 & H1 & H2). right.
      exists s2, l, (insert_refs pp None None). split_and!; try done. lia.
    - destruct l as [|m l2]; [by left|]. destruct Hins as (s2 & H1 & H2 & _). right.
      exists s2, l2, (insert_refs pp None (Some m)). split_and!; try done. intros p Hp. by right. }
  { left. split; [simpl; lia|]. exists s1. unfold ins in Hi. by mstep Hi. }
  unfold ins in Hi. mstep Hi. simpl. 
  assert (forall a, is_u32 a -> PDX a <> PDX UVPT -> PGNUM a <> PGNUM va -> trans s2 d a = trans s d a) as Helse
    by exact (ps_else S).
  destruct n as [|n'].
  { right. exists s2, l2. split; [done|]. split; [exact (ps_wf S)|exact (ps_free S)|exact (ps_pd S)| | | |].
    - intros a Ha Hua' Hina. exists pp. split; [by left|]. apply (ps_here S a Ha).
      rewrite !PGNUM_eq by done. unfold PGSIZE in *. word_lia.
    - intros a Ha Hua' Hout. apply Helse; [done..|]. rewrite !PGNUM_eq by done.
      unfold PGSIZE in *. word_lia.
    - intros p Hp. right. by apply Hsub.
    - by etrans; [|exact (ps_mm S)]. }
  rewrite u32_id by (unfold PGSIZE in *; lia).
  destruct (IH s2 l2 (va + PGSIZE)) as [[Hshort [s' Hs']]|(s' & l' & Hs' & R)];
    [exact (ps_wf S)|exact (ps_free S)|exact (ps_pd S)|by apply (cpu_ok_mm s1), Hcpu1; apply S
    |unfold PGSIZE; lia|unfold PGSIZE in *; word_lia|unfold PGSIZE in *; lia| | |].
  { intros a Ha. destruct (Hnone a) as [H1 H2]; [unfold PGSIZE in *; lia|]. split; [done|].
    assert (is_u32 a) by (unfold is_u32, PGSIZE in *; lia).
    rewrite Helse; [done..|]. rewrite !PGNUM_eq by done. unfold PGSIZE in *. word_lia. }
  { left. split; [simpl; lia|]. by exists s'. }
  right. exists s', l'. split; [done|]. destruct R as [R1 R2 R3 R4 R5 R6 R7]. split; try done.
  - intros a Ha Hua' Hina. destruct (decide (va + PGSIZE <= a)).
    + destruct (R4 a) as (p & Hp & Ht); [done..|unfold PGSIZE in *; lia|]. exists p. split; [|done].
      right. by apply Hsub.
    + exists pp. split; [by left|]. rewrite R5 by (done || unfold PGSIZE in *; lia).
      apply (ps_here S a Ha). rewrite !PGNUM_eq by done. unfold PGSIZE in *. word_lia.
  - intros a Ha Hua' Hout. rewrite R5 by (done || unfold PGSIZE in *; lia).
    apply Helse; [done..|]. rewrite !PGNUM_eq by done. unfold PGSIZE in *. word_lia.
  - intros p Hp. right. by apply Hsub, R6.
  - etrans; [|exact R7]. by etrans; [|exact (ps_mm S)].
Qed.

Section RegionAlloc.
Context (s : kstate) (l : list Z) (e va len d : Z) (x : Env).
Hypothesis Hwf : mem_wf s.
Hypothesis Hf : free_ok s l.
Hypothesis Hpd : pgdir_ok s l d.
Hypothesis Hcpu : cpu_ok s.
Hypothesis He : envs s !! e = Some x.
Hypothesis Hd : env_pgdir x = page_kva d.
Hypothesis Hva : 0 <= va.
Hypothesis Hlen : 0 <= len.
Hypothesis Hend : va + len + 2 * PGSIZE <= 2 ^ 32.

(** Where the mapped region starts, and how many bytes it has. *)
Definition region_base : Z := va - va mod PGSIZE.
Definition region_size : Z := (len + (PGSIZE - 1)) / PGSIZE * PGSIZE.

Hypothesis Hnone : forall a, region_base <= a < region_base + region_size ->
  PDX a <> PDX UVPT /\ trans s d a = None.

Lemma region_alloc_eq :
  (Z.of_nat (length l) < 2 * (region_size / PGSIZE) /\
     exists s', region_alloc e va len s = Crash no_memory s') \/
  (exists s' l', region_alloc e va len s = Ret tt s' /\
     region_post s s' l l' d region_base (region_size / PGSIZE)).
Proof.
  assert (ROUNDDOWN va PGSIZE = region_base) as Hb.
  { apply ROUNDDOWN_eq; [|done]. unfold is_u32, PGSIZE in *. lia. }
  assert (ROUNDUP len PGSIZE = region_size) as Hs.
  { rewrite ROUNDUP_eq by (done || unfold PGSIZE in *; lia). unfold region_size, PGSIZE. word_lia. }
  assert (Z.of_nat (Z.to_nat (region_size / PGSIZE)) = region_size / PGSIZE) as Hn
    by (unfold region_size, PGSIZE in *; word_lia).
  assert (region_size / PGSIZE * PGSIZE = region_size) as Hn2 by (unfold region_size, PGSIZE; word_lia).
  unfold region_alloc. mstep (get_env_eq _ _ _ He). rewrite Hb, Hs, Hd.
  assert (0 <= region_base /\ region_base mod PGSIZE = 0 /\ region_base + region_size <= 2 ^ 32) as (B1 & B2 & B3)
    by (unfold region_base, region_size, PGSIZE in *; word_lia).
  rewrite <- Hn2, <- Hn in B3, Hnone.
  destruct (region_alloc_loop_eq _ s l d region_base Hwf Hf Hpd Hcpu B1 B2 B3 Hnone) as [H|(s' & l' & H & R)].
  - left. destruct H as [Hl H]. split; [lia|done].
  - right. exists s', l'. by rewrite Hn in R.
Qed.

(** [region_alloc] maps fresh pages, user-accessible and writable, on
    exactly the pages from [va] rounded down for [len] rounded up, and changes no
    other translation; it panics only when fewer than two free pages (a page and
    a page table) per mapped page are left. *)
Theorem region_alloc_correct :
  (Z.of_nat (length l) < 2 * (region_size / PGSIZE) /\
     exists s', region_alloc e va len s = Crash no_memory s') \/
  (exists s' l', region_alloc e va len s = Ret tt s' /\
     region_post s s' l l' d region_base (region_size / PGSIZE)).
Proof. exact region_alloc_eq. Qed.

(** Rounding [va] down and [len] up separately can lose the last page: when
    the bytes before [va] in its page push the region over the next page
    boundary, the last byte asked for is not mapped after a successful call. *)
Theorem region_alloc_misses_last_page :
  0 < len -> region_size < va mod PGSIZE + len -> PDX (va + len - 1) <> PDX UVPT ->
  2 * (region_size / PGSIZE) <= Z.of_nat (length l) ->
  exists s', region_alloc e va len s = Ret tt s' /\
     trans s' d (va + len - 1) = trans s d (va + len - 1).
Proof.
  intros Hl Hs Hu Hmem. destruct region_alloc_eq as [[H _]|(s' & l' & H & R)]; [lia|].
  exists s'. split; [done|]. apply (rp_out _ _ _ _ _ _ _ R); [|done|].
  - unfold is_u32, PGSIZE in *. lia.
  - assert (region_size / PGSIZE * PGSIZE = region_size) as -> by (unfold region_size, PGSIZE; word_lia).
    unfold region_base. lia.
Qed.
End RegionAlloc.

(** *** Witnesses *)

Lemma after_free_envs i s : envs (after_free i s) = envs s.
Proof. done. Qed.
Lemma after_free_kmem i s : kmem (after_free i s) = kmem s.
Proof. done. Qed.
Lemma after_free_npages i s : npages (after_free i s) = npages s.
Proof. done. Qed.
Lemma after_free_cpu i s : cpu_ok s -> cpu_ok (after_free i s).
Proof. done. Qed.

(** The CPU runs environment 0 (id 4096) in the directory of page 1, which is
    the kernel's too; environment 1 is free. *)
Definition env0_running : Env := set_env_id 4096 (set_env_status ENV_RUNNING (set_env_pgdir (page_kva 1) env0)).
Definition cpu_running : CpuInfo := set_cpu_env (Some 0) cpu0.
Definition booted (s : kstate) : kstate :=
  set_env_free_list (Some 1) (set_kern_pgdir (page_kva 1)
  (set_cpus (<[cpunum s := cpu_running]> (cpus s)) (set_envs (<[0 := env0_running]> (table env0 1024)) s))).

Lemma booted_npages s : npages (booted s) = npages s.
Proof. done. Qed.
Lemma booted_pages s : pages (booted s) = pages s.
Proof. done. Qed.
Lemma booted_kmem s : kmem (booted s) = kmem s.
Proof. done. Qed.
Lemma booted_free_list s : page_free_list (booted s) = page_free_list s.
Proof. done. Qed.
Lemma booted_kern_pgdir s : kern_pgdir (booted s) = page_kva 1.
Proof. done. Qed.
Lemma booted_env_free_list s : env_free_list (booted s) = Some 1.
Proof. done. Qed.
Lemma booted_cpu s : cpus (booted s) !! cpunum (booted s) = Some cpu_running.
Proof. apply lookup_insert_eq. Qed.

Lemma booted_envs s i : envs (booted s) !! i =
  if decide (i = 0) then Some env0_running else if decide (0 <= i < NENV) then Some env0 else None.
Proof.
  unfold booted. cbn [envs set_env_free_list set_kern_pgdir set_cpus set_envs].
  case_decide; subst; [by rewrite lookup_insert_eq|]. rewrite lookup_insert_ne by done.
  apply lookup_table.
Qed.

Lemma booted_cpu_ok s : cpu_ok (booted s).
Proof. exists cpu_running. split; [apply booted_cpu|]. intros i [= <-]. rewrite booted_envs. by eexists. Qed.

(** [mapped], booted, with page 5 free. *)
Definition running : kstate := booted (after_free 5 mapped).

Lemma running_kmem : kmem running = kmem mapped.
Proof. etrans; [apply booted_kmem|apply after_free_kmem]. Qed.

Lemma running_npages : npages running = 8.
Proof. etrans; [apply booted_npages|]. by rewrite after_free_npages. Qed.

Lemma running_envs i : envs running !! i =
  if decide (i = 0) then Some env0_running else if decide (0 <= i < NENV) then Some env0 else None.
Proof. apply booted_envs. Qed.

Lemma running_wf : mem_wf running.
Proof.
  apply (mem_wf_ext (after_free 5 mapped)); [apply booted_npages|apply booted_pages|apply booted_kmem|].
  by apply after_free_wf; [apply mapped_wf|].
Qed.

Lemma running_free : free_ok running [5].
Proof.
  apply (free_ok_ext (after_free 5 mapped)); [apply booted_pages|apply booted_free_list|].
  apply after_free_ok; [apply not_elem_of_nil|apply mapped_free].
Qed.

Lemma running_envs_wf : envs_wf running.
Proof.
  intros i. rewrite running_envs. unfold NENV. repeat case_decide; subst; split; try lia; eauto.
  by intros [].
Qed.

Lemma running_cpu : cpu_ok running.
Proof. apply booted_cpu_ok. Qed.

(** A directory with the bytes of [mapped]'s. *)
Lemma mapped_like s l :
  kmem s = kmem mapped -> npages s = 8 -> (forall i, i ∈ l -> 3 <= i) -> pgdir_ok s l 1.
Proof.
  intros Hm Hn Hl. assert (forall i, tbl s 1 i = tbl mapped 1 i) as Ht by (intros; by apply tbl_kmem).
  split; rewrite ?Hn; [lia|intros ?%Hl; lia| |].
  - intros i t Hi Hu. rewrite Ht, mapped_tbl by done. case_decide; intros; simplify_eq.
    split_and!; try lia. intros ?%Hl. lia.
  - intros i j t Hi Hj Hu Hv. rewrite !Ht, !mapped_tbl by done. repeat case_decide; intros; congruence.
Qed.

Lemma running_pgdir : pgdir_ok running [5] 1.
Proof.
  apply mapped_like; [apply running_kmem|apply running_npages|].
  intros i ->%list_elem_of_singleton. lia.
Qed.

Lemma running_template : template_ok running [5] 1.
Proof. split; [apply booted_kern_pgdir|apply running_pgdir]. Qed.

Lemma envid2env_correct_witness :
  envid2env 4097 true running = Ret (- E_BAD_ENV, None) running.
Proof.
  destruct (envid2env_correct running 4097 true cpu_running 0 env0_running running_envs_wf (booted_cpu _)
    eq_refl ltac:(by rewrite running_envs)) as (r & H1 & [[H2 _]|(_ & e & H3 & H4)]); [discriminate H2|].
  change (ENVX 4097) with 1 in H3, H4. rewrite running_envs in H3. simpl in H3.
  destruct H4 as [(_ & H4 & _)|[-> _]]; [|exact H1]. injection H3 as <-. by destruct H4.
Defined.

Lemma env_init_correct_witness :
  exists s', env_init running = Ret tt s' /\ env_free_chain s' (zrange 0 (Z.to_nat NENV)).
Proof.
  destruct (env_init_correct running running_envs_wf) as (s' & H1 & H2 & _). exists s'. split; [exact H1|exact H2].
Defined.

Lemma running_env_free : env_free_chain running [1].
Proof.
  split; [apply booted_env_free_list|]. exists env0. by rewrite running_envs.
Qed.

Lemma running_ids i e : envs running !! i = Some e -> 0 <= env_id e < 2 ^ 31.
Proof. rewrite running_envs. repeat case_decide; intros; simplify_eq; done. Qed.

Lemma env_alloc_correct_witness :
  exists s' x', env_alloc 4096 running = Ret (0, Some 1) s' /\ envs s' !! 1 = Some x' /\
    ENVX (env_id x') = 1 /\ env_parent_id x' = 4096 /\ self_mapped s' 5.
Proof.
  destruct (env_alloc_correct running 4096 [1] [5] 1 running_wf running_envs_wf running_cpu running_free
    running_env_free running_template running_ids) as (s' & x & x' & H1 & _ & H2 & H3 & _ & H4 & _).
  exists s', x'. split; [exact H1|]. split; [rewrite H2; apply lookup_insert_eq|].
  split; [apply H3|]. split; [apply H3|apply H4].
Defined.

Lemma env_run_correct_witness :
  exists s', env_run 0 running = Leave (ToUser 0) s' /\ cr3 s' = 1 * PGSIZE.
Proof.
  destruct (env_run_correct running 0 1 env0_running cpu_running running_wf running_cpu (booted_cpu _)
    ltac:(by rewrite running_envs) eq_refl ltac:(rewrite running_npages; lia))
    as (s' & x' & H1 & _ & H2 & _).
  exists s'. split; [exact H1|exact H2].
Defined.

(** [running] with page 4 free as well. *)
Definition roomy : kstate := after_free 4 running.

Lemma roomy_wf : mem_wf roomy.
Proof. apply after_free_wf; [apply running_wf|]. rewrite running_npages. lia. Qed.

Lemma roomy_free : free_ok roomy [4; 5].
Proof. apply after_free_ok; [|apply running_free]. by intros ?%list_elem_of_singleton. Qed.

Lemma roomy_kmem : kmem roomy = kmem mapped.
Proof. etrans; [apply after_free_kmem|apply running_kmem]. Qed.

Lemma roomy_pgdir : pgdir_ok roomy [4; 5] 1.
Proof.
  apply mapped_like; [apply roomy_kmem|etrans; [apply after_free_npages|apply running_npages]|].
  intros i [->| ->%list_elem_of_singleton]%elem_of_cons; lia.
Qed.

Lemma roomy_cpu : cpu_ok roomy.
Proof. apply after_free_cpu, running_cpu. Qed.

Lemma roomy_env : envs roomy !! 0 = Some env0_running.
Proof. unfold roomy. by rewrite after_free_envs, running_envs. Qed.

(** A region whose two bytes straddle a page boundary. *)
Lemma straddle_free a : region_base 0x1FFF <= a < region_base 0x1FFF + region_size 2 ->
  PDX a <> PDX UVPT /\ trans roomy 1 a = None.
Proof.
  change (region_base 0x1FFF) with 0x1000. change (region_size 2) with 0x1000. intros Ha.
  assert (is_u32 a) as Hu by (unfold is_u32; lia).
  assert (PDX a = 0 /\ PTX a = 1) as [Hd Hx] by (rewrite PDX_eq, PTX_eq by done; word_lia).
  split; [by rewrite Hd|]. unfold trans, tbl, pte_addr. rewrite Hd, Hx, roomy_kmem. by vm_compute.
Qed.

Lemma region_alloc_correct_witness :
  exists s', region_alloc 0 0x1FFF 2 roomy = Ret tt s'.
Proof.
  destruct (region_alloc_correct roomy [4; 5] 0 0x1FFF 2 1 env0_running roomy_wf roomy_free roomy_pgdir roomy_cpu)
    as [[H _]|(s' & l' & H & _)];
    [exact roomy_env|reflexivity|by apply Z.leb_le|by apply Z.leb_le|by apply Z.leb_le
    |exact straddle_free|by apply Z.ltb_lt in H|exists s'; exact H].
Defined.

Lemma region_alloc_misses_last_page_witness :
  exists s', region_alloc 0 0x1FFF 2 roomy = Ret tt s' /\ trans s' 1 0x2000 = trans roomy 1 0x2000.
Proof.
  apply (region_alloc_misses_last_page roomy [4; 5] 0 0x1FFF 2 1 env0_running roomy_wf roomy_free roomy_pgdir roomy_cpu);
    [exact roomy_env|reflexivity|by apply Z.leb_le|by apply Z.leb_le|by apply Z.leb_le
    |exact straddle_free|reflexivity|reflexivity|discriminate|by apply Z.leb_le].
Defined.
