(* ===== verification/Sched.v ===== *)
(** The scheduler: src/kern/sched.c, env_destroy of src/kern/env.c (which
    ends in it) and user_mem_assert of src/kern/pmap.c. *)

From S2P Require Import Prelude Machine Mmu Cstring Devices KState PageAlloc PageTable Vmem Kdebug Spinlock Env.

Section Sched.
Context `{StabSections}.

Definition alive (e : Env) : bool :=
  bool_decide (env_status e = ENV_RUNNABLE) || bool_decide (env_status e = ENV_RUNNING) ||
  bool_decide (env_status e = ENV_DYING).

(** The index at which the scan of sched_halt stops: [i + n] when none of the
    [n] environments from [i] is alive. *)
Fixpoint find_alive (n : nat) (i : Z) : M Z :=
  match n with
  | O => kret i
  | S n => let! e := get_env i in if alive e then kret i else find_alive n (i + 1)
  end.

Definition sched_halt : M unit :=
  let! i := find_alive (Z.to_nat NENV) 0 in
  (if i =? NENV then cprintf "No runnable environments in the system!" [] ;; leave_with MonitorLoop
   else kret tt) ;;
  set_curenv None ;;
  let! kd := get kern_pgdir in
  let! pa := PADDR kd in
  lcr3 pa ;;
  let! c := thiscpu in
  set_thiscpu (set_cpu_status CPU_HALTED c) ;;
  unlock_kernel ;;
  leave_with Halted.

(** The round-robin scan: [n] slots from [i], wrapping around. *)
Fixpoint sched_scan (n : nat) (i : Z) : M (option Z) :=
  match n with
  | O => kret None
  | S n =>
      let! e := get_env i in
      if bool_decide (env_status e = ENV_RUNNABLE) then kret (Some i) else sched_scan n ((i + 1) mod NENV)
  end.

(** [first] makes the loop body run for [start] too, so NENV slots are tried. *)
Definition sched_yield : M unit :=
  let! idle := curenv in
  let! start := (match idle with
                 | Some c => let! e := get_env c in kret (ENVX (env_id e))
                 | None => kret 0
                 end) in
  let! r := sched_scan (Z.to_nat NENV) start in
  match r with
  | Some i => env_run i
  | None =>
      let! running := (match idle with
                       | Some c => let! e := get_env c in kret (bool_decide (env_status e = ENV_RUNNING))
                       | None => kret false
                       end) in
      match idle, (running : bool) with
      | Some c, true => env_run c
      | _, _ => sched_halt
      end
  end.

Definition env_destroy (e : Z) : M unit :=
  let! x := get_env e in
  let! cur := curenv in
  if bool_decide (env_status x = ENV_RUNNING) && negb (bool_decide (cur = Some e)) then
    upd_env e (set_env_status ENV_DYING)
  else
    env_free e ;;
    let! cur := curenv in
    if bool_decide (cur = Some e) then set_curenv None ;; sched_yield else kret tt.

Definition user_mem_assert (env va len perm : Z) : M unit :=
  let! r := user_mem_check env va len (Z.lor perm PTE_U) in
  if r <? 0 then
    let! a := get user_mem_check_addr in
    let! x := get_env env in
    cprintf "[%08x] user_mem_check assertion failure for va %08x" [env_id x; a] ;;
    env_destroy env
  else kret tt.
End Sched.

(** ** The round-robin choice *)

Section SchedCorrect.
Context `{StabSections}.

Definition runnable (s : kstate) (i : Z) : Prop := exists e, envs s !! i = Some e /\ env_status e = ENV_RUNNABLE.

#[global] Instance runnable_dec s i : Decision (runnable s i).
Proof.
  unfold runnable. destruct (envs s !! i) as [e|]; [|right; intros (? & ? & ?); done].
  destruct (decide (env_status e = ENV_RUNNABLE)); [left; eauto|right; intros (? & ? & ?); simplify_eq; done].
Defined.

(** The [n] slots from [i] on, around the table. *)
Fixpoint slots (n : nat) (i : Z) : list Z :=
  match n with O => [] | S n => i :: slots n ((i + 1) mod NENV) end.

Lemma slots_lookup n i k : (k < n)%nat -> 0 <= i < NENV ->
  slots n i !! k = Some ((i + Z.of_nat k) mod NENV).
Proof.
  revert i k. induction n as [|n IH]; intros i [|k] Hk Hi; try lia; simpl.
  - f_equal. rewrite Z.add_0_r. by rewrite Z.mod_small.
  - rewrite IH by (lia || (unfold NENV in *; word_lia)). f_equal. unfold NENV in *. word_lia.
Qed.

Lemma slots_length n i : length (slots n i) = n.
Proof. revert i. induction n; intros; simpl; auto. Qed.

Lemma slots_range n i j : 0 <= i < NENV -> j ∈ slots n i -> 0 <= j < NENV.
Proof.
  revert i. induction n as [|n IH]; intros i Hi; simpl; [by intros ?%elem_of_nil|].
  intros [->|Hj]%elem_of_cons; [done|]. apply (IH ((i + 1) mod NENV)); [|done]. by apply Z.mod_pos_bound.
Qed.

(** NENV slots from anywhere are the whole table. *)
Lemma slots_all i j : 0 <= i < NENV -> 0 <= j < NENV -> j ∈ slots (Z.to_nat NENV) i.
Proof.
  intros Hi Hj. apply list_elem_of_lookup. exists (Z.to_nat ((j - i) mod NENV)).
  assert (0 <= (j - i) mod NENV < NENV) by by apply Z.mod_pos_bound.
  rewrite slots_lookup; [|unfold NENV in *; lia|done]. f_equal.
  rewrite Z2Nat.id by lia. unfold NENV in *. word_lia.
Qed.

Lemma sched_scan_eq n i s :
  envs_wf s -> 0 <= i < NENV -> sched_scan n i s = Ret (head (filter (runnable s) (slots n i))) s.
Proof.
  intros Hwf. revert i. induction n as [|n IH]; intros i Hi; [done|].
  cbn [sched_scan slots]. destruct (envs_lookup s i Hwf Hi) as [e He]. mstep (get_env_eq _ _ _ He).
  rewrite filter_cons. destruct (decide (runnable s i)) as [Hr|Hr].
  - rewrite bool_decide_true; [done|]. destruct Hr as (e' & He' & Hs). by simplify_eq.
  - rewrite bool_decide_false by (intros H'; apply Hr; by exists e).
    apply IH. by apply Z.mod_pos_bound.
Qed.

(** The slot the scan starts from: the current environment's own. *)
Definition scan_start (s : kstate) (cur : option Z) : Z :=
  match cur with Some c => ENVX (default 0 (env_id <$> envs s !! c)) | None => 0 end.

Definition next_env (s : kstate) (cur : option Z) : option Z :=
  head (filter (runnable s) (slots (Z.to_nat NENV) (scan_start s cur))).

Lemma scan_start_range s cur : 0 <= scan_start s cur < NENV.
Proof. destruct cur; [apply ENVX_range|done]. Qed.

Lemma head_filter {A} (P : A -> Prop) `{forall x, Decision (P x)} (l : list A) x :
  head (filter P l) = Some x ->
  exists k, l !! k = Some x /\ P x /\ forall j y, (j < k)%nat -> l !! j = Some y -> ~ P y.
Proof.
  induction l as [|a l IH]; [done|]. rewrite filter_cons. case_decide as Ha.
  - intros [= <-]. exists O. split_and!; try done. lia.
  - intros (k & Hk & Hx & Hb)%IH. exists (S k). split_and!; try done.
    intros [|j] y Hj Hy; simplify_eq/=; [done|]. apply (Hb j); [lia|done].
Qed.

Lemma sched_yield_spec (s : kstate) (c : CpuInfo) :
  envs_wf s -> cpus s !! cpunum s = Some c -> (forall i, cpu_env c = Some i -> is_Some (envs s !! i)) ->
  let cur := cpu_env c in
  let start := scan_start s cur in
  match next_env s cur with
  | Some i => sched_yield s = env_run i s /\ runnable s i /\
      exists k, i = (start + k) mod NENV /\ 0 <= k < NENV /\
        forall j, 0 <= j < k -> ~ runnable s ((start + j) mod NENV)
  | None => (forall i, ~ runnable s i) /\
      sched_yield s = match cur with
                      | Some r => if bool_decide (env_status <$> envs s !! r = Some ENV_RUNNING)
                                  then env_run r s else sched_halt s
                      | None => sched_halt s
                      end
  end.
Proof.
  intros Hwf Hc Hce cur start. pose proof (scan_start_range s cur) as Hs. fold start in Hs.
  assert (sched_yield s = match next_env s cur with
     | Some i => env_run i s
     | None => match cur with
               | Some r => if bool_decide (env_status <$> envs s !! r = Some ENV_RUNNING)
                           then env_run r s else sched_halt s
               | None => sched_halt s
               end end) as Hy.
  { unfold sched_yield. mstep (curenv_eq _ _ Hc). fold cur.
    assert (forall (k : Z -> M unit), kbind (match cur with
        | Some c => let! e := get_env c in kret (ENVX (env_id e)) | None => kret 0 end) k s = k start s) as Hst.
    { intros k. unfold start, scan_start. destruct cur as [r|] eqn:Hcur; [|done].
      destruct (Hce r Hcur) as [e He]. rewrite bind_assoc. mstep (get_env_eq _ _ _ He). mrun. by rewrite He. }
    rewrite Hst. mstep (sched_scan_eq (Z.to_nat NENV) start s Hwf Hs). unfold next_env. fold start.
    destruct (head _) as [i|]; [done|].
    destruct cur as [r|] eqn:Hcur; [|done]. destruct (Hce r Hcur) as [e He].
    rewrite bind_assoc. mstep (get_env_eq _ _ _ He). mrun. rewrite He. simpl.
    destruct (decide (env_status e = ENV_RUNNING)) as [->|Hn]; [done|].
    rewrite (bool_decide_false (env_status e = _)), (bool_decide_false (Some _ = Some _)) by congruence.
    done. }
  rewrite Hy. destruct (next_env s cur) as [i|] eqn:Hn.
  - split; [done|]. unfold next_env in Hn. fold start in Hn.
    apply head_filter in Hn as (k & Hk & Hr & Hb). split; [done|].
    pose proof (lookup_lt_Some _ _ _ Hk) as Hlt. rewrite slots_length in Hlt.
    rewrite slots_lookup in Hk by done. simplify_eq.
    exists (Z.of_nat k). split; [done|]. split; [unfold NENV in *; lia|]. intros j Hj.
    apply (Hb (Z.to_nat j)); [lia|]. rewrite slots_lookup by (done || lia). do 2 f_equal. lia.
  - split; [|done]. intros i (e & He & Hst). unfold next_env in Hn. fold start in Hn.
    assert (0 <= i < NENV) as Hi by (apply Hwf; eauto).
    assert (i ∈ filter (runnable s) (slots (Z.to_nat NENV) start)) as Hin.
    { apply list_elem_of_filter. split; [by exists e|by apply slots_all]. }
    destruct (filter _ _); [by apply elem_of_nil in Hin|done].
Qed.

(** C19. [sched_yield] runs the first runnable environment met going around the
    table once from the current environment's slot; failing that the current
    environment if it is still running; and halts the CPU otherwise.  It misses
    none: the scan comes up empty only when no environment is runnable. *)
Theorem sched_yield_correct (s : kstate) (c : CpuInfo) :
  envs_wf s -> cpus s !! cpunum s = Some c -> (forall i, cpu_env c = Some i -> is_Some (envs s !! i)) ->
  let cur := cpu_env c in
  let start := scan_start s cur in
  match next_env s cur with
  | Some i => sched_yield s = env_run i s /\ runnable s i /\
      exists k, i = (start + k) mod NENV /\ 0 <= k < NENV /\
        forall j, 0 <= j < k -> ~ runnable s ((start + j) mod NENV)
  | None => (forall i, ~ runnable s i) /\
      sched_yield s = match cur with
                      | Some r => if bool_decide (env_status <$> envs s !! r = Some ENV_RUNNING)
                                  then env_run r s else sched_halt s
                      | None => sched_halt s
                      end
  end.
Proof. apply sched_yield_spec. Qed.

(** ** sched_halt *)

Lemma find_alive_eq n i s :
  (forall j, i <= j < i + Z.of_nat n -> is_Some (envs s !! j)) ->
  exists k, find_alive n i s = Ret k s /\ i <= k <= i + Z.of_nat n /\
    (k < i + Z.of_nat n -> exists e, envs s !! k = Some e /\ alive e = true) /\
    (k = i + Z.of_nat n -> forall j e, i <= j < k -> envs s !! j = Some e -> alive e = false).
Proof.
  revert i. induction n as [|n IH]; intros i Hd.
  { exists i. split; [done|]. split; [lia|]. split; intros; lia. }
  destruct (Hd i) as [e He]; [lia|]. cbn [find_alive]. mstep (get_env_eq _ _ _ He).
  destruct (alive e) eqn:Ha.
  - exists i. split; [done|]. split; [lia|]. split; [eauto|lia].
  - destruct (IH (i + 1)) as (k & H1 & H2 & H3 & H4); [intros; apply Hd; lia|].
    exists k. split; [done|]. split; [lia|]. split; [intros; apply H3; lia|].
    intros Hk j f Hj Hf. destruct (decide (j = i)) as [->|]; [by simplify_eq|]. apply (H4 ltac:(lia) j); [lia|done].
Qed.

(** [sched_halt] enters the monitor when no environment is alive.
    Otherwise it clears the current environment, loads the kernel's directory,
    marks the CPU halted, releases the kernel lock it holds and halts; when the
    lock was never taken (nothing in the kernel takes it) the release
    dereferences the lock's NULL owner instead. *)
Theorem sched_halt_correct (s : kstate) (c : CpuInfo) (k : Z) :
  mem_wf s -> envs_wf s -> cpus s !! cpunum s = Some c -> kern_pgdir s = page_kva k -> 0 <= k < npages s ->
  ((forall i e, envs s !! i = Some e -> alive e = false) ->
     exists s', sched_halt s = Leave MonitorLoop s') /\
  ((exists i e, envs s !! i = Some e /\ alive e = true) ->
     (holding (kernel_lock s) (cpunum s) = true ->
        exists s', sched_halt s = Leave Halted s' /\ locked (kernel_lock s') = 0 /\ cr3 s' = k * PGSIZE /\
          cpus s' !! cpunum s' = Some (set_cpu_status CPU_HALTED (set_cpu_env None c))) /\
     (lk_cpu (kernel_lock s) = None -> exists s', sched_halt s = Crash NullDeref s')).
Proof.
  intros Hwf Hewf Hc Hk Hr.
  destruct (find_alive_eq (Z.to_nat NENV) 0 s) as (i & Hi & Hir & Hlt & Heq).
  { intros j Hj. apply Hewf. unfold NENV in *. lia. }
  change (0 + Z.of_nat (Z.to_nat NENV)) with NENV in *. unfold sched_halt. split.
  - intros Hdead. assert (i = NENV) as ->.
    { destruct (decide (i < NENV)) as [Hl|]; [|unfold NENV in *; lia].
      destruct (Hlt Hl) as (e & He & Ha). by rewrite (Hdead i e He) in Ha. }
    mstep Hi. eexists. reflexivity.
  - intros (j & e & He & Ha).
    assert (i <> NENV) as Hne.
    { intros ->. assert (0 <= j < NENV) as Hj by (apply Hewf; eauto).
      by rewrite (Heq eq_refl j e Hj He) in Ha. }
    set (s1 := set_cpus (<[cpunum s := set_cpu_env None c]> (cpus s)) s).
    set (s2 := set_cr3 (k * PGSIZE) s1).
    set (c2 := set_cpu_status CPU_HALTED (set_cpu_env None c)).
    set (s3 := set_cpus (<[cpunum s2 := c2]> (cpus s2)) s2).
    assert (mem_wf s1) as Hwf1 by by apply (mem_wf_ext s).
    assert (cpus s2 !! cpunum s2 = Some (set_cpu_env None c))
      as Hc2 by apply lookup_insert_eq.
    assert (forall K : M unit, (let! i := find_alive (Z.to_nat NENV) 0 in
        (if i =? NENV then cprintf "No runnable environments in the system!" [] ;; leave_with MonitorLoop
         else kret tt) ;; set_curenv None ;; let! kd := get kern_pgdir in let! pa := PADDR kd in lcr3 pa ;;
        let! c := thiscpu in
        set_thiscpu (set_cpu_status CPU_HALTED c) ;; K) s = K s3) as Hrun.
    { intros K. mstep Hi. rewrite (proj2 (Z.eqb_neq i NENV) Hne). mrun.
      mstep (set_curenv_eq c None s Hc). fold s1. mrun. change (kern_pgdir s1) with (kern_pgdir s). rewrite Hk.
      mstep (PADDR_page k s1 Hwf1 Hr). unfold lcr3. mrun. fold s2. mstep (thiscpu_eq _ _ Hc2).
      unfold set_thiscpu. by mrun. }
    rewrite Hrun. unfold unlock_kernel, spin_unlock. mrun.
    change (kernel_lock s3) with (kernel_lock s). change (cpunum s3) with (cpunum s). split.
    + intros Hh. rewrite Hh. simpl. mrun. eexists. split; [reflexivity|]. split; [done|]. split; [done|].
      cbn [cpus cpunum set_kernel_lock]. apply (lookup_insert_eq (cpus s2)).
    + intros Hn. unfold holding. rewrite Hn. rewrite (bool_decide_false (None = Some _)) by done.
      rewrite andb_false_r. simpl. eexists. reflexivity.
Qed.

End SchedCorrect.

(** *** Witnesses *)

#[local] Instance sample_stabs : StabSections :=
  {| STAB_BEGIN := 0xF0110000; STAB_END := 0xF0110000; STABSTR_BEGIN := 0xF0110000;
     STABSTR_END := 0xF0110000; lit_unknown := 0xF0100000 |}.

Lemma running_next : next_env running (Some 0) = None.
Proof. by vm_compute. Qed.

Lemma running_lock : kernel_lock running = {| locked := 0; lk_cpu := None; pcs := [] |}.
Proof. reflexivity. Qed.

Lemma running_cpu_env i : cpu_env cpu_running = Some i -> is_Some (envs running !! i).
Proof. intros [= <-]. rewrite running_envs. by eexists. Qed.

Lemma sched_yield_correct_witness : sched_yield running = env_run 0 running.
Proof.
  pose proof (sched_yield_correct running cpu_running running_envs_wf (booted_cpu _) running_cpu_env) as H.
  cbn zeta in H. change (cpu_env cpu_running) with (Some 0) in H. rewrite running_next, running_envs in H.
  exact (proj2 H).
Defined.

Lemma sched_halt_correct_witness : exists s', sched_halt running = Crash NullDeref s'.
Proof.
  destruct (sched_halt_correct running cpu_running 1 running_wf running_envs_wf (booted_cpu _)
    (booted_kern_pgdir _) ltac:(rewrite running_npages; lia)) as [_ H].
  apply H; [exists 0, env0_running; by rewrite running_envs|by rewrite running_lock].
Defined.
