(* ===== verification/Syscall.v ===== *)
(** System calls: src/kern/syscall.c.

    Each [sys_*] function returns the C result as a signed integer; [syscall]
    is the dispatcher called from the trap handler. *)

From S2P Require Import Prelude Machine Mmu Cstring Devices KState PageAlloc PageTable Vmem Kdebug Spinlock Env Sched.

Definition SYS_cputs : Z := 0.
Definition SYS_cgetc : Z := 1.
Definition SYS_getenvid : Z := 2.
Definition SYS_env_destroy : Z := 3.
Definition SYS_page_alloc : Z := 4.
Definition SYS_page_map : Z := 5.
Definition SYS_page_unmap : Z := 6.
Definition SYS_exofork : Z := 7.
Definition SYS_env_set_status : Z := 8.
Definition SYS_env_set_pgfault_upcall : Z := 9.
Definition SYS_yield : Z := 10.
Definition SYS_ipc_try_send : Z := 11.
Definition SYS_ipc_recv : Z := 12.
Definition NSYSCALLS : Z := 13.

(** The number of an [env_status] value. *)
Definition status_code (st : EnvStatus) : Z :=
  match st with
  | ENV_FREE => 0 | ENV_DYING => 1 | ENV_RUNNABLE => 2 | ENV_RUNNING => 3 | ENV_NOT_RUNNABLE => 4
  end.

(** A trap frame with the result register set. *)
Definition with_eax (t : Trapframe) (v : Z) : Trapframe :=
  let r := tf_regs t in
  {| tf_regs := {| reg_edi := reg_edi r; reg_esi := reg_esi r; reg_ebp := reg_ebp r; reg_oesp := reg_oesp r;
                   reg_ebx := reg_ebx r; reg_edx := reg_edx r; reg_ecx := reg_ecx r; reg_eax := v |};
     tf_es := tf_es t; tf_ds := tf_ds t; tf_trapno := tf_trapno t; tf_err := tf_err t; tf_eip := tf_eip t;
     tf_cs := tf_cs t; tf_eflags := tf_eflags t; tf_esp := tf_esp t; tf_ss := tf_ss t |}.

Section Syscall.
Context `{StabSections}.

(** [curenv] dereferenced. *)
Definition cur : M Z := let! c := curenv in deref c.

(** What the directive [%.*s] of vprintfmt (lib/printfmt.c) reads: the kernel's
    own loads, through the tables it runs on.  A character is loaded before the
    precision is tested, so one more is read than printed; a negative precision
    is no limit at all. *)
Fixpoint read_text (fuel : nat) (p precision : Z) : M (list Z) :=
  match fuel with
  | O => crash_with OutOfFuel
  | S fuel =>
      let! ch := vread8 p in
      if negb (ch =? 0) && ((precision <? 0) || (0 <=? precision - 1)) then
        let! t := read_text fuel (u32 (p + 1)) (if precision <? 0 then precision else precision - 1) in kret (ch :: t)
      else kret []
  end.

(** There are no more addresses than [2 ^ 32]. *)
Definition text_fuel (precision : Z) : nat := if precision <? 0 then Z.to_nat (2 ^ 32) else Z.to_nat (precision + 1).

(** The codes of "(null)", which is printed for a null pointer. *)
Definition null_text (precision : Z) : list Z :=
  let t := [40; 110; 117; 108; 108; 41] in if precision <? 0 then t else take (Z.to_nat precision) t.

Definition sys_cputs (s len : Z) : M unit :=
  let! c := cur in
  user_mem_assert c s len PTE_U ;;
  let! text := (if s =? 0 then kret (null_text (s32 len)) else read_text (text_fuel (s32 len)) s (s32 len)) in
  cprintf "%.*s" text.

Definition sys_cgetc : M Z := device cons_getc.

Definition sys_getenvid : M Z := let! c := cur in let! e := get_env c in kret (env_id e).

Definition sys_env_destroy (envid : Z) : M Z :=
  let! r := envid2env envid true in
  let '(r, eo) := r in
  if r <? 0 then kret r
  else
    let! c := curenv in
    (if bool_decide (eo = c) then
       let! i := deref c in let! ce := get_env i in cprintf "[%08x] exiting gracefully" [env_id ce]
     else
       let! i := deref c in let! ce := get_env i in
       let! j := deref eo in let! e := get_env j in
       cprintf "[%08x] destroying %08x" [env_id ce; env_id e]) ;;
    let! e := deref eo in
    env_destroy e ;;
    kret 0.

Definition sys_yield : M unit := sched_yield.

Definition sys_exofork : M Z :=
  let! c := cur in
  let! ce := get_env c in
  let! r := env_alloc (env_id ce) in
  let '(err, eo) := r in
  if err <? 0 then kret err
  else
    let! e := deref eo in
    upd_env e (set_env_status ENV_NOT_RUNNABLE) ;;
    let! c := cur in
    let! ce := get_env c in
    upd_env e (set_env_tf (with_eax (env_tf ce) 0)) ;;
    let! x := get_env e in
    kret (env_id x).

Definition sys_env_set_status (envid status : Z) : M Z :=
  let! r := envid2env envid true in
  let '(r, eo) := r in
  if r <? 0 then kret (- E_BAD_ENV)
  else if negb (status =? status_code ENV_RUNNABLE) && negb (status =? status_code ENV_NOT_RUNNABLE)
       then kret (- E_INVAL)
  else
    let! e := deref eo in
    upd_env e (set_env_status (if status =? status_code ENV_RUNNABLE then ENV_RUNNABLE else ENV_NOT_RUNNABLE)) ;;
    kret 0.

Definition sys_env_set_pgfault_upcall (envid func : Z) : M Z :=
  let! r := envid2env envid true in
  let '(r, eo) := r in
  if r <? 0 then kret (- E_BAD_ENV)
  else
    let! e := deref eo in
    upd_env e (set_env_pgfault_upcall func) ;;
    user_mem_assert e func 4 0 ;;
    kret 0.

Definition sys_page_alloc (envid va perm : Z) : M Z :=
  let! r := envid2env envid true in
  let '(r, eo) := r in
  if r <? 0 then kret (- E_BAD_ENV)
  else if (UTOP <=? va) || negb (va mod PGSIZE =? 0) then kret (- E_INVAL)
  else if negb (has perm PTE_U) || negb (has perm PTE_P) then kret (- E_INVAL)
  else if has perm (Z.lnot (Z.lor (Z.lor (Z.lor PTE_U PTE_P) PTE_W) PTE_AVAIL)) then kret (- E_NO_MEM)
  else
    let! p := page_alloc ALLOC_ZERO in
    match p with
    | None => kret (- E_NO_MEM)
    | Some pp =>
        let! e := deref eo in
        let! x := get_env e in
        let! r := page_insert (env_pgdir x) pp va perm in
        if r <? 0 then page_free pp ;; kret (- E_NO_MEM) else kret 0
    end.

Definition sys_page_map (srcenvid srcva dstenvid dstva perm : Z) : M Z :=
  let! r := envid2env srcenvid true in
  let '(r1, srco) := r in
  let! bad := (if r1 <? 0 then kret (true, None)
               else let! r := envid2env dstenvid true in let '(r2, o) := r in kret (r2 <? 0, o)) in
  let '(bad, dsto) := bad in
  if (bad : bool) then kret (- E_BAD_ENV)
  else if (UTOP <=? srcva) || negb (srcva mod PGSIZE =? 0) || (UTOP <=? dstva) || negb (dstva mod PGSIZE =? 0)
       then cprintf "sys_page_map: invalid boundary or page-aligned" [] ;; kret (- E_INVAL)
  else if negb (has perm PTE_U) || negb (has perm PTE_P) || has perm (Z.lnot PTE_SYSCALL)
       then cprintf "sys_page_map: invalid perm" [] ;; kret (- E_INVAL)
  else
    let! src := deref srco in
    let! sx := get_env src in
    let! l := page_lookup (env_pgdir sx) srcva in
    match l with
    | None => cprintf "page not found" [] ;; kret (- E_INVAL)
    | Some (pp, pte) =>
        let! ro := (if has perm PTE_W then let! e := read32 pte in kret (negb (has e PTE_W)) else kret false) in
        if (ro : bool) then cprintf "sys_page_map: invalid PTE_W" [] ;; kret (- E_INVAL)
        else
          let! dst := deref dsto in
          let! dx := get_env dst in
          let! r := page_insert (env_pgdir dx) pp dstva perm in
          if negb (r =? 0) then kret (- E_NO_MEM) else kret 0
    end.

Definition sys_page_unmap (envid va : Z) : M Z :=
  let! r := envid2env envid true in
  let '(r, eo) := r in
  if r <? 0 then kret (- E_BAD_ENV)
  else if (UTOP <=? va) || negb (va mod PGSIZE =? 0) then kret (- E_INVAL)
  else
    let! e := deref eo in
    let! x := get_env e in
    page_remove (env_pgdir x) va ;;
    kret 0.

Definition sys_ipc_try_send (envid value srcva perm : Z) : M Z := panic "sys_ipc_try_send not implemented".

Definition sys_ipc_recv (dstva : Z) : M Z := panic "sys_ipc_recv not implemented".

(** The arguments are the user's registers, as unsigned words; an [envid_t]
    or [int] parameter reads them as signed. *)
Definition syscall (syscallno a1 a2 a3 a4 a5 : Z) : M Z :=
  if syscallno =? SYS_cputs then sys_cputs a1 a2 ;; kret 0
  else if syscallno =? SYS_cgetc then sys_cgetc
  else if syscallno =? SYS_getenvid then sys_getenvid
  else if syscallno =? SYS_env_destroy then sys_env_destroy (s32 a1)
  else if syscallno =? SYS_page_alloc then sys_page_alloc (s32 a1) a2 (s32 a3)
  else if syscallno =? SYS_page_map then sys_page_map (s32 a1) a2 (s32 a3) a4 (s32 a5)
  else if syscallno =? SYS_page_unmap then sys_page_unmap (s32 a1) a2
  else if syscallno =? SYS_exofork then sys_exofork
  else if syscallno =? SYS_env_set_status then sys_env_set_status (s32 a1) (s32 a2)
  else if syscallno =? SYS_env_set_pgfault_upcall then sys_env_set_pgfault_upcall (s32 a1) a2
  else if syscallno =? SYS_yield then sys_yield ;; kret 0
  else if syscallno =? SYS_ipc_try_send then sys_ipc_try_send (s32 a1) a2 a3 a4
  else if syscallno =? SYS_ipc_recv then sys_ipc_recv a1
  else cprintf "Error syscall(%u)" [syscallno] ;; panic "syscall not impelmented".
End Syscall.

(** * Properties *)

(** ** The caller and the environments it may act on *)

Record caller (s : kstate) (me : Z) (ce : Env) : Prop := {
  ca_envs : envs_wf s;
  ca_cpu : exists c, cpus s !! cpunum s = Some c /\ cpu_env c = Some me;
  ca_env : envs s !! me = Some ce }.

(** The environment an id names for the caller: itself, or one in use under
    this id that is the caller or its child. *)
Definition resolve (s : kstate) (me : Z) (ce : Env) (envid : Z) : option Z :=
  if envid =? 0 then Some me
  else
    e ← envs s !! ENVX envid;
    if negb (bool_decide (env_status e = ENV_FREE)) && (env_id e =? envid) &&
       ((ENVX envid =? me) || (env_parent_id e =? env_id ce))
    then Some (ENVX envid) else None.

Definition envid_result (o : option Z) : Z * option Z :=
  match o with Some e => (0, Some e) | None => (- E_BAD_ENV, None) end.

Section Resolve.
Context (s : kstate) (me : Z) (ce : Env) (C : caller s me ce).

Lemma envid2env_resolve envid : envid2env envid true s = Ret (envid_result (resolve s me ce envid)) s.
Proof.
  destruct C as [Hwf (c & Hc & Hme) Hce].
  destruct (envid2env_spec s envid true c me ce Hwf Hc Hme Hce) as (r & -> & Hr). f_equal. unfold resolve.
  destruct Hr as [[-> ->]|(H0 & e & He & Hr)]; [done|]. rewrite (proj2 (Z.eqb_neq envid 0) H0), He. simpl.
  destruct Hr as [(-> & Hst & <- & Hp)|(-> & Hbad)].
  - rewrite bool_decide_false, Z.eqb_refl by done. simpl.
    destruct (Hp eq_refl) as [->|Hpar]; [by rewrite Z.eqb_refl|].
    by rewrite (proj2 (Z.eqb_eq _ _) Hpar), orb_true_r.
  - destruct Hbad as [Hst|[Hid|(_ & Hne & Hpar)]].
    + by rewrite bool_decide_true.
    + by rewrite (proj2 (Z.eqb_neq _ _) Hid), andb_false_r.
    + rewrite (proj2 (Z.eqb_neq _ _) Hne), (proj2 (Z.eqb_neq _ _) Hpar). simpl. by rewrite andb_false_r.
Qed.

Lemma resolve_lookup envid e : resolve s me ce envid = Some e -> exists x, envs s !! e = Some x.
Proof.
  unfold resolve. destruct (envid =? 0); [intros [= <-]; exists ce; apply C|].
  destruct (envs s !! ENVX envid) as [x|] eqn:E; simpl; [|done].
  destruct (_ && _); [|done]. intros [= <-]. eauto.
Qed.

Lemma curenv_caller : curenv s = Ret (Some me) s.
Proof. destruct C as [_ (c & Hc & Hme) _]. rewrite (curenv_eq _ _ Hc). by rewrite Hme. Qed.
End Resolve.

(** ** sys_env_set_status *)

(** sys_env_set_status succeeds exactly for the caller itself or a child in
    use and one of the two legal statuses; it then changes that status and
    nothing else.  Otherwise it returns -E_BAD_ENV or -E_INVAL, the id being
    judged first, and the state is as before. *)
Theorem sys_env_set_status_correct (s : kstate) (me : Z) (ce : Env) (envid status : Z) :
  caller s me ce ->
  sys_env_set_status envid status s =
  match resolve s me ce envid with
  | None => Ret (- E_BAD_ENV) s
  | Some e =>
      match envs s !! e with
      | Some x =>
          if status =? 2 then Ret 0 (set_envs (<[e := set_env_status ENV_RUNNABLE x]> (envs s)) s)
          else if status =? 4 then Ret 0 (set_envs (<[e := set_env_status ENV_NOT_RUNNABLE x]> (envs s)) s)
          else Ret (- E_INVAL) s
      | None => Crash (WildAccess e) s
      end
  end.
Proof.
  intros C. unfold sys_env_set_status. mstep (envid2env_resolve s me ce C envid).
  destruct (resolve s me ce envid) as [e|] eqn:E; [|done]. simpl.
  destruct (resolve_lookup s me ce C envid e E) as [x Hx]. rewrite Hx.
  destruct (Z.eqb_spec status 2) as [->|H2]; [cbn; by mstep (upd_env_eq e (set_env_status ENV_RUNNABLE) x s Hx)|].
  destruct (Z.eqb_spec status 4) as [->|H4]; [cbn; by mstep (upd_env_eq e (set_env_status ENV_NOT_RUNNABLE) x s Hx)|].
  done.
Qed.

(** ** sys_page_alloc *)

Definition perm_legal (perm : Z) : bool :=
  has perm PTE_U && has perm PTE_P && negb (has perm (Z.lnot (Z.lor (Z.lor (Z.lor PTE_U PTE_P) PTE_W) PTE_AVAIL))).
Definition va_legal (va : Z) : bool := (va <? UTOP) && (va mod PGSIZE =? 0).

Lemma perm_legal_range perm : perm_legal perm = true -> 0 <= perm < PGSIZE.
Proof.
  unfold perm_legal. intros H. apply andb_true_iff in H as [_ H]. unfold has in H.
  rewrite !negb_involutive in H. apply Z.eqb_eq in H.
  set (K := Z.lor (Z.lor (Z.lor PTE_U PTE_P) PTE_W) PTE_AVAIL) in H.
  assert (0 <= K < 2 ^ 12) as HK by by vm_compute.
  assert (perm = Z.land perm (2 ^ 12 - 1)) as ->.
  { apply Z.bits_inj'. intros i Hi. rewrite Z.land_spec.
    destruct (decide (i < 12)).
    - change (2 ^ 12 - 1) with (Z.ones 12). rewrite Z.ones_spec_low by lia. by rewrite andb_true_r.
    - change (2 ^ 12 - 1) with (Z.ones 12). rewrite Z.ones_spec_high by lia. rewrite andb_false_r.
      apply (f_equal (fun z => Z.testbit z i)) in H. rewrite Z.land_spec, Z.bits_0, Z.lnot_spec in H by lia.
      rewrite (testbit_small K 12), andb_true_r in H by (done || lia). done. }
  rewrite land_low by lia. unfold PGSIZE. word_lia.
Qed.

Lemma va_legal_user va : is_u32 va -> va_legal va = true -> PDX va <> PDX UVPT.
Proof.
  unfold va_legal. intros Hva [H _]%andb_true_iff. apply Z.ltb_lt in H.
  change (PDX UVPT) with 957. change UTOP with 0xEEC00000 in H. rewrite PDX_eq by done. word_lia.
Qed.

(** What a successful call leaves: page [pp], zeroed and referenced once, at
    [va]'s page; every other address as before. *)
Record page_given (s : kstate) (l : list Z) (s' : kstate) (d va perm pp : Z) : Prop := {
  pg_wf : mem_wf s';
  pg_dir : exists l', pgdir_ok s' l' d /\ free_ok s' l';
  pg_here : forall va', is_u32 va' -> PGNUM va' = PGNUM va -> trans s' d va' = Some (pp, Z.lor PTE_P perm);
  pg_else : forall va', is_u32 va' -> PDX va' <> PDX UVPT -> PGNUM va' <> PGNUM va ->
              trans s' d va' = trans s d va';
  pg_zero : forall x, page_kva pp <= x < page_kva pp + PGSIZE -> kmem s' x = 0;
  pg_ref : refs s' pp = 1;
  pg_tbl : forall i t, 0 <= i < NPDENTRIES -> tbl s' d i = Some t -> tbl s d i = Some t \/ t ∈ l /\ t <> pp;
  pg_step : exists l1 l2 new, l = pp :: l1 /\
    remapped (after_alloc true pp l1 s) s' l1 l2 d va (Some (pp, Z.lor PTE_P perm)) new }.

Section PageAllocCall.
Context `{StabSections}.
Context (s : kstate) (me : Z) (ce : Env) (l : list Z).
Hypothesis C : caller s me ce.
Hypothesis Hwf : mem_wf s.
Hypothesis Hf : free_ok s l.
Hypothesis Hcpu : cpu_ok s.

(** The last page was taken and could not be mapped: it is given back. *)
Record page_returned (s' : kstate) (d pp : Z) : Prop := {
  pr_wf : mem_wf s';
  pr_free : free_ok s' [pp];
  pr_trans : forall va', is_u32 va' -> PDX va' <> PDX UVPT -> trans s' d va' = trans s d va';
  pr_refs : forall j, refs s' j = refs s j;
  pr_mem : forall i, i <> pp -> same_page s s' i;
  pr_mm : mm_frame s s' }.

(** Clearing the page just allocated does not touch the address space. *)
Lemma alloc_keeps d pp l' :
  l = pp :: l' -> pgdir_ok s l d ->
  let s1 := after_alloc true pp l' s in
  d <> pp /\ (forall i, i <> pp -> same_page s s1 i) /\
  (forall i, 0 <= i < NPDENTRIES -> i <> PDX UVPT -> tbl s d i <> Some pp) /\
  (forall i, 0 <= i < NPDENTRIES -> tbl s1 d i = tbl s d i) /\
  (forall va, PDX va <> PDX UVPT -> trans s1 d va = trans s d va).
Proof.
  intros -> Hpd s1.
  assert (forall i, i <> pp -> same_page s s1 i) as Hsame.
  { intros i Hi x Hx. symmetry. apply after_alloc_kmem_out. unfold page_kva, PGSIZE in *. lia. }
  assert (forall i, 0 <= i < NPDENTRIES -> i <> PDX UVPT -> tbl s d i <> Some pp) as Hnt.
  { intros i Hi Hiu Ht. destruct (pd_tbl _ _ _ Hpd i pp Hi Hiu Ht) as (_ & Hno & _). apply Hno. by left. }
  assert (d <> pp) as Hd by (intros ->; apply (pd_alloc _ _ _ Hpd); by left).
  split_and!; try done.
  - intros i Hi. symmetry. apply tbl_ext; auto.
  - intros va' Hu'. symmetry. apply trans_ext; [by apply Hsame|]. intros t Ht. apply Hsame. intros ->.
    by apply (Hnt _ (PDX_in va') Hu').
Qed.

(** page_insert of the page just allocated. *)
Lemma insert_allocated d va perm pp l' :
  l = pp :: l' -> pgdir_ok s l d -> is_u32 va -> PDX va <> PDX UVPT -> 0 <= perm < PGSIZE ->
  (forall o f, trans s d va = Some (o, f) -> mapped_ok s l d o) ->
  let s1 := after_alloc true pp l' s in
  (l' = [] /\ tbl s d (PDX va) = None /\ page_insert (page_kva d) pp va perm s1 = Ret (- E_NO_MEM) s1) \/
  exists s', page_insert (page_kva d) pp va perm s1 = Ret 0 s' /\ page_given s l s' d va perm pp.
Proof.
  intros El Hpd Hva Hu Hperm Hold s1.
  destruct (alloc_keeps d pp l' El Hpd) as (Hd & Hsame & Hnt & Htb & Htr). fold s1 in Hsame, Htb, Htr. subst l.
  pose proof (free_ok_NoDup _ _ Hf) as [Hnl _]%NoDup_cons.
  pose proof (free_ok_range s _ pp Hwf Hf ltac:(left)) as Hr.
  assert (forall j, refs s1 j = refs s j) as Hrefs by done.
  assert (pgdir_ok s1 l' d) as Hpd1.
  { apply (pgdir_ok_ext s s1 (pp :: l') l' d Hpd); [done|auto|by right]. }
  assert (insertable s1 l' d pp va perm) as Hin.
  { split; try done.
    - rewrite Hrefs, (refs_free s (pp :: l')) by (done || by left). lia.
    - intros o f Ho. rewrite Htr in Ho by done. destruct (Hold o f Ho) as [M1 M2 M3 M4]. split; try done.
      + intros Hin. apply M2. by right.
      + by apply (data_page_ext s s1 d o (Hsame d Hd)). }
  assert (forall o f, trans s d va = Some (o, f) -> o <> pp) as Holdpp.
  { intros o f Ho ->. apply (mo_alloc _ _ _ _ (Hold pp f Ho)). by left. }
  destruct (page_insert_remaps s1 l' d pp va perm (after_alloc_wf true pp l' s Hwf)
    (after_alloc_free true pp l' s Hf) Hpd1 Hcpu Hva Hu Hin) as [(-> & Ht & Hi)|(s' & l2 & new & Hi & I)].
  { left. by rewrite Htb in Ht by apply PDX_in. }
  right. exists s'. split; [exact Hi|]. destruct (rmp_step I) as [P1 P2 P3 P4 P5 P6 P7 _ P9 _ _].
  pose proof (rmp_new I) as Hnew.
  assert (forall t, tbl s' d (PDX va) = Some t -> tbl s d (PDX va) = Some t \/ t ∈ l') as Hslots.
  { intros t. destruct new as [n|].
    - destruct Hnew as (? & _ & _ & ->). intros [= <-]. by right.
    - destruct Hnew as (t' & Ht1 & ->). rewrite Htb in Ht1 by apply PDX_in. intros [= <-]. by left. }
  assert (forall t, tbl s' d (PDX va) = Some t -> t <> pp) as Hslot.
  { intros t [Ht|Ht]%Hslots ->; [by apply (Hnt _ (PDX_in va) Hu)|by apply Hnl]. }
  split; try done.
  - by exists l2.
  - intros va' Hva' Hu' Hne. rewrite P5 by done. by apply Htr.
  - intros x Hx. rewrite <- (P9 pp (not_eq_sym Hd) (fun H => Hslot pp H eq_refl) x Hx). by apply after_alloc_kmem_in.
  - rewrite P6, Hrefs, (refs_free s (pp :: l')) by (done || by left). unfold b2z.
    rewrite Htr by done. rewrite decide_True, !decide_False; [done| | |done].
    + intros ->. by apply Hnl, Hnew.
    + destruct (trans s d va) as [[o f]|] eqn:Ho; [|done]. simpl. intros [= ->]. by apply (Holdpp pp f).
  - intros i t Hi'. destruct (decide (i = PDX va)) as [->|Hne].
    + intros Ht'. destruct (Hslots t Ht') as [?|?]; [by left|right]. split; [by right|]. by apply Hslot.
    + rewrite (ps_tbl_other (rmp_step I)), Htb by done. by left.
  - by exists l', l2, new.
Qed.

Lemma sys_page_alloc_spec (envid va perm : Z) :
  is_u32 va ->
  match resolve s me ce envid with
  | None => sys_page_alloc envid va perm s = Ret (- E_BAD_ENV) s
  | Some e =>
      if negb (va_legal va) then sys_page_alloc envid va perm s = Ret (- E_INVAL) s
      else if negb (has perm PTE_U && has perm PTE_P) then sys_page_alloc envid va perm s = Ret (- E_INVAL) s
      else if negb (perm_legal perm) then sys_page_alloc envid va perm s = Ret (- E_NO_MEM) s
      else forall x d, envs s !! e = Some x -> env_pgdir x = page_kva d -> pgdir_ok s l d ->
        (forall o f, trans s d va = Some (o, f) -> mapped_ok s l d o) ->
        match l with
        | [] => sys_page_alloc envid va perm s = Ret (- E_NO_MEM) s
        | pp :: l' =>
            (exists s', sys_page_alloc envid va perm s = Ret 0 s' /\ page_given s l s' d va perm pp) \/
            (l' = [] /\ tbl s d (PDX va) = None /\
             exists s', sys_page_alloc envid va perm s = Ret (- E_NO_MEM) s' /\ page_returned s' d pp)
        end
  end.
Proof.
  intros Hva. unfold sys_page_alloc.
  rewrite (bind_Ret _ _ _ _ _ (envid2env_resolve s me ce C envid)).
  destruct (resolve s me ce envid) as [e|] eqn:E; [|done]. cbn [envid_result].
  change (0 <? 0) with false. cbn iota.
  assert ((UTOP <=? va) || negb (va mod PGSIZE =? 0) = negb (va_legal va)) as ->.
  { unfold va_legal. rewrite negb_andb, <- Z.leb_antisym. done. }
  destruct (va_legal va) eqn:Hval; [|done]. cbn [negb].
  assert (negb (has perm PTE_U) || negb (has perm PTE_P) = negb (has perm PTE_U && has perm PTE_P)) as ->
    by by rewrite negb_andb.
  destruct (has perm PTE_U && has perm PTE_P) eqn:Hup; [|done]. cbn [negb].
  assert (has perm (Z.lnot (Z.lor (Z.lor (Z.lor PTE_U PTE_P) PTE_W) PTE_AVAIL)) = negb (perm_legal perm)) as ->.
  { unfold perm_legal. rewrite Hup. cbn [andb]. by rewrite negb_involutive. }
  destruct (perm_legal perm) eqn:Hpl; [|done]. cbn [negb].
  intros x d Hx Hpg Hpd Hold.
  pose proof (fun pp l' H => insert_allocated d va perm pp l' H Hpd Hva (va_legal_user va Hva Hval)
    (perm_legal_range perm Hpl) Hold) as Hins.
  pose proof (fun pp l' H => alloc_keeps d pp l' H Hpd) as Hkeep.
  destruct l as [|pp l'].
  { by rewrite (bind_Ret _ _ _ _ _ (page_alloc_nil ALLOC_ZERO s Hf)). }
  rewrite (bind_Ret _ _ _ _ _ (page_alloc_cons ALLOC_ZERO s pp l' Hwf Hf)).
  change (has ALLOC_ZERO ALLOC_ZERO) with true. set (s1 := after_alloc true pp l' s).
  cbn [deref]. rewrite bind_ret.
  assert (envs s1 !! e = Some x) as Hx1 by done.
  rewrite (bind_Ret _ _ _ _ _ (get_env_eq e x s1 Hx1)). rewrite Hpg.
  destruct (Hins pp l' eq_refl) as [(-> & Ht & Hi)|(s' & Hi & Hg)]; fold s1 in Hi;
    rewrite (bind_Ret _ _ _ _ _ Hi); [right|left; by exists s'].
  split; [done|split; [done|]]. change (- E_NO_MEM <? 0) with true. cbn iota.
  destruct (fo_unref _ _ Hf pp ltac:(by left)) as (p & Hp & Hp0).
  assert (pages s1 !! pp = Some p) as Hp1 by done.
  rewrite (bind_Ret _ _ _ _ _ (page_free_eq pp p s1 Hp1 Hp0)). eexists. split; [done|].
  pose proof (free_ok_range s _ pp Hwf Hf ltac:(left)) as Hr. split.
  - apply after_free_wf; [by apply after_alloc_wf|done].
  - apply after_free_ok; [apply not_elem_of_nil|by apply after_alloc_free].
  - intros va' _ Hu'. destruct (Hkeep pp [] eq_refl) as (_ & _ & _ & _ & Htr).
    rewrite <- Htr by done. by apply trans_kmem.
  - intros j. unfold refs. simpl. destruct (decide (pp = j)) as [->|].
    + rewrite lookup_insert_eq, Hp. simpl. by rewrite Hp0.
    + by rewrite lookup_insert_ne.
  - intros i Hipp y Hy. destruct (Hkeep pp [] eq_refl) as (_ & Hsame & _). by apply (Hsame i Hipp).
  - done.
Qed.

(** C26. sys_page_alloc.  An id the caller may not act on gives -E_BAD_ENV; an
    address above UTOP or not aligned, or permissions without PTE_U and PTE_P,
    give -E_INVAL; further permission bits give -E_NO_MEM (the comment says
    -E_INVAL).  With legal arguments the first free page is given to the
    environment: zeroed, mapped at the address with the permissions, referenced
    once, nothing else remapped.  When memory is short the result is -E_NO_MEM
    and no page is lost. *)
Theorem sys_page_alloc_correct (envid va perm : Z) :
  is_u32 va ->
  match resolve s me ce envid with
  | None => sys_page_alloc envid va perm s = Ret (- E_BAD_ENV) s
  | Some e =>
      if negb (va_legal va) then sys_page_alloc envid va perm s = Ret (- E_INVAL) s
      else if negb (has perm PTE_U && has perm PTE_P) then sys_page_alloc envid va perm s = Ret (- E_INVAL) s
      else if negb (perm_legal perm) then sys_page_alloc envid va perm s = Ret (- E_NO_MEM) s
      else forall x d, envs s !! e = Some x -> env_pgdir x = page_kva d -> pgdir_ok s l d ->
        (forall o f, trans s d va = Some (o, f) -> mapped_ok s l d o) ->
        match l with
        | [] => sys_page_alloc envid va perm s = Ret (- E_NO_MEM) s
        | pp :: l' =>
            (exists s', sys_page_alloc envid va perm s = Ret 0 s' /\ page_given s l s' d va perm pp) \/
            (l' = [] /\ tbl s d (PDX va) = None /\
             exists s', sys_page_alloc envid va perm s = Ret (- E_NO_MEM) s' /\ page_returned s' d pp)
        end
  end.
Proof. apply sys_page_alloc_spec. Qed.
End PageAllocCall.

Lemma running_caller : caller running 0 env0_running.
Proof.
  split; [apply running_envs_wf| |by rewrite running_envs].
  exists cpu_running. split; [apply booted_cpu|done].
Qed.

Lemma running_trans va : trans running 1 va = trans mapped 1 va.
Proof. apply trans_kmem, running_kmem. Qed.

Lemma mapped_vacant_trans : trans mapped 1 0x1000 = None.
Proof. reflexivity. Qed.

Lemma sys_env_set_status_correct_witness :
  caller running 0 env0_running /\ sys_env_set_status 0 3 running = Ret (- E_INVAL) running.
Proof.
  split; [exact running_caller|].
  rewrite (sys_env_set_status_correct running 0 env0_running 0 3 running_caller).
  change (resolve running 0 env0_running 0) with (Some 0). cbn iota. rewrite running_envs. reflexivity.
Defined.

Lemma sys_page_alloc_correct_witness :
  exists s', sys_page_alloc 0 0x1000 7 running = Ret 0 s' /\ refs s' 5 = 1.
Proof.
  pose proof (sys_page_alloc_correct running 0 env0_running [5] running_caller running_wf running_free
    running_cpu 0 0x1000 7 ltac:(split; reflexivity || lia)) as H.
  change (resolve running 0 env0_running 0) with (Some 0) in H. cbn iota in H.
  change (va_legal 0x1000) with true in H. change (has 7 PTE_U && has 7 PTE_P) with true in H.
  change (perm_legal 7) with true in H. cbn [negb] in H.
  specialize (H env0_running 1 ltac:(by rewrite running_envs) eq_refl running_pgdir).
  destruct H as [(s' & H1 & H2)|(_ & H1 & _)].
  - intros o f. rewrite running_trans, mapped_vacant_trans. discriminate.
  - exists s'. split; [exact H1|apply (pg_ref _ _ _ _ _ _ _ H2)].
  - exfalso. revert H1. rewrite (tbl_kmem mapped running 1 (PDX 0x1000) running_kmem). discriminate.
Defined.

(** ** sys_page_map *)

Lemma has_low e n k : 0 <= k < n -> has (e mod 2 ^ n) (2 ^ k) = has e (2 ^ k).
Proof. intros Hk. rewrite !has_bit by lia. by rewrite Z.mod_pow2_bits_low by lia. Qed.

Definition logged (msg : string) (s : kstate) : kstate := set_klog ((msg, []) :: klog s) s.

Section PageMapCall.
Context (s : kstate) (me : Z) (ce : Env) (l : list Z).
Hypothesis C : caller s me ce.
Hypothesis Hwf : mem_wf s.
Hypothesis Hf : free_ok s l.
Hypothesis Hcpu : cpu_ok s.

Lemma sys_page_map_spec (srcenvid srcva dstenvid dstva perm : Z) :
  is_u32 srcva -> is_u32 dstva ->
  match resolve s me ce srcenvid, resolve s me ce dstenvid with
  | Some e1, Some e2 =>
      if negb (va_legal srcva && va_legal dstva) then
        sys_page_map srcenvid srcva dstenvid dstva perm s =
          Ret (- E_INVAL) (logged "sys_page_map: invalid boundary or page-aligned" s)
      else if negb (perm_legal perm) then
        sys_page_map srcenvid srcva dstenvid dstva perm s = Ret (- E_INVAL) (logged "sys_page_map: invalid perm" s)
      else forall x1 d1 x2 d2, envs s !! e1 = Some x1 -> env_pgdir x1 = page_kva d1 -> pgdir_ok s l d1 ->
        envs s !! e2 = Some x2 -> env_pgdir x2 = page_kva d2 -> pgdir_ok s l d2 ->
        (tbl s d1 (PDX srcva) = None ->
         sys_page_map srcenvid srcva dstenvid dstva perm s = Ret (- E_INVAL) (logged "page not found" s)) /\
        (forall pp f, trans s d1 srcva = Some (pp, f) -> insertable s l d2 pp dstva perm ->
         if has perm PTE_W && negb (has f PTE_W) then
           sys_page_map srcenvid srcva dstenvid dstva perm s = Ret (- E_INVAL) (logged "sys_page_map: invalid PTE_W" s)
         else (exists s' l' new, sys_page_map srcenvid srcva dstenvid dstva perm s = Ret 0 s' /\
                 remapped s s' l l' d2 dstva (Some (pp, Z.lor PTE_P perm)) new) \/
              (l = [] /\ tbl s d2 (PDX dstva) = None /\
               sys_page_map srcenvid srcva dstenvid dstva perm s = Ret (- E_NO_MEM) s))
  | _, _ => sys_page_map srcenvid srcva dstenvid dstva perm s = Ret (- E_BAD_ENV) s
  end.
Proof.
  intros Hsrc Hdst. unfold sys_page_map.
  rewrite (bind_Ret _ _ _ _ _ (envid2env_resolve s me ce C srcenvid)).
  destruct (resolve s me ce srcenvid) as [e1|] eqn:E1; [|done]. cbn [envid_result].
  change (0 <? 0) with false. cbn iota. rewrite bind_assoc.
  rewrite (bind_Ret _ _ _ _ _ (envid2env_resolve s me ce C dstenvid)).
  destruct (resolve s me ce dstenvid) as [e2|] eqn:E2; [|done]. cbn [envid_result]. rewrite bind_ret.
  change (0 <? 0) with false. cbn iota.
  assert ((UTOP <=? srcva) || negb (srcva mod PGSIZE =? 0) || (UTOP <=? dstva) || negb (dstva mod PGSIZE =? 0)
          = negb (va_legal srcva && va_legal dstva)) as ->.
  { unfold va_legal. rewrite !negb_andb, <- !Z.leb_antisym. by rewrite !orb_assoc. }
  destruct (va_legal srcva && va_legal dstva) eqn:Hva; [|done]. cbn [negb].
  apply andb_true_iff in Hva as [Hv1 Hv2].
  assert (negb (has perm PTE_U) || negb (has perm PTE_P) || has perm (Z.lnot PTE_SYSCALL) = negb (perm_legal perm)) as ->.
  { unfold perm_legal. change (Z.lor (Z.lor (Z.lor PTE_U PTE_P) PTE_W) PTE_AVAIL) with PTE_SYSCALL.
    by rewrite !negb_andb, negb_involutive. }
  destruct (perm_legal perm) eqn:Hpl; [|done]. cbn [negb].
  intros x1 d1 x2 d2 Hx1 Hp1 Hd1 Hx2 Hp2 Hd2.
  cbn [deref]. rewrite bind_ret. rewrite (bind_Ret _ _ _ _ _ (get_env_eq e1 x1 s Hx1)), Hp1. split.
  - intros Ht. unfold page_lookup. rewrite bind_assoc. by rewrite (bind_Ret _ _ _ _ _ (walk_absent s l d1 Hwf Hd1 srcva Ht)).
  - intros pp f Htr Hin.
    destruct (trans_slot _ _ _ _ _ Hwf Htr) as (t & Ht & Hslot & _ & Hfl).
    pose proof (va_legal_user srcva Hsrc Hv1) as Hu1. pose proof (va_legal_user dstva Hdst Hv2) as Hu2.
    rewrite (bind_Ret _ _ _ _ _ (page_lookup_eq s l d1 srcva t Hwf Hd1 Hsrc Hu1 Ht
      ltac:(rewrite Hslot; apply (in_range _ _ _ _ _ _ Hin)))), Hslot.
    assert ((if has perm PTE_W then let! e := read32 (pte_addr t srcva) in kret (negb (has e PTE_W)) else kret false) s
      = Ret (has perm PTE_W && negb (has f PTE_W)) s) as Hro.
    { destruct (has perm PTE_W); [|done].
      rewrite (bind_Ret _ _ _ _ _ (read32_eq _ s (pte_kern s l d1 srcva t Hwf Hd1 Hu1 Ht))).
      rewrite <- Hfl. change PGSIZE with (2 ^ 12). change PTE_W with (2 ^ 1). by rewrite has_low by lia. }
    rewrite (bind_Ret _ _ _ _ _ Hro). destruct (has perm PTE_W && negb (has f PTE_W)); [done|].
    rewrite bind_ret, (bind_Ret _ _ _ _ _ (get_env_eq e2 x2 s Hx2)), Hp2.
    destruct (page_insert_remaps s l d2 pp dstva perm Hwf Hf Hd2 Hcpu Hdst Hu2 Hin)
      as [(-> & Ht2 & Hi)|(s' & l' & new & Hi & I)]; rewrite (bind_Ret _ _ _ _ _ Hi); [by right|left].
    by exists s', l', new.
Qed.

(** C15. sys_page_map.  Both ids must be the caller's to act on, both addresses
    legal and the permissions legal.  A mapped source page is then mapped at the
    destination with the permissions asked for, and nothing else there changes -
    unless write permission is asked for a page the source may only read, which
    is refused: no caller can turn a read-only page into a writable one. *)
Theorem sys_page_map_correct (srcenvid srcva dstenvid dstva perm : Z) :
  is_u32 srcva -> is_u32 dstva ->
  match resolve s me ce srcenvid, resolve s me ce dstenvid with
  | Some e1, Some e2 =>
      if negb (va_legal srcva && va_legal dstva) then
        sys_page_map srcenvid srcva dstenvid dstva perm s =
          Ret (- E_INVAL) (logged "sys_page_map: invalid boundary or page-aligned" s)
      else if negb (perm_legal perm) then
        sys_page_map srcenvid srcva dstenvid dstva perm s = Ret (- E_INVAL) (logged "sys_page_map: invalid perm" s)
      else forall x1 d1 x2 d2, envs s !! e1 = Some x1 -> env_pgdir x1 = page_kva d1 -> pgdir_ok s l d1 ->
        envs s !! e2 = Some x2 -> env_pgdir x2 = page_kva d2 -> pgdir_ok s l d2 ->
        (tbl s d1 (PDX srcva) = None ->
         sys_page_map srcenvid srcva dstenvid dstva perm s = Ret (- E_INVAL) (logged "page not found" s)) /\
        (forall pp f, trans s d1 srcva = Some (pp, f) -> insertable s l d2 pp dstva perm ->
         if has perm PTE_W && negb (has f PTE_W) then
           sys_page_map srcenvid srcva dstenvid dstva perm s = Ret (- E_INVAL) (logged "sys_page_map: invalid PTE_W" s)
         else (exists s' l' new, sys_page_map srcenvid srcva dstenvid dstva perm s = Ret 0 s' /\
                 remapped s s' l l' d2 dstva (Some (pp, Z.lor PTE_P perm)) new) \/
              (l = [] /\ tbl s d2 (PDX dstva) = None /\
               sys_page_map srcenvid srcva dstenvid dstva perm s = Ret (- E_NO_MEM) s))
  | _, _ => sys_page_map srcenvid srcva dstenvid dstva perm s = Ret (- E_BAD_ENV) s
  end.
Proof. apply sys_page_map_spec. Qed.
(** Unmapping a mapped page of an environment the caller may act on. *)
Lemma sys_page_unmap_spec (envid va e d o f : Z) (x : Env) :
  resolve s me ce envid = Some e -> is_u32 va -> va_legal va = true ->
  envs s !! e = Some x -> env_pgdir x = page_kva d -> pgdir_ok s l d ->
  trans s d va = Some (o, f) -> mapped_ok s l d o ->
  exists s' l', sys_page_unmap envid va s = Ret 0 s' /\ remapped s s' l l' d va None None.
Proof.
  intros E Hva Hv Hx Hp Hd Ho Hm. unfold sys_page_unmap.
  rewrite (bind_Ret _ _ _ _ _ (envid2env_resolve s me ce C envid)), E. cbn [envid_result].
  change (0 <? 0) with false. cbn iota.
  assert ((UTOP <=? va) || negb (va mod PGSIZE =? 0) = negb (va_legal va)) as ->
    by (unfold va_legal; by rewrite negb_andb, <- Z.leb_antisym).
  rewrite Hv. cbn [negb deref]. rewrite bind_ret. rewrite (bind_Ret _ _ _ _ _ (get_env_eq e x s Hx)), Hp.
  destruct (page_remove_remaps s l d va o f Hwf Hf Hd Hcpu Hva (va_legal_user va Hva Hv) Ho Hm) as (s' & l' & H1 & H2).
  rewrite (bind_Ret _ _ _ _ _ H1). by exists s', l'.
Qed.

(** C40. A hole in the protection: the source address of sys_page_map need not be
    mapped.  When it only has a page table, its empty entry reads as physical
    page 0, which is then mapped at the destination for the caller to read. *)
Theorem sys_page_map_exposes_page0 (envid srcva dstva perm e d t : Z) (x : Env) :
  resolve s me ce envid = Some e -> is_u32 srcva -> is_u32 dstva -> va_legal srcva = true -> va_legal dstva = true ->
  perm_legal perm = true -> has perm PTE_W = false ->
  envs s !! e = Some x -> env_pgdir x = page_kva d -> pgdir_ok s l d ->
  tbl s d (PDX srcva) = Some t -> ld32 (kmem s) (pte_addr t srcva) = 0 -> tbl s d (PDX dstva) <> None ->
  insertable s l d 0 dstva perm ->
  trans s d srcva = None /\
  exists s', sys_page_map envid srcva envid dstva perm s = Ret 0 s' /\
    trans s' d dstva = Some (0, Z.lor PTE_P perm).
Proof.
  intros E Hsrc Hdst Hv1 Hv2 Hpl HW Hx Hp Hd Ht Hz Ht2 Hin. split.
  { unfold trans. by rewrite Ht, Hz. }
  unfold sys_page_map. rewrite (bind_Ret _ _ _ _ _ (envid2env_resolve s me ce C envid)), E. cbn [envid_result].
  change (0 <? 0) with false. cbn iota.
  rewrite bind_assoc, (bind_Ret _ _ _ _ _ (envid2env_resolve s me ce C envid)), E. cbn [envid_result]. rewrite bind_ret.
  change (0 <? 0) with false. cbn iota.
  assert ((UTOP <=? srcva) || negb (srcva mod PGSIZE =? 0) || (UTOP <=? dstva) || negb (dstva mod PGSIZE =? 0)
          = negb (va_legal srcva && va_legal dstva)) as ->.
  { unfold va_legal. rewrite !negb_andb, <- !Z.leb_antisym. by rewrite !orb_assoc. }
  rewrite Hv1, Hv2. cbn [negb andb].
  assert (negb (has perm PTE_U) || negb (has perm PTE_P) || has perm (Z.lnot PTE_SYSCALL) = negb (perm_legal perm)) as ->.
  { unfold perm_legal. change (Z.lor (Z.lor (Z.lor PTE_U PTE_P) PTE_W) PTE_AVAIL) with PTE_SYSCALL.
    by rewrite !negb_andb, negb_involutive. }
  rewrite Hpl. cbn [negb deref]. rewrite bind_ret. rewrite (bind_Ret _ _ _ _ _ (get_env_eq e x s Hx)), Hp.
  assert (slot_page s srcva t = 0) as Hs0 by (unfold slot_page; by rewrite Hz).
  rewrite (bind_Ret _ _ _ _ _ (page_lookup_eq s l d srcva t Hwf Hd Hsrc (va_legal_user srcva Hsrc Hv1) Ht
    ltac:(rewrite Hs0; apply (in_range _ _ _ _ _ _ Hin)))), Hs0, HW, bind_ret. cbn [deref]. rewrite bind_ret.
  rewrite (bind_Ret _ _ _ _ _ (get_env_eq e x s Hx)), Hp.
  pose proof (page_insert_spec s l d 0 dstva perm Hwf Hf Hd Hcpu Hdst (va_legal_user dstva Hdst Hv2) Hin) as Hins.
  destruct (tbl s d (PDX dstva)) as [t2|]; [|done]. destruct Hins as (s' & H1 & H2).
  rewrite (bind_Ret _ _ _ _ _ H1). exists s'. split; [done|]. by apply (ps_here H2).
Qed.
End PageMapCall.

(** The caller's identity survives operations on memory and page tables. *)
Lemma caller_mm s s' me ce : mm_frame s s' -> caller s me ce -> caller s' me ce.
Proof.
  intros Hm [C1 C2 C3]. split; [intros i; rewrite (mm_envs _ _ Hm); apply C1| |by rewrite (mm_envs _ _ Hm)].
  by rewrite (mm_cpus _ _ Hm), (mm_cpunum _ _ Hm).
Qed.

Lemma getenvid_eq `{StabSections} s me e :
  caller s me e -> syscall SYS_getenvid 0 0 0 0 0 s = Ret (env_id e) s.
Proof.
  intros [_ (c & Hc & Hme) He]. unfold syscall. change (SYS_getenvid =? SYS_cputs) with false.
  change (SYS_getenvid =? SYS_cgetc) with false. rewrite Z.eqb_refl. cbn iota.
  unfold sys_getenvid, cur. rewrite bind_assoc. mstep (curenv_eq _ _ Hc). rewrite Hme. cbn [deref].
  rewrite bind_ret. by mstep (get_env_eq _ _ _ He).
Qed.

(** ** sys_exofork *)

Lemma sys_exofork_spec (s : kstate) (me : Z) (ce : Env) (le l : list Z) (k : Z) :
  caller s me ce -> (me ∉ le) -> mem_wf s -> cpu_ok s -> free_ok s l -> env_free_chain s le -> template_ok s l k ->
  (forall i e, envs s !! i = Some e -> 0 <= env_id e < 2 ^ 31) ->
  match le, l with
  | [], _ => sys_exofork s = Ret (- E_NO_FREE_ENV) s
  | _ :: _, [] => sys_exofork s = Ret (- E_NO_MEM) s
  | e :: le', n :: l' =>
      exists s' x', sys_exofork s = Ret (env_id x') s' /\ envs s' = <[e := x']> (envs s) /\
        0 < env_id x' < 2 ^ 31 /\ ENVX (env_id x') = e /\ env_parent_id x' = env_id ce /\
        env_status x' = ENV_NOT_RUNNABLE /\ env_tf x' = with_eax (env_tf ce) 0 /\
        env_pgdir x' = page_kva n /\ new_space s s' n l' k /\ env_free_chain s' le' /\ same_machine s s'
  end.
Proof.
  intros C Hme Hwf Hcpu Hf Hle Ht Hid.
  pose proof (env_alloc_spec s (env_id ce) le l k Hwf (ca_envs _ _ _ C) Hcpu Hf Hle Ht Hid) as Ha.
  pose proof (curenv_caller s me ce C) as Hcur. destruct C as [_ (c & Hc & Hcme) Hce].
  unfold sys_exofork, cur. rewrite bind_assoc, (bind_Ret _ _ _ _ _ Hcur). cbn [deref]. rewrite bind_ret.
  rewrite (bind_Ret _ _ _ _ _ (get_env_eq me ce s Hce)).
  destruct le as [|e le']; [by rewrite (bind_Ret _ _ _ _ _ Ha)|].
  destruct l as [|n l']; [by rewrite (bind_Ret _ _ _ _ _ Ha)|].
  destruct Ha as (s1 & x & x1 & Ha & Hx & He1 & Hn & Hle' & Hns & (Hcpus & Hcn & Hkd & Hnp)).
  rewrite (bind_Ret _ _ _ _ _ Ha). cbn [deref]. change (0 <? 0) with false. cbn iota. rewrite bind_ret.
  assert (envs s1 !! e = Some x1) as Hx1 by (rewrite He1; apply lookup_insert_eq).
  rewrite (bind_Ret _ _ _ _ _ (upd_env_eq e (set_env_status ENV_NOT_RUNNABLE) x1 s1 Hx1)).
  set (x2 := set_env_status ENV_NOT_RUNNABLE x1). set (s2 := set_envs _ s1).
  assert (cpus s2 !! cpunum s2 = Some c) as Hc2 by (unfold s2; cbn [cpus cpunum set_envs]; by rewrite Hcpus, Hcn).
  rewrite bind_assoc, (bind_Ret _ _ _ _ _ (curenv_eq c s2 Hc2)), Hcme. cbn [deref]. rewrite bind_ret.
  assert (e <> me) as Hne by (intros ->; apply Hme; by left).
  assert (envs s2 !! me = Some ce) as Hce2.
  { unfold s2. cbn [envs set_envs]. rewrite He1, !lookup_insert_ne by done. done. }
  rewrite (bind_Ret _ _ _ _ _ (get_env_eq me ce s2 Hce2)).
  assert (envs s2 !! e = Some x2) as Hx2 by apply lookup_insert_eq.
  rewrite (bind_Ret _ _ _ _ _ (upd_env_eq e (set_env_tf (with_eax (env_tf ce) 0)) x2 s2 Hx2)).
  set (x3 := set_env_tf (with_eax (env_tf ce) 0) x2). set (s3 := set_envs _ s2).
  assert (envs s3 !! e = Some x3) as Hx3 by apply lookup_insert_eq.
  rewrite (bind_Ret _ _ _ _ _ (get_env_eq e x3 s3 Hx3)).
  exists s3, x3. destruct Hn as [N1 N2 N3 N4 N5 N6 N7 N8 N9 N10]. split_and!; try done.
  - unfold s3, s2. cbn [envs set_envs]. by rewrite He1, !insert_insert_eq.
  - by apply N1.
  - by apply N1.
  - by apply (new_space_ext s s1).
  - unfold env_free_chain in *. unfold s3, s2. cbn [envs env_free_list set_envs].
    assert (e ∉ le') by (by apply NoDup_cons, (chain_NoDup _ _ _ _ Hle)).
    by rewrite !chain_frame.
Qed.

(** sys_exofork creates a child of the caller: a fresh environment, not
    runnable, whose registers are the caller's except that it will see the
    result 0, in an address space of its own with the kernel's mappings only.
    The caller gets the child's id.  Without a free environment or page the
    result is the error and nothing has changed. *)
Theorem sys_exofork_correct (s : kstate) (me : Z) (ce : Env) (le l : list Z) (k : Z) :
  caller s me ce -> (me ∉ le) -> mem_wf s -> cpu_ok s -> free_ok s l -> env_free_chain s le -> template_ok s l k ->
  (forall i e, envs s !! i = Some e -> 0 <= env_id e < 2 ^ 31) ->
  match le, l with
  | [], _ => sys_exofork s = Ret (- E_NO_FREE_ENV) s
  | _ :: _, [] => sys_exofork s = Ret (- E_NO_MEM) s
  | e :: le', n :: l' =>
      exists s' x', sys_exofork s = Ret (env_id x') s' /\ envs s' = <[e := x']> (envs s) /\
        0 < env_id x' < 2 ^ 31 /\ ENVX (env_id x') = e /\ env_parent_id x' = env_id ce /\
        env_status x' = ENV_NOT_RUNNABLE /\ env_tf x' = with_eax (env_tf ce) 0 /\
        env_pgdir x' = page_kva n /\ new_space s s' n l' k /\ env_free_chain s' le' /\ same_machine s s'
  end.
Proof. apply sys_exofork_spec. Qed.

(** ** The dispatcher *)

(** Any process can stop the kernel with one system call: the two IPC calls
    are not implemented and a number outside the table is not refused with
    -E_NO_SYS, both panic. *)
Theorem syscall_panics `{StabSections} (s : kstate) (no a1 a2 a3 a4 a5 : Z) :
  0 <= no -> no = SYS_ipc_try_send \/ no = SYS_ipc_recv \/ NSYSCALLS <= no ->
  exists msg s', syscall no a1 a2 a3 a4 a5 s = Crash (Panic msg) s' /\ envs s' = envs s /\ pages s' = pages s.
Proof.
  intros H0 Hno. unfold syscall, SYS_ipc_try_send, SYS_ipc_recv, NSYSCALLS in *.
  destruct Hno as [-> | [-> | Hno]]; [by do 2 eexists|by do 2 eexists|].
  assert (forall k, k < 13 -> (no =? k) = false) as Hk by (intros; apply Z.eqb_neq; lia).
  unfold SYS_cputs, SYS_cgetc, SYS_getenvid, SYS_env_destroy, SYS_page_alloc, SYS_page_map, SYS_page_unmap,
    SYS_exofork, SYS_env_set_status, SYS_env_set_pgfault_upcall, SYS_yield.
  rewrite !Hk by lia. by do 2 eexists.
Qed.

Lemma running_refs j : refs running j = if decide (j = 5) then 0 else refs mapped j.
Proof.
  unfold refs. change (pages running) with (pages (after_free 5 mapped)). unfold after_free.
  cbn [pages set_page_free_list set_pages]. destruct (decide (j = 5)) as [->|].
  - by rewrite lookup_insert_eq.
  - by rewrite lookup_insert_ne.
Qed.

Lemma running_insertable : insertable running [5] 1 3 0x1000 7.
Proof.
  split.
  - rewrite running_npages. lia.
  - intros ?%list_elem_of_singleton. lia.
  - rewrite running_refs, decide_False by lia. destruct mapped_refs as [-> _]. lia.
  - unfold PGSIZE. lia.
  - intros o f. rewrite running_trans, mapped_vacant_trans. discriminate.
Qed.

Lemma sys_page_map_correct_witness : exists s', sys_page_map 0 0 0 0x1000 7 running = Ret 0 s'.
Proof.
  pose proof (sys_page_map_correct running 0 env0_running [5] running_caller running_wf running_free
    running_cpu 0 0 0 0x1000 7 ltac:(split; reflexivity || lia) ltac:(split; reflexivity || lia)) as H.
  change (resolve running 0 env0_running 0) with (Some 0) in H. cbn iota in H.
  change (va_legal 0 && va_legal 0x1000) with true in H. change (perm_legal 7) with true in H. cbn [negb] in H.
  destruct (H env0_running 1 env0_running 1 ltac:(by rewrite running_envs) eq_refl running_pgdir
    ltac:(by rewrite running_envs) eq_refl running_pgdir) as [_ H2].
  specialize (H2 3 7 ltac:(by rewrite running_trans, mapped_trans) running_insertable).
  change (has 7 PTE_W && negb (has 7 PTE_W)) with false in H2. cbn iota in H2.
  destruct H2 as [(s' & l' & new & H2 & _)|(H2 & _)]; [exists s'; exact H2|discriminate H2].
Defined.

Lemma sys_page_map_exposes_page0_witness :
  exists s', sys_page_map 0 0x5000 0 0x6000 5 running = Ret 0 s' /\ trans s' 1 0x6000 = Some (0, 5).
Proof.
  assert (insertable running [5] 1 0 0x6000 5) as Hin.
  { split.
    - rewrite running_npages. lia.
    - intros ?%list_elem_of_singleton. lia.
    - rewrite running_refs, decide_False by lia. destruct mapped_vacant as (_ & _ & ->). lia.
    - unfold PGSIZE. lia.
    - intros o f. rewrite running_trans. assert (trans mapped 1 0x6000 = None) as -> by reflexivity. discriminate. }
  destruct (sys_page_map_exposes_page0 running 0 env0_running [5] running_caller running_wf running_free running_cpu
    0 0x5000 0x6000 5 0 1 2 env0_running eq_refl ltac:(split; reflexivity || lia) ltac:(split; reflexivity || lia)
    eq_refl eq_refl eq_refl eq_refl ltac:(by rewrite running_envs) eq_refl running_pgdir) as (_ & s' & H1 & H2).
  - rewrite (tbl_kmem mapped running 1 (PDX 0x5000) running_kmem). apply mapped_vacant.
  - rewrite running_kmem. apply mapped_vacant.
  - rewrite (tbl_kmem mapped running 1 (PDX 0x6000) running_kmem). discriminate.
  - exact Hin.
  - exists s'. split; [exact H1|exact H2].
Defined.

Lemma sys_exofork_correct_witness :
  exists s' x', sys_exofork running = Ret (env_id x') s' /\ envs s' !! 1 = Some x' /\
    env_status x' = ENV_NOT_RUNNABLE /\ env_parent_id x' = 4096.
Proof.
  destruct (sys_exofork_correct running 0 env0_running [1] [5] 1 running_caller
    ltac:(intros ?%list_elem_of_singleton; lia) running_wf running_cpu running_free
    running_env_free running_template running_ids) as (s' & x' & H1 & H2 & _ & _ & H3 & H4 & _).
  exists s', x'. split; [exact H1|]. split; [rewrite H2; apply lookup_insert_eq|]. split; [exact H4|exact H3].
Defined.

#[local] Instance no_stabs : StabSections :=
  {| STAB_BEGIN := 0; STAB_END := 0; STABSTR_BEGIN := 0; STABSTR_END := 0; lit_unknown := 0 |}.

Lemma syscall_panics_witness : exists msg s', syscall 77 0 0 0 0 0 running = Crash (Panic msg) s'.
Proof.
  destruct (syscall_panics running 77 0 0 0 0 0 ltac:(lia) ltac:(right; right; unfold NSYSCALLS; lia))
    as (msg & s' & H & _).
  exists msg, s'. exact H.
Defined.
