(* ===== verification/Trap.v ===== *)
(** Traps: src/kern/trap.c - the descriptor tables, the dispatcher, the entry
    point [trap] and the user-level page-fault upcall. *)

From S2P Require Import Prelude Machine Mmu Cstring Devices KState PageAlloc PageTable Vmem Kdebug Monitor Spinlock Env Sched Syscall.

(** ** src/inc/trap.h *)

Definition T_DIVIDE : Z := 0.
Definition T_DEBUG : Z := 1.
Definition T_NMI : Z := 2.
Definition T_BRKPT : Z := 3.
Definition T_OFLOW : Z := 4.
Definition T_BOUND : Z := 5.
Definition T_ILLOP : Z := 6.
Definition T_DEVICE : Z := 7.
Definition T_DBLFLT : Z := 8.
Definition T_TSS : Z := 10.
Definition T_SEGNP : Z := 11.
Definition T_STACK : Z := 12.
Definition T_GPFLT : Z := 13.
Definition T_PGFLT : Z := 14.
Definition T_FPERR : Z := 16.
Definition T_ALIGN : Z := 17.
Definition T_MCHK : Z := 18.
Definition T_SIMDERR : Z := 19.
Definition T_SYSCALL : Z := 48.
Definition IRQ_TIMER : Z := 0.
Definition IRQ_SPURIOUS : Z := 7.

(** [struct UTrapframe]: offsets of the fields, in the order of the stores. *)
Definition SIZEOF_UTRAPFRAME : Z := 52.
Definition SIZEOF_TASKSTATE : Z := 104.

Definition excnames : list string :=
  ["Divide error"; "Debug"; "Non-Maskable Interrupt"; "Breakpoint"; "Overflow"; "BOUND Range Exceeded";
   "Invalid Opcode"; "Device Not Available"; "Double Fault"; "Coprocessor Segment Overrun"; "Invalid TSS";
   "Segment Not Present"; "Stack Fault"; "General Protection"; "Page Fault"; "(unknown trap)";
   "x87 FPU Floating-Point Error"; "Alignment Check"; "Machine-Check"; "SIMD Floating-Point Exception"]%string.

(** The comparison with the table's size is unsigned. *)
Definition trapname (trapno : Z) : string :=
  match excnames !! Z.to_nat (u32 trapno) with
  | Some n => n
  | None => if trapno =? T_SYSCALL then "System call"%string
            else if (IRQ_OFFSET <=? trapno) && (trapno <? IRQ_OFFSET + 16) then "Hardware Interrupt"%string
            else "(unknown trap)"%string
  end.

Section Trap.
Context `{StabSections} `{MonitorImage}.
(** The entry stubs of src/kern/trapentry.S, and the address of [ts]. *)
Context (idt_entries : Z -> Z) (ts_addr : Z).

(** ** Set-up *)

Definition trap_init_percpu : M unit :=
  modify (set_ts (KSTACKTOP, GD_KD, SIZEOF_TASKSTATE)) ;;
  let slot := Z.shiftr GD_TSS0 3 in
  let d := SEG16 STS_T32A ts_addr (SIZEOF_TASKSTATE - 1) 0 in
  modify (fun s => set_tss_desc (<[slot := {| sd_lim_15_0 := sd_lim_15_0 d; sd_base_15_0 := sd_base_15_0 d;
    sd_base_23_16 := sd_base_23_16 d; sd_type := sd_type d; sd_s := 0; sd_dpl := sd_dpl d; sd_p := sd_p d;
    sd_lim_19_16 := sd_lim_19_16 d; sd_avl := sd_avl d; sd_rsv1 := sd_rsv1 d; sd_db := sd_db d;
    sd_g := sd_g d; sd_base_31_24 := sd_base_31_24 d |}]> (tss_desc s)) s) ;;
  modify (set_task_reg GD_TSS0).

Definition idt_gate (i : Z) : Gatedesc :=
  SETGATE false GD_KT (idt_entries i) (if (i =? T_BRKPT) || (i =? T_SYSCALL) then 3 else 0).

Fixpoint trap_init_loop (n : nat) (i : Z) : M unit :=
  match n with
  | O => kret tt
  | S n => modify (fun s => set_idt (fun j => if j =? i then idt_gate i else idt s j) s) ;;
           trap_init_loop n (i + 1)
  end.

Definition trap_init : M unit := trap_init_loop 256 0 ;; trap_init_percpu.

(** ** Trap frames

    [tf] points either at an environment's saved frame or at the frame on the
    kernel stack, which nothing else refers to. *)

Inductive tfptr := InEnv (e : Z) | OnStack (t : Trapframe).

Definition read_tf (p : tfptr) : M Trapframe :=
  match p with InEnv e => let! x := get_env e in kret (env_tf x) | OnStack t => kret t end.

Definition write_tf (p : tfptr) (t : Trapframe) : M unit :=
  match p with InEnv e => upd_env e (set_env_tf t) | OnStack _ => kret tt end.

Definition print_regs (r : PushRegs) : M unit :=
  cprintf "  edi  0x%08x" [reg_edi r] ;; cprintf "  esi  0x%08x" [reg_esi r] ;;
  cprintf "  ebp  0x%08x" [reg_ebp r] ;; cprintf "  oesp 0x%08x" [reg_oesp r] ;;
  cprintf "  ebx  0x%08x" [reg_ebx r] ;; cprintf "  edx  0x%08x" [reg_edx r] ;;
  cprintf "  ecx  0x%08x" [reg_ecx r] ;; cprintf "  eax  0x%08x" [reg_eax r].

(** A [%s] argument is recorded in the format. [cr2] is the faulting address. *)
Definition print_trapframe (p : tfptr) (cr2 : Z) : M unit :=
  let! t := read_tf p in
  let! me := get cpunum in
  cprintf "TRAP frame at %p from CPU %d" [me] ;;
  print_regs (tf_regs t) ;;
  cprintf "  es   0x----%04x" [tf_es t] ;;
  cprintf "  ds   0x----%04x" [tf_ds t] ;;
  cprintf ("  trap 0x%08x " +:+ trapname (s32 (tf_trapno t))) [tf_trapno t] ;;
  let! last := get last_tf in
  (if match p with InEnv e => bool_decide (last = Some e) | OnStack _ => bool_decide (last = None) end &&
      (tf_trapno t =? T_PGFLT)
   then cprintf "  cr2  0x%08x" [cr2] else kret tt) ;;
  cprintf "  err  0x%08x" [tf_err t] ;;
  (if tf_trapno t =? T_PGFLT then
     cprintf (" [" +:+ (if has (tf_err t) 4 then "user" else "kernel") +:+ ", " +:+
              (if has (tf_err t) 2 then "write" else "read") +:+ ", " +:+
              (if has (tf_err t) 1 then "protection" else "not-present") +:+ "]")%string []
   else cprintf "" []) ;;
  cprintf "  eip  0x%08x" [tf_eip t] ;;
  cprintf "  cs   0x----%04x" [tf_cs t] ;;
  cprintf "  flag 0x%08x" [tf_eflags t] ;;
  (if has (tf_cs t) 3 then cprintf "  esp  0x%08x" [tf_esp t] ;; cprintf "  ss   0x----%04x" [tf_ss t]
   else kret tt).

(** The monitor prints its banner and the frame, then reads commands: the loop
    is in Monitor.v, and each line it completes takes a character that waits
    in the devices. *)
Definition monitor (tf : option tfptr) (cr2 : Z) : M unit :=
  cprintf "Welcome to the JOS kernel monitor!" [] ;;
  cprintf "Type 'help' for a list of commands." [] ;;
  (match tf with Some p => print_trapframe p cr2 | None => kret tt end) ;;
  let! d := get kio in
  monitor_loop (S (length (waiting d))).

Definition lapic_eoi : M unit :=
  let! l := get lapic in
  if l =? 0 then kret tt
  else modify (fun s => set_lapic_out ((0x00B0 / 4, 0) :: lapic_out s) s).

(** ** The page-fault upcall *)

(** The stores into the user trap frame at [utf]. *)
Definition push_utf (utf fault_va : Z) (t : Trapframe) : M unit :=
  vwrite32 utf fault_va ;;
  vwrite32 (u32 (utf + 4)) (tf_err t) ;;
  vwrite32 (u32 (utf + 8)) (reg_edi (tf_regs t)) ;;
  vwrite32 (u32 (utf + 12)) (reg_esi (tf_regs t)) ;;
  vwrite32 (u32 (utf + 16)) (reg_ebp (tf_regs t)) ;;
  vwrite32 (u32 (utf + 20)) (reg_oesp (tf_regs t)) ;;
  vwrite32 (u32 (utf + 24)) (reg_ebx (tf_regs t)) ;;
  vwrite32 (u32 (utf + 28)) (reg_edx (tf_regs t)) ;;
  vwrite32 (u32 (utf + 32)) (reg_ecx (tf_regs t)) ;;
  vwrite32 (u32 (utf + 36)) (reg_eax (tf_regs t)) ;;
  vwrite32 (u32 (utf + 40)) (tf_eip t) ;;
  vwrite32 (u32 (utf + 44)) (tf_eflags t) ;;
  vwrite32 (u32 (utf + 48)) (tf_esp t).

(** Where the frame goes: below the current exception stack pointer with a
    scratch word in between, or at the top of the exception stack. *)
Definition exception_frame (esp : Z) : Z :=
  if (UXSTACKTOP - PGSIZE <=? esp) && (esp <=? UXSTACKTOP - 1)
  then u32 (esp - SIZEOF_UTRAPFRAME - 4) else UXSTACKTOP - SIZEOF_UTRAPFRAME.

Definition with_esp_eip (t : Trapframe) (esp eip : Z) : Trapframe :=
  {| tf_regs := tf_regs t; tf_es := tf_es t; tf_ds := tf_ds t; tf_trapno := tf_trapno t; tf_err := tf_err t;
     tf_eip := eip; tf_cs := tf_cs t; tf_eflags := tf_eflags t; tf_esp := esp; tf_ss := tf_ss t |}.

Definition page_fault_handler (p : tfptr) (fault_va : Z) : M unit :=
  let! t := read_tf p in
  (if tf_cs t =? GD_KT then panic "Page fault in kernel" else kret tt) ;;
  let! c := cur in
  let! x := get_env c in
  if env_pgfault_upcall x =? 0 then
    cprintf "[%08x] user fault va %08x ip %08x" [env_id x; fault_va; tf_eip t] ;;
    print_trapframe p fault_va ;;
    let! c := cur in
    env_destroy c
  else
    user_mem_assert c (UXSTACKTOP - 4) 4 0 ;;
    let! t := read_tf p in
    let exstack := exception_frame (tf_esp t) in
    push_utf exstack fault_va t ;;
    let! c := cur in
    user_mem_assert c exstack SIZEOF_UTRAPFRAME (Z.lor (Z.lor PTE_P PTE_W) PTE_U) ;;
    let! x := get_env c in
    let! t := read_tf p in
    write_tf p (with_esp_eip t exstack (env_pgfault_upcall x)) ;;
    env_run c ;;
    panic "Unreachable code!".

(** ** Dispatch *)

Definition trap_dispatch (p : tfptr) (cr2 : Z) : M unit :=
  let! t := read_tf p in
  let no := tf_trapno t in
  if no =? IRQ_OFFSET + IRQ_SPURIOUS then
    cprintf "Spurious interrupt on irq 7" [] ;; print_trapframe p cr2
  else if no =? T_PGFLT then page_fault_handler p cr2
  else if no =? T_BRKPT then monitor (Some p) cr2
  else if no =? T_SYSCALL then
    let r := tf_regs t in
    let! v := syscall (reg_eax r) (reg_edx r) (reg_ecx r) (reg_ebx r) (reg_edi r) (reg_esi r) in
    let! t := read_tf p in
    write_tf p (with_eax t (u32 v))
  else if no =? IRQ_OFFSET + IRQ_TIMER then lapic_eoi ;; sched_yield
  else
    print_trapframe p cr2 ;;
    if tf_cs t =? GD_KT then panic "unhandled trap in kernel"
    else let! c := cur in env_destroy c.

(** [tf] is the frame the entry stub pushed; [cr2] and [eflags] are the
    registers read on the way, [tries] and [ebp] go to the kernel lock. *)
Definition trap (tf : Trapframe) (cr2 eflags : Z) (tries : nat) (ebp : Z) : M unit :=
  let! dead := get panicstr in
  (if (dead : bool) then leave_with Halted else kret tt) ;;
  let! c := thiscpu in
  set_thiscpu (set_cpu_status CPU_STARTED c) ;;
  (if bool_decide (cpu_status c = CPU_HALTED) then lock_kernel tries ebp else kret tt) ;;
  assert (negb (has eflags FL_IF)) ;;
  let! p := (if Z.land (tf_cs tf) 3 =? 3 then
               let! co := curenv in
               assert (bool_decide (co <> None)) ;;
               let! c := deref co in
               let! x := get_env c in
               (if bool_decide (env_status x = ENV_DYING) then
                  env_free c ;; set_curenv None ;; sched_yield
                else kret tt) ;;
               let! c := cur in
               upd_env c (set_env_tf tf) ;;
               kret (InEnv c)
             else kret (OnStack tf)) in
  modify (set_last_tf (match p with InEnv e => Some e | OnStack _ => None end)) ;;
  trap_dispatch p cr2 ;;
  let! co := curenv in
  let! running := (match co with
                   | Some c => let! x := get_env c in kret (bool_decide (env_status x = ENV_RUNNING))
                   | None => kret false
                   end) in
  match co, (running : bool) with
  | Some c, true => env_run c
  | _, _ => sched_yield
  end.
End Trap.

(** ** The descriptor tables *)

Section TrapInit.
Context (idt_entries : Z -> Z) (ts_addr : Z).

Lemma trap_init_loop_eq n i s : exists s',
  trap_init_loop idt_entries n i s = Ret tt s' /\ s' = set_idt (idt s') s /\
  forall j, idt s' j = if (i <=? j) && (j <? i + Z.of_nat n) then idt_gate idt_entries j else idt s j.
Proof.
  revert i s. induction n as [|n IH]; intros i s; cbn [trap_init_loop].
  - exists s. split; [done|]. split; [by destruct s|]. intros j. case_bool; done || lia.
  - mrun. destruct (IH (i + 1) (set_idt (fun j => if j =? i then idt_gate idt_entries i else idt s j) s))
      as (s' & -> & Hs & Hi).
    exists s'. split; [done|]. split; [by rewrite Hs at 1|]. intros j. rewrite Hi. cbn [idt set_idt].
    case_bool; try done; try lia. by subst.
Qed.

(** The handler's address as the processor assembles it from a gate. *)
Definition gate_offset (g : Gatedesc) : Z := gd_off_31_16 g * 2 ^ 16 + gd_off_15_0 g.

Lemma gate_offset_SETGATE t sel off dpl : is_u32 off -> gate_offset (SETGATE t sel off dpl) = off.
Proof.
  intros H. unfold gate_offset, SETGATE. cbn [gd_off_31_16 gd_off_15_0]. rewrite u32_id by done.
  change 0xffff with (2 ^ 16 - 1). rewrite land_low, Z.shiftr_div_pow2 by lia.
  pose proof (Z.div_mod off (2 ^ 16) ltac:(done)). lia.
Qed.

(** After trap_init every vector leads to its entry stub through a present
    32-bit interrupt gate in the kernel's code segment; user programs can raise
    the breakpoint and the system call themselves, and no other vector.  The
    processor switches to the stack at KSTACKTOP, through the loaded TSS
    selector. *)
Theorem trap_init_correct (s : kstate) :
  (forall i, is_u32 (idt_entries i)) ->
  exists s', trap_init idt_entries ts_addr s = Ret tt s' /\
    (forall i, 0 <= i < 256 ->
       gate_offset (idt s' i) = idt_entries i /\ gd_sel (idt s' i) = GD_KT /\ gd_type (idt s' i) = STS_IG32 /\
       gd_p (idt s' i) = 1 /\
       (3 <= gd_dpl (idt s' i) <-> i = T_BRKPT \/ i = T_SYSCALL)) /\
    (forall i, ~ 0 <= i < 256 -> idt s' i = idt s i) /\
    ts s' = (KSTACKTOP, GD_KD, SIZEOF_TASKSTATE) /\ task_reg s' = GD_TSS0 /\
    (exists d, tss_desc s' !! Z.shiftr (task_reg s') 3 = Some d /\ sd_type d = STS_T32A /\ sd_s d = 0 /\ sd_p d = 1).
Proof.
  intros He. unfold trap_init.
  destruct (trap_init_loop_eq 256 0 s) as (s1 & H1 & _ & H2). rewrite (bind_Ret _ _ _ _ _ H1).
  unfold trap_init_percpu. mrun. eexists. split; [done|].
  cbn [idt ts task_reg tss_desc set_idt set_ts set_tss_desc set_task_reg]. split_and!; try done.
  - intros i Hi. rewrite H2, (proj2 (Z.leb_le 0 i)), (proj2 (Z.ltb_lt i _)) by lia. cbn [andb].
    unfold idt_gate. rewrite gate_offset_SETGATE by done.
    cbn [gd_sel gd_type gd_p gd_dpl SETGATE]. split_and!; try done.
    destruct (Z.eqb_spec i T_BRKPT), (Z.eqb_spec i T_SYSCALL); cbn [orb]; split; lia || tauto.
  - intros i Hi. rewrite H2. case_bool; done || lia.
  - eexists. split; [apply lookup_insert_eq|]. done.
Qed.
End TrapInit.

(** ** Delivering a page fault to the user's handler *)

(** The page of the exception stack. *)
Definition XBASE : Z := UXSTACKTOP - PGSIZE.

(** [struct UTrapframe] as the words it consists of. *)
Definition utf_words (fault_va : Z) (t : Trapframe) : list Z :=
  [fault_va; tf_err t; reg_edi (tf_regs t); reg_esi (tf_regs t); reg_ebp (tf_regs t); reg_oesp (tf_regs t);
   reg_ebx (tf_regs t); reg_edx (tf_regs t); reg_ecx (tf_regs t); reg_eax (tf_regs t);
   tf_eip t; tf_eflags t; tf_esp t].

Lemma length_utf_words va t : 4 * Z.of_nat (length (utf_words va t)) = SIZEOF_UTRAPFRAME.
Proof. done. Qed.

(** Stores of consecutive words. *)
Fixpoint vwrite_words (a : Z) (w : Z) (ws : list Z) : M unit :=
  match ws with
  | [] => vwrite32 a w
  | w' :: ws => vwrite32 a w ;; vwrite_words (a + 4) w' ws
  end.

Lemma vwrite_words_eq d t p base ws s a w :
  window M_RW s d t p base -> p <> d -> p <> t -> base <= a -> a + 4 * Z.of_nat (S (length ws)) <= base + PGSIZE ->
  vwrite_words a w ws s = Ret tt (set_kmem (store_words (kmem s) (page_kva p + (a - base)) (w :: ws)) s).
Proof.
  revert s a w. induction ws as [|w' ws IH]; intros s a w W Hpd Hpt H0 H1; cbn [vwrite_words length] in *;
    destruct (window_vwrite32 s d t p base (a - base) w W Hpd Hpt ltac:(lia) ltac:(lia)) as [E W'];
    replace (base + (a - base)) with a in E by lia; [exact E|].
  mstep E. rewrite IH by (done || lia). cbn [store_words kmem set_kmem].
  by replace (page_kva p + (a + 4 - base)) with (page_kva p + (a - base) + 4) by lia.
Qed.

Lemma push_utf_words utf fault_va tf :
  0 <= utf -> utf + SIZEOF_UTRAPFRAME <= 2 ^ 32 ->
  push_utf utf fault_va tf = vwrite_words utf fault_va (tail (utf_words fault_va tf)).
Proof.
  unfold SIZEOF_UTRAPFRAME. intros H0 H1. unfold push_utf.
  rewrite !u32_id by lia. cbn [utf_words tail vwrite_words]. by rewrite <- !Z.add_assoc.
Qed.

(** The permission check of a range inside one page. *)
Lemma user_mem_check_page s l env va len perm d t e :
  mem_wf s -> pgdir_ok s l d -> self_mapped s d -> envs s !! env = Some e -> env_pgdir e = page_kva d ->
  0 <= va <= ULIM -> 0 < len -> va mod PGSIZE + len <= PGSIZE ->
  tbl s d (PDX va) = Some t -> Z.land (ld32 (kmem s) (pte_addr t va)) (Z.lor perm PTE_P) = Z.lor perm PTE_P ->
  user_mem_check env va len perm s = Ret 0 (set_user_mem_check_addr (va + PGSIZE) s).
Proof.
  intros Hwf Hpd Hself He Hd Hva Hlen Hin Ht Hl.
  assert (is_u32 va /\ u32 (va + len) = va + len) as [Hu Hul].
  { change ULIM with 0xEF800000 in Hva. unfold is_u32, PGSIZE in *. split; [lia|]. apply u32_id. word_lia. }
  rewrite (user_mem_check_eq s l env va len perm d e Hwf Hpd Hself Hu He Hd), Hul.
  assert (va < ROUNDUP (va + len) PGSIZE <= va + PGSIZE) as Hend.
  { change ULIM with 0xEF800000 in Hva. rewrite ROUNDUP_eq by (unfold PGSIZE in *; word_lia).
    unfold PGSIZE in *. word_lia. }
  unfold refused. rewrite visited_cons, visited_nil by lia.
  assert (allowed s d (Z.lor perm PTE_P) va = true) as Hal.
  { unfold allowed. rewrite Ht, Hl, Z.eqb_refl, andb_true_r. apply Z.leb_le, Hva. }
  rewrite filter_cons, Hal. simpl. done.
Qed.

(** A runnable upcall: the faulting environment is current, in its address
    space the exception page is mapped to page [p] (through table [t]), present,
    writable and for the user, and it has set a handler. *)
Record upcall_ready (s : kstate) (l : list Z) (me : Z) (ce : Env) (d t p : Z) : Prop := {
  ur_caller : caller s me ce;
  ur_wf : mem_wf s;
  ur_cpu : cpu_ok s;
  ur_dir : env_pgdir ce = page_kva d;
  ur_cr3 : cr3 s = d * PGSIZE;
  ur_pd : pgdir_ok s l d;
  ur_self : self_mapped s d;
  ur_tbl : tbl s d (PDX XBASE) = Some t;
  ur_pde : Z.land (ld32 (kmem s) (pde_addr d (PDX XBASE))) 7 = 7;
  ur_trans : fst <$> trans s d XBASE = Some p;
  ur_pte : Z.land (ld32 (kmem s) (pte_addr t XBASE)) 7 = 7;
  ur_data : data_page s d p;
  ur_upcall : env_pgfault_upcall ce <> 0;
  ur_user : tf_cs (env_tf ce) <> GD_KT }.

Section Ready.
Context (s : kstate) (l : list Z) (me : Z) (ce : Env) (d t p : Z).
Hypothesis U : upcall_ready s l me ce d t p.

Lemma xbase_user : PDX XBASE <> PDX UVPT.
Proof. done. Qed.

Lemma ready_apart : p <> d /\ p <> t.
Proof.
  destruct (ur_data _ _ _ _ _ _ _ U) as [Hpd Hpt]. split; [done|]. intros ->.
  by apply (Hpt (PDX XBASE) (PDX_in _) xbase_user), (ur_tbl _ _ _ _ _ _ _ U).
Qed.

Lemma ready_window : window M_RW s d t p XBASE.
Proof.
  destruct U as [C Hwf Hcpu Hdir Hcr3 Hpd Hself Ht Hpde Htr Hpte _ _ _].
  destruct (trans s d XBASE) as [[p' f]|] eqn:E; simplify_eq/=.
  apply (trans_window M_RW s l d t XBASE p f); try done.
  - by apply (land_mask_sub _ 7).
  - destruct (trans_slot _ _ _ _ _ Hwf E) as (t' & Ht' & _ & _ & <-). simplify_eq.
    change PGSIZE with (2 ^ 12). rewrite <- Z.land_ones, <- Z.land_assoc by lia.
    by apply (land_mask_sub _ 7).
Qed.

(** A range within the exception page passes the check. *)
Lemma ready_assert `{StabSections} va len perm :
  XBASE <= va -> 0 < len -> va + len <= UXSTACKTOP -> Z.land 7 perm = perm ->
  user_mem_assert me va len perm s = Ret tt (set_user_mem_check_addr (va + PGSIZE) s).
Proof.
  intros H0 Hlen H1 Hp. unfold user_mem_assert.
  assert (PDX va = PDX XBASE /\ PTX va = PTX XBASE /\ va mod PGSIZE = va - XBASE) as (Hd & Hx & Hm).
  { change XBASE with 0xEEBFF000 in *. change UXSTACKTOP with 0xEEC00000 in *. unfold PGSIZE.
    rewrite !PDX_eq, !PTX_eq by (unfold is_u32; lia). split_and!; word_lia. }
  assert (user_mem_check me va len (Z.lor perm PTE_U) s = Ret 0 (set_user_mem_check_addr (va + PGSIZE) s)) as Hc.
  { apply (user_mem_check_page s l me va len (Z.lor perm PTE_U) d t ce); try apply U; try done.
    - change ULIM with 0xEF800000. change XBASE with 0xEEBFF000 in *. change UXSTACKTOP with 0xEEC00000 in *. lia.
    - rewrite Hm. unfold XBASE in *. lia.
    - rewrite Hd. apply U.
    - unfold pte_addr in *. rewrite Hx. apply (land_mask_sub _ 7); [apply U|].
      rewrite !Z.land_lor_distr_r, Hp. done. }
  by mstep Hc.
Qed.
End Ready.

(** Readiness survives writes into the exception page itself. *)
Lemma upcall_ready_ext s s' l me ce d t p :
  upcall_ready s l me ce d t p -> envs s' = envs s -> cpus s' = cpus s -> cpunum s' = cpunum s ->
  npages s' = npages s -> pages s' = pages s -> cr3 s' = cr3 s -> bytes_ok (kmem s') ->
  (forall x, x < page_kva p \/ page_kva p + PGSIZE <= x -> kmem s' x = kmem s x) -> upcall_ready s' l me ce d t p.
Proof.
  intros U He Hc Hcn Hn Hp Hc3 Hb Hm.
  pose proof (ready_apart s l me ce d t p U) as [Hpd Hpt].
  assert (forall i, i <> p -> same_page s s' i) as Hsame.
  { intros i Hi x Hx. symmetry. apply Hm. unfold page_kva, PGSIZE in *. lia. }
  pose proof (pde_in_page (PDX XBASE) (PDX_in XBASE)) as [? ?]. pose proof (ptx_in_page XBASE) as [? ?].
  assert (forall i o, i <> p -> 0 <= o -> o + 4 <= PGSIZE -> ld32 (kmem s') (page_kva i + o) = ld32 (kmem s) (page_kva i + o))
    as Hld.
  { intros i o Hi H0' H1'. symmetry. apply ld32_ext. intros x Hx. apply (Hsame i Hi). lia. }
  destruct U as [[C1 C2 C3] Hwf Hcpu Hdir Hcr3 Hpgd Hself Ht Hpde Htr Hpte Hdata Hup Hus]. split; try done.
  - split; [intros i; rewrite He; apply C1|by rewrite Hc, Hcn|by rewrite He].
  - split; [by rewrite Hn; apply Hwf|intros i; rewrite Hp, Hn; apply Hwf|done].
  - destruct Hcpu as (c & Hc1 & Hc2). exists c. rewrite Hc, Hcn, He. done.
  - congruence.
  - by apply (pgdir_ok_ext s s' l l d); [..|auto|].
  - unfold self_mapped. rewrite <- (tbl_ext s s'); [done|apply PDX_in|auto].
  - rewrite <- (tbl_ext s s'); [done|apply PDX_in|auto].
  - unfold pde_addr in *. by rewrite Hld.
  - rewrite <- (trans_ext s s'); [done|auto|]. intros t' Ht'. rewrite Ht in Ht'. injection Ht' as <-. auto.
  - unfold pte_addr in *. by rewrite Hld.
  - apply (data_page_ext s s'); auto.
Qed.

Lemma store_words_bytes m a ws : bytes_ok m -> bytes_ok (store_words m a ws).
Proof. revert m a. induction ws as [|w ws IH]; intros m a Hm; cbn [store_words]; [done|]. by apply IH, st32_bytes. Qed.

(** Delivery: the state in which the environment is entered. *)
Section Deliver.
Context `{StabSections}.
Context (s : kstate) (l : list Z) (me : Z) (ce : Env) (d t p : Z).
Hypothesis U : upcall_ready s l me ce d t p.

Definition delivered (frame fault_va : Z) : kstate :=
  let s1 := set_kmem (store_words (kmem s) (page_kva p + (frame - XBASE)) (utf_words fault_va (env_tf ce))) s in
  set_envs (<[me := set_env_tf (with_esp_eip (env_tf ce) frame (env_pgfault_upcall ce)) ce]> (envs s))
    (set_user_mem_check_addr (frame + PGSIZE) s1).

Lemma cur_ready s' : upcall_ready s' l me ce d t p -> cur s' = Ret me s'.
Proof.
  intros [[_ (c & Hc & Hce) _]]. unfold cur. mstep (curenv_eq c s' Hc). by rewrite Hce.
Qed.

Lemma read_tf_ready s' : upcall_ready s' l me ce d t p -> read_tf (InEnv me) s' = Ret (env_tf ce) s'.
Proof. intros [[_ _ He]]. unfold read_tf. by mstep (get_env_eq _ _ _ He). Qed.

Lemma deliver_eq fault_va :
  let frame := exception_frame (tf_esp (env_tf ce)) in
  XBASE <= frame -> frame + SIZEOF_UTRAPFRAME <= UXSTACKTOP ->
  page_fault_handler (InEnv me) fault_va s =
    kbind (env_run me) (fun _ => panic "Unreachable code!") (delivered frame fault_va) :> outcome unit.
Proof.
  intros frame H0 H1. unfold page_fault_handler.
  mstep (read_tf_ready s U). rewrite (proj2 (Z.eqb_neq _ _) (ur_user _ _ _ _ _ _ _ U)), bind_ret.
  mstep (cur_ready s U). mstep (get_env_eq _ _ _ (ca_env _ _ _ (ur_caller _ _ _ _ _ _ _ U))).
  rewrite (proj2 (Z.eqb_neq _ _) (ur_upcall _ _ _ _ _ _ _ U)).
  mstep (ready_assert s l me ce d t p U (UXSTACKTOP - 4) 4 0 ltac:(by vm_compute) ltac:(lia) ltac:(by vm_compute)
    ltac:(done)).
  set (s1 := set_user_mem_check_addr _ s).
  assert (upcall_ready s1 l me ce d t p) as U1.
  { apply (upcall_ready_ext s); try done. apply (wf_bytes _ (ur_wf _ _ _ _ _ _ _ U)). }
  mstep (read_tf_ready s1 U1). fold frame.
  assert (0 <= frame /\ frame + SIZEOF_UTRAPFRAME <= 2 ^ 32) as [Hf0 Hf1].
  { change XBASE with 0xEEBFF000 in H0. change UXSTACKTOP with 0xEEC00000 in H1. lia. }
  assert (push_utf frame fault_va (env_tf ce) s1 = Ret tt (set_kmem (store_words (kmem s)
     (page_kva p + (frame - XBASE)) (utf_words fault_va (env_tf ce))) s1)) as Hpush.
  { rewrite push_utf_words by done. apply (vwrite_words_eq d t p XBASE _ s1).
    - by apply (ready_window s1 l me ce).
    - apply (ready_apart s l me ce d t p U).
    - apply (ready_apart s l me ce d t p U).
    - done.
    - cbn [length tail utf_words]. unfold SIZEOF_UTRAPFRAME, XBASE in *. lia. }
  mstep Hpush. set (s2 := set_kmem _ s1).
  assert (upcall_ready s2 l me ce d t p) as U2.
  { apply (upcall_ready_ext s1); try done.
    - apply store_words_bytes, (wf_bytes _ (ur_wf _ _ _ _ _ _ _ U)).
    - intros x Hx. apply store_words_out. rewrite length_utf_words. unfold XBASE, SIZEOF_UTRAPFRAME in *. lia. }
  mstep (cur_ready s2 U2).
  mstep (ready_assert s2 l me ce d t p U2 frame SIZEOF_UTRAPFRAME (Z.lor (Z.lor PTE_P PTE_W) PTE_U) H0
    ltac:(done) H1 ltac:(done)).
  set (s3 := set_user_mem_check_addr _ s2).
  assert (upcall_ready s3 l me ce d t p) as U3.
  { apply (upcall_ready_ext s2); try done. apply (wf_bytes _ (ur_wf _ _ _ _ _ _ _ U2)). }
  mstep (get_env_eq _ _ _ (ca_env _ _ _ (ur_caller _ _ _ _ _ _ _ U3))).
  mstep (read_tf_ready s3 U3). unfold write_tf.
  mstep (upd_env_eq me (set_env_tf (with_esp_eip (env_tf ce) frame (env_pgfault_upcall ce))) ce s3
    (ca_env _ _ _ (ur_caller _ _ _ _ _ _ _ U3))).
  done.
Qed.
End Deliver.

(** C14. A user page fault with a handler set: the faulting program continues in
    its handler, with its stack pointer at a 52-byte record of the fault (the
    address, the error code and the interrupted registers, in the order of
    struct UTrapframe) at the top of the exception stack or, for a fault inside
    the handler, below the interrupted frame with a scratch word in between.
    Nothing else in memory changes. *)
Theorem page_fault_upcall_correct `{StabSections} (s : kstate) (l : list Z) (me : Z) (ce : Env) (d t p fault_va : Z) :
  upcall_ready s l me ce d t p ->
  let tf := env_tf ce in
  let frame := exception_frame (tf_esp tf) in
  0 <= tf_esp tf < 2 ^ 32 -> XBASE <= frame ->
  (if decide (XBASE <= tf_esp tf < UXSTACKTOP) then frame + SIZEOF_UTRAPFRAME = tf_esp tf - 4
   else frame + SIZEOF_UTRAPFRAME = UXSTACKTOP) /\
  exists s' x', page_fault_handler (InEnv me) fault_va s = Leave (ToUser me) s' /\
    envs s' !! me = Some x' /\ env_status x' = ENV_RUNNING /\
    env_tf x' = with_esp_eip tf frame (env_pgfault_upcall ce) /\
    (forall i w, utf_words fault_va tf !! i = Some w ->
       ld32 (kmem s') (page_kva p + (frame - XBASE) + 4 * Z.of_nat i) = u32 w) /\
    (forall x, ~ page_kva p + (frame - XBASE) <= x < page_kva p + (frame - XBASE) + SIZEOF_UTRAPFRAME ->
       kmem s' x = kmem s x).
Proof.
  intros U tf frame Hesp H0.
  assert (frame + SIZEOF_UTRAPFRAME <= UXSTACKTOP) as H1.
  { unfold frame, exception_frame in *. change XBASE with 0xEEBFF000 in H0. change UXSTACKTOP with 0xEEC00000 in *.
    unfold SIZEOF_UTRAPFRAME, PGSIZE in *. revert H0. case_bool; word_lia. }
  split.
  { unfold frame, exception_frame in *. change XBASE with 0xEEBFF000 in *. change UXSTACKTOP with 0xEEC00000 in *.
    unfold SIZEOF_UTRAPFRAME, PGSIZE in *. revert H0. case_decide; case_bool; word_lia. }
  rewrite (deliver_eq s l me ce d t p U fault_va H0 H1). fold tf frame. set (s1 := delivered s me ce p frame fault_va).
  destruct (ur_caller _ _ _ _ _ _ _ U) as [_ (c & Hc & Hce) He].
  assert (mem_wf s1) as Hwf1.
  { destruct (ur_wf _ _ _ _ _ _ _ U) as [W1 W2 W3]. split; [done|done|]. by apply store_words_bytes. }
  set (x1 := set_env_tf (with_esp_eip tf frame (env_pgfault_upcall ce)) ce).
  assert (envs s1 !! me = Some x1) as Hx1 by apply lookup_insert_eq.
  assert (cpu_ok s1) as Hcpu1.
  { exists c. split; [exact Hc|]. intros i. rewrite Hce. intros [= <-]. eauto. }
  destruct (env_run_spec s1 me d x1 c Hwf1 Hcpu1 Hc Hx1 (ur_dir _ _ _ _ _ _ _ U) (pd_range _ _ _ (ur_pd _ _ _ _ _ _ _ U)))
    as (s' & x' & Hrun & _ & _ & Hx' & Hst & _ & _ & Htf & _ & _ & Hm & _).
  exists s', x'. rewrite (bind_Leave _ _ _ _ _ Hrun). split_and!; try done; rewrite Hm.
  - intros i w Hw. by apply ld32_store_words.
  - intros x Hx. apply store_words_out. rewrite length_utf_words. lia.
Qed.

(** An address without a translation cannot be written. *)
Lemma translate_unmapped s d va b :
  bytes_ok (kmem s) -> 0 <= d < 2 ^ 20 -> va < KERNBASE -> trans s d va = None ->
  translate s (d * PGSIZE) va b = None.
Proof.
  intros Hb Hd Hk. unfold trans, tbl, translate. rewrite (proj2 (Z.leb_gt KERNBASE va)) by lia.
  assert (mmu_pde s (d * PGSIZE) va = ld32 (kmem s) (pde_addr d (PDX va))) as Hpde.
  { unfold mmu_pde, pde_addr, page_kva. rewrite PTE_ADDR_eq by (unfold is_u32, PGSIZE; lia).
    do 2 f_equal. unfold PGSIZE. rewrite Z.mod_mul by done. lia. }
  rewrite Hpde. destruct (entry (ld32 (kmem s) (pde_addr d (PDX va)))) as [[t f]|] eqn:E; simpl.
  - apply entry_Some in E as (-> & Ha & _); [|by apply ld32_range]. intros E2%entry_None.
    assert (mmu_pte s (d * PGSIZE) va = ld32 (kmem s) (pte_addr t va)) as ->; [|by rewrite E2].
    unfold mmu_pte. by rewrite Hpde, Ha.
  - intros _. by rewrite (entry_None _ E).
Qed.

(** C39. An overflow of the exception stack stops the kernel: the handler writes
    the frame before it checks that the user may write there, so when the frame
    would start below the exception stack's page, where nothing is mapped, the
    kernel itself faults.  The comment promises that the environment is
    destroyed. *)
Theorem page_fault_overflow_crashes `{StabSections} (s : kstate) (l : list Z) (me : Z) (ce : Env) (d t p fault_va : Z) :
  upcall_ready s l me ce d t p ->
  let frame := exception_frame (tf_esp (env_tf ce)) in
  0 <= tf_esp (env_tf ce) < 2 ^ 32 -> frame < XBASE -> trans s d frame = None ->
  exists s', page_fault_handler (InEnv me) fault_va s = Crash (WildAccess frame) s' /\ envs s' = envs s.
Proof.
  intros U frame Hesp H0 Htr. unfold page_fault_handler.
  mstep (read_tf_ready l me ce d t p s U). rewrite (proj2 (Z.eqb_neq _ _) (ur_user _ _ _ _ _ _ _ U)), bind_ret.
  mstep (cur_ready l me ce d t p s U). mstep (get_env_eq _ _ _ (ca_env _ _ _ (ur_caller _ _ _ _ _ _ _ U))).
  rewrite (proj2 (Z.eqb_neq _ _) (ur_upcall _ _ _ _ _ _ _ U)).
  mstep (ready_assert s l me ce d t p U (UXSTACKTOP - 4) 4 0 ltac:(by vm_compute) ltac:(lia) ltac:(by vm_compute)
    ltac:(done)).
  set (s1 := set_user_mem_check_addr _ s).
  pose proof (ur_wf _ _ _ _ _ _ _ U) as Hwf. pose proof (pd_range _ _ _ (ur_pd _ _ _ _ _ _ _ U)) as Hd.
  assert (upcall_ready s1 l me ce d t p) as U1.
  { apply (upcall_ready_ext s); try done. apply (wf_bytes _ Hwf). }
  mstep (read_tf_ready l me ce d t p s1 U1). fold frame.
  assert (vaddr frame true s1 = Crash (WildAccess frame) s1) as Hv.
  { unfold vaddr. rewrite (ur_cr3 _ _ _ _ _ _ _ U1), (translate_unmapped s1 d frame true); try done.
    - apply (wf_bytes _ Hwf).
    - pose proof (wf_npages _ Hwf). lia.
    - change XBASE with 0xEEBFF000 in H0. unfold KERNBASE. lia. }
  exists s1. split; [|done]. unfold push_utf, vwrite32, vwrite8. rewrite !bind_assoc.
  by rewrite (bind_Crash _ _ _ _ _ Hv).
Qed.

(** ** The system-call path *)

(** The state in which a trap from environment [me] is dispatched. *)
Definition dispatching (s : kstate) (me : Z) (ce : Env) (c : CpuInfo) (tf : Trapframe) : kstate :=
  set_last_tf (Some me) (set_envs (<[me := set_env_tf tf ce]> (envs s))
    (set_cpus (<[cpunum s := set_cpu_status CPU_STARTED c]> (cpus s)) s)).

(** The way in: the registers are saved, and the dispatcher decides. *)
Lemma trap_entry `{StabSections} `{MonitorImage} (s : kstate) (me : Z) (ce : Env) (c : CpuInfo) (tf : Trapframe)
    (cr2 eflags : Z) (tries : nat) (ebp : Z) :
  panicstr s = false -> cpus s !! cpunum s = Some c -> cpu_status c <> CPU_HALTED -> cpu_env c = Some me ->
  envs s !! me = Some ce -> env_status ce <> ENV_DYING -> has eflags FL_IF = false -> Z.land (tf_cs tf) 3 = 3 ->
  trap tf cr2 eflags tries ebp s =
    (trap_dispatch (InEnv me) cr2 ;;
     let! co := curenv in
     let! running := (match co with
                      | Some c => let! x := get_env c in kret (bool_decide (env_status x = ENV_RUNNING))
                      | None => kret false
                      end) in
     match co, (running : bool) with
     | Some c, true => env_run c
     | _, _ => sched_yield
     end) (dispatching s me ce c tf).
Proof.
  intros Hdead Hc Hhalt Hce He Hdy Hif Hcs. unfold trap. mrun. rewrite Hdead.
  rewrite bind_ret. mstep (thiscpu_eq _ _ Hc). unfold set_thiscpu. mrun. rewrite bool_decide_false, bind_ret by done.
  rewrite Hif. cbn [negb]. unfold assert at 1. rewrite bind_ret, Hcs. change (3 =? 3) with true. cbn iota.
  set (s1 := set_cpus _ s).
  assert (cpus s1 !! cpunum s1 = Some (set_cpu_status CPU_STARTED c)) as Hc1 by apply lookup_insert_eq.
  rewrite bind_assoc. mstep (curenv_eq _ s1 Hc1). cbn [cpu_env set_cpu_status]. rewrite Hce.
  rewrite bool_decide_true by done. unfold assert. rewrite bind_assoc, bind_ret. cbn [deref]. rewrite bind_assoc, bind_ret.
  rewrite bind_assoc. mstep (get_env_eq me ce s1 He). rewrite bool_decide_false by done. rewrite bind_assoc, bind_ret.
  unfold cur. rewrite !bind_assoc. mstep (curenv_eq _ s1 Hc1). cbn [cpu_env set_cpu_status]. rewrite Hce. cbn [deref].
  rewrite bind_ret, bind_assoc. mstep (upd_env_eq me (set_env_tf tf) ce s1 He). rewrite bind_ret. mrun.
  done.
Qed.

(** C28. A system call that returns resumes its caller: the environment is
    entered again with the frame it trapped with, except that eax holds the
    result (and whatever the call itself changed in the saved frame). *)
Theorem trap_syscall_returns `{StabSections} `{MonitorImage} (s : kstate) (me d : Z) (ce : Env) (c : CpuInfo) (tf : Trapframe)
    (cr2 eflags : Z) (tries : nat) (ebp v : Z) (s2 : kstate) (x2 : Env) (c2 : CpuInfo) :
  panicstr s = false -> cpus s !! cpunum s = Some c -> cpu_status c <> CPU_HALTED -> cpu_env c = Some me ->
  envs s !! me = Some ce -> env_status ce <> ENV_DYING -> has eflags FL_IF = false ->
  Z.land (tf_cs tf) 3 = 3 -> tf_trapno tf = T_SYSCALL ->
  let r := tf_regs tf in
  syscall (reg_eax r) (reg_edx r) (reg_ecx r) (reg_ebx r) (reg_edi r) (reg_esi r) (dispatching s me ce c tf) = Ret v s2 ->
  envs s2 !! me = Some x2 -> env_status x2 = ENV_RUNNING -> env_pgdir x2 = page_kva d -> 0 <= d < npages s2 ->
  cpus s2 !! cpunum s2 = Some c2 -> cpu_env c2 = Some me -> mem_wf s2 ->
  exists s' x', trap tf cr2 eflags tries ebp s = Leave (ToUser me) s' /\
    envs s' !! me = Some x' /\ env_tf x' = with_eax (env_tf x2) (u32 v) /\ env_status x' = ENV_RUNNING /\
    cr3 s' = d * PGSIZE /\ kmem s' = kmem s2 /\ pages s' = pages s2.
Proof.
  intros Hdead Hc Hhalt Hce He Hdy Hif Hcs Hno r Hsys Hx2 Hrun Hpg Hd Hc2 Hce2 Hwf.
  rewrite (trap_entry s me ce c tf cr2 eflags tries ebp) by done.
  assert (trap_dispatch (InEnv me) cr2 (dispatching s me ce c tf) =
    Ret tt (set_envs (<[me := set_env_tf (with_eax (env_tf x2) (u32 v)) x2]> (envs s2)) s2)) as Hdis.
  { assert (envs (dispatching s me ce c tf) !! me = Some (set_env_tf tf ce)) as Hd1 by apply lookup_insert_eq.
    unfold trap_dispatch, read_tf. rewrite bind_assoc. mstep (get_env_eq _ _ _ Hd1). rewrite bind_ret.
    cbn [env_tf set_env_tf]. rewrite Hno.
    change (T_SYSCALL =? IRQ_OFFSET + IRQ_SPURIOUS) with false. change (T_SYSCALL =? T_PGFLT) with false.
    change (T_SYSCALL =? T_BRKPT) with false. rewrite Z.eqb_refl.
    subst r. mstep Hsys. rewrite bind_assoc. mstep (get_env_eq _ _ _ Hx2). rewrite bind_ret. unfold write_tf.
    by rewrite (upd_env_eq me _ x2 s2 Hx2). }
  mstep Hdis. set (s3 := set_envs _ s2).
  assert (cpus s3 !! cpunum s3 = Some c2) as Hc3 by done. mstep (curenv_eq _ _ Hc3). rewrite Hce2.
  set (x3 := set_env_tf (with_eax (env_tf x2) (u32 v)) x2) in *.
  assert (envs s3 !! me = Some x3) as Hx3 by apply lookup_insert_eq.
  rewrite bind_assoc. mstep (get_env_eq _ _ _ Hx3). rewrite bind_ret, bool_decide_true by done.
  assert (cpu_ok s3) as Hcpu3. { exists c2. split; [done|]. rewrite Hce2. intros i [= <-]. eauto. }
  assert (mem_wf s3) as Hwf3 by by apply (mem_wf_ext s2).
  destruct (env_run_spec s3 me d x3 c2 Hwf3 Hcpu3 Hc3 Hx3 Hpg Hd)
    as (s' & x' & Hr & _ & Hcr & Hx' & Hst & _ & _ & Htf & _ & _ & Hm & Hp).
  exists s', x'. done.
Qed.

(** ** A concrete fault: [running] with an exception stack in page 7 *)

Definition handler_env (esp : Z) : Env :=
  set_env_tf {| tf_regs := regs0; tf_es := 0; tf_ds := 0; tf_trapno := T_PGFLT; tf_err := 6; tf_eip := 0x800123;
                tf_cs := Z.lor GD_UT 3; tf_eflags := FL_IF; tf_esp := esp; tf_ss := Z.lor GD_UD 3 |}
    (set_env_pgfault_upcall 0x800020 env0_running).

Definition with_xstack (esp : Z) (s : kstate) : kstate :=
  set_cr3 (1 * PGSIZE)
    (set_kmem (st32 (st32 (kmem s) (pde_addr 1 (PDX XBASE)) 0x6007) (pte_addr 6 XBASE) 0x7007)
       (set_envs (<[0 := handler_env esp]> (envs s)) s)).

Lemma with_xstack_npages esp s : npages (with_xstack esp s) = npages s.
Proof. done. Qed.
Lemma with_xstack_pages esp s : pages (with_xstack esp s) = pages s.
Proof. done. Qed.
Lemma with_xstack_cpu esp s : cpus (with_xstack esp s) !! cpunum (with_xstack esp s) = cpus s !! cpunum s.
Proof. done. Qed.
Lemma with_xstack_cr3 esp s : cr3 (with_xstack esp s) = 1 * PGSIZE.
Proof. done. Qed.
Lemma with_xstack_envs esp s : envs (with_xstack esp s) = <[0 := handler_env esp]> (envs s).
Proof. done. Qed.
Lemma with_xstack_kmem esp s :
  kmem (with_xstack esp s) = st32 (st32 (kmem s) (pde_addr 1 (PDX XBASE)) 0x6007) (pte_addr 6 XBASE) 0x7007.
Proof. done. Qed.

Definition faulting (esp : Z) : kstate := with_xstack esp running.

Lemma faulting_npages esp : npages (faulting esp) = 8.
Proof. etrans; [apply with_xstack_npages|apply running_npages]. Qed.

Lemma faulting_cpu esp : cpus (faulting esp) !! cpunum (faulting esp) = Some cpu_running.
Proof. etrans; [apply with_xstack_cpu|apply booted_cpu]. Qed.

Lemma faulting_kmem esp :
  kmem (faulting esp) = st32 (st32 (kmem mapped) (pde_addr 1 (PDX XBASE)) 0x6007) (pte_addr 6 XBASE) 0x7007.
Proof. etrans; [apply with_xstack_kmem|by rewrite running_kmem]. Qed.

Lemma faulting_tbl esp i : 0 <= i < NPDENTRIES ->
  tbl (faulting esp) 1 i = if decide (i = PDX XBASE) then Some 6 else tbl mapped 1 i.
Proof.
  intros Hi. unfold tbl. rewrite faulting_kmem. change (PDX XBASE) with 954. change (PTX XBASE) with 1023.
  unfold pte_addr, pde_addr, page_kva, KERNBASE, PGSIZE, NPDENTRIES in *. change (PTX XBASE) with 1023.
  rewrite ld32_st32_ne by lia. case_decide as Hx.
  - rewrite Hx, ld32_st32_eq. done.
  - by rewrite ld32_st32_ne by lia.
Qed.

Lemma faulting_pgdir esp : pgdir_ok (faulting esp) [5] 1.
Proof.
  split.
  - rewrite faulting_npages. lia.
  - intros ?%list_elem_of_singleton. lia.
  - intros i t Hi Hu. rewrite faulting_tbl, mapped_tbl by done.
    rewrite faulting_npages.
    case_decide; [|case_decide]; intros [= <-]; (split_and!; [lia|lia| |lia]); intros ?%list_elem_of_singleton; lia.
  - intros i j t Hi Hj Hu Hv. rewrite !faulting_tbl, !mapped_tbl by done.
    intros H1 H2. destruct (decide (i = PDX XBASE)), (decide (i = 0)), (decide (j = PDX XBASE)), (decide (j = 0));
      congruence.
Qed.

Lemma faulting_wf esp : mem_wf (faulting esp).
Proof.
  destruct running_wf as [W1 W2 W3]. split.
  - rewrite faulting_npages. lia.
  - intros i. unfold faulting. rewrite with_xstack_pages, with_xstack_npages. apply W2.
  - rewrite faulting_kmem, <- running_kmem. by do 2 apply st32_bytes.
Qed.

Lemma faulting_env esp i :
  envs (faulting esp) !! i = if decide (i = 0) then Some (handler_env esp) else envs running !! i.
Proof.
  unfold faulting. rewrite with_xstack_envs.
  case_decide as H; [rewrite H; apply lookup_insert_eq|by rewrite lookup_insert_ne].
Qed.

Lemma faulting_ready esp : upcall_ready (faulting esp) [5] 0 (handler_env esp) 1 6 7.
Proof.
  assert (caller (faulting esp) 0 (handler_env esp)) as C.
  { split.
    - intros i. rewrite faulting_env. case_decide as H; [|apply running_envs_wf]. subst i.
      split; [intros _; unfold NENV; lia|eauto].
    - exists cpu_running. split; [apply faulting_cpu|done].
    - by rewrite faulting_env. }
  split; [exact C| | |done|apply with_xstack_cr3| | | | | | | |done|done].
  - apply faulting_wf.
  - exists cpu_running. split; [apply faulting_cpu|]. intros i [= <-]. rewrite faulting_env. eauto.
  - apply faulting_pgdir.
  - unfold self_mapped. rewrite faulting_tbl by apply PDX_in. by vm_compute.
  - rewrite faulting_tbl by apply PDX_in. by rewrite decide_True.
  - rewrite faulting_kmem. by vm_compute.
  - unfold trans. rewrite faulting_tbl, decide_True, faulting_kmem by (apply PDX_in || done). by vm_compute.
  - rewrite faulting_kmem. by vm_compute.
  - split; [lia|]. intros j Hj Hu. rewrite faulting_tbl, mapped_tbl by done. repeat case_decide; congruence.
Qed.

#[local] Instance no_stabs : StabSections :=
  {| STAB_BEGIN := 0; STAB_END := 0; STABSTR_BEGIN := 0; STABSTR_END := 0; lit_unknown := 0 |}.
#[local] Instance some_image : MonitorImage :=
  {| readline_buf := 0xf0200000; sym_start := 0x10000c; sym_entry := 0xf010000c;
     sym_etext := 0xf0108000; sym_edata := 0xf0120000; sym_end := 0xf0300000 |}.

Lemma trap_init_correct_witness :
  exists s', trap_init (fun i => u32 (KERNBASE + i)) 0 running = Ret tt s' /\ gd_dpl (idt s' T_SYSCALL) >= 3.
Proof.
  destruct (trap_init_correct (fun i => u32 (KERNBASE + i)) 0 running ltac:(intros i; apply u32_range)) as
    (s' & H1 & H2 & _).
  exists s'. split; [exact H1|]. apply Z.le_ge.
  apply (proj2 (proj2 (proj2 (proj2 (proj2 (H2 T_SYSCALL ltac:(unfold T_SYSCALL; lia))))))). by right.
Defined.

Lemma page_fault_upcall_correct_witness :
  exists s', page_fault_handler (InEnv 0) 0x1234 (faulting USTACKTOP) = Leave (ToUser 0) s' /\
    ld32 (kmem s') (page_kva 7 + 0xFCC) = 0x1234.
Proof.
  destruct (page_fault_upcall_correct (faulting USTACKTOP) [5] 0 (handler_env USTACKTOP) 1 6 7 0x1234
    (faulting_ready _) ltac:(by vm_compute) ltac:(by vm_compute)) as (_ & s' & x' & H1 & _ & _ & _ & H2 & _).
  exists s'. split; [exact H1|]. exact (H2 O 0x1234 eq_refl).
Defined.

Lemma page_fault_overflow_crashes_witness :
  exists s', page_fault_handler (InEnv 0) 0x1234 (faulting (XBASE + 8)) = Crash (WildAccess (XBASE - 48)) s'.
Proof.
  destruct (page_fault_overflow_crashes (faulting (XBASE + 8)) [5] 0 (handler_env (XBASE + 8)) 1 6 7 0x1234
    (faulting_ready _) ltac:(by vm_compute) ltac:(by vm_compute)) as (s' & H1 & _).
  - unfold trans. rewrite faulting_tbl, faulting_kmem by apply PDX_in. by vm_compute.
  - exists s'. exact H1.
Defined.

(** The frame of a system call [no] made by the sample environment. *)
Definition int30 (no : Z) : Trapframe :=
  {| tf_regs := {| reg_edi := 0; reg_esi := 0; reg_ebp := 0; reg_oesp := 0; reg_ebx := 0; reg_edx := 0;
                   reg_ecx := 0; reg_eax := no |};
     tf_es := 0; tf_ds := 0; tf_trapno := T_SYSCALL; tf_err := 0; tf_eip := 0x800123;
     tf_cs := Z.lor GD_UT 3; tf_eflags := FL_IF; tf_esp := USTACKTOP; tf_ss := Z.lor GD_UD 3 |}.

Lemma dispatching_env s me ce c tf : envs (dispatching s me ce c tf) !! me = Some (set_env_tf tf ce).
Proof. apply lookup_insert_eq. Qed.
Lemma dispatching_cpu s me ce c tf :
  cpus (dispatching s me ce c tf) !! cpunum (dispatching s me ce c tf) = Some (set_cpu_status CPU_STARTED c).
Proof. apply lookup_insert_eq. Qed.
Lemma dispatching_npages s me ce c tf : npages (dispatching s me ce c tf) = npages s.
Proof. done. Qed.
Lemma dispatching_wf s me ce c tf : mem_wf s -> mem_wf (dispatching s me ce c tf).
Proof. by apply mem_wf_ext. Qed.
Lemma booted_panicstr s : panicstr (booted s) = panicstr s.
Proof. done. Qed.

Lemma dispatching_caller s me ce c tf :
  caller s me ce -> cpus s !! cpunum s = Some c -> cpu_env c = Some me ->
  caller (dispatching s me ce c tf) me (set_env_tf tf ce).
Proof.
  intros [C1 _ C3] Hc Hme. split.
  - intros i. change (envs (dispatching s me ce c tf)) with (<[me := set_env_tf tf ce]> (envs s)).
    destruct (decide (me = i)) as [->|].
    + rewrite lookup_insert_eq. split; [intros _; by apply C1|eauto].
    + rewrite lookup_insert_ne by done. apply C1.
  - eexists. split; [apply dispatching_cpu|done].
  - apply dispatching_env.
Qed.

Lemma trap_syscall_returns_witness :
  exists s' x', trap (int30 SYS_getenvid) 0 0 0 0 running = Leave (ToUser 0) s' /\
    envs s' !! 0 = Some x' /\ reg_eax (tf_regs (env_tf x')) = 4096.
Proof.
  pose proof (dispatching_env running 0 env0_running cpu_running (int30 SYS_getenvid)) as He.
  pose proof (dispatching_cpu running 0 env0_running cpu_running (int30 SYS_getenvid)) as Hc.
  destruct (trap_syscall_returns running 0 1 env0_running cpu_running (int30 SYS_getenvid) 0 0 0 0 4096
    (dispatching running 0 env0_running cpu_running (int30 SYS_getenvid))
    (set_env_tf (int30 SYS_getenvid) env0_running) (set_cpu_status CPU_STARTED cpu_running)
    (eq_trans (booted_panicstr _) eq_refl) (booted_cpu _) ltac:(discriminate) eq_refl (running_envs 0) ltac:(discriminate)
    eq_refl eq_refl eq_refl (getenvid_eq _ 0 _ (dispatching_caller running 0 env0_running cpu_running _ running_caller (booted_cpu _) eq_refl)) He eq_refl eq_refl) as (s' & x' & H1 & H2 & H3 & _).
  - rewrite dispatching_npages, running_npages. lia.
  - exact Hc.
  - reflexivity.
  - apply dispatching_wf, running_wf.
  - exists s', x'. split; [exact H1|]. split; [exact H2|]. by rewrite H3.
Defined.
