(* ===== verification/Isolation.v ===== *)
(** * Isolation: the kernel's memory as a whole

    The page tables of all environments together (kern/pmap.c, kern/env.c,
    kern/syscall.c): an invariant of the kernel's state in which every page
    counts its mappings exactly and the address spaces share no tables, and the
    theorems that the system calls of a process keep it and leave the
    environments alone that the process may not act on. *)
From S2P Require Import Prelude Machine Mmu KState PageAlloc PageTable Env Syscall.

Local Open Scope Z_scope.

(** ** Counting *)

(** [zsum n f] is [f 0 + ... + f (n - 1)]. *)
Fixpoint nsum (n : nat) (f : Z -> Z) : Z :=
  match n with
  | O => 0
  | S n => nsum n f + f (Z.of_nat n)
  end.

Definition zsum (n : Z) (f : Z -> Z) : Z := nsum (Z.to_nat n) f.

(** The address of entry [j] of table [i]. *)
Definition uva (i j : Z) : Z := i * PTSIZE + j * PGSIZE.

(** How often the directory [d] maps page [p] below UTOP, by slots. *)
Definition maps_at (s : kstate) (d p i j : Z) : Z := b2z (fst <$> trans s d (uva i j) = Some p).
Definition tbl_maps (s : kstate) (d p i : Z) : Z := zsum NPTENTRIES (maps_at s d p i).
Definition dir_maps (s : kstate) (d p : Z) : Z := zsum (PDX UTOP) (tbl_maps s d p).

(** The page of an environment's directory. *)
Definition dir_of (x : Env) : Z := (env_pgdir x - KERNBASE) / PGSIZE.

(** The directory of environment [e], when it is in use. *)
Definition space (s : kstate) (e : Z) : option Z :=
  match envs s !! e with
  | Some x => if decide (env_status x = ENV_FREE) then None else Some (dir_of x)
  | None => None
  end.

(** How often page [p] is mapped by processes. *)
Definition env_maps (s : kstate) (p e : Z) : Z := match space s e with Some d => dir_maps s d p | None => 0 end.
Definition maps (s : kstate) (p : Z) : Z := zsum NENV (env_maps s p).

Definition uslot (i : Z) : Prop := 0 <= i < PDX UTOP.

(** The pages of the address space [d]: its directory and its user tables. *)
Definition owned (s : kstate) (d o : Z) : Prop := o = d \/ exists i, uslot i /\ tbl s d i = Some o.

Definition apart (s : kstate) (d d' : Z) : Prop := forall o, owned s d o -> data_page s d' o.

(** Page [p] may be mapped: it is allocated, belongs to no page table, and its
    count is the number of its mappings. *)
Record mappable (s : kstate) (l : list Z) (k p : Z) : Prop := {
  mp_range : 0 <= p < npages s;
  mp_alloc : p ∉ l;
  mp_refs : refs s p = maps s p;
  mp_bound : refs s p < 65536;
  mp_data : forall e d, space s e = Some d -> data_page s d p;
  mp_kern : data_page s k p }.

(** The invariant: [l] is the list of free pages, [le] that of free
    environments, [k] the kernel's directory. *)
Record kernel_ok (s : kstate) (l le : list Z) (k : Z) : Prop := {
  ko_wf : mem_wf s;
  ko_free : free_ok s l;
  ko_cpu : cpu_ok s;
  ko_envs : envs_wf s;
  ko_ids : forall e x, envs s !! e = Some x -> 0 <= env_id x < 2 ^ 31;
  ko_chain : env_free_chain s le;
  ko_idle : forall e x, envs s !! e = Some x -> e ∈ le <-> env_status x = ENV_FREE;
  ko_tmpl : template_ok s l k;
  ko_empty : forall i, uslot i -> tbl s k i = None;
  ko_dir : forall e d, space s e = Some d -> exists x, envs s !! e = Some x /\ env_pgdir x = page_kva d;
  ko_pd : forall e d, space s e = Some d -> pgdir_ok s l d;
  ko_own : forall e d o, space s e = Some d -> owned s d o -> refs s o = 1;
  ko_apart : forall e e' d d', space s e = Some d -> space s e' = Some d' -> e <> e' -> apart s d d';
  ko_kapart : forall e d, space s e = Some d -> apart s d k;
  ko_user : forall e d i, space s e = Some d -> uslot i -> user_slot s d i;
  ko_maps : forall p, 0 < maps s p -> mappable s l k p }.

Arguments ko_wf {_ _ _ _} _.
Arguments ko_free {_ _ _ _} _.
Arguments ko_cpu {_ _ _ _} _.
Arguments ko_envs {_ _ _ _} _.
Arguments ko_ids {_ _ _ _} _.
Arguments ko_chain {_ _ _ _} _.
Arguments ko_idle {_ _ _ _} _.
Arguments ko_tmpl {_ _ _ _} _.
Arguments ko_empty {_ _ _ _} _.
Arguments ko_dir {_ _ _ _} _ {_ _} _.
Arguments ko_pd {_ _ _ _} _ {_ _} _.
Arguments ko_own {_ _ _ _} _ {_ _ _} _ _.
Arguments ko_apart {_ _ _ _} _ {_ _ _ _} _ _ _.
Arguments ko_kapart {_ _ _ _} _ {_ _} _.
Arguments ko_user {_ _ _ _} _ {_ _ _} _ _.
Arguments ko_maps {_ _ _ _} _ {_} _.

(** The memory of [s] after writes inside page [q]. *)
Definition data_write (s : kstate) (q : Z) (m' : mem) : Prop :=
  bytes_ok m' /\ forall x, x < page_kva q \/ page_kva q + PGSIZE <= x -> m' x = kmem s x.

(** * Properties *)

(** ** Sums *)

Lemma nsum_ext n f g : (forall i, 0 <= i < Z.of_nat n -> f i = g i) -> nsum n f = nsum n g.
Proof.
  induction n as [|n IH]; intros H; [done|]. cbn [nsum]. rewrite H by lia. rewrite IH; [done|].
  intros i Hi. apply H. lia.
Qed.

Lemma nsum_change n f g k :
  0 <= k < Z.of_nat n -> (forall i, 0 <= i < Z.of_nat n -> i <> k -> g i = f i) ->
  nsum n g = nsum n f - f k + g k.
Proof.
  induction n as [|n IH]; intros Hk H; [lia|]. cbn [nsum].
  destruct (decide (k = Z.of_nat n)) as [->|Hne].
  - rewrite (nsum_ext n g f); [lia|]. intros i Hi. apply H; lia.
  - rewrite IH, (H (Z.of_nat n)) by (try lia; intros; apply H; lia). lia.
Qed.

Lemma nsum_nonneg n f : (forall i, 0 <= i < Z.of_nat n -> 0 <= f i) -> 0 <= nsum n f.
Proof.
  induction n as [|n IH]; intros H; [done|]. cbn [nsum].
  pose proof (H (Z.of_nat n) ltac:(lia)). assert (0 <= nsum n f) by (apply IH; intros; apply H; lia). lia.
Qed.

Lemma nsum_exists n f : 0 < nsum n f -> exists k, 0 <= k < Z.of_nat n /\ 0 < f k.
Proof.
  induction n as [|n IH]; cbn [nsum]; [lia|]. intros H.
  destruct (decide (0 < f (Z.of_nat n))); [exists (Z.of_nat n); lia|].
  destruct IH as (k & ? & ?); [lia|]. exists k. lia.
Qed.

Lemma of_to_nat n i : 0 <= i < Z.of_nat (Z.to_nat n) -> 0 <= i < n.
Proof. lia. Qed.

Lemma zsum_ext n f g : (forall i, 0 <= i < n -> f i = g i) -> zsum n f = zsum n g.
Proof. intros H. apply nsum_ext. intros i Hi%of_to_nat. by apply H. Qed.

Lemma zsum_change n f g k :
  0 <= k < n -> (forall i, 0 <= i < n -> i <> k -> g i = f i) -> zsum n g = zsum n f - f k + g k.
Proof. intros Hk H. apply nsum_change; [lia|]. intros i Hi%of_to_nat. by apply H. Qed.

Lemma zsum_nonneg n f : (forall i, 0 <= i < n -> 0 <= f i) -> 0 <= zsum n f.
Proof. intros H. apply nsum_nonneg. intros i Hi%of_to_nat. by apply H. Qed.

Lemma zsum_exists n f : 0 < zsum n f -> exists k, 0 <= k < n /\ 0 < f k.
Proof. intros (k & Hk%of_to_nat & ?)%nsum_exists. eauto. Qed.

Lemma zsum_pos n f k : (forall i, 0 <= i < n -> 0 <= f i) -> 0 <= k < n -> 0 < f k -> 0 < zsum n f.
Proof.
  intros H Hk Hf. rewrite (zsum_change n (fun i => if decide (i = k) then 0 else f i) f k Hk).
  - assert (0 <= zsum n (fun i => if decide (i = k) then 0 else f i))
      by (apply zsum_nonneg; intros i Hi; case_decide; [done|by apply H]).
    rewrite decide_True by done. lia.
  - intros i Hi Hne. by rewrite decide_False.
Qed.

Lemma zsum_zero n f : (forall i, 0 <= i < n -> f i = 0) -> zsum n f = 0.
Proof.
  intros H. rewrite (zsum_ext n f (fun _ => 0)) by done. unfold zsum. induction (Z.to_nat n) as [|m IH]; [done|].
  cbn [nsum]. rewrite IH. lia.
Qed.

Lemma zsum_le n f g : (forall i, 0 <= i < n -> f i <= g i) -> zsum n f <= zsum n g.
Proof.
  intros H. unfold zsum. assert (forall m, Z.of_nat m <= n \/ m = O -> nsum m f <= nsum m g) as Hm.
  { induction m as [|m IH]; intros Hn; [done|]. cbn [nsum]. specialize (H (Z.of_nat m) ltac:(lia)).
    specialize (IH ltac:(lia)). lia. }
  apply Hm. lia.
Qed.

Lemma zsum_lt n f g k :
  (forall i, 0 <= i < n -> f i <= g i) -> 0 <= k < n -> f k < g k -> zsum n f < zsum n g.
Proof.
  intros H Hk Hlt. rewrite (zsum_change n (fun i => if decide (i = k) then f k else g i) g k Hk)
    by (intros; by rewrite decide_False).
  rewrite decide_True by done.
  assert (zsum n f <= zsum n (fun i => if decide (i = k) then f k else g i)); [|lia].
  apply zsum_le. intros i Hi. case_decide as E; [by subst|by apply H].
Qed.

#[global] Opaque nsum zsum.

(** ** Counting mappings *)

Lemma b2z_nonneg P `{Decision P} : 0 <= b2z P.
Proof. unfold b2z. case_decide; lia. Qed.

Lemma b2z_false P `{Decision P} : ~ P -> b2z P = 0.
Proof. intros. unfold b2z. by rewrite decide_False. Qed.

Lemma b2z_true P `{Decision P} : P -> b2z P = 1.
Proof. intros. unfold b2z. by rewrite decide_True. Qed.

Lemma uslot_in i : uslot i -> 0 <= i < NPDENTRIES /\ i <> PDX UVPT.
Proof. unfold uslot. change (PDX UTOP) with 955. change (PDX UVPT) with 957. unfold NPDENTRIES. lia. Qed.

Lemma va_legal_slot va : is_u32 va -> va_legal va = true -> uslot (PDX va).
Proof.
  intros Hv [H _]%andb_true_iff. apply Z.ltb_lt in H. unfold uslot. change (PDX UTOP) with 955.
  change UTOP with 0xEEC00000 in H. rewrite PDX_eq by done. word_lia.
Qed.

Lemma uva_parts i j :
  uslot i -> 0 <= j < NPTENTRIES ->
  is_u32 (uva i j) /\ PDX (uva i j) = i /\ PTX (uva i j) = j /\ va_legal (uva i j) = true.
Proof.
  unfold uslot, uva, PTSIZE, NPTENTRIES, PGSIZE. change (PDX UTOP) with 955. intros Hi Hj.
  assert (is_u32 (i * (4096 * 1024) + j * 4096)) as Hu by (unfold is_u32; lia).
  split; [done|]. rewrite PDX_eq, PTX_eq by done. split; [word_lia|]. split; [word_lia|].
  unfold va_legal. change UTOP with 0xEEC00000. apply andb_true_iff. split; [apply Z.ltb_lt; lia|].
  apply Z.eqb_eq. unfold PGSIZE. word_lia.
Qed.

Lemma same_pgnum va va' :
  is_u32 va -> is_u32 va' -> (PGNUM va' = PGNUM va <-> PDX va' = PDX va /\ PTX va' = PTX va).
Proof.
  intros. split; [intros; by apply slot_same|]. intros []. by apply same_slot.
Qed.

Lemma uva_pgnum va i j :
  is_u32 va -> uslot i -> 0 <= j < NPTENTRIES -> (PGNUM (uva i j) = PGNUM va <-> i = PDX va /\ j = PTX va).
Proof. intros Hv Hi Hj. destruct (uva_parts i j Hi Hj) as (Hu & H1 & H2 & _).
  rewrite same_pgnum, H1, H2 by done. done. Qed.

Lemma maps_at_nonneg s d p i j : 0 <= maps_at s d p i j.
Proof. apply b2z_nonneg. Qed.

Lemma tbl_maps_nonneg s d p i : 0 <= tbl_maps s d p i.
Proof. apply zsum_nonneg. intros. apply maps_at_nonneg. Qed.

Lemma dir_maps_nonneg s d p : 0 <= dir_maps s d p.
Proof. apply zsum_nonneg. intros. apply tbl_maps_nonneg. Qed.

Lemma dir_maps_ext s s' d d' p :
  (forall i j, uslot i -> 0 <= j < NPTENTRIES -> trans s' d' (uva i j) = trans s d (uva i j)) ->
  dir_maps s' d' p = dir_maps s d p.
Proof.
  intros H. apply zsum_ext. intros i Hi. apply zsum_ext. intros j Hj. unfold maps_at. by rewrite H.
Qed.

Lemma tbl_maps_empty s d p i : uslot i -> tbl s d i = None -> tbl_maps s d p i = 0.
Proof.
  intros Hi H. apply zsum_zero. intros j Hj. unfold maps_at, trans.
  destruct (uva_parts i j Hi Hj) as (_ & -> & _). by rewrite H.
Qed.

Lemma dir_maps_empty s d p : (forall i, uslot i -> tbl s d i = None) -> dir_maps s d p = 0.
Proof. intros H. apply zsum_zero. intros i Hi. apply tbl_maps_empty; [done|by apply H]. Qed.

Lemma trans_uva s d va : is_u32 va -> va_legal va = true -> trans s d (uva (PDX va) (PTX va)) = trans s d va.
Proof.
  intros Hv Hl. destruct (uva_parts _ _ (va_legal_slot va Hv Hl) (PTX_range va)) as (_ & H1 & H2 & _).
  unfold trans, pte_addr. by rewrite H1, H2.
Qed.

Lemma dir_maps_pos s d va p f :
  is_u32 va -> va_legal va = true -> trans s d va = Some (p, f) -> 0 < dir_maps s d p.
Proof.
  intros Hv Hl Ht.
  apply (zsum_pos _ _ (PDX va)); [intros; apply tbl_maps_nonneg|by apply va_legal_slot|].
  apply (zsum_pos _ _ (PTX va)); [intros; apply maps_at_nonneg|apply PTX_range|].
  unfold maps_at. rewrite trans_uva, Ht by done. by rewrite b2z_true.
Qed.

Lemma dir_maps_inv s d p :
  0 < dir_maps s d p -> exists va f, is_u32 va /\ va_legal va = true /\ trans s d va = Some (p, f).
Proof.
  unfold dir_maps. intros H. apply zsum_exists in H as (i & Hi & H).
  unfold tbl_maps in H. apply zsum_exists in H as (j & Hj & H).
  destruct (uva_parts i j Hi Hj) as (? & _ & _ & ?). unfold maps_at, b2z in H. case_decide as Ht; [|lia].
  destruct (trans s d (uva i j)) as [[p' f]|] eqn:E; [|done]. exists (uva i j), f. rewrite E.
  cbn [fmap option_fmap option_map fst] in Ht. by simplify_eq.
Qed.

(** A directory that maps page [p] wherever another one does, and once more. *)
Lemma dir_maps_lt s d s' d' p va f :
  (forall i j, uslot i -> 0 <= j < NPTENTRIES ->
     fst <$> trans s d (uva i j) = Some p -> fst <$> trans s' d' (uva i j) = Some p) ->
  is_u32 va -> va_legal va = true -> fst <$> trans s d va <> Some p -> trans s' d' va = Some (p, f) ->
  dir_maps s d p < dir_maps s' d' p.
Proof.
  intros H Hv Hl Hn Ht.
  assert (forall i j, uslot i -> 0 <= j < NPTENTRIES -> maps_at s d p i j <= maps_at s' d' p i j) as Hle.
  { intros i j Hi Hj. unfold maps_at, b2z. specialize (H i j Hi Hj). repeat case_decide; try lia. tauto. }
  apply (zsum_lt _ _ _ (PDX va)); [|by apply va_legal_slot|].
  - intros i Hi. apply zsum_le. intros j Hj. by apply Hle.
  - apply (zsum_lt _ _ _ (PTX va)); [|apply PTX_range|].
    + intros j Hj. apply Hle; [by apply va_legal_slot|done].
    + unfold maps_at. rewrite !trans_uva, Ht by done. rewrite (b2z_false _ Hn), b2z_true by done. lia.
Qed.

(** One mapping changed. *)
Lemma dir_maps_change s d s' d' va p :
  is_u32 va -> va_legal va = true ->
  (forall i j, uslot i -> 0 <= j < NPTENTRIES -> uva i j <> uva (PDX va) (PTX va) ->
     trans s' d' (uva i j) = trans s d (uva i j)) ->
  dir_maps s' d' p = dir_maps s d p - b2z (fst <$> trans s d va = Some p) + b2z (fst <$> trans s' d' va = Some p).
Proof.
  intros Hv Hl He. pose proof (va_legal_slot va Hv Hl) as Hi.
  assert (0 <= PTX va < NPTENTRIES) as Hj by apply PTX_range.
  assert (forall i j, uslot i -> 0 <= j < NPTENTRIES -> i <> PDX va \/ j <> PTX va ->
    maps_at s' d' p i j = maps_at s d p i j) as He'.
  { intros i j Hi' Hj' Hne. unfold maps_at. rewrite He; [done|done|done|]. intros E.
    destruct (uva_parts i j Hi' Hj') as (_ & H1 & H2 & _). rewrite E in H1, H2.
    destruct (uva_parts _ _ Hi Hj) as (_ & H3 & H4 & _). lia. }
  unfold dir_maps. rewrite (zsum_change _ (tbl_maps s d p) (tbl_maps s' d' p) (PDX va) Hi).
  - unfold tbl_maps.
    rewrite (zsum_change _ (maps_at s d p (PDX va)) (maps_at s' d' p (PDX va)) (PTX va) Hj) by (intros; apply He'; auto).
    unfold maps_at. rewrite !trans_uva by done. lia.
  - intros i Hi' Hne. apply zsum_ext. intros j Hj'. apply He'; auto.
Qed.

Lemma dir_maps_step s s' l d va m dr p :
  pt_step s s' l d va m dr -> is_u32 va -> va_legal va = true ->
  dir_maps s' d p = dir_maps s d p - b2z (fst <$> trans s d va = Some p) + b2z (fst <$> m = Some p).
Proof.
  intros S Hv Hl. assert (trans s' d va = m) as <- by (apply (ps_here S); done).
  apply dir_maps_change; [done|done|]. intros i j Hi Hj Hne. destruct (uva_parts i j Hi Hj) as (Hu & Hd & _).
  apply (ps_else S); [done|rewrite Hd; by apply uslot_in|].
  rewrite uva_pgnum by done. intros [-> ->]. done.
Qed.

(** ** Address spaces *)

Lemma space_lookup s e d : space s e = Some d -> exists x, envs s !! e = Some x /\ env_status x <> ENV_FREE.
Proof. unfold space. destruct (envs s !! e) as [x|]; [|done]. case_decide; [done|]. eauto. Qed.

Lemma space_range s e d : envs_wf s -> space s e = Some d -> 0 <= e < NENV.
Proof. intros Hw (x & Hx & _)%space_lookup. apply Hw. eauto. Qed.

Lemma env_maps_nonneg s p e : 0 <= env_maps s p e.
Proof. unfold env_maps. destruct (space s e); [apply dir_maps_nonneg|done]. Qed.

Lemma env_maps_eq s p e d : space s e = Some d -> env_maps s p e = dir_maps s d p.
Proof. unfold env_maps. by intros ->. Qed.

Lemma maps_nonneg s p : 0 <= maps s p.
Proof. apply zsum_nonneg. intros. apply env_maps_nonneg. Qed.

Lemma maps_ext s s' p : (forall e, 0 <= e < NENV -> env_maps s' p e = env_maps s p e) -> maps s' p = maps s p.
Proof. intros H. by apply zsum_ext. Qed.

(** Only the mappings of environment [e] changed. *)
Lemma maps_change s s' e p :
  0 <= e < NENV -> (forall e', 0 <= e' < NENV -> e' <> e -> env_maps s' p e' = env_maps s p e') ->
  maps s' p = maps s p - env_maps s p e + env_maps s' p e.
Proof. intros He H. by apply (zsum_change _ _ _ e). Qed.

Lemma maps_ge s e p : 0 <= e < NENV -> env_maps s p e <= maps s p.
Proof.
  intros He. unfold maps.
  rewrite (zsum_change _ (fun e' => if decide (e' = e) then 0 else env_maps s p e') (env_maps s p) e He).
  - assert (0 <= zsum NENV (fun e' => if decide (e' = e) then 0 else env_maps s p e')).
    { apply zsum_nonneg. intros i _. case_decide; [done|apply env_maps_nonneg]. }
    rewrite decide_True by done. lia.
  - intros. by rewrite decide_False.
Qed.

Lemma maps_ge2 s e1 e2 p : 0 <= e1 < NENV -> 0 <= e2 < NENV -> e1 <> e2 -> env_maps s p e1 + env_maps s p e2 <= maps s p.
Proof.
  intros H1 H2 Hne. unfold maps.
  rewrite (zsum_change _ (fun e' => if decide (e' = e1) then 0 else env_maps s p e') (env_maps s p) e1 H1)
    by (intros; by rewrite decide_False).
  rewrite (zsum_change _ (fun e' => if decide (e' = e1) then 0 else if decide (e' = e2) then 0 else env_maps s p e')
    (fun e' => if decide (e' = e1) then 0 else env_maps s p e') e2 H2).
  - assert (0 <= zsum NENV (fun e' => if decide (e' = e1) then 0 else if decide (e' = e2) then 0 else env_maps s p e')).
    { apply zsum_nonneg. intros i _. repeat case_decide; try done. apply env_maps_nonneg. }
    rewrite (decide_True _ _ (eq_refl e1)), !(decide_False _ _ (not_eq_sym Hne)), (decide_True _ _ (eq_refl e2)). lia.
  - intros i _ Hi. by rewrite (decide_False _ _ Hi).
Qed.

Lemma mapped_maps s e d va p f :
  envs_wf s -> space s e = Some d -> is_u32 va -> va_legal va = true -> trans s d va = Some (p, f) -> 0 < maps s p.
Proof.
  intros Hw Hs Hv Hl Ht. pose proof (dir_maps_pos s d va p f Hv Hl Ht).
  pose proof (maps_ge s e p (space_range s e d Hw Hs)) as Hg. rewrite (env_maps_eq s p e d Hs) in Hg. lia.
Qed.

(** ** A changed mapping keeps the invariant *)

Lemma free_data s l d n : pgdir_ok s l d -> n ∈ l -> data_page s d n.
Proof.
  intros P Hn. split; [intros ->; by apply (pd_alloc _ _ _ P)|].
  intros j Hj Hu Ht. by destruct (pd_tbl _ _ _ P j n Hj Hu Ht) as (_ & ? & _).
Qed.

(** The pages that hold directory [d]'s tables, the kernel's included. *)
Definition part_of (s : kstate) (d o : Z) : Prop :=
  o = d \/ exists j, 0 <= j < NPDENTRIES /\ j <> PDX UVPT /\ tbl s d j = Some o.

Lemma data_not_part s d o : data_page s d o -> part_of s d o -> False.
Proof. intros [H1 H2] [->|(j & Hj & Hu & Ht)]; [done|]. by apply (H2 j). Qed.

Lemma owned_part s d o : owned s d o -> part_of s d o.
Proof. intros [->|(i & Hi%uslot_in & Ht)]; [by left|right]. exists i. tauto. Qed.

Lemma part_alloc s l d o : pgdir_ok s l d -> part_of s d o -> o ∉ l.
Proof. intros P Ho Hl. by apply (data_not_part s d o (free_data s l d o P Hl)). Qed.

(** Nothing that makes up [d'] is written. *)
Definition parts_kept (s s' : kstate) (d' : Z) : Prop := forall o, part_of s d' o -> same_page s s' o.

Section PartsKept.
Context (s s' : kstate) (d' : Z).
Hypothesis Hk : parts_kept s s' d'.

Lemma kept_tbl j : 0 <= j < NPDENTRIES -> tbl s' d' j = tbl s d' j.
Proof. intros Hj. symmetry. apply tbl_ext; [done|]. apply Hk. by left. Qed.

Lemma kept_trans va : PDX va <> PDX UVPT -> trans s' d' va = trans s d' va.
Proof.
  intros Hu. symmetry. apply trans_ext; [apply Hk; by left|]. intros t Ht. apply Hk. right.
  exists (PDX va). split; [apply PDX_in|done].
Qed.

Lemma kept_dir_maps p : dir_maps s' d' p = dir_maps s d' p.
Proof.
  apply dir_maps_ext. intros i j Hi Hj. apply kept_trans. destruct (uva_parts i j Hi Hj) as (_ & -> & _).
  by apply uslot_in.
Qed.

Lemma kept_owned o : owned s' d' o <-> owned s d' o.
Proof.
  assert (forall i, uslot i -> tbl s' d' i = tbl s d' i) as Ht by (intros i Hi; by apply kept_tbl, uslot_in).
  split; (intros [->|(i & Hi & Hio)]; [by left|right; exists i; split; [done|]]); [by rewrite <- Ht|by rewrite Ht].
Qed.

Lemma kept_data p : data_page s d' p -> data_page s' d' p.
Proof. apply data_page_ext, Hk. by left. Qed.

Lemma kept_pd l l' : pgdir_ok s l d' -> npages s' = npages s -> (forall o, part_of s d' o -> o ∉ l') -> pgdir_ok s' l' d'.
Proof.
  intros [P1 P2 P3 P4] Hn Hl. split.
  - by rewrite Hn.
  - apply Hl. by left.
  - intros i t Hi Hu. rewrite kept_tbl, Hn by done. intros Ht. destruct (P3 i t Hi Hu Ht) as (? & _ & ?).
    split; [done|]. split; [|done]. apply Hl. right. eauto.
  - intros i j t Hi Hj Hui Huj. rewrite !kept_tbl by done. eauto.
Qed.

Lemma kept_user i : uslot i -> user_slot s d' i -> user_slot s' d' i.
Proof.
  intros [Hi _]%uslot_in. unfold user_slot. rewrite kept_tbl by done. pose proof (pde_in_page i Hi).
  rewrite (ld32_ext (kmem s') (kmem s)); [done|]. intros x Hx. symmetry.
  apply (Hk d' (or_introl eq_refl)). unfold pde_addr in Hx. lia.
Qed.
End PartsKept.

Section Remap.
Context (s s' : kstate) (l l' le : list Z) (k e d va : Z) (m : option (Z * Z)) (new : option Z).
Hypothesis K : kernel_ok s l le k.
Hypothesis Hs : space s e = Some d.
Hypothesis Hva : is_u32 va.
Hypothesis Hl : va_legal va = true.
Hypothesis R : remapped s s' l l' d va m new.
Hypothesis Hm : forall p, fst <$> m = Some p -> mappable s l k p /\ refs s p < 65535.

Lemma remap_old o : fst <$> trans s d va = Some o -> mappable s l k o.
Proof.
  intros Ho. destruct (trans s d va) as [[o' f]|] eqn:E; [|done]. injection Ho as ->.
  by apply (ko_maps K), (mapped_maps s e d va o f (ko_envs K)).
Qed.

Lemma remap_new n : new = Some n -> n ∈ l.
Proof. exact (rmp_from n R). Qed.

(** The table of [va] is the space's own, or was free. *)
Lemma remap_slot t : tbl s' d (PDX va) = Some t -> owned s d t \/ new = Some t.
Proof.
  pose proof (rmp_new R) as Hn. destruct new as [n|].
  - destruct Hn as (_ & _ & _ & ->). intros [= ->]. by right.
  - destruct Hn as (t' & Ht & ->). intros [= ->]. left. right. exists (PDX va). split; [by apply va_legal_slot|done].
Qed.

Lemma remap_owned o : owned s' d o -> owned s d o \/ new = Some o.
Proof.
  intros [->|(i & Hi & Ht)]; [by left; left|]. destruct (decide (i = PDX va)) as [->|Hne]; [by apply remap_slot|].
  rewrite (ps_tbl_other (rmp_step R)) in Ht by (by apply uslot_in || done). left. right. eauto.
Qed.

Lemma remap_data p : data_page s d p -> new <> Some p -> data_page s' d p.
Proof.
  intros Hd Hn. split; [apply Hd|]. intros j Hj Hu Ht. destruct (decide (j = PDX va)) as [->|Hne].
  - destruct (remap_slot p Ht) as [Ho|]; [|done]. by apply (data_not_part s d p Hd), owned_part.
  - rewrite (ps_tbl_other (rmp_step R)) in Ht by done. by apply (proj2 Hd j).
Qed.

(** Another directory: its parts are not written, and stay off the free list. *)
Record elsewhere (d' : Z) : Prop := {
  el_apart : apart s d d';
  el_pd : pgdir_ok s l d';
  el_maps : forall p, mappable s l k p -> data_page s d' p }.

Lemma elsewhere_env e' d' : space s e' = Some d' -> e' <> e -> elsewhere d'.
Proof.
  intros Hs' Hne. split; [by apply (ko_apart K Hs Hs')|exact (ko_pd K Hs')|]. intros p Hp. by apply (mp_data _ _ _ _ Hp e').
Qed.

Lemma elsewhere_kern : elsewhere k.
Proof. split; [by apply (ko_kapart K Hs)|apply (tm_pd _ _ _ (ko_tmpl K))|]. intros p Hp. apply Hp. Qed.

Lemma elsewhere_kept d' : elsewhere d' -> parts_kept s s' d'.
Proof.
  intros [Ha P _] o Ho. apply (ps_mem (rmp_step R)).
  - intros ->. exact (data_not_part s d' d (Ha d (or_introl eq_refl)) Ho).
  - intros Ht. destruct (remap_slot o Ht) as [Hd|Hn].
    + exact (data_not_part s d' o (Ha o Hd) Ho).
    + by apply (part_alloc s l d' o P Ho), remap_new.
Qed.

Lemma elsewhere_alloc d' o : elsewhere d' -> part_of s d' o -> o ∉ l'.
Proof.
  intros [_ P Hd] Ho [[Hin _]|(Hold & _)]%(rmp_free R).
  - by apply (part_alloc s l d' o P Ho).
  - by apply (data_not_part s d' o (Hd o (remap_old o Hold))).
Qed.

Lemma elsewhere_pd d' : elsewhere d' -> pgdir_ok s' l' d'.
Proof.
  intros E. apply (kept_pd s s' d' (elsewhere_kept d' E) l l' (el_pd d' E)); [apply (mm_npages _ _ (ps_mm (rmp_step R)))|].
  intros o. by apply elsewhere_alloc.
Qed.

(** Counts of pages that are not mapped: only a new table's changes. *)
Lemma remap_refs_part e' d' o : space s e' = Some d' -> owned s d' o -> refs s' o = 1.
Proof.
  intros Hs' Ho. rewrite (ps_refs (rmp_step R)), (ko_own K Hs' Ho). rewrite !b2z_false; [done|..].
  - intros Hn%remap_new. pose proof (refs_free s l o (ko_free K) Hn). pose proof (ko_own K Hs' Ho). lia.
  - intros Hx%remap_old. exact (data_not_part s d' o (mp_data _ _ _ _ Hx e' d' Hs') (owned_part s d' o Ho)).
  - intros Hx%Hm. exact (data_not_part s d' o (mp_data _ _ _ _ (proj1 Hx) e' d' Hs') (owned_part s d' o Ho)).
Qed.

Lemma remap_space e' : space s' e' = space s e'.
Proof. unfold space. by rewrite (mm_envs _ _ (ps_mm (rmp_step R))). Qed.

Lemma remap_own e' d' o : space s' e' = Some d' -> owned s' d' o -> refs s' o = 1.
Proof.
  rewrite remap_space. intros Hs' Ho. destruct (decide (e' = e)) as [->|Hne].
  - rewrite Hs in Hs'. injection Hs' as <-. destruct (remap_owned o Ho) as [Ho'|Hn]; [by apply (remap_refs_part e d)|].
    pose proof (remap_new o Hn) as Hin. rewrite (ps_refs (rmp_step R)), (refs_free s l o (ko_free K) Hin).
    rewrite (b2z_true _ Hn), !b2z_false; [done|..].
    + intros Hx%remap_old. by apply (mp_alloc _ _ _ _ Hx).
    + intros Hx%Hm. by apply (mp_alloc _ _ _ _ (proj1 Hx)).
  - apply (remap_refs_part e' d' o Hs'). by apply (kept_owned s s' d' (elsewhere_kept d' (elsewhere_env e' d' Hs' Hne))).
Qed.

(** What is apart from [d] stays apart from it, in both directions. *)
Lemma remap_apart_from d' : elsewhere d' -> apart s' d d'.
Proof.
  intros E o Ho. apply (kept_data s s' d' (elsewhere_kept d' E)).
  destruct (remap_owned o Ho) as [Ho'|Hn]; [by apply (el_apart d' E)|].
  by apply (free_data s l d' o (el_pd d' E)), remap_new.
Qed.

Lemma remap_apart_to e' d' : space s e' = Some d' -> e' <> e -> apart s' d' d.
Proof.
  intros Hs' Hne o Ho. apply (kept_owned s s' d' (elsewhere_kept d' (elsewhere_env e' d' Hs' Hne))) in Ho.
  apply remap_data; [by apply (ko_apart K Hs' Hs Hne)|]. intros Hn.
  apply (part_alloc s l d' o (ko_pd K Hs') (owned_part s d' o Ho)). by apply remap_new.
Qed.

Lemma remap_apart_both e1 e2 d1 d2 :
  space s e1 = Some d1 -> space s e2 = Some d2 -> e1 <> e -> e2 <> e -> e1 <> e2 -> apart s' d1 d2.
Proof.
  intros H1 H2 N1 N2 Hne o Ho. apply (kept_owned s s' d1 (elsewhere_kept d1 (elsewhere_env e1 d1 H1 N1))) in Ho.
  apply (kept_data s s' d2 (elsewhere_kept d2 (elsewhere_env e2 d2 H2 N2))). by apply (ko_apart K H1 H2 Hne).
Qed.

Lemma remap_apart e1 e2 d1 d2 : space s' e1 = Some d1 -> space s' e2 = Some d2 -> e1 <> e2 -> apart s' d1 d2.
Proof.
  rewrite !remap_space. intros H1 H2 Hne. destruct (decide (e1 = e)) as [->|N1], (decide (e2 = e)) as [->|N2]; [done|..].
  - rewrite Hs in H1. injection H1 as <-. by apply remap_apart_from, (elsewhere_env e2).
  - rewrite Hs in H2. injection H2 as <-. by apply (remap_apart_to e1).
  - by apply (remap_apart_both e1 e2).
Qed.

Lemma remap_kapart e1 d1 : space s' e1 = Some d1 -> apart s' d1 k.
Proof.
  rewrite remap_space. intros H1. destruct (decide (e1 = e)) as [->|N1].
  - rewrite Hs in H1. injection H1 as <-. apply remap_apart_from, elsewhere_kern.
  - intros o Ho. apply (kept_owned s s' d1 (elsewhere_kept d1 (elsewhere_env e1 d1 H1 N1))) in Ho.
    apply (kept_data s s' k (elsewhere_kept k elsewhere_kern)). by apply (ko_kapart K H1).
Qed.

(** The count of every page follows its mappings. *)
Lemma remap_maps p :
  maps s' p = maps s p - b2z (fst <$> trans s d va = Some p) + b2z (fst <$> m = Some p).
Proof.
  rewrite (maps_change s s' e p (space_range s e d (ko_envs K) Hs)).
  - assert (space s' e = Some d) as Hs' by by rewrite remap_space.
    rewrite (env_maps_eq s p e d Hs), (env_maps_eq s' p e d Hs').
    rewrite (dir_maps_step s s' l' d va m _ p (rmp_step R) Hva Hl). lia.
  - intros e' _ Hne. unfold env_maps. rewrite remap_space. destruct (space s e') as [d'|] eqn:Hs'; [|done].
    apply kept_dir_maps. apply elsewhere_kept, (elsewhere_env e'); done.
Qed.

Lemma remap_mappable p : 0 < maps s' p -> mappable s' l' k p.
Proof.
  rewrite remap_maps. intros Hp.
  assert (mappable s l k p) as M.
  { destruct (decide (fst <$> m = Some p)) as [Hx|Hx]; [by apply Hm|].
    apply (ko_maps K). pose proof (b2z_nonneg (fst <$> trans s d va = Some p)).
    rewrite (b2z_false _ Hx) in Hp. lia. }
  assert (new <> Some p) as Hnew by (intros Hn%remap_new; by apply (mp_alloc _ _ _ _ M)).
  pose proof (mp_refs _ _ _ _ M) as Mr. pose proof (mp_bound _ _ _ _ M) as Mb.
  assert (refs s' p = maps s' p) as Hr.
  { rewrite (ps_refs (rmp_step R)), remap_maps, Mr, (b2z_false _ Hnew). lia. }
  split.
  - rewrite (mm_npages _ _ (ps_mm (rmp_step R))). apply M.
  - intros [[Hin _]|(Ho & H1 & Hnm)]%(rmp_free R); [by apply (mp_alloc _ _ _ _ M)|].
    rewrite (b2z_true _ Ho), (b2z_false _ Hnm) in Hp. lia.
  - done.
  - rewrite Hr, remap_maps. pose proof (b2z_nonneg (fst <$> trans s d va = Some p)).
    destruct (decide (fst <$> m = Some p)) as [Hx|Hx].
    + rewrite (b2z_true _ Hx). pose proof (proj2 (Hm p Hx)). lia.
    + rewrite (b2z_false _ Hx). lia.
  - intros e' d'. rewrite remap_space. intros Hs'. destruct (decide (e' = e)) as [->|Hne].
    + rewrite Hs in Hs'. injection Hs' as <-. by apply remap_data, Hnew; apply (mp_data _ _ _ _ M e).
    + apply (kept_data s s' d'), (mp_data _ _ _ _ M e' d' Hs'). by apply elsewhere_kept, (elsewhere_env e').
  - apply (kept_data s s' k (elsewhere_kept k elsewhere_kern)), M.
Qed.

Lemma kernel_ok_remap : kernel_ok s' l' le k.
Proof.
  pose proof (ps_mm (rmp_step R)) as Hmm. pose proof (mm_envs _ _ Hmm) as He.
  split.
  - apply (rmp_step R).
  - apply (rmp_step R).
  - apply (cpu_ok_mm s s' Hmm), (ko_cpu K).
  - intros i. rewrite He. apply (ko_envs K).
  - intros i x. rewrite He. apply (ko_ids K).
  - unfold env_free_chain. rewrite He, (mm_env_free_list _ _ Hmm). apply (ko_chain K).
  - intros i x. rewrite He. apply (ko_idle K).
  - split; [|apply elsewhere_pd, elsewhere_kern]. rewrite <- (tm_va _ _ _ (ko_tmpl K)). exact (f_equal kern_pgdir Hmm).
  - intros i Hi. rewrite (kept_tbl s s' k (elsewhere_kept k elsewhere_kern)) by by apply uslot_in.
    by apply (ko_empty K).
  - intros e' d'. rewrite remap_space, He. apply (ko_dir K).
  - intros e' d'. rewrite remap_space. intros Hs'. destruct (decide (e' = e)) as [->|Hne].
    + rewrite Hs in Hs'. injection Hs' as <-. apply (rmp_step R).
    + by apply elsewhere_pd, (elsewhere_env e').
  - apply remap_own.
  - apply remap_apart.
  - apply remap_kapart.
  - intros e' d' i. rewrite remap_space. intros Hs' Hi. destruct (decide (e' = e)) as [->|Hne].
    + rewrite Hs in Hs'. injection Hs' as <-. apply (ps_user (rmp_step R)); [by apply uslot_in|]. by apply (ko_user K Hs).
    + apply (kept_user s s' d'); [|done|by apply (ko_user K Hs')]. by apply elsewhere_kept, (elsewhere_env e').
  - apply remap_mappable.
Qed.
End Remap.

(** ** Steps that change no page table *)

(** Page [o] holds some page table. *)
Definition in_tables (s : kstate) (k o : Z) : Prop :=
  part_of s k o \/ exists e d, space s e = Some d /\ part_of s d o.

Lemma in_tables_alloc s l le k o : kernel_ok s l le k -> in_tables s k o -> o ∉ l.
Proof.
  intros K [Ho|(e & d & Hs & Ho)]; [by apply (part_alloc s l k o (tm_pd _ _ _ (ko_tmpl K)))|].
  by apply (part_alloc s l d o (ko_pd K Hs)).
Qed.

Lemma in_tables_mapped s l le k p : kernel_ok s l le k -> 0 < maps s p -> ~ in_tables s k p.
Proof.
  intros K Hp%(ko_maps K) [Ho|(e & d & Hs & Ho)]; [by apply (data_not_part s k p (mp_kern _ _ _ _ Hp))|].
  by apply (data_not_part s d p (mp_data _ _ _ _ Hp e d Hs)).
Qed.

(** The environments' records may change, not which are in use or where their
    directories are. *)
Record envs_ok (s s' : kstate) (le : list Z) : Prop := {
  eo_cpu : cpu_ok s';
  eo_envs : envs_wf s';
  eo_ids : forall e x, envs s' !! e = Some x -> 0 <= env_id x < 2 ^ 31;
  eo_chain : env_free_chain s' le;
  eo_idle : forall e x, envs s' !! e = Some x -> e ∈ le <-> env_status x = ENV_FREE;
  eo_space : forall e, space s' e = space s e;
  eo_dir : forall e d, space s' e = Some d -> exists x, envs s' !! e = Some x /\ env_pgdir x = page_kva d }.

Lemma envs_ok_same s s' l le k :
  kernel_ok s l le k -> envs s' = envs s -> env_free_list s' = env_free_list s -> cpus s' = cpus s ->
  cpunum s' = cpunum s -> envs_ok s s' le.
Proof.
  intros K He Hl Hc Hn. assert (forall e, space s' e = space s e) as Hs by (intros e; unfold space; by rewrite He).
  split; try (by rewrite ?He; apply K).
  - destruct (ko_cpu K) as (c & H1 & H2). exists c. by rewrite Hc, Hn, He.
  - intros i. rewrite He. apply (ko_envs K).
  - unfold env_free_chain. rewrite He, Hl. apply (ko_chain K).
  - done.
  - intros e d. rewrite Hs, He. apply (ko_dir K).
Qed.

Section Still.
Context (s s' : kstate) (l l' le : list Z) (k : Z).
Hypothesis K : kernel_ok s l le k.
Hypothesis E : envs_ok s s' le.
Hypothesis Hnp : npages s' = npages s.
Hypothesis Hkd : kern_pgdir s' = kern_pgdir s.
Hypothesis Hwf : mem_wf s'.
Hypothesis Hf : free_ok s' l'.
Hypothesis Hmem : forall o, in_tables s k o -> same_page s s' o /\ o ∉ l'.
Hypothesis Hrefs : forall j, refs s' j = refs s j.
Hypothesis Halloc : forall p, 0 < maps s p -> p ∉ l'.

Lemma still_kept e d : space s e = Some d -> parts_kept s s' d.
Proof. intros Hs o Ho. apply Hmem. right. eauto. Qed.

Lemma still_kern : parts_kept s s' k.
Proof. intros o Ho. apply Hmem. by left. Qed.

Lemma still_maps p : maps s' p = maps s p.
Proof.
  apply maps_ext. intros e _. unfold env_maps. rewrite (eo_space _ _ _ E).
  destruct (space s e) as [d|] eqn:Hs; [|done]. apply kept_dir_maps. by apply (still_kept e).
Qed.

Lemma still_mappable p : mappable s l k p -> (p ∉ l') -> mappable s' l' k p.
Proof.
  intros [M1 M2 M3 M4 M5 M6] Hp. split; try done.
  - by rewrite Hnp.
  - by rewrite Hrefs, still_maps.
  - by rewrite Hrefs.
  - intros e d. rewrite (eo_space _ _ _ E). intros Hs. apply (kept_data s s' d); [by apply (still_kept e)|by apply (M5 e)].
  - by apply (kept_data s s' k still_kern).
Qed.

Lemma kernel_ok_still : kernel_ok s' l' le k.
Proof.
  split; try apply E; try done.
  - split; [rewrite Hkd; apply (tm_va _ _ _ (ko_tmpl K))|].
    apply (kept_pd s s' k still_kern l l'); [apply (tm_pd _ _ _ (ko_tmpl K))|done|]. intros o Ho. apply Hmem. by left.
  - intros i Hi. rewrite (kept_tbl s s' k still_kern) by by apply uslot_in. by apply (ko_empty K).
  - intros e d. rewrite (eo_space _ _ _ E). intros Hs.
    apply (kept_pd s s' d (still_kept e d Hs) l l'); [exact (ko_pd K Hs)|done|]. intros o Ho. apply Hmem. right. eauto.
  - intros e d o. rewrite (eo_space _ _ _ E), Hrefs. intros Hs Ho%(kept_owned s s' d (still_kept e d Hs)).
    by apply (ko_own K Hs).
  - intros e e' d d'. rewrite !(eo_space _ _ _ E). intros Hs Hs' Hne o Ho%(kept_owned s s' d (still_kept e d Hs)).
    apply (kept_data s s' d' (still_kept e' d' Hs')). by apply (ko_apart K Hs Hs').
  - intros e d. rewrite (eo_space _ _ _ E). intros Hs o Ho%(kept_owned s s' d (still_kept e d Hs)).
    apply (kept_data s s' k still_kern). by apply (ko_kapart K Hs).
  - intros e d i. rewrite (eo_space _ _ _ E). intros Hs Hi. apply (kept_user s s' d (still_kept e d Hs)); [done|].
    by apply (ko_user K Hs).
  - intros p. rewrite still_maps. intros Hp. apply still_mappable; [by apply (ko_maps K)|by apply Halloc].
Qed.
End Still.

(** What a step leaves of the space of environment [e]: its mappings and the
    bytes of the pages it maps. *)
Definition undisturbed (s s' : kstate) (e : Z) : Prop :=
  space s' e = space s e /\
  forall d, space s e = Some d -> forall va, is_u32 va -> va_legal va = true ->
    trans s' d va = trans s d va /\ forall p f, trans s d va = Some (p, f) -> same_page s s' p.

#[export] Instance undisturbed_refl : forall e, Reflexive (fun s s' => undisturbed s s' e).
Proof. intros e s. split; [done|]. intros d Hd va Hva Hl. split; [done|]. by intros p f _ x _. Qed.

Lemma undisturbed_trans s1 s2 s3 e : undisturbed s1 s2 e -> undisturbed s2 s3 e -> undisturbed s1 s3 e.
Proof.
  intros [H1 U1] [H2 U2]. split; [congruence|]. intros d Hd va Hva Hl.
  destruct (U1 d Hd va Hva Hl) as [T1 S1]. rewrite <- H1 in Hd. destruct (U2 d Hd va Hva Hl) as [T2 S2].
  split; [congruence|]. intros p f Ht x Hx. rewrite (S1 p f Ht x Hx). rewrite <- T1 in Ht. by apply (S2 p f Ht).
Qed.

(** A step that writes free pages only disturbs nobody. *)
Lemma undisturbed_still s s' e :
  space s' e = space s e -> (forall d, space s e = Some d -> parts_kept s s' d) ->
  (forall d va p f, space s e = Some d -> is_u32 va -> va_legal va = true -> trans s d va = Some (p, f) -> same_page s s' p) ->
  undisturbed s s' e.
Proof.
  intros He Hk Hp. split; [done|]. intros d Hd va Hva Hl. split; [|intros p f Ht; by apply (Hp d va p f)].
  apply kept_trans; [by apply Hk|]. by apply va_legal_user.
Qed.

(** No mapped page is written when environment [e]'s mappings change. *)
Lemma remap_page_kept s s' l l' le k e d va m new p :
  kernel_ok s l le k -> space s e = Some d -> is_u32 va -> va_legal va = true ->
  remapped s s' l l' d va m new -> 0 < maps s p -> same_page s s' p.
Proof.
  intros K Hs Hva Hl R M%(ko_maps K). pose proof (mp_data _ _ _ _ M e d Hs) as Hd.
  apply (ps_mem (rmp_step R)); [apply Hd|].
  intros Hp. destruct (remap_slot s s' l l' d va m new Hva Hl R p Hp) as [Ho|Hn].
  - by apply (data_not_part s d p Hd), owned_part.
  - apply (mp_alloc _ _ _ _ M). by apply (rmp_from p R).
Qed.

(** Nor is another environment's directory or table. *)
Lemma remap_dir_kept s s' l l' le k e d va m new e' d' :
  kernel_ok s l le k -> space s e = Some d -> is_u32 va -> va_legal va = true ->
  remapped s s' l l' d va m new -> space s e' = Some d' -> e' <> e -> parts_kept s s' d'.
Proof. intros K Hs Hva Hl R Hs' Hne. eapply elsewhere_kept; [done..|]. by eapply elsewhere_env. Qed.

(** Changing environment [e] leaves the others alone. *)
Lemma undisturbed_remap s s' l l' le k e d va m new e' :
  kernel_ok s l le k -> space s e = Some d -> is_u32 va -> va_legal va = true ->
  remapped s s' l l' d va m new -> e' <> e -> undisturbed s s' e'.
Proof.
  intros K Hs Hva Hl R Hne. apply undisturbed_still.
  - unfold space. by rewrite (mm_envs _ _ (ps_mm (rmp_step R))).
  - intros d' Hs'. by apply (remap_dir_kept s s' l l' le k e d va m new e').
  - intros d' va' p f Hs' Hva' Hl' Ht. apply (remap_page_kept s s' l l' le k e d va m new p K Hs Hva Hl R).
    by apply (mapped_maps s e' d' va' p f (ko_envs K)).
Qed.

(** ** A process and the others *)

(** Environment [me] runs on this CPU. *)
Record process (s : kstate) (l le : list Z) (k me : Z) (ce : Env) : Prop := {
  pr_ok : kernel_ok s l le k;
  pr_cpu : exists c, cpus s !! cpunum s = Some c /\ cpu_env c = Some me;
  pr_env : envs s !! me = Some ce;
  pr_used : env_status ce <> ENV_FREE }.

Arguments pr_ok {_ _ _ _ _ _} _.
Arguments pr_cpu {_ _ _ _ _ _} _.
Arguments pr_env {_ _ _ _ _ _} _.
Arguments pr_used {_ _ _ _ _ _} _.

(** No other environment maps a page that [e] maps. *)
Definition private (s : kstate) (e : Z) : Prop :=
  forall d p, space s e = Some d -> 0 < dir_maps s d p -> maps s p = dir_maps s d p.

(** Environment [e] is in use and neither the caller nor a child of it. *)
Record stranger (s : kstate) (me : Z) (ce : Env) (e : Z) (x : Env) : Prop := {
  st_env : envs s !! e = Some x;
  st_used : env_status x <> ENV_FREE;
  st_me : e <> me;
  st_child : env_parent_id x <> env_id ce }.

(** A step of the kernel on behalf of [me]: the invariant holds after it, and
    no stranger's record, address space or private memory has changed. *)
Record serves (s s' : kstate) (k me : Z) (ce : Env) : Prop := {
  sv_ok : exists l le ce', process s' l le k me ce' /\ env_id ce' = env_id ce;
  sv_record : forall e x, stranger s me ce e x -> envs s' !! e = Some x;
  sv_space : forall e x, stranger s me ce e x -> private s e -> undisturbed s s' e /\ private s' e }.

Section Process.
Context (s : kstate) (l le : list Z) (k me : Z) (ce : Env).
Hypothesis P : process s l le k me ce.
Let K := pr_ok P.

Lemma process_caller : caller s me ce.
Proof. split; [apply (ko_envs K)|apply (pr_cpu P)|apply (pr_env P)]. Qed.

Lemma used_space e x : envs s !! e = Some x -> env_status x <> ENV_FREE ->
  exists d, space s e = Some d /\ env_pgdir x = page_kva d.
Proof.
  intros Hx Hu. assert (space s e = Some (dir_of x)) as Hs by (unfold space; by rewrite Hx, decide_False).
  exists (dir_of x). split; [done|]. destruct (ko_dir K Hs) as (x' & Hx' & Hd). by simplify_eq.
Qed.

Lemma resolve_space id e : resolve s me ce id = Some e ->
  exists x d, envs s !! e = Some x /\ env_status x <> ENV_FREE /\ space s e = Some d /\ env_pgdir x = page_kva d /\
    (e = me \/ env_parent_id x = env_id ce).
Proof.
  unfold resolve. intros H.
  assert (exists x, envs s !! e = Some x /\ env_status x <> ENV_FREE /\ (e = me \/ env_parent_id x = env_id ce))
    as (x & Hx & Hu & Hp).
  { destruct (id =? 0).
    - injection H as <-. exists ce. split; [apply (pr_env P)|]. split; [apply (pr_used P)|by left].
    - destruct (envs s !! ENVX id) as [x|] eqn:Hx; [|done]. cbn [mbind option_bind] in H.
      destruct (bool_decide_reflect (env_status x = ENV_FREE)) as [|Hu]; [done|]. cbn [negb andb] in H.
      destruct (env_id x =? id); [|done]. cbn [andb] in H.
      destruct (Z.eqb_spec (ENVX id) me) as [He|_]; [injection H as <-; eauto|].
      destruct (Z.eqb_spec (env_parent_id x) (env_id ce)); [|done]. injection H as <-. eauto. }
  destruct (used_space e x Hx Hu) as (d & Hs & Hd). by exists x, d.
Qed.

Lemma stranger_not_resolved id e e' x : resolve s me ce id = Some e -> stranger s me ce e' x -> e' <> e.
Proof.
  intros (x' & d & Hx' & _ & _ & _ & Hp)%resolve_space [S1 S2 S3 S4] ->. simplify_eq. by destruct Hp.
Qed.

Lemma mapped_page_ok d e va p f :
  space s e = Some d -> is_u32 va -> va_legal va = true -> trans s d va = Some (p, f) -> mapped_ok s l d p.
Proof.
  intros Hs Hva Hl Ht. pose proof (mapped_maps s e d va p f (ko_envs K) Hs Hva Hl Ht) as Hp.
  destruct (ko_maps K Hp) as [M1 M2 M3 M4 M5 M6]. split; [done|done|by apply (M5 e)|]. split; [rewrite M3; lia|done].
Qed.

Lemma serves_refl : serves s s k me ce.
Proof. split; [eauto 7|by intros e x []|]. intros e x _ Hp. split; [apply undisturbed_refl|done]. Qed.

(** Two environments that map the same page do not map it privately. *)
Lemma private_apart e1 e2 d1 d2 p :
  space s e1 = Some d1 -> space s e2 = Some d2 -> e1 <> e2 -> private s e1 -> 0 < dir_maps s d1 p -> dir_maps s d2 p = 0.
Proof.
  intros H1 H2 Hne Hp Hd. specialize (Hp d1 p H1 Hd). pose proof (dir_maps_nonneg s d2 p).
  pose proof (maps_ge2 s e1 e2 p (space_range s e1 d1 (ko_envs K) H1) (space_range s e2 d2 (ko_envs K) H2) Hne) as Hg.
  rewrite (env_maps_eq _ _ _ _ H1), (env_maps_eq _ _ _ _ H2) in Hg. lia.
Qed.
End Process.

Lemma serves_trans s1 s2 s3 k me ce ce2 :
  serves s1 s2 k me ce -> env_id ce2 = env_id ce -> serves s2 s3 k me ce2 -> serves s1 s3 k me ce.
Proof.
  intros [O1 R1 U1] Hid [O2 R2 U2].
  assert (forall e x, stranger s1 me ce e x -> stranger s2 me ce2 e x) as Hst.
  { intros e x S. split; [by apply R1|apply S|apply S|]. rewrite Hid. apply S. }
  split.
  - destruct O2 as (l & le & ce' & P & H). exists l, le, ce'. split; [done|congruence].
  - intros e x S. by apply R2, Hst.
  - intros e x S Hp. destruct (U1 e x S Hp) as [D1 P1]. destruct (U2 e x (Hst e x S) P1) as [D2 P2].
    split; [by eapply undisturbed_trans|done].
Qed.

Lemma process_remap s s' l l' le k me ce e d va m new :
  process s l le k me ce -> space s e = Some d -> is_u32 va -> va_legal va = true -> remapped s s' l l' d va m new ->
  (forall p, fst <$> m = Some p -> mappable s l k p /\ refs s p < 65535) -> process s' l' le k me ce.
Proof.
  intros [K P2 P3 P4] Hs Hva Hl R Hm. pose proof (ps_mm (rmp_step R)) as Hmm.
  split; [by eapply kernel_ok_remap| |by rewrite (mm_envs _ _ Hmm)|done].
  by rewrite (mm_cpus _ _ Hmm), (mm_cpunum _ _ Hmm).
Qed.

(** A changed mapping of an environment the caller may act on. *)
Lemma serves_remap s s' l l' le k me ce e d va m new :
  process s l le k me ce -> space s e = Some d -> (forall x, ~ stranger s me ce e x) -> is_u32 va -> va_legal va = true ->
  remapped s s' l l' d va m new ->
  (forall p, fst <$> m = Some p -> mappable s l k p /\ refs s p < 65535) ->
  (forall p e' d' x, fst <$> m = Some p -> stranger s me ce e' x -> private s e' -> space s e' = Some d' -> dir_maps s d' p = 0) ->
  serves s s' k me ce /\ process s' l' le k me ce.
Proof.
  intros P Hs Hauth Hva Hl R Hm Hpriv. pose proof (pr_ok P) as K. pose proof (ps_mm (rmp_step R)) as Hmm.
  pose proof (process_remap s s' l l' le k me ce e d va m new P Hs Hva Hl R Hm) as P'.
  split; [|done]. split; [eauto 7|intros e' x S; rewrite (mm_envs _ _ Hmm); apply S|].
  intros e' x S Hp. assert (e' <> e) as Hne by (intros ->; by apply (Hauth x)).
  pose proof (undisturbed_remap s s' l l' le k e d va m new e' K Hs Hva Hl R Hne) as U. split; [done|].
  intros d' p Hs' Hd. destruct U as [U1 U2]. rewrite U1 in Hs'.
  assert (dir_maps s' d' p = dir_maps s d' p) as He.
  { apply dir_maps_ext. intros i j Hi Hj. destruct (uva_parts i j Hi Hj) as (? & _ & _ & ?). by apply (U2 d' Hs'). }
  rewrite He in Hd |- *. rewrite (remap_maps s s' l l' le k e d va m new K Hs Hva Hl R p), (Hp d' p Hs' Hd).
  pose proof (private_apart s l le k me ce P e' e d' d p Hs' Hs Hne Hp Hd) as H0.
  rewrite !b2z_false; [lia| |].
  - intros Hmp. rewrite (Hpriv p e' d' x Hmp S Hp Hs') in Hd. lia.
  - intros Ho. destruct (trans s d va) as [[o f]|] eqn:Ht; [|done]. injection Ho as ->.
    pose proof (dir_maps_pos s d va p f Hva Hl Ht). lia.
Qed.

(** A step that changes no page table. *)
Lemma serves_still s s' l l' le k me ce ce' :
  process s l le k me ce -> envs_ok s s' le ->
  npages s' = npages s -> kern_pgdir s' = kern_pgdir s -> mem_wf s' -> free_ok s' l' ->
  (forall o, in_tables s k o -> same_page s s' o /\ o ∉ l') ->
  (forall j, refs s' j = refs s j) -> (forall p, 0 < maps s p -> p ∉ l') ->
  (exists c, cpus s' !! cpunum s' = Some c /\ cpu_env c = Some me) ->
  envs s' !! me = Some ce' -> env_status ce' <> ENV_FREE -> env_id ce' = env_id ce ->
  (forall e x, stranger s me ce e x -> envs s' !! e = Some x) ->
  (forall e x d p, stranger s me ce e x -> private s e -> space s e = Some d -> 0 < dir_maps s d p -> same_page s s' p) ->
  serves s s' k me ce /\ process s' l' le k me ce'.
Proof.
  intros P E Hnp Hkd Hwf Hf Hmem Hrefs Halloc Hcpu Hce Hu Hid Hrec Hbytes. pose proof (pr_ok P) as K.
  pose proof (kernel_ok_still s s' l l' le k K E Hnp Hkd Hwf Hf Hmem Hrefs Halloc) as K'.
  assert (process s' l' le k me ce') as P' by done.
  split; [|done]. split; [eauto 7|done|]. intros e x S Hp.
  assert (forall d, space s e = Some d -> parts_kept s s' d) as Hk.
  { intros d Hd o Ho. apply Hmem. right. eauto. }
  assert (undisturbed s s' e) as U.
  { apply undisturbed_still; [apply (eo_space _ _ _ E)|done|]. intros d va p f Hd Hva Hl Ht.
    apply (Hbytes e x d p S Hp Hd). by apply (dir_maps_pos s d va p f). }
  split; [done|]. intros d p. rewrite (eo_space _ _ _ E). intros Hd Hpos.
  rewrite (kept_dir_maps s s' d (Hk d Hd)) in Hpos |- *.
  rewrite (still_maps s s' l' le k E Hmem). by apply Hp.
Qed.

(** Neither memory nor the environments change. *)
Lemma serves_quiet s s' l le k me ce :
  process s l le k me ce -> kmem s' = kmem s -> envs s' = envs s -> env_free_list s' = env_free_list s ->
  cpus s' = cpus s -> cpunum s' = cpunum s -> npages s' = npages s -> kern_pgdir s' = kern_pgdir s ->
  pages s' = pages s -> page_free_list s' = page_free_list s ->
  serves s s' k me ce /\ process s' l le k me ce.
Proof.
  intros P Hm He Hel Hc Hn Hnp Hkd Hpg Hfl. pose proof (pr_ok P) as K.
  assert (forall i, same_page s s' i) as Hsame by (intros i x _; by rewrite Hm).
  apply (serves_still s s' l l le k me ce ce); try done.
  - by apply (envs_ok_same s s' l le k).
  - by apply (mem_wf_ext s), (ko_wf K).
  - by apply (free_ok_ext s), (ko_free K).
  - intros o Ho. split; [done|]. by apply (in_tables_alloc s l le k).
  - intros j. unfold refs. by rewrite Hpg.
  - intros p Hp. apply (ko_maps K Hp).
  - rewrite Hc, Hn. apply (pr_cpu P).
  - rewrite He. apply (pr_env P).
  - apply (pr_used P).
  - intros e x S. rewrite He. apply S.
Qed.

(** Taking a free page and clearing it. *)
Lemma serves_alloc s pp l le k me ce :
  process s (pp :: l) le k me ce ->
  let s1 := after_alloc true pp l s in
  serves s s1 k me ce /\ process s1 l le k me ce /\ maps s1 pp = 0 /\ mappable s1 l k pp /\ refs s1 pp = 0.
Proof.
  intros P s1. pose proof (pr_ok P) as K.
  assert (forall i, i <> pp -> same_page s s1 i) as Hsame.
  { intros i Hi x Hx. symmetry. apply after_alloc_kmem_out. unfold page_kva, PGSIZE in *. lia. }
  assert (forall o, in_tables s k o -> same_page s s1 o /\ o ∉ l) as Htab.
  { intros o Ho%(in_tables_alloc s (pp :: l) le k); [|done]. apply not_elem_of_cons in Ho as [? ?]. split; [by apply Hsame|done]. }
  assert (forall p, 0 < maps s p -> p <> pp /\ p ∉ l) as Hmapped.
  { intros p Hp. pose proof (mp_alloc _ _ _ _ (ko_maps K Hp)) as Ha. by apply not_elem_of_cons in Ha. }
  destruct (serves_still s s1 (pp :: l) l le k me ce ce) as [S P1]; try done.
  - by apply (envs_ok_same s s1 (pp :: l) le k).
  - by apply after_alloc_wf, (ko_wf K).
  - by apply after_alloc_free, (ko_free K).
  - intros p Hp. by apply Hmapped.
  - apply (pr_cpu P).
  - apply (pr_env P).
  - apply (pr_used P).
  - intros e x S. apply S.
  - intros e x d p S _ Hd Hpos. apply Hsame, Hmapped.
    pose proof (maps_ge s e p (space_range s e d (ko_envs K) Hd)) as Hg. rewrite (env_maps_eq s p e d Hd) in Hg. lia.
  - assert (maps s1 pp = 0) as H0.
    { rewrite (still_maps s s1 l le k (envs_ok_same s s1 (pp :: l) le k K eq_refl eq_refl eq_refl eq_refl) Htab).
      pose proof (maps_nonneg s pp). destruct (decide (0 < maps s pp)) as [Hp|]; [|lia]. by destruct (Hmapped pp Hp). }
    assert (refs s1 pp = 0) as Hr by (apply (refs_free s (pp :: l)); [apply K|by left]).
    split; [done|]. split; [done|]. split; [done|]. split; [|done]. pose proof (pr_ok P1) as K1. split.
    + apply (free_ok_range s (pp :: l)); [apply K|apply K|by left].
    + pose proof (free_ok_NoDup _ _ (ko_free K)) as Hn. by apply NoDup_cons in Hn as [Hn _].
    + lia.
    + lia.
    + intros e d Hs. apply (kept_data s s1 d); [intros o Ho; apply Htab; right; by exists e, d|].
      apply (free_data s (pp :: l) d pp); [by apply (ko_pd K Hs)|by left].
    + apply (kept_data s s1 k); [intros o Ho; apply Htab; by left|].
      apply (free_data s (pp :: l) k pp); [apply (tm_pd _ _ _ (ko_tmpl K))|by left].
Qed.

(** A store of the process to its own memory. *)
Lemma serves_data s l le k me ce d va p f m' :
  process s l le k me ce -> space s me = Some d -> is_u32 va -> va_legal va = true -> trans s d va = Some (p, f) ->
  data_write s p m' -> serves s (set_kmem m' s) k me ce /\ process (set_kmem m' s) l le k me ce.
Proof.
  intros P Hs Hva Hl Ht [Hb Hw]. pose proof (pr_ok P) as K.
  pose proof (mapped_maps s me d va p f (ko_envs K) Hs Hva Hl Ht) as Hp.
  assert (forall i, i <> p -> same_page s (set_kmem m' s) i) as Hsame.
  { intros i Hi x Hx. symmetry. apply Hw. unfold page_kva, PGSIZE in *. lia. }
  apply (serves_still s _ l l le k me ce ce P); try done.
  - by apply (envs_ok_same s _ l le k).
  - destruct (ko_wf K) as [W1 W2 W3]. by split.
  - by apply (free_ok_ext s), (ko_free K).
  - intros o Ho. split; [|by apply (in_tables_alloc s l le k)]. apply Hsame. intros ->.
    by apply (in_tables_mapped s l le k p K Hp).
  - intros q Hq. apply (ko_maps K Hq).
  - apply (pr_cpu P).
  - apply (pr_env P).
  - apply (pr_used P).
  - intros e x S. apply S.
  - intros e x d' q S Hpr Hs' Hq. apply Hsame. intros ->.
    pose proof (private_apart s l le k me ce P e me d' d p Hs' Hs (st_me _ _ _ _ _ S) Hpr Hq).
    pose proof (dir_maps_pos s d va p f Hva Hl Ht). lia.
Qed.

(** ** The system calls on memory *)

Lemma fst_some (a b c : Z) : fst <$> Some (a, b) = Some c -> a = c.
Proof. by intros [= ->]. Qed.

(** The call returns, having served its caller. *)
Definition served (s : kstate) (k me : Z) (ce : Env) (c : M Z) : Prop :=
  exists r s', c s = Ret r s' /\ serves s s' k me ce.

Lemma served_same s l le k me ce c r : process s l le k me ce -> c s = Ret r s -> served s k me ce c.
Proof. intros P H. exists r, s. split; [done|]. by apply (serves_refl s l le). Qed.

Lemma served_log s l le k me ce c r msg : process s l le k me ce -> c s = Ret r (logged msg s) -> served s k me ce c.
Proof. intros P H. exists r, (logged msg s). split; [done|]. by apply (serves_quiet s _ l le). Qed.

Lemma resolved_not_stranger s l le k me ce id e :
  process s l le k me ce -> resolve s me ce id = Some e -> forall x, ~ stranger s me ce e x.
Proof. intros P E x S. by apply (stranger_not_resolved s l le k me ce P id e e x E S). Qed.

Lemma stranger_same s s' me ce e x : envs s' = envs s -> stranger s' me ce e x -> stranger s me ce e x.
Proof. intros He [S1 S2 S3 S4]. rewrite He in S1. done. Qed.

(** Giving a fresh page to an environment the caller may act on. *)
Lemma serves_given s l le k me ce e d va perm pp s' :
  process s l le k me ce -> space s e = Some d -> (forall x, ~ stranger s me ce e x) -> is_u32 va -> va_legal va = true ->
  page_given s l s' d va perm pp -> serves s s' k me ce.
Proof.
  intros P Hs Hns Hva Hl G. destruct (pg_step _ _ _ _ _ _ _ G) as (l1 & l2 & new & -> & R).
  destruct (serves_alloc s pp l1 le k me ce P) as (S1 & P1 & Hm & Mp & Hr). set (s1 := after_alloc true pp l1 s) in *.
  apply (serves_trans s s1 s' k me ce ce S1 eq_refl).
  apply (serves_remap s1 s' l1 l2 le k me ce e d va (Some (pp, Z.lor PTE_P perm)) new P1 Hs); try done.
  - intros x S%(stranger_same s); [by apply (Hns x)|done].
  - intros p <-%fst_some. split; [done|lia].
  - intros p e' d' x <-%fst_some _ _ Hs'. pose proof (maps_ge s1 e' pp (space_range s1 e' d' (ko_envs (pr_ok P1)) Hs')) as Hg.
    rewrite (env_maps_eq s1 pp e' d' Hs') in Hg. pose proof (dir_maps_nonneg s1 d' pp). lia.
Qed.

Lemma serves_returned s le k me ce d pp s' :
  process s [pp] le k me ce -> page_returned s s' d pp -> serves s s' k me ce.
Proof.
  intros P [R1 R2 R3 R4 R5 R6]. pose proof (pr_ok P) as K.
  assert (forall p, 0 < maps s p -> p <> pp) as Hne.
  { intros p Hp ->. apply (mp_alloc _ _ _ _ (ko_maps K Hp)). by left. }
  assert (forall p, 0 < maps s p -> p ∉ [pp]) as Hal by (intros p Hp; apply (ko_maps K Hp)).
  apply (serves_still s s' [pp] [pp] le k me ce ce P); try done.
  - apply (envs_ok_same s s' [pp] le k K); [apply (mm_envs _ _ R6)|apply (mm_env_free_list _ _ R6)|
      apply (mm_cpus _ _ R6)|apply (mm_cpunum _ _ R6)].
  - apply (mm_npages _ _ R6).
  - exact (f_equal kern_pgdir R6).
  - intros o Ho%(in_tables_alloc s [pp] le k); [|done]. split; [|done]. apply R5. intros ->. apply Ho. by left.
  - rewrite (mm_cpus _ _ R6), (mm_cpunum _ _ R6). apply P.
  - rewrite (mm_envs _ _ R6). apply P.
  - apply P.
  - intros e x S. rewrite (mm_envs _ _ R6). apply S.
  - intros e x d' p S _ Hd Hpos. apply R5, Hne. pose proof (maps_ge s e p (space_range s e d' (ko_envs K) Hd)) as Hg.
    rewrite (env_maps_eq s p e d' Hd) in Hg. lia.
Qed.

Lemma served_page_alloc s l le k me ce id va perm :
  process s l le k me ce -> is_u32 va -> served s k me ce (sys_page_alloc id va perm).
Proof.
  intros P Hva. pose proof (pr_ok P) as K.
  pose proof (sys_page_alloc_spec s me ce l (process_caller s l le k me ce P) (ko_wf K) (ko_free K)
    (ko_cpu K) id va perm Hva) as H.
  destruct (resolve s me ce id) as [e|] eqn:E; [|by eapply served_same].
  destruct (negb (va_legal va)) eqn:Hl; [by eapply served_same|]. apply negb_false_iff in Hl.
  destruct (negb (_ && _)); [by eapply served_same|]. destruct (negb (perm_legal perm)); [by eapply served_same|].
  destruct (resolve_space s l le k me ce P id e E) as (x & d & Hx & _ & Hs & Hd & _).
  specialize (H x d Hx Hd (ko_pd K Hs) (fun o f => mapped_page_ok s l le k me ce P d e va o f Hs Hva Hl)).
  destruct l as [|pp l1]; [by eapply served_same|].
  destruct H as [(s' & H & G)|(-> & Ht & s' & H & R)]; eexists _, s'; (split; [exact H|]).
  - eapply serves_given; try done. by eapply resolved_not_stranger.
  - by eapply serves_returned.
Qed.

(** The source of a mapping is either without a table or a page that is mapped,
    not yet as often as its counter can count. *)
Definition source_ok (s : kstate) (d va : Z) : Prop :=
  tbl s d (PDX va) = None \/ exists p f, trans s d va = Some (p, f) /\ refs s p < 65535.

Lemma served_page_map s l le k me ce id1 va1 id2 va2 perm :
  process s l le k me ce -> is_u32 va1 -> is_u32 va2 ->
  (forall e d, resolve s me ce id1 = Some e -> space s e = Some d -> source_ok s d va1) ->
  served s k me ce (sys_page_map id1 va1 id2 va2 perm).
Proof.
  intros P Hva1 Hva2 Hsrc. pose proof (pr_ok P) as K.
  pose proof (sys_page_map_spec s me ce l (process_caller s l le k me ce P) (ko_wf K) (ko_free K)
    (ko_cpu K) id1 va1 id2 va2 perm Hva1 Hva2) as H.
  destruct (resolve s me ce id1) as [e1|] eqn:E1; [|by eapply served_same].
  destruct (resolve s me ce id2) as [e2|] eqn:E2; [|by eapply served_same].
  destruct (negb (_ && _)) eqn:Hl; [by eapply served_log|]. apply negb_false_iff, andb_true_iff in Hl as [Hl1 Hl2].
  destruct (negb _) eqn:Hp; [by eapply served_log|]. apply negb_false_iff in Hp.
  destruct (resolve_space s l le k me ce P id1 e1 E1) as (x1 & d1 & Hx1 & _ & Hs1 & Hd1 & _).
  destruct (resolve_space s l le k me ce P id2 e2 E2) as (x2 & d2 & Hx2 & _ & Hs2 & Hd2 & _).
  destruct (H x1 d1 x2 d2 Hx1 Hd1 (ko_pd K Hs1) Hx2 Hd2 (ko_pd K Hs2)) as [Hnone Hsome].
  destruct (Hsrc e1 d1 eq_refl Hs1) as [Ht|(pp & f & Ht & Hr)]; [eapply served_log; [done|by apply Hnone]|].
  pose proof (mapped_maps s e1 d1 va1 pp f (ko_envs K) Hs1 Hva1 Hl1 Ht) as Hpos. pose proof (ko_maps K Hpos) as M.
  assert (insertable s l d2 pp va2 perm) as I.
  { split; [apply M|apply M| |by apply perm_legal_range|].
    - rewrite (mp_refs _ _ _ _ M) in Hr |- *. lia.
    - intros o f' Ho. by apply (mapped_page_ok s l le k me ce P d2 e2 va2 o f'). }
  specialize (Hsome pp f Ht I). destruct (_ && _); [by eapply served_log|].
  destruct Hsome as [(s' & l' & new & H' & R)|(_ & _ & H')]; [|by eapply served_same].
  eexists _, s'. split; [exact H'|].
  apply (serves_remap s s' l l' le k me ce e2 d2 va2 (Some (pp, Z.lor PTE_P perm)) new P Hs2); try done.
  - by apply (resolved_not_stranger s l le k me ce id2).
  - by intros p <-%fst_some.
  - intros p e' d' x <-%fst_some S Hpr Hs'. destruct (Z.eqb_spec (dir_maps s d' pp) 0) as [|Hne]; [done|].
    pose proof (dir_maps_nonneg s d' pp). pose proof (dir_maps_pos s d1 va1 pp f Hva1 Hl1 Ht).
    pose proof (stranger_not_resolved s l le k me ce P id1 e1 e' x E1 S) as He.
    pose proof (private_apart s l le k me ce P e' e1 d' d1 pp Hs' Hs1 He Hpr ltac:(lia)). lia.
Qed.

Lemma page_remove_absent s l d va :
  mem_wf s -> pgdir_ok s l d -> tbl s d (PDX va) = None -> page_remove (page_kva d) va s = Ret tt s.
Proof.
  intros Hwf Hpd Ht. unfold page_remove, page_lookup. mstep (walk_absent s l d Hwf Hpd va Ht).
  rewrite bind_assoc. by mstep (walk_absent s l d Hwf Hpd va Ht).
Qed.

Lemma served_page_unmap s l le k me ce id va :
  process s l le k me ce -> is_u32 va ->
  (forall e d, resolve s me ce id = Some e -> space s e = Some d -> tbl s d (PDX va) = None \/ trans s d va <> None) ->
  served s k me ce (sys_page_unmap id va).
Proof.
  intros P Hva Hsrc. pose proof (pr_ok P) as K. pose proof (process_caller s l le k me ce P) as C.
  assert (sys_page_unmap id va s = match resolve s me ce id with
    | None => Ret (- E_BAD_ENV) s
    | Some e => if negb (va_legal va) then Ret (- E_INVAL) s else
        (let! x := get_env e in page_remove (env_pgdir x) va ;; kret 0) s
    end) as H.
  { unfold sys_page_unmap. mstep (envid2env_resolve s me ce C id).
    destruct (resolve s me ce id) as [e|]; cbn [envid_result]; [|done]. change (0 <? 0) with false. cbn iota.
    assert ((UTOP <=? va) || negb (va mod PGSIZE =? 0) = negb (va_legal va)) as ->
      by (unfold va_legal; by rewrite negb_andb, <- Z.leb_antisym).
    destruct (negb (va_legal va)); [done|]. cbn [deref]. by rewrite bind_ret. }
  destruct (resolve s me ce id) as [e|] eqn:E; [|by eapply served_same].
  destruct (negb (va_legal va)) eqn:Hl; [by eapply served_same|]. apply negb_false_iff in Hl.
  destruct (resolve_space s l le k me ce P id e E) as (x & d & Hx & _ & Hs & Hd & _).
  rewrite (bind_Ret _ _ _ _ _ (get_env_eq e x s Hx)), Hd in H.
  destruct (Hsrc e d eq_refl Hs) as [Ht|Ht].
  { eapply served_same; [done|]. rewrite H. by mstep (page_remove_absent s l d va (ko_wf K) (ko_pd K Hs) Ht). }
  destruct (trans s d va) as [[o f]|] eqn:Ho; [|done].
  destruct (page_remove_remaps s l d va o f (ko_wf K) (ko_free K) (ko_pd K Hs) (ko_cpu K) Hva (va_legal_user va Hva Hl) Ho
    (mapped_page_ok s l le k me ce P d e va o f Hs Hva Hl Ho)) as (s' & l' & H' & R).
  rewrite (bind_Ret _ _ _ _ _ H') in H. eexists _, s'. split; [exact H|].
  apply (serves_remap s s' l l' le k me ce e d va None None P Hs); try done.
  by apply (resolved_not_stranger s l le k me ce id).
Qed.

(** ** A new environment *)

Section Fresh.
Context (s s' : kstate) (n e : Z) (l' le' : list Z) (k : Z) (x' : Env).
Hypothesis K : kernel_ok s (n :: l') (e :: le') k.
Hypothesis He : envs s' = <[e := x']> (envs s).
Hypothesis Hid : 0 <= env_id x' < 2 ^ 31.
Hypothesis Hu : env_status x' <> ENV_FREE.
Hypothesis Hd : env_pgdir x' = page_kva n.
Hypothesis Hns : new_space s s' n l' k.
Hypothesis Hch : env_free_chain s' le'.
Hypothesis Hm : same_machine s s'.

Lemma fresh_in : n ∈ n :: l'.
Proof. by left. Qed.

Lemma fresh_old : space s e = None.
Proof.
  unfold space. destruct (envs s !! e) as [x|] eqn:Hx; [|done].
  by rewrite decide_True by (apply (ko_idle K e x Hx); by left).
Qed.

Lemma fresh_range : 0 <= e < NENV.
Proof. apply (ko_envs K). pose proof (ko_chain K) as Hc. 
  eapply chain_lookup; [exact Hc|by left]. Qed.

Lemma fresh_space e' : space s' e' = if decide (e' = e) then Some n else space s e'.
Proof.
  unfold space. rewrite He. case_decide as Hx.
  - subst. rewrite lookup_insert_eq, decide_False by done. f_equal. unfold dir_of. rewrite Hd.
    unfold page_kva, PGSIZE. replace (KERNBASE + n * 4096 - KERNBASE) with (n * 4096) by lia. by apply Z.div_mul.
  - by rewrite lookup_insert_ne by done.
Qed.

Lemma fresh_ne e' d' o : space s e' = Some d' -> part_of s d' o -> o <> n.
Proof. intros Hs Ho ->. by apply (part_alloc s (n :: l') d' n (ko_pd K Hs) Ho), fresh_in. Qed.

Lemma fresh_kept e' d' : space s e' = Some d' -> parts_kept s s' d'.
Proof. intros Hs o Ho. by apply (ns_mem _ _ _ _ _ Hns), (fresh_ne e' d'). Qed.

Lemma fresh_kern o : part_of s k o -> o <> n.
Proof. intros Ho ->. by apply (part_alloc s (n :: l') k n (tm_pd _ _ _ (ko_tmpl K)) Ho), fresh_in. Qed.

Lemma fresh_kern_kept : parts_kept s s' k.
Proof. intros o Ho. by apply (ns_mem _ _ _ _ _ Hns), fresh_kern. Qed.

Lemma fresh_npages : npages s' = npages s.
Proof. apply Hm. Qed.

Lemma fresh_sub i : i ∈ l' -> i ∈ n :: l'.
Proof. by right. Qed.

(** The pages of the new space: its directory only. *)
Lemma fresh_owned o : owned s' n o -> o = n.
Proof.
  intros [->|(i & Hi & Ht)]; [done|]. destruct (uslot_in i Hi) as [Hi1 Hi2].
  rewrite (ns_tbl _ _ _ _ _ Hns i Hi1 Hi2), (ko_empty K i Hi) in Ht. done.
Qed.

Lemma fresh_data p : p <> n -> data_page s k p -> data_page s' n p.
Proof.
  intros Hne [_ Hk]. split; [done|]. intros j Hj Hju. rewrite (ns_tbl _ _ _ _ _ Hns j Hj Hju). by apply Hk.
Qed.

Lemma fresh_dir_maps p : dir_maps s' n p = 0.
Proof.
  apply dir_maps_empty. intros i Hi. destruct (uslot_in i Hi) as [H1 H2].
  rewrite (ns_tbl _ _ _ _ _ Hns i H1 H2). by apply (ko_empty K).
Qed.

Lemma fresh_maps p : maps s' p = maps s p.
Proof.
  apply maps_ext. intros e' _. unfold env_maps. rewrite fresh_space. case_decide as Hx.
  - subst. by rewrite fresh_old, fresh_dir_maps.
  - destruct (space s e') as [d'|] eqn:Hs; [|done]. apply kept_dir_maps. by apply (fresh_kept e').
Qed.

Lemma fresh_refs o : o <> n -> refs s' o = refs s o.
Proof. intros Hne. rewrite (ns_refs _ _ _ _ _ Hns), decide_False by done. lia. Qed.

Lemma fresh_mappable p : mappable s (n :: l') k p -> mappable s' l' k p.
Proof.
  intros [M1 M2 M3 M4 M5 M6]. assert (p <> n) as Hne by (intros ->; by apply M2, fresh_in).
  split; rewrite ?fresh_npages, ?fresh_refs, ?fresh_maps by done; try done.
  - intros Hp. by apply M2, fresh_sub.
  - intros e' d'. rewrite fresh_space. case_decide; [intros [= <-]; by apply fresh_data|].
    intros Hs. apply (kept_data s s' d' (fresh_kept e' d' Hs)). by apply (M5 e').
  - by apply (kept_data s s' k fresh_kern_kept).
Qed.

Lemma fresh_apart e1 e2 d1 d2 : space s' e1 = Some d1 -> space s' e2 = Some d2 -> e1 <> e2 -> apart s' d1 d2.
Proof.
  rewrite !fresh_space. intros H1 H2 Hne o Ho. destruct (decide (e1 = e)) as [N1|N1], (decide (e2 = e)) as [N2|N2]; [congruence|..].
  - injection H1 as <-. rewrite (fresh_owned o Ho). apply (kept_data s s' d2 (fresh_kept e2 d2 H2)).
    by apply (free_data s (n :: l') d2 n (ko_pd K H2)), fresh_in.
  - injection H2 as <-. apply (kept_owned s s' d1 (fresh_kept e1 d1 H1)) in Ho.
    apply fresh_data; [by apply (fresh_ne e1 d1 o H1), owned_part|]. by apply (ko_kapart K H1).
  - apply (kept_owned s s' d1 (fresh_kept e1 d1 H1)) in Ho. apply (kept_data s s' d2 (fresh_kept e2 d2 H2)).
    by apply (ko_apart K H1 H2 Hne).
Qed.

Lemma fresh_kapart e1 d1 : space s' e1 = Some d1 -> apart s' d1 k.
Proof.
  rewrite fresh_space. intros H1 o Ho. apply (kept_data s s' k fresh_kern_kept). case_decide as N1.
  - injection H1 as <-. rewrite (fresh_owned o Ho).
    by apply (free_data s (n :: l') k n (tm_pd _ _ _ (ko_tmpl K))), fresh_in.
  - apply (kept_owned s s' d1 (fresh_kept e1 d1 H1)) in Ho. by apply (ko_kapart K H1).
Qed.

Lemma fresh_own e1 d1 o : space s' e1 = Some d1 -> owned s' d1 o -> refs s' o = 1.
Proof.
  rewrite fresh_space. intros H1 Ho. case_decide as N1.
  - injection H1 as <-. rewrite (fresh_owned o Ho), (ns_refs _ _ _ _ _ Hns), decide_True by done.
    by rewrite (refs_free s (n :: l') n (ko_free K) fresh_in).
  - apply (kept_owned s s' d1 (fresh_kept e1 d1 H1)) in Ho.
    rewrite fresh_refs by (by apply (fresh_ne e1 d1 o H1), owned_part). by apply (ko_own K H1).
Qed.

Lemma kernel_ok_fresh : kernel_ok s' l' le' k.
Proof.
  destruct Hm as (M1 & M2 & M3 & M4).
  pose proof (chain_NoDup _ _ _ _ (ko_chain K)) as [Hnl _]%NoDup_cons.
  split; try done.
  - apply (ns_wf _ _ _ _ _ Hns).
  - apply (ns_free _ _ _ _ _ Hns).
  - destruct (ko_cpu K) as (c & H1 & H2). exists c. rewrite M1, M2. split; [done|]. intros i Hi. rewrite He.
    destruct (decide (e = i)) as [->|]; [by rewrite lookup_insert_eq|]. rewrite lookup_insert_ne by done. by apply H2.
  - intros i. rewrite He. destruct (decide (e = i)) as [<-|].
    + rewrite lookup_insert_eq. pose proof fresh_range. split; eauto.
    + rewrite lookup_insert_ne by done. apply (ko_envs K).
  - intros i x. rewrite He. destruct (decide (e = i)) as [->|].
    + rewrite lookup_insert_eq. by intros [= <-].
    + rewrite lookup_insert_ne by done. apply (ko_ids K).
  - intros i x. rewrite He. destruct (decide (e = i)) as [->|].
    + rewrite lookup_insert_eq. intros [= <-]. tauto.
    + rewrite lookup_insert_ne by done. intros Hx%(ko_idle K). rewrite <- Hx, elem_of_cons. naive_solver.
  - split; [rewrite M3; apply (tm_va _ _ _ (ko_tmpl K))|].
    apply (kept_pd s s' k fresh_kern_kept (n :: l') l' (tm_pd _ _ _ (ko_tmpl K)) M4).
    intros o Ho Hin%fresh_sub. by apply (part_alloc s (n :: l') k o (tm_pd _ _ _ (ko_tmpl K)) Ho).
  - intros i Hi. rewrite (kept_tbl s s' k fresh_kern_kept) by by apply uslot_in. by apply (ko_empty K).
  - intros e' d'. rewrite fresh_space, He. case_decide as Hx.
    + intros [= <-]. subst. exists x'. by rewrite lookup_insert_eq.
    + rewrite lookup_insert_ne by done. apply (ko_dir K).
  - intros e' d'. rewrite fresh_space. case_decide as Hx; [intros [= <-]; apply (ns_pd _ _ _ _ _ Hns)|].
    intros Hs. apply (kept_pd s s' d' (fresh_kept e' d' Hs) (n :: l') l' (ko_pd K Hs) M4).
    intros o Ho Hin%fresh_sub. by apply (part_alloc s (n :: l') d' o (ko_pd K Hs) Ho).
  - apply fresh_own.
  - apply fresh_apart.
  - apply fresh_kapart.
  - intros e' d' i. rewrite fresh_space. case_decide as Hx; intros Hs Hi.
    + injection Hs as <-. left. destruct (uslot_in i Hi) as [H1 H2]. rewrite (ns_tbl _ _ _ _ _ Hns i H1 H2). by apply (ko_empty K).
    + apply (kept_user s s' d' (fresh_kept e' d' Hs)); [done|]. by apply (ko_user K Hs).
  - intros p. rewrite fresh_maps. intros Hp. by apply fresh_mappable, (ko_maps K).
Qed.
End Fresh.

Lemma served_exofork s l le k me ce : process s l le k me ce -> served s k me ce sys_exofork.
Proof.
  intros P. pose proof (pr_ok P) as K.
  assert (me ∉ le) as Hme by (intros Hin%(ko_idle K me ce (pr_env P)); by apply (pr_used P)).
  pose proof (sys_exofork_spec s me ce le l k (process_caller s l le k me ce P) Hme (ko_wf K) (ko_cpu K) (ko_free K)
    (ko_chain K) (ko_tmpl K) (ko_ids K)) as H.
  destruct le as [|e le']; [by eapply served_same|]. destruct l as [|n l']; [by eapply served_same|].
  destruct H as (s' & x' & H & He & Hid & Hix & Hpar & Hst & Htf & Hd & Hns & Hch & Hm).
  assert (e <> me) as Hne by (intros ->; apply Hme; by left).
  eexists _, s'. split; [exact H|].
  assert (0 <= env_id x' < 2 ^ 31) as Hid' by lia.
  assert (env_status x' <> ENV_FREE) as Hu by congruence.
  pose proof (kernel_ok_fresh s s' n e l' le' k x' K He Hid' Hu Hd Hns Hch Hm) as K'.
  assert (forall e' x, stranger s me ce e' x -> e' <> e) as Hst'.
  { intros e' x S ->. apply (st_used _ _ _ _ _ S), (ko_idle K e x (st_env _ _ _ _ _ S)). by left. }
  split.
  - exists l', le', ce. split; [|done]. destruct P as [_ P2 P3 P4]. split; [done| |by rewrite He, lookup_insert_ne|done].
    destruct Hm as (-> & -> & _). done.
  - intros e' x S. rewrite He, lookup_insert_ne; [apply S|]. by apply not_eq_sym, (Hst' e' x).
  - intros e' x S Hp. pose proof (Hst' e' x S) as Hne'.
    assert (space s' e' = space s e') as Hsp.
    { rewrite (fresh_space s s' n e x' He Hu Hd). by rewrite decide_False. }
    assert (forall d, space s e' = Some d -> parts_kept s s' d) as Hk by (intros d; by eapply fresh_kept).
    split.
    + apply undisturbed_still; [done|done|]. intros d va p f Hs Hva Hl Ht. apply (ns_mem _ _ _ _ _ Hns).
      intros ->. apply (mp_alloc _ _ _ _ (ko_maps K (mapped_maps s e' d va n f (ko_envs K) Hs Hva Hl Ht))). by left.
    + intros d p. rewrite Hsp. intros Hs. rewrite (kept_dir_maps s s' d (Hk d Hs)).
      rewrite (fresh_maps s s' n e l' le' k x' K He Hu Hd Hns). by apply Hp.
Qed.

(** ** Changing an environment's record *)

Section Record.
Context (s : kstate) (l le : list Z) (k e : Z) (x x' : Env).
Hypothesis K : kernel_ok s l le k.
Hypothesis Hx : envs s !! e = Some x.
Hypothesis Hu : env_status x <> ENV_FREE.
Hypothesis Hu' : env_status x' <> ENV_FREE.
Hypothesis Hd' : env_pgdir x' = env_pgdir x.
Hypothesis Hid' : env_id x' = env_id x.

Definition with_record : kstate := set_envs (<[e := x']> (envs s)) s.

Lemma record_here : envs with_record !! e = Some x'.
Proof. apply lookup_insert_eq. Qed.

Lemma record_other i : i <> e -> envs with_record !! i = envs s !! i.
Proof. intros. by apply lookup_insert_ne. Qed.

Lemma record_space i : space with_record i = space s i.
Proof.
  unfold space. destruct (decide (i = e)) as [->|]; [|by rewrite record_other].
  rewrite record_here, Hx. rewrite !decide_False by done. unfold dir_of. by rewrite Hd'.
Qed.

Lemma record_envs_ok : envs_ok s with_record le.
Proof.
  split.
  - destruct (ko_cpu K) as (c & H1 & H2). exists c. split; [done|]. intros i Hci.
    destruct (decide (i = e)) as [->|]; [rewrite record_here; eauto|]. rewrite record_other by done. by apply H2.
  - intros i. destruct (decide (i = e)) as [->|]; [|rewrite record_other by done; apply (ko_envs K)].
    rewrite record_here. rewrite <- (ko_envs K e), Hx. split; eauto.
  - intros i y. destruct (decide (i = e)) as [->|].
    + rewrite record_here. intros [= <-]. rewrite Hid'. by apply (ko_ids K e x).
    + rewrite record_other by done. apply (ko_ids K).
  - unfold env_free_chain, with_record. cbn [envs env_free_list set_envs].
    rewrite chain_frame by (by rewrite (ko_idle K e x Hx)). apply (ko_chain K).
  - intros i y. destruct (decide (i = e)) as [->|].
    + rewrite record_here. intros [= <-]. rewrite (ko_idle K e x Hx). done.
    + rewrite record_other by done. apply (ko_idle K).
  - apply record_space.
  - intros i d'. rewrite record_space. intros Hs'. destruct (ko_dir K Hs') as (y & Hy & Hyd).
    destruct (decide (i = e)) as [->|]; [|exists y; by rewrite record_other].
    exists x'. split; [apply record_here|]. rewrite Hd'. by simplify_eq.
Qed.

Lemma kernel_ok_record : kernel_ok with_record l le k.
Proof.
  apply (kernel_ok_still s with_record l l le k K record_envs_ok); try done.
  - by apply (mem_wf_ext s), (ko_wf K).
  - by apply (free_ok_ext s), (ko_free K).
  - intros o Ho. split; [done|by apply (in_tables_alloc s l le k)].
  - intros p Hp. apply (ko_maps K Hp).
Qed.
End Record.

Section Change.
Context (s : kstate) (l le : list Z) (k me : Z) (ce : Env) (id e : Z) (x x' : Env).
Hypothesis P : process s l le k me ce.
Hypothesis E : resolve s me ce id = Some e.
Hypothesis Hx : envs s !! e = Some x.
Hypothesis Hu : env_status x <> ENV_FREE.
Hypothesis Hu' : env_status x' <> ENV_FREE.
Hypothesis Hd' : env_pgdir x' = env_pgdir x.
Hypothesis Hid' : env_id x' = env_id x.
#[local] Abbreviation with_record := (with_record s e x').

(** The caller's own record, which may be the one that changed. *)
Definition own_record : Env := if decide (e = me) then x' else ce.

Lemma record_process : serves s with_record k me ce /\ process with_record l le k me own_record.
Proof.
  pose proof (pr_ok P) as K.
  assert (envs with_record !! me = Some own_record /\ env_status own_record <> ENV_FREE /\ env_id own_record = env_id ce)
    as (C1 & C2 & C3).
  { pose proof (pr_env P) as Hce. unfold own_record. case_decide as Hn.
    - rewrite <- Hn in Hce |- *. split; [apply record_here|]. split; [done|]. rewrite Hid'. congruence.
    - rewrite record_other by congruence. split; [done|]. split; [apply (pr_used P)|done]. }
  apply (serves_still s with_record l l le k me ce own_record P
    (record_envs_ok s l le k e x x' (pr_ok P) Hx Hu Hu' Hd' Hid')); try done.
  - by apply (mem_wf_ext s), (ko_wf K).
  - by apply (free_ok_ext s), (ko_free K).
  - intros o Ho. split; [done|by apply (in_tables_alloc s l le k)].
  - intros p Hp. apply (ko_maps K Hp).
  - apply (pr_cpu P).
  - intros i y S. rewrite record_other; [apply S|]. by apply (stranger_not_resolved s l le k me ce P id e i y E).
Qed.

Lemma serves_record : serves s with_record k me ce.
Proof. apply record_process. Qed.
End Change.

Lemma served_set_status s l le k me ce id status :
  process s l le k me ce -> served s k me ce (sys_env_set_status id status).
Proof.
  intros P. pose proof (sys_env_set_status_correct s me ce id status (process_caller s l le k me ce P)) as H.
  destruct (resolve s me ce id) as [e|] eqn:E; [|by eapply served_same].
  destruct (resolve_space s l le k me ce P id e E) as (x & d & Hx & Hu & _). rewrite Hx in H.
  destruct (status =? 2); [eexists _, _; split; [exact H|]; by eapply (serves_record _ _ _ _ _ _ _ _ x)|].
  destruct (status =? 4); [eexists _, _; split; [exact H|]; by eapply (serves_record _ _ _ _ _ _ _ _ x)|]. by eapply served_same.
Qed.

(** ** A concrete kernel *)

(** Twenty pages: page 1 is the kernel's (empty) directory, the pages from 2
    on are free; CPU 0 runs environment 0. *)
Definition unfreed : kstate :=
  set_kern_pgdir (page_kva 1) (set_cpus (<[0 := cpu_running]> (table cpu0 1)) (sample 20 0x110000)).
Definition small : kstate := foldr after_free unfreed (zrange 2 18).

Definition after {A} (c : M A) (s : kstate) : kstate := match c s with Ret _ s' => s' | _ => s end.

Lemma after_eq {A} (c : M A) s a s' : c s = Ret a s' -> after c s = s'.
Proof. unfold after. by intros ->. Qed.

(** The same with the environments on their free list, and with environment 0
    allocated. *)
Definition linked : kstate := after (env_init_loop (Z.to_nat NENV)) small.
Definition first_process : kstate := after (env_alloc 0) linked.

Lemma free_many s l :
  mem_wf s -> free_ok s [] -> NoDup l -> (forall i, i ∈ l -> 0 <= i < npages s) ->
  let s' := foldr after_free s l in
  mem_wf s' /\ free_ok s' l /\ kmem s' = kmem s /\ npages s' = npages s /\ envs s' = envs s /\ cpus s' = cpus s /\
  cpunum s' = cpunum s /\ kern_pgdir s' = kern_pgdir s /\ env_free_list s' = env_free_list s.
Proof.
  intros Hwf Hf. induction l as [|i l IH]; intros Hn Hr; [done|]. apply NoDup_cons in Hn as [Hi Hn].
  destruct (IH Hn) as (W & F & Hm & Hnp & Ho); [intros; apply Hr; by right|].
  cbn [foldr]. set (s1 := foldr after_free s l) in *. assert (0 <= i < npages s1) by (rewrite Hnp; apply Hr; by left).
  split; [by apply after_free_wf|]. split; [by apply after_free_ok|].
  rewrite after_free_kmem, after_free_npages, after_free_envs. done.
Qed.

Lemma small_facts :
  mem_wf small /\ free_ok small (zrange 2 18) /\ kmem small = (fun _ => 0) /\ npages small = 20 /\
  envs small = table env0 1024 /\ cpus small !! cpunum small = Some cpu_running /\ kern_pgdir small = page_kva 1 /\ env_free_list small = None.
Proof.
  assert (mem_wf unfreed) as Hwf by (apply (mem_wf_ext (sample 20 0x110000)); try done; apply sample_wf; lia).
  assert (free_ok unfreed []) as Hf by (split; [done|]; intros i Hi; by apply elem_of_nil in Hi).
  assert (forall i, i ∈ zrange 2 18 -> 0 <= i < npages unfreed) as Hr.
  { intros i Hi. apply elem_of_zrange in Hi. change (npages unfreed) with 20. lia. }
  destruct (free_many unfreed (zrange 2 18) Hwf Hf (NoDup_zrange 2 18) Hr) as (W & F & Hm & Hn & He & Hc & Hcn & Hk & Hel).
  fold small in W, F, Hm, Hn, He, Hc, Hcn, Hk, Hel.
  split; [exact W|]. split; [exact F|]. split; [exact Hm|]. split; [exact Hn|]. split; [exact He|].
  split; [|split; [exact Hk|exact Hel]]. rewrite Hc, Hcn. apply lookup_insert_eq.
Qed.

Lemma small_envs_wf : envs_wf small.
Proof.
  destruct small_facts as (_ & _ & _ & _ & He & _). intros i. rewrite He, lookup_table. unfold NENV.
  case_decide; split; try lia; eauto. by intros [].
Qed.

Lemma init_frame s s' :
  s' = set_envs (envs s') (set_env_free_list (env_free_list s') s) ->
  kmem s' = kmem s /\ npages s' = npages s /\ pages s' = pages s /\ page_free_list s' = page_free_list s /\
  cpus s' = cpus s /\ cpunum s' = cpunum s /\ kern_pgdir s' = kern_pgdir s.
Proof.
  intros H. split; [exact (f_equal kmem H)|]. split; [exact (f_equal npages H)|]. split; [exact (f_equal pages H)|].
  split; [exact (f_equal page_free_list H)|]. split; [exact (f_equal cpus H)|]. split; [exact (f_equal cpunum H)|].
  exact (f_equal kern_pgdir H).
Qed.

Lemma linked_facts :
  env_init_loop (Z.to_nat NENV) small = Ret tt linked /\ envs_wf linked /\ env_free_chain linked (zrange 0 (Z.to_nat NENV)) /\
  (forall i, 0 <= i < NENV -> exists e, envs linked !! i = Some e /\ cleared e) /\
  kmem linked = kmem small /\ npages linked = npages small /\ pages linked = pages small /\
  page_free_list linked = page_free_list small /\ cpus linked = cpus small /\ cpunum linked = cpunum small /\
  kern_pgdir linked = kern_pgdir small.
Proof.
  destruct (env_init_loop_eq (Z.to_nat NENV) 0 small) as (s' & H & Hw & Hc & Hcl & Hs').
  - apply small_envs_wf.
  - done.
  - cbn [zrange]. unfold env_free_chain. cbn [chain].
    by destruct small_facts as (_ & _ & _ & _ & _ & _ & _ & ->).
  - intros i Hi. exfalso. revert Hi. unfold NENV. lia.
  - assert (linked = s') as -> by exact (after_eq _ _ _ _ H). rewrite Nat.add_0_r in Hc.
    split; [exact H|]. split; [exact Hw|]. split; [exact Hc|]. split; [exact Hcl|exact (init_frame small s' Hs')].
Qed.

(** A kernel before the first environment. *)
Lemma idle_kernel_ok s l k le :
  mem_wf s -> free_ok s l -> cpu_ok s -> envs_wf s -> env_free_chain s le ->
  (forall e, e ∈ le <-> 0 <= e < NENV) -> (forall e, 0 <= e < NENV -> exists x, envs s !! e = Some x /\ cleared x) ->
  kern_pgdir s = page_kva k -> kmem s = (fun _ => 0) -> 0 <= k < npages s -> (k ∉ l) -> kernel_ok s l le k.
Proof.
  intros Hwf Hf Hcpu Hw Hc Hle Hcl Hk Hm Hr Hkl.
  assert (forall e x, envs s !! e = Some x -> 0 <= e < NENV /\ cleared x) as Hall.
  { intros e x Hx. assert (0 <= e < NENV) as He by (apply Hw; eauto). split; [done|].
    destruct (Hcl e He) as (y & Hy & ?). by simplify_eq. }
  assert (forall e, space s e = None) as Hsp.
  { intros e. unfold space. destruct (envs s !! e) as [x|] eqn:Hx; [|done].
    destruct (Hall e x Hx) as (_ & _ & _ & _ & Hst & _). by rewrite decide_True. }
  assert (forall d i, tbl s d i = None) as Htbl by (intros d i; unfold tbl; by rewrite Hm).
  assert (forall p, maps s p = 0) as Hmaps by (intros p; apply zsum_zero; intros e _; unfold env_maps; by rewrite Hsp).
  split; try done; try (intros e d; by rewrite Hsp).
  - intros e x Hx. destruct (Hall e x Hx) as (_ & -> & _). lia.
  - intros e x Hx. destruct (Hall e x Hx) as (He & _ & _ & _ & Hst & _). rewrite Hle. tauto.
  - split; [done|]. split; [done|done| |]; intros; by rewrite Htbl in *.
  - intros p. rewrite Hmaps. lia.
Qed.

Lemma linked_ok : kernel_ok linked (zrange 2 18) (zrange 0 (Z.to_nat NENV)) 1.
Proof.
  destruct linked_facts as (_ & Hw & Hc & Hcl & Em & En & Ep & Ef & Ec & Ecn & Ek).
  destruct small_facts as (W & F & Hm & Hn & He & Hcpu & Hk & _).
  apply idle_kernel_ok.
  - exact (mem_wf_ext small linked En Ep Em W).
  - exact (free_ok_ext small linked _ Ep Ef F).
  - exists cpu_running. rewrite Ec, Ecn. split; [exact Hcpu|]. intros i [= <-].
    apply (proj2 (Hw 0)). unfold NENV. lia.
  - exact Hw.
  - exact Hc.
  - intros e. rewrite elem_of_zrange, Z2Nat.id by done. unfold NENV. lia.
  - exact Hcl.
  - rewrite Ek. exact Hk.
  - rewrite Em. exact Hm.
  - rewrite En, Hn. lia.
  - rewrite elem_of_zrange. lia.
Qed.

Lemma first_process_new : exists x x', env_alloc 0 linked = Ret (0, Some 0) first_process /\
  envs first_process = <[0 := x']> (envs linked) /\ new_env x x' 0 0 (page_kva 2) /\
  env_free_chain first_process (zrange 1 (Z.to_nat (NENV - 1))) /\ new_space linked first_process 2 (zrange 3 17) 1 /\
  same_machine linked first_process.
Proof.
  pose proof linked_ok as K. change (zrange 2 18) with (2 :: zrange 3 17) in K.
  change (zrange 0 (Z.to_nat NENV)) with (0 :: zrange 1 (Z.to_nat (NENV - 1))) in K.
  destruct (env_alloc_spec linked 0 _ _ 1 (ko_wf K) (ko_envs K) (ko_cpu K) (ko_free K) (ko_chain K) (ko_tmpl K) (ko_ids K))
    as (s' & x & x' & H & Hx & He & Hn & Hch & Hns & Hm).
  assert (first_process = s') as -> by exact (after_eq _ _ _ _ H).
  exists x, x'. split; [exact H|]. split; [exact He|]. split; [exact Hn|]. split; [exact Hch|]. split; [exact Hns|exact Hm].
Qed.

Lemma first_process_ok : exists ce, process first_process (zrange 3 17) (zrange 1 (Z.to_nat (NENV - 1))) 1 0 ce /\
  env_pgdir ce = page_kva 2 /\ env_parent_id ce = 0 /\ (forall p, maps first_process p = 0) /\ env_alloc 0 linked = Ret (0, Some 0) first_process.
Proof.
  destruct first_process_new as (x & x' & H & He & Hn & Hch & Hns & Hm). pose proof linked_ok as K.
  change (zrange 2 18) with (2 :: zrange 3 17) in K.
  change (zrange 0 (Z.to_nat NENV)) with (0 :: zrange 1 (Z.to_nat (NENV - 1))) in K.
  destruct Hn as [N1 N2 N3 N4 N5 N6 N7 N8 N9 N10].
  assert (env_status x' <> ENV_FREE) as Hu by congruence.
  assert (0 <= env_id x' < 2 ^ 31) as Hid by lia.
  exists x'. split; [|split; [exact N8|split; [exact N4|split; [|exact H]]]].
  - split; [exact (kernel_ok_fresh linked first_process 2 0 _ _ 1 x' K He Hid Hu N8 Hns Hch Hm)| |rewrite He; apply lookup_insert_eq|exact Hu].
    destruct Hm as (M1 & M2 & _). rewrite M1, M2. exists cpu_running. split; [|reflexivity].
    destruct linked_facts as (_ & _ & _ & _ & _ & _ & _ & _ & -> & -> & _). apply small_facts.
  - intros p. rewrite (fresh_maps linked first_process 2 0 _ _ 1 x' K He Hu N8 Hns). apply zsum_zero. intros e Hr.
    unfold env_maps, space. destruct linked_facts as (_ & _ & _ & Hcl & _).
    destruct (Hcl e Hr) as (y & -> & _ & _ & _ & Hst & _). rewrite (decide_True _ _ Hst). reflexivity.
Qed.
