(* ===== verification/Reclaim.v ===== *)
(** * Reclaim: the memory of a destroyed environment

    env_free (kern/env.c) unmaps every user page of an environment, frees its
    page tables and its directory and puts it back on the list of free
    environments.  The theorems say that this keeps the invariant of
    Isolation.v, disturbs no other environment, and gives back exactly the pages
    nobody else uses. *)
From S2P Require Import Prelude Machine Mmu KState PageAlloc PageTable Vmem Env Syscall Isolation.

Local Open Scope Z_scope.

(** * Properties *)

(** ** Page tables that only lose entries *)

Section Shrink.
Context (s s' : kstate) (l l' le le' : list Z) (k : Z).
Hypothesis K : kernel_ok s l le k.

Definition surviving (d : Z) : Prop := d = k \/ exists e, space s' e = Some d.

Hypothesis Hcpu : cpu_ok s'.
Hypothesis Henvs : envs_wf s'.
Hypothesis Hids : forall e x, envs s' !! e = Some x -> 0 <= env_id x < 2 ^ 31.
Hypothesis Hchain : env_free_chain s' le'.
Hypothesis Hidle : forall e x, envs s' !! e = Some x -> e ∈ le' <-> env_status x = ENV_FREE.
Hypothesis Hdir : forall e d, space s' e = Some d -> exists x, envs s' !! e = Some x /\ env_pgdir x = page_kva d.
Hypothesis Hnp : npages s' = npages s.
Hypothesis Hkd : kern_pgdir s' = kern_pgdir s.
Hypothesis Hwf : mem_wf s'.
Hypothesis Hf : free_ok s' l'.
Hypothesis Hsp : forall e d, space s' e = Some d -> space s e = Some d.
Hypothesis Htbl : forall d j t, surviving d -> 0 <= j < NPDENTRIES -> j <> PDX UVPT -> tbl s' d j = Some t -> tbl s d j = Some t.
Hypothesis Huser : forall e d i, space s' e = Some d -> uslot i -> user_slot s d i -> user_slot s' d i.
Hypothesis Hpart : forall d o, surviving d -> part_of s' d o -> (o ∉ l') /\ refs s' o = refs s o.
Hypothesis Hmaps : forall p, maps s' p = maps s p.
Hypothesis Hmapped : forall p, 0 < maps s p -> (p ∉ l') /\ refs s' p = refs s p.

Lemma shrink_space e d : space s' e = Some d -> surviving d.
Proof. intros Hs. right. eauto. Qed.

Lemma shrink_data d p : surviving d -> data_page s d p -> data_page s' d p.
Proof. intros Hd [H1 H2]. split; [done|]. intros j Hj Hu Ht%(Htbl d); [|done..]. by apply (H2 j). Qed.

Lemma shrink_owned d o : surviving d -> owned s' d o -> owned s d o.
Proof.
  intros Hd [->|(i & Hi & Ht)]; [by left|right]. exists i. split; [done|]. destruct (uslot_in i Hi). by apply (Htbl d).
Qed.

Lemma shrink_pd d : surviving d -> pgdir_ok s l d -> pgdir_ok s' l' d.
Proof.
  intros Hd [P1 P2 P3 P4]. split.
  - by rewrite Hnp.
  - apply (Hpart d d Hd). by left.
  - intros j t Hj Hu Ht. destruct (P3 j t Hj Hu (Htbl d j t Hd Hj Hu Ht)) as (? & _ & ?). rewrite Hnp.
    split; [done|]. split; [|done]. apply (Hpart d t Hd). right. eauto.
  - intros i j t Hi Hj Hui Huj Hti Htj. apply (P4 i j t); try done; by apply (Htbl d).
Qed.

Lemma shrink_apart e e' d d' : space s' e = Some d -> space s' e' = Some d' -> e <> e' -> apart s' d d'.
Proof.
  intros Hs Hs' Hne o Ho. apply shrink_data; [by apply (shrink_space e')|].
  apply (ko_apart K (Hsp e d Hs) (Hsp e' d' Hs') Hne), shrink_owned; [by apply (shrink_space e)|done].
Qed.

Lemma shrink_mappable p : 0 < maps s p -> mappable s' l' k p.
Proof.
  intros Hp. destruct (ko_maps K Hp) as [M1 M2 M3 M4 M5 M6]. destruct (Hmapped p Hp) as [H1 H2].
  split; rewrite ?Hnp, ?H2, ?Hmaps; try done.
  - intros e d Hs. apply shrink_data; [by apply (shrink_space e)|]. by apply (M5 e), Hsp.
  - apply shrink_data; [by left|done].
Qed.

Lemma kernel_ok_shrink : kernel_ok s' l' le' k.
Proof.
  split; try done.
  - split; [rewrite Hkd; apply (tm_va _ _ _ (ko_tmpl K))|].
    apply shrink_pd; [by left|apply (tm_pd _ _ _ (ko_tmpl K))].
  - intros i Hi. destruct (tbl s' k i) as [t|] eqn:Ht; [|done]. destruct (uslot_in i Hi) as [H1 H2].
    apply (Htbl k i t (or_introl eq_refl) H1 H2) in Ht. by rewrite (ko_empty K i Hi) in Ht.
  - intros e d Hs. apply shrink_pd; [by apply (shrink_space e)|]. exact (ko_pd K (Hsp e d Hs)).
  - intros e d o Hs Ho. destruct (Hpart d o (shrink_space e d Hs) (owned_part s' d o Ho)) as [_ ->].
    apply (ko_own K (Hsp e d Hs)), shrink_owned; [by apply (shrink_space e)|done].
  - apply shrink_apart.
  - intros e d Hs o Ho. apply shrink_data; [by left|]. apply (ko_kapart K (Hsp e d Hs)), shrink_owned; [|done].
    by apply (shrink_space e).
  - intros e d i Hs Hi. apply (Huser e d i Hs Hi), (ko_user K (Hsp e d Hs) Hi).
  - intros p. rewrite Hmaps. apply shrink_mappable.
Qed.
End Shrink.

(** ** The progress of env_free

    From [s] to [s'] environment [e], whose directory is [d], only gave pages
    back. *)
Record reclaims (s : kstate) (l : list Z) (s' : kstate) (l' le : list Z) (k e d : Z) : Prop := {
  rc_ok : kernel_ok s' l' le k;
  rc_space : space s' e = Some d;
  rc_mm : mm_frame s s';
  rc_others : forall e', e' <> e -> undisturbed s s' e';
  rc_trans : forall va, is_u32 va -> va_legal va = true -> trans s' d va = trans s d va \/ trans s' d va = None;
  rc_owned : forall o, owned s' d o -> owned s d o;
  rc_free : forall p, p ∈ l' -> p ∈ l \/ 0 < dir_maps s d p \/ owned s d p;
  rc_kept : forall p, p ∈ l -> p ∈ l';
  rc_mapped : forall p, 0 < maps s p -> 0 < maps s' p \/ p ∈ l';
  rc_tables : forall o, owned s d o -> owned s' d o \/ o ∈ l' }.

Arguments rc_ok {_ _ _ _ _ _ _ _} _.
Arguments rc_space {_ _ _ _ _ _ _ _} _.
Arguments rc_mm {_ _ _ _ _ _ _ _} _.
Arguments rc_others {_ _ _ _ _ _ _ _} _.
Arguments rc_trans {_ _ _ _ _ _ _ _} _.
Arguments rc_owned {_ _ _ _ _ _ _ _} _.
Arguments rc_free {_ _ _ _ _ _ _ _} _.
Arguments rc_kept {_ _ _ _ _ _ _ _} _.
Arguments rc_mapped {_ _ _ _ _ _ _ _} _.
Arguments rc_tables {_ _ _ _ _ _ _ _} _.

Lemma reclaims_refl s l le k e d : kernel_ok s l le k -> space s e = Some d -> reclaims s l s l le k e d.
Proof. intros K Hs. split; try done; intros; first [by apply undisturbed_refl | by left | tauto]. Qed.

Lemma dir_maps_mono s s' d p :
  (forall va, is_u32 va -> va_legal va = true -> trans s' d va = trans s d va \/ trans s' d va = None) ->
  0 < dir_maps s' d p -> 0 < dir_maps s d p.
Proof.
  intros H (va & f & Hva & Hl & Ht)%dir_maps_inv. destruct (H va Hva Hl) as [He|He]; [|congruence].
  rewrite He in Ht. by apply (dir_maps_pos s d va p f).
Qed.

Lemma reclaims_trans s1 l1 s2 l2 s3 l3 le k e d :
  reclaims s1 l1 s2 l2 le k e d -> reclaims s2 l2 s3 l3 le k e d -> reclaims s1 l1 s3 l3 le k e d.
Proof.
  intros [A1 A2 A3 A4 A5 A6 A7 A8 A9 A10] [B1 B2 B3 B4 B5 B6 B7 B8 B9 B10]. split; try done.
  - by etrans.
  - intros e' Hne. eapply undisturbed_trans; [by apply A4|by apply B4].
  - intros va Hva Hl. destruct (A5 va Hva Hl) as [<-|H]; [by apply B5|].
    destruct (B5 va Hva Hl) as [->|]; by right.
  - intros o Ho. by apply A6, B6.
  - intros p [Hp|[Hp|Hp]]%B7; [by apply A7| |right; right; by apply A6].
    right. left. by apply (dir_maps_mono s1 s2).
  - intros p Hp. by apply B8, A8.
  - intros p Hp. destruct (A9 p Hp) as [H|H]; [by apply B9|right; by apply B8].
  - intros o Ho. destruct (A10 o Ho) as [H|H]; [by apply B10|right; by apply B8].
Qed.

(** Unmapping one page. *)
Lemma reclaims_remap s s' l l' le k e d va :
  kernel_ok s l le k -> space s e = Some d -> is_u32 va -> va_legal va = true ->
  remapped s s' l l' d va None None -> reclaims s l s' l' le k e d.
Proof.
  intros K Hs Hva Hl R. assert (forall p, fst <$> @None (Z * Z) = Some p -> mappable s l k p /\ refs s p < 65535) as Hm by done.
  pose proof (rmp_step R) as S. pose proof (kernel_ok_remap s s' l l' le k e d va None None K Hs Hva Hl R Hm) as K'.
  pose proof (remap_maps s s' l l' le k e d va None None K Hs Hva Hl R) as Hmaps.
  assert (forall j, tbl s' d j = tbl s d j \/ ~ uslot j) as Htb.
  { intros j. destruct (decide (0 <= j < NPDENTRIES)) as [Hj|Hj]; [left|right; by intros [? _]%uslot_in].
    destruct (decide (j = PDX va)) as [->|]; [|by apply (ps_tbl_other S)].
    destruct (rmp_new R) as (t & -> & ->). done. }
  split; try done.
  - rewrite (remap_space s s' l l' d va None None R). done.
  - apply (ps_mm S).
  - intros e' Hne. by apply (undisturbed_remap s s' l l' le k e d va None None e').
  - intros va' Hva' Hl'. destruct (decide (PGNUM va' = PGNUM va)); [right; by apply (ps_here S)|left].
    apply (ps_else S); [done|by apply va_legal_user|done].
  - intros o [->|(i & Hi & Ht)]; [by left|right]. exists i. destruct (Htb i) as [He|]; [|done]. by rewrite He in Ht.
  - intros p [[Hp _]|(Ho & _)]%(rmp_free R); [by left|right; left].
    destruct (trans s d va) as [[o f]|] eqn:Ht; [|done]. injection Ho as ->. by apply (dir_maps_pos s d va p f).
  - intros p Hp. apply (rmp_free R). by left.
  - intros p Hp. rewrite Hmaps. cbn [fmap option_fmap option_map]. rewrite (b2z_false (None = Some p)) by done.
    destruct (decide (fst <$> trans s d va = Some p)) as [Ho|Ho]; [rewrite (b2z_true _ Ho)|rewrite (b2z_false _ Ho); left; lia].
    destruct (decide (maps s p = 1)) as [H1|]; [right|left; lia]. apply (rmp_free R). right.
    pose proof (mp_refs _ _ _ _ (ko_maps K Hp)). split; [done|]. split; [lia|done].
  - intros o [->|(i & Hi & Ht)]; left; [by left|right]. exists i. destruct (Htb i) as [He|]; [|done]. by rewrite He.
Qed.

(** ** Dropping an empty table *)

Section ClearTable.
Context (s s' : kstate) (l le : list Z) (k e d i t : Z).
Hypothesis K : kernel_ok s l le k.
Hypothesis Hs : space s e = Some d.
Hypothesis Hi : uslot i.
Hypothesis Ht : tbl s d i = Some t.
Hypothesis Hempty : forall j, 0 <= j < NPTENTRIES -> trans s d (uva i j) = None.
Hypothesis Hmem : kmem s' = st32 (kmem s) (pde_addr d i) 0.
Hypothesis Hwf : mem_wf s'.
Hypothesis Hf : free_ok s' (t :: l).
Hypothesis Hrefs : forall j, refs s' j = refs s j - (if decide (j = t) then 1 else 0).
Hypothesis Hmm : mm_frame s s'.

Lemma clear_owned_t : owned s d t.
Proof. right. eauto. Qed.

Lemma clear_same o : o <> d -> same_page s s' o.
Proof.
  intros Ho. destruct (uslot_in i Hi) as [H _]. apply (st32_same_page s s' o (pde_addr d i) 0 Hmem).
  pose proof (pde_in_page i H). pose proof (pages_disjoint d o (4 * i)). unfold pde_addr. lia.
Qed.

Lemma clear_tbl j : 0 <= j < NPDENTRIES -> tbl s' d j = if decide (j = i) then None else tbl s d j.
Proof.
  intros Hj. unfold tbl. rewrite Hmem. unfold pde_addr. case_decide as H.
  - subst j. by rewrite ld32_st32_eq.
  - by rewrite ld32_st32_ne by lia.
Qed.

Lemma clear_trans va : is_u32 va -> va_legal va = true -> trans s' d va = trans s d va.
Proof.
  intros Hva Hl. pose proof (va_legal_user va Hva Hl) as Hu.
  unfold trans at 1. rewrite clear_tbl by apply PDX_in. case_decide as H.
  - rewrite <- trans_uva, H by done. symmetry. apply Hempty, PTX_range.
  - unfold trans. destruct (tbl s d (PDX va)) as [t'|] eqn:Ht'; [|done].
    destruct (pd_tbl _ _ _ (ko_pd K Hs) _ _ (PDX_in va) Hu Ht') as (_ & _ & Hne).
    pose proof (ptx_in_page va). f_equal. apply ld32_ext. intros x Hx. symmetry.
    apply (clear_same t' Hne). unfold pte_addr in Hx. lia.
Qed.

Lemma clear_other e' d' : space s e' = Some d' -> e' <> e -> parts_kept s s' d' /\ forall o, part_of s d' o -> o <> t.
Proof.
  intros Hs' Hne. pose proof (ko_apart K Hs Hs' (not_eq_sym Hne)) as Ha. split; intros o Ho.
  - apply clear_same. intros ->. apply (data_not_part s d' d (Ha d (or_introl eq_refl)) Ho).
  - intros ->. apply (data_not_part s d' t (Ha t clear_owned_t) Ho).
Qed.

Lemma clear_kern : parts_kept s s' k /\ forall o, part_of s k o -> o <> t.
Proof.
  pose proof (ko_kapart K Hs) as Ha. split; intros o Ho.
  - apply clear_same. intros ->. apply (data_not_part s k d (Ha d (or_introl eq_refl)) Ho).
  - intros ->. apply (data_not_part s k t (Ha t clear_owned_t) Ho).
Qed.

Lemma clear_space e' : space s' e' = space s e'.
Proof. unfold space. by rewrite (mm_envs _ _ Hmm). Qed.

(** Directory [d'] of environment [e'], or the kernel's, when it is not [d]. *)
Lemma clear_kept d' : surviving s' k d' -> d' <> d -> parts_kept s s' d' /\ forall o, part_of s d' o -> o <> t.
Proof.
  intros [->|[e' Hs']] Hne; [apply clear_kern|]. rewrite clear_space in Hs'. apply (clear_other e' d' Hs').
  intros ->. congruence.
Qed.

Lemma clear_tbl_sub d' j t' :
  surviving s' k d' -> 0 <= j < NPDENTRIES -> j <> PDX UVPT -> tbl s' d' j = Some t' -> tbl s d' j = Some t'.
Proof.
  intros Hd' Hj Hu. destruct (decide (d' = d)) as [->|Hne].
  - rewrite clear_tbl by done. by case_decide.
  - by rewrite (kept_tbl s s' d' (proj1 (clear_kept d' Hd' Hne))).
Qed.

(** The parts of a directory that remain are not the page given back. *)
Lemma clear_part d' o : surviving s' k d' -> part_of s' d' o -> part_of s d' o /\ o <> t.
Proof.
  intros Hd' Ho.
  assert (part_of s d' o) as Ho'.
  { destruct Ho as [->|(j & Hj & Hu & Hjt)]; [by left|right]. exists j. split; [done|]. split; [done|]. by apply (clear_tbl_sub d'). }
  split; [done|]. destruct (decide (d' = d)) as [->|Hne]; [|by apply (proj2 (clear_kept d' Hd' Hne))].
  intros ->. destruct (uslot_in i Hi) as [Hi1 Hi2]. pose proof (ko_pd K Hs) as P.
  destruct Ho as [<-|(j & Hj & Hu & Hjt)]; [by destruct (pd_tbl _ _ _ P i t Hi1 Hi2 Ht) as (_ & _ & ?)|].
  rewrite clear_tbl in Hjt by done. case_decide as Hji; [done|]. apply Hji. by apply (pd_inj _ _ _ P j i t).
Qed.

Lemma clear_maps p : maps s' p = maps s p.
Proof.
  apply maps_ext. intros e' _. unfold env_maps. rewrite clear_space. destruct (space s e') as [d'|] eqn:Hs'; [|done].
  destruct (decide (e' = e)) as [->|Hne].
  - rewrite Hs in Hs'. injection Hs' as <-. apply dir_maps_ext. intros i' j' Hi' Hj'.
    destruct (uva_parts i' j' Hi' Hj') as (? & _ & _ & ?). by apply clear_trans.
  - apply kept_dir_maps. by apply (clear_other e').
Qed.

Lemma clear_part_alloc d' o : surviving s' k d' -> part_of s d' o -> o ∉ l.
Proof.
  intros [->|[e' Hs']]; [apply part_alloc, (tm_pd _ _ _ (ko_tmpl K))|]. rewrite clear_space in Hs'.
  apply part_alloc. exact (ko_pd K Hs').
Qed.

Lemma clear_ok : kernel_ok s' (t :: l) le k.
Proof.
  pose proof (mm_envs _ _ Hmm) as He.
  apply (kernel_ok_shrink s s' l (t :: l) le le k K); try done.
  - apply (cpu_ok_mm s s' Hmm), (ko_cpu K).
  - intros j. rewrite He. apply (ko_envs K).
  - intros j x. rewrite He. apply (ko_ids K).
  - unfold env_free_chain. rewrite He, (mm_env_free_list _ _ Hmm). apply (ko_chain K).
  - intros j x. rewrite He. apply (ko_idle K).
  - intros e' d'. rewrite clear_space, He. apply (ko_dir K).
  - apply (mm_npages _ _ Hmm).
  - exact (f_equal kern_pgdir Hmm).
  - intros e' d'. by rewrite clear_space.
  - apply clear_tbl_sub.
  - intros e' d' j Hs' Hj. destruct (decide (d' = d)) as [->|Hne].
    + unfold user_slot. destruct (uslot_in j Hj) as [Hj' _]. rewrite clear_tbl by done. rewrite Hmem. unfold pde_addr.
      case_decide; [by left|]. by rewrite ld32_st32_ne by lia.
    + apply (kept_user s s' d'); [|done]. apply clear_kept; [|done]. right. eauto.
  - intros d' o Hd' Ho. destruct (clear_part d' o Hd' Ho) as [Ho' Hot]. split.
    + apply not_elem_of_cons. split; [done|]. by apply (clear_part_alloc d').
    + rewrite Hrefs, decide_False by done. lia.
  - apply clear_maps.
  - intros p Hp. pose proof (ko_maps K Hp) as M.
    assert (p <> t) as Hpt.
    { intros ->. exact (data_not_part s d t (mp_data _ _ _ _ M e d Hs) (owned_part s d t clear_owned_t)). }
    split; [apply not_elem_of_cons; split; [done|apply M]|]. rewrite Hrefs, decide_False by done. lia.
Qed.

Lemma clear_reclaims : reclaims s l s' (t :: l) le k e d.
Proof.
  split.
  - apply clear_ok.
  - by rewrite clear_space.
  - done.
  - intros e' Hne. apply undisturbed_still; [apply clear_space|intros d' Hs'; by apply (clear_other e')|].
    intros d' va p f Hs' Hva Hl Htr. apply clear_same.
    pose proof (ko_maps K (mapped_maps s e' d' va p f (ko_envs K) Hs' Hva Hl Htr)) as M.
    apply (mp_data _ _ _ _ M e d Hs).
  - intros va Hva Hl. left. by apply clear_trans.
  - intros o [->|(j & Hj & Hjt)]; [by left|right]. exists j. split; [done|]. destruct (uslot_in j Hj) as [Hj' _].
    rewrite clear_tbl in Hjt by done. by case_decide.
  - intros p [->|Hp]%elem_of_cons; [right; right; apply clear_owned_t|by left].
  - intros p Hp. by right.
  - intros p Hp. left. by rewrite clear_maps.
  - intros o [->|(j & Hj & Hjt)]; [left; by left|]. destruct (decide (j = i)) as [->|Hne].
    + right. rewrite Ht in Hjt. injection Hjt as ->. by left.
    + left. right. exists j. split; [done|]. destruct (uslot_in j Hj) as [Hj' _]. by rewrite clear_tbl, decide_False by done.
Qed.
End ClearTable.

(** ** The loops *)

Section Loops.
Context (le : list Z) (k e d : Z).

(** The directory [d] belongs to environment [e] of a well-formed kernel. *)
Definition owns (s : kstate) (l : list Z) : Prop := kernel_ok s l le k /\ space s e = Some d.

Lemma owns_mapped s l va o f :
  owns s l -> is_u32 va -> va_legal va = true -> trans s d va = Some (o, f) -> mapped_ok s l d o.
Proof.
  intros [K Hs] Hva Hl Ht. pose proof (ko_maps K (mapped_maps s e d va o f (ko_envs K) Hs Hva Hl Ht)) as M.
  assert (0 < maps s o) by (by apply (mapped_maps s e d va o f (ko_envs K))).
  split; [apply M|apply M|by apply (mp_data _ _ _ _ M e)|]. pose proof (mp_refs _ _ _ _ M). pose proof (mp_bound _ _ _ _ M). lia.
Qed.

Lemma pte_at s t i j : uslot i -> 0 <= j < NPTENTRIES -> tbl s d i = Some t ->
  trans s d (uva i j) = entry (ld32 (kmem s) (page_kva t + 4 * j)).
Proof. intros Hi Hj Ht. destruct (uva_parts i j Hi Hj) as (_ & H1 & H2 & _). unfold trans, pte_addr. by rewrite H1, H2, Ht. Qed.

Lemma free_ptes_eq n s l i t j :
  owns s l -> uslot i -> tbl s d i = Some t -> 0 <= j -> j + Z.of_nat n = NPTENTRIES ->
  (forall j', 0 <= j' < j -> trans s d (uva i j') = None) ->
  exists s' l', free_ptes n (page_kva d) (page_kva t) i j s = Ret tt s' /\ reclaims s l s' l' le k e d /\
    (forall i', uslot i' -> tbl s' d i' = tbl s d i') /\ (forall j', 0 <= j' < NPTENTRIES -> trans s' d (uva i j') = None).
Proof.
  revert s l j. induction n as [|n IH]; intros s l j O Hi Ht H0 Hn Hdone; pose proof O as [K Hs].
  { exists s, l. split; [done|]. split; [by apply reclaims_refl|]. split; [done|]. intros j' Hj'. apply Hdone. lia. }
  assert (0 <= j < NPTENTRIES) as Hj by lia.
  destruct (uva_parts i j Hi Hj) as (Hva & Hpd & Hpt & Hl). destruct (uslot_in i Hi) as [Hi1 Hi2].
  destruct (pd_tbl _ _ _ (ko_pd K Hs) i t Hi1 Hi2 Ht) as (Htr & _ & _).
  pose proof (page_kva_range s (ko_wf K) t Htr) as Hkt.
  assert (PGADDR i j 0 = uva i j) as Hpg.
  { rewrite PGADDR_eq by (unfold NPDENTRIES, NPTENTRIES in *; lia). unfold uva, PTSIZE, PGSIZE, NPTENTRIES. lia. }
  cbn [free_ptes]. mstep (read32_eq (page_kva t + 4 * j) s ltac:(lia)).
  pose proof (pte_at s t i j Hi Hj Ht) as He. unfold entry in He.
  destruct (has (ld32 (kmem s) (page_kva t + 4 * j)) PTE_P).
  - destruct (page_remove_remaps s l d (uva i j) _ _ (ko_wf K) (ko_free K) (ko_pd K Hs) (ko_cpu K) Hva
      (va_legal_user _ Hva Hl) He (owns_mapped s l _ _ _ O Hva Hl He)) as (s1 & l1 & H1 & R).
    rewrite Hpg. mstep H1. pose proof (reclaims_remap s s1 l l1 le k e d (uva i j) K Hs Hva Hl R) as C1.
    assert (forall i', uslot i' -> tbl s1 d i' = tbl s d i') as Htb.
    { intros i' Hi'. destruct (uslot_in i' Hi'). destruct (decide (i' = i)) as [->|].
      - rewrite Ht. by apply (ps_tbl (rmp_step R)).
      - apply (ps_tbl_other (rmp_step R)); [done|]. by rewrite Hpd. }
    destruct (IH s1 l1 (j + 1)) as (s2 & l2 & H2 & C2 & T2 & E2).
    + split; [apply (rc_ok C1)|apply (rc_space C1)].
    + done.
    + by rewrite Htb.
    + lia.
    + lia.
    + intros j' Hj'. destruct (decide (j' = j)) as [->|Hne]; [by apply (ps_here (rmp_step R))|].
      destruct (uva_parts i j' Hi ltac:(lia)) as (Hva' & _ & _ & Hl').
      destruct (rc_trans C1 (uva i j') Hva' Hl') as [->|]; [|done]. apply Hdone. lia.
    + exists s2, l2. split; [done|]. split; [by eapply reclaims_trans|]. split; [|done].
      intros i' Hi'. rewrite T2 by done. by apply Htb.
  - mrun. destruct (IH s l (j + 1) O Hi Ht) as (s2 & l2 & H2 & C2); [lia|lia| |by exists s2, l2].
    intros j' Hj'. destruct (decide (j' = j)) as [->|Hne]; [done|]. apply Hdone. lia.
Qed.

Lemma table_count : Z.of_nat (Z.to_nat (PTX (Z.lnot 0) + 1)) = NPTENTRIES.
Proof. reflexivity. Qed.

Lemma free_table_eq s l i :
  owns s l -> uslot i ->
  exists s' l', free_table (page_kva d) i s = Ret tt s' /\ reclaims s l s' l' le k e d /\ tbl s' d i = None /\
    (forall i', uslot i' -> i' <> i -> tbl s' d i' = tbl s d i').
Proof.
  intros O Hi. pose proof O as [K Hs]. destruct (uslot_in i Hi) as [Hi1 Hi2].
  pose proof (ko_pd K Hs) as P. pose proof (page_kva_range s (ko_wf K) d (pd_range _ _ _ P)) as Hkd.
  pose proof (pde_in_page i Hi1) as Hpi.
  unfold free_table. mstep (read32_eq (page_kva d + 4 * i) s ltac:(lia)).
  destruct (has _ PTE_P) eqn:Hp; cbn [negb].
  2: { exists s, l. split; [done|]. split; [by apply reclaims_refl|]. split; [|done].
       unfold tbl, entry, pde_addr. by rewrite Hp. }
  assert (exists t, tbl s d i = Some t /\ PTE_ADDR (ld32 (kmem s) (page_kva d + 4 * i)) = t * PGSIZE) as (t & Ht & Hpa).
  { exists (PTE_ADDR (ld32 (kmem s) (page_kva d + 4 * i)) / PGSIZE).
    split; [unfold tbl, entry, pde_addr; by rewrite Hp|].
    pose proof (entry_word s (ko_wf K) (page_kva d + 4 * i)) as Hw. rewrite PTE_ADDR_eq by done.
    unfold PGSIZE. clear - Hw. word_lia. }
  rewrite Hpa. destruct (pd_tbl _ _ _ P i t Hi1 Hi2 Ht) as (Htr & _ & Htd).
  mstep (KADDR_eq (t * PGSIZE) s (ko_wf K) ltac:(unfold PGSIZE; lia)).
  replace (t * PGSIZE + KERNBASE) with (page_kva t) by (unfold page_kva; lia).
  destruct (free_ptes_eq (Z.to_nat (PTX (Z.lnot 0) + 1)) s l i t 0 O Hi Ht) as (s1 & l1 & H1 & C1 & T1 & E1);
    [lia|by rewrite table_count|intros j' Hj'; lia|]. mstep H1.
  pose proof (rc_ok C1) as K1. pose proof (rc_space C1) as Hs1.
  mstep (write32_eq (page_kva d + 4 * i) 0 s1 ltac:(lia)). set (sw := set_kmem _ s1).
  assert (tbl s1 d i = Some t) as Ht1 by by rewrite T1.
  destruct (pd_tbl _ _ _ (ko_pd K1 Hs1) i t Hi1 Hi2 Ht1) as (Htr1 & Hta1 & _).
  assert (mem_wf sw) as Hwfw by (apply mem_wf_kmem; [apply K1|]; apply st32_bytes, (ko_wf K1)).
  assert (free_ok sw l1) as Hfw by (by apply (free_ok_ext s1), (ko_free K1)).
  assert (refs s1 t = 1) as Hrt by (apply (ko_own K1 Hs1); right; by exists i).
  rewrite (bind_Ret _ _ _ _ _ (pa2page_eq (t * PGSIZE) sw Hwfw ltac:(unfold PGSIZE; cbn [npages sw set_kmem]; lia))).
  replace (t * PGSIZE / PGSIZE) with t by (symmetry; by apply Z.div_mul).
  destruct (page_decref_post t l1 sw Hwfw Hfw Hta1 Htr1) as (s2 & H2 & [D1 D2 D3 D4 D5]); [change (refs sw t) with (refs s1 t); lia|].
  assert (mm_frame s1 s2) as Hmm by (by etrans; [|exact D5]).
  change (refs sw t) with (refs s1 t) in D2. rewrite decide_True in D2 by done.
  assert (reclaims s1 l1 s2 (t :: l1) le k e d) as C2.
  { apply (clear_reclaims s1 s2 l1 le k e d i t K1 Hs1 Hi Ht1 E1); try done. }
  exists s2, (t :: l1). split; [done|]. split; [by eapply reclaims_trans|].
  assert (forall j, 0 <= j < NPDENTRIES -> tbl s2 d j = if decide (j = i) then None else tbl s1 d j) as Htb.
  { by apply (clear_tbl s1 s2 d i). }
  split; [by rewrite Htb, decide_True|]. intros i' Hi' Hne. destruct (uslot_in i' Hi') as [Hi1' _].
  rewrite Htb, decide_False by done. by apply T1.
Qed.

Lemma free_tables_eq n s l i x :
  owns s l -> envs s !! e = Some x -> env_pgdir x = page_kva d -> 0 <= i -> i + Z.of_nat n = PDX UTOP ->
  (forall i', 0 <= i' < i -> tbl s d i' = None) ->
  exists s' l', free_tables n e i s = Ret tt s' /\ reclaims s l s' l' le k e d /\ (forall i', uslot i' -> tbl s' d i' = None).
Proof.
  revert s l i. induction n as [|n IH]; intros s l i O Hx Hd H0 Hn Hdone; pose proof O as [K Hs].
  { exists s, l. split; [done|]. split; [by apply reclaims_refl|]. intros i' Hi'. apply Hdone. unfold uslot in Hi'. lia. }
  assert (uslot i) as Hi by (unfold uslot; lia).
  cbn [free_tables]. mstep (get_env_eq e x s Hx). rewrite Hd.
  destruct (free_table_eq s l i O Hi) as (s1 & l1 & H1 & C1 & Hn1 & T1). mstep H1.
  destruct (IH s1 l1 (i + 1)) as (s2 & l2 & H2 & C2 & E2).
  - split; [apply (rc_ok C1)|apply (rc_space C1)].
  - by rewrite (mm_envs _ _ (rc_mm C1)).
  - done.
  - lia.
  - lia.
  - intros i' Hi'. destruct (decide (i' = i)) as [->|Hne]; [done|]. rewrite T1; [|unfold uslot; lia|done]. apply Hdone. lia.
  - exists s2, l2. split; [done|]. split; [by eapply reclaims_trans|done].
Qed.
End Loops.

(** ** Giving the environment back *)

(** The part of env_free after the tables are gone. *)
Definition drop_dir (e : Z) : M unit :=
  let! x := get_env e in
  let! pa := PADDR (env_pgdir x) in
  upd_env e (set_env_pgdir 0) ;;
  let! pp := pa2page pa in
  page_decref pp ;;
  let! fl := get env_free_list in
  upd_env e (fun x => set_env_link fl (set_env_status ENV_FREE x)) ;;
  modify (set_env_free_list (Some e)).

Section DropDir.
Context (s s' : kstate) (l le : list Z) (k e d : Z) (x' : Env).
Hypothesis K : kernel_ok s l le k.
Hypothesis Hs : space s e = Some d.
Hypothesis Hno : forall i, uslot i -> tbl s d i = None.
Hypothesis Hmem : kmem s' = kmem s.
Hypothesis Hwf : mem_wf s'.
Hypothesis Hf : free_ok s' (d :: l).
Hypothesis Hrefs : forall j, refs s' j = refs s j - (if decide (j = d) then 1 else 0).
Hypothesis He : envs s' = <[e := x']> (envs s).
Hypothesis Hst : env_status x' = ENV_FREE.
Hypothesis Hln : env_link x' = env_free_list s.
Hypothesis Hid : 0 <= env_id x' < 2 ^ 31.
Hypothesis Hfl : env_free_list s' = Some e.
Hypothesis Hm : same_machine s s'.

Lemma drop_space e' : space s' e' = if decide (e' = e) then None else space s e'.
Proof.
  unfold space. rewrite He. case_decide as Hx.
  - subst. by rewrite lookup_insert_eq, decide_True.
  - by rewrite lookup_insert_ne by done.
Qed.

Lemma drop_tbl d' j : tbl s' d' j = tbl s d' j.
Proof. unfold tbl. by rewrite Hmem. Qed.

Lemma drop_kept d' : parts_kept s s' d'.
Proof. intros o _ y _. by rewrite Hmem. Qed.

Lemma drop_maps p : maps s' p = maps s p.
Proof.
  apply maps_ext. intros e' _. unfold env_maps. rewrite drop_space. case_decide as Hx.
  - subst. rewrite Hs. symmetry. by apply dir_maps_empty.
  - destruct (space s e') as [d'|]; [|done]. apply kept_dir_maps, drop_kept.
Qed.

Lemma drop_part d' o : surviving s' k d' -> part_of s' d' o -> (o ∉ d :: l) /\ refs s' o = refs s o.
Proof.
  intros Hd' Ho.
  assert (part_of s d' o) as Ho'.
  { destruct Ho as [->|(j & Hj & Hu & Hjt)]; [by left|right]. exists j. by rewrite <- drop_tbl. }
  assert (o <> d /\ o ∉ l) as [Hod Hol].
  { destruct Hd' as [->|[e' Hs']].
    - split; [intros ->; exact (data_not_part s k d (ko_kapart K Hs d (or_introl eq_refl)) Ho')|].
      exact (part_alloc s l k o (tm_pd _ _ _ (ko_tmpl K)) Ho').
    - rewrite drop_space in Hs'. case_decide as Hne; [done|].
      split; [intros ->; exact (data_not_part s d' d (ko_apart K Hs Hs' (not_eq_sym Hne) d (or_introl eq_refl)) Ho')|].
      exact (part_alloc s l d' o (ko_pd K Hs') Ho'). }
  split; [by apply not_elem_of_cons|]. rewrite Hrefs, decide_False by done. lia.
Qed.

Lemma drop_fresh : e ∉ le.
Proof.
  destruct (space_lookup s e d Hs) as (x & Hx & Hu). by rewrite (ko_idle K e x Hx).
Qed.

Lemma drop_ok : kernel_ok s' (d :: l) (e :: le) k.
Proof.
  destruct Hm as (M1 & M2 & M3 & M4). pose proof drop_fresh as Hle.
  apply (kernel_ok_shrink s s' l (d :: l) le (e :: le) k K); try done.
  - destruct (ko_cpu K) as (c & H1 & H2). exists c. rewrite M1, M2. split; [done|]. intros i Hi. rewrite He.
    destruct (decide (e = i)) as [->|]; [by rewrite lookup_insert_eq|]. rewrite lookup_insert_ne by done. by apply H2.
  - intros i. rewrite He. destruct (decide (e = i)) as [<-|].
    + rewrite lookup_insert_eq. pose proof (space_range s e d (ko_envs K) Hs). split; eauto.
    + rewrite lookup_insert_ne by done. apply (ko_envs K).
  - intros i x. rewrite He. destruct (decide (e = i)) as [->|].
    + rewrite lookup_insert_eq. by intros [= <-].
    + rewrite lookup_insert_ne by done. apply (ko_ids K).
  - unfold env_free_chain. rewrite Hfl, He. split; [done|]. exists x'. split; [by rewrite lookup_insert_eq|].
    rewrite chain_frame by done. rewrite Hln. apply (ko_chain K).
  - intros i x. rewrite He, elem_of_cons. destruct (decide (e = i)) as [->|].
    + rewrite lookup_insert_eq. intros [= <-]. tauto.
    + rewrite lookup_insert_ne by done. intros Hx%(ko_idle K). naive_solver.
  - intros e' d'. rewrite drop_space, He. case_decide; [done|]. rewrite lookup_insert_ne by done. apply (ko_dir K).
  - intros e' d'. rewrite drop_space. by case_decide.
  - intros d' j t _ _ _. by rewrite drop_tbl.
  - intros e' d' i _ _. unfold user_slot. by rewrite drop_tbl, Hmem.
  - apply drop_part.
  - apply drop_maps.
  - intros p Hp. pose proof (ko_maps K Hp) as M. pose proof (proj1 (mp_data _ _ _ _ M e d Hs)) as Hpd.
    split; [apply not_elem_of_cons; split; [done|apply M]|]. rewrite Hrefs, decide_False by done. lia.
Qed.
End DropDir.

Lemma drop_dir_eq s l le k e d :
  kernel_ok s l le k -> space s e = Some d -> (forall i, uslot i -> tbl s d i = None) ->
  exists s', drop_dir e s = Ret tt s' /\ kernel_ok s' (d :: l) (e :: le) k /\ kmem s' = kmem s /\
    (forall e', e' <> e -> envs s' !! e' = envs s !! e') /\ space s' e = None /\
    cpus s' = cpus s /\ cpunum s' = cpunum s.
Proof.
  intros K Hs Hno. destruct (ko_dir K Hs) as (x & Hx & Hd). pose proof (ko_pd K Hs) as P.
  unfold drop_dir. mstep (get_env_eq e x s Hx). rewrite Hd.
  mstep (PADDR_page d s (ko_wf K) (pd_range _ _ _ P)). mstep (upd_env_eq e (set_env_pgdir 0) x s Hx).
  set (s1 := set_envs _ s).
  assert (mem_wf s1) as Hwf1 by (by apply (mem_wf_ext s), (ko_wf K)).
  assert (free_ok s1 l) as Hf1 by (by apply (free_ok_ext s), (ko_free K)).
  pose proof (pd_range _ _ _ P) as Hr.
  rewrite (bind_Ret _ _ _ _ _ (pa2page_eq (d * PGSIZE) s1 Hwf1 ltac:(unfold PGSIZE; cbn [npages s1 set_envs]; lia))).
  replace (d * PGSIZE / PGSIZE) with d by (symmetry; by apply Z.div_mul).
  assert (refs s d = 1) as Hrd by (apply (ko_own K Hs); by left).
  destruct (page_decref_post d l s1 Hwf1 Hf1 (pd_alloc _ _ _ P) Hr) as (s2 & H2 & [D1 D2 D3 D4 D5]);
    [change (refs s1 d) with (refs s d); lia|]. mstep H2.
  change (refs s1 d) with (refs s d) in D2. rewrite decide_True in D2 by done.
  rewrite bind_get. rewrite (mm_env_free_list _ _ D5). change (env_free_list s1) with (env_free_list s).
  set (x1 := set_env_pgdir 0 x).
  assert (envs s2 !! e = Some x1) as Hx2 by (rewrite (mm_envs _ _ D5); apply lookup_insert_eq).
  rewrite (bind_Ret _ _ _ _ _ (upd_env_eq e _ x1 s2 Hx2)). set (x2 := set_env_link _ _). set (s3 := set_envs _ s2).
  set (s4 := set_env_free_list (Some e) s3).
  assert (envs s4 = <[e := x2]> (envs s)) as He4.
  { unfold s4, s3. cbn [envs set_env_free_list set_envs]. rewrite (mm_envs _ _ D5). unfold s1.
    cbn [envs set_envs]. by rewrite insert_insert_eq. }
  assert (same_machine s s4) as Hm4.
  { unfold same_machine. unfold s4, s3. cbn [cpus cpunum kern_pgdir npages set_env_free_list set_envs].
    split; [by apply (mm_cpus s1)|]. split; [by apply (mm_cpunum s1)|].
    split; [exact (f_equal kern_pgdir D5)|by apply (mm_npages s1)]. }
  exists s4. split; [done|]. split.
  - apply (drop_ok s s4 l le k e d x2); try done.
    + by apply (mem_wf_ext s2).
    + by apply (free_ok_ext s2).
    + by apply (ko_ids K e x).
  - split; [done|]. split; [|split].
    + intros e' Hne. by rewrite He4, lookup_insert_ne.
    + by rewrite (drop_space s s4 e x2 He4 eq_refl), decide_True.
    + destruct Hm4 as (? & ? & _). done.
Qed.

(** What destroying environment [e], whose directory is [d], leaves. *)
Record reclaimed (s : kstate) (l : list Z) (s' : kstate) (l' le : list Z) (k e d : Z) : Prop := {
  rd_ok : kernel_ok s' l' (e :: le) k;
  rd_gone : space s' e = None;
  rd_free : forall p, p ∈ l' <-> p ∈ l \/ owned s d p \/ (0 < dir_maps s d p /\ maps s p = dir_maps s d p);
  rd_maps : forall p, maps s' p = maps s p - dir_maps s d p;
  rd_others : forall e', e' <> e -> envs s' !! e' = envs s !! e' /\ undisturbed s s' e';
  rd_cpu : cpus s' = cpus s /\ cpunum s' = cpunum s }.

Lemma space_ext s s' e : envs s' !! e = envs s !! e -> space s' e = space s e.
Proof. intros H. unfold space. by rewrite H. Qed.

(** The state differs in what no address space depends on. *)
Lemma quiet_ok s s' l le k :
  kernel_ok s l le k -> kmem s' = kmem s -> envs s' = envs s -> env_free_list s' = env_free_list s ->
  cpus s' = cpus s -> cpunum s' = cpunum s -> npages s' = npages s -> kern_pgdir s' = kern_pgdir s ->
  pages s' = pages s -> page_free_list s' = page_free_list s -> kernel_ok s' l le k.
Proof.
  intros K Hm He Hel Hc Hn Hnp Hkd Hpg Hfl.
  apply (kernel_ok_still s s' l l le k K); try done.
  - by apply (envs_ok_same s s' l le k).
  - by apply (mem_wf_ext s), (ko_wf K).
  - by apply (free_ok_ext s), (ko_free K).
  - intros o Ho. split; [intros x _; by rewrite Hm|]. by apply (in_tables_alloc s l le k).
  - intros j. unfold refs. by rewrite Hpg.
  - intros p Hp. apply (ko_maps K Hp).
Qed.

Lemma dir_maps_kmem s s' d p : kmem s' = kmem s -> dir_maps s' d p = dir_maps s d p.
Proof. intros H. apply dir_maps_ext. intros i j _ _. by apply trans_kmem. Qed.

Lemma undisturbed_kmem s s' e : kmem s' = kmem s -> envs s' !! e = envs s !! e -> undisturbed s s' e.
Proof.
  intros Hm He. split; [by apply space_ext|]. intros d _ va _ _. split; [by apply trans_kmem|].
  intros p f _ x _. by rewrite Hm.
Qed.

(** The mappings that remain are those of the others. *)
Lemma reclaimed_maps s s2 e d p :
  envs_wf s -> space s e = Some d -> space s2 e = None -> (forall e', e' <> e -> undisturbed s s2 e') ->
  maps s2 p = maps s p - dir_maps s d p.
Proof.
  intros Hw Hs Hgone Ho. rewrite (maps_change s s2 e p (space_range s e d Hw Hs)).
  - unfold env_maps. rewrite Hs, Hgone. lia.
  - intros e' _ Hne. destruct (Ho e' Hne) as [Hsp Htr]. unfold env_maps. rewrite Hsp.
    destruct (space s e') as [d'|] eqn:Hs'; [|done]. apply dir_maps_ext. intros i j Hi Hj.
    destruct (uva_parts i j Hi Hj) as (Hva & _ & _ & Hl). by apply (Htr d').
Qed.

(** The pages that end up free, counted at the end. *)
Lemma reclaimed_free s l s1 l1 s2 le k e d :
  kernel_ok s l le k -> space s e = Some d -> reclaims s l s1 l1 le k e d -> (forall i, uslot i -> tbl s1 d i = None) ->
  kernel_ok s2 (d :: l1) (e :: le) k -> kmem s2 = kmem s1 -> space s2 e = None ->
  (forall e', e' <> e -> space s2 e' = space s1 e') -> (forall p, maps s2 p = maps s p - dir_maps s d p) ->
  forall p, p ∈ d :: l1 <-> p ∈ l \/ owned s d p \/ (0 < dir_maps s d p /\ maps s p = dir_maps s d p).
Proof.
  intros K Hs C Hno K2 Hm Hgone Hsp Hmaps p. specialize (Hmaps p).
  assert (maps s2 p = maps s1 p) as Hmaps1.
  { apply maps_ext. intros e' _. unfold env_maps. destruct (decide (e' = e)) as [->|Hne].
    - rewrite Hgone, (rc_space C). symmetry. by apply dir_maps_empty.
    - rewrite (Hsp e' Hne). destruct (space s1 e'); [|done]. by apply dir_maps_kmem. }
  pose proof (dir_maps_nonneg s d p). pose proof (maps_nonneg s2 p). split.
  - intros Hp. assert (maps s2 p = 0) as Hz.
    { destruct (decide (0 < maps s2 p)) as [H2|]; [|lia]. by destruct (mp_alloc _ _ _ _ (ko_maps K2 H2)). }
    apply elem_of_cons in Hp as [->|Hp]; [right; left; by left|].
    destruct (rc_free C p Hp) as [?|[?|?]]; [by left|right; right; lia|by right; left].
  - intros [Hp|[Ho|[Hd He]]]; apply elem_of_cons.
    + right. by apply (rc_kept C).
    + destruct (rc_tables C p Ho) as [[->|(i & Hi & Ht)]|?]; [by left| |by right]. by rewrite Hno in Ht.
    + right. pose proof (maps_ge s e p (space_range s e d (ko_envs K) Hs)) as Hg. rewrite (env_maps_eq s p e d Hs) in Hg.
      destruct (rc_mapped C p ltac:(lia)) as [?|?]; [lia|done].
Qed.

Lemma env_free_spec s l le k e d :
  kernel_ok s l le k -> space s e = Some d ->
  exists s' l', env_free e s = Ret tt s' /\ reclaimed s l s' l' le k e d.
Proof.
  intros K Hs. destruct (ko_dir K Hs) as (x & Hx & Hd). destruct (ko_cpu K) as (c & Hc & Hce).
  assert (exists s1, (forall B (r : M B), (let! cur := curenv in
      (if bool_decide (cur = Some e) then let! kd := get kern_pgdir in let! pa := PADDR kd in lcr3 pa else kret tt) ;;
      let! x := get_env e in
      let! me := (match cur with Some c => let! ce := get_env c in kret (env_id ce) | None => kret 0 end) in
      cprintf "[%08x] free env %08x" [me; env_id x] ;; r) s = r s1) /\
    kernel_ok s1 l le k /\ kmem s1 = kmem s /\ envs s1 = envs s /\ cpus s1 = cpus s /\ cpunum s1 = cpunum s)
    as (s1 & H1 & K1 & Hm1 & He1 & Hc1 & Hn1).
  { set (s0 := if bool_decide (cpu_env c = Some e) then set_cr3 (k * PGSIZE) s else s).
    assert (exists v, (match cpu_env c with Some c => let! ce := get_env c in kret (env_id ce) | None => kret 0 end) s0 = Ret v s0)
      as [v Hv].
    { destruct (cpu_env c) as [i|] eqn:Ei; [|by eexists]. destruct (Hce i eq_refl) as [y Hy].
      assert (envs s0 !! i = Some y) as Hy0 by by unfold s0; destruct (bool_decide _).
      eexists. by mstep (get_env_eq i y s0 Hy0). }
    exists (set_klog (("[%08x] free env %08x"%string, [v; env_id x]) :: klog s0) s0). split; [|split].
    - intros B r. mstep (curenv_eq c s Hc).
      assert ((if bool_decide (cpu_env c = Some e)
        then let! kd := get kern_pgdir in let! pa := PADDR kd in lcr3 pa else kret tt) s = Ret tt s0) as Hl.
      { unfold s0. destruct (bool_decide _); [|done]. rewrite bind_get, (tm_va _ _ _ (ko_tmpl K)).
        by mstep (PADDR_page k s (ko_wf K) (pd_range _ _ _ (tm_pd _ _ _ (ko_tmpl K)))). }
      mstep Hl. assert (envs s0 !! e = Some x) as Hx0 by by unfold s0; destruct (bool_decide _).
      mstep (get_env_eq e x s0 Hx0). by mstep Hv.
    - apply (quiet_ok s); [done|..]; unfold s0; by destruct (bool_decide _).
    - unfold s0. by destruct (bool_decide _). }
  assert (owns le k e d s1 l) as O1 by (split; [done|]; by rewrite (space_ext s s1) by by rewrite He1).
  destruct (free_tables_eq le k e d (Z.to_nat (PDX UTOP)) s1 l 0 x O1 ltac:(by rewrite He1) Hd) as (s2 & l2 & H2 & C & Hno);
    [lia|done|intros; lia|].
  destruct (drop_dir_eq s2 l2 le k e d (rc_ok C) (rc_space C) Hno) as (s3 & H3 & K3 & Hm3 & He3 & Hg3 & Hc3 & Hn3).
  assert (forall e', e' <> e -> envs s3 !! e' = envs s !! e') as Henv.
  { intros e' Hne. by rewrite He3, (mm_envs _ _ (rc_mm C)), He1. }
  assert (forall e', e' <> e -> undisturbed s s3 e') as Hoth.
  { intros e' Hne. eapply undisturbed_trans; [apply (undisturbed_kmem s s1 e'); by rewrite ?He1|].
    eapply undisturbed_trans; [by apply (rc_others C)|]. apply undisturbed_kmem; [done|by apply He3]. }
  assert (forall p, maps s3 p = maps s p - dir_maps s d p) as Hmaps.
  { intros p. by apply (reclaimed_maps s s3 e d p (ko_envs K) Hs Hg3). }
  assert (forall p, dir_maps s1 d p = dir_maps s d p) as Hdm by (intros; by apply dir_maps_kmem).
  assert (forall p, maps s1 p = maps s p) as Hm.
  { intros p. apply maps_ext. intros e' _. unfold env_maps. rewrite (space_ext s s1) by by rewrite He1.
    destruct (space s e'); [|done]. by apply dir_maps_kmem. }
  exists s3, (d :: l2). split.
  - unfold env_free. rewrite H1. mstep H2. exact H3.
  - split; try done.
    + intros p. rewrite (reclaimed_free s1 l s2 l2 s3 le k e d K1 (proj2 O1) C Hno K3 Hm3 Hg3), Hdm, Hm.
      * unfold owned. by setoid_rewrite (tbl_kmem s s1 d _ Hm1).
      * intros e' Hne. apply space_ext. by apply He3.
      * intros p'. by rewrite Hdm, Hm.
    + intros e' Hne. split; [by apply Henv|by apply Hoth].
    + rewrite Hc3, Hn3, (mm_cpus _ _ (rc_mm C)), (mm_cpunum _ _ (rc_mm C)). done.
Qed.

(** C13. Destroying an environment.  env_free of any environment in use ends, and
    what it leaves is a well-formed kernel in which the environment is free
    again: exactly its directory, its page tables and the pages that it alone
    mapped have joined the free pages - a page another environment maps too has
    only lost the references of the destroyed one - and every other environment
    keeps its record, its mappings and the contents of its pages. *)
Theorem env_free_correct (s : kstate) (l le : list Z) (k e d : Z) :
  kernel_ok s l le k -> space s e = Some d ->
  exists s' l', env_free e s = Ret tt s' /\ reclaimed s l s' l' le k e d.
Proof. apply env_free_spec. Qed.

Lemma first_space : space first_process 0 = Some 2.
Proof.
  destruct first_process_ok as (ce & P & Hd & _). destruct (used_space _ _ _ _ _ _ P 0 ce (pr_env P) (pr_used P)) as (d & Hs & Hd').
  rewrite Hs. f_equal. rewrite Hd in Hd'. unfold page_kva, PGSIZE in Hd'. clear - Hd'. lia.
Qed.

Lemma env_free_correct_witness :
  exists (s' : kstate) (l' : list Z), env_free 0 first_process = Ret tt s' /\ space s' 0 = None /\ 2 ∈ l'.
Proof.
  destruct first_process_ok as (ce & P & _).
  destruct (env_free_correct first_process _ _ 1 0 2 (pr_ok P) first_space) as (s' & l' & H & R).
  exists s', l'. split; [exact H|]. split; [apply R|]. apply (rd_free _ _ _ _ _ _ _ _ R). right. left. left. reflexivity.
Defined.
