(* ===== verification/Protection.v ===== *)
(** * Protection: what a running process can do to the rest

    The steps of the current process - system calls (kern/syscall.c) and stores
    to its own writable memory - as a transition relation over the invariant of
    Isolation.v: the kernel stays well-formed whatever the process does, every
    call that is not one of the known holes returns, and environments the
    process has no authority over keep their memory. *)
From S2P Require Import Prelude Machine Mmu KState PageAlloc PageTable Vmem Kdebug Env Sched Syscall Isolation Reclaim.

Local Open Scope Z_scope.

(** ** The steps of a process *)

(** The kernel's check of a user range passes. *)
Definition passes (s : kstate) (e va len perm : Z) : Prop :=
  exists a, user_mem_check e va len (Z.lor perm PTE_U) s = Ret 0 (set_user_mem_check_addr a s).

(** Printing reads mapped memory only: every byte is, from [va] to a NUL or
    to the one after the last that is printed. *)
Definition text_mapped (s : kstate) (va len : Z) : Prop :=
  va = 0 \/ exists n, 0 <= n < 2 ^ 32 /\
    (forall i, 0 <= i <= n -> translate s (cr3 s) (u32 (va + i)) false <> None) /\
    ((n = len /\ len < 2 ^ 31) \/ (kmem s <$> translate s (cr3 s) (u32 (va + n)) false) = Some 0).

(** The calls that return to their caller and do not run into a hole of the
    kernel: not the unimplemented ones, not those that end in the scheduler,
    cputs only of a text that is mapped with the byte after it, and page_map and
    page_unmap only of an address that is mapped or has no page table. *)
Definition harmless (s : kstate) (me num a1 a2 a3 a4 a5 : Z) : Prop :=
  is_u32 a2 /\ is_u32 a4 /\
  forall ce, envs s !! me = Some ce ->
    let target d va := tbl s d (PDX va) = None \/ trans s d va <> None in
    if num =? SYS_cputs then passes s me a1 a2 PTE_U /\ is_u32 a1 /\ text_mapped s a1 a2
    else if (num =? SYS_cgetc) || (num =? SYS_getenvid) || (num =? SYS_page_alloc) || (num =? SYS_exofork) ||
            (num =? SYS_env_set_status) then True
    else if num =? SYS_env_destroy then resolve s me ce (s32 a1) <> Some me
    else if num =? SYS_page_map then
      forall e d, resolve s me ce (s32 a1) = Some e -> space s e = Some d -> source_ok s d a2
    else if num =? SYS_page_unmap then
      forall e d, resolve s me ce (s32 a1) = Some e -> space s e = Some d -> target d a2
    else if num =? SYS_env_set_pgfault_upcall then
      forall e x, resolve s me ce (s32 a1) = Some e -> envs s !! e = Some x ->
        passes (with_record s e (set_env_pgfault_upcall a2 x)) e a2 4 0
    else False.

Section Protection.
Context {stabs : StabSections}.

Inductive user_step (me : Z) (s : kstate) : kstate -> Prop :=
  | step_call num a1 a2 a3 a4 a5 r s' :
      harmless s me num a1 a2 a3 a4 a5 -> syscall num a1 a2 a3 a4 a5 s = Ret r s' -> user_step me s s'
  | step_store d va p f m' :
      space s me = Some d -> is_u32 va -> va_legal va = true -> trans s d va = Some (p, f) -> has f PTE_W = true ->
      data_write s p m' -> user_step me s (set_kmem m' s).

(** * Properties *)

Lemma served_then s k me ce (c : M unit) r s' :
  c s = Ret tt s' -> serves s s' k me ce -> served s k me ce (c ;; kret r).
Proof. intros Hc S. exists r, s'. split; [by mstep Hc|done]. Qed.

Lemma assert_passes s e va len perm a :
  user_mem_check e va len (Z.lor perm PTE_U) s = Ret 0 (set_user_mem_check_addr a s) ->
  user_mem_assert e va len perm s = Ret tt (set_user_mem_check_addr a s).
Proof. intros Hp. unfold user_mem_assert. by mstep Hp. Qed.

(** Destroying an environment makes nobody else's pages shared. *)
Lemma freed_private s l le k me ce (P : process s l le k me ce) e d s' l' e' :
  space s e = Some d -> reclaimed s l s' l' le k e d -> e' <> e -> private s e' -> private s' e'.
Proof.
  intros Hs [R1 R2 R3 R4 R5 _] Hne Hp. destruct (R5 e' Hne) as [_ [U1 U2]]. intros d' p. rewrite U1. intros Hs' Hd.
  assert (dir_maps s' d' p = dir_maps s d' p) as He.
  { apply dir_maps_ext. intros i j Hi Hj. destruct (uva_parts i j Hi Hj) as (? & _ & _ & ?). by apply (U2 d' Hs'). }
  rewrite He in Hd |- *. rewrite R4, (Hp d' p Hs' Hd).
  rewrite (private_apart s l le k me ce P e' e d' d p Hs' Hs Hne Hp Hd). lia.
Qed.

(** Destroying another environment: at once, or marked for its own CPU. *)
Lemma serves_freed s l le k me ce (P : process s l le k me ce) e d s' l' :
  e <> me -> space s e = Some d -> (forall x, ~ stranger s me ce e x) -> reclaimed s l s' l' le k e d ->
  serves s s' k me ce.
Proof.
  intros Hne Hs Hns R. pose proof R as [R1 R2 R3 R4 R5 [R6 R7]]. split.
  - exists l', (e :: le), ce. split; [|done]. split; [done| | |apply (pr_used P)].
    + rewrite R6, R7. apply (pr_cpu P).
    + rewrite (proj1 (R5 me (not_eq_sym Hne))). apply (pr_env P).
  - intros e' x S. assert (e' <> e) as Hne' by (intros ->; by apply (Hns x)). rewrite (proj1 (R5 e' Hne')). apply S.
  - intros e' x S Hp. assert (e' <> e) as Hne' by (intros ->; by apply (Hns x)).
    split; [apply (R5 e' Hne')|]. by apply (freed_private s l le k me ce P e d s' l' e').
Qed.

(** The kernel's loads of a text that is mapped, [n] bytes before its end. *)
Lemma read_text_ok fuel : forall va precision s n,
  0 <= n -> (forall i, 0 <= i <= n -> translate s (cr3 s) (u32 (va + i)) false <> None) ->
  n = precision \/ (kmem s <$> translate s (cr3 s) (u32 (va + n)) false) = Some 0 ->
  is_u32 va -> n < Z.of_nat fuel \/ (0 <= precision < Z.of_nat fuel) -> exists text, read_text fuel va precision s = Ret text s.
Proof.
  induction fuel as [|fuel IH]; intros va precision s n Hn Hm Hend Hva Hf; [lia|].
  pose proof (Hm 0 ltac:(lia)) as H0. rewrite Z.add_0_r, (u32_id va Hva) in H0.
  destruct (translate s (cr3 s) va false) as [a|] eqn:E; [|done].
  assert (vread8 va s = Ret (kmem s a) s) as Hr by (unfold vread8, vaddr, kbind; rewrite E; done).
  cbn [read_text]. mstep Hr. destruct (Z.eqb_spec (kmem s a) 0) as [Hz|Hz]; cbn [negb andb]; [by eexists|].
  destruct ((precision <? 0) || (0 <=? precision - 1)) eqn:Hp; [|by eexists].
  destruct (decide (n = 0)) as [->|Hn0].
  { rewrite Z.add_0_r, (u32_id va Hva), E in Hend. destruct Hend as [<-|[= Hk]]; [|done]. discriminate Hp. }
  assert (forall i, u32 (u32 (va + 1) + i) = u32 (va + (i + 1))) as Hu by (intros i; word_lia).
  destruct (IH (u32 (va + 1)) (if precision <? 0 then precision else precision - 1) s (n - 1)) as [text Ht].
  - lia.
  - intros i Hi. rewrite Hu. apply Hm. lia.
  - rewrite Hu, Z.sub_add. destruct Hend as [->|Hk]; [left|by right].
    destruct (Z.ltb_spec precision 0); lia.
  - word_lia.
  - destruct (Z.ltb_spec precision 0); lia.
  - exists (kmem s a :: text). by mstep Ht.
Qed.

Lemma read_text_mapped va len s n :
  is_u32 va -> is_u32 len -> 0 <= n < 2 ^ 32 -> (forall i, 0 <= i <= n -> translate s (cr3 s) (u32 (va + i)) false <> None) ->
  (n = len /\ len < 2 ^ 31) \/ (kmem s <$> translate s (cr3 s) (u32 (va + n)) false) = Some 0 ->
  exists text, read_text (text_fuel (s32 len)) va (s32 len) s = Ret text s.
Proof.
  intros Hva Hlen Hn Hm Hend. apply (read_text_ok _ va (s32 len) s n); [lia|exact Hm| |exact Hva|].
  - destruct Hend as [[-> Hl]|?]; [left|by right]. word_lia.
  - unfold text_fuel. destruct (Z.ltb_spec (s32 len) 0); rewrite Z2Nat.id; lia.
Qed.

Section Served.
Context (s : kstate) (l le : list Z) (k me : Z) (ce : Env).
Hypothesis P : process s l le k me ce.

Lemma cur_eq : cur s = Ret me s.
Proof. unfold cur. mstep (curenv_caller s me ce (process_caller s l le k me ce P)). done. Qed.

Lemma served_cputs va len :
  passes s me va len PTE_U -> is_u32 va -> is_u32 len -> text_mapped s va len -> served s k me ce (sys_cputs va len ;; kret 0).
Proof.
  intros [a Ha] Hva Hlen Ht. set (s1 := set_user_mem_check_addr a s) in *.
  assert (exists text, (if va =? 0 then kret (null_text (s32 len)) else read_text (text_fuel (s32 len)) va (s32 len)) s1 = Ret text s1)
    as [text E].
  { destruct (Z.eqb_spec va 0) as [->|Hne]; [by eexists|]. destruct Ht as [?|(n & Hn & Hm & Hend)]; [done|].
    by apply (read_text_mapped va len s1 n Hva Hlen Hn). }
  eapply served_then.
  - unfold sys_cputs. mstep cur_eq. mstep (assert_passes s me va len PTE_U a Ha). mstep E. unfold cprintf. reflexivity.
  - by apply (serves_quiet s _ l le k me ce P).
Qed.

(** The check covers [len] bytes, and the kernel reads one more: an empty text
    at an unmapped address passes it and crashes the kernel. *)
Lemma cputs_past_the_check va :
  is_u32 va -> va <> 0 -> passes s me va 0 PTE_U -> translate s (cr3 s) va false = None ->
  exists s', syscall SYS_cputs va 0 0 0 0 s = Crash (WildAccess va) s'.
Proof.
  intros Hva Hne [a Ha] Ht. exists (set_user_mem_check_addr a s). unfold syscall. change (SYS_cputs =? SYS_cputs) with true. cbn iota.
  unfold sys_cputs. rewrite bind_assoc. mstep cur_eq. rewrite bind_assoc. mstep (assert_passes s me va 0 PTE_U a Ha).
  rewrite bind_assoc, (proj2 (Z.eqb_neq va 0) Hne). change (text_fuel (s32 0)) with 1%nat. cbn [read_text].
  unfold vread8, vaddr, kbind. change (cr3 (set_user_mem_check_addr a s)) with (cr3 s).
  change (translate (set_user_mem_check_addr a s) (cr3 s) va false) with (translate s (cr3 s) va false). by rewrite Ht.
Qed.

Lemma served_cgetc : served s k me ce sys_cgetc.
Proof.
  unfold sys_cgetc, device. destruct (Devices.cons_getc (kio s)) as [r d] eqn:E.
  exists r, (set_kio d s). split; [rewrite bind_get, E; done|]. by apply (serves_quiet s _ l le k me ce P).
Qed.

Lemma served_getenvid : served s k me ce sys_getenvid.
Proof.
  eapply served_same; [done|]. unfold sys_getenvid. mstep cur_eq. by mstep (get_env_eq me ce s (pr_env P)).
Qed.

(** Destroying another environment returns: at once it is freed, or it is
    marked for the CPU that runs it. *)
Lemma destroy_other id e :
  resolve s me ce id = Some e -> e <> me -> exists s', env_destroy e s = Ret tt s' /\ serves s s' k me ce.
Proof.
  intros E Hne. destruct (resolve_space s l le k me ce P id e E) as (x & d & Hx & Hu & Hs & Hd & _).
  pose proof (process_caller s l le k me ce P) as C. unfold env_destroy. mstep (get_env_eq e x s Hx).
  mstep (curenv_caller s me ce C). rewrite (bool_decide_false (Some me = Some e)) by congruence.
  destruct (bool_decide_reflect (env_status x = ENV_RUNNING)) as [Hrun|Hrun]; cbn [negb andb].
  - rewrite (upd_env_eq e (set_env_status ENV_DYING) x s Hx). eexists. split; [done|].
    by apply (serves_record s l le k me ce id e x (set_env_status ENV_DYING x) P E Hx).
  - destruct (env_free_spec s l le k e d (pr_ok P) Hs) as (s2 & l2 & H2 & R).
    mstep H2. exists s2. assert (serves s s2 k me ce) as S2.
    { apply (serves_freed s l le k me ce P e d s2 l2 Hne Hs); [|done]. by apply (resolved_not_stranger s l le k me ce id). }
    split; [|done]. destruct (rd_cpu _ _ _ _ _ _ _ _ R) as [Hcp Hcn]. destruct (pr_cpu P) as (c & Hc & Hcm).
    assert (cpus s2 !! cpunum s2 = Some c) as Hc2 by (by rewrite Hcp, Hcn).
    mstep (curenv_eq c s2 Hc2). rewrite Hcm, bool_decide_false by congruence. done.
Qed.
End Served.

Section Served2.
Context (s : kstate) (l le : list Z) (k me : Z) (ce : Env).
Hypothesis P : process s l le k me ce.

Lemma served_env_destroy id : resolve s me ce id <> Some me -> served s k me ce (sys_env_destroy id).
Proof.
  intros Hme. pose proof (process_caller s l le k me ce P) as C. unfold sys_env_destroy.
  destruct (resolve s me ce id) as [e|] eqn:E.
  2: { eapply served_same; [done|]. mstep (envid2env_resolve s me ce C id). by rewrite E. }
  assert (e <> me) as Hne by congruence. destruct (resolve_space s l le k me ce P id e E) as (x & d & Hx & _).
  set (s1 := set_klog (("[%08x] destroying %08x"%string, [env_id ce; env_id x]) :: klog s) s).
  assert (process s1 l le k me ce /\ serves s s1 k me ce) as [P1 S1].
  { destruct (serves_quiet s s1 l le k me ce P); done. }
  destruct (destroy_other s1 l le k me ce P1 id e E Hne) as (s2 & H2 & S2).
  exists 0, s2. split; [|by apply (serves_trans s s1 s2 k me ce ce S1)].
  mstep (envid2env_resolve s me ce C id). rewrite E. cbn [envid_result]. change (0 <? 0) with false. cbn iota.
  mstep (curenv_caller s me ce C). rewrite (bool_decide_false (Some e = Some me)) by congruence.
  assert ((let! i := deref (Some me) in let! ce := get_env i in let! j := deref (Some e) in let! e0 := get_env j in
    cprintf "[%08x] destroying %08x" [env_id ce; env_id e0]) s = Ret tt s1) as Hlog.
  { cbn [deref]. rewrite bind_ret. mstep (get_env_eq me ce s (pr_env P)). rewrite bind_ret. by mstep (get_env_eq e x s Hx). }
  mstep Hlog. cbn [deref]. rewrite bind_ret. by mstep H2.
Qed.

Lemma upcall_eq id func e x a :
  resolve s me ce id = Some e -> envs s !! e = Some x ->
  let s1 := with_record s e (set_env_pgfault_upcall func x) in
  user_mem_check e func 4 (Z.lor 0 PTE_U) s1 = Ret 0 (set_user_mem_check_addr a s1) ->
  sys_env_set_pgfault_upcall id func s = Ret 0 (set_user_mem_check_addr a s1).
Proof.
  intros E Hx s1 Ha. unfold sys_env_set_pgfault_upcall.
  mstep (envid2env_resolve s me ce (process_caller s l le k me ce P) id). rewrite E. cbn [envid_result].
  change (0 <? 0) with false. cbn iota. cbn [deref]. rewrite bind_ret.
  mstep (upd_env_eq e (set_env_pgfault_upcall func) x s Hx).
  change (set_envs (<[e:=set_env_pgfault_upcall func x]> (envs s)) s) with s1.
  by mstep (assert_passes s1 e func 4 0 a Ha).
Qed.

Lemma served_upcall id func :
  (forall e x, resolve s me ce id = Some e -> envs s !! e = Some x ->
     passes (with_record s e (set_env_pgfault_upcall func x)) e func 4 0) ->
  served s k me ce (sys_env_set_pgfault_upcall id func).
Proof.
  intros Hpass. destruct (resolve s me ce id) as [e|] eqn:E.
  2: { eapply served_same; [done|]. unfold sys_env_set_pgfault_upcall.
       mstep (envid2env_resolve s me ce (process_caller s l le k me ce P) id). by rewrite E. }
  destruct (resolve_space s l le k me ce P id e E) as (x & d & Hx & Hu & _).
  destruct (Hpass e x eq_refl Hx) as [a Ha]. set (s1 := with_record s e (set_env_pgfault_upcall func x)) in *.
  assert (serves s s1 k me ce) as S1.
  { by apply (serves_record s l le k me ce id e x (set_env_pgfault_upcall func x) P E Hx). }
  pose proof (sv_ok _ _ _ _ _ S1) as (l1 & le1 & ce1 & P1 & Hid).
  exists 0, (set_user_mem_check_addr a s1). split; [by apply (upcall_eq id func e x a)|].
  apply (serves_trans s s1 _ k me ce ce1 S1 Hid). by apply (serves_quiet s1 _ l1 le1 k me ce1 P1).
Qed.

(** Every harmless call returns, having served its caller. *)
Lemma served_syscall num a1 a2 a3 a4 a5 :
  harmless s me num a1 a2 a3 a4 a5 -> served s k me ce (syscall num a1 a2 a3 a4 a5).
Proof.
  intros (U2 & U4 & Hc). specialize (Hc ce (pr_env P)). cbv zeta in Hc. unfold syscall.
  destruct (Z.eqb_spec num SYS_cputs) as [->|_]; [destruct Hc as (? & ? & ?); by apply (served_cputs s l le)|].
  destruct (Z.eqb_spec num SYS_cgetc) as [->|_]; [by apply (served_cgetc s l le)|].
  destruct (Z.eqb_spec num SYS_getenvid) as [->|_]; [by apply (served_getenvid s l le)|]. cbn [orb] in Hc.
  destruct (Z.eqb_spec num SYS_env_destroy) as [->|_]; [by apply served_env_destroy|].
  destruct (Z.eqb_spec num SYS_page_alloc) as [->|_]; [by apply (served_page_alloc s l le)|]. cbn [orb] in Hc.
  destruct (Z.eqb_spec num SYS_page_map) as [->|_]; [by apply (served_page_map s l le)|].
  destruct (Z.eqb_spec num SYS_page_unmap) as [->|_]; [by apply (served_page_unmap s l le)|].
  destruct (Z.eqb_spec num SYS_exofork) as [->|_]; [by apply (served_exofork s l le)|]. cbn [orb] in Hc.
  destruct (Z.eqb_spec num SYS_env_set_status) as [->|_]; [by apply (served_set_status s l le)|].
  destruct (Z.eqb_spec num SYS_env_set_pgfault_upcall) as [->|_]; [by apply served_upcall|]. done.
Qed.

Lemma step_serves s' : user_step me s s' -> serves s s' k me ce.
Proof.
  intros [num a1 a2 a3 a4 a5 r s2 Hh Hc|d va p f m' Hs Hva Hl Ht _ Hw]; [|by apply (serves_data s l le k me ce d va p f m')].
  destruct (served_syscall num a1 a2 a3 a4 a5 Hh) as (r' & s3 & Hc' & S). congruence.
Qed.
End Served2.

Lemma steps_serve me s s' :
  rtc (user_step me) s s' -> forall l le k ce, process s l le k me ce -> serves s s' k me ce.
Proof.
  induction 1 as [s|s1 s2 s3 H1 H2 IH]; intros l le k ce P; [by apply (serves_refl s l le)|].
  pose proof (step_serves s1 l le k me ce P s2 H1) as S1.
  destruct (sv_ok _ _ _ _ _ S1) as (l2 & le2 & ce2 & P2 & Hid).
  apply (serves_trans s1 s2 s3 k me ce ce2 S1 Hid). by apply (IH l2 le2).
Qed.

(** C1. Type safety of the kernel.  Whatever a process does - harmless system
    calls and stores to its own memory, in any order - the kernel's invariant
    still holds: the page tables of all environments are disjoint and well-formed,
    every mapped page is allocated and its reference count is exactly the number
    of its mappings, and the two free lists are what they should be.  And the
    process cannot get stuck in the kernel: from every state it can reach, every
    harmless call returns.  Harmless are the calls that come back to the caller
    (not yield, the unwritten IPC calls, unknown numbers or the destruction of
    oneself) with these arguments: a check of user memory in cputs and
    env_set_pgfault_upcall passes; the kernel's own read of the text of cputs
    stays on mapped pages, which the check does not see to (see
    [cputs_past_the_check]); and page_map and page_unmap are called for an address
    that is mapped or has no page table, page_map with a reference counter that is
    not full. *)
Theorem kernel_type_safety (s s' : kstate) (l le : list Z) (k me : Z) (ce : Env) :
  process s l le k me ce -> rtc (user_step me) s s' ->
  (exists l' le' ce', process s' l' le' k me ce' /\ env_id ce' = env_id ce) /\
  forall num a1 a2 a3 a4 a5, harmless s' me num a1 a2 a3 a4 a5 ->
    exists r s2, syscall num a1 a2 a3 a4 a5 s' = Ret r s2.
Proof.
  intros P H. destruct (sv_ok _ _ _ _ _ (steps_serve me s s' H l le k ce P)) as (l' & le' & ce' & P' & Hid).
  split; [by exists l', le', ce'|]. intros num a1 a2 a3 a4 a5 Hh.
  destruct (served_syscall s' l' le' k me ce' P' num a1 a2 a3 a4 a5 Hh) as (r & s2 & Hc & _). by exists r, s2.
Qed.

(** C2. Isolation.  An environment that is neither the running process nor one
    of its children, and that shares no page with another, keeps its record, its
    address space and the contents of its memory through any sequence of the
    process's stores and harmless calls, and no page of it ever becomes accessible
    to another environment.  Harmless calls (see C1) step into none of the
    kernel's holes: page_map and page_unmap of an address with a page table but no
    mapping, and page_map of a page whose 16-bit counter is full; through these
    isolation can be broken. *)
Theorem memory_isolation (s s' : kstate) (l le : list Z) (k me e : Z) (ce x : Env) :
  process s l le k me ce -> stranger s me ce e x -> private s e -> rtc (user_step me) s s' ->
  envs s' !! e = Some x /\ undisturbed s s' e /\ private s' e.
Proof.
  intros P S Hp H. pose proof (steps_serve me s s' H l le k ce P) as V.
  split; [by apply (sv_record _ _ _ _ _ V)|]. by apply (sv_space _ _ _ _ _ V e x).
Qed.

(** ** Two processes

    Environment 0 maps a page at 8 MB; environment 1, which is not its child,
    runs. *)

Lemma alloc_harmless s me va perm : is_u32 va -> harmless s me SYS_page_alloc 0 va perm 0 0.
Proof. intros Hva. split; [done|]. split; [by unfold is_u32|]. by intros ce _. Qed.

Lemma with_page s l le k ce pp n i l' :
  process s l le k 0 ce -> l = pp :: n :: i :: l' -> space s 0 = Some 2 -> trans s 2 0x800000 = None ->
  exists s' l2, process s' l2 le k 0 ce /\ envs s' = envs s /\ trans s' 2 0x800000 = Some (pp, 7) /\
    l2 <> [].
Proof.
  intros P El Hs Ht. pose proof (pr_ok P) as K.
  pose proof (process_caller s l le k 0 ce P) as C.
  destruct (used_space s l le k 0 ce P 0 ce (pr_env P) (pr_used P)) as (d & Hs' & Hd). rewrite Hs in Hs'. injection Hs' as <-.
  pose proof (sys_page_alloc_spec s 0 ce l C (ko_wf K) (ko_free K) (ko_cpu K) 0 0x800000 7 ltac:(by unfold is_u32)) as H.
  change (resolve s 0 ce 0) with (Some 0) in H. cbn [negb] in H.
  change (va_legal 0x800000) with true in H. change (has 7 PTE_U && has 7 PTE_P) with true in H.
  change (perm_legal 7) with true in H. cbn [negb] in H.
  specialize (H ce 2 (pr_env P) Hd (ko_pd K Hs) ltac:(intros o f; rewrite Ht; done)). subst l.
  destruct H as [(s' & H & G)|(? & _)]; [|done].
  destruct (pg_step _ _ _ _ _ _ _ G) as (l1 & l2 & new & [= <-] & R).
  destruct (serves_alloc s pp (n :: i :: l') le k 0 ce P) as (_ & P1 & Hm0 & Mp & Hr).
  set (s1 := after_alloc true pp (n :: i :: l') s) in *.
  destruct (serves_remap s1 s' (n :: i :: l') l2 le k 0 ce 0 2 0x800000 (Some (pp, Z.lor PTE_P 7)) new P1 Hs) as [_ P'].
  - intros x [_ _ S _]. done.
  - by unfold is_u32.
  - done.
  - done.
  - intros p <-%fst_some. split; [done|lia].
  - intros p e' d' x <-%fst_some _ _ Hs'.
    pose proof (maps_ge s1 e' pp (space_range s1 e' d' (ko_envs (pr_ok P1)) Hs')) as Hg.
    rewrite (env_maps_eq s1 pp e' d' Hs') in Hg. pose proof (dir_maps_nonneg s1 d' pp). lia.
  - exists s', l2. pose proof (mm_envs _ _ (ps_mm (rmp_step R))) as He.
    split; [done|]. split; [by rewrite He|]. split; [by apply (pg_here _ _ _ _ _ _ _ G)|]. intros ->.
    pose proof (ko_free (pr_ok P1)) as F. apply free_ok_NoDup, NoDup_cons in F as [Hni Hnd]. apply NoDup_cons in Hnd as [_ _].
    destruct (decide (new = Some n)) as [Hn|Hn].
    + assert (i ∈ []) as Hin; [|by apply elem_of_nil in Hin]. apply (rmp_free R). left.
      split; [right; by left|]. rewrite Hn. intros [= ->]. apply Hni. by left.
    + assert (n ∈ []) as Hin; [|by apply elem_of_nil in Hin]. apply (rmp_free R). left. split; [by left|done].
Qed.

(** Environment [e] is the only one with mappings. *)
Lemma sole_private s e : 0 <= e < NENV -> (forall e' p, e' <> e -> env_maps s p e' = 0) -> private s e.
Proof.
  intros He H d p Hs _. unfold maps. rewrite (zsum_change NENV (fun _ => 0) (env_maps s p) e He) by (intros; by apply H).
  rewrite zsum_zero by done. rewrite (env_maps_eq s p e d Hs). lia.
Qed.

(** The processor turns to another environment, or to none. *)
Lemma kernel_ok_cpu s l le k c :
  kernel_ok s l le k -> (forall i, cpu_env c = Some i -> is_Some (envs s !! i)) ->
  kernel_ok (set_cpus (<[cpunum s := c]> (cpus s)) s) l le k.
Proof.
  intros K Hc. set (s' := set_cpus _ s).
  assert (cpus s' !! cpunum s' = Some c) as Hcs by apply lookup_insert_eq.
  apply (kernel_ok_still s s' l l le k K); try done.
  - split; try done; try apply K. by exists c.
  - by apply (mem_wf_ext s), (ko_wf K).
  - by apply (free_ok_ext s), (ko_free K).
  - intros o Ho. split; [done|]. by apply (in_tables_alloc s l le k).
  - intros p Hp. apply (ko_maps K Hp).
Qed.

Lemma switch_process s l le k e x c :
  kernel_ok s l le k -> envs s !! e = Some x -> env_status x <> ENV_FREE -> cpu_env c = Some e ->
  process (set_cpus (<[cpunum s := c]> (cpus s)) s) l le k e x.
Proof.
  intros K Hx Hu Hc. split; [|exists c; split; [apply lookup_insert_eq|done]|done|done].
  apply (kernel_ok_cpu s l le k c K). rewrite Hc. intros i [= <-]. by exists x.
Qed.

Lemma unmapped s l le k me ce d va :
  process s l le k me ce -> space s me = Some d -> (forall p, maps s p = 0) -> is_u32 va -> va_legal va = true ->
  trans s d va = None.
Proof.
  intros P Hs Hm Hva Hl. destruct (trans s d va) as [[p f]|] eqn:Ht; [|done].
  pose proof (mapped_maps s me d va p f (ko_envs (pr_ok P)) Hs Hva Hl Ht) as Hp. rewrite Hm in Hp. lia.
Qed.

Lemma two_from s0 ce :
  process s0 (zrange 3 17) (zrange 1 (Z.to_nat (NENV - 1))) 1 0 ce -> env_parent_id ce = 0 ->
  (forall p, maps s0 p = 0) -> space s0 0 = Some 2 ->
  exists s l le ce x, process s l le 1 1 ce /\ stranger s 1 ce 0 x /\ private s 0 /\
    space s 0 = Some 2 /\ trans s 2 0x800000 = Some (3, 7).
Proof.
  intros P Hpar Hm0 Hs0.
  destruct (with_page s0 (zrange 3 17) _ 1 ce 3 4 5 (zrange 6 14) P eq_refl Hs0
    (unmapped s0 _ _ 1 0 ce 2 0x800000 P Hs0 Hm0 ltac:(by unfold is_u32) eq_refl)) as (s1 & l2 & P1 & He1 & Ht1 & Hl2).
  assert (space s1 0 = Some 2) as Hs1 by (rewrite <- Hs0; apply space_ext; by rewrite He1).
  clear P He1 Hs0 Hm0 s0. pose proof (pr_ok P1) as K1.
  destruct l2 as [|n l2]; [done|]. change (zrange 1 (Z.to_nat (NENV - 1))) with (1 :: zrange 2 (Z.to_nat (NENV - 2))) in *.
  destruct (env_alloc_spec s1 0 _ _ 1 (ko_wf K1) (ko_envs K1) (ko_cpu K1) (ko_free K1) (ko_chain K1) (ko_tmpl K1) (ko_ids K1))
    as (s2 & x & x' & _ & Hx & He & [N1 N2 N3 N4 N5 N6 N7 N8 N9 N10] & Hch & Hns & Hm).
  assert (env_status x' <> ENV_FREE) as Hu by congruence.
  assert (0 <= env_id x' < 2 ^ 31) as Hid by lia.
  pose proof (kernel_ok_fresh s1 s2 n 1 _ _ 1 x' K1 He Hid Hu N8 Hns Hch Hm) as K2.
  assert (envs s2 !! 1 = Some x') as Hx1 by (rewrite He; apply lookup_insert_eq).
  assert (envs s2 !! 0 = Some ce) as Hx0 by (rewrite He, lookup_insert_ne by done; apply (pr_env P1)).
  pose proof (switch_process s2 _ _ 1 1 x' (set_cpu_env (Some 1) cpu0) K2 Hx1 Hu eq_refl) as P3.
  set (s3 := set_cpus _ s2) in *.
  assert (forall e, space s3 e = if decide (e = 1) then Some n else space s1 e) as Hsp
    by (intros e; by apply (fresh_space s1 s2 n 1 x' He Hu N8)).
  exists s3, l2, (zrange 2 (Z.to_nat (NENV - 2))), x', ce. split; [exact P3|]. split; [|split; [|split]].
  - split; [exact Hx0|apply (pr_used P1)|done|]. rewrite Hpar. lia.
  - apply sole_private; [by unfold NENV|]. intros e' p Hne. unfold env_maps. rewrite Hsp. case_decide as H1.
    + by apply (fresh_dir_maps s1 s2 n 1 _ _ 1 K1 Hns).
    + destruct (space s1 e') as [d|] eqn:Hs; [|done]. exfalso.
      destruct (space_lookup s1 e' d Hs) as (y & Hy & Hyu). apply Hyu, (ko_idle K1 e' y Hy).
      assert (0 <= e' < NENV) as Hr by (apply (ko_envs K1); by exists y). apply elem_of_cons. right.
      apply elem_of_zrange. rewrite Z2Nat.id by done. lia.
  - rewrite Hsp. by rewrite decide_False.
  - rewrite <- Ht1. apply (kept_trans s1 s3 2); [|by vm_compute].
    apply (fresh_kept s1 s2 n 1 l2 _ 1 K1 Hns 0 2 Hs1).
Qed.

Lemma two_processes : exists s l le ce x, process s l le 1 1 ce /\ stranger s 1 ce 0 x /\ private s 0 /\
  space s 0 = Some 2 /\ trans s 2 0x800000 = Some (3, 7).
Proof.
  destruct first_process_ok as (ce & P & _ & Hpar & Hm & _). exact (two_from first_process ce P Hpar Hm first_space).
Qed.

End Protection.

#[local] Instance no_stabs : StabSections :=
  {| STAB_BEGIN := 0; STAB_END := 0; STABSTR_BEGIN := 0; STABSTR_END := 0; lit_unknown := 0 |}.

Lemma kernel_type_safety_witness :
  exists s l le ce r s', process s l le 1 1 ce /\ syscall SYS_page_alloc 0 0x900000 7 0 0 s = Ret r s'.
Proof.
  destruct two_processes as (s & l & le & ce & x & P & _).
  destruct (kernel_type_safety s s l le 1 1 ce P (rtc_refl _ s)) as [_ H].
  destruct (H SYS_page_alloc 0 0x900000 7 0 0) as (r & s' & Hc).
  - apply alloc_harmless. by unfold is_u32.
  - exists s, l, le, ce, r, s'. split; [exact P|exact Hc].
Defined.

Lemma memory_isolation_witness :
  exists s l le ce x s', process s l le 1 1 ce /\ user_step 1 s s' /\ envs s' !! 0 = Some x /\
    trans s' 2 0x800000 = Some (3, 7) /\ same_page s s' 3.
Proof.
  destruct two_processes as (s & l & le & ce & x & P & S & Hp & Hs & Ht).
  assert (harmless s 1 SYS_page_alloc 0 0x800000 7 0 0) as Hh by (apply alloc_harmless; by unfold is_u32).
  destruct (served_syscall s l le 1 1 ce P _ _ _ _ _ _ Hh) as (r & s' & Hc & _).
  pose proof (step_call 1 s _ _ _ _ _ _ r s' Hh Hc) as Hstep.
  destruct (memory_isolation s s' l le 1 1 0 ce x P S Hp (rtc_once _ _ Hstep)) as (He & [_ U] & _).
  destruct (U 2 Hs 0x800000 ltac:(by unfold is_u32) eq_refl) as [U1 U2].
  exists s, l, le, ce, x, s'. split; [exact P|]. split; [exact Hstep|]. split; [exact He|].
  split; [by rewrite U1|by apply (U2 3 7)].
Defined.
