(* ===== verification/UserLib.v ===== *)
(** The user library's system interface: src/lib/syscall.c, src/lib/fork.c,
    src/lib/pgfault.c, src/lib/ipc.c, src/lib/exit.c, src/lib/libmain.c,
    src/lib/panic.c and src/lib/console.c.

    A function runs in the current environment, in its own address space: it
    reads and writes memory through the translation with user rights, and a
    system call runs the kernel's handler on the way.  An access the tables do
    not allow a user ends the run with [WildAccess]: the processor would raise a
    page fault there. *)

From S2P Require Import Prelude Machine Mmu Cstring Devices KState PageAlloc PageTable Vmem Kdebug Spinlock Env Sched Syscall Trap.

(** ** User accesses to memory *)

Definition uaddr (va : Z) (write : bool) : M Z :=
  fun s => if (va <? KERNBASE) && has (mmu_pde s (cr3 s) va) PTE_U && has (mmu_pte s (cr3 s) va) PTE_U
           then vaddr va write s else Crash (WildAccess va) s.

Definition uread8 (va : Z) : M Z := let! k := uaddr va false in get (fun s => kmem s k).
Definition uwrite8 (va v : Z) : M unit :=
  let! k := uaddr va true in modify (fun s => set_kmem (st8 (kmem s) k v) s).

Definition uread32 (va : Z) : M Z :=
  let! a := uread8 va in let! b := uread8 (u32 (va + 1)) in
  let! c := uread8 (u32 (va + 2)) in let! d := uread8 (u32 (va + 3)) in
  kret (a + 2 ^ 8 * b + 2 ^ 16 * c + 2 ^ 24 * d).
Definition uwrite32 (va v : Z) : M unit :=
  uwrite8 va v ;; uwrite8 (u32 (va + 1)) (v / 2 ^ 8) ;;
  uwrite8 (u32 (va + 2)) (v / 2 ^ 16) ;; uwrite8 (u32 (va + 3)) (v / 2 ^ 24).

(** memmove between areas that do not overlap. *)
Fixpoint umemmove (n : nat) (dst src : Z) : M unit :=
  match n with
  | O => kret tt
  | S n => let! b := uread8 src in uwrite8 dst b ;; umemmove n (u32 (dst + 1)) (u32 (src + 1))
  end.

(** The program's own page table, mapped read-only at UVPT (lib/entry.S). *)
Definition uvpt (pn : Z) : M Z := uread32 (UVPT + 4 * pn).
Definition uvpd (i : Z) : M Z := uread32 (UVPT + Z.shiftr UVPT 12 * 4 + 4 * i).

(** What the linker places in the program: the variables [thisenv] and
    [_pgfault_handler], the entry point [_pgfault_upcall] and fork's handler. *)
Class UserImage := {
  thisenv_va : Z;
  pgfault_handler_va : Z;
  pgfault_upcall : Z;
  pgfault_code : Z }.

(** What the compiler decides about the stack: the bytes that the call of a
    function leaves on the caller's stack (arguments, return address, saved
    registers and locals), as addresses and values; the registers at a write
    fault on the stack; and the bytes that the fault handler leaves on the
    exception stack. *)
Class StackUse := {
  call_frame : string -> kstate -> list (Z * Z);
  fault_regs : kstate -> Trapframe;
  handler_frame : kstate -> list (Z * Z) }.

(** The table is mapped read-only at UENVS. *)
Definition env_ptr (i : Z) : Z := UENVS + SIZEOF_ENV * i.
Definition env_at (p : Z) : M Env := get_env ((p - UENVS) / SIZEOF_ENV).

Definition PTE_COW : Z := 0x800.

Section UserLib.
Context `{StabSections} `{UserImage} `{StackUse}.

(** ** System call stubs *)

(** The trap instruction: the kernel's dispatcher runs, and the result comes
    back in a 32-bit register. *)
Definition int_syscall (num a1 a2 a3 a4 a5 : Z) : M Z :=
  let! r := syscall num (u32 a1) (u32 a2) (u32 a3) (u32 a4) (u32 a5) in kret (s32 (u32 r)).

(** _panic prints a line and traps into the monitor for ever.  The text, which
    the user's cprintf formats and sends through sys_cputs (see Printfmt.v), is
    recorded like the kernel's; the [%s] arguments are left out. *)
Definition user_panic {A} (msg : string) (args : list Z) : M A :=
  let! id := int_syscall SYS_getenvid 0 0 0 0 0 in
  cprintf "[%08x] user panic in %s at %s:%d: " [id] ;;
  cprintf msg args ;;
  cprintf "" [] ;;
  leave_with MonitorLoop.

Definition usyscall (num : Z) (check : bool) (a1 a2 a3 a4 a5 : Z) : M Z :=
  let! ret := int_syscall num a1 a2 a3 a4 a5 in
  if check && (0 <? ret) then user_panic "syscall %d returned %d (> 0)" [num; ret] else kret ret.

Definition u_cputs (s len : Z) : M unit := let! _ := usyscall SYS_cputs false s len 0 0 0 in kret tt.
Definition u_cgetc : M Z := usyscall SYS_cgetc false 0 0 0 0 0.
Definition u_env_destroy (envid : Z) : M Z := usyscall SYS_env_destroy true envid 0 0 0 0.
Definition u_getenvid : M Z := usyscall SYS_getenvid false 0 0 0 0 0.
Definition u_yield : M unit := let! _ := usyscall SYS_yield false 0 0 0 0 0 in kret tt.
Definition u_page_alloc (envid va perm : Z) : M Z := usyscall SYS_page_alloc true envid va perm 0 0.
Definition u_page_map (srcenv srcva dstenv dstva perm : Z) : M Z :=
  usyscall SYS_page_map true srcenv srcva dstenv dstva perm.
Definition u_page_unmap (envid va : Z) : M Z := usyscall SYS_page_unmap true envid va 0 0 0.
Definition u_exofork : M Z := usyscall SYS_exofork false 0 0 0 0 0.
Definition u_env_set_status (envid status : Z) : M Z := usyscall SYS_env_set_status true envid status 0 0 0.
Definition u_env_set_pgfault_upcall (envid upcall : Z) : M Z :=
  usyscall SYS_env_set_pgfault_upcall true envid upcall 0 0 0.
Definition u_ipc_try_send (envid value srcva perm : Z) : M Z :=
  usyscall SYS_ipc_try_send false envid value srcva perm 0.
Definition u_ipc_recv (dstva : Z) : M Z := usyscall SYS_ipc_recv true dstva 0 0 0 0.

(** ** src/lib/exit.c, src/lib/libmain.c, src/lib/console.c *)

Definition exit : M unit := let! _ := u_env_destroy 0 in kret tt.

Definition set_thisenv : M unit :=
  let! id := u_getenvid in uwrite32 thisenv_va (env_ptr (ENVX id)).

(** [binaryname], which only _panic prints, is left out. *)
Definition libmain (umain : M unit) : M unit := set_thisenv ;; umain ;; exit.

(** [c] is the address of the byte on the stack. *)
Definition u_cputchar (c ch : Z) : M unit := uwrite8 c ch ;; u_cputs c 1.

(** Bounded by the number of tries; [OutOfFuel] means it would go on. *)
Fixpoint u_getchar (tries : nat) : M Z :=
  match tries with
  | O => crash_with OutOfFuel
  | S tries => let! r := u_cgetc in if r =? 0 then u_yield ;; u_getchar tries else kret r
  end.

(** ** src/lib/pgfault.c *)

Definition set_pgfault_handler (handler : Z) : M unit :=
  let! h := uread32 pgfault_handler_va in
  (if h =? 0 then
     let! p := uread32 thisenv_va in
     let! e := env_at p in
     let! r := u_page_alloc (env_id e) (UXSTACKTOP - PGSIZE) (Z.lor (Z.lor PTE_P PTE_U) PTE_W) in
     (if negb (r =? 0) then user_panic "Unable to allocate memory for pgfault expected" [] else kret tt) ;;
     let! p := uread32 thisenv_va in
     let! e := env_at p in
     let! _ := u_env_set_pgfault_upcall (env_id e) pgfault_upcall in
     kret tt
   else kret tt) ;;
  uwrite32 pgfault_handler_va handler.

(** ** src/lib/ipc.c *)

(** NULL pointers are 0. *)
Definition ipc_recv (from_env_store pg perm_store : Z) : M Z :=
  let! r := u_ipc_recv (if pg =? 0 then UTOP else pg) in
  let this := let! p := uread32 thisenv_va in env_at p in
  (if negb (from_env_store =? 0) then
     let! v := (if r =? 0 then let! e := this in kret (env_ipc_from e) else kret 0) in
     uwrite32 from_env_store v
   else kret tt) ;;
  (if negb (perm_store =? 0) then
     let! v := (if (r =? 0) && (pg <? UTOP) then let! e := this in kret (env_ipc_perm e) else kret 0) in
     uwrite32 perm_store v
   else kret tt) ;;
  if negb (r =? 0) then kret r else let! e := this in kret (s32 (env_ipc_value e)).

Fixpoint ipc_send (tries : nat) (to_env val pg perm : Z) : M unit :=
  match tries with
  | O => crash_with OutOfFuel
  | S tries =>
      let! r := u_ipc_try_send to_env val (if pg =? 0 then UTOP else pg) perm in
      (if negb (r =? 0) && negb (r =? - E_IPC_NOT_RECV) then user_panic "ipc_send: error %e" [r] else u_yield) ;;
      if negb (r =? 0) then ipc_send tries to_env val pg perm else kret tt
  end.

Fixpoint find_env (n : nat) (i : Z) (type : EnvType) : M Z :=
  match n with
  | O => kret 0
  | S n => let! e := get_env i in
           if bool_decide (env_type e = type) then kret (env_id e) else find_env n (i + 1) type
  end.
Definition ipc_find_env (type : EnvType) : M Z := find_env (Z.to_nat NENV) 0 type.

(** ** src/lib/fork.c *)

Definition PTE_UPW : Z := Z.lor (Z.lor PTE_U PTE_P) PTE_W.

(** The handler of write faults on copy-on-write pages. *)
Definition pgfault (fault_va err : Z) : M unit :=
  (if Z.land err FEC_WR =? 0 then user_panic "pgfault: page fault was not caused by write; %x." [fault_va] else kret tt) ;;
  let! e := uvpt (PGNUM fault_va) in
  (if Z.land e PTE_COW =? 0 then user_panic "pgfault: page fault on page which is not COW %x." [fault_va] else kret tt) ;;
  let! envid := u_getenvid in
  let! r := u_page_alloc envid PFTEMP PTE_UPW in
  (if r <? 0 then user_panic "pgfault: can't allocate temp page." [] else kret tt) ;;
  umemmove (Z.to_nat PGSIZE) PFTEMP (ROUNDDOWN fault_va PGSIZE) ;;
  let! r := u_page_map envid PFTEMP envid (ROUNDDOWN fault_va PGSIZE) PTE_UPW in
  (if r <? 0 then user_panic "pgfault: can't map temp page to old page." [] else kret tt) ;;
  let! r := u_page_unmap envid PFTEMP in
  if r <? 0 then user_panic "pgfault: couldn't unmap page." [] else kret tt.

(** ** The stack

    The locals of a C function are values here; what its calls leave on the stack
    are stores to memory, which fault once the stack's page is copy-on-write. *)

Fixpoint ustores (l : list (Z * Z)) : M unit :=
  match l with
  | [] => kret tt
  | (va, v) :: l => uwrite8 va v ;; ustores l
  end.

(** The processor's frame for a write fault by user code on a present page. *)
Definition write_fault_tf (t : Trapframe) : Trapframe :=
  {| tf_regs := tf_regs t; tf_es := tf_es t; tf_ds := tf_ds t; tf_trapno := T_PGFLT;
     tf_err := Z.lor (Z.lor FEC_PR FEC_WR) FEC_U; tf_eip := tf_eip t; tf_cs := tf_cs t; tf_eflags := tf_eflags t;
     tf_esp := tf_esp t; tf_ss := tf_ss t |}.

(** [_pgfault_upcall] of src/lib/pfentry.S, entered with the UTrapframe at [utf]:
    it calls the handler, pushes the interrupted eip on the interrupted stack
    and pops the registers. *)
Definition upcall_entry (utf : Z) : M unit :=
  let! frames := get handler_frame in
  ustores frames ;;
  let! h := uread32 pgfault_handler_va in
  (if h =? u32 pgfault_code then
     let! fault_va := uread32 utf in let! err := uread32 (utf + 4) in pgfault fault_va err
   else crash_with (WildAccess h)) ;;
  let! eip := uread32 (utf + 40) in
  let! esp := uread32 (utf + 48) in
  uwrite32 (u32 (esp - 4)) eip ;;
  uwrite32 (utf + 48) (u32 (esp - 4)).

(** A write fault of the current environment: what the kernel's
    page_fault_handler (Trap.v) checks and stores when an upcall is set, and the
    upcall.  The entry into the kernel and the way back are left out, as they
    are for system calls. *)
Definition write_fault (va : Z) : M unit :=
  let! c := cur in
  let! x := get_env c in
  if (env_pgfault_upcall x =? 0) || negb (env_pgfault_upcall x =? pgfault_upcall) then crash_with (WildAccess va)
  else
    user_mem_assert c (UXSTACKTOP - 4) 4 0 ;;
    let! t := get (fun s => write_fault_tf (fault_regs s)) in
    let utf := exception_frame (tf_esp t) in
    push_utf utf va t ;;
    user_mem_assert c utf SIZEOF_UTRAPFRAME (Z.lor (Z.lor PTE_P PTE_W) PTE_U) ;;
    upcall_entry utf.

(** A store to the stack: one that the page tables refuse faults and is then
    tried again. *)
Definition push_byte (va v : Z) : M unit :=
  fun s => match uaddr va true s with
           | Ret _ _ => uwrite8 va v s
           | _ => (write_fault va ;; uwrite8 va v) s
           end.
Fixpoint pushes (l : list (Z * Z)) : M unit :=
  match l with
  | [] => kret tt
  | (va, v) :: l => push_byte va v ;; pushes l
  end.

(** What the call of [f], and everything that is called from there up to the
    next [calls], leaves on the stack. *)
Definition calls (f : string) : M unit := let! l := get (call_frame f) in pushes l.

Definition duppage (envid pn : Z) : M Z :=
  let! myenvid := u_getenvid in
  let! pte := uvpt pn in
  let perm := Z.lor PTE_U PTE_P in
  let perm := if has pte PTE_W || has pte PTE_COW then Z.lor perm PTE_COW else perm in
  let! r := u_page_map myenvid (u32 (pn * PGSIZE)) envid (u32 (pn * PGSIZE)) perm in
  if r <? 0 then kret r
  else if has perm PTE_COW then
    let! r := u_page_map myenvid (u32 (pn * PGSIZE)) myenvid (u32 (pn * PGSIZE)) perm in
    if r <? 0 then kret r else kret 0
  else kret 0.

(** The inner loop, which stops at the exception stack. *)
Fixpoint fork_ptes (n : nat) (envid i j : Z) : M unit :=
  match n with
  | O => kret tt
  | S n =>
      let pn := PGNUM (PGADDR i j 0) in
      if pn =? PGNUM (UXSTACKTOP - PGSIZE) then kret tt
      else
        let! e := uvpt pn in
        (if has e PTE_P then calls "duppage" ;; let! _ := duppage envid pn in kret tt else kret tt) ;;
        fork_ptes n envid i (j + 1)
  end.

Fixpoint fork_pdes (n : nat) (envid i : Z) : M unit :=
  match n with
  | O => kret tt
  | S n =>
      let! e := uvpd i in
      (if has e PTE_P then fork_ptes (Z.to_nat NPTENTRIES) envid i 0 else kret tt) ;;
      fork_pdes n envid (i + 1)
  end.

(** What fork and sfork end with: the child's exception stack, its handler and
    its status.  A step that fails ends it with -1. *)
Definition child_setup (myenvid envid : Z) : M Z :=
  calls "sys_page_alloc" ;;
  let! r := u_page_alloc envid (UXSTACKTOP - PGSIZE) PTE_UPW in
  if r <? 0 then kret (-1) else
  let! r := u_page_map envid (UXSTACKTOP - PGSIZE) myenvid PFTEMP PTE_UPW in
  if r <? 0 then kret (-1) else
  umemmove (Z.to_nat PGSIZE) (UXSTACKTOP - PGSIZE) PFTEMP ;;
  let! r := u_page_unmap myenvid PFTEMP in
  if r <? 0 then kret (-1) else
  let! r := u_env_set_pgfault_upcall envid pgfault_upcall in
  if r <? 0 then kret (-1) else
  let! r := u_env_set_status envid 2 in
  if r <? 0 then kret (-1) else kret envid.

(** sys_exofork is inlined into its caller (inc/lib.h): it pushes nothing. *)
Definition fork : M Z :=
  calls "sys_getenvid" ;;
  let! myenvid := u_getenvid in
  calls "set_pgfault_handler" ;;
  set_pgfault_handler pgfault_code ;;
  let! envid := u_exofork in
  if envid <? 0 then kret (-1)
  else if envid =? 0 then calls "sys_getenvid" ;; set_thisenv ;; kret envid
  else
    fork_pdes (Z.to_nat (PDX UXSTACKTOP - PDX UTEXT)) envid (PDX UTEXT) ;;
    child_setup myenvid envid.

(** sfork shares every page except the stack.  [false]: a mapping failed. *)
Fixpoint sfork_ptes (n : nat) (myenvid envid i j : Z) : M bool :=
  match n with
  | O => kret true
  | S n =>
      let pn := PGNUM (PGADDR i j 0) in
      if pn =? PGNUM (UXSTACKTOP - PGSIZE) then kret true
      else if pn =? PGNUM (USTACKTOP - PGSIZE) then
        calls "duppage" ;; let! _ := duppage envid pn in sfork_ptes n myenvid envid i (j + 1)
      else
        let! e := uvpt pn in
        if has e PTE_P then
          let! e1 := uvpt pn in
          let! e2 := uvpt pn in
          let perm := Z.land e1 (Z.lnot (Z.land e2 (Z.lnot (Z.lor (Z.lor (Z.lor PTE_P PTE_U) PTE_W) PTE_AVAIL)))) in
          calls "sys_page_map" ;;
          let! r := u_page_map myenvid (PGADDR i j 0) envid (PGADDR i j 0) perm in
          if r <? 0 then kret false else sfork_ptes n myenvid envid i (j + 1)
        else sfork_ptes n myenvid envid i (j + 1)
  end.

Fixpoint sfork_pdes (n : nat) (myenvid envid i : Z) : M bool :=
  match n with
  | O => kret true
  | S n =>
      let! e := uvpd i in
      let! ok := (if has e PTE_P then sfork_ptes (Z.to_nat NPTENTRIES) myenvid envid i 0 else kret true) in
      if (ok : bool) then sfork_pdes n myenvid envid (i + 1) else kret false
  end.

Definition sfork : M Z :=
  calls "sys_getenvid" ;;
  let! myenvid := u_getenvid in
  calls "set_pgfault_handler" ;;
  set_pgfault_handler pgfault_code ;;
  let! envid := u_exofork in
  if envid <? 0 then kret (-1)
  else if envid =? 0 then calls "sys_getenvid" ;; set_thisenv ;; kret envid
  else
    let! ok := sfork_pdes (Z.to_nat (PDX UXSTACKTOP - PDX UTEXT)) myenvid envid (PDX UTEXT) in
    if (ok : bool) then child_setup myenvid envid else kret (-1).
End UserLib.

(** * Properties *)

(** ** User accesses through a window *)

Lemma window_uaddr m s d t p base o b :
  window m s d t p base -> Z.land m M_UR = M_UR -> (b = true -> Z.testbit m 1 = true) -> 0 <= o < PGSIZE ->
  uaddr (base + o) b s = Ret (page_kva p + o) s.
Proof.
  intros W Hm Hb Ho. destruct (window_entries m s d t p base o W Ho) as (Hk & Hpde & Hpte).
  assert (Z.testbit m 0 = true /\ Z.testbit m 2 = true) as [H0 H2].
  { split; apply (f_equal (fun z => Z.testbit z 0)) in Hm as E0; apply (f_equal (fun z => Z.testbit z 2)) in Hm as E2;
      rewrite Z.land_spec in E0, E2; cbn in E0, E2; by rewrite ?andb_true_r in *. }
  unfold uaddr. rewrite Hpde, Hpte, (proj2 (Z.ltb_lt _ _) Hk). change PTE_U with (2 ^ 2).
  destruct (wi_pde _ _ _ _ _ _ W) as [P1 _]. destruct (wi_pte _ _ _ _ _ _ W) as [E1 _].
  rewrite (land_mask_has _ _ 2 ltac:(lia) P1 H2), (land_mask_has _ _ 2 ltac:(lia) E1 H2). cbn [andb].
  unfold vaddr. by rewrite (window_translate m s d t p base o b W H0 Hb Ho).
Qed.

Lemma window_uread8 s d t p base o :
  window M_UR s d t p base -> 0 <= o < PGSIZE -> uread8 (base + o) s = Ret (kmem s (page_kva p + o)) s.
Proof.
  intros W Ho. unfold uread8.
  by mstep (window_uaddr M_UR s d t p base o false W eq_refl ltac:(discriminate) Ho).
Qed.

Lemma window_uread32 s d t p base o :
  window M_UR s d t p base -> 0 <= o -> o + 4 <= PGSIZE ->
  uread32 (base + o) s = Ret (ld32 (kmem s) (page_kva p + o)) s.
Proof.
  intros W H0 H4. destruct (wi_base _ _ _ _ _ _ W) as [Hb Hb'].
  assert (forall k, 0 <= k < 4 -> u32 (base + o + k) = base + (o + k)) as Hu.
  { intros k Hk. rewrite u32_id; [lia|]. unfold KERNBASE, PGSIZE in *. word_lia. }
  unfold uread32. rewrite !Hu by lia.
  mstep (window_uread8 s d t p base o W ltac:(lia)). mstep (window_uread8 s d t p base (o + 1) W ltac:(lia)).
  mstep (window_uread8 s d t p base (o + 2) W ltac:(lia)). mstep (window_uread8 s d t p base (o + 3) W ltac:(lia)).
  unfold ld32. by rewrite <- !Z.add_assoc.
Qed.

Lemma window_uwrite8 s d t p base o v :
  window M_URW s d t p base -> 0 <= o < PGSIZE ->
  uwrite8 (base + o) v s = Ret tt (set_kmem (st8 (kmem s) (page_kva p + o) v) s).
Proof.
  intros W Ho. unfold uwrite8.
  by mstep (window_uaddr M_URW s d t p base o true W eq_refl (fun _ => eq_refl) Ho).
Qed.

(** Copying within two mapped pages, the destination's page being another one
    than the source's and than those that hold the translations. *)
Lemma umemmove_eq n s d t1 p1 src t2 p2 dst o :
  window M_UR s d t1 p1 src -> window M_URW s d t2 p2 dst ->
  p2 <> d -> p2 <> t1 -> p2 <> t2 -> p2 <> p1 -> bytes_ok (kmem s) ->
  0 <= o -> o + Z.of_nat n <= PGSIZE ->
  exists m', umemmove n (dst + o) (src + o) s = Ret tt (set_kmem m' s) /\
    mem_eq m' (copy (kmem s) (page_kva p2 + o) (page_kva p1 + o) (Z.of_nat n)).
Proof.
  intros W1 W2 Hd Ht1 Ht2 Hp Hb. destruct (wi_base _ _ _ _ _ _ W1) as [Hb1 Hb1'].
  destruct (wi_base _ _ _ _ _ _ W2) as [Hb2 Hb2'].
  revert s o W1 W2 Hb. induction n as [|n IH]; intros s o W1 W2 Hb H0 Hn.
  { exists (kmem s). split; [by destruct s|]. symmetry. apply copy_0. }
  cbn [umemmove]. mstep (window_uread8 s d t1 p1 src o W1 ltac:(lia)).
  mstep (window_uwrite8 s d t2 p2 dst o (kmem s (page_kva p1 + o)) W2 ltac:(lia)).
  set (s1 := set_kmem _ s).
  assert (forall x, x < page_kva p2 \/ page_kva p2 + PGSIZE <= x -> kmem s1 x = kmem s x) as Hout.
  { intros x Hx. cbn [s1 kmem set_kmem]. unfold st8. case_bool; [lia|done]. }
  rewrite !u32_id by (unfold KERNBASE, PGSIZE in *; lia). rewrite <- !Z.add_assoc.
  destruct (IH s1 (o + 1)) as (m' & -> & Hm').
  - by apply (window_ext _ s _ d t1 p1 p2).
  - by apply (window_ext _ s _ d t2 p2 p2).
  - by apply st8_bytes.
  - lia.
  - lia.
  - exists m'. split; [done|]. rewrite Hm'. cbn [s1 kmem set_kmem].
    rewrite (st8_copy _ _ _ Hb), !Z.add_assoc, copy_forward by (unfold page_kva, PGSIZE in *; lia).
    by rewrite Nat2Z.inj_succ, <- Z.add_1_l.
Qed.

(** ** The page table as the program sees it *)

Lemma tbl_addr s d i t : mem_wf s -> tbl s d i = Some t -> PTE_ADDR (ld32 (kmem s) (pde_addr d i)) = t * PGSIZE.
Proof.
  intros Hwf. unfold tbl. destruct (entry _) as [[t0 f]|] eqn:E; intros; simplify_eq/=.
  by apply entry_Some in E as (_ & E & _); [|apply entry_word].
Qed.

(** Reading the entry of [va] in the window at UVPT. *)
Lemma uvpt_eq s l d va t :
  mem_wf s -> pgdir_ok s l d -> cr3 s = d * PGSIZE -> self_mapped s d -> is_u32 va ->
  Z.land (ld32 (kmem s) (pde_addr d (PDX UVPT))) M_UR = M_UR ->
  Z.land (ld32 (kmem s) (pde_addr d (PDX va))) M_UR = M_UR ->
  tbl s d (PDX va) = Some t -> uvpt (PGNUM va) s = Ret (ld32 (kmem s) (pte_addr t va)) s.
Proof.
  intros Hwf Hpd Hc Hself Hva Hsu Hpu Ht. pose proof (pd_range _ _ _ Hpd). pose proof (wf_npages _ Hwf).
  set (base := UVPT + PDX va * PGSIZE).
  assert (PDX base = PDX UVPT /\ PTX base = PDX va /\ 0 <= base < KERNBASE /\ base mod PGSIZE = 0) as (B1 & B2 & B3 & B4).
  { pose proof (PDX_range va). unfold base. change UVPT with 0xEF400000. unfold PGSIZE, KERNBASE.
    split_and!; [..|word_lia].
    - rewrite (PDX_eq (_ + _)), (PDX_eq 0xEF400000) by (unfold is_u32; lia). word_lia.
    - rewrite (PTX_eq (_ + _)) by (unfold is_u32; lia). word_lia.
    - lia.
    - lia. }
  assert (window M_UR s d d t base) as W.
  { split; try done; [lia| |].
    - rewrite B1. split; [done|]. by apply tbl_addr.
    - unfold pte_addr. rewrite B2. fold (pde_addr d (PDX va)). split; [done|]. by apply tbl_addr. }
  assert (UVPT + 4 * PGNUM va = base + 4 * PTX va) as Ha.
  { unfold base. rewrite PGNUM_eq, PDX_eq, PTX_eq by done. unfold PGSIZE. word_lia. }
  unfold uvpt. rewrite Ha. pose proof (ptx_in_page va) as [? ?].
  by apply (window_uread32 s d d t base).
Qed.

(** ** System calls *)

Section Calls.
Context `{StabSections}.

Lemma usyscall_eq num check a1 a2 a3 a4 a5 v s s' :
  syscall num (u32 a1) (u32 a2) (u32 a3) (u32 a4) (u32 a5) s = Ret v s' -> - 2 ^ 31 <= v < 2 ^ 31 ->
  (check = true -> v <= 0) -> usyscall num check a1 a2 a3 a4 a5 s = Ret v s'.
Proof.
  intros Hs Hv Hc. unfold usyscall, int_syscall. rewrite bind_assoc. mstep Hs. rewrite bind_ret. assert (s32 (u32 v) = v) as -> by word_lia.
  destruct check; [|done]. by rewrite (proj2 (Z.ltb_ge 0 v)) by auto.
Qed.

Lemma s32_id v : 0 <= v < 2 ^ 31 -> s32 (u32 v) = v.
Proof. word_lia. Qed.

End Calls.

(** ** Pages *)

(** The page an address lies in. *)
Lemma round_page va : 0 <= va < UTOP ->
  let base := ROUNDDOWN va PGSIZE in
  base = va - va mod PGSIZE /\ is_u32 va /\ is_u32 base /\ va_legal base = true /\ 0 <= base < UTOP /\
  base mod PGSIZE = 0 /\ PDX base = PDX va /\ PTX base = PTX va /\ PGNUM base = PGNUM va.
Proof.
  intros Hva base. change UTOP with 0xEEC00000 in *.
  assert (is_u32 va) as Hu by (unfold is_u32; lia).
  assert (base = va - va mod PGSIZE) as Hb by (unfold base; rewrite ROUNDDOWN_eq by (done || (unfold PGSIZE; lia)); done).
  assert (0 <= base < 0xEEC00000 /\ base mod PGSIZE = 0 /\ base / 4096 = va / 4096) as (H1 & H2 & H3).
  { rewrite Hb. unfold PGSIZE. word_lia. }
  assert (is_u32 base) as Hub by (unfold is_u32; lia).
  split_and!; try done; try lia.
  - unfold va_legal. rewrite H2. change UTOP with 0xEEC00000. by rewrite (proj2 (Z.ltb_lt _ _)) by lia.
  - rewrite !PDX_eq by done. clear - H3 Hu Hub. word_lia.
  - rewrite !PTX_eq by done. by rewrite H3.
  - rewrite !PGNUM_eq by done. exact H3.
Qed.

Lemma trans_page s d va va' : PDX va = PDX va' -> PTX va = PTX va' -> trans s d va = trans s d va'.
Proof. intros H1 H2. unfold trans, pte_addr. by rewrite H1, H2. Qed.

Lemma bind_if_false {B} (b : bool) (c : M unit) (k : unit -> M B) s :
  b = false -> kbind (if b then c else kret tt) k s = k tt s.
Proof. by intros ->. Qed.
