(* ===== verification/UserCalls.v ===== *)
(** * A process and its system calls

    What the user library's calls (src/lib/syscall.c) do for the process that
    makes them, against the kernel's invariant of Isolation.v: the process reads
    its own page tables at UVPT and its own memory, and maps, unmaps and starts
    pages and environments it may act on. *)
From S2P Require Import Prelude Machine Mmu KState PageAlloc PageTable Vmem Kdebug Env Sched Syscall Isolation Reclaim Protection UserLib.

Local Open Scope Z_scope.

(** Environment [me] runs in directory [d], which it can read at UVPT. *)
Record home (s : kstate) (l le : list Z) (k me : Z) (ce : Env) (d : Z) : Prop := {
  hm_proc : process s l le k me ce;
  hm_me : space s me = Some d;
  hm_id : 0 < env_id ce < 2 ^ 31 /\ ENVX (env_id ce) = me;
  hm_cr3 : cr3 s = d * PGSIZE;
  hm_self : self_mapped s d;
  hm_uvpt : Z.land (ld32 (kmem s) (pde_addr d (PDX UVPT))) M_UR = M_UR }.

Arguments hm_proc {_ _ _ _ _ _ _} _.
Arguments hm_me {_ _ _ _ _ _ _} _.
Arguments hm_id {_ _ _ _ _ _ _} _.
Arguments hm_cr3 {_ _ _ _ _ _ _} _.
Arguments hm_self {_ _ _ _ _ _ _} _.
Arguments hm_uvpt {_ _ _ _ _ _ _} _.

(** * Properties *)

(** ** Page numbers *)

Lemma uva_pn i j : uva i j = (i * NPTENTRIES + j) * PGSIZE.
Proof. unfold uva, PTSIZE, NPTENTRIES, PGSIZE. lia. Qed.

Lemma PGNUM_uva i j : uslot i -> 0 <= j < NPTENTRIES -> PGNUM (uva i j) = i * NPTENTRIES + j.
Proof.
  intros Hi Hj. destruct (uva_parts i j Hi Hj) as [Hu _]. rewrite PGNUM_eq by done. rewrite uva_pn. unfold PGSIZE. word_lia.
Qed.

Lemma PGADDR_uva i j : uslot i -> 0 <= j < NPTENTRIES -> PGADDR i j 0 = uva i j.
Proof.
  unfold uslot. change (PDX UTOP) with 955. intros Hi Hj. rewrite PGADDR_eq by (unfold NPTENTRIES in *; lia).
  unfold uva, PTSIZE, PGSIZE, NPTENTRIES. lia.
Qed.

(** Every legal address is the first of its page. *)
Lemma legal_uva va : is_u32 va -> va_legal va = true -> va = uva (PDX va) (PTX va).
Proof.
  intros Hv [_ H]%andb_true_iff. apply Z.eqb_eq in H. rewrite uva_pn, PDX_eq, PTX_eq by done.
  unfold is_u32, PGSIZE, NPTENTRIES in *. word_lia.
Qed.

Lemma uva_page va i j :
  is_u32 va -> va_legal va = true -> uslot i -> 0 <= j < NPTENTRIES ->
  PGNUM va = i * NPTENTRIES + j <-> va = uva i j.
Proof.
  intros Hv Hl Hi Hj. rewrite <- (PGNUM_uva i j Hi Hj). split; [|by intros ->]. intros E.
  rewrite (legal_uva va Hv Hl). symmetry in E. apply uva_pgnum in E as [-> ->]; done.
Qed.

Lemma pgnum_slot va : is_u32 va -> PGNUM va = PDX va * NPTENTRIES + PTX va.
Proof. intros Hv. rewrite PGNUM_eq, PDX_eq, PTX_eq by done. unfold NPTENTRIES. word_lia. Qed.

(** ** One changed mapping, as both see it *)

Lemma remap_trans_here s s' l l' t va0 m new va :
  is_u32 va0 -> va_legal va0 = true -> remapped s s' l l' t va0 m new -> is_u32 va -> va_legal va = true ->
  trans s' t va = if decide (va = va0) then m else trans s t va.
Proof.
  intros H0 L0 R Hv Hl. case_decide as E; [subst; by apply (ps_here (rmp_step R))|].
  apply (ps_else (rmp_step R)); [done|by apply va_legal_user|]. intros Hp. apply E.
  rewrite (legal_uva va0 H0 L0). apply uva_page; try done; [by apply va_legal_slot|apply PTX_range|].
  by rewrite Hp, pgnum_slot.
Qed.

(** A page table that was there stays, so nothing is taken from the free list. *)
Lemma remap_no_table s s' l l' t va m new : remapped s s' l l' t va m new -> is_Some (tbl s t (PDX va)) -> new = None.
Proof. intros R [x Hx]. destruct new as [n|]; [|done]. destruct (rmp_new R) as (_ & _ & Hn & _). congruence. Qed.

Lemma remap_tbl_some s s' l l' t va m new : remapped s s' l l' t va m new -> is_Some (tbl s' t (PDX va)).
Proof. intros R. pose proof (rmp_new R) as H. destruct new as [n|]; [exists n; apply H|]. destruct H as (x & _ & ->). by exists x. Qed.

Lemma remap_new_count s s' l l' t va m new :
  remapped s s' l l' t va m new -> b2z (is_Some new) = b2z (tbl s t (PDX va) = None).
Proof.
  intros R. pose proof (rmp_new R) as H. destruct new as [n|].
  - rewrite !b2z_true; [done|apply H|done].
  - destruct H as (x & -> & _). rewrite !b2z_false; [done|done|]. by intros [].
Qed.

(** ** The process itself *)

Lemma home_resolve s l le k me ce d : home s l le k me ce d -> resolve s me ce (env_id ce) = Some me.
Proof.
  intros H. destruct (hm_id H) as [Hid Hx]. pose proof (pr_env (hm_proc H)) as Hce. pose proof (pr_used (hm_proc H)) as Hu.
  unfold resolve. rewrite (proj2 (Z.eqb_neq _ _)) by lia. rewrite Hx, Hce. cbn [mbind option_bind].
  by rewrite bool_decide_false, !Z.eqb_refl by done.
Qed.

(** A step that leaves the process where it is. *)
Lemma home_ext s s' l l' le le' k me ce ce' d :
  home s l le k me ce d -> process s' l' le' k me ce' -> env_id ce' = env_id ce -> space s' me = space s me ->
  cr3 s' = cr3 s -> ld32 (kmem s') (pde_addr d (PDX UVPT)) = ld32 (kmem s) (pde_addr d (PDX UVPT)) ->
  home s' l' le' k me ce' d.
Proof.
  intros [H1 H2 H3 H4 H5 H6] P' Hid Hsp Hcr Hw. split; [done|congruence|by rewrite Hid|congruence| |by rewrite Hw].
  unfold self_mapped, tbl in *. by rewrite Hw.
Qed.

Lemma page_word s s' d i : same_page s s' d -> 0 <= i < NPDENTRIES ->
  ld32 (kmem s') (pde_addr d i) = ld32 (kmem s) (pde_addr d i).
Proof.
  intros Hs Hi. pose proof (pde_in_page i Hi). apply ld32_ext. intros x Hx. symmetry. apply Hs. unfold pde_addr in Hx. lia.
Qed.

(** Changing a mapping, of the process or of another environment. *)
Lemma home_remap s s' l l' le k me ce d t dt va m new :
  home s l le k me ce d -> space s t = Some dt -> is_u32 va -> va_legal va = true -> remapped s s' l l' dt va m new ->
  process s' l' le k me ce -> home s' l' le k me ce d.
Proof.
  intros H Ht Hva Hl R P'. pose proof (ps_mm (rmp_step R)) as Hmm.
  apply (home_ext s s' l l' le le k me ce ce d H P'); [done| |exact (f_equal cr3 Hmm)|].
  - apply space_ext. by rewrite (mm_envs _ _ Hmm).
  - destruct (decide (t = me)) as [->|Hn].
    + pose proof (hm_me H) as Hd. assert (dt = d) as -> by congruence. apply (ps_pde (rmp_step R)); [apply PDX_in|].
      apply not_eq_sym. by apply va_legal_user.
    + apply page_word; [|apply PDX_in].
      apply (remap_dir_kept s s' l l' le k t dt va m new me d (pr_ok (hm_proc H)) Ht Hva Hl R (hm_me H) (not_eq_sym Hn)).
      by left.
Qed.

(** ** Its page tables *)

Section Window.
Context (s : kstate) (l le : list Z) (k me : Z) (ce : Env) (d : Z).
Hypothesis H : home s l le k me ce d.
Let K := pr_ok (hm_proc H).

(** An entry of the page directory. *)
Lemma uvpd_eq i : 0 <= i < NPDENTRIES -> uvpd i s = Ret (ld32 (kmem s) (pde_addr d i)) s.
Proof.
  intros Hi. set (base := UVPT + PDX UVPT * PGSIZE).
  pose proof (hm_self H) as Hself. pose proof (hm_uvpt H) as Hu.
  pose proof (tbl_addr s d (PDX UVPT) d (ko_wf K) Hself) as Ha.
  assert (window M_UR s d d d base) as W.
  { pose proof (pd_range _ _ _ (ko_pd K (hm_me H))). pose proof (wf_npages _ (ko_wf K)).
    assert (PDX base = PDX UVPT /\ PTX base = PDX UVPT) as [B1 B2] by by vm_compute.
    split; [apply H|lia|by vm_compute|rewrite B1; by split|].
    unfold pte_addr. rewrite B2. fold (pde_addr d (PDX UVPT)). by split. }
  unfold uvpd. replace (UVPT + Z.shiftr UVPT 12 * 4 + 4 * i) with (base + 4 * i) by done.
  pose proof (pde_in_page i Hi). by rewrite (window_uread32 s d d d base (4 * i) W) by (unfold PGSIZE in *; lia).
Qed.

(** An entry of a page table that is there. *)
Lemma uvpt_slot i j t : uslot i -> 0 <= j < NPTENTRIES -> tbl s d i = Some t ->
  exists w, uvpt (i * NPTENTRIES + j) s = Ret w s /\ trans s d (uva i j) = entry w.
Proof.
  intros Hi Hj Ht. destruct (uva_parts i j Hi Hj) as (Hu & Hd & Hx & _).
  exists (ld32 (kmem s) (pte_addr t (uva i j))). split.
  - rewrite <- (PGNUM_uva i j Hi Hj).
    apply (uvpt_eq s l d (uva i j) t (ko_wf K) (ko_pd K (hm_me H))); try apply H; try done.
    + rewrite Hd. destruct (ko_user K (hm_me H) Hi) as [?|H7]; [congruence|]. by apply (land_mask_sub _ 7).
    + by rewrite Hd.
  - unfold trans. by rewrite Hd, Ht.
Qed.
End Window.
(** ** The free list *)

Lemma NoDup_length_le (l l' : list Z) (x : option Z) :
  NoDup l -> (forall i, i ∈ l -> x <> Some i -> i ∈ l') -> Z.of_nat (length l) <= Z.of_nat (length l') + b2z (is_Some x).
Proof.
  intros Hn H. destruct x as [n|].
  - rewrite b2z_true by done. assert (l ⊆+ n :: l') as Hs.
    { apply NoDup_submseteq; [done|]. intros i Hi. destruct (decide (i = n)) as [->|]; [by left|right].
      apply H; [done|congruence]. }
    apply submseteq_length in Hs. cbn [length] in Hs. lia.
  - assert (l ⊆+ l') as Hs by (apply NoDup_submseteq; [done|]; intros i Hi; by apply H).
    apply submseteq_length in Hs. pose proof (b2z_nonneg (is_Some (@None Z))). lia.
Qed.

Lemma remap_length s s' l l' d va m new :
  free_ok s l -> remapped s s' l l' d va m new ->
  Z.of_nat (length l) <= Z.of_nat (length l') + b2z (is_Some new).
Proof.
  intros Hf R. apply NoDup_length_le; [by apply (free_ok_NoDup s)|].
  intros i Hi Hn. apply (rmp_free R). by left.
Qed.

(** A page just taken off the free list is nobody's. *)
Lemma free_unmapped s l k pp : (forall p, 0 < maps s p -> mappable s l k p) -> pp ∈ l -> maps s pp = 0.
Proof.
  intros K Hpp. pose proof (maps_nonneg s pp). destruct (decide (0 < maps s pp)) as [Hq|]; [|lia].
  by destruct (mp_alloc _ _ _ _ (K pp Hq)).
Qed.

(** ** One change of a mapping, as the whole kernel sees it

    Environment [t] with directory [dt] now maps [va]'s page to [m]; every other
    mapping of every environment and the bytes of every mapped page are as
    before. *)

Record moved (s s' : kstate) (l' le : list Z) (k me : Z) (ce : Env) (t dt va : Z) (m : option (Z * Z)) : Prop := {
  mv_proc : process s' l' le k me ce;
  mv_here : forall va', is_u32 va' -> va_legal va' = true -> trans s' dt va' = if decide (va' = va) then m else trans s dt va';
  mv_other : forall t' d' va', t' <> t -> space s t' = Some d' -> is_u32 va' -> va_legal va' = true ->
    trans s' d' va' = trans s d' va';
  mv_mem : forall q, 0 < maps s q -> same_page s s' q;
  mv_maps : forall q, maps s' q = maps s q - b2z (fst <$> trans s dt va = Some q) + b2z (fst <$> m = Some q);
  mv_refs : forall q, 0 < maps s q ->
    refs s' q = refs s q - b2z (fst <$> trans s dt va = Some q) + b2z (fst <$> m = Some q);
  mv_data : forall q, 0 < maps s q -> data_page s' dt q;
  mv_tbl : forall x, uslot x -> x <> PDX va -> tbl s' dt x = tbl s dt x;
  mv_keep : forall x y, uslot x -> tbl s dt x = Some y -> tbl s' dt x = Some y;
  mv_table : is_Some (tbl s' dt (PDX va));
  mv_tbl_other : forall t' d' x, t' <> t -> space s t' = Some d' -> uslot x -> tbl s' d' x = tbl s d' x;
  mv_uvpt : forall t' d', space s t' = Some d' ->
    ld32 (kmem s') (pde_addr d' (PDX UVPT)) = ld32 (kmem s) (pde_addr d' (PDX UVPT));
  mv_envs : envs s' = envs s;
  mv_cr3 : cr3 s' = cr3 s }.

Arguments mv_proc {_ _ _ _ _ _ _ _ _ _ _} _.
Arguments mv_here {_ _ _ _ _ _ _ _ _ _ _} _.
Arguments mv_other {_ _ _ _ _ _ _ _ _ _ _} _ {_ _ _} _ _.
Arguments mv_mem {_ _ _ _ _ _ _ _ _ _ _} _.
Arguments mv_maps {_ _ _ _ _ _ _ _ _ _ _} _.
Arguments mv_refs {_ _ _ _ _ _ _ _ _ _ _} _.
Arguments mv_data {_ _ _ _ _ _ _ _ _ _ _} _.
Arguments mv_tbl {_ _ _ _ _ _ _ _ _ _ _} _.
Arguments mv_keep {_ _ _ _ _ _ _ _ _ _ _} _.
Arguments mv_table {_ _ _ _ _ _ _ _ _ _ _} _.
Arguments mv_tbl_other {_ _ _ _ _ _ _ _ _ _ _} _ {_ _ _} _ _.
Arguments mv_uvpt {_ _ _ _ _ _ _ _ _ _ _} _ {_ _} _.
Arguments mv_envs {_ _ _ _ _ _ _ _ _ _ _} _.
Arguments mv_cr3 {_ _ _ _ _ _ _ _ _ _ _} _.

Section Moved.
Context (s : kstate) (l le : list Z) (k me : Z) (ce : Env) (t dt va : Z).
Hypothesis P : process s l le k me ce.
Hypothesis Ht : space s t = Some dt.
Hypothesis Hva : is_u32 va.
Hypothesis Hl : va_legal va = true.

Lemma remapped_moved s' l' m new :
  remapped s s' l l' dt va m new -> process s' l' le k me ce -> moved s s' l' le k me ce t dt va m.
Proof.
  intros R P'. pose proof (pr_ok P) as K.
  pose proof (fun t' d' Hs Hne => remap_dir_kept s s' l l' le k t dt va m new t' d' K Ht Hva Hl R Hs Hne) as Hk.
  pose proof (va_legal_slot va Hva Hl) as Hi. pose proof (ps_mm (rmp_step R)) as Hmm.
  split; try done.
  - intros va' Hv' Hl'. by apply (remap_trans_here s s' l l' dt va m new).
  - intros t' d' va' Hne Hs Hv' Hl'. apply (kept_trans s s' d' (Hk t' d' Hs Hne)). by apply va_legal_user.
  - intros q. by apply (remap_page_kept s s' l l' le k t dt va m new).
  - intros q. by apply (remap_maps s s' l l' le k t dt va m new).
  - intros q Hq. rewrite (ps_refs (rmp_step R)), (b2z_false (new = Some q)); [lia|].
    intros Hn. apply (mp_alloc _ _ _ _ (ko_maps K Hq)). by apply (rmp_from q R).
  - intros q Hq. apply (remap_data s s' l l' dt va m new Hva Hl R); [by apply (mp_data _ _ _ _ (ko_maps K Hq) t)|].
    intros Hn. apply (mp_alloc _ _ _ _ (ko_maps K Hq)). by apply (rmp_from q R).
  - intros x [Hx _]%uslot_in Hne. by apply (ps_tbl_other (rmp_step R)).
  - intros x y [Hx _]%uslot_in. by apply (ps_tbl (rmp_step R)).
  - by apply (remap_tbl_some s s' l l' dt va m new).
  - intros t' d' x Hne Hs [Hx _]%uslot_in. by apply (kept_tbl s s' d' (Hk t' d' Hs Hne)).
  - intros t' d' Hs. destruct (decide (t' = t)) as [->|Hne].
    + assert (d' = dt) as -> by congruence. apply (ps_pde (rmp_step R)); [apply PDX_in|].
      apply not_eq_sym. by apply va_legal_user.
    + apply page_word; [|apply PDX_in]. apply (Hk t' d' Hs Hne). by left.
  - by apply mm_envs.
  - exact (f_equal cr3 Hmm).
Qed.

(** Taking a page off the free list and clearing it moves nothing. *)
Lemma alloc_still pp l1 :
  l = pp :: l1 ->
  let s1 := after_alloc true pp l1 s in
  process s1 l1 le k me ce /\ mappable s1 l1 k pp /\ refs s1 pp = 0 /\ (forall t' d', space s t' = Some d' -> parts_kept s s1 d') /\
  (forall q, 0 < maps s q -> same_page s s1 q) /\ (forall q, maps s1 q = maps s q).
Proof.
  intros -> s1. pose proof (pr_ok P) as K. destruct (serves_alloc s pp l1 le k me ce P) as (_ & P1 & _ & M1 & R1).
  assert (forall i, i <> pp -> same_page s s1 i) as Hsame.
  { intros i Hi x Hx. symmetry. apply after_alloc_kmem_out. unfold page_kva, PGSIZE in *. lia. }
  assert (forall t' d', space s t' = Some d' -> parts_kept s s1 d') as Hk.
  { intros t' d' Hs o Ho. apply Hsame. intros ->. apply (part_alloc s (pp :: l1) d' pp (ko_pd K Hs) Ho). by left. }
  split; [done|]. split; [done|]. split; [done|]. split; [done|]. split.
  - intros q Hq. apply Hsame. intros ->. apply (mp_alloc _ _ _ _ (ko_maps K Hq)). by left.
  - intros q. apply maps_ext. intros e _. unfold env_maps. assert (space s1 e = space s e) as -> by done.
    destruct (space s e) as [d'|] eqn:Hs; [|done]. apply kept_dir_maps. by apply (Hk e).
Qed.

Lemma moved_after s1 s' l' m :
  (forall t' d', space s t' = Some d' -> parts_kept s s1 d') -> (forall q, 0 < maps s q -> same_page s s1 q) ->
  (forall q, maps s1 q = maps s q) -> (forall q, refs s1 q = refs s q) -> envs s1 = envs s -> cr3 s1 = cr3 s ->
  moved s1 s' l' le k me ce t dt va m -> moved s s' l' le k me ce t dt va m.
Proof.
  intros Hk Hm Hmaps Hrefs He Hc M.
  assert (forall t', space s1 t' = space s t') as Hsp by (intros; apply space_ext; by rewrite He).
  assert (forall t' d' va', space s t' = Some d' -> is_u32 va' -> va_legal va' = true -> trans s1 d' va' = trans s d' va') as Htr.
  { intros t' d' va' Hs Hv' Hl'. apply (kept_trans s s1 d' (Hk t' d' Hs)). by apply va_legal_user. }
  assert (forall t' d' x, space s t' = Some d' -> uslot x -> tbl s1 d' x = tbl s d' x) as Htb.
  { intros t' d' x Hs [Hx _]%uslot_in. by apply (kept_tbl s s1 d' (Hk t' d' Hs)). }
  split.
  - apply (mv_proc M).
  - intros va' Hv' Hl'. rewrite (mv_here M) by done. case_decide; [done|]. by apply (Htr t).
  - intros t' d' va' Hne Hs Hv' Hl'. rewrite (mv_other M) by (by rewrite ?Hsp). by apply (Htr t').
  - intros q Hq x Hx. rewrite (Hm q Hq x Hx). apply (mv_mem M q); [by rewrite Hmaps|done].
  - intros q. by rewrite (mv_maps M), Hmaps, (Htr t dt va).
  - intros q Hq. rewrite (mv_refs M), Hrefs, (Htr t dt va) by (by rewrite ?Hmaps). done.
  - intros q Hq. apply (mv_data M). by rewrite Hmaps.
  - intros x Hx Hne. rewrite (mv_tbl M) by done. by apply (Htb t).
  - intros x y Hx Hy. apply (mv_keep M); [done|]. by rewrite (Htb t).
  - apply (mv_table M).
  - intros t' d' x Hne Hs Hx. rewrite (mv_tbl_other M (t' := t')) by (by rewrite ?Hsp). by apply (Htb t').
  - intros t' d' Hs. rewrite (mv_uvpt M (t' := t')) by (by rewrite ?Hsp). apply page_word; [|apply PDX_in].
    apply (Hk t' d' Hs). by left.
  - by rewrite (mv_envs M).
  - by rewrite (mv_cr3 M).
Qed.
End Moved.

Lemma home_moved s s' l l' le k me ce d t dt va m :
  home s l le k me ce d -> moved s s' l' le k me ce t dt va m -> home s' l' le k me ce d.
Proof.
  intros H M. apply (home_ext s s' l l' le le k me ce ce d H (mv_proc M)); [done| |apply (mv_cr3 M)|].
  - apply space_ext. by rewrite (mv_envs M).
  - by apply (mv_uvpt M (t' := me)), (hm_me H).
Qed.

(** ** Calls on an environment the caller may act on *)

Section Calls.
Context {stabs : StabSections}.
Context (s : kstate) (l le : list Z) (k me : Z) (ce : Env).
Hypothesis P : process s l le k me ce.

Lemma u_page_map_spec id1 e1 d1 va1 id2 e2 d2 va2 perm p f :
  resolve s me ce id1 = Some e1 -> space s e1 = Some d1 -> 0 <= id1 < 2 ^ 31 -> is_u32 va1 -> va_legal va1 = true ->
  resolve s me ce id2 = Some e2 -> space s e2 = Some d2 -> 0 <= id2 < 2 ^ 31 -> is_u32 va2 -> va_legal va2 = true ->
  perm_legal perm = true -> has perm PTE_W && negb (has f PTE_W) = false ->
  trans s d1 va1 = Some (p, f) -> refs s p < 65535 -> l <> [] \/ tbl s d2 (PDX va2) <> None ->
  exists s' l', u_page_map id1 va1 id2 va2 perm s = Ret 0 s' /\
    moved s s' l' le k me ce e2 d2 va2 (Some (p, Z.lor PTE_P perm)) /\
    Z.of_nat (length l) <= Z.of_nat (length l') + b2z (tbl s d2 (PDX va2) = None).
Proof.
  intros E1 S1 I1 V1 L1 E2 S2 I2 V2 L2 Hperm Hw Ht Hr Hroom. pose proof (pr_ok P) as K.
  pose proof (sys_page_map_spec s me ce l (process_caller s l le k me ce P) (ko_wf K) (ko_free K) (ko_cpu K)
    id1 va1 id2 va2 perm V1 V2) as H.
  rewrite E1, E2, L1, L2, Hperm in H. cbn [negb andb] in H.
  destruct (ko_dir K S1) as (x1 & Hx1 & D1). destruct (ko_dir K S2) as (x2 & Hx2 & D2).
  destruct (H x1 d1 x2 d2 Hx1 D1 (ko_pd K S1) Hx2 D2 (ko_pd K S2)) as [_ H'].
  pose proof (ko_maps K (mapped_maps s e1 d1 va1 p f (ko_envs K) S1 V1 L1 Ht)) as M.
  assert (insertable s l d2 p va2 perm) as I.
  { split; [apply M|apply M| |by apply perm_legal_range|].
    - rewrite (mp_refs _ _ _ _ M) in Hr |- *. pose proof (maps_nonneg s p). lia.
    - intros o f' Ho. by apply (mapped_page_ok s l le k me ce P d2 e2 va2 o f'). }
  specialize (H' p f Ht I). rewrite Hw in H'.
  destruct H' as [(s' & l' & new & Hc & R)|(-> & Hn & _)]; [|by destruct Hroom].
  exists s', l'. split; [|split].
  - unfold u_page_map. pose proof (perm_legal_range perm Hperm) as Hpr.
    apply (usyscall_eq SYS_page_map true id1 va1 id2 va2 perm 0 s s'); [|lia|lia].
    change (syscall SYS_page_map (u32 id1) (u32 va1) (u32 id2) (u32 va2) (u32 perm) s)
      with (sys_page_map (s32 (u32 id1)) (u32 va1) (s32 (u32 id2)) (u32 va2) (s32 (u32 perm)) s).
    rewrite !s32_id, (u32_id va1), (u32_id va2) by (done || unfold PGSIZE in *; lia). exact Hc.
  - apply (remapped_moved s l le k me ce e2 d2 va2 P S2 V2 L2 s' l' _ new R).
    apply (process_remap s s' l l' le k me ce e2 d2 va2 _ new P S2 V2 L2 R). by intros q <-%fst_some.
  - pose proof (remap_length s s' l l' d2 va2 _ new (ko_free K) R) as Hle.
    by rewrite (remap_new_count s s' l l' d2 va2 _ new R) in Hle.
Qed.

Lemma u_getenvid_spec : 0 <= env_id ce < 2 ^ 31 -> u_getenvid s = Ret (env_id ce) s.
Proof.
  intros Hid. unfold u_getenvid. apply (usyscall_eq SYS_getenvid false 0 0 0 0 0 (env_id ce) s s).
  - exact (getenvid_eq s me ce (process_caller s l le k me ce P)).
  - lia.
  - discriminate.
Qed.

Lemma u_page_alloc_spec id e d va perm :
  resolve s me ce id = Some e -> space s e = Some d -> 0 <= id < 2 ^ 31 -> is_u32 va -> va_legal va = true ->
  perm_legal perm = true -> (2 <= length l)%nat ->
  exists s' l' pp, u_page_alloc id va perm s = Ret 0 s' /\
    moved s s' l' le k me ce e d va (Some (pp, Z.lor PTE_P perm)) /\ pp ∈ l /\
    (forall x, page_kva pp <= x < page_kva pp + PGSIZE -> kmem s' x = 0) /\ refs s' pp = 1 /\
    Z.of_nat (length l) <= Z.of_nat (length l') + 1 + b2z (tbl s d (PDX va) = None).
Proof.
  intros E S I V L Hperm Hlen. pose proof (pr_ok P) as K.
  pose proof (sys_page_alloc_spec s me ce l (process_caller s l le k me ce P) (ko_wf K) (ko_free K) (ko_cpu K) id va perm V) as H.
  destruct (ko_dir K S) as (x & Hx & D). rewrite E, L, Hperm in H.
  assert (has perm PTE_U && has perm PTE_P = true) as Hup by (unfold perm_legal in Hperm; by apply andb_true_iff in Hperm as [? _]).
  rewrite Hup in H. cbn [negb] in H.
  specialize (H x d Hx D (ko_pd K S) (fun o f => mapped_page_ok s l le k me ce P d e va o f S V L)).
  destruct l as [|pp l1] eqn:El; [cbn [length] in Hlen; lia|].
  destruct H as [(s' & H & G)|(-> & _)]; [|cbn [length] in Hlen; lia].
  destruct (alloc_still s (pp :: l1) le k me ce P pp l1 eq_refl) as (P1 & M1 & R1 & Hk & Hmem & Hmaps).
  destruct (pg_step _ _ _ _ _ _ _ G) as (l1' & l' & new & [= <-] & R).
  set (s1 := after_alloc true pp l1 s) in *. assert (space s1 e = Some d) as S1 by done.
  assert (process s' l' le k me ce) as P'.
  { apply (process_remap s1 s' l1 l' le k me ce e d va _ new P1 S1 V L R). intros q <-%fst_some. split; [done|lia]. }
  pose proof (remapped_moved s1 l1 le k me ce e d va P1 S1 V L s' l' _ new R P') as Mv.
  exists s', l', pp. split; [|split; [|split; [by left|split; [apply (pg_zero _ _ _ _ _ _ _ G)|split]]]].
  - unfold u_page_alloc. pose proof (perm_legal_range perm Hperm) as Hpr.
    apply (usyscall_eq SYS_page_alloc true id va perm 0 0 0 s s'); [|lia|lia].
    change (syscall SYS_page_alloc (u32 id) (u32 va) (u32 perm) (u32 0) (u32 0) s)
      with (sys_page_alloc (s32 (u32 id)) (u32 va) (s32 (u32 perm)) s).
    rewrite !s32_id, (u32_id va) by (done || unfold PGSIZE in *; lia). exact H.
  - by apply (moved_after s le k me ce e d va S V L s1 s' l').
  - apply (pg_ref _ _ _ _ _ _ _ G).
  - pose proof (remap_length s1 s' l1 l' d va _ new (ko_free (pr_ok P1)) R) as Hle.
    rewrite (remap_new_count s1 s' l1 l' d va _ new R) in Hle.
    rewrite (kept_tbl s s1 d (Hk e d S)) in Hle by apply PDX_in. cbn [length]. lia.
Qed.

Lemma u_page_unmap_spec id e d va p f :
  resolve s me ce id = Some e -> space s e = Some d -> 0 <= id < 2 ^ 31 -> is_u32 va -> va_legal va = true ->
  trans s d va = Some (p, f) ->
  exists s' l', u_page_unmap id va s = Ret 0 s' /\ moved s s' l' le k me ce e d va None /\ (length l <= length l')%nat /\
    (forall q, refs s' q = refs s q - b2z (p = q)) /\ (forall q, data_page s d q -> same_page s s' q).
Proof.
  intros E S I V L Ht. pose proof (pr_ok P) as K. destruct (ko_dir K S) as (x & Hx & D).
  destruct (sys_page_unmap_spec s me ce l (process_caller s l le k me ce P) (ko_wf K) (ko_free K) (ko_cpu K)
    id va e d p f x E V L Hx D (ko_pd K S) Ht (mapped_page_ok s l le k me ce P d e va p f S V L Ht)) as (s' & l' & H & R).
  exists s', l'. split; [|split; [|split; [|split]]].
  - unfold u_page_unmap. apply (usyscall_eq SYS_page_unmap true id va 0 0 0 0 s s'); [|lia|lia].
    change (syscall SYS_page_unmap (u32 id) (u32 va) (u32 0) (u32 0) (u32 0) s) with (sys_page_unmap (s32 (u32 id)) (u32 va) s).
    rewrite s32_id, u32_id by done. exact H.
  - apply (remapped_moved s l le k me ce e d va P S V L s' l' _ None R).
    by apply (process_remap s s' l l' le k me ce e d va _ None P S V L R).
  - pose proof (remap_length s s' l l' d va _ None (ko_free K) R) as Hle.
    rewrite (b2z_false (is_Some (@None Z))) in Hle by (by intros []). lia.
  - intros q. rewrite (ps_refs (rmp_step R)), Ht. cbn [fmap option_fmap option_map fst].
    unfold b2z. repeat case_decide; congruence || lia.
  - intros q [Hq Hqt]. apply (ps_mem (rmp_step R)); [done|]. destruct (rmp_new R) as (y & Hy & ->). rewrite <- Hy.
    apply Hqt; [apply PDX_in|by apply va_legal_user].
Qed.
End Calls.



(** ** The process's own memory *)

(** A 32-bit word that lies within one page. *)
Definition word_va (va : Z) : Prop := 0 <= va < UTOP /\ va mod PGSIZE + 4 <= PGSIZE.

(** Where the word at [va] is kept when [va] is mapped to page [p]. *)
Definition at_page (p va : Z) : Z := page_kva p + va mod PGSIZE.

Lemma window_uwrite32 s d t p base o v :
  window M_URW s d t p base -> p <> d -> p <> t -> 0 <= o -> o + 4 <= PGSIZE ->
  uwrite32 (base + o) v s = Ret tt (set_kmem (st32 (kmem s) (page_kva p + o) v) s).
Proof.
  intros W Hd Ht H0 H4. destruct (wi_base _ _ _ _ _ _ W) as [Hb Hb'].
  assert (forall k, 0 <= k < 4 -> u32 (base + o + k) = base + (o + k)) as Hu.
  { intros k Hk. rewrite u32_id; [lia|]. unfold KERNBASE, PGSIZE in *. word_lia. }
  assert (forall s' k w, 0 <= k < 4 -> window M_URW s' d t p base ->
    window M_URW (set_kmem (st8 (kmem s') (page_kva p + (o + k)) w) s') d t p base) as Hext.
  { intros s' k w Hk W'. apply (window_ext _ s' _ d t p p base W'); try done.
    intros x Hx. cbn [kmem set_kmem]. unfold st8. case_bool; [|done]. unfold PGSIZE in *. lia. }
  unfold uwrite32. rewrite !Hu by lia. replace (base + o) with (base + (o + 0)) by lia.
  mstep (window_uwrite8 s d t p base (o + 0) v W ltac:(lia)). pose proof (Hext s 0 v ltac:(lia) W) as W1.
  mstep (window_uwrite8 _ d t p base (o + 1) (v / 2 ^ 8) W1 ltac:(lia)).
  pose proof (Hext _ 1 (v / 2 ^ 8) ltac:(lia) W1) as W2.
  mstep (window_uwrite8 _ d t p base (o + 2) (v / 2 ^ 16) W2 ltac:(lia)).
  pose proof (Hext _ 2 (v / 2 ^ 16) ltac:(lia) W2) as W3.
  rewrite (window_uwrite8 _ d t p base (o + 3) (v / 2 ^ 24) W3) by lia.
  unfold st32. by rewrite Z.add_0_r, !Z.add_assoc.
Qed.

Section Memory.
Context (s : kstate) (l le : list Z) (k me : Z) (ce : Env) (d : Z).
Hypothesis H : home s l le k me ce d.
Let P := hm_proc H.
Let K := pr_ok P.

Lemma home_window m base p f :
  0 <= base < UTOP -> base mod PGSIZE = 0 -> trans s d base = Some (p, f) -> 0 <= m < 8 -> Z.land f m = m ->
  exists t, window m s d t p base /\ tbl s d (PDX base) = Some t.
Proof.
  intros Hb H0 Htr Hm Hf. destruct (trans_slot _ _ _ _ _ (ko_wf K) Htr) as (t & Ht & _).
  assert (is_u32 base) as Hu by (change UTOP with 0xEEC00000 in Hb; unfold is_u32; lia).
  assert (va_legal base = true) as Hl.
  { unfold va_legal. rewrite H0. by rewrite (proj2 (Z.ltb_lt _ _)) by lia. }
  pose proof (va_legal_slot base Hu Hl) as Hi. exists t. split; [|done].
  apply (trans_window m s l d t base p f); try done; try apply H; try apply K.
  - exact (ko_pd K (hm_me H)).
  - by apply va_legal_user.
  - change UTOP with 0xEEC00000 in Hb. unfold KERNBASE. lia.
  - destruct (ko_user K (hm_me H) Hi) as [?|H7]; [congruence|]. apply (land_mask_sub _ 7); [done|].
    change 7 with (Z.ones 3). rewrite Z.land_comm, Z.land_ones by lia. apply Z.mod_small. lia.
Qed.

(** A page the process maps holds none of its tables. *)
Lemma home_data va p f :
  is_u32 va -> va_legal va = true -> trans s d va = Some (p, f) -> data_page s d p.
Proof.
  intros Hv Hl Ht. apply (mp_data _ _ _ _ (ko_maps K (mapped_maps s me d va p f (ko_envs K) (hm_me H) Hv Hl Ht)) me).
  apply (hm_me H).
Qed.

Lemma home_uread32 va p f :
  word_va va -> trans s d va = Some (p, f) -> Z.land f M_UR = M_UR ->
  uread32 va s = Ret (ld32 (kmem s) (at_page p va)) s.
Proof.
  intros [Hva Ho] Ht Hf. destruct (round_page va Hva) as (Hb & _ & _ & _ & Hr & H0 & Hd & Hx & _).
  rewrite <- (trans_page s d _ _ Hd Hx) in Ht.
  destruct (home_window M_UR _ p f Hr H0 Ht ltac:(unfold M_UR; lia) Hf) as (t & W & _).
  replace va with (ROUNDDOWN va PGSIZE + va mod PGSIZE) at 1 by lia.
  apply (window_uread32 s d t p _ _ W); [unfold PGSIZE; word_lia|lia].
Qed.

Lemma home_uwrite32 va p f v :
  word_va va -> trans s d va = Some (p, f) -> Z.land f M_URW = M_URW ->
  uwrite32 va v s = Ret tt (set_kmem (st32 (kmem s) (at_page p va) v) s).
Proof.
  intros [Hva Ho] Ht Hf. destruct (round_page va Hva) as (Hb & _ & Hub & Hlb & Hr & H0 & Hd & Hx & _).
  rewrite <- (trans_page s d _ _ Hd Hx) in Ht.
  destruct (home_window M_URW _ p f Hr H0 Ht ltac:(unfold M_URW; lia) Hf) as (t & W & Htb).
  destruct (home_data _ p f Hub Hlb Ht) as [Hpd Hpt].
  replace va with (ROUNDDOWN va PGSIZE + va mod PGSIZE) at 1 by lia.
  apply (window_uwrite32 s d t p _ _ v W); [congruence| |unfold PGSIZE; word_lia|lia].
  intros ->. by apply (Hpt _ (PDX_in _) (va_legal_user _ Hub Hlb)).
Qed.

(** memmove from one of its pages to another. *)
Lemma home_copy src dst p1 f1 p2 f2 :
  0 <= src < UTOP -> src mod PGSIZE = 0 -> trans s d src = Some (p1, f1) -> Z.land f1 M_UR = M_UR ->
  0 <= dst < UTOP -> dst mod PGSIZE = 0 -> trans s d dst = Some (p2, f2) -> Z.land f2 M_URW = M_URW -> p2 <> p1 ->
  exists m', umemmove (Z.to_nat PGSIZE) dst src s = Ret tt (set_kmem m' s) /\ data_write s p2 m' /\
    forall o, 0 <= o < PGSIZE -> m' (page_kva p2 + o) = kmem s (page_kva p1 + o).
Proof.
  intros Hs Hs0 Ht1 Hf1 Hd Hd0 Ht2 Hf2 Hne.
  destruct (home_window M_UR src p1 f1 Hs Hs0 Ht1 ltac:(unfold M_UR; lia) Hf1) as (t1 & W1 & T1).
  destruct (home_window M_URW dst p2 f2 Hd Hd0 Ht2 ltac:(unfold M_URW; lia) Hf2) as (t2 & W2 & T2).
  assert (forall a, 0 <= a < UTOP -> a mod PGSIZE = 0 -> is_u32 a /\ va_legal a = true) as Hlegal.
  { intros a Ha Ha0. split; [change UTOP with 0xEEC00000 in Ha; unfold is_u32; lia|].
    unfold va_legal. rewrite Ha0. by rewrite (proj2 (Z.ltb_lt _ _)) by lia. }
  destruct (Hlegal src Hs Hs0) as [Us Ls]. destruct (Hlegal dst Hd Hd0) as [Ud Ld].
  destruct (home_data dst p2 f2 Ud Ld Ht2) as [Dd Dt].
  destruct (umemmove_eq (Z.to_nat PGSIZE) s d t1 p1 src t2 p2 dst 0 W1 W2) as (m' & E & Hm).
  - congruence.
  - intros <-. by apply (Dt _ (PDX_in src) (va_legal_user src Us Ls)).
  - intros <-. by apply (Dt _ (PDX_in dst) (va_legal_user dst Ud Ld)).
  - done.
  - apply (ko_wf K).
  - lia.
  - unfold PGSIZE. lia.
  - rewrite !Z.add_0_r in E, Hm. change (Z.of_nat (Z.to_nat PGSIZE)) with PGSIZE in Hm.
    exists m'. split; [exact E|]. split; [split|].
    + symmetry in Hm. apply (mem_eq_bytes _ _ Hm). apply copy_bytes. apply (ko_wf K).
    + intros x Hx. rewrite (Hm x). unfold copy. case_bool; lia || done.
    + intros o Ho. rewrite (Hm _). unfold copy. case_bool; try lia. f_equal. lia.
Qed.

(** What a store to a page of its own leaves. *)
Record stored (s' : kstate) : Prop := {
  so_home : home s' l le k me ce d;
  so_kept : forall t' d', space s t' = Some d' -> parts_kept s s' d';
  so_maps : forall q, maps s' q = maps s q;
  so_envs : envs s' = envs s }.

Lemma home_store va p f m' :
  is_u32 va -> va_legal va = true -> trans s d va = Some (p, f) -> data_write s p m' -> stored (set_kmem m' s).
Proof.
  intros Hv Hl Ht W. destruct (serves_data s l le k me ce d va p f m' P (hm_me H) Hv Hl Ht W) as [_ P'].
  pose proof (mapped_maps s me d va p f (ko_envs K) (hm_me H) Hv Hl Ht) as Hp.
  assert (forall t' d', space s t' = Some d' -> parts_kept s (set_kmem m' s) d') as Hk.
  { intros t' d' Hs o Ho x Hx. symmetry. apply W. 
    assert (o <> p) as Hne.
    { intros ->. apply (in_tables_mapped s l le k p K Hp). right. by exists t', d'. }
    unfold page_kva, PGSIZE in *. lia. }
  split; [|done| |done].
  - apply (home_ext s _ l l le le k me ce ce d H P'); [done|done|done|].
    apply page_word; [|apply PDX_in]. apply (Hk me d (hm_me H)). by left.
  - intros q. apply maps_ext. intros e _. unfold env_maps. change (space (set_kmem m' s) e) with (space s e).
    destruct (space s e) as [d'|] eqn:Hs; [|done]. apply kept_dir_maps. by apply (Hk e).
Qed.
End Memory.

(** A word is where it was after a step that keeps its page. *)
Lemma word_kept s s' p va : same_page s s' p -> word_va va -> ld32 (kmem s') (at_page p va) = ld32 (kmem s) (at_page p va).
Proof.
  intros Hs [_ Ho]. apply ld32_ext. intros x Hx. symmetry. apply Hs. unfold at_page, PGSIZE in *. word_lia.
Qed.

Lemma word_trans s s' d va p f :
  word_va va -> trans s d va = Some (p, f) ->
  (forall b, is_u32 b -> va_legal b = true -> trans s d b = Some (p, f) -> trans s' d b = Some (p, f)) ->
  trans s' d va = Some (p, f).
Proof.
  intros [Hva _] Ht Hb. destruct (round_page va Hva) as (_ & _ & Hub & Hlb & _ & _ & Hd & Hx & _).
  rewrite <- (trans_page s' d _ _ Hd Hx). apply Hb; [done|done|]. by rewrite (trans_page s d _ _ Hd Hx).
Qed.

Lemma word_mapped s e d va p f :
  envs_wf s -> space s e = Some d -> word_va va -> trans s d va = Some (p, f) -> 0 < maps s p.
Proof.
  intros Hw Hs [Hva _] Ht. destruct (round_page va Hva) as (_ & _ & Hub & Hlb & _ & _ & Hd & Hx & _).
  apply (mapped_maps s e d (ROUNDDOWN va PGSIZE) p f Hw Hs Hub Hlb). by rewrite (trans_page s d _ _ Hd Hx).
Qed.

Lemma st32_data_write s p va v :
  mem_wf s -> word_va va -> data_write s p (st32 (kmem s) (at_page p va) v).
Proof.
  intros Hwf [_ Ho]. split; [by apply st32_bytes, Hwf|]. intros x Hx. apply st32_out.
  unfold at_page, page_kva, PGSIZE in *. word_lia.
Qed.

(** ** Calls that change an environment's record *)

(** The kernel's check of a word that is mapped for the user. *)
Lemma user_word_passes s l e x d va p f :
  mem_wf s -> pgdir_ok s l d -> self_mapped s d -> envs s !! e = Some x -> env_pgdir x = page_kva d ->
  word_va va -> trans s d va = Some (p, f) -> Z.land f M_UR = M_UR ->
  exists a, user_mem_check e va 4 (Z.lor 0 PTE_U) s = Ret 0 (set_user_mem_check_addr a s).
Proof.
  intros Hwf Hpd Hself Hx Hd [Hva Ho] Ht Hf. change UTOP with 0xEEC00000 in Hva.
  assert (is_u32 va) as Hu by (unfold is_u32; lia).
  pose proof (user_mem_check_eq s l e va 4 (Z.lor 0 PTE_U) d x Hwf Hpd Hself Hu Hx Hd) as E. cbv zeta in E.
  assert (ROUNDUP (u32 (va + 4)) PGSIZE = va - va mod PGSIZE + PGSIZE) as Hend.
  { unfold ROUNDUP. rewrite !(u32_id (va + 4)), (u32_id PGSIZE), u32_id by (unfold is_u32, PGSIZE; lia).
    rewrite ROUNDDOWN_eq by (unfold is_u32, PGSIZE; lia). unfold PGSIZE in *. word_lia. }
  rewrite Hend in E. rewrite E. assert (refused s d (Z.lor (Z.lor 0 PTE_U) PTE_P) va (va - va mod PGSIZE + PGSIZE) = None) as ->; [|by eexists].
  unfold refused. rewrite visited_cons, visited_nil by (unfold PGSIZE in *; word_lia). rewrite filter_cons, filter_nil.
  rewrite decide_False; [done|]. apply not_false_iff_true. unfold allowed.
  destruct (trans_slot s d va p f Hwf Ht) as (t & Htb & _). rewrite Htb. unfold trans in Ht. rewrite Htb in Ht.
  apply andb_true_iff. split; [apply Z.leb_le; change ULIM with 0xEF800000; lia|]. apply Z.eqb_eq.
  change (Z.lor (Z.lor 0 PTE_U) PTE_P) with M_UR. unfold entry in Ht. destruct (has _ PTE_P); [|done]. injection Ht as _ <-.
  change PGSIZE with (2 ^ 12) in Hf. rewrite <- Z.land_ones, <- Z.land_assoc in Hf by lia. exact Hf.
Qed.

Section Records.
Context {stabs : StabSections}.
Context (s : kstate) (l le : list Z) (k me : Z) (ce : Env) (id e : Z) (x : Env) (d : Z).
Hypothesis P : process s l le k me ce.
Hypothesis E : resolve s me ce id = Some e.
Hypothesis Hx : envs s !! e = Some x.
Hypothesis Hs : space s e = Some d.
Hypothesis Hid : 0 <= id < 2 ^ 31.

Lemma resolved_used : env_status x <> ENV_FREE.
Proof. destruct (space_lookup s e d Hs) as (y & Hy & Hu). by simplify_eq. Qed.

Lemma u_upcall_spec va p f :
  self_mapped s d -> word_va va -> trans s d va = Some (p, f) -> Z.land f M_UR = M_UR ->
  let x' := set_env_pgfault_upcall va x in
  exists a, u_env_set_pgfault_upcall id va s = Ret 0 (set_user_mem_check_addr a (with_record s e x')) /\
    process (set_user_mem_check_addr a (with_record s e x')) l le k me (own_record me ce e x').
Proof.
  intros Hself Hw Ht Hf x'. pose proof (pr_ok P) as K. pose proof resolved_used as Hu.
  destruct (record_process s l le k me ce id e x x' P E Hx Hu Hu eq_refl eq_refl) as [_ P1].
  destruct (ko_dir K Hs) as (y & Hy & Hd). assert (y = x) as -> by congruence.
  destruct (user_word_passes (with_record s e x') l e x' d va p f) as [a Ha]; try done.
  - apply (ko_wf (pr_ok P1)).
  - by apply (pgdir_ok_ext s _ l l d (ko_pd K Hs)).
  - apply record_here.
  - exists a. split.
    + unfold u_env_set_pgfault_upcall.
      apply (usyscall_eq SYS_env_set_pgfault_upcall true id va 0 0 0 0 s); [|lia|lia].
      change (syscall SYS_env_set_pgfault_upcall (u32 id) (u32 va) (u32 0) (u32 0) (u32 0) s)
        with (sys_env_set_pgfault_upcall (s32 (u32 id)) (u32 va) s).
      destruct Hw as [Hw _]. change UTOP with 0xEEC00000 in Hw. rewrite s32_id, u32_id by (unfold is_u32; lia).
      exact (upcall_eq s l le k me ce P id va e x a E Hx Ha).
    + by apply (serves_quiet _ _ l le k me (own_record me ce e x') P1).
Qed.

(** The process stays at home when a record changes. *)
Lemma home_record d0 x' s' :
  home s l le k me ce d0 -> env_pgdir x' = env_pgdir x -> env_id x' = env_id x -> env_status x' <> ENV_FREE ->
  process s' l le k me (own_record me ce e x') -> envs s' = envs (with_record s e x') -> kmem s' = kmem s -> cr3 s' = cr3 s ->
  home s' l le k me (own_record me ce e x') d0.
Proof.
  intros H Hd Hi Hu P' He Hm Hc. apply (home_ext s s' l l le le k me ce _ d0 H P').
  - unfold own_record. case_decide as Hn; [|done]. rewrite Hi. pose proof (pr_env P) as Hce. congruence.
  - rewrite <- (record_space s e x x' Hx resolved_used Hu Hd me). apply space_ext. by rewrite He.
  - done.
  - by rewrite Hm.
Qed.

Lemma u_runnable_spec :
  let x' := set_env_status ENV_RUNNABLE x in
  u_env_set_status id 2 s = Ret 0 (with_record s e x') /\ process (with_record s e x') l le k me (own_record me ce e x').
Proof.
  intros x'. pose proof resolved_used as Hu.
  assert (env_status x' <> ENV_FREE) as Hu' by done.
  destruct (record_process s l le k me ce id e x x' P E Hx Hu Hu' eq_refl eq_refl) as [_ P1]. split; [|exact P1].
  unfold u_env_set_status. apply (usyscall_eq SYS_env_set_status true id 2 0 0 0 0 s); [|lia|lia].
  change (syscall SYS_env_set_status (u32 id) (u32 2) (u32 0) (u32 0) (u32 0) s)
    with (sys_env_set_status (s32 (u32 id)) (s32 (u32 2)) s).
  rewrite !s32_id by lia. rewrite (sys_env_set_status_correct s me ce id 2 (process_caller s l le k me ce P)).
  rewrite E, Hx. done.
Qed.
End Records.

(** ** A concrete process

    The first process of Isolation.v, running in its own address space, with a
    page at 8 MB. *)

Lemma process_quiet s s' l le k me ce :
  process s l le k me ce -> kmem s' = kmem s -> envs s' = envs s -> env_free_list s' = env_free_list s ->
  cpus s' = cpus s -> cpunum s' = cpunum s -> npages s' = npages s -> kern_pgdir s' = kern_pgdir s ->
  pages s' = pages s -> page_free_list s' = page_free_list s -> process s' l le k me ce.
Proof. intros. by apply (serves_quiet s s' l le k me ce). Qed.

Lemma home_start s l le k me ce d :
  process s l le k me ce -> space s me = Some d -> 0 < env_id ce < 2 ^ 31 /\ ENVX (env_id ce) = me -> self_mapped s d ->
  Z.land (ld32 (kmem s) (pde_addr d (PDX UVPT))) M_UR = M_UR ->
  exists s', home s' l le k me ce d /\ (forall p, maps s' p = maps s p) /\ (forall i, tbl s' d i = tbl s d i).
Proof.
  intros P Hs Hid Hself Hu. exists (set_cr3 (d * PGSIZE) s). split; [|by split]. split; try done. by apply (process_quiet s).
Qed.

Definition first_free : list Z := zrange 3 17.
Definition first_idle : list Z := zrange 1 (Z.to_nat (NENV - 1)).

Lemma first_home : exists s ce, home s first_free first_idle 1 0 ce 2 /\ (forall p, maps s p = 0) /\
  (forall i, uslot i -> tbl s 2 i = None) /\ env_parent_id ce = 0.
Proof.
  destruct first_process_ok as (ce & P & _ & Hpar & Hm & _). destruct first_process_new as (x & x' & _ & He & Hn & _ & Hns & _).
  assert (x' = ce) as ->.
  { pose proof (pr_env P) as Hce. rewrite He, lookup_insert_eq in Hce. by injection Hce. }
  destruct (home_start first_process _ _ 1 0 ce 2 P first_space (conj (ne_id _ _ _ _ _ Hn) (ne_slot _ _ _ _ _ Hn))
    (ns_self _ _ _ _ _ Hns) (ns_uvpt _ _ _ _ _ Hns)) as (s & H & Hms & Htb).
  exists s, ce. split; [exact H|]. split; [intros p; rewrite Hms; exact (Hm p)|]. split; [|exact Hpar].
  intros i Hi. destruct (uslot_in i Hi) as [H1 H2]. rewrite Htb. etrans; [exact (ns_tbl _ _ _ _ _ Hns i H1 H2)|].
  exact (ko_empty linked_ok i Hi).
Qed.

(** One page, zeroed, at 8 MB; everything else unmapped. *)
Record one_page (s : kstate) (l : list Z) (ce : Env) (p f : Z) : Prop := {
  op_home : home s l first_idle 1 0 ce 2;
  op_trans : forall va, is_u32 va -> va_legal va = true -> trans s 2 va = if decide (va = 0x800000) then Some (p, f) else None;
  op_maps : forall q, maps s q = b2z (p = q);
  op_tables : forall i, uslot i -> i <> 2 -> tbl s 2 i = None;
  op_zero : forall x, page_kva p <= x < page_kva p + PGSIZE -> kmem s x = 0;
  op_len : (15 <= length l)%nat }.

Lemma first_page {stabs : StabSections} : exists s l ce p, one_page s l ce p 7.
Proof.
  destruct first_home as (s & ce & H & Hm & Htb & _). pose proof (hm_id H) as [Hid _].
  destruct (u_page_alloc_spec s first_free first_idle 1 0 ce (hm_proc H) (env_id ce) 0 2 0x800000 7
    (home_resolve _ _ _ _ _ _ _ H) (hm_me H) ltac:(lia) ltac:(by unfold is_u32) eq_refl eq_refl ltac:(cbn; lia))
    as (s1 & l1 & p & C & M & _ & Hz & _ & Hl). change (Z.lor PTE_P 7) with 7 in M.
  assert (forall va, is_u32 va -> va_legal va = true -> trans s 2 va = None) as Hn.
  { intros va Hv Hlv. unfold trans. by rewrite (Htb _ (va_legal_slot va Hv Hlv)). }
  exists s1, l1, ce, p. split.
  - exact (home_moved s s1 _ l1 _ 1 0 ce 2 0 2 0x800000 _ H M).
  - intros va Hv Hlv. rewrite (mv_here M va Hv Hlv). case_decide; [done|]. by apply Hn.
  - intros q. rewrite (mv_maps M), Hm, (Hn 0x800000 ltac:(by unfold is_u32) eq_refl). cbn [fmap option_fmap option_map fst].
    unfold b2z. repeat case_decide; congruence || lia.
  - intros i Hi Hne. rewrite (mv_tbl M i Hi Hne). by apply Htb.
  - exact Hz.
  - unfold b2z in Hl. change (length first_free) with 17%nat in Hl. case_decide; lia.
Qed.
