(* ===== verification/Cow.v ===== *)
(** * Copy-on-write faults

    fork's page-fault handler (src/lib/fork.c, [pgfault] of UserLib.v) in a
    process of a well-formed kernel: the faulting page becomes a private copy
    and nothing else changes, for the process or for any other environment. *)
From S2P Require Import Prelude Machine Mmu KState PageAlloc PageTable Vmem Kdebug Env Sched Syscall Isolation Reclaim Protection UserLib UserCalls.

Local Open Scope Z_scope.

(** Environment [me] faults at [va]: its page maps page [p], readable for the
    user and marked copy-on-write; the temporary address is free. *)
Record cow_page (s : kstate) (l le : list Z) (k me : Z) (ce : Env) (d va p f : Z) : Prop := {
  cp_home : home s l le k me ce d;
  cp_va : 0 <= va < UTOP /\ PGNUM va <> PGNUM PFTEMP;
  cp_trans : trans s d va = Some (p, f);
  cp_perm : Z.land f M_UR = M_UR /\ Z.land f PTE_COW <> 0;
  cp_temp : trans s d PFTEMP = None }.

(** * Properties *)

Lemma pftemp_legal : is_u32 PFTEMP /\ va_legal PFTEMP = true /\ PGNUM PFTEMP = PGNUM UTEXT - 1.
Proof. split; [split; [by vm_compute|done]|done]. Qed.

Section Cow.
Context {stabs : StabSections}.
Context (s : kstate) (l le : list Z) (k me : Z) (ce : Env) (d va p f : Z).
Hypothesis C : cow_page s l le k me ce d va p f.
Let base := ROUNDDOWN va PGSIZE.
Let H := cp_home _ _ _ _ _ _ _ _ _ _ C.
Let K := pr_ok (hm_proc H).

(** The handler's test of the page-table entry passes. *)
Lemma cow_entry : exists w, uvpt (PGNUM va) s = Ret w s /\ (Z.land w PTE_COW =? 0) = false.
Proof.
  destruct (cp_va _ _ _ _ _ _ _ _ _ _ C) as [Hva _]. destruct (round_page va Hva) as (_ & Hu & Hub & Hlb & _ & _ & Hd & Hx & Hn).
  pose proof (cp_trans _ _ _ _ _ _ _ _ _ _ C) as Ht. destruct (trans_slot _ _ _ _ _ (ko_wf K) Ht) as (t & Htb & _).
  pose proof (va_legal_slot base Hub Hlb) as Hi. fold base in Hd, Hx, Hn. rewrite Hd in Hi.
  destruct (uvpt_slot s l le k me ce d H (PDX va) (PTX va) t Hi (PTX_range va) Htb) as (w & Hw & Hwt).
  exists w. rewrite pgnum_slot by done. split; [done|]. apply Z.eqb_neq. intros E.
  destruct (cp_perm _ _ _ _ _ _ _ _ _ _ C) as [_ Hcow]. apply Hcow.
  assert (entry w = Some (p, f)) as He.
  { rewrite <- Hwt, <- Ht. destruct (uva_parts _ _ Hi (PTX_range va)) as (_ & H1 & H2 & _). by apply trans_page. }
  unfold entry in He. destruct (has w PTE_P); [|done]. injection He as _ <-. change PGSIZE with (2 ^ 12).
  by rewrite <- Z.land_ones, <- Z.land_assoc by lia.
Qed.

Lemma cow_base : is_u32 base /\ va_legal base = true /\ 0 <= base < UTOP /\ base mod PGSIZE = 0 /\ base <> PFTEMP /\
  trans s d base = Some (p, f) /\ (forall va', is_u32 va' -> va_legal va' = true -> PGNUM va' = PGNUM va <-> va' = base).
Proof.
  destruct (cp_va _ _ _ _ _ _ _ _ _ _ C) as [Hva Hne]. destruct (round_page va Hva) as (_ & Hu & Hub & Hlb & Hbr & Hb0 & Hd & Hx & Hn).
  fold base in Hub, Hlb, Hbr, Hb0, Hd, Hx, Hn. split; [exact Hub|]. split; [exact Hlb|]. split; [exact Hbr|]. split; [exact Hb0|]. split; [|split].
  - intros E. apply Hne. by rewrite <- Hn, E.
  - rewrite (trans_page s d _ _ Hd Hx). apply C.
  - intros va' Hv Hl. rewrite <- Hn, (pgnum_slot base Hub).
    rewrite (uva_page va' _ _ Hv Hl (va_legal_slot base Hub Hlb) (PTX_range base)). by rewrite <- legal_uva.
Qed.

(** What the handler leaves: page [pp] at the faulting page, with the bytes of
    [p], writable and referenced only here. *)
Record resolved (s' : kstate) (l' : list Z) (pp : Z) : Prop := {
  re_home : home s' l' le k me ce d;
  re_new : pp <> p /\ maps s pp = 0 /\ refs s' pp = 1;
  re_here : forall va', is_u32 va' -> va_legal va' = true ->
    trans s' d va' = if decide (va' = base) then Some (pp, PTE_UPW) else trans s d va';
  re_other : forall t' d' va', t' <> me -> space s t' = Some d' -> is_u32 va' -> va_legal va' = true -> trans s' d' va' = trans s d' va';
  re_copy : forall o, 0 <= o < PGSIZE -> kmem s' (page_kva pp + o) = kmem s (page_kva p + o);
  re_mem : forall q, 0 < maps s q -> same_page s s' q;
  re_refs : refs s' p = refs s p - 1;
  re_maps : forall q, maps s' q = maps s q - b2z (p = q) + b2z (pp = q);
  re_table : is_Some (tbl s' d (PDX PFTEMP));
  re_len : Z.of_nat (length l) <= Z.of_nat (length l') + 1 + b2z (tbl s d (PDX PFTEMP) = None);
  re_uvpt : forall t' d', space s t' = Some d' ->
    ld32 (kmem s') (pde_addr d' (PDX UVPT)) = ld32 (kmem s) (pde_addr d' (PDX UVPT));
  re_envs : envs s' = envs s }.

(** Halfway: page [pp], at the temporary address, has the bytes of [p]. *)
Record copied_temp (s' : kstate) (l' : list Z) (pp : Z) : Prop := {
  ct_home : home s' l' le k me ce d;
  ct_new : pp <> p /\ maps s pp = 0 /\ refs s' pp = 1;
  ct_here : forall va', is_u32 va' -> va_legal va' = true ->
    trans s' d va' = if decide (va' = PFTEMP) then Some (pp, PTE_UPW) else trans s d va';
  ct_other : forall t' d' va', t' <> me -> space s t' = Some d' -> is_u32 va' -> va_legal va' = true -> trans s' d' va' = trans s d' va';
  ct_copy : forall o, 0 <= o < PGSIZE -> kmem s' (page_kva pp + o) = kmem s (page_kva p + o);
  ct_mem : forall q, 0 < maps s q -> same_page s s' q;
  ct_refs : forall q, 0 < maps s q -> refs s' q = refs s q;
  ct_maps : forall q, maps s' q = maps s q + b2z (pp = q);
  ct_table : is_Some (tbl s' d (PDX PFTEMP));
  ct_len : Z.of_nat (length l) <= Z.of_nat (length l') + 1 + b2z (tbl s d (PDX PFTEMP) = None);
  ct_uvpt : forall t' d', space s t' = Some d' ->
    ld32 (kmem s') (pde_addr d' (PDX UVPT)) = ld32 (kmem s) (pde_addr d' (PDX UVPT));
  ct_envs : envs s' = envs s }.

Lemma temp_copy :
  (2 <= length l)%nat ->
  exists s1 s2 l1 pp, u_page_alloc (env_id ce) PFTEMP PTE_UPW s = Ret 0 s1 /\
    umemmove (Z.to_nat PGSIZE) PFTEMP base s1 = Ret tt s2 /\ copied_temp s2 l1 pp.
Proof.
  intros Hlen. destruct cow_base as (Ub & Lb & Rb & B0 & Hbt & Htb & _). destruct pftemp_legal as (Ut & Lt & _).
  pose proof (hm_me H) as Hme. pose proof (hm_id H) as [Hid _]. pose proof (cp_temp _ _ _ _ _ _ _ _ _ _ C) as Htmp.
  destruct (cp_perm _ _ _ _ _ _ _ _ _ _ C) as [Hf _].
  assert (0 < maps s p) as Hp by by apply (mapped_maps s me d base p f (ko_envs K)).
  destruct (u_page_alloc_spec s l le k me ce (hm_proc H) (env_id ce) me d PFTEMP 7 (home_resolve s l le k me ce d H)
    Hme ltac:(lia) Ut Lt eq_refl Hlen) as (s1 & l1 & pp & C1 & M1 & Hpp & _ & R1 & Ln1). change (Z.lor PTE_P 7) with 7 in M1.
  pose proof (home_moved s s1 l l1 le k me ce d me d PFTEMP _ H M1) as H1.
  pose proof (free_unmapped s l k pp (@ko_maps _ _ _ _ K) Hpp) as Hpp0. assert (pp <> p) as Hne by (intros ->; lia).
  assert (trans s1 d base = Some (p, f)) as Htb1 by (by rewrite (mv_here M1), decide_False).
  assert (trans s1 d PFTEMP = Some (pp, 7)) as Htt1 by (by rewrite (mv_here M1), decide_True).
  destruct (home_copy s1 l1 le k me ce d H1 base PFTEMP p f pp 7) as (m2 & C2 & W2 & B2);
    [done|done|done|done|split; [by vm_compute|done]|done|done|done|done|].
  destruct (home_store s1 l1 le k me ce d H1 PFTEMP pp 7 m2 Ut Lt Htt1 W2) as [H2 K2 N2 _]. set (s2 := set_kmem m2 s1) in *.
  exists s1, s2, l1, pp. split; [exact C1|]. split; [exact C2|]. split.
  - exact H2.
  - done.
  - intros va' Hv Hl. rewrite (kept_trans s1 s2 d (K2 me d (hm_me H1))) by by apply va_legal_user. by apply (mv_here M1).
  - intros t' d' va' Hn Ht' Hv Hl. rewrite (kept_trans s1 s2 d') by (apply (K2 t'); rewrite <- Ht'; apply space_ext; by rewrite (mv_envs M1)) || by apply va_legal_user.
    by apply (mv_other M1 Hn).
  - intros o Ho. change (kmem s2) with m2. rewrite B2 by done. symmetry. apply (mv_mem M1 p Hp). lia.
  - intros q Hq y Hy. rewrite (mv_mem M1 q Hq y Hy). symmetry. apply W2. assert (q <> pp) by (intros ->; lia). unfold page_kva, PGSIZE in *. lia.
  - intros q Hq. change (refs s2 q) with (refs s1 q). rewrite (mv_refs M1 q Hq), Htmp, b2z_false, b2z_false by (intros [= ->]; lia || done). lia.
  - intros q. rewrite N2, (mv_maps M1), Htmp. cbn [fmap option_fmap option_map fst]. unfold b2z. repeat case_decide; congruence || lia.
  - rewrite (kept_tbl s1 s2 d (K2 me d (hm_me H1))) by apply PDX_in. apply (mv_table M1).
  - exact Ln1.
  - intros t' d' Ht'. rewrite <- (mv_uvpt M1 Ht'). apply page_word; [|apply PDX_in].
    apply (K2 t' d'); [rewrite <- Ht'; apply space_ext; by rewrite (mv_envs M1)|by left].
  - apply (mv_envs M1).
Qed.

Lemma pgfault_spec err :
  (2 <= length l)%nat -> Z.land err FEC_WR <> 0 ->
  exists s' l' pp, pgfault va err s = Ret tt s' /\ resolved s' l' pp.
Proof.
  intros Hlen Herr. destruct cow_entry as (w & Hw & Hcow). destruct cow_base as (Ub & Lb & Rb & B0 & Hbt & Htb & _).
  destruct pftemp_legal as (Ut & Lt & _). pose proof (hm_id H) as [Hid _]. pose proof (cp_temp _ _ _ _ _ _ _ _ _ _ C) as Htmp.
  assert (0 < maps s p) as Hp by (apply (mapped_maps s me d base p f (ko_envs K)); [apply (hm_me H)|done..]).
  destruct (temp_copy Hlen) as (s1 & s2 & l1 & pp & C1 & C2 & [H2 (Hne & Hpp0 & R2) T2 O2 B2 M2 F2 N2 Tb2 Ln2 V2 E2]).
  assert (0 < maps s2 pp /\ 0 < maps s2 p) as [Q2 P2] by (rewrite !N2, b2z_true, b2z_false by done; lia).
  assert (trans s2 d base = Some (p, f)) as Htb2 by (by rewrite T2, decide_False).
  assert (trans s2 d PFTEMP = Some (pp, 7)) as Htt2 by (by rewrite T2, decide_True).
  destruct (u_page_map_spec s2 l1 le k me ce (hm_proc H2) (env_id ce) me d PFTEMP (env_id ce) me d base 7 pp 7
    (home_resolve s2 l1 le k me ce d H2) (hm_me H2) ltac:(lia) Ut Lt (home_resolve s2 l1 le k me ce d H2) (hm_me H2)
    ltac:(lia) Ub Lb eq_refl eq_refl Htt2 ltac:(lia)) as (s3 & l3 & C3 & M3 & Ln3).
  { right. destruct (trans_slot s2 d base p f (ko_wf (pr_ok (hm_proc H2))) Htb2) as (t & -> & _). done. }
  change (Z.lor PTE_P 7) with 7 in M3. pose proof (home_moved s2 s3 l1 l3 le k me ce d me d base _ H2 M3) as H3.
  assert (trans s3 d PFTEMP = Some (pp, 7)) as Htt3 by (by rewrite (mv_here M3), decide_False).
  destruct (u_page_unmap_spec s3 l3 le k me ce (hm_proc H3) (env_id ce) me d PFTEMP pp 7 (home_resolve s3 l3 le k me ce d H3)
    (hm_me H3) ltac:(lia) Ut Lt Htt3) as (s4 & l4 & C4 & M4 & Ln4 & R4 & Q4).
  exists s4, l4, pp. split.
  { unfold pgfault. rewrite bind_if_false by by apply Z.eqb_neq. mstep Hw. rewrite bind_if_false by exact Hcow.
    mstep (u_getenvid_spec s l le k me ce (hm_proc H) ltac:(lia)). mstep C1. rewrite bind_if_false by done.
    mstep C2. mstep C3. rewrite bind_if_false by done. by mstep C4. }
  assert (forall q, 0 < maps s2 q -> same_page s2 s4 q) as Q.
  { intros q Hq y Hy. rewrite (mv_mem M3 q Hq y Hy). by apply (Q4 q (mv_data M3 q Hq)). }
  assert (forall q, maps s4 q = maps s q - b2z (p = q) + b2z (pp = q)) as N4.
  { intros q. rewrite (mv_maps M4), Htt3, (mv_maps M3), Htb2, N2. cbn [fmap option_fmap option_map fst].
    unfold b2z. repeat case_decide; congruence || lia. }
  assert (forall q, refs s4 q = refs s3 q - b2z (pp = q)) as R4' by exact R4.
  split.
  - exact (home_moved s3 s4 l3 l4 le k me ce d me d PFTEMP None H3 M4).
  - split; [done|split; [done|]]. rewrite R4', (mv_refs M3 pp Q2), Htb2, R2. cbn [fmap option_fmap option_map fst].
    unfold b2z. repeat case_decide; congruence || lia.
  - intros va' Hv Hl. rewrite (mv_here M4), (mv_here M3), T2 by done. case_decide as E4.
    + subst. by rewrite decide_False by congruence.
    + case_decide; [done|reflexivity].
  - intros t' d' va' Hn Ht' Hv Hl.
    rewrite (mv_other M4 Hn (d' := d')), (mv_other M3 Hn (d' := d')) by (done || (rewrite <- Ht'; apply space_ext; rewrite ?(mv_envs M3); by rewrite E2)).
    by apply (O2 t').
  - intros o Ho. rewrite <- (Q pp Q2) by lia. by apply B2.
  - intros q Hq y Hy. rewrite (M2 q Hq y Hy). apply (Q q); [rewrite N2; pose proof (b2z_nonneg (pp = q)); lia|done].
  - rewrite R4', (mv_refs M3 p P2), Htb2, F2 by done. cbn [fmap option_fmap option_map fst]. unfold b2z. repeat case_decide; congruence || lia.
  - exact N4.
  - apply (mv_table M4).
  - destruct (trans_slot s2 d base p f (ko_wf (pr_ok (hm_proc H2))) Htb2) as (t & Htt & _).
    rewrite (b2z_false (tbl s2 d (PDX base) = None)) in Ln3 by (by rewrite Htt). lia.
  - intros t' d' Ht'. rewrite <- (V2 t' d' Ht').
    rewrite (mv_uvpt M4 (t' := t')), (mv_uvpt M3 (t' := t')); [done|rewrite <- Ht'; apply space_ext; by rewrite E2|].
    rewrite <- Ht'. apply space_ext. by rewrite (mv_envs M3), E2.
  - by rewrite (mv_envs M4), (mv_envs M3).
Qed.
End Cow.

(** C11. A write fault on a copy-on-write page, in any process of a well-formed
    kernel with two free pages (one for the copy, one for the page table of the
    temporary address): fork's handler returns, and the faulting page is now
    mapped, writable and not copy-on-write, to a fresh page that nothing else
    references and that has the bytes the old one has; every other address of
    the process, the temporary one included, and every address of every other
    environment translates as before; no mapped page was written; the old page
    lost one reference; and the kernel is well formed. *)
Theorem pgfault_correct {stabs : StabSections} (s : kstate) (l le : list Z) (k me : Z) (ce : Env) (d va p f err : Z) :
  cow_page s l le k me ce d va p f -> (2 <= length l)%nat -> Z.land err FEC_WR <> 0 ->
  exists s' l' pp, pgfault va err s = Ret tt s' /\ resolved s l le k me ce d va p s' l' pp.
Proof. intros C. exact (pgfault_spec s l le k me ce d va p f C err). Qed.

(** The first process, its page marked copy-on-write by a call to
    sys_page_map. *)
Lemma first_cow {stabs : StabSections} : exists s l ce p, cow_page s l first_idle 1 0 ce 2 0x800123 p 0x805 /\ (2 <= length l)%nat.
Proof.
  destruct first_page as (s & l & ce & p & O). pose proof (op_home _ _ _ _ _ O) as H. pose proof (hm_id H) as [Hid _].
  assert (is_u32 0x800000 /\ va_legal 0x800000 = true) as [Hu Hl] by (split; [by unfold is_u32|done]).
  assert (trans s 2 0x800000 = Some (p, 7)) as Ht by (rewrite (op_trans _ _ _ _ _ O), decide_True by done; done).
  pose proof (ko_maps (pr_ok (hm_proc H)) (mapped_maps s 0 2 0x800000 p 7 (ko_envs (pr_ok (hm_proc H))) (hm_me H) Hu Hl Ht)) as M.
  pose proof (home_resolve _ _ _ _ _ _ _ H) as R. pose proof (op_len _ _ _ _ _ O) as Hlen.
  destruct (u_page_map_spec s l first_idle 1 0 ce (hm_proc H) (env_id ce) 0 2 0x800000 (env_id ce) 0 2 0x800000 0x805 p 7
    R (hm_me H) ltac:(lia) Hu Hl R (hm_me H) ltac:(lia) Hu Hl eq_refl eq_refl Ht) as (s1 & l1 & _ & M1 & L1).
  { rewrite (mp_refs _ _ _ _ M), (op_maps _ _ _ _ _ O). by rewrite b2z_true. }
  { left. intros ->. cbn [length] in Hlen. lia. }
  assert (forall va, is_u32 va -> va_legal va = true -> trans s1 2 va = if decide (va = 0x800000) then Some (p, 0x805) else None) as T1.
  { intros va Hv Hlv. rewrite (mv_here M1) by done. case_decide; [done|]. rewrite (op_trans _ _ _ _ _ O) by done. by rewrite decide_False. }
  exists s1, l1, ce, p. split.
  - split.
    + exact (home_moved s s1 l l1 first_idle 1 0 ce 2 0 2 0x800000 _ H M1).
    + split; [by change UTOP with 0xEEC00000|by vm_compute].
    + rewrite (trans_page s1 2 0x800123 0x800000) by by vm_compute. by rewrite T1, decide_True.
    + by vm_compute.
    + destruct pftemp_legal as (U & L & _). by rewrite T1, decide_False.
  - unfold b2z in L1. case_decide; lia.
Qed.

#[local] Instance no_stabs : StabSections :=
  {| STAB_BEGIN := 0; STAB_END := 0; STABSTR_BEGIN := 0; STABSTR_END := 0; lit_unknown := 0 |}.

Lemma pgfault_correct_witness :
  exists s l ce p s' l' pp, cow_page s l first_idle 1 0 ce 2 0x800123 p 0x805 /\ (2 <= length l)%nat /\
    pgfault 0x800123 7 s = Ret tt s' /\ resolved s l first_idle 1 0 ce 2 0x800123 p s' l' pp.
Proof.
  destruct first_cow as (s & l & ce & p & C & Hl).
  destruct (pgfault_correct s l first_idle 1 0 ce 2 0x800123 p 0x805 7 C Hl ltac:(by vm_compute)) as (s' & l' & pp & E & R).
  exists s, l, ce, p, s', l', pp. exact (conj C (conj Hl (conj E R))).
Defined.
