(* ===== verification/Stack.v ===== *)
(** * The stack of a program that forks

    Compiled code leaves frames on the stack ([calls] of UserLib.v).  While the
    page of the stack is the program's own these are plain stores; after fork has
    made it copy-on-write, the first of them faults, and the kernel, the upcall
    of src/lib/pfentry.S and fork's handler replace the page by a private copy
    before the store is tried again. *)
From S2P Require Import Prelude Machine Mmu KState PageAlloc PageTable Vmem Kdebug Env Sched Syscall Trap Isolation Reclaim Protection UserLib UserCalls Cow.

Local Open Scope Z_scope.

(** The pages of the stack and of the exception stack. *)
Definition ustack : Z := USTACKTOP - PGSIZE.
Definition uxstack : Z := UXSTACKTOP - PGSIZE.

(** The frames lie between [lo] and [hi], within the page of the stack; a call
    of sys_page_alloc leaves some (at least its return address); a write fault
    finds the stack pointer there; and the handler's own frames are on the
    exception stack, below the record of the fault. *)
Record stack_in `{StackUse} (lo hi : Z) : Prop := {
  st_range : ustack <= lo /\ hi <= ustack + PGSIZE;
  st_frames : forall f s b, b ∈ call_frame f s -> lo <= b.1 < hi;
  st_tail : forall s, call_frame "sys_page_alloc" s <> [];
  st_esp : forall s, lo + 4 <= tf_esp (fault_regs s) <= hi;
  st_handler : forall s b, b ∈ handler_frame s -> uxstack <= b.1 < UXSTACKTOP - SIZEOF_UTRAPFRAME }.

(** The bytes of the frames when the stack is page [p]. *)
Definition in_frames (lo hi p y : Z) : Prop := page_kva p + (lo - ustack) <= y < page_kva p + (hi - ustack).

(** * Properties *)

Lemma stack_pages :
  (is_u32 ustack /\ va_legal ustack = true /\ 0 <= ustack < UTOP /\ ustack mod PGSIZE = 0) /\
  (is_u32 uxstack /\ va_legal uxstack = true /\ 0 <= uxstack < UTOP /\ uxstack mod PGSIZE = 0).
Proof. split; (split; [split; [by vm_compute|done]|]); (split; [done|]); (split; [split; [by vm_compute|done]|done]). Qed.

Section Process.
Context {stabs : StabSections} {image : UserImage} {stack : StackUse}.
Context (l le : list Z) (k me : Z) (ce : Env) (d : Z).
#[local] Abbreviation at_home s := (home s l le k me ce d).

Lemma data_write_trans s p m1 m2 : data_write s p m1 -> data_write (set_kmem m1 s) p m2 -> data_write s p m2.
Proof. intros [_ H1] [H2 H3]. split; [exact H2|]. intros x Hx. rewrite (H3 x Hx). by apply H1. Qed.

(** ** Stores to one page *)

Section Page.
Context (base p f : Z).
Hypothesis Hb : is_u32 base /\ va_legal base = true /\ 0 <= base < UTOP /\ base mod PGSIZE = 0.
Hypothesis Hf : Z.land f M_URW = M_URW.

Lemma page_store s va v :
  at_home s -> trans s d base = Some (p, f) -> base <= va < base + PGSIZE ->
  let m' := st8 (kmem s) (page_kva p + (va - base)) v in
  (exists a, uaddr va true s = Ret a s) /\ uwrite8 va v s = Ret tt (set_kmem m' s) /\ data_write s p m' /\ stored s l le k me ce d (set_kmem m' s).
Proof.
  intros H Ht Hva m'. destruct Hb as (Hu & Hl & Hr & H0).
  destruct (home_window s l le k me ce d H M_URW base p f Hr H0 Ht ltac:(unfold M_URW; lia) Hf) as (t & W & _).
  assert (data_write s p m') as D.
  { split; [apply st8_bytes, (ko_wf (pr_ok (hm_proc H)))|]. intros x Hx. unfold m', st8. case_bool; [lia|done]. }
  replace va with (base + (va - base)) by lia. split; [|split; [|split; [exact D|]]].
  - eexists. apply (window_uaddr M_URW s d t p base (va - base) true W eq_refl (fun _ => eq_refl)). lia.
  - apply (window_uwrite8 s d t p base (va - base) v W). lia.
  - exact (home_store s l le k me ce d H base p f m' Hu Hl Ht D).
Qed.

(** A list of stores; with the page writable, [pushes] does nothing else. *)
Lemma ustores_ok lo hi bs : base <= lo -> hi <= base + PGSIZE -> (forall b, b ∈ bs -> lo <= b.1 < hi) ->
  forall s, at_home s -> trans s d base = Some (p, f) ->
  exists m', ustores bs s = Ret tt (set_kmem m' s) /\ pushes bs s = Ret tt (set_kmem m' s) /\ data_write s p m' /\
    forall y, ~ page_kva p + (lo - base) <= y < page_kva p + (hi - base) -> m' y = kmem s y.
Proof.
  intros Hlo Hhi. induction bs as [|[va v] bs IH]; intros Hin s H Ht.
  { exists (kmem s). split; [by destruct s|]. split; [by destruct s|]. split; [split; [apply (ko_wf (pr_ok (hm_proc H)))|done]|done]. }
  destruct (page_store s va v H Ht) as ((a & Ha) & Hw & D & S); [specialize (Hin (va, v)); cbn in Hin; specialize (Hin ltac:(by left)); lia|].
  set (m1 := st8 _ _ _) in *. destruct Hb as (Hu & Hl & _).
  destruct (IH ltac:(intros b ?; apply Hin; by right) (set_kmem m1 s) (so_home _ _ _ _ _ _ _ _ S)) as (m2 & E1 & E2 & D2 & Hout).
  { rewrite (kept_trans s (set_kmem m1 s) d (so_kept _ _ _ _ _ _ _ _ S me d (hm_me H))) by by apply va_legal_user. exact Ht. }
  exists m2. cbn [ustores pushes]. unfold push_byte at 1. split; [by mstep Hw|]. split.
  - unfold kbind at 1. rewrite Ha, Hw. exact E2.
  - split; [by apply (data_write_trans s p m1 m2)|]. intros y Hy. rewrite (Hout y Hy). cbn [kmem set_kmem]. unfold m1, st8.
    specialize (Hin (va, v) ltac:(by left)). cbn in Hin. case_bool; [lia|done].
Qed.
End Page.

(** ** States that differ in one page *)

Record touched (q : Z) (s s' : kstate) : Prop := {
  to_home : at_home s';
  to_kept : forall t d', space s t = Some d' -> parts_kept s s' d';
  to_maps : forall i, maps s' i = maps s i;
  to_refs : forall i, refs s' i = refs s i;
  to_envs : envs s' = envs s;
  to_mem : forall x, x < page_kva q \/ page_kva q + PGSIZE <= x -> kmem s' x = kmem s x }.

Lemma touched_store q s m' : data_write s q m' -> stored s l le k me ce d (set_kmem m' s) -> touched q s (set_kmem m' s).
Proof. intros [_ D] [S1 S2 S3 S4]. by split. Qed.

Lemma touched_space q s s' t : touched q s s' -> space s' t = space s t.
Proof. intros T. apply space_ext. by rewrite (to_envs _ _ _ T). Qed.

Lemma touched_trans q s s1 s2 : touched q s s1 -> touched q s1 s2 -> touched q s s2.
Proof.
  intros T1 T2. pose proof (fun t => touched_space q s s1 t T1) as Hsp. destruct T1 as [A1 A2 A3 A4 A5 A6], T2 as [B1 B2 B3 B4 B5 B6]. split.
  - exact B1.
  - intros t d' Hs o Ho x Hx. rewrite (A2 t d' Hs o Ho x Hx). apply (B2 t d' ltac:(by rewrite Hsp) o); [|done].
    destruct Ho as [->|(i & Hi & Ht)]; [by left|]. right. exists i. split; [done|].
    by rewrite (kept_tbl s s1 d' (A2 t d' Hs)).
  - intros i. by rewrite B3.
  - intros i. by rewrite B4.
  - congruence.
  - intros x Hx. by rewrite B6, A6.
Qed.

Lemma touched_map q s s' t d' va :
  touched q s s' -> space s t = Some d' -> is_u32 va -> va_legal va = true -> trans s' d' va = trans s d' va.
Proof. intros T Hs Hv Hl. apply (kept_trans s s' d' (to_kept _ _ _ T t d' Hs)). by apply va_legal_user. Qed.

Lemma touched_tbl q s s' t d' i : touched q s s' -> space s t = Some d' -> 0 <= i < NPDENTRIES -> tbl s' d' i = tbl s d' i.
Proof. intros T Hs Hi. by apply (kept_tbl s s' d' (to_kept _ _ _ T t d' Hs)). Qed.

Lemma touched_page q s s' i : touched q s s' -> i <> q -> same_page s s' i.
Proof. intros T Hi y Hy. symmetry. apply (to_mem _ _ _ T). unfold page_kva, PGSIZE in *. lia. Qed.

(** ** Frames on a stack of one's own *)

Section Frames.
Context (lo hi : Z).
Hypothesis Hst : stack_in lo hi.

(** Only frames on page [p] have been written. *)
Record scribbled (p : Z) (s s' : kstate) : Prop := {
  sc_touched : touched p s s';
  sc_same : forall y, ~ in_frames lo hi p y -> kmem s' y = kmem s y }.

Lemma pushes_ok bs s p f :
  (forall b, b ∈ bs -> lo <= b.1 < hi) ->
  at_home s -> trans s d ustack = Some (p, f) -> Z.land f M_URW = M_URW -> exists s', pushes bs s = Ret tt s' /\ scribbled p s s'.
Proof.
  intros Hin H Ht Hf. destruct stack_pages as [Hu _]. destruct (st_range _ _ Hst) as [H1 H2].
  destruct (ustores_ok ustack p f Hu Hf lo hi bs H1 H2 Hin s H Ht) as (m' & _ & E & D & Hout).
  exists (set_kmem m' s). split; [exact E|]. split; [|exact Hout]. apply touched_store; [exact D|].
  destruct Hu as (Hu & Hl & _). exact (home_store s l le k me ce d H ustack p f m' Hu Hl Ht D).
Qed.

Lemma calls_ok fn s p f :
  at_home s -> trans s d ustack = Some (p, f) -> Z.land f M_URW = M_URW -> exists s', calls fn s = Ret tt s' /\ scribbled p s s'.
Proof.
  intros H Ht Hf. destruct (pushes_ok (call_frame fn s) s p f (st_frames _ _ Hst fn s) H Ht Hf) as (s' & E & S).
  exists s'. split; [|exact S]. unfold calls. rewrite bind_get. exact E.
Qed.

Lemma scribbled_trans p s s1 s2 : scribbled p s s1 -> scribbled p s1 s2 -> scribbled p s s2.
Proof. intros [A1 A2] [B1 B2]. split; [by apply (touched_trans p s s1)|]. intros y Hy. by rewrite B2, A2. Qed.

End Frames.

(** ** The kernel's part of a write fault *)

Lemma home_addr s a : at_home s -> at_home (set_user_mem_check_addr a s).
Proof.
  intros H. apply (home_ext s _ l l le le k me ce ce d H); [|reflexivity..].
  apply (process_quiet s); [apply (hm_proc H)|reflexivity..].
Qed.

Lemma touched_addr q s a : at_home s -> touched q s (set_user_mem_check_addr a s).
Proof. intros H. split; [by apply home_addr|intros t d' _ o _ x _|intros i|intros i| |intros x _]; reflexivity. Qed.

Lemma home_cur s : at_home s -> cur s = Ret me s /\ get_env me s = Ret ce s.
Proof. intros H. split; [apply (cur_eq s l le k me ce (hm_proc H))|apply get_env_eq, (pr_env (hm_proc H))]. Qed.

(** A range in a page of the process that it may write passes every check. *)
Lemma home_assert s p f va len perm :
  at_home s -> trans s d uxstack = Some (p, f) -> Z.land f M_URW = M_URW -> uxstack <= va -> 0 < len -> va + len <= uxstack + PGSIZE ->
  Z.land 7 perm = perm -> user_mem_assert me va len perm s = Ret tt (set_user_mem_check_addr (va + PGSIZE) s).
Proof.
  intros H Ht Hf H0 Hlen H1 Hp. destruct stack_pages as [_ (Hu & Hl & Hr & Hb)]. change M_URW with 7 in Hf.
  destruct (home_window s l le k me ce d H M_URW uxstack p f Hr Hb Ht ltac:(unfold M_URW; lia) Hf) as (t & W & Htb).
  pose proof (pr_ok (hm_proc H)) as K. destruct (ko_dir K (hm_me H)) as (x & Hx & Hd).
  assert (PDX va = PDX uxstack /\ PTX va = PTX uxstack /\ va mod PGSIZE = va - uxstack) as (Hvd & Hvx & Hm).
  { change uxstack with 0xEEBFF000 in *. unfold PGSIZE in *.
    rewrite !PDX_eq, !PTX_eq by (unfold is_u32; lia). split_and!; word_lia. }
  assert (user_mem_check me va len (Z.lor perm PTE_U) s = Ret 0 (set_user_mem_check_addr (va + PGSIZE) s)) as Hc.
  { apply (user_mem_check_page s l me va len (Z.lor perm PTE_U) d t x (ko_wf K) (ko_pd K (hm_me H)) (hm_self H) Hx Hd).
    - change ULIM with 0xEF800000. change uxstack with 0xEEBFF000 in *. unfold PGSIZE in *. lia.
    - exact Hlen.
    - lia.
    - by rewrite Hvd.
    - destruct (wi_pte _ _ _ _ _ _ W) as [W1 _]. unfold pte_addr in *. rewrite Hvx. apply (land_mask_sub _ 7); [exact W1|].
      rewrite !Z.land_lor_distr_r, Hp. done. }
  unfold user_mem_assert. by mstep Hc.
Qed.

Lemma exception_frame_top esp : esp <= USTACKTOP -> exception_frame esp = UXSTACKTOP - SIZEOF_UTRAPFRAME.
Proof.
  intros He. unfold exception_frame. rewrite (proj2 (Z.leb_gt _ esp)); [done|].
  change USTACKTOP with 0xEEBFE000 in He. change (UXSTACKTOP - PGSIZE) with 0xEEBFF000. lia.
Qed.

(** The record of the fault, at the top of the exception stack. *)
Definition utf_top : Z := UXSTACKTOP - SIZEOF_UTRAPFRAME.

Lemma home_push_utf s p f va t :
  at_home s -> trans s d uxstack = Some (p, f) -> Z.land f M_URW = M_URW ->
  let m' := store_words (kmem s) (page_kva p + (utf_top - uxstack)) (utf_words va t) in
  push_utf utf_top va t s = Ret tt (set_kmem m' s) /\ touched p s (set_kmem m' s).
Proof.
  intros H Ht Hf m'. destruct stack_pages as [_ (Hu & Hl & Hr & Hb)].
  destruct (home_window s l le k me ce d H M_RW uxstack p f Hr Hb Ht ltac:(unfold M_RW; lia) ltac:(by apply (land_mask_sub _ M_URW)))
    as (tb & W & Htb).
  destruct (home_data s l le k me ce d H uxstack p f Hu Hl Ht) as [Hpd Hpt].
  split.
  - rewrite push_utf_words by (by vm_compute). apply (vwrite_words_eq d tb p uxstack _ s _ va W Hpd); [|by vm_compute..].
    intros ->. by apply (Hpt _ (PDX_in _) (va_legal_user _ Hu Hl)).
  - assert (data_write s p m') as D.
    { split; [apply store_words_bytes, (ko_wf (pr_ok (hm_proc H)))|]. intros x Hx. apply store_words_out.
      rewrite length_utf_words. change (utf_top - uxstack) with (PGSIZE - 52). unfold SIZEOF_UTRAPFRAME, PGSIZE in *. lia. }
    apply touched_store; [exact D|]. exact (home_store s l le k me ce d H uxstack p f m' Hu Hl Ht D).
Qed.

End Process.

(** ** The whole fault *)

Section Fault.
Context {stabs : StabSections} {image : UserImage} {stack : StackUse}.
Context (lo hi : Z).
Hypothesis Hst : stack_in lo hi.
Context (s : kstate) (l le : list Z) (k me : Z) (ce : Env) (d p f px fx ph : Z).
Hypothesis H : home s l le k me ce d.
Hypothesis Hup : env_pgfault_upcall ce = pgfault_upcall /\ pgfault_upcall <> 0.
Hypothesis Hcow : trans s d ustack = Some (p, f) /\ Z.land f M_UR = M_UR /\ Z.land f PTE_COW <> 0 /\ has f PTE_W = false.
Hypothesis Hx : trans s d uxstack = Some (px, fx) /\ Z.land fx M_URW = M_URW.
Hypothesis Hh : word_va pgfault_handler_va /\ (exists fh, trans s d pgfault_handler_va = Some (ph, fh) /\ Z.land fh M_UR = M_UR) /\
  ld32 (kmem s) (at_page ph pgfault_handler_va) = u32 pgfault_code.
Hypothesis Hne : px <> p /\ px <> ph.
Hypothesis Htemp : trans s d PFTEMP = None.
Hypothesis Hlen : (2 <= length l)%nat.

(** The process runs on, with a private copy [pp] of its stack, on which nothing
    but frames differs from the old page; apart from the exception stack no page
    that was mapped has been written. *)
Record settled (s' : kstate) (l' : list Z) (pp : Z) : Prop := {
  se_home : home s' l' le k me ce d;
  se_new : pp <> p /\ maps s pp = 0 /\ refs s' pp = 1;
  se_here : forall va, is_u32 va -> va_legal va = true ->
    trans s' d va = if decide (va = ustack) then Some (pp, PTE_UPW) else trans s d va;
  se_other : forall t d' va, t <> me -> space s t = Some d' -> is_u32 va -> va_legal va = true -> trans s' d' va = trans s d' va;
  se_copy : forall o, 0 <= o < PGSIZE -> ~ lo - ustack <= o < hi - ustack -> kmem s' (page_kva pp + o) = kmem s (page_kva p + o);
  se_mem : forall q, 0 < maps s q -> q <> px -> same_page s s' q;
  se_maps : forall q, maps s' q = maps s q - b2z (p = q) + b2z (pp = q);
  se_table : is_Some (tbl s' d (PDX PFTEMP));
  se_len : Z.of_nat (length l) <= Z.of_nat (length l') + 1 + b2z (tbl s d (PDX PFTEMP) = None);
  se_uvpt : forall t d', space s t = Some d' ->
    ld32 (kmem s') (pde_addr d' (PDX UVPT)) = ld32 (kmem s) (pde_addr d' (PDX UVPT));
  se_envs : envs s' = envs s }.

(** The kernel records the fault on the exception stack and enters the upcall,
    whose own frames go below the record. *)
Lemma fault_recorded va :
  exists s1, write_fault va s = (let! h := uread32 pgfault_handler_va in
      (if h =? u32 pgfault_code then
         let! fault_va := uread32 utf_top in let! err := uread32 (utf_top + 4) in pgfault fault_va err
       else crash_with (WildAccess h)) ;;
      let! eip := uread32 (utf_top + 40) in
      let! esp := uread32 (utf_top + 48) in
      uwrite32 (u32 (esp - 4)) eip ;;
      uwrite32 (utf_top + 48) (u32 (esp - 4))) s1 /\
    touched l le k me ce d px s s1 /\
    exists r, lo + 4 <= tf_esp r <= hi /\ forall i w, utf_words va (write_fault_tf r) !! i = Some w ->
      ld32 (kmem s1) (page_kva px + (utf_top - uxstack) + 4 * Z.of_nat i) = u32 w.
Proof.
  destruct Hx as [Ht Hf]. destruct Hup as [Hu1 Hu2]. destruct stack_pages as [_ Hxb]. pose proof Hxb as (Hxu & Hxl & _).
  destruct (home_cur l le k me ce d s H) as [Hc He]. pose proof (hm_me H) as Hme.
  pose proof (home_assert l le k me ce d s px fx (UXSTACKTOP - 4) 4 0 H Ht Hf ltac:(by vm_compute) ltac:(done) ltac:(by vm_compute) eq_refl) as A1.
  set (sa := set_user_mem_check_addr _ s) in A1.
  pose proof (touched_addr l le k me ce d px s (UXSTACKTOP - 4 + PGSIZE) H) as Ta. fold sa in Ta.
  assert (trans sa d uxstack = Some (px, fx)) as Ht1 by exact Ht.
  set (r := fault_regs sa). set (tf := write_fault_tf r).
  assert (lo + 4 <= tf_esp r <= hi) as Hesp by apply (st_esp _ _ Hst).
  assert (exception_frame (tf_esp tf) = utf_top) as Hfr.
  { apply exception_frame_top. change (tf_esp tf) with (tf_esp r). destruct (st_range _ _ Hst) as [_ S2].
    change (ustack + PGSIZE) with USTACKTOP in S2. lia. }
  destruct (home_push_utf l le k me ce d sa px fx va tf (to_home _ _ _ _ _ _ _ _ _ Ta) Ht1 Hf) as [P Tb].
  set (sb := set_kmem _ sa) in P, Tb.
  assert (trans sb d uxstack = Some (px, fx)) as Ht2 by (by rewrite (touched_map l le k me ce d px sa sb me d uxstack Tb Hme Hxu Hxl)).
  pose proof (home_assert l le k me ce d sb px fx utf_top SIZEOF_UTRAPFRAME 7 (to_home _ _ _ _ _ _ _ _ _ Tb) Ht2 Hf
    ltac:(by vm_compute) ltac:(done) ltac:(by vm_compute) eq_refl) as A3.
  set (sc := set_user_mem_check_addr _ sb) in A3.
  pose proof (touched_addr l le k me ce d px sb (utf_top + PGSIZE) (to_home _ _ _ _ _ _ _ _ _ Tb)) as Tc. fold sc in Tc.
  destruct (ustores_ok l le k me ce d uxstack px fx Hxb Hf uxstack utf_top (handler_frame sc) ltac:(done) ltac:(by vm_compute)
    (st_handler _ _ Hst sc) sc (to_home _ _ _ _ _ _ _ _ _ Tc) Ht2) as (m' & U & _ & D & Hout).
  pose proof (home_store sc l le k me ce d (to_home _ _ _ _ _ _ _ _ _ Tc) uxstack px fx m' Hxu Hxl Ht2 D) as S.
  pose proof (touched_store l le k me ce d px sc m' D S) as Td. set (sd := set_kmem m' sc) in *.
  exists sd. split; [|split].
  - unfold write_fault. mstep Hc. mstep He. rewrite Hu1, (proj2 (Z.eqb_neq _ _) Hu2), Z.eqb_refl. cbn [orb negb].
    mstep A1. rewrite bind_get. fold r tf. rewrite Hfr. mstep P. mstep A3. unfold upcall_entry. rewrite bind_get. by mstep U.
  - apply (touched_trans l le k me ce d px s sa); [exact Ta|]. apply (touched_trans l le k me ce d px sa sb); [exact Tb|].
    by apply (touched_trans l le k me ce d px sb sc).
  - exists r. split; [exact Hesp|]. intros i w Hw. fold tf in Hw. rewrite <- (ld32_store_words (kmem sa) (page_kva px + (utf_top - uxstack)) _ i w Hw).
    apply ld32_ext. intros x Hxr. change (kmem sd) with m'. rewrite Hout; [done|].
    change (utf_top - uxstack) with 4044 in *. lia.
Qed.
(** Words of the two stacks. *)
Lemma stack_word base q x :
  base = ustack \/ base = uxstack -> base <= x -> x + 4 <= base + PGSIZE ->
  word_va x /\ is_u32 x /\ PDX x = PDX base /\ PTX x = PTX base /\ PGNUM x = PGNUM base /\ at_page q x = page_kva q + (x - base).
Proof.
  intros Hb H1 H2. assert (is_u32 base /\ base mod 4096 = 0 /\ 0 <= base < 0xEEBFF001) as (Hu & H0 & Hr)
    by (destruct Hb as [-> | ->]; (split; [split; [by vm_compute|done]|split; [done|by vm_compute]])).
  unfold PGSIZE in H2. unfold word_va, at_page, PGSIZE. change UTOP with 0xEEC00000.
  assert (is_u32 x) as Hux by (unfold is_u32; lia). assert (x mod 4096 = x - base) as Hm by (clear - H0 H1 H2; word_lia).
  split; [split; lia|]. split; [exact Hux|]. rewrite !PDX_eq, !PTX_eq, !PGNUM_eq by done.
  assert (x / 4096 = base / 4096) as Hd by (clear - H0 H1 H2; word_lia).
  split; [|split; [by rewrite Hd|split; [done|lia]]]. clear - H0 H1 H2. word_lia.
Qed.

(** A word of a stack's page is read and written in that page. *)
Lemma stack_read s1 l1 base q g x :
  home s1 l1 le k me ce d -> base = ustack \/ base = uxstack -> trans s1 d base = Some (q, g) -> Z.land g M_URW = M_URW ->
  base <= x -> x + 4 <= base + PGSIZE -> uread32 x s1 = Ret (ld32 (kmem s1) (page_kva q + (x - base))) s1.
Proof.
  intros H1 Hb Ht Hg Hx1 Hx2. destruct (stack_word base q x Hb Hx1 Hx2) as (W & _ & Hd & Hp & _ & <-).
  apply (home_uread32 s1 l1 le k me ce d H1 x q g W); [by rewrite (trans_page s1 d x base Hd Hp)|by apply (land_mask_sub _ M_URW)].
Qed.

Lemma stack_write s1 l1 base q g x v :
  home s1 l1 le k me ce d -> base = ustack \/ base = uxstack -> trans s1 d base = Some (q, g) -> Z.land g M_URW = M_URW ->
  base <= x -> x + 4 <= base + PGSIZE ->
  exists s2, uwrite32 x v s1 = Ret tt s2 /\ touched l1 le k me ce d q s1 s2 /\
    forall y, y < page_kva q + (x - base) \/ page_kva q + (x - base) + 4 <= y -> kmem s2 y = kmem s1 y.
Proof.
  intros H1 Hb Ht Hg Hx1 Hx2. destruct (stack_word base q x Hb Hx1 Hx2) as (W & _ & Hd & Hp & _ & Ha).
  exists (set_kmem (st32 (kmem s1) (at_page q x) v) s1). split; [|split].
  - apply (home_uwrite32 s1 l1 le k me ce d H1 x q g v W); [by rewrite (trans_page s1 d x base Hd Hp)|exact Hg].
  - pose proof (st32_data_write s1 q x v (ko_wf (pr_ok (hm_proc H1))) W) as D. apply touched_store; [exact D|].
    destruct stack_pages as [(U1 & U2 & _) (X1 & X2 & _)].
    by destruct Hb as [-> | ->]; [apply (home_store s1 l1 le k me ce d H1 ustack q g)|apply (home_store s1 l1 le k me ce d H1 uxstack q g)].
  - intros y Hy. cbn [kmem set_kmem]. apply st32_out. rewrite Ha. exact Hy.
Qed.

(** The handler makes the copy. *)
Lemma fault_handled va s1 :
  lo <= va < hi -> touched l le k me ce d px s s1 ->
  exists s2 l2 pp, pgfault va 7 s1 = Ret tt s2 /\ resolved s1 l le k me ce d va p s2 l2 pp /\ ROUNDDOWN va PGSIZE = ustack.
Proof.
  intros Hva T. destruct stack_pages as [(Hsu & Hsl & Hsr & Hs0) _]. destruct Hcow as (Ht & Hf & Hc & _).
  destruct (st_range _ _ Hst) as [S1 S2]. pose proof (hm_me H) as Hme. destruct pftemp_legal as (P1 & P2 & P3).
  assert (0 <= va < UTOP /\ is_u32 va /\ PDX va = PDX ustack /\ PTX va = PTX ustack /\ PGNUM va = PGNUM ustack /\ ROUNDDOWN va PGSIZE = ustack)
    as (V1 & V2 & V3 & V4 & V5 & V6).
  { clear - Hva S1 S2. change ustack with 0xEEBFD000 in *. change UTOP with 0xEEC00000. unfold PGSIZE in S2.
    assert (is_u32 va) as Hu by (unfold is_u32; lia). rewrite ROUNDDOWN_eq by (done || (unfold PGSIZE; lia)).
    rewrite !PDX_eq, !PTX_eq, !PGNUM_eq by (done || (unfold is_u32; lia)). unfold PGSIZE. split_and!; word_lia. }
  assert (cow_page s1 l le k me ce d va p f) as C.
  { split; [apply T|split; [exact V1|rewrite V5; by vm_compute]| |done|].
    - rewrite (trans_page s1 d va ustack V3 V4). by rewrite (touched_map l le k me ce d px s s1 me d ustack T).
    - by rewrite (touched_map l le k me ce d px s s1 me d PFTEMP T). }
  destruct (pgfault_spec s1 l le k me ce d va p f C 7 Hlen ltac:(by vm_compute)) as (s2 & l2 & pp & E & R).
  by exists s2, l2, pp.
Qed.

Section Settle.
Context (va : Z) (s1 s2 s3 s4 : kstate) (l2 : list Z) (pp : Z).
Hypothesis T1 : touched l le k me ce d px s s1.
Hypothesis R : resolved s1 l le k me ce d va p s2 l2 pp.
Hypothesis Hbase : ROUNDDOWN va PGSIZE = ustack.
Hypothesis T3 : touched l2 le k me ce d pp s2 s3.
Hypothesis M3 : forall y, ~ in_frames lo hi pp y -> kmem s3 y = kmem s2 y.
Hypothesis T4 : touched l2 le k me ce d px s3 s4.

(** The four steps together. *)
Lemma settled_steps : settled s4 l2 pp.
Proof.
  destruct R as [R1 (R2 & R2' & R2'') R3 R4 R5 R6 R7 R8 R9 R10 R11 R12]. rewrite Hbase in R3.
  pose proof (hm_me H) as Hme. pose proof (pr_ok (hm_proc H)) as K. destruct Hx as [Htx _]. destruct Hcow as (Ht & _).
  destruct stack_pages as [(Hsu & Hsl & _) (Hxu & Hxl & _)].
  assert (0 < maps s p /\ 0 < maps s px) as [Mp Mx]
    by (split; [apply (mapped_maps s me d ustack p f)|apply (mapped_maps s me d uxstack px fx)]; done || apply (ko_envs K)).
  assert (px <> pp) as Nx by (intros ->; rewrite (to_maps _ _ _ _ _ _ _ _ _ T1) in R2'; lia).
  assert (forall t, space s1 t = space s t /\ space s2 t = space s t /\ space s3 t = space s t) as Sp.
  { intros t. split_and!; apply space_ext; rewrite ?(to_envs _ _ _ _ _ _ _ _ _ T3), ?R12; by rewrite (to_envs _ _ _ _ _ _ _ _ _ T1). }
  assert (forall t d' va', space s t = Some d' -> is_u32 va' -> va_legal va' = true -> trans s4 d' va' = trans s2 d' va') as Tm.
  { intros t d' va' Hs Hv Hl. rewrite (touched_map l2 le k me ce d px s3 s4 t d' va' T4) by (by rewrite ?(proj2 (proj2 (Sp t)))).
    by rewrite (touched_map l2 le k me ce d pp s2 s3 t d' va' T3) by (by rewrite ?(proj1 (proj2 (Sp t)))). }
  assert (forall t d' va', space s t = Some d' -> is_u32 va' -> va_legal va' = true -> trans s1 d' va' = trans s d' va') as Tm1
    by (intros t d' va' Hs Hv Hl; by apply (touched_map l le k me ce d px s s1 t d')).
  split.
  - apply T4.
  - split; [exact R2|]. split; [by rewrite <- (to_maps _ _ _ _ _ _ _ _ _ T1)|].
    by rewrite (to_refs _ _ _ _ _ _ _ _ _ T4), (to_refs _ _ _ _ _ _ _ _ _ T3).
  - intros va' Hv Hl. rewrite (Tm me), R3 by done. case_decide; [done|]. by apply (Tm1 me).
  - intros t d' va' Hn Hs Hv Hl. rewrite (Tm t), (R4 t) by (done || by rewrite (proj1 (Sp t))). by apply (Tm1 t).
  - intros o Ho Hout. rewrite (to_mem _ _ _ _ _ _ _ _ _ T4) by (unfold page_kva, PGSIZE in *; lia).
    rewrite M3 by (unfold in_frames; lia). rewrite R5 by done.
    apply (to_mem _ _ _ _ _ _ _ _ _ T1). destruct Hne. unfold page_kva, PGSIZE in *. lia.
  - intros q Hq Hqx y Hy. assert (q <> pp) as Hqp by (intros ->; rewrite (to_maps _ _ _ _ _ _ _ _ _ T1) in R2'; lia).
    rewrite (touched_page l le k me ce d px s s1 q T1 Hqx y Hy).
    rewrite (R6 q ltac:(by rewrite (to_maps _ _ _ _ _ _ _ _ _ T1)) y Hy).
    rewrite (touched_page l2 le k me ce d pp s2 s3 q T3 Hqp y Hy). by apply (touched_page l2 le k me ce d px s3 s4 q T4 Hqx).
  - intros q. by rewrite (to_maps _ _ _ _ _ _ _ _ _ T4), (to_maps _ _ _ _ _ _ _ _ _ T3), R8, (to_maps _ _ _ _ _ _ _ _ _ T1).
  - rewrite (touched_tbl l2 le k me ce d px s3 s4 me d (PDX PFTEMP) T4), (touched_tbl l2 le k me ce d pp s2 s3 me d (PDX PFTEMP) T3)
      by (by rewrite ?(proj1 (proj2 (Sp me))), ?(proj2 (proj2 (Sp me))) || apply PDX_in). exact R9.
  - by rewrite <- (touched_tbl l le k me ce d px s s1 me d (PDX PFTEMP) T1 Hme (PDX_in _)).
  - intros t d' Hs. assert (forall a b, parts_kept a b d' -> ld32 (kmem b) (pde_addr d' (PDX UVPT)) = ld32 (kmem a) (pde_addr d' (PDX UVPT))) as Hw
      by (intros a b Hk; apply page_word; [apply Hk; by left|apply PDX_in]).
    rewrite (Hw s3 s4), (Hw s2 s3), (R11 t d'), (Hw s s1); [done|..].
    + by apply (to_kept _ _ _ _ _ _ _ _ _ T1 t).
    + by rewrite (proj1 (Sp t)).
    + apply (to_kept _ _ _ _ _ _ _ _ _ T3 t). by rewrite (proj1 (proj2 (Sp t))).
    + apply (to_kept _ _ _ _ _ _ _ _ _ T4 t). by rewrite (proj2 (proj2 (Sp t))).
  - by rewrite (to_envs _ _ _ _ _ _ _ _ _ T4), (to_envs _ _ _ _ _ _ _ _ _ T3), R12, (to_envs _ _ _ _ _ _ _ _ _ T1).
Qed.
End Settle.

(** A write fault on the stack returns, and the store can be tried again. *)
Lemma fault_settles va : lo <= va < hi -> exists s' l' pp, write_fault va s = Ret tt s' /\ settled s' l' pp.
Proof.
  intros Hva. destruct (fault_recorded va) as (s1 & -> & T1 & r & Hesp & Hw). destruct (fault_handled va s1 Hva T1) as (s2 & l2 & pp & E2 & R & Hb).
  destruct stack_pages as [(Hsu & Hsl & _) (Hxu & Hxl & _)]. destruct Hx as [Htx Hfx]. destruct Hh as (Wh & (fh & Hth & Hfh) & Hcode).
  pose proof (hm_me H) as Hme. pose proof (pr_ok (hm_proc H)) as K. destruct (st_range _ _ Hst) as [S1 S2].
  pose proof (to_home _ _ _ _ _ _ _ _ _ T1) as H1. pose proof (re_home _ _ _ _ _ _ _ _ _ _ _ _ R) as H2.
  pose proof (re_here _ _ _ _ _ _ _ _ _ _ _ _ R) as R3. rewrite Hb in R3.
  assert (0 < maps s1 px) as Mx by (rewrite (to_maps _ _ _ _ _ _ _ _ _ T1); by apply (mapped_maps s me d uxstack px fx (ko_envs K))).
  assert (trans s1 d uxstack = Some (px, fx)) as Ht1 by (by rewrite (touched_map l le k me ce d px s s1 me d uxstack T1)).
  assert (trans s2 d uxstack = Some (px, fx) /\ trans s2 d ustack = Some (pp, 7)) as [Ht2 Ht2']
    by (rewrite !R3 by done; by rewrite decide_False, decide_True).
  assert (uread32 pgfault_handler_va s1 = Ret (u32 pgfault_code) s1) as Q0.
  { destruct Hne as [_ N2]. rewrite <- Hcode, <- (word_kept s s1 ph pgfault_handler_va (touched_page l le k me ce d px s s1 ph T1 (not_eq_sym N2)) Wh).
    apply (home_uread32 s1 l le k me ce d H1 _ ph fh Wh); [|exact Hfh]. apply (word_trans s s1 d _ ph fh Wh Hth).
    intros b Hbu Hbl Hbt. by rewrite (touched_map l le k me ce d px s s1 me d b T1). }
  assert (forall i w, utf_words va (write_fault_tf r) !! i = Some w -> (i < 13)%nat ->
    uread32 (utf_top + 4 * Z.of_nat i) s1 = Ret (u32 w) s1 /\ uread32 (utf_top + 4 * Z.of_nat i) s2 = Ret (u32 w) s2) as Q.
  { intros i w Hi Hlt. assert (uxstack <= utf_top + 4 * Z.of_nat i /\ utf_top + 4 * Z.of_nat i + 4 <= uxstack + PGSIZE) as [X1 X2].
    { change utf_top with 0xEEBFFFCC. change uxstack with 0xEEBFF000. unfold PGSIZE. lia. }
    rewrite (stack_read s1 l uxstack px fx _ H1 (or_intror eq_refl) Ht1 Hfx X1 X2).
    rewrite (stack_read s2 l2 uxstack px fx _ H2 (or_intror eq_refl) Ht2 Hfx X1 X2). pose proof (Hw i w Hi) as E.
    replace (page_kva px + (utf_top + 4 * Z.of_nat i - uxstack)) with (page_kva px + (utf_top - uxstack) + 4 * Z.of_nat i) by lia.
    split; [by rewrite E|]. rewrite <- E. f_equal. apply ld32_ext. intros y Hy. symmetry.
    apply (re_mem _ _ _ _ _ _ _ _ _ _ _ _ R px Mx). unfold PGSIZE in *. lia. }
  assert (is_u32 va /\ is_u32 (tf_esp r) /\ 4 <= tf_esp r) as (Uva & Uesp & L4).
  { change ustack with 0xEEBFD000 in *. unfold is_u32, PGSIZE in *. lia. }
  destruct (Q 0%nat va eq_refl ltac:(lia)) as [Q1 _]. destruct (Q 1%nat 7 eq_refl ltac:(lia)) as [Q2 _].
  destruct (Q 10%nat (tf_eip r) eq_refl ltac:(lia)) as [_ Q3]. destruct (Q 12%nat (tf_esp r) eq_refl ltac:(lia)) as [_ Q4].
  rewrite (u32_id va Uva) in Q1. rewrite (u32_id (tf_esp r) Uesp) in Q4.
  destruct (stack_write s2 l2 ustack pp 7 (tf_esp r - 4) (u32 (tf_eip r)) H2 (or_introl eq_refl) Ht2' eq_refl ltac:(lia) ltac:(lia))
    as (s3 & E3 & T3 & M3).
  assert (trans s3 d uxstack = Some (px, fx)) as Ht3.
  { rewrite (touched_map l2 le k me ce d pp s2 s3 me d uxstack T3); [exact Ht2|exact (hm_me H2)|done|done]. }
  destruct (stack_write s3 l2 uxstack px fx (utf_top + 48) (tf_esp r - 4) (to_home _ _ _ _ _ _ _ _ _ T3) (or_intror eq_refl) Ht3 Hfx
    ltac:(by vm_compute) ltac:(by vm_compute)) as (s4 & E4 & T4 & _).
  exists s4, l2, pp. split.
  - mstep Q0. rewrite Z.eqb_refl. rewrite !bind_assoc. change (utf_top + 4 * Z.of_nat 0) with utf_top in Q1. mstep Q1.
    rewrite bind_assoc. change (utf_top + 4 * Z.of_nat 1) with (utf_top + 4) in Q2. mstep Q2. mstep E2.
    change (utf_top + 4 * Z.of_nat 10) with (utf_top + 40) in Q3. mstep Q3.
    change (utf_top + 4 * Z.of_nat 12) with (utf_top + 48) in Q4. mstep Q4.
    rewrite u32_id by (unfold is_u32 in *; lia). mstep E3. exact E4.
  - apply (settled_steps va s1 s2 s3 s4 l2 pp T1 R Hb T3); [|exact T4]. intros y Hy. apply M3. unfold in_frames in Hy. lia.
Qed.

(** ** The call that meets the fault *)

Lemma write_refused va : lo <= va < hi -> exists x, uaddr va true s = Crash x s.
Proof.
  intros Hva. destruct stack_pages as [(Hsu & Hsl & Hsr & Hs0) _]. destruct Hcow as (Ht & Hf & _ & Hw). destruct (st_range _ _ Hst) as [S1 S2].
  destruct (home_window s l le k me ce d H M_UR ustack p f Hsr Hs0 Ht ltac:(unfold M_UR; lia) Hf) as (t & W & Htb).
  destruct (window_entries M_UR s d t p ustack (va - ustack) W ltac:(lia)) as (_ & _ & Hpte).
  replace (ustack + (va - ustack)) with va in Hpte by lia.
  assert (has (mmu_pte s (cr3 s) va) PTE_W = false) as Hn.
  { rewrite Hpte. unfold trans in Ht. rewrite Htb in Ht. unfold entry in Ht. destruct (has _ PTE_P); [|done]. injection Ht as _ E.
    rewrite <- E in Hw. change PGSIZE with (2 ^ 12) in Hw. change PTE_W with (2 ^ 1) in *. by rewrite has_low in Hw. }
  unfold uaddr, vaddr, translate. rewrite (proj2 (Z.leb_gt KERNBASE va)).
  - rewrite Hn. cbn [negb orb]. rewrite !andb_false_r. exists (WildAccess va). by destruct (_ && has (mmu_pte s (cr3 s) va) PTE_U).
  - change ustack with 0xEEBFD000 in *. unfold KERNBASE, PGSIZE in *. lia.
Qed.

(** Frames on the private copy. *)
Lemma settled_scribbled s1 s2 l1 pp :
  settled s1 l1 pp -> scribbled l1 le k me ce d lo hi pp s1 s2 -> settled s2 l1 pp.
Proof.
  intros [R1 (R2 & R2' & R2'') R3 R4 R5 R6 R7 R8 R9 R10 R11] [T M]. pose proof (hm_me H) as Hme.
  assert (forall t, space s1 t = space s t) as Sp by (intros t; apply space_ext; by rewrite R11).
  split.
  - apply T.
  - by rewrite (to_refs _ _ _ _ _ _ _ _ _ T).
  - intros va Hv Hl. rewrite (touched_map l1 le k me ce d pp s1 s2 me d va T) by (done || by rewrite Sp). by apply R3.
  - intros t d' va Hn Hs Hv Hl. rewrite (touched_map l1 le k me ce d pp s1 s2 t d' va T) by (done || by rewrite Sp). by apply (R4 t).
  - intros o Ho Hout. rewrite M by (unfold in_frames; lia). by apply R5.
  - intros q Hq Hqx y Hy. rewrite (R6 q Hq Hqx y Hy). apply (touched_page l1 le k me ce d pp s1 s2 q T); [|done]. intros ->. lia.
  - intros q. by rewrite (to_maps _ _ _ _ _ _ _ _ _ T).
  - by rewrite (touched_tbl l1 le k me ce d pp s1 s2 me d _ T) by (by rewrite Sp || apply PDX_in).
  - exact R9.
  - intros t d' Hs. rewrite <- (R10 t d' Hs). apply page_word; [|apply PDX_in].
    apply (to_kept _ _ _ _ _ _ _ _ _ T t d'); [by rewrite Sp|by left].
  - by rewrite (to_envs _ _ _ _ _ _ _ _ _ T).
Qed.

(** The first store of the call faults; the others go to the copy. *)
Lemma calls_settle : exists s' l' pp, calls "sys_page_alloc" s = Ret tt s' /\ settled s' l' pp.
Proof.
  unfold calls. rewrite bind_get. pose proof (st_tail _ _ Hst s) as Hn. pose proof (st_frames _ _ Hst "sys_page_alloc" s) as Hin.
  destruct (call_frame "sys_page_alloc" s) as [|[va v] bs]; [done|].
  assert (lo <= va < hi) as Hva by exact (Hin (va, v) ltac:(by left)). destruct stack_pages as [Hu _]. destruct (st_range _ _ Hst) as [S1 S2].
  destruct (write_refused va Hva) as (x & Hx'). destruct (fault_settles va Hva) as (s1 & l1 & pp & E1 & S).
  assert (trans s1 d ustack = Some (pp, 7)) as Ht1 by (destruct Hu as (Hu & Hl & _); by rewrite (se_here _ _ _ S), decide_True).
  destruct (pushes_ok l1 le k me ce d lo hi Hst [(va, v)] s1 pp 7 ltac:(intros b Hb; apply list_elem_of_singleton in Hb as ->; done) (se_home _ _ _ S) Ht1 eq_refl) as (s2 & E2 & T2).
  assert (trans s2 d ustack = Some (pp, 7)) as Ht2.
  { destruct Hu as (Hu & Hl & _). rewrite <- Ht1. apply (touched_map l1 le k me ce d pp s1 s2 me d); [apply T2|apply (hm_me (se_home _ _ _ S))|done|done]. }
  destruct (pushes_ok l1 le k me ce d lo hi Hst bs s2 pp 7 ltac:(intros b Hb; apply Hin; by right) (to_home _ _ _ _ _ _ _ _ _ (sc_touched _ _ _ _ _ _ _ _ _ _ _ T2)) Ht2 eq_refl)
    as (s3 & E3 & T3).
  exists s3, l1, pp. split.
  - destruct (page_store l1 le k me ce d ustack pp 7 Hu eq_refl s1 va v (se_home _ _ _ S) Ht1 ltac:(lia)) as ((a & Ha) & Hw & _).
    cbn [pushes] in E2 |- *. unfold push_byte in E2 |- *.
    unfold kbind at 1. rewrite Hx'. unfold kbind at 1 in E2. rewrite Ha, Hw in E2. injection E2 as E2.
    mstep E1. rewrite Hw. rewrite E2. exact E3.
  - apply (settled_scribbled s1 s3 l1 pp S). by apply (scribbled_trans l1 le k me ce d lo hi pp s1 s2).
Qed.
End Fault.
