(* ===== verification/Fork.v ===== *)
(** * fork: copy-on-write duplication of an address space

    The loops of fork (src/lib/fork.c) that walk the process's own page tables
    through the window at UVPT and call duppage for every page, against an
    abstract description of what the child and the parent see afterwards. *)
From S2P Require Import Prelude Machine Mmu KState PageAlloc PageTable Vmem Kdebug Env Sched Syscall Isolation Reclaim Protection UserLib UserCalls Cow Stack.

Local Open Scope Z_scope.

(** ** What fork promises *)

(** The permissions of a page that duppage has mapped. *)
Definition dup_perm (f : Z) : Z :=
  if has f PTE_W || has f PTE_COW then Z.lor (Z.lor PTE_U PTE_P) PTE_COW else Z.lor PTE_U PTE_P.

(** A mapping of the parent, as the child and the parent see it afterwards. *)
Definition child_view (m : option (Z * Z)) : option (Z * Z) :=
  match m with Some (p, f) => Some (p, dup_perm f) | None => None end.
Definition parent_view (m : option (Z * Z)) : option (Z * Z) :=
  match m with Some (p, f) => Some (p, if has (dup_perm f) PTE_COW then dup_perm f else f) | None => None end.

(** The pages fork copies: from the program's text to the exception stack. *)
Definition fork_lo : Z := PGNUM UTEXT.
Definition fork_hi : Z := PGNUM (UXSTACKTOP - PGSIZE).

(** The number of page tables a directory has below UTOP. *)
Definition tables (s : kstate) (d : Z) : Z := zsum (PDX UTOP) (fun i => b2z (is_Some (tbl s d i))).

(** Environment [me] runs at home in directory [d]; [cid] is the id of its child
    [e] with directory [dc]. *)
Record forking (s : kstate) (l le : list Z) (k me : Z) (ce : Env) (d cid e dc : Z) : Prop := {
  fk_home :> home s l le k me ce d;
  fk_child : space s e = Some dc /\ e <> me;
  fk_cid : 0 < cid < 2 ^ 31 /\ ENVX cid = e;
  fk_rec : exists x, envs s !! e = Some x /\ env_id x = cid /\ env_parent_id x = env_id ce /\ env_status x <> ENV_FREE;
  fk_cself : self_mapped s dc }.

Arguments fk_home {_ _ _ _ _ _ _ _ _ _} _.
Arguments fk_child {_ _ _ _ _ _ _ _ _ _} _.
Arguments fk_cid {_ _ _ _ _ _ _ _ _ _} _.
Arguments fk_rec {_ _ _ _ _ _ _ _ _ _} _.
Arguments fk_cself {_ _ _ _ _ _ _ _ _ _} _.

(** * Properties *)

(** ** Parent and child *)

Section Forking.
Context (le : list Z) (k me : Z) (ce : Env) (d cid e dc : Z).
#[local] Abbreviation kin s l := (forking s l le k me ce d cid e dc).

Lemma fork_resolve s l : kin s l -> resolve s me ce cid = Some e.
Proof.
  intros F. destruct (fk_rec F) as (x & Hx & Hid & Hp & Hu). destruct (fk_cid F) as [Hc He].
  unfold resolve. rewrite (proj2 (Z.eqb_neq _ _)) by lia. rewrite He, Hx. cbn [mbind option_bind].
  rewrite bool_decide_false, Hid, Z.eqb_refl by done. cbn [negb andb].
  by rewrite (proj2 (Z.eqb_neq _ _) (proj2 (fk_child F))), Hp, Z.eqb_refl.
Qed.

(** Changing a mapping of either keeps the two. *)
Lemma forking_moved s s' l l' t dt va m :
  kin s l -> moved s s' l' le k me ce t dt va m -> kin s' l'.
Proof.
  intros [F1 F2 F3 F4 F5] M. pose proof (mv_envs M) as He.
  split; [by apply (home_moved s s' l l' le k me ce d t dt va m)| |done|by rewrite He|].
  - rewrite (space_ext s s' e) by (by rewrite He). done.
  - unfold self_mapped, tbl in *. by rewrite (mv_uvpt M (proj1 F2)).
Qed.

(** So does writing to one page. *)
Lemma forking_touched s s' l q : kin s l -> touched l le k me ce d q s s' -> kin s' l.
Proof.
  intros [F1 F2 F3 F4 F5] T. split; [apply T| |done|by rewrite (to_envs _ _ _ _ _ _ _ _ _ T)|].
  - by rewrite (touched_space l le k me ce d q s s').
  - unfold self_mapped. rewrite (touched_tbl l le k me ce d q s s' e dc _ T (proj1 F2)) by apply PDX_in. exact F5.
Qed.
End Forking.

Lemma dup_perm_ok f :
  perm_legal (dup_perm f) = true /\ has (dup_perm f) PTE_W = false /\ Z.lor PTE_P (dup_perm f) = dup_perm f.
Proof. unfold dup_perm. by destruct (has f PTE_W || has f PTE_COW). Qed.

(** The test that duppage makes of the whole entry sees only its flags. *)
Lemma dup_perm_entry w p f :
  entry w = Some (p, f) -> (has w PTE_W || has w PTE_COW) = (has f PTE_W || has f PTE_COW) /\ has w PTE_P = true.
Proof.
  unfold entry. destruct (has w PTE_P); [|done]. intros [= _ <-]. change PGSIZE with (2 ^ 12).
  change PTE_W with (2 ^ 1). change PTE_COW with (2 ^ 11). by rewrite !has_low.
Qed.

Section Duppage.
Context {stabs : StabSections} (le : list Z) (k me : Z) (ce : Env) (d cid e dc : Z).
#[local] Abbreviation kin s l := (forking s l le k me ce d cid e dc).

(** What duppage leaves of the page at entry [j] of table [i], mapped to [p]. *)
Record dupped (s s' : kstate) (l l' : list Z) (i j p f : Z) : Prop := {
  du_kin : kin s' l';
  du_child : forall va, is_u32 va -> va_legal va = true ->
    trans s' dc va = if decide (va = uva i j) then child_view (Some (p, f)) else trans s dc va;
  du_own : forall va, is_u32 va -> va_legal va = true ->
    trans s' d va = if decide (va = uva i j) then parent_view (Some (p, f)) else trans s d va;
  du_mem : forall q, 0 < maps s q -> same_page s s' q;
  du_maps : forall q, maps s' q = maps s q + b2z (q = p);
  du_tbl : forall x, uslot x -> tbl s' d x = tbl s d x;
  du_ctbl : forall x, uslot x -> x <> i -> tbl s' dc x = tbl s dc x;
  du_here : is_Some (tbl s' dc i);
  du_len : Z.of_nat (length l) <= Z.of_nat (length l') + b2z (tbl s dc i = None);
  du_envs : envs s' = envs s }.

Section Calls.
Context (s : kstate) (l : list Z) (i j p f : Z).
Hypothesis F : kin s l.
Hypothesis Hi : uslot i.
Hypothesis Hj : 0 <= j < NPTENTRIES.
Hypothesis Ht : trans s d (uva i j) = Some (p, f).
Hypothesis Hc : trans s dc (uva i j) = None.
Hypothesis Hr : refs s p < 65534.
Hypothesis Hroom : l <> [] \/ tbl s dc i <> None.
Let P := hm_proc F.
Let K := pr_ok P.
Let va := uva i j.

Lemma own_table : is_Some (tbl s d i).
Proof.
  destruct (uva_parts i j Hi Hj) as (_ & Hd & _). destruct (trans_slot s d (uva i j) p f (ko_wf K) Ht) as (t & Htb & _).
  exists t. by rewrite <- Hd.
Qed.

(** The first call maps the page for the child. *)
Lemma dup_first :
  exists s1 l1, u_page_map (env_id ce) va cid va (dup_perm f) s = Ret 0 s1 /\
    moved s s1 l1 le k me ce e dc va (child_view (Some (p, f))) /\
    Z.of_nat (length l) <= Z.of_nat (length l1) + b2z (tbl s dc i = None) /\
    (forall q, maps s1 q = maps s q + b2z (q = p)) /\ refs s1 p < 65535.
Proof.
  destruct (uva_parts i j Hi Hj) as (Hu & Hd & _ & Hl). fold va in Hu, Hd, Hl.
  pose proof (hm_me F) as F2. pose proof (hm_id F) as [F3 _]. pose proof (fk_child F) as [F4 F4'].
  pose proof (fk_cid F) as [F5 _]. destruct (dup_perm_ok f) as (D1 & D2 & D3).
  destruct (u_page_map_spec s l le k me ce P (env_id ce) me d va cid e dc va (dup_perm f) p f) as (s1 & l1 & H1 & M & L1);
    try done; [exact (home_resolve s l le k me ce d F)|lia|exact (fork_resolve le k me ce d cid e dc s l F)|lia|by rewrite D2|lia|by rewrite Hd|].
  rewrite D3 in M. rewrite Hd in L1. exists s1, l1. split; [exact H1|]. split; [exact M|]. split; [exact L1|].
  assert (forall q, maps s1 q = maps s q + b2z (q = p)) as Hm.
  { intros q. rewrite (mv_maps M). unfold va. rewrite Hc. cbn [fmap option_fmap option_map fst].
    rewrite (b2z_false (None = Some q)) by done. unfold b2z. repeat case_decide; congruence || lia. }
  split; [exact Hm|].
  pose proof (ko_maps K (mapped_maps s me d va p f (ko_envs K) F2 Hu Hl Ht)) as Mp.
  assert (0 < maps s1 p) as Hp by (rewrite Hm, b2z_true by done; pose proof (maps_nonneg s p); lia).
  rewrite (mp_refs _ _ _ _ (ko_maps (pr_ok (mv_proc M)) Hp)), Hm, b2z_true by done. rewrite <- (mp_refs _ _ _ _ Mp). lia.
Qed.

(** The second one marks the own mapping. *)
Lemma dup_second s1 l1 :
  kin s1 l1 -> trans s1 d va = Some (p, f) -> refs s1 p < 65535 -> is_Some (tbl s1 d i) ->
  exists s2 l2, u_page_map (env_id ce) va (env_id ce) va (dup_perm f) s1 = Ret 0 s2 /\
    moved s1 s2 l2 le k me ce me d va (Some (p, dup_perm f)) /\ Z.of_nat (length l1) <= Z.of_nat (length l2).
Proof.
  intros F1 Ht1 Hr1 Htb. destruct (uva_parts i j Hi Hj) as (Hu & Hd & _ & Hl). fold va in Hu, Hd, Hl.
  pose proof (hm_me F1) as F2. pose proof (hm_id F1) as [F3 _]. pose proof (home_resolve s1 l1 le k me ce d F1) as F4.
  destruct (dup_perm_ok f) as (D1 & D2 & D3). rewrite <- Hd in Htb.
  assert (tbl s1 d (PDX va) <> None) as Hn by by apply not_eq_None_Some.
  destruct (u_page_map_spec s1 l1 le k me ce (hm_proc F1) (env_id ce) me d va (env_id ce) me d va (dup_perm f) p f)
    as (s2 & l2 & H1 & M & L1); try done; [lia|lia|by rewrite D2|by right|].
  rewrite D3 in M. rewrite (b2z_false _ Hn) in L1. exists s2, l2. split; [exact H1|]. split; [exact M|lia].
Qed.

Lemma duppage_spec : exists s' l', duppage cid (i * NPTENTRIES + j) s = Ret 0 s' /\ dupped s s' l l' i j p f.
Proof.
  destruct (uva_parts i j Hi Hj) as (Hu & Hd & _ & Hl). pose proof (fk_child F) as [F4 F4']. pose proof (hm_me F) as F2.
  destruct own_table as [t Htb]. destruct (uvpt_slot s l le k me ce d F i j t Hi Hj Htb) as (w & Hw & Hwt).
  rewrite Ht in Hwt. symmetry in Hwt. destruct (dup_perm_entry w p f Hwt) as [Hperm _].
  destruct dup_first as (s1 & l1 & C1 & M1 & L1 & N1 & R1).
  pose proof (forking_moved le k me ce d cid e dc s s1 l l1 e dc va _ F M1) as F1.
  pose proof (fun v => mv_other M1 (va' := v) (not_eq_sym F4') F2) as T1.
  pose proof (fun x => mv_tbl_other M1 (x := x) (not_eq_sym F4') F2) as B1.
  unfold duppage. mstep (u_getenvid_spec s l le k me ce P ltac:(pose proof (hm_id F); lia)). mstep Hw.
  rewrite Hperm, <- uva_pn, u32_id by done. fold (dup_perm f). fold va. mstep C1. change (0 <? 0) with false. cbn iota.
  assert (forall x, uslot x -> x <> i -> tbl s1 dc x = tbl s dc x) as G1
    by (intros x Hx Hne; apply (mv_tbl M1); [done|unfold va; by rewrite Hd]).
  pose proof (mv_table M1) as Z1. unfold va in Z1. rewrite Hd in Z1.
  destruct (has (dup_perm f) PTE_COW) eqn:Hcow.
  - assert (trans s1 d va = Some (p, f)) as Ht1 by by rewrite T1.
    destruct (dup_second s1 l1 F1 Ht1 R1 ltac:(rewrite B1 by done; by exists t)) as (s2 & l2 & C2 & M2 & L2).
    pose proof (fk_child F1) as [F5 _]. pose proof (fun x => mv_tbl_other M2 (x := x) F4' F5) as G2.
    mstep C2. exists s2, l2. split; [done|]. split.
    + exact (forking_moved le k me ce d cid e dc s1 s2 l1 l2 me d va _ F1 M2).
    + intros va' H1 H2. rewrite (mv_other M2 F4' F5) by done. by apply (mv_here M1).
    + intros va' H1 H2. rewrite (mv_here M2), T1 by done. cbn [parent_view]. by rewrite Hcow.
    + intros q Hq x Hx. rewrite (mv_mem M1 q Hq x Hx). apply (mv_mem M2 q); [|done].
      rewrite N1. pose proof (b2z_nonneg (q = p)). lia.
    + intros q. rewrite (mv_maps M2), Ht1, N1. cbn [fmap option_fmap option_map fst]. lia.
    + intros x Hx. rewrite <- B1 by done. destruct (decide (x = PDX va)) as [->|Hne]; [|by apply (mv_tbl M2)].
      unfold va. rewrite Hd. assert (tbl s1 d i = Some t) as Htb1 by by rewrite B1. rewrite Htb1. by apply (mv_keep M2).
    + intros x Hx Hne. by rewrite G2, G1.
    + by rewrite G2.
    + lia.
    + by rewrite (mv_envs M2), (mv_envs M1).
  - exists s1, l1. split; [done|]. split; try done.
    + intros va' H1 H2. by apply (mv_here M1).
    + intros va' H1 H2. rewrite T1 by done. cbn [parent_view]. rewrite Hcow. case_decide; [by subst|done].
    + apply (mv_mem M1).
    + apply (mv_envs M1).
Qed.
End Calls.
End Duppage.

(** ** The loops *)

Lemma tables_le s d s' d' :
  (forall i, uslot i -> is_Some (tbl s d i) -> is_Some (tbl s' d' i)) -> tables s d <= tables s' d'.
Proof. intros H. apply zsum_le. intros i Hi. specialize (H i Hi). unfold b2z. repeat case_decide; lia || tauto. Qed.

Lemma tables_lt s d s' d' i :
  (forall i, uslot i -> is_Some (tbl s d i) -> is_Some (tbl s' d' i)) -> uslot i -> tbl s d i = None ->
  is_Some (tbl s' d' i) -> tables s d < tables s' d'.
Proof.
  intros H Hi Hn Hs. apply (zsum_lt _ _ _ i); [|done|].
  - intros x Hx. specialize (H x Hx). unfold b2z. repeat case_decide; lia || tauto.
  - rewrite b2z_false, b2z_true by (done || (rewrite Hn; by intros [])). lia.
Qed.

Lemma tables_moved s s' l' le k me ce t dt va m :
  moved s s' l' le k me ce t dt va m -> uslot (PDX va) -> tables s' dt <= tables s dt + b2z (tbl s dt (PDX va) = None).
Proof.
  intros M Hi. unfold tables.
  rewrite (zsum_change _ (fun x => b2z (is_Some (tbl s dt x))) (fun x => b2z (is_Some (tbl s' dt x))) (PDX va) Hi)
    by (intros x Hx Hne; by rewrite (mv_tbl M)).
  rewrite (b2z_true _ (mv_table M)). destruct (tbl s dt (PDX va)) as [y|].
  - rewrite (b2z_true (is_Some _)), (b2z_false (Some y = None)) by done. lia.
  - rewrite (b2z_false (is_Some _)), (b2z_true (None = None)) by (done || by intros []). lia.
Qed.

Section Loops.
Context {stabs : StabSections} {image : UserImage} {stack : StackUse}.
Context (le : list Z) (k me : Z) (ce : Env) (d cid e dc : Z).
Context (s0 : kstate) (r lo hi pst fp : Z).
#[local] Abbreviation kin s l := (forking s l le k me ce d cid e dc).

Hypothesis Hr : 0 <= r.
Hypothesis Hcount : forall p, maps s0 p + dir_maps s0 d p < 65535.

(** The stack is page [pst]; the page above it is not mapped. *)
Hypothesis Hst : stack_in lo hi.
Hypothesis Hstack : trans s0 d ustack = Some (pst, fp) /\ Z.land fp M_URW = M_URW.
Hypothesis Hguard : trans s0 d USTACKTOP = None.

(** The pages from the text up to page number [n] have been duplicated; [r] free
    pages are kept in reserve. *)
Record copied (n : Z) (s : kstate) (l : list Z) : Prop := {
  co_kin : kin s l;
  co_child : forall va, is_u32 va -> va_legal va = true ->
    trans s dc va = if decide (fork_lo <= PGNUM va < n) then child_view (trans s0 d va) else None;
  co_own : forall va, is_u32 va -> va_legal va = true ->
    trans s d va = if decide (fork_lo <= PGNUM va < n) then parent_view (trans s0 d va) else trans s0 d va;
  co_mem : forall q y, 0 < maps s0 q -> page_kva q <= y < page_kva q + PGSIZE -> ~ in_frames lo hi pst y -> kmem s y = kmem s0 y;
  co_maps : forall q, maps s q = maps s0 q + dir_maps s dc q;
  co_tbl : forall x, uslot x -> tbl s d x = tbl s0 d x;
  co_sub : forall x, uslot x -> is_Some (tbl s dc x) -> is_Some (tbl s0 d x);
  co_len : tables s0 d + r <= tables s dc + Z.of_nat (length l);
  co_envs : envs s = envs s0 }.

(** Where the parent maps nothing there is nothing to do. *)
Lemma copied_skip n n' s l :
  copied n s l -> n <= n' ->
  (forall va, is_u32 va -> va_legal va = true -> n <= PGNUM va < n' -> trans s0 d va = None) -> copied n' s l.
Proof.
  intros [C1 C2 C3 C4 C5 C6 C7 C8 C9] Hn Hnone. split; try done; intros va Hv Hl.
  - rewrite C2 by done. repeat case_decide; try lia; [done| |done]. by rewrite (Hnone va Hv Hl ltac:(lia)).
  - rewrite C3 by done. repeat case_decide; try lia; [done| |done]. by rewrite (Hnone va Hv Hl ltac:(lia)).
Qed.

(** Frames on the stack disturb nothing of this. *)
Lemma copied_scribbled n s s1 l : copied n s l -> scribbled l le k me ce d lo hi pst s s1 -> copied n s1 l.
Proof.
  intros [C1 C2 C3 C4 C5 C6 C7 C8 C9] [T M]. destruct (fk_child C1) as [Hdc _]. pose proof (hm_me C1) as Hme.
  assert (forall x, uslot x -> tbl s1 dc x = tbl s dc x /\ tbl s1 d x = tbl s d x) as Tb.
  { intros x [Hx _]%uslot_in. split; [by apply (touched_tbl l le k me ce d pst s s1 e)|by apply (touched_tbl l le k me ce d pst s s1 me)]. }
  split.
  - by apply (forking_touched le k me ce d cid e dc s s1 l pst).
  - intros va Hv Hl. rewrite (touched_map l le k me ce d pst s s1 e dc va T Hdc Hv Hl). by apply C2.
  - intros va Hv Hl. rewrite (touched_map l le k me ce d pst s s1 me d va T Hme Hv Hl). by apply C3.
  - intros q y Hq Hy Hout. rewrite (M y Hout). by apply (C4 q).
  - intros q. rewrite (to_maps _ _ _ _ _ _ _ _ _ T), C5. by rewrite (kept_dir_maps s s1 dc (to_kept _ _ _ _ _ _ _ _ _ T e dc Hdc)).
  - intros x Hx. rewrite (proj2 (Tb x Hx)). by apply C6.
  - intros x Hx. rewrite (proj1 (Tb x Hx)). by apply C7.
  - assert (tables s dc <= tables s1 dc) by (apply tables_le; intros x Hx; by rewrite (proj1 (Tb x Hx))). lia.
  - by rewrite (to_envs _ _ _ _ _ _ _ _ _ T).
Qed.

(** While there are pages to duplicate the stack is still writable. *)
Lemma copied_calls i j s l p f :
  copied (i * NPTENTRIES + j) s l -> i * NPTENTRIES + j < fork_hi -> uslot i -> 0 <= j < NPTENTRIES ->
  trans s0 d (uva i j) = Some (p, f) ->
  exists s1, calls "duppage" s = Ret tt s1 /\ copied (i * NPTENTRIES + j) s1 l.
Proof.
  intros C Hn Hi Hj Ht0. destruct (uva_parts i j Hi Hj) as (Hu & _ & _ & Hl). destruct stack_pages as [(Su & Sl & _) _].
  destruct Hstack as [Hs Hf].
  assert (is_u32 USTACKTOP /\ va_legal USTACKTOP = true /\ PGNUM USTACKTOP = fork_hi - 1 /\ PGNUM ustack = fork_hi - 2) as (Gu & Gl & Gp & Sp)
    by (split; [split; [by vm_compute|done]|done]).
  assert (i * NPTENTRIES + j <> fork_hi - 1) as Hne.
  { intros E. rewrite <- Gp in E. symmetry in E. apply uva_page in E; [|done..]. rewrite <- E in Ht0. congruence. }
  assert (trans s d ustack = Some (pst, fp)) as Ht by (rewrite (co_own _ _ _ C), decide_False by (done || lia); done).
  destruct (calls_ok l le k me ce d lo hi Hst "duppage" s pst fp (co_kin _ _ _ C) Ht Hf) as (s1 & E & S).
  exists s1. split; [exact E|]. by apply (copied_scribbled _ s).
Qed.

Lemma copied_dup i j s l p f :
  copied (i * NPTENTRIES + j) s l -> fork_lo <= i * NPTENTRIES + j -> uslot i -> 0 <= j < NPTENTRIES ->
  trans s0 d (uva i j) = Some (p, f) ->
  exists s' l', duppage cid (i * NPTENTRIES + j) s = Ret 0 s' /\ copied (i * NPTENTRIES + j + 1) s' l'.
Proof.
  intros [C1 C2 C3 C4 C5 C6 C7 C8 C9] Hlo Hi Hj Ht0. destruct (uva_parts i j Hi Hj) as (Hu & Hd & _ & Hl).
  assert (trans s d (uva i j) = Some (p, f)) as Ht by (rewrite C3, PGNUM_uva, decide_False by (done || lia); done).
  assert (trans s dc (uva i j) = None) as Hc by (rewrite C2, PGNUM_uva, decide_False by (done || lia); done).
  pose proof (pr_ok (hm_proc C1)) as K.
  pose proof (ko_maps K (mapped_maps s me d (uva i j) p f (ko_envs K) (hm_me C1) Hu Hl Ht)) as M.
  assert (dir_maps s dc p < dir_maps s0 d p) as Hlt.
  { apply (dir_maps_lt s dc s0 d p (uva i j) f); try done; [|by rewrite Hc].
    intros x y Hx Hy. destruct (uva_parts x y Hx Hy) as (Hux & _ & _ & Hlx). rewrite C2 by done.
    case_decide; [|done]. by destruct (trans s0 d (uva x y)) as [[? ?]|]. }
  assert (is_Some (tbl s0 d i)) as Htb.
  { unfold trans in Ht0. rewrite Hd in Ht0. destruct (tbl s0 d i) as [t|]; [by exists t|done]. }
  destruct (duppage_spec le k me ce d cid e dc s l i j p f C1 Hi Hj Ht Hc) as (s' & l' & H1 & [D1 D2 D3 D4 D5 D6 D7 D8 D9 D10]).
  { rewrite (mp_refs _ _ _ _ M), C5. specialize (Hcount p). lia. }
  { destruct (tbl s dc i) as [t|] eqn:E; [by right|left]. intros ->.
    pose proof (tables_lt s dc s0 d i C7 Hi E Htb). cbn [length] in C8. lia. }
  assert (forall va, is_u32 va -> va_legal va = true -> va = uva i j <-> PGNUM va = i * NPTENTRIES + j) as Hva
    by (intros va Hv Hlv; symmetry; by apply uva_page).
  exists s', l'. split; [exact H1|]. split; [exact D1|..].
  - intros va Hv Hlv. rewrite D2, C2 by done. specialize (Hva va Hv Hlv).
    repeat case_decide; subst; rewrite ?Ht0; try done; try tauto; lia.
  - intros va Hv Hlv. rewrite D3, C3 by done. specialize (Hva va Hv Hlv).
    repeat case_decide; subst; rewrite ?Ht0; try done; try tauto; lia.
  - intros q x Hq Hx Hout. rewrite <- (C4 q x Hq Hx Hout). symmetry. apply (D4 q); [|done]. rewrite C5. pose proof (dir_maps_nonneg s dc q). lia.
  - intros q. rewrite D5, C5. rewrite (dir_maps_change s dc s' dc (uva i j) q Hu Hl).
    + rewrite Hc, D2, decide_True by done. cbn [fmap option_fmap option_map fst child_view].
      rewrite (b2z_false (None = Some q)) by done. unfold b2z. repeat case_decide; congruence || lia.
    + intros x y Hx Hy Hne. destruct (uva_parts x y Hx Hy) as (Hux & _ & _ & Hlx). rewrite D2, decide_False; [done| |done|done].
      intros E. apply Hne. rewrite E. by apply legal_uva.
  - intros x Hx. by rewrite D6, C6.
  - intros x Hx. destruct (decide (x = i)) as [->|]; [done|]. rewrite D7 by done. by apply C7.
  - assert (tables s' dc = tables s dc + b2z (tbl s dc i = None)) as ->; [|lia].
    unfold tables. rewrite (zsum_change _ (fun x => b2z (is_Some (tbl s dc x))) (fun x => b2z (is_Some (tbl s' dc x))) i Hi)
      by (intros x Hx Hne; by rewrite D7).
    rewrite (b2z_true (is_Some (tbl s' dc i))) by done.
    destruct (tbl s dc i) as [t|]; [rewrite (b2z_true (is_Some _)), (b2z_false (Some t = None)) by done|
      rewrite (b2z_false (is_Some _)), (b2z_true (None = None)) by (done || by intros [])]; lia.
  - congruence.
Qed.

Lemma fork_bounds : fork_lo = PDX UTEXT * NPTENTRIES /\ fork_hi = (PDX UXSTACKTOP - 1) * NPTENTRIES + (NPTENTRIES - 1) /\ PDX UXSTACKTOP = PDX UTOP.
Proof. by vm_compute. Qed.

Lemma fork_ptes_spec n : forall i j s l,
  Z.of_nat n + j = NPTENTRIES -> 0 <= j -> uslot i -> PDX UTEXT <= i -> is_Some (tbl s0 d i) ->
  i * NPTENTRIES + j <= fork_hi -> copied (i * NPTENTRIES + j) s l ->
  exists s' l', fork_ptes n cid i j s = Ret tt s' /\ copied (Z.min ((i + 1) * NPTENTRIES) fork_hi) s' l'.
Proof.
  destruct fork_bounds as (Blo & _ & _). induction n as [|n IH]; intros i j s l Hn Hj Hi Hlo [t Ht] Hhi C.
  { exists s, l. split; [done|]. by replace (Z.min _ _) with (i * NPTENTRIES + j) by lia. }
  assert (0 <= j < NPTENTRIES) as Hj' by lia. assert (fork_lo <= i * NPTENTRIES + j) as Hlo' by (unfold NPTENTRIES in *; lia).
  cbn [fork_ptes]. rewrite PGADDR_uva, PGNUM_uva by done. fold fork_hi.
  destruct (Z.eqb_spec (i * NPTENTRIES + j) fork_hi) as [E|E].
  { exists s, l. split; [done|]. by replace (Z.min _ _) with (i * NPTENTRIES + j) by lia. }
  assert (tbl s d i = Some t) as Ht' by (by rewrite (co_tbl _ _ _ C)).
  destruct (uva_parts i j Hi Hj') as (Hu & _ & _ & Hl).
  destruct (uvpt_slot s l le k me ce d (co_kin _ _ _ C) i j t Hi Hj' Ht') as (w & Hw & Hwt). mstep Hw.
  assert (trans s0 d (uva i j) = entry w) as Hw0.
  { rewrite <- Hwt, (co_own _ _ _ C), PGNUM_uva, decide_False by (done || lia). done. }
  assert (exists s1 l1, (if has w PTE_P then calls "duppage" ;; let! _ := duppage cid (i * NPTENTRIES + j) in kret tt else kret tt) s = Ret tt s1 /\
    copied (i * NPTENTRIES + (j + 1)) s1 l1) as (s1 & l1 & H1 & C1).
  { rewrite Z.add_assoc. destruct (has w PTE_P) eqn:HP.
    - assert (entry w = Some (PTE_ADDR w / PGSIZE, w mod PGSIZE)) as He by (unfold entry; by rewrite HP).
      rewrite He in Hw0. destruct (copied_calls i j s l _ _ C ltac:(lia) Hi Hj' Hw0) as (sa & Ha & Ca).
      destruct (copied_dup i j sa l _ _ Ca Hlo' Hi Hj' Hw0) as (s1 & l1 & H1 & C1).
      exists s1, l1. split; [mstep Ha; by mstep H1|done].
    - exists s, l. split; [done|]. apply (copied_skip _ _ s l C); [lia|]. intros va Hv Hlv Hp.
      assert (va = uva i j) as -> by (apply uva_page; done || lia). rewrite Hw0. unfold entry. by rewrite HP. }
  mstep H1. apply (IH i (j + 1) s1 l1); done || lia.
Qed.

Lemma fork_pdes_spec n : forall i s l,
  Z.of_nat n + i = PDX UXSTACKTOP -> PDX UTEXT <= i -> copied (Z.min (i * NPTENTRIES) fork_hi) s l ->
  exists s' l', fork_pdes n cid i s = Ret tt s' /\ copied fork_hi s' l'.
Proof.
  destruct fork_bounds as (Blo & Bhi & Btop). induction n as [|n IH]; intros i s l Hn Hlo C.
  { exists s, l. split; [done|]. by replace fork_hi with (Z.min (i * NPTENTRIES) fork_hi) by (unfold NPTENTRIES in *; lia). }
  assert (0 <= PDX UTEXT) as H0 by by vm_compute.
  assert (uslot i) as Hi by (unfold uslot; lia). destruct (uslot_in i Hi) as [Hi' _].
  replace (Z.min (i * NPTENTRIES) fork_hi) with (i * NPTENTRIES + 0) in C by (unfold NPTENTRIES in *; lia).
  cbn [fork_pdes]. mstep (uvpd_eq s l le k me ce d (co_kin _ _ _ C) i Hi').
  set (w := ld32 (kmem s) (pde_addr d i)).
  assert (tbl s0 d i = fst <$> entry w) as Hw by (rewrite <- (co_tbl _ _ _ C) by done; done).
  assert (exists s1 l1, (if has w PTE_P then fork_ptes (Z.to_nat NPTENTRIES) cid i 0 else kret tt) s = Ret tt s1 /\
    copied (Z.min ((i + 1) * NPTENTRIES) fork_hi) s1 l1) as (s1 & l1 & H1 & C1).
  { unfold entry in Hw. destruct (has w PTE_P).
    - apply (fork_ptes_spec (Z.to_nat NPTENTRIES) i 0 s l); try done. unfold NPTENTRIES in *; lia.
    - exists s, l. split; [done|]. apply (copied_skip _ _ s l C); [unfold NPTENTRIES in *; lia|]. intros va Hv Hl Hp.
      rewrite pgnum_slot in Hp by done. pose proof (PTX_range va). unfold trans.
      assert (PDX va = i) as -> by (unfold NPTENTRIES in *; lia). by rewrite Hw. }
  mstep H1. apply (IH (i + 1) s1 l1); try done; lia.
Qed.
End Loops.

(** Starting with an empty child. *)
Lemma copied_start le k me ce d cid e dc s l r lo hi pst :
  forking s l le k me ce d cid e dc -> (forall i, uslot i -> tbl s dc i = None) ->
  tables s d + r <= Z.of_nat (length l) -> copied le k me ce d cid e dc s r lo hi pst fork_lo s l.
Proof.
  intros F Hn Hlen. assert (forall va, is_u32 va -> va_legal va = true -> trans s dc va = None) as Ht.
  { intros va Hv Hl. unfold trans. by rewrite Hn by by apply va_legal_slot. }
  split; try done.
  - intros va Hv Hl. rewrite Ht by done. by case_decide; [lia|].
  - intros va Hv Hl. by case_decide; [lia|].
  - intros q. rewrite (dir_maps_empty s dc q Hn). lia.
  - intros x Hx. rewrite Hn by done. by intros [].
  - pose proof (zsum_nonneg (PDX UTOP) (fun i => b2z (is_Some (tbl s dc i))) (fun i _ => b2z_nonneg _)).
    unfold tables at 2. lia.
Qed.

(** ** sys_exofork *)

Section Exofork.
Context {stabs : StabSections}.

(** The child: an environment of its own, not runnable, with an empty address
    space; nothing else has changed. *)
Record born (s s' : kstate) (l' le' : list Z) (k me : Z) (ce : Env) (d e dc : Z) (x : Env) : Prop := {
  bn_fork : forking s' l' le' k me ce d (env_id x) e dc;
  bn_envs : envs s' = <[e := x]> (envs s);
  bn_status : env_status x = ENV_NOT_RUNNABLE;
  bn_tf : env_tf x = with_eax (env_tf ce) 0;
  bn_empty : forall i, uslot i -> tbl s' dc i = None;
  bn_kept : parts_kept s s' d;
  bn_mem : forall q, 0 < maps s q -> same_page s s' q;
  bn_maps : forall q, maps s' q = maps s q }.

Lemma u_exofork_spec s n l' e le' k me ce d :
  home s (n :: l') (e :: le') k me ce d ->
  exists s' x, u_exofork s = Ret (env_id x) s' /\ born s s' l' le' k me ce d e n x.
Proof.
  intros H. pose proof (hm_proc H) as P. pose proof (pr_ok P) as K.
  assert (me ∉ e :: le') as Hme by (intros Hin%(ko_idle K me ce (pr_env P)); by apply (pr_used P)).
  destruct (sys_exofork_spec s me ce (e :: le') (n :: l') k (process_caller s _ _ k me ce P) Hme (ko_wf K) (ko_cpu K) (ko_free K)
    (ko_chain K) (ko_tmpl K) (ko_ids K)) as (s' & x & C & He & Hid & Hix & Hpar & Hst & Htf & Hd & Hns & Hch & Hm).
  assert (e <> me) as Hne by (intros ->; apply Hme; by left).
  assert (0 <= env_id x < 2 ^ 31) as Hid' by lia. assert (env_status x <> ENV_FREE) as Hu by congruence.
  pose proof (kernel_ok_fresh s s' n e l' le' k x K He Hid' Hu Hd Hns Hch Hm) as K'.
  pose proof (fresh_kept s s' n e l' le' k K Hns me d (hm_me H)) as Hk.
  assert (forall i, space s' i = if decide (i = e) then Some n else space s i) as Hsp by (by apply (fresh_space s s' n e x He Hu Hd)).
  assert (process s' l' le' k me ce) as P'.
  { split; [done| |by rewrite He, lookup_insert_ne; [apply (pr_env P)|]|apply (pr_used P)].
    destruct Hm as (-> & -> & _). apply (pr_cpu P). }
  exists s', x. split.
  - unfold u_exofork. by apply (usyscall_eq SYS_exofork false 0 0 0 0 0 (env_id x) s s'); [exact C|lia|].
  - split; try done.
    + split; [|split; [by rewrite Hsp, decide_True|done]|by split| |apply (ns_self _ _ _ _ _ Hns)].
      * apply (home_ext s s' (n :: l') l' (e :: le') le' k me ce ce d H P'); [done| |apply (ns_cr3 _ _ _ _ _ Hns)|].
        -- by rewrite Hsp, decide_False.
        -- apply page_word; [|apply PDX_in]. apply Hk. by left.
      * exists x. rewrite He, lookup_insert_eq. done.
    + intros i Hi. destruct (uslot_in i Hi) as [H1 H2]. rewrite (ns_tbl _ _ _ _ _ Hns i H1 H2). by apply (ko_empty K).
    + intros q Hq. apply (ns_mem _ _ _ _ _ Hns). intros ->. apply (mp_alloc _ _ _ _ (ko_maps K Hq)). by left.
    + intros q. by apply (fresh_maps s s' n e l' le' k x K He Hu Hd Hns).
Qed.
End Exofork.

(** ** The first process and a child *)

Definition first_rest : list Z := zrange 2 (Z.to_nat (NENV - 2)).

Lemma first_idle_cons : first_idle = 1 :: first_rest.
Proof. by vm_compute. Qed.

Lemma zsum_single n j : zsum n (fun i => b2z (i = j)) <= 1.
Proof.
  destruct (decide (0 <= j < n)) as [Hj|Hj].
  - rewrite (zsum_change n (fun _ => 0) _ j Hj) by (intros i _ Hne; by apply b2z_false).
    rewrite (zsum_zero n (fun _ => 0)), b2z_true by done. lia.
  - rewrite zsum_zero; [lia|]. intros i Hi. apply b2z_false. lia.
Qed.

Lemma tables_one s d j : (forall i, uslot i -> i <> j -> tbl s d i = None) -> tables s d <= 1.
Proof.
  intros H. etrans; [apply (zsum_le _ _ (fun i => b2z (i = j)))|].
  - intros i Hi. destruct (decide (i = j)) as [->|Hne]; [unfold b2z; repeat case_decide; done || lia|]. rewrite H by done. rewrite !b2z_false by (done || by intros []). lia.
  - apply zsum_single.
Qed.

Lemma dir_maps_le s l le k me ce d p : home s l le k me ce d -> dir_maps s d p <= maps s p.
Proof.
  intros H. rewrite <- (env_maps_eq s p me d (hm_me H)). apply maps_ge.
  apply (space_range s me d (ko_envs (pr_ok (hm_proc H))) (hm_me H)).
Qed.
