(* ===== verification/TempPage.v ===== *)
(** * A page of the child through a temporary address

    Both forks (lib/fork.c, user/dumbfork.c) fill a page of the child by mapping
    it at an address of their own, calling memmove and unmapping it again. *)
From S2P Require Import Prelude Machine Mmu KState PageAlloc PageTable Vmem Kdebug Env Sched Syscall Isolation Reclaim UserLib UserCalls Fork.

Local Open Scope Z_scope.

(** * Properties *)

Lemma page_base base : 0 <= base < UTOP -> base mod PGSIZE = 0 -> is_u32 base /\ va_legal base = true.
Proof.
  intros Hb H0. destruct (round_page base Hb) as (E & _ & Hu & Hl & _). rewrite H0, Z.sub_0_r in E. by rewrite E in Hu, Hl.
Qed.

Section Temp.
Context {stabs : StabSections} (le : list Z) (k me : Z) (ce : Env) (d cid e dc : Z).
#[local] Abbreviation kin s l := (forking s l le k me ce d cid e dc).

Lemma own_resolve s l id : kin s l -> id = 0 \/ id = env_id ce -> resolve s me ce id = Some me /\ 0 <= id < 2 ^ 31.
Proof.
  intros F [->| ->]; [done|]. pose proof (hm_id F) as [? _]. split; [exact (home_resolve s l le k me ce d F)|lia].
Qed.

(** A store to a page of the process keeps both. *)
Lemma forking_store s l va p f m' :
  kin s l -> is_u32 va -> va_legal va = true -> trans s d va = Some (p, f) -> data_write s p m' ->
  kin (set_kmem m' s) l /\ stored s l le k me ce d (set_kmem m' s).
Proof.
  intros F Hv Hl Ht W. pose proof (home_store s l le k me ce d F va p f m' Hv Hl Ht W) as S. split; [|exact S].
  destruct F as [F1 F2 F3 F4 F5]. split; try done; [apply S|]. unfold self_mapped.
  rewrite (kept_tbl s _ dc (so_kept _ _ _ _ _ _ _ _ S e dc (proj1 F2))) by apply PDX_in. exact F5.
Qed.

Section One.
Context (s : kstate) (l : list Z) (base pp temp id : Z).
Hypothesis F : kin s l.
Hypothesis Hid : id = 0 \/ id = env_id ce.
Hypothesis Hb : is_u32 base /\ va_legal base = true.
Hypothesis Hpp : trans s dc base = Some (pp, 7).
Hypothesis Hr : refs s pp < 65535.
Hypothesis Ht : 0 <= temp < UTOP /\ temp mod PGSIZE = 0.
Hypothesis Htmp : trans s d temp = None.
Hypothesis Hl : l <> [].

(** The process's view while the page is mapped at [temp]. *)
Definition with_temp (va : Z) : option (Z * Z) := if decide (va = temp) then Some (pp, 7) else trans s d va.

(** What is left: page [p2] has the bytes of page [p1]. *)
Record via_temp (s' : kstate) (l' : list Z) (p1 p2 : Z) : Prop := {
  vt_kin : kin s' l';
  vt_trans : forall t d' va, space s t = Some d' -> is_u32 va -> va_legal va = true -> trans s' d' va = trans s d' va;
  vt_copy : forall o, 0 <= o < PGSIZE -> kmem s' (page_kva p2 + o) = kmem s (page_kva p1 + o);
  vt_mem : forall q, 0 < maps s q -> q <> p2 -> same_page s s' q;
  vt_maps : forall q, maps s' q = maps s q;
  vt_table : is_Some (tbl s' d (PDX temp));
  vt_len : Z.of_nat (length l) <= Z.of_nat (length l') + b2z (tbl s d (PDX temp) = None);
  vt_envs : envs s' = envs s }.

Lemma temp_spec src dst p1 f1 p2 f2 :
  0 <= src < UTOP -> src mod PGSIZE = 0 -> with_temp src = Some (p1, f1) -> Z.land f1 M_UR = M_UR ->
  0 <= dst < UTOP -> dst mod PGSIZE = 0 -> with_temp dst = Some (p2, f2) -> Z.land f2 M_URW = M_URW -> p2 <> p1 ->
  0 < maps s p1 -> 0 < maps s p2 ->
  exists s1 s2 s3 l3, u_page_map cid base id temp 7 s = Ret 0 s1 /\
    umemmove (Z.to_nat PGSIZE) dst src s1 = Ret tt s2 /\ u_page_unmap id temp s2 = Ret 0 s3 /\ via_temp s3 l3 p1 p2.
Proof.
  intros Hs Hs0 Hsrc Hf1 Hd Hd0 Hdst Hf2 Hne Hm1 Hm2. destruct Hb as [Ub Lb]. destruct Ht as [Rt T0].
  destruct (page_base temp Rt T0) as [Ut Lt]. destruct (page_base dst Hd Hd0) as [Ud Ld].
  pose proof (fk_child F) as [Hdc Hce]. pose proof (hm_me F) as Hme. pose proof (fk_cid F) as [Hcid _].
  destruct (own_resolve s l id F Hid) as [R I].
  destruct (u_page_map_spec s l le k me ce (hm_proc F) cid e dc base id me d temp 7 pp 7
    (fork_resolve le k me ce d cid e dc s l F) Hdc ltac:(lia) Ub Lb R Hme I Ut Lt eq_refl eq_refl Hpp Hr ltac:(by left))
    as (s1 & l1 & C1 & M1 & L1). change (Z.lor PTE_P 7) with 7 in M1.
  pose proof (forking_moved le k me ce d cid e dc s s1 l l1 me d temp _ F M1) as F1. pose proof (hm_me F1) as Hme1.
  assert (forall va, is_u32 va -> va_legal va = true -> trans s1 d va = with_temp va) as T1 by apply (mv_here M1).
  assert (forall t, space s1 t = space s t) as Sp1 by (intros t; apply space_ext; by rewrite (mv_envs M1)).
  assert (forall q, maps s1 q = maps s q + b2z (pp = q)) as N1.
  { intros q. rewrite (mv_maps M1), Htmp. cbn [fmap option_fmap option_map fst]. unfold b2z. repeat case_decide; congruence || lia. }
  destruct (page_base src Hs Hs0) as [Us Ls].
  destruct (home_copy s1 l1 le k me ce d F1 src dst p1 f1 p2 f2 Hs Hs0 ltac:(by rewrite T1) Hf1 Hd Hd0 ltac:(by rewrite T1) Hf2 Hne)
    as (m2 & C2 & W2 & B2).
  destruct (forking_store s1 l1 dst p2 f2 m2 F1 Ud Ld ltac:(by rewrite T1) W2) as [F2 [_ K2 N2 _]]. set (s2 := set_kmem m2 s1) in *.
  assert (forall t d' va, space s t = Some d' -> is_u32 va -> va_legal va = true -> trans s2 d' va = trans s1 d' va) as T2.
  { intros t d' va Hsp Hv Hlv. apply (kept_trans s1 s2 d' (K2 t d' ltac:(by rewrite Sp1))). by apply va_legal_user. }
  destruct (own_resolve s2 l1 id F2 Hid) as [R2 _].
  assert (trans s2 d temp = Some (pp, 7)) as Ht2 by (rewrite (T2 me), T1 by done; unfold with_temp; by rewrite decide_True).
  destruct (u_page_unmap_spec s2 l1 le k me ce (hm_proc F2) id me d temp pp 7 R2 Hme1 I Ut Lt Ht2) as (s3 & l3 & C3 & M3 & L3 & _ & Q3).
  exists s1, s2, s3, l3. split; [exact C1|]. split; [exact C2|]. split; [exact C3|].
  assert (forall q, 0 < maps s q -> same_page s2 s3 q) as Q.
  { intros q Hq. assert (0 < maps s2 q) as Hq2 by (rewrite N2, N1; pose proof (b2z_nonneg (pp = q)); lia).
    apply Q3, (mp_data _ _ _ _ (ko_maps (pr_ok (hm_proc F2)) Hq2) me d). exact Hme1. }
  split.
  - exact (forking_moved le k me ce d cid e dc s2 s3 l1 l3 me d temp _ F2 M3).
  - intros t d' va Hsp Hv Hlv. destruct (decide (t = me)) as [->|Hn].
    + assert (d' = d) as -> by congruence. rewrite (mv_here M3), (T2 me), T1 by done. unfold with_temp. case_decide; [by subst|done].
    + rewrite (mv_other M3 (va' := va) Hn (d' := d')), (T2 t) by (done || (change (space s2 t) with (space s1 t); by rewrite Sp1)).
      by apply (mv_other M1 (va' := va) Hn).
  - intros o Ho. rewrite <- (Q p2 Hm2) by lia. change (kmem s2) with m2. rewrite B2 by done. symmetry. apply (mv_mem M1 p1 Hm1). lia.
  - intros q Hq Hqp y Hy. rewrite (mv_mem M1 q Hq y Hy). rewrite <- (Q q Hq y Hy). symmetry. apply W2.
    unfold page_kva, PGSIZE in *. lia.
  - intros q. rewrite (mv_maps M3), Ht2, N2, N1. cbn [fmap option_fmap option_map fst]. unfold b2z. repeat case_decide; congruence || lia.
  - apply (mv_table M3).
  - lia.
  - rewrite (mv_envs M3). exact (mv_envs M1).
Qed.
End One.
End Temp.
