(* ===== verification/ForkCall.v ===== *)
(** * fork from the parent's side: the whole call

    set_pgfault_handler (src/lib/pgfault.c), sys_exofork, the copying loops of
    Fork.v and the steps fork ends with (src/lib/fork.c), composed as fork
    composes them, down to the kernel's handlers and page tables. *)
From S2P Require Import Prelude Machine Mmu KState PageAlloc PageTable Vmem Kdebug Env Sched Syscall Isolation Reclaim Protection UserLib UserCalls Cow Stack Fork TempPage.

Local Open Scope Z_scope.

(** * Properties *)

Lemma uxstack_legal : is_u32 uxstack /\ va_legal uxstack = true /\ PGNUM uxstack = fork_hi.
Proof. split; [split; [by vm_compute|done]|done]. Qed.

Lemma ustack_legal : is_u32 ustack /\ va_legal ustack = true /\ PGNUM ustack = fork_hi - 2.
Proof. split; [split; [by vm_compute|done]|done]. Qed.

Lemma pftemp_low : is_u32 PFTEMP /\ va_legal PFTEMP = true /\ PGNUM PFTEMP = fork_lo - 1.
Proof. split; [split; [by vm_compute|done]|done]. Qed.

(** ** set_pgfault_handler *)

Section Handler.
Context {stabs : StabSections} {image : UserImage}.

(** The library's variables and the stack are mapped, the page above the stack
    is not, and either the handler is installed and the exception stack is there,
    or there is neither. *)
Record handler_vars (s : kstate) (me : Z) (ce : Env) (d ph pt pst : Z) : Prop := {
  hv_handler : word_va pgfault_handler_va /\ exists f, trans s d pgfault_handler_va = Some (ph, f) /\ Z.land f M_URW = M_URW;
  hv_thisenv : word_va thisenv_va /\ exists f, trans s d thisenv_va = Some (pt, f) /\ Z.land f M_UR = M_UR;
  hv_upcall : word_va pgfault_upcall /\ exists p f, trans s d pgfault_upcall = Some (p, f) /\ Z.land f M_UR = M_UR;
  hv_stack : (exists f, trans s d ustack = Some (pst, f) /\ Z.land f M_URW = M_URW) /\ trans s d USTACKTOP = None;
  hv_apart : pst <> ph /\ pst <> pt;
  hv_state :
    (ld32 (kmem s) (at_page ph pgfault_handler_va) <> 0 /\ env_pgfault_upcall ce = pgfault_upcall /\
       exists px f, trans s d uxstack = Some (px, f) /\ Z.land f M_URW = M_URW /\ px <> ph /\ px <> pst) \/
    (ld32 (kmem s) (at_page ph pgfault_handler_va) = 0 /\ trans s d uxstack = None /\
       ld32 (kmem s) (at_page pt thisenv_va) = env_ptr me) }.

(** Page [px] is the exception stack, the handler is [h], and apart from that
    variable and that mapping the process is as before. *)
Record handled (s s' : kstate) (l l' le : list Z) (k me : Z) (ce ce' : Env) (d ph h px : Z) : Prop := {
  ha_home : home s' l' le k me ce' d;
  ha_same : env_id ce' = env_id ce /\ env_tf ce' = env_tf ce /\ env_pgfault_upcall ce' = pgfault_upcall;
  ha_stack : exists f, trans s' d uxstack = Some (px, f) /\ Z.land f M_URW = M_URW;
  ha_trans : forall va, is_u32 va -> va_legal va = true -> va <> uxstack -> trans s' d va = trans s d va;
  ha_maps : forall q, 0 < maps s q -> maps s' q = maps s q /\ dir_maps s' d q = dir_maps s d q;
  ha_new : forall q, 0 < maps s' q -> 0 < maps s q \/ maps s' q = 1;
  ha_mem : forall q x, 0 < maps s q -> page_kva q <= x < page_kva q + PGSIZE ->
    x < at_page ph pgfault_handler_va \/ at_page ph pgfault_handler_va + 4 <= x -> kmem s' x = kmem s x;
  ha_word : ld32 (kmem s') (at_page ph pgfault_handler_va) = u32 h;
  ha_tables : tables s' d <= tables s d + 1 /\ Z.of_nat (length l) <= Z.of_nat (length l') + 2 }.

Section Process.
Context (s : kstate) (l le : list Z) (k me : Z) (ce : Env) (d ph pt pst h : Z).
Hypothesis H : home s l le k me ce d.
Hypothesis V : handler_vars s me ce d ph pt pst.

(** Storing the handler's address. *)
Lemma store_handler s1 l1 ce1 :
  home s1 l1 le k me ce1 d -> (exists f, trans s1 d pgfault_handler_va = Some (ph, f) /\ Z.land f M_URW = M_URW) ->
  uwrite32 pgfault_handler_va h s1 =
    Ret tt (set_kmem (st32 (kmem s1) (at_page ph pgfault_handler_va) h) s1) /\
  stored s1 l1 le k me ce1 d (set_kmem (st32 (kmem s1) (at_page ph pgfault_handler_va) h) s1).
Proof.
  intros H1 (f & Ht & Hf). destruct (hv_handler _ _ _ _ _ _ _ V) as [Hw _].
  split; [by apply (home_uwrite32 s1 l1 le k me ce1 d H1 _ ph f h Hw Ht)|].
  destruct Hw as [Hva Ho]. destruct (round_page _ Hva) as (_ & _ & Hub & Hlb & _ & _ & Hd & Hx & _).
  apply (home_store s1 l1 le k me ce1 d H1 (ROUNDDOWN pgfault_handler_va PGSIZE) ph f _ Hub Hlb).
  - by rewrite (trans_page s1 d _ _ Hd Hx).
  - apply st32_data_write; [apply (ko_wf (pr_ok (hm_proc H1)))|done].
Qed.

Lemma handler_read s1 l1 ce1 va p f :
  home s1 l1 le k me ce1 d -> word_va va -> trans s1 d va = Some (p, f) -> Z.land f M_UR = M_UR ->
  uread32 va s1 = Ret (ld32 (kmem s1) (at_page p va)) s1.
Proof. intros H1. by apply (home_uread32 s1 l1 le k me ce1 d). Qed.

Lemma urw_ur f : Z.land f M_URW = M_URW -> Z.land f M_UR = M_UR.
Proof. intros Hf. by apply (land_mask_sub _ M_URW). Qed.

(** [thisenv] leads to the process's own record. *)
Lemma env_at_eq s1 i x : envs s1 !! i = Some x -> env_at (env_ptr i) s1 = Ret x s1.
Proof.
  intros Hx. unfold env_at, env_ptr.
  replace ((UENVS + SIZEOF_ENV * i - UENVS) / SIZEOF_ENV) with i by (unfold SIZEOF_ENV; word_lia). by apply get_env_eq.
Qed.

(** A handler was installed before: only the variable changes. *)
Lemma handled_again px f :
  ld32 (kmem s) (at_page ph pgfault_handler_va) <> 0 -> env_pgfault_upcall ce = pgfault_upcall ->
  trans s d uxstack = Some (px, f) -> Z.land f M_URW = M_URW ->
  exists s', set_pgfault_handler h s = Ret tt s' /\ handled s s' l l le k me ce ce d ph h px /\ envs s' = envs s.
Proof.
  intros Hh Hup Hst Hf. destruct (hv_handler _ _ _ _ _ _ _ V) as [Hw (fh & Ht & Hfh)].
  destruct (store_handler s l ce H ltac:(by exists fh)) as [Hwr S]. set (s' := set_kmem _ s) in *.
  exists s'. split; [|split; [|done]].
  - unfold set_pgfault_handler. mstep (handler_read s l ce _ ph fh H Hw Ht (urw_ur _ Hfh)).
    rewrite bind_if_false by by apply Z.eqb_neq. exact Hwr.
  - pose proof (so_kept _ _ _ _ _ _ _ _ S me d (hm_me H)) as Hk.
    assert (forall va, is_u32 va -> va_legal va = true -> trans s' d va = trans s d va) as Htr.
    { intros va Hv Hl. apply (kept_trans s s' d Hk). by apply va_legal_user. }
    split.
    + apply S.
    + done.
    + exists f. split; [|exact Hf]. rewrite Htr by apply uxstack_legal. done.
    + intros va Hv Hl _. by apply Htr.
    + intros q _. split; [apply S|by apply kept_dir_maps].
    + intros q Hq. left. by rewrite (so_maps _ _ _ _ _ _ _ _ S) in Hq.
    + intros q x _ _ Hx. by apply st32_out.
    + apply ld32_st32_eq.
    + split; [|lia]. etrans; [|apply Z.le_succ_diag_r]. apply tables_le. intros i [Hi _]%uslot_in. by rewrite (kept_tbl s s' d Hk).
Qed.

(** The first time the exception stack is allocated. *)
Lemma handled_first :
  ld32 (kmem s) (at_page ph pgfault_handler_va) = 0 -> trans s d uxstack = None ->
  ld32 (kmem s) (at_page pt thisenv_va) = env_ptr me -> (2 <= length l)%nat ->
  exists s' l' px, set_pgfault_handler h s = Ret tt s' /\
    handled s s' l l' le k me ce (set_env_pgfault_upcall pgfault_upcall ce) d ph h px /\ px ∈ l /\
    envs s' = <[me := set_env_pgfault_upcall pgfault_upcall ce]> (envs s).
Proof.
  intros Hh Hst Hte Hlen. pose proof (hm_proc H) as P. pose proof (pr_ok P) as K. pose proof (hm_me H) as Hme.
  destruct (hv_handler _ _ _ _ _ _ _ V) as [Hw (fh & Ht & Hfh)]. destruct (hv_thisenv _ _ _ _ _ _ _ V) as [Hw2 (ft & Ht2 & Hft)].
  destruct (hv_upcall _ _ _ _ _ _ _ V) as [Hw3 (pu & fu & Ht3 & Hfu)]. destruct uxstack_legal as (Hu & Hl & _).
  pose proof (home_resolve s l le k me ce d H) as E. pose proof (hm_id H) as [Hid _].
  destruct (u_page_alloc_spec s l le k me ce P (env_id ce) me d uxstack 7 E Hme ltac:(lia) Hu Hl eq_refl Hlen)
    as (s1 & l1 & px & C1 & M & Hpx & Hz & Hr & Hll). change (Z.lor PTE_P 7) with 7 in M.
  pose proof (home_moved s s1 l l1 le k me ce d me d uxstack _ H M) as H1.
  set (ce' := set_env_pgfault_upcall pgfault_upcall ce).
  assert (forall va p f, word_va va -> trans s d va = Some (p, f) -> trans s1 d va = Some (p, f)) as Htr1.
  { intros va p f Hv Hp. apply (word_trans s s1 d va p f Hv Hp). intros b Hb1 Hb2 Hb. rewrite (mv_here M) by done.
    rewrite decide_False; [done|]. intros ->. by rewrite Hst in Hb. }
  assert (forall va p f, word_va va -> trans s d va = Some (p, f) -> same_page s s1 p) as Hsame.
  { intros va p f Hv Hp. apply (mv_mem M). by apply (word_mapped s me d va p f (ko_envs K)). }
  destruct (u_upcall_spec s1 l1 le k me ce (env_id ce) me ce d (hm_proc H1) (home_resolve s1 l1 le k me ce d H1)
    (pr_env (hm_proc H1)) (hm_me H1) ltac:(lia) pgfault_upcall pu fu (hm_self H1) Hw3 (Htr1 _ _ _ Hw3 Ht3) Hfu) as (a & C2 & P2).
  fold ce' in C2, P2. set (s2 := set_user_mem_check_addr a (with_record s1 me ce')) in *.
  pose proof (home_record s1 l1 le k me ce me ce d (hm_proc H1) (pr_env (hm_proc H1)) (hm_me H1) d ce' s2 H1 eq_refl eq_refl
    (pr_used (hm_proc H1)) P2 eq_refl eq_refl eq_refl) as H2.
  unfold own_record in H2. rewrite (decide_True _ _ (eq_refl me)) in H2.
  destruct (store_handler s2 l1 ce' H2 ltac:(exists fh; split; [exact (Htr1 _ _ _ Hw Ht)|exact Hfh])) as [Hwr S].
  set (s3 := set_kmem _ s2) in *. exists s3, l1, px.
  pose proof (env_at_eq s me ce (pr_env P)) as Hce.
  pose proof (env_at_eq s1 me ce (pr_env (hm_proc H1))) as Hce1.
  split.
  { unfold set_pgfault_handler. mstep (handler_read s l ce _ ph fh H Hw Ht (urw_ur _ Hfh)). rewrite Hh, Z.eqb_refl.
    rewrite !bind_assoc. mstep (handler_read s l ce _ pt ft H Hw2 Ht2 Hft). rewrite Hte.
    rewrite bind_assoc. mstep Hce. rewrite bind_assoc. mstep C1. rewrite bind_assoc, bind_if_false by done. rewrite bind_assoc.
    mstep (handler_read s1 l1 ce _ pt ft H1 Hw2 (Htr1 _ _ _ Hw2 Ht2) Hft).
    rewrite (word_kept s s1 pt thisenv_va (Hsame _ _ _ Hw2 Ht2) Hw2), Hte. rewrite bind_assoc. mstep Hce1.
    rewrite bind_assoc. mstep C2. rewrite bind_ret. exact Hwr. }
  split; [|split; [exact Hpx|unfold s3, s2; cbn [envs set_kmem set_user_mem_check_addr with_record set_envs]; by rewrite (mv_envs M)]].
  pose proof (free_unmapped s l k px (@ko_maps _ _ _ _ K) Hpx) as H0.
  pose proof (so_kept _ _ _ _ _ _ _ _ S me d (hm_me H2)) as Hk.
  assert (forall va, is_u32 va -> va_legal va = true -> trans s3 d va = if decide (va = uxstack) then Some (px, 7) else trans s d va) as Htr3.
  { intros va Hv Hl'. rewrite <- (mv_here M) by done. apply (kept_trans s2 s3 d Hk). by apply va_legal_user. }
  assert (forall q, maps s3 q = maps s q + b2z (px = q)) as Hmaps.
  { intros q. rewrite (so_maps _ _ _ _ _ _ _ _ S). transitivity (maps s1 q).
    - apply maps_ext. intros i _. unfold env_maps.
      by rewrite <- (record_space s1 me ce ce' (pr_env (hm_proc H1)) (pr_used P) (pr_used P) eq_refl i).
    - rewrite (mv_maps M), Hst. cbn [fmap option_fmap option_map fst]. rewrite (b2z_false (None = Some q)) by done.
      unfold b2z. repeat case_decide; congruence || lia. }
  split.
  - apply S.
  - done.
  - exists 7. split; [|done]. rewrite Htr3 by done. by rewrite decide_True.
  - intros va Hv Hl' Hne. rewrite Htr3 by done. by rewrite decide_False.
  - intros q Hq. assert (px <> q) as Hne by (intros ->; lia). split; [rewrite Hmaps, b2z_false by done; lia|].
    rewrite (dir_maps_change s d s3 d uxstack q Hu Hl).
    + rewrite Hst, Htr3, decide_True by done. cbn [fmap option_fmap option_map fst]. rewrite !b2z_false by congruence. lia.
    + intros i j Hi Hj Hne'. destruct (uva_parts i j Hi Hj) as (Hux & _ & _ & Hlx). rewrite Htr3, decide_False; [done| |done|done].
      intros E'. apply Hne'. rewrite E'. by apply legal_uva.
  - intros q. rewrite Hmaps. unfold b2z. case_decide; [subst; right; lia|left; lia].
  - intros q x Hq Hx Hout. unfold s3. cbn [kmem set_kmem]. rewrite st32_out by done. symmetry. by apply (mv_mem M q Hq).
  - apply ld32_st32_eq.
  - pose proof (b2z_nonneg (tbl s d (PDX uxstack) = None)). split.
    + etrans; [|etrans; [apply (tables_moved s s1 l1 le k me ce me d uxstack _ M); by apply va_legal_slot|]].
      * apply tables_le. intros i [Hi _]%uslot_in. by rewrite (kept_tbl s2 s3 d Hk).
      * unfold b2z. case_decide; lia.
    + unfold b2z in Hll. case_decide; lia.
Qed.
(** Both cases. *)
Lemma handler_spec :
  (2 <= length l)%nat ->
  exists s' l' ce' px, set_pgfault_handler h s = Ret tt s' /\ handled s s' l l' le k me ce ce' d ph h px /\
    (px <> ph /\ px <> pst) /\ (forall i, i <> me -> envs s' !! i = envs s !! i).
Proof.
  intros Hlen. destruct (hv_state _ _ _ _ _ _ _ V) as [(Hh & Hup & px & f & Hst & Hf & Hpx)|(Hh & Hst & Hte)].
  - destruct (handled_again px f Hh Hup Hst Hf) as (s' & C & A & He). exists s', l, ce, px. split; [done|]. split; [done|]. split; [done|]. by rewrite He.
  - destruct (handled_first Hh Hst Hte Hlen) as (s' & l' & px & C & A & Hpx & He). exists s', l', (set_env_pgfault_upcall pgfault_upcall ce), px.
    split; [done|]. split; [done|]. split; [|intros i Hi; by rewrite He, lookup_insert_ne].
    pose proof (pr_ok (hm_proc H)) as K. pose proof (free_unmapped s l k px (@ko_maps _ _ _ _ K) Hpx) as H0.
    destruct (hv_handler _ _ _ _ _ _ _ V) as [Hw (fh & Ht & _)]. destruct (hv_stack _ _ _ _ _ _ _ V) as [(fs & Hs & _) _].
    destruct ustack_legal as (U & L & _). pose proof (word_mapped s me d _ ph fh (ko_envs K) (hm_me H) Hw Ht).
    pose proof (mapped_maps s me d ustack pst fs (ko_envs K) (hm_me H) U L Hs). split; intros ->; lia.
Qed.
End Process.
End Handler.

(** Frames on the stack leave the library's variables alone. *)
Lemma vars_scribbled {stabs : StabSections} {image : UserImage} {stack : StackUse} s s1 l le k me ce d ph pt pst lo hi :
  home s l le k me ce d -> handler_vars s me ce d ph pt pst -> scribbled l le k me ce d lo hi pst s s1 -> handler_vars s1 me ce d ph pt pst.
Proof.
  intros H [(W1 & f1 & T1 & F1) (W2 & f2 & T2 & F2) (W3 & p3 & f3 & T3 & F3) [(fs & Ts & Fs) Hg] [A1 A2] V] [T M].
  pose proof (fun b Hb Hl => touched_map l le k me ce d pst s s1 me d b T (hm_me H) Hb Hl) as Tm.
  assert (forall va p f, word_va va -> trans s d va = Some (p, f) -> trans s1 d va = Some (p, f)) as Tw
    by (intros va p f Hw Hp; apply (word_trans s s1 d va p f Hw Hp); intros b Hb Hl Hbt; by rewrite Tm).
  destruct uxstack_legal as (Xu & Xl & _). destruct ustack_legal as (Su & Sl & _).
  assert (is_u32 USTACKTOP /\ va_legal USTACKTOP = true) as [Gu Gl] by (split; [split; [by vm_compute|done]|done]).
  pose proof (word_kept s s1 ph _ (touched_page l le k me ce d pst s s1 ph T (not_eq_sym A1)) W1) as E1.
  pose proof (word_kept s s1 pt _ (touched_page l le k me ce d pst s s1 pt T (not_eq_sym A2)) W2) as E2.
  split.
  - split; [done|]. exists f1. split; [by apply Tw|done].
  - split; [done|]. exists f2. split; [by apply Tw|done].
  - split; [done|]. exists p3, f3. split; [by apply Tw|done].
  - rewrite !Tm by done. split; [by exists fs|done].
  - done.
  - rewrite E1, E2, !Tm by done. exact V.
Qed.

(** ** What fork ends with *)

Section Setup.
Context {stabs : StabSections} {image : UserImage} {stack : StackUse}.
Context (s : kstate) (l le : list Z) (k me : Z) (ce : Env) (d cid e dc px fx : Z) (x : Env).
Hypothesis F : forking s l le k me ce d cid e dc.
Hypothesis Hx : envs s !! e = Some x.
Hypothesis Hlen : (3 <= length l)%nat.
Hypothesis Hchild : trans s dc uxstack = None.
Hypothesis Hown : trans s d uxstack = Some (px, fx) /\ Z.land fx M_URW = M_URW.
Hypothesis Htemp : trans s d PFTEMP = None.
Hypothesis Hup : word_va pgfault_upcall /\ exists p f, trans s dc pgfault_upcall = Some (p, f) /\ Z.land f M_UR = M_UR.

Let Hne : e <> me := proj2 (fk_child F).
Let Hdc : space s e = Some dc := proj1 (fk_child F).

(** The child gets an exception stack of its own. *)
Lemma setup_alloc :
  exists s1 l1 pp, u_page_alloc cid uxstack PTE_UPW s = Ret 0 s1 /\ moved s s1 l1 le k me ce e dc uxstack (Some (pp, 7)) /\
    pp ∈ l /\ (forall y, page_kva pp <= y < page_kva pp + PGSIZE -> kmem s1 y = 0) /\ refs s1 pp = 1 /\
    Z.of_nat (length l) <= Z.of_nat (length l1) + 2.
Proof.
  destruct uxstack_legal as (Hu & Hl & _). pose proof (fk_cid F) as [Hc _].
  destruct (u_page_alloc_spec s l le k me ce (hm_proc F) cid e dc uxstack 7 (fork_resolve le k me ce d cid e dc s l F)
    Hdc ltac:(lia) Hu Hl eq_refl ltac:(lia)) as (s1 & l1 & pp & C & M & Hpp & Hz & Hr & Hll).
  exists s1, l1, pp. split_and!; try assumption. unfold b2z in Hll. case_decide; lia.
Qed.

Lemma child_own x' : own_record me ce e x' = ce.
Proof. unfold own_record. by rewrite decide_False. Qed.

(** The child's record gets the handler and is made runnable. *)
Lemma setup_records s4 l4 :
  forking s4 l4 le k me ce d cid e dc -> envs s4 !! e = Some x ->
  (exists p f, trans s4 dc pgfault_upcall = Some (p, f) /\ Z.land f M_UR = M_UR) ->
  exists s5 s6, u_env_set_pgfault_upcall cid pgfault_upcall s4 = Ret 0 s5 /\ u_env_set_status cid 2 s5 = Ret 0 s6 /\
    home s6 l4 le k me ce d /\ envs s6 = <[e := set_env_status ENV_RUNNABLE (set_env_pgfault_upcall pgfault_upcall x)]> (envs s4) /\
    kmem s6 = kmem s4 /\ pages s6 = pages s4 /\ (forall i, space s6 i = space s4 i).
Proof.
  intros F4 Hx4 (p & f & Ht & Hf). pose proof (fk_cid F4) as [Hc Hce].
  pose proof (fk_child F4) as [Hdc4 _]. pose proof (fork_resolve le k me ce d cid e dc s4 l4 F4) as E4.
  set (x1 := set_env_pgfault_upcall pgfault_upcall x).
  assert (env_status x <> ENV_FREE) as Hu by exact (resolved_used s4 e x dc Hx4 Hdc4).
  destruct (u_upcall_spec s4 l4 le k me ce cid e x dc (hm_proc F4) E4 Hx4 Hdc4 ltac:(lia) pgfault_upcall p f (fk_cself F4)
    (proj1 Hup) Ht Hf) as (a & C5 & P5). fold x1 in C5, P5. rewrite child_own in P5.
  set (s5 := set_user_mem_check_addr a (with_record s4 e x1)) in *.
  assert (envs s5 !! e = Some x1) as Hx5 by apply lookup_insert_eq.
  assert (forall i, space s5 i = space s4 i) as Hsp5 by exact (record_space s4 e x x1 Hx4 Hu Hu eq_refl).
  assert (home s5 l4 le k me ce d) as H5.
  { rewrite <- (child_own x1). apply (home_record s4 l4 le k me ce e x dc (hm_proc F4) Hx4 Hdc4 d x1 s5 F4); try done.
    by rewrite child_own. }
  assert (resolve s5 me ce cid = Some e) as E5.
  { destruct (fk_rec F4) as (y & Hy & Hid & Hp & _). assert (y = x) as -> by congruence.
    unfold resolve. rewrite (proj2 (Z.eqb_neq _ _)) by lia. rewrite Hce, Hx5. cbn [mbind option_bind].
    rewrite bool_decide_false by exact Hu. cbn [negb andb x1 env_id env_parent_id set_env_pgfault_upcall].
    by rewrite Hid, Z.eqb_refl, (proj2 (Z.eqb_neq _ _) Hne), Hp, Z.eqb_refl. }
  assert (space s5 e = Some dc) as Hdc5 by by rewrite Hsp5.
  destruct (u_runnable_spec s5 l4 le k me ce cid e x1 dc (hm_proc H5) E5 Hx5 Hdc5 ltac:(lia)) as [C6 P6].
  set (x2 := set_env_status ENV_RUNNABLE x1) in *. set (s6 := with_record s5 e x2) in *.
  exists s5, s6. split; [exact C5|]. split; [exact C6|]. split; [|split; [|split; [done|split; [done|]]]].
  - rewrite <- (child_own x2). apply (home_record s5 l4 le k me ce e x1 dc (hm_proc H5) Hx5 Hdc5 d x2 s6 H5); done.
  - unfold s6, s5. cbn [envs with_record set_envs set_user_mem_check_addr]. apply insert_insert_eq.
  - intros i. rewrite <- Hsp5. by apply (record_space s5 e x1 x2 Hx5 Hu).
Qed.

(** After the steps on memory: the child's stack is page [pp], mapped nowhere
    else; the parent's own stack, page [px], is cleared. *)
Record restacked (s' : kstate) (l' : list Z) (pp : Z) : Prop := {
  rs_fork : forking s' l' le k me ce d cid e dc;
  rs_child : forall va, is_u32 va -> va_legal va = true -> trans s' dc va = if decide (va = uxstack) then Some (pp, 7) else trans s dc va;
  rs_own : forall va, is_u32 va -> va_legal va = true -> trans s' d va = trans s d va;
  rs_refs : refs s' pp = 1 /\ maps s' pp = 1;
  rs_zero : forall y, page_kva pp <= y < page_kva pp + PGSIZE \/ page_kva px <= y < page_kva px + PGSIZE -> kmem s' y = 0;
  rs_mem : forall q, 0 < maps s q -> q <> px -> same_page s s' q;
  rs_maps : forall q, 0 < maps s q -> maps s' q = maps s q;
  rs_len : Z.of_nat (length l) <= Z.of_nat (length l') + 3;
  rs_envs : envs s' = envs s }.

Lemma setup_memory :
  exists s1 s2 s3 s4 l4 pp, u_page_alloc cid uxstack PTE_UPW s = Ret 0 s1 /\
    u_page_map cid uxstack (env_id ce) PFTEMP PTE_UPW s1 = Ret 0 s2 /\
    umemmove (Z.to_nat PGSIZE) uxstack PFTEMP s2 = Ret tt s3 /\ u_page_unmap (env_id ce) PFTEMP s3 = Ret 0 s4 /\
    restacked s4 l4 pp.
Proof.
  destruct uxstack_legal as (Hu & Hl & Hpn). destruct pftemp_low as (Hu2 & Hl2 & Hpn2). destruct Hown as [Ho Hfx].
  assert (uxstack <> PFTEMP) as Hdiff by (intros E; rewrite <- E, Hpn in Hpn2; discriminate).
  destruct setup_alloc as (s1 & l1 & pp & C1 & M1 & Hpp & Hz & Hr & Hll1).
  assert (l1 <> []) as Hl1 by (intros ->; cbn [length] in Hll1; lia).
  pose proof (pr_ok (hm_proc F)) as K. pose proof (hm_me F) as Hme.
  pose proof (forking_moved le k me ce d cid e dc s s1 l l1 e dc uxstack _ F M1) as F1.
  assert (0 < maps s px) as Hpx by by apply (mapped_maps s me d uxstack px fx (ko_envs K)).
  pose proof (free_unmapped s l k pp (@ko_maps _ _ _ _ K) Hpp) as Hpp0. assert (px <> pp) as Hxp by (intros ->; lia).
  assert (forall va, is_u32 va -> va_legal va = true -> trans s1 d va = trans s d va) as T1
    by (intros va Hv Hlv; by apply (mv_other M1 (not_eq_sym Hne) Hme)).
  assert (forall q, maps s1 q = maps s q + b2z (pp = q)) as N1.
  { intros q. rewrite (mv_maps M1), Hchild. cbn [fmap option_fmap option_map fst].
    rewrite (b2z_false (None = Some q)) by done. unfold b2z. repeat case_decide; congruence || lia. }
  assert (forall q, 0 < maps s q -> 0 < maps s1 q) as P1 by (intros q Hq; rewrite N1; pose proof (b2z_nonneg (pp = q)); lia).
  assert (trans s1 dc uxstack = Some (pp, 7)) as Hc1 by (by rewrite (mv_here M1), decide_True).
  assert (0 < maps s1 pp) as Hpp1 by (rewrite N1, b2z_true by done; lia).
  set (temp := PFTEMP) in *. assert ((0 <= temp < UTOP /\ temp mod PGSIZE = 0) /\ (0 <= uxstack < UTOP /\ uxstack mod PGSIZE = 0)) as [[Rt T0] [Rx X0]]
    by (split; (split; [split; [by vm_compute|done]|done])).
  assert (with_temp d s1 pp temp temp = Some (pp, 7)) as W1 by (unfold with_temp; by rewrite decide_True).
  assert (with_temp d s1 pp temp uxstack = Some (px, fx)) as W2 by (unfold with_temp; by rewrite decide_False, T1).
  destruct (temp_spec le k me ce d cid e dc s1 l1 uxstack pp temp (env_id ce) F1 ltac:(by right) (conj Hu Hl) Hc1 ltac:(lia) (conj Rt T0)
    ltac:(by rewrite T1) Hl1 temp uxstack pp 7 px fx Rt T0 W1 eq_refl Rx X0 W2 Hfx Hxp Hpp1 (P1 px Hpx)) as (s2 & s3 & s4 & l4 & C2 & C3 & C4 & V).
  destruct V as [V1 V2 V3 V4 V5 V6 V7 V8]. assert (forall t, space s1 t = space s t) as Sp1 by (intros t; apply space_ext; by rewrite (mv_envs M1)).
  assert (same_page s1 s4 pp) as Q by by apply V4.
  exists s1, s2, s3, s4, l4, pp. split_and!; try assumption. split; [exact V1|..].
  - intros va Hv Hlv. rewrite (V2 e) by (done || (rewrite Sp1; apply (fk_child F))). by apply (mv_here M1).
  - intros va Hv Hlv. rewrite (V2 me) by (done || by rewrite Sp1). by apply T1.
  - assert (maps s4 pp = 1) as N4 by (rewrite V5, N1, b2z_true by done; lia).
    split; [|exact N4]. by rewrite (mp_refs _ _ _ _ (ko_maps (pr_ok (hm_proc V1)) (p := pp) ltac:(lia))).
  - assert (forall y, page_kva pp <= y < page_kva pp + PGSIZE -> kmem s4 y = 0) as E4 by (intros y Hy; rewrite <- (Q y Hy); by apply Hz).
    intros y [Hy|Hy]; [by apply E4|]. specialize (V3 (y - page_kva px) ltac:(lia)).
    replace (page_kva px + (y - page_kva px)) with y in V3 by lia. rewrite V3. apply Hz. lia.
  - intros q Hq Hqx y Hy. rewrite (mv_mem M1 q Hq y Hy). by apply (V4 q (P1 q Hq)).
  - intros q Hq. rewrite V5, N1, b2z_false by (intros ->; lia). lia.
  - unfold b2z in V7. case_decide; lia.
  - rewrite V8. apply (mv_envs M1).
Qed.

Lemma child_setup_spec :
  exists s' s4 l' pp, (forall sa, calls "sys_page_alloc" sa = Ret tt s -> child_setup (env_id ce) cid sa = Ret cid s') /\ restacked s4 l' pp /\ home s' l' le k me ce d /\
    envs s' = <[e := set_env_status ENV_RUNNABLE (set_env_pgfault_upcall pgfault_upcall x)]> (envs s) /\
    kmem s' = kmem s4 /\ pages s' = pages s4 /\ (forall i, space s' i = space s4 i).
Proof.
  destruct setup_memory as (s1 & s2 & s3 & s4 & l4 & pp & C1 & C2 & C3 & C4 & R).
  destruct uxstack_legal as (Hu & Hl & Hpn). destruct Hup as (Hw & p & f & Ht & Hf).
  destruct (setup_records s4 l4 (rs_fork _ _ _ R)) as (s5 & s6 & C5 & C6 & H6 & He & Hm & Hp & Hsp).
  - by rewrite (rs_envs _ _ _ R).
  - exists p, f. split; [|done]. apply (word_trans s s4 dc _ p f Hw Ht). intros b Hb1 Hb2 Hb.
    rewrite (rs_child _ _ _ R), decide_False by (done || (intros ->; congruence)). done.
  - exists s6, s4, l4, pp. split; [|split; [done|split; [done|split; [by rewrite He, (rs_envs _ _ _ R)|done]]]].
    intros sa C0. unfold child_setup. mstep C0. fold uxstack. mstep C1. change (0 <? 0) with false. cbn iota. mstep C2. change (0 <? 0) with false. cbn iota.
    mstep C3. mstep C4. change (0 <? 0) with false. cbn iota. mstep C5. change (0 <? 0) with false. cbn iota. by mstep C6.
Qed.
End Setup.

(** ** fork *)

Section ForkCall.
Context {stabs : StabSections} {image : UserImage} {stack : StackUse}.
Context (lo hi : Z).

(** What fork promises its caller [me] when it returns [cid]: environment [e]
    is a runnable child that will see the result 0, with the handler installed
    and an exception stack of its own; it shares every page from the text to
    the stack with the parent, copy-on-write, except that the parent has already
    got its own copy [pp] of the stack's page [pst]; neither has anything else
    mapped that it had not before.  The frames of the parent's calls lie between
    [lo] and [hi]. *)
Record forked (s s' : kstate) (me : Z) (ce : Env) (d cid e dc ph px pst : Z) (x : Env) : Prop := {
  fd_child : envs s' !! e = Some x /\ env_id x = cid /\ ENVX cid = e /\ e <> me /\ env_parent_id x = env_id ce;
  fd_ready : env_status x = ENV_RUNNABLE /\ env_tf x = with_eax (env_tf ce) 0 /\ env_pgfault_upcall x = pgfault_upcall;
  fd_others : forall i, i <> me -> i <> e -> envs s' !! i = envs s !! i;
  fd_spaces : space s' me = Some d /\ space s' e = Some dc;
  fd_copied : forall va, is_u32 va -> va_legal va = true -> fork_lo <= PGNUM va < fork_hi ->
    trans s' dc va = child_view (trans s d va) /\ (va <> ustack -> trans s' d va = parent_view (trans s d va));
  fd_ustack : exists pp, trans s' d ustack = Some (pp, PTE_UPW) /\ refs s' pp = 1 /\ pp <> pst /\
    forall o, 0 <= o < PGSIZE -> ~ lo - ustack <= o < hi - ustack -> kmem s' (page_kva pp + o) = kmem s (page_kva pst + o);
  fd_below : forall va, is_u32 va -> va_legal va = true -> PGNUM va < fork_lo -> trans s' dc va = None /\ trans s' d va = trans s d va;
  fd_stack : exists pp, trans s' dc uxstack = Some (pp, 7) /\ refs s' pp = 1 /\
    forall y, page_kva pp <= y < page_kva pp + PGSIZE -> kmem s' y = 0;
  fd_own_stack : (exists f, trans s' d uxstack = Some (px, f)) /\
    forall y, page_kva px <= y < page_kva px + PGSIZE -> kmem s' y = 0;
  fd_mem : forall q y, 0 < maps s q -> q <> px -> page_kva q <= y < page_kva q + PGSIZE ->
    y < at_page ph pgfault_handler_va \/ at_page ph pgfault_handler_va + 4 <= y -> ~ in_frames lo hi pst y -> kmem s' y = kmem s y }.

Lemma dup_perm_ur f : Z.land (dup_perm f) M_UR = M_UR.
Proof. unfold dup_perm. by destruct (has f PTE_W || has f PTE_COW). Qed.

Lemma urw_cow f : Z.land f M_URW = M_URW -> dup_perm f = 0x805.
Proof.
  intros Hf. unfold dup_perm. change PTE_W with (2 ^ 1). rewrite (land_mask_has f M_URW 1 ltac:(lia) Hf eq_refl). done.
Qed.

Lemma parent_view_ur p f : Z.land f M_UR = M_UR -> exists f', parent_view (Some (p, f)) = Some (p, f') /\ Z.land f' M_UR = M_UR.
Proof.
  intros Hf. cbn [parent_view]. destruct (has (dup_perm f) PTE_COW); [exists (dup_perm f); split; [done|apply dup_perm_ur]|by exists f].
Qed.

(** Frames written before the fork do not matter. *)
Lemma forked_scribbled s sa s' l le k me ce d cid e dc ph px pst x :
  home s l le k me ce d -> scribbled l le k me ce d lo hi pst s sa -> (exists f, trans s d ustack = Some (pst, f)) ->
  forked sa s' me ce d cid e dc ph px pst x -> forked s s' me ce d cid e dc ph px pst x.
Proof.
  intros H [T M] (f & Ht) [F1 F2 F3 F4 F5 (pp & U1 & U2 & U3 & U4) F7 F8 F9 F10].
  pose proof (fun b Hb Hl => touched_map l le k me ce d pst s sa me d b T (hm_me H) Hb Hl) as Tm. split; try done.
  - intros i Hi Hie. rewrite (F3 i Hi Hie). by rewrite (to_envs _ _ _ _ _ _ _ _ _ T).
  - intros va Hv Hl. rewrite <- (Tm va Hv Hl). by apply F5.
  - exists pp. split; [exact U1|]. split; [exact U2|]. split; [exact U3|]. intros o Ho Hout. rewrite (U4 o Ho Hout).
    apply M. unfold in_frames. lia.
  - intros va Hv Hl. rewrite <- (Tm va Hv Hl). by apply F7.
  - intros q y Hq Hqx Hy Hout Hn. rewrite <- (M y Hn). apply (F10 q); try done. by rewrite (to_maps _ _ _ _ _ _ _ _ _ T).
Qed.

Lemma tables_nonneg s1 d1 : 0 <= tables s1 d1.
Proof. apply zsum_nonneg. intros. apply b2z_nonneg. Qed.

Hypothesis Hst : stack_in lo hi.
Hypothesis Hcode : pgfault_upcall <> 0.

Section Parent.
Context (s : kstate) (l le : list Z) (k me : Z) (ce : Env) (d ph pt pst e : Z).
Hypothesis H : home s l (e :: le) k me ce d.
Hypothesis V : handler_vars s me ce d ph pt pst.
Hypothesis Hup : fork_lo <= PGNUM (ROUNDDOWN pgfault_upcall PGSIZE) < fork_hi.
Hypothesis Htemp : trans s d PFTEMP = None.
Hypothesis Hcount : forall p, maps s p + dir_maps s d p < 65535.
Hypothesis Hroom : tables s d + 9 <= Z.of_nat (length l).

(** Up to the loops: the handler is installed and the child is born. *)
Lemma fork_born :
  exists s1 l1 ce1 px s2 l2 dc x, set_pgfault_handler pgfault_code s = Ret tt s1 /\
    handled s s1 l l1 (e :: le) k me ce ce1 d ph pgfault_code px /\ (px <> ph /\ px <> pst) /\ (forall i, i <> me -> envs s1 !! i = envs s !! i) /\
    u_exofork s1 = Ret (env_id x) s2 /\ born s1 s2 l2 le k me ce1 d e dc x /\
    copied le k me ce1 d (env_id x) e dc s2 (Z.of_nat (length l) - tables s d - 4) lo hi pst fork_lo s2 l2 /\
    (forall p, maps s2 p + dir_maps s2 d p < 65535).
Proof.
  pose proof (tables_nonneg s d) as H0.
  destruct (handler_spec s l (e :: le) k me ce d ph pt pst pgfault_code H V ltac:(lia)) as (s1 & l1 & ce1 & px & C1 & A & Hpx & He).
  destruct (ha_tables _ _ _ _ _ _ _ _ _ _ _ _ _ A) as [Ht Hl]. pose proof (ha_home _ _ _ _ _ _ _ _ _ _ _ _ _ A) as H1.
  destruct l1 as [|n l2]; [cbn [length] in Hl; lia|].
  destruct (u_exofork_spec s1 n l2 e le k me ce1 d H1) as (s2 & x & C2 & B).
  exists s1, (n :: l2), ce1, px, s2, l2, n, x. split; [exact C1|]. split; [exact A|]. split; [exact Hpx|]. split; [exact He|].
  split; [exact C2|]. split; [exact B|]. pose proof (bn_kept _ _ _ _ _ _ _ _ _ _ _ B) as Hk. split.
  - apply copied_start; [apply B|apply B|]. cbn [length] in Hl. enough (tables s2 d <= tables s1 d) by lia.
    apply tables_le. intros i [Hi _]%uslot_in. by rewrite (kept_tbl s1 s2 d Hk).
  - intros p. rewrite (bn_maps _ _ _ _ _ _ _ _ _ _ _ B), (kept_dir_maps s1 s2 d Hk).
    assert (dir_maps s1 d p <= maps s1 p) as Hle.
    { rewrite <- (env_maps_eq s1 p me d (hm_me H1)). apply maps_ge.
      apply (space_range s1 me d (ko_envs (pr_ok (hm_proc H1))) (hm_me H1)). }
    destruct (decide (0 < maps s1 p)) as [Hp|]; [|lia].
    destruct (ha_new _ _ _ _ _ _ _ _ _ _ _ _ _ A p Hp) as [Hs|Hs]; [|lia].
    destruct (ha_maps _ _ _ _ _ _ _ _ _ _ _ _ _ A p Hs) as [-> ->]. apply Hcount.
Qed.

(** What the loops leave: everything is shared, the stack, too. *)
Record looped (s3 : kstate) (l3 : list Z) (ce1 : Env) (px cid dc : Z) (x : Env) : Prop := {
  lp_kin : forking s3 l3 le k me ce1 d cid e dc;
  lp_envs : envs s3 !! e = Some x /\ forall i, i <> me -> i <> e -> envs s3 !! i = envs s !! i;
  lp_rec : env_id x = cid /\ env_tf x = with_eax (env_tf ce) 0 /\ env_id ce1 = env_id ce /\ env_pgfault_upcall ce1 = pgfault_upcall;
  lp_in : forall va, is_u32 va -> va_legal va = true -> fork_lo <= PGNUM va < fork_hi ->
    trans s3 dc va = child_view (trans s d va) /\ trans s3 d va = parent_view (trans s d va);
  lp_out : forall va, is_u32 va -> va_legal va = true -> ~ fork_lo <= PGNUM va < fork_hi ->
    trans s3 dc va = None /\ (va <> uxstack -> trans s3 d va = trans s d va);
  lp_stack : exists fx, trans s3 d uxstack = Some (px, fx) /\ Z.land fx M_URW = M_URW;
  lp_px : px <> ph /\ px <> pst;
  lp_word : ld32 (kmem s3) (at_page ph pgfault_handler_va) = u32 pgfault_code;
  lp_maps : forall q, 0 < maps s q -> 0 < maps s3 q;
  lp_mem : forall q y, 0 < maps s q -> page_kva q <= y < page_kva q + PGSIZE ->
    y < at_page ph pgfault_handler_va \/ at_page ph pgfault_handler_va + 4 <= y -> ~ in_frames lo hi pst y -> kmem s3 y = kmem s y;
  lp_len : Z.of_nat (length l) - tables s d - 4 <= Z.of_nat (length l3) }.

Lemma fork_looped :
  exists s1 s2 s3 l3 ce1 px cid dc x, set_pgfault_handler pgfault_code s = Ret tt s1 /\ u_exofork s1 = Ret cid s2 /\ 0 < cid < 2 ^ 31 /\
    fork_pdes (Z.to_nat (PDX UXSTACKTOP - PDX UTEXT)) cid (PDX UTEXT) s2 = Ret tt s3 /\ looped s3 l3 ce1 px cid dc x.
Proof.
  destruct fork_born as (s1 & l1 & ce1 & px & s2 & l2 & dc & x & C1 & A & Hpx & He1 & C2 & B & Co & Hc2).
  destruct A as [A1 (A2 & A2' & A2'') A3 A4 A5 A6 A7 A8 A9]. destruct B as [B1 B2 B3 B4 B5 B6 B7 B8].
  destruct fork_bounds as (Blo & Bhi & _). destruct uxstack_legal as (Hu & Hl & Hpn). destruct ustack_legal as (Su & Sl & _).
  assert (forall va, is_u32 va -> va_legal va = true -> va <> uxstack -> trans s2 d va = trans s d va) as T2.
  { intros va Hv Hlv Hne. rewrite (kept_trans s1 s2 d B6) by by apply va_legal_user. by apply A4. }
  destruct (hv_stack _ _ _ _ _ _ _ V) as [(fs & Hs & Hfs) Hg].
  destruct (fork_pdes_spec le k me ce1 d (env_id x) e dc s2 (Z.of_nat (length l) - tables s d - 4) lo hi pst fs ltac:(lia) Hc2 Hst
    ltac:(by rewrite T2) ltac:(rewrite T2 by (done || (split; [by vm_compute|done])); exact Hg)
    (Z.to_nat (PDX UXSTACKTOP - PDX UTEXT)) (PDX UTEXT) s2 l2) as (s3 & l3 & C3 & [D1 D2 D3 D4 D5 D6 D7 D8 D9]); [done|done| |].
  { replace (Z.min _ _) with fork_lo by (rewrite Blo, Bhi; by vm_compute). exact Co. }
  exists s1, s2, s3, l3, ce1, px, (env_id x), dc, x. split; [exact C1|]. split; [exact C2|]. split; [apply (fk_cid D1)|]. split; [exact C3|].
  destruct A3 as (fx & Hstk & Hfx). destruct (hv_handler _ _ _ _ _ _ _ V) as [Ww (fh & Hth & _)].
  pose proof (word_mapped s me d _ ph fh (ko_envs (pr_ok (hm_proc H))) (hm_me H) Ww Hth) as Mh.
  assert (forall q, 0 < maps s q -> maps s2 q = maps s q) as N2 by (intros q Hq; rewrite B8; by apply A5).
  assert (forall q y, 0 < maps s q -> page_kva q <= y < page_kva q + PGSIZE -> ~ in_frames lo hi pst y -> kmem s3 y = kmem s1 y) as K3.
  { intros q y Hq Hy Hn. rewrite (D4 q y ltac:(by rewrite N2) Hy Hn). symmetry. apply (B7 q); [by rewrite <- B8, N2|done]. }
  split.
  - exact D1.
  - split; [rewrite D9, B2; apply lookup_insert_eq|]. intros i Hi Hie. rewrite D9, B2, lookup_insert_ne by done. by apply He1.
  - split; [reflexivity|]. split; [by rewrite B4, A2'|]. split; [exact A2|exact A2''].
  - intros va Hv Hlv Hr. rewrite D2, D3, !decide_True, T2 by (done || (intros ->; lia)). done.
  - intros va Hv Hlv Hr. rewrite D2, D3, !decide_False by done. split; [done|]. by apply T2.
  - exists fx. split; [|exact Hfx]. rewrite D3, decide_False by (done || lia). by rewrite (kept_trans s1 s2 d B6) by by apply va_legal_user.
  - exact Hpx.
  - rewrite <- A8. apply ld32_ext. intros y Hy. destruct Ww as [_ Wo]. destruct (hv_apart _ _ _ _ _ _ _ V) as [Nh _].
    destruct (st_range _ _ Hst) as [S1 S2].
    apply (K3 ph); [done|unfold at_page, PGSIZE in *; word_lia|]. unfold in_frames, at_page, page_kva, PGSIZE in *. word_lia.
  - intros q Hq. rewrite D5, (N2 q Hq). pose proof (dir_maps_nonneg s3 dc q). lia.
  - intros q y Hq Hy Hout Hn. rewrite (K3 q y Hq Hy Hn). by apply (A7 q).
  - assert (tables s3 dc <= tables s2 d) by (by apply tables_le). lia.
Qed.

(** The parent's own copy of the stack, and then the child's exception stack. *)
Section Ending.
Context (s3 s4 : kstate) (l3 l4 : list Z) (ce1 : Env) (px cid dc pp : Z) (x : Env).
Hypothesis L : looped s3 l3 ce1 px cid dc x.

Lemma looped_settle :
  exists s4 l4 pp, calls "sys_page_alloc" s3 = Ret tt s4 /\ settled lo hi s3 l3 le k me ce1 d pst px s4 l4 pp.
Proof.
  destruct ustack_legal as (Su & Sl & Sp). destruct pftemp_low as (Tu & Tl & Tp).
  destruct (hv_stack _ _ _ _ _ _ _ V) as [(fs & Hs & Hfs) _]. destruct (hv_handler _ _ _ _ _ _ _ V) as [Ww (fh & Hth & Hfh)].
  destruct (lp_in _ _ _ _ _ _ _ L ustack Su Sl ltac:(rewrite Sp; by vm_compute)) as [_ Es]. rewrite Hs in Es.
  cbn [parent_view] in Es. rewrite (urw_cow fs Hfs) in Es.
  apply (calls_settle lo hi Hst s3 l3 le k me ce1 d pst 0x805 px (default 0 (snd <$> trans s3 d uxstack)) ph (fk_home (lp_kin _ _ _ _ _ _ _ L))).
  - split; [apply L|exact Hcode].
  - split; [exact Es|]. split; [done|]. split; [by vm_compute|done].
  - destruct (lp_stack _ _ _ _ _ _ _ L) as (fx & Hx & Hfx). rewrite Hx. by split.
  - split; [exact Ww|]. split; [|apply L]. destruct Ww as [Wr _].
    destruct (round_page _ Wr) as (_ & _ & Hub & Hlb & _ & _ & Hd & Hx & _).
    rewrite <- (trans_page s3 d _ _ Hd Hx). rewrite <- (trans_page s d _ _ Hd Hx) in Hth. pose proof (urw_ur fh Hfh) as Hr.
    destruct (decide (fork_lo <= PGNUM (ROUNDDOWN pgfault_handler_va PGSIZE) < fork_hi)) as [Hi|Hn].
    + destruct (lp_in _ _ _ _ _ _ _ L _ Hub Hlb Hi) as [_ ->]. rewrite Hth.
      destruct (parent_view_ur ph fh Hr) as (f' & -> & Hf'). by exists f'.
    + destruct (lp_out _ _ _ _ _ _ _ L _ Hub Hlb Hn) as [_ ->]; [by exists fh|]. intros E. rewrite E in Hth.
      destruct (hv_state _ _ _ _ _ _ _ V) as [(_ & _ & px' & f' & Ht & _ & Np & _)|(_ & Ht & _)]; congruence.
  - destruct (lp_px _ _ _ _ _ _ _ L). done.
  - rewrite <- Htemp. apply (lp_out _ _ _ _ _ _ _ L PFTEMP Tu Tl); [lia|]. intros E. destruct uxstack_legal as (_ & _ & Hpn).
    rewrite E, Hpn in Tp. discriminate Tp.
  - pose proof (lp_len _ _ _ _ _ _ _ L). lia.
Qed.

Hypothesis S : settled lo hi s3 l3 le k me ce1 d pst px s4 l4 pp.

Lemma settled_space t : space s4 t = space s3 t.
Proof. apply space_ext. by rewrite (se_envs _ _ _ _ _ _ _ _ _ _ _ _ _ _ S). Qed.

Lemma settled_forking : forking s4 l4 le k me ce1 d cid e dc.
Proof.
  destruct (lp_kin _ _ _ _ _ _ _ L) as [F1 F2 F3 F4 F5]. pose proof (se_envs _ _ _ _ _ _ _ _ _ _ _ _ _ _ S) as He.
  split; [apply S|by rewrite settled_space|done|by rewrite He|].
  unfold self_mapped, tbl in *. by rewrite (se_uvpt _ _ _ _ _ _ _ _ _ _ _ _ _ _ S e dc (proj1 F2)).
Qed.

(** The two address spaces after the copy. *)
Lemma settled_spaces :
  (forall va, is_u32 va -> va_legal va = true -> trans s4 dc va = trans s3 dc va) /\
  (forall va, is_u32 va -> va_legal va = true -> va <> ustack -> trans s4 d va = trans s3 d va) /\ trans s4 d ustack = Some (pp, PTE_UPW).
Proof.
  destruct (fk_child (lp_kin _ _ _ _ _ _ _ L)) as [Hdc Hne]. destruct ustack_legal as (Su & Sl & _). split; [|split].
  - intros va Hv Hl. by apply (se_other _ _ _ _ _ _ _ _ _ _ _ _ _ _ S e).
  - intros va Hv Hl Hn. by rewrite (se_here _ _ _ _ _ _ _ _ _ _ _ _ _ _ S), decide_False.
  - by rewrite (se_here _ _ _ _ _ _ _ _ _ _ _ _ _ _ S), decide_True.
Qed.

(** Every page of the parent is still mapped by one of the two. *)
Lemma settled_maps q : 0 < maps s q -> 0 < maps s4 q.
Proof.
  intros Hq. pose proof (lp_maps _ _ _ _ _ _ _ L q Hq) as H3. destruct (decide (q = pst)) as [->|Hn].
  - destruct settled_spaces as (Tc & _). destruct ustack_legal as (Su & Sl & Sp). destruct (hv_stack _ _ _ _ _ _ _ V) as [(fs & Hs & _) _].
    destruct (lp_in _ _ _ _ _ _ _ L ustack Su Sl ltac:(rewrite Sp; by vm_compute)) as [Es _]. rewrite Hs, <- Tc in Es by done.
    apply (mapped_maps s4 e dc ustack pst (dup_perm fs) (ko_envs (pr_ok (hm_proc settled_forking)))); try done. apply settled_forking.
  - rewrite (se_maps _ _ _ _ _ _ _ _ _ _ _ _ _ _ S), (b2z_false (pst = q)) by congruence. pose proof (b2z_nonneg (pp = q)). lia.
Qed.

Lemma looped_end :
  exists s' s5 l5 pc, (forall sa, calls "sys_page_alloc" sa = Ret tt s4 -> child_setup (env_id ce) cid sa = Ret cid s') /\
    restacked s4 l4 le k me ce1 d cid e dc px s5 l5 pc /\ home s' l5 le k me ce1 d /\
    envs s' = <[e := set_env_status ENV_RUNNABLE (set_env_pgfault_upcall pgfault_upcall x)]> (envs s3) /\
    kmem s' = kmem s5 /\ pages s' = pages s5 /\ (forall i, space s' i = space s5 i) /\
    Z.of_nat (length l) <= Z.of_nat (length l5) + tables s d + 9.
Proof.
  destruct settled_spaces as (Tc & To & _). destruct uxstack_legal as (Xu & Xl & Xp). destruct pftemp_low as (Tu & Tl & Tp).
  destruct ustack_legal as (Su & Sl & Sp). destruct (hv_upcall _ _ _ _ _ _ _ V) as (Hw & pu & fu & Htu & Hfu).
  pose proof (se_envs _ _ _ _ _ _ _ _ _ _ _ _ _ _ S) as He. pose proof (se_len _ _ _ _ _ _ _ _ _ _ _ _ _ _ S) as Hl4.
  pose proof (lp_len _ _ _ _ _ _ _ L) as Hl3. destruct (lp_rec _ _ _ _ _ _ _ L) as (_ & _ & Hid & _).
  destruct (lp_stack _ _ _ _ _ _ _ L) as (fx & Hx & Hfx).
  assert (uxstack <> ustack /\ PFTEMP <> ustack /\ PFTEMP <> uxstack) as (N1 & N2 & N3).
  { split_and!; intros E; [rewrite E, Sp in Xp; discriminate Xp|rewrite E, Sp in Tp; discriminate Tp|rewrite E, Xp in Tp; discriminate Tp]. }
  destruct (child_setup_spec s4 l4 le k me ce1 d cid e dc px fx x settled_forking) as (s' & s5 & l5 & pc & C & R & H' & He' & Hm & Hp & Hs).
  - rewrite He. apply L.
  - unfold b2z in Hl4. case_decide; lia.
  - rewrite Tc by done. apply (lp_out _ _ _ _ _ _ _ L uxstack Xu Xl). lia.
  - by rewrite To.
  - rewrite To by done. rewrite <- Htemp. apply (lp_out _ _ _ _ _ _ _ L PFTEMP Tu Tl); [lia|done].
  - split; [done|]. exists pu, (dup_perm fu). split; [|apply dup_perm_ur]. destruct Hw as [Hva _].
    destruct (round_page _ Hva) as (_ & _ & Hub & Hlb & _ & _ & Hd & Hpx & _).
    rewrite <- (trans_page s4 dc _ _ Hd Hpx), Tc by done. destruct (lp_in _ _ _ _ _ _ _ L _ Hub Hlb Hup) as [-> _].
    by rewrite (trans_page s d _ _ Hd Hpx), Htu.
  - exists s', s5, l5, pc. rewrite <- Hid. split; [exact C|]. split; [exact R|]. split; [exact H'|]. split; [by rewrite He', He|].
    split; [exact Hm|]. split; [exact Hp|]. split; [exact Hs|]. pose proof (rs_len _ _ _ _ _ _ _ _ _ _ _ _ _ _ R).
    unfold b2z in Hl4. case_decide; lia.
Qed.

(** The contract. *)
Lemma looped_forked s' s5 l5 pc :
  restacked s4 l4 le k me ce1 d cid e dc px s5 l5 pc -> home s' l5 le k me ce1 d ->
  envs s' = <[e := set_env_status ENV_RUNNABLE (set_env_pgfault_upcall pgfault_upcall x)]> (envs s3) ->
  kmem s' = kmem s5 -> pages s' = pages s5 -> (forall i, space s' i = space s5 i) ->
  forked s s' me ce d cid e dc ph px pst (set_env_status ENV_RUNNABLE (set_env_pgfault_upcall pgfault_upcall x)).
Proof.
  intros [R1 R2 R3 [R4 _] R5 R6 Rm _ R7] H' He Hm Hp Hsp. destruct settled_spaces as (Tc & To & Ts).
  destruct uxstack_legal as (Xu & Xl & Xp). destruct ustack_legal as (Su & Sl & Sp).
  destruct (lp_rec _ _ _ _ _ _ _ L) as (Hid & Htf & Hide & _). destruct (lp_envs _ _ _ _ _ _ _ L) as [Hx3 Ho3].
  pose proof (lp_kin _ _ _ _ _ _ _ L) as F3. destruct (fk_rec F3) as (y & Hy & _ & Hpar & _). assert (y = x) as -> by congruence.
  destruct (fk_child F3) as [_ Hne]. destruct (fk_cid F3) as [_ Hcx]. destruct (lp_px _ _ _ _ _ _ _ L) as [Npx Npst].
  assert (forall d' va, trans s' d' va = trans s5 d' va) as Tr by (intros; by apply trans_kmem).
  assert (forall q, 0 < maps s q -> q <> pp) as Npp.
  { intros q Hq ->. destruct (se_new _ _ _ _ _ _ _ _ _ _ _ _ _ _ S) as (_ & E & _). pose proof (lp_maps _ _ _ _ _ _ _ L pp Hq). lia. }
  destruct (se_new _ _ _ _ _ _ _ _ _ _ _ _ _ _ S) as (Npst' & _ & Hr4). pose proof (pr_ok (hm_proc settled_forking)) as K4.
  assert (0 < maps s4 pp) as Mpp by (apply (mapped_maps s4 me d ustack pp PTE_UPW (ko_envs K4) (hm_me settled_forking) Su Sl Ts)).
  destruct (lp_stack _ _ _ _ _ _ _ L) as (fx & Hx & Hfx).
  assert (pp <> px) as Nppx.
  { intros ->. pose proof (mapped_maps s3 me d uxstack px fx (ko_envs (pr_ok (hm_proc F3))) (hm_me F3) Xu Xl Hx).
    destruct (se_new _ _ _ _ _ _ _ _ _ _ _ _ _ _ S) as (_ & E & _). lia. }
  split.
  - rewrite He, lookup_insert_eq. cbn [env_id env_parent_id set_env_status set_env_pgfault_upcall]. rewrite Hpar, Hide. done.
  - split; [done|]. split; [exact Htf|done].
  - intros i Him Hie. rewrite He, lookup_insert_ne by done. by apply Ho3.
  - split; [apply (hm_me H')|]. rewrite Hsp. apply (fk_child R1).
  - intros va Hv Hlv Hr. assert (va <> uxstack) as Hn by (intros ->; lia). destruct (lp_in _ _ _ _ _ _ _ L va Hv Hlv Hr) as [Ec Eo].
    rewrite !Tr, R2, R3, decide_False, Tc by done. split; [exact Ec|]. intros Hnu. by rewrite To.
  - exists pp. rewrite Tr, R3, Ts by done. split; [done|]. split; [|split; [exact Npst'|]].
    + unfold refs in *. rewrite Hp. change (refs s5 pp = 1). assert (maps s5 pp = maps s4 pp) as E5 by by apply Rm.
      rewrite (mp_refs _ _ _ _ (ko_maps (pr_ok (hm_proc R1)) (p := pp) ltac:(lia))), E5.
      rewrite <- (mp_refs _ _ _ _ (ko_maps K4 Mpp)). exact Hr4.
    + intros o Ho Hout. rewrite Hm. rewrite <- (R6 pp Mpp Nppx (page_kva pp + o)) by lia.
      rewrite (se_copy _ _ _ _ _ _ _ _ _ _ _ _ _ _ S o Ho Hout). destruct (hv_stack _ _ _ _ _ _ _ V) as [(fs & Hs & _) _].
      pose proof (mapped_maps s me d ustack pst fs (ko_envs (pr_ok (hm_proc H))) (hm_me H) Su Sl Hs) as Mst.
      destruct (hv_apart _ _ _ _ _ _ _ V) as [Nh _]. destruct (hv_handler _ _ _ _ _ _ _ V) as [[_ Wo] _].
      apply (lp_mem _ _ _ _ _ _ _ L pst); [done|lia|unfold at_page, page_kva, PGSIZE in *; word_lia|unfold in_frames; lia].
  - intros va Hv Hlv Hr. assert (va <> uxstack /\ va <> ustack) as [Hn Hnu]
      by (split; intros ->; [rewrite Xp in Hr|rewrite Sp in Hr]; unfold fork_lo, fork_hi in Hr; by vm_compute in Hr).
    destruct (lp_out _ _ _ _ _ _ _ L va Hv Hlv ltac:(lia)) as [Ec Eo].
    rewrite !Tr, R2, R3, decide_False, Tc, To by done. split; [exact Ec|by apply Eo].
  - exists pc. split; [rewrite Tr, R2, decide_True by done; done|]. split; [unfold refs in *; by rewrite Hp|].
    intros y Hyy. rewrite Hm. apply R5. by left.
  - split; [exists fx; by rewrite Tr, R3, To|]. intros y Hyy. rewrite Hm. apply R5. by right.
  - intros q y Hq Hqx Hyq Hout Hn. rewrite Hm. rewrite <- (lp_mem _ _ _ _ _ _ _ L q y Hq Hyq Hout Hn).
    rewrite (se_mem _ _ _ _ _ _ _ _ _ _ _ _ _ _ S q (lp_maps _ _ _ _ _ _ _ L q Hq) Hqx y Hyq). symmetry. by apply (R6 q (settled_maps q Hq) Hqx).
Qed.
End Ending.

(** From the installation of the handler to the end. *)
Lemma fork_rest :
  exists s' l' ce1 cid dc px x,
    (forall s0 sa, calls "sys_getenvid" s0 = Ret tt sa -> u_getenvid sa = Ret (env_id ce) sa ->
       calls "set_pgfault_handler" sa = Ret tt s -> fork s0 = Ret cid s') /\
    0 < cid < 2 ^ 31 /\ home s' l' le k me ce1 d /\
    forked s s' me ce d cid e dc ph px pst x /\ Z.of_nat (length l) <= Z.of_nat (length l') + tables s d + 9.
Proof.
  destruct fork_looped as (s1 & s2 & s3 & l3 & ce1 & px & cid & dc & x & C1 & C2 & Hc & C3 & L).
  destruct (looped_settle s3 l3 ce1 px cid dc x L) as (s4 & l4 & pp & C4 & S).
  destruct (looped_end s3 s4 l3 l4 ce1 px cid dc pp x L S) as (s' & s5 & l5 & pc & C5 & R & H' & He & Hm & Hp & Hsp & Hl).
  exists s', l5, ce1, cid, dc, px, (set_env_status ENV_RUNNABLE (set_env_pgfault_upcall pgfault_upcall x)).
  split; [|split; [exact Hc|split; [exact H'|split; [by eapply looped_forked|exact Hl]]]].
  intros s0 sa Ca Cb Cc. unfold fork. mstep Ca. mstep Cb. mstep Cc. mstep C1. mstep C2.
  rewrite (proj2 (Z.ltb_ge cid 0)), (proj2 (Z.eqb_neq cid 0)) by lia. mstep C3. exact (C5 s3 C4).
Qed.
End Parent.

(** The whole call. *)
Lemma fork_spec s l le k me ce d ph pt pst e :
  home s l (e :: le) k me ce d -> handler_vars s me ce d ph pt pst ->
  fork_lo <= PGNUM (ROUNDDOWN pgfault_upcall PGSIZE) < fork_hi -> trans s d PFTEMP = None ->
  (forall p, maps s p + dir_maps s d p < 65535) -> tables s d + 9 <= Z.of_nat (length l) ->
  exists s' l' ce1 cid dc px x, fork s = Ret cid s' /\ 0 < cid < 2 ^ 31 /\ home s' l' le k me ce1 d /\
    forked s s' me ce d cid e dc ph px pst x /\ Z.of_nat (length l) <= Z.of_nat (length l') + tables s d + 9.
Proof.
  intros H V Hup Ht Hc Hr. destruct (hv_stack _ _ _ _ _ _ _ V) as [(fs & Hs & Hfs) _].
  destruct (calls_ok l (e :: le) k me ce d lo hi Hst "sys_getenvid" s pst fs H Hs Hfs) as (sa & Ca & Sa).
  pose proof (to_home _ _ _ _ _ _ _ _ _ (sc_touched _ _ _ _ _ _ _ _ _ _ _ Sa)) as Ha. destruct ustack_legal as (Su & Sl & _).
  assert (trans sa d ustack = Some (pst, fs)) as Hsa.
  { rewrite <- Hs. apply (touched_map l (e :: le) k me ce d pst s sa me d); [apply Sa|apply (hm_me H)|done|done]. }
  destruct (calls_ok l (e :: le) k me ce d lo hi Hst "set_pgfault_handler" sa pst fs Ha Hsa Hfs) as (sb & Cb & Sb).
  pose proof (scribbled_trans l (e :: le) k me ce d lo hi pst s sa sb Sa Sb) as S. pose proof (sc_touched _ _ _ _ _ _ _ _ _ _ _ S) as T.
  pose proof (hm_me H) as Hme. destruct pftemp_low as (Tu & Tl & _).
  assert (tables sb d = tables s d) as Etab.
  { pose proof (tables_le s d sb d) as L1. pose proof (tables_le sb d s d) as L2.
    pose proof (fun i Hi => touched_tbl l (e :: le) k me ce d pst s sb me d i T Hme (proj1 (uslot_in i Hi))) as Tb.
    specialize (L1 ltac:(intros i Hi; by rewrite Tb)). specialize (L2 ltac:(intros i Hi; by rewrite Tb)). lia. }
  destruct (fork_rest sb l le k me ce d ph pt pst e (to_home _ _ _ _ _ _ _ _ _ T)
    (vars_scribbled s sb l (e :: le) k me ce d ph pt pst lo hi H V S) Hup) as (s' & l' & ce1 & cid & dc & px & x & C & Hcid & H' & F & Hl).
  - by rewrite (touched_map l (e :: le) k me ce d pst s sb me d PFTEMP T Hme).
  - intros p. rewrite (to_maps _ _ _ _ _ _ _ _ _ T), (kept_dir_maps s sb d (to_kept _ _ _ _ _ _ _ _ _ T me d Hme)). apply Hc.
  - lia.
  - exists s', l', ce1, cid, dc, px, x. split; [|split; [exact Hcid|split; [exact H'|split; [|lia]]]].
    + apply (C s sa Ca); [|exact Cb]. apply (u_getenvid_spec sa l (e :: le) k me ce (hm_proc Ha)). pose proof (hm_id Ha). lia.
    + apply (forked_scribbled s sb s' l (e :: le) k me ce d cid e dc ph px pst x H S); [by exists fs|exact F].
Qed.
End ForkCall.

(** C7. fork, called by any process of a well-formed kernel that runs at home
    (its page tables visible at UVPT, the library's variables and the upcall
    mapped, the temporary address and the page above the stack free, the frames
    of its calls within [lo] and [hi] on the page of its stack) while an
    environment [e] and nine more pages than the process has page tables are free
    and no page is mapped so often that a copy overflows its counter: it returns
    the id of [e], which is now a runnable child of the caller with the caller's
    registers except that fork returns 0 in it, the page-fault upcall installed, a
    copy-on-write copy of the address space, and a zeroed exception stack of its
    own.  The parent's pages are shared with the child copy-on-write, except its
    stack: the first store after the loops has faulted, so the parent's stack is a
    writable page of its own, with the bytes of the old one outside the frames,
    and the child has the old one.  Every other environment's record is
    untouched, and every page that was mapped keeps its bytes, except the handler
    variable's word, the frames, and the caller's exception stack, which is
    zeroed: the memmove that should give the child the parent's exception stack
    has its arguments swapped. *)
Theorem fork_correct {stabs : StabSections} {image : UserImage} {stack : StackUse} (lo hi : Z) (s : kstate) (l le : list Z)
    (k me : Z) (ce : Env) (d ph pt pst e : Z) :
  stack_in lo hi -> pgfault_upcall <> 0 ->
  home s l (e :: le) k me ce d -> handler_vars s me ce d ph pt pst ->
  fork_lo <= PGNUM (ROUNDDOWN pgfault_upcall PGSIZE) < fork_hi -> trans s d PFTEMP = None ->
  (forall p, maps s p + dir_maps s d p < 65535) -> tables s d + 9 <= Z.of_nat (length l) ->
  exists s' l' ce1 cid dc px x, fork s = Ret cid s' /\ 0 < cid < 2 ^ 31 /\ home s' l' le k me ce1 d /\
    forked lo hi s s' me ce d cid e dc ph px pst x /\ Z.of_nat (length l) <= Z.of_nat (length l') + tables s d + 9.
Proof. intros Hst Hn H V Hup Ht Hc Hr. exact (fork_spec lo hi Hst Hn s l le k me ce d ph pt pst e H V Hup Ht Hc Hr). Qed.

#[local] Instance no_stabs : StabSections :=
  {| STAB_BEGIN := 0; STAB_END := 0; STABSTR_BEGIN := 0; STABSTR_END := 0; lit_unknown := 0 |}.

(** The library's variables and the upcall in the page at 8 MB. *)
#[local] Instance page_image : UserImage :=
  {| thisenv_va := 0x800004; pgfault_handler_va := 0x800000; pgfault_upcall := 0x800100; pgfault_code := 0x800200 |}.

(** Every call leaves one word, and the handler one byte. *)
Definition frame_lo : Z := 0xeebfdf00.
Definition frame_hi : Z := 0xeebfdf10.
#[local] Instance word_frames : StackUse :=
  {| call_frame := fun _ _ => [(0xeebfdf0f, 0); (0xeebfdf0e, 0x80); (0xeebfdf0d, 2); (0xeebfdf0c, 5)];
     fault_regs := fun _ => Build_Trapframe regs0 0 0 0 0 0 0 0 0xeebfdf10 0;
     handler_frame := fun _ => [(0xeebfff00, 1)] |}.

Lemma word_frames_in : stack_in frame_lo frame_hi.
Proof.
  split.
  - split; by vm_compute.
  - intros f s. apply Forall_forall. unfold frame_lo, frame_hi, call_frame, word_frames. repeat (apply Forall_cons; split; [cbn [fst]; lia|]). by apply Forall_nil.
  - done.
  - intros s. split; by vm_compute.
  - intros s. apply Forall_forall, Forall_singleton. split; by vm_compute.
Qed.

(** The first process with a page at 8 MB and a stack, its variables set. *)
Lemma first_vars : exists s l ce p pst,
  (home s l (1 :: first_rest) 1 0 ce 2 /\ handler_vars s 0 ce 2 p p pst) /\
  (trans s 2 PFTEMP = None /\ trans s 2 0x800123 = Some (p, 7)) /\
  (forall q, maps s q + dir_maps s 2 q < 65535) /\ tables s 2 <= 2 /\ (13 <= length l)%nat.
Proof.
  destruct first_page as (s0 & l0 & ce & p & [H0 T M B Z0 L]). rewrite first_idle_cons in H0. pose proof (hm_id H0) as [Hid _].
  destruct ustack_legal as (Su & Sl & _). change ustack with 0xeebfd000 in *.
  destruct (u_page_alloc_spec s0 l0 _ 1 0 ce (hm_proc H0) (env_id ce) 0 2 0xeebfd000 7 (home_resolve _ _ _ _ _ _ _ H0) (hm_me H0)
    ltac:(lia) Su Sl eq_refl ltac:(lia)) as (s1 & l & pst & _ & Mv & Hpst & _ & _ & L1). change (Z.lor PTE_P 7) with 7 in Mv.
  pose proof (home_moved s0 s1 l0 l _ 1 0 ce 2 0 2 _ _ H0 Mv) as H.
  pose proof (free_unmapped s0 l0 1 pst (@ko_maps _ _ _ _ (pr_ok (hm_proc H0))) Hpst) as Hp0. rewrite M in Hp0.
  assert (p <> pst) as Hne by (intros ->; rewrite b2z_true in Hp0; done).
  assert (forall q, maps s1 q = b2z (p = q) + b2z (pst = q)) as M1.
  { intros q. rewrite (mv_maps Mv), M, T by done. rewrite decide_False by done. cbn [fmap option_fmap option_map fst].
    rewrite (b2z_false (None = Some q)) by done. unfold b2z. repeat case_decide; congruence || lia. }
  assert (is_u32 0x800000 /\ va_legal 0x800000 = true) as [Hu Hv] by (split; [by unfold is_u32|done]).
  assert (trans s1 2 0x800000 = Some (p, 7)) as Ht by (rewrite (mv_here Mv 0x800000 Hu Hv), decide_False by done; by rewrite T).
  assert (forall va, 0x800000 <= va < 0x800ffd -> word_va va) as Hwv.
  { intros va Hva. change 0x800ffd with (8192 * 1024 + 4093) in Hva. unfold word_va, PGSIZE. change UTOP with 0xEEC00000. word_lia. }
  set (m' := st32 (kmem s1) (at_page p 0x800004) (env_ptr 0)).
  pose proof (home_store s1 l _ 1 0 ce 2 H 0x800000 p 7 m' Hu Hv Ht
    (st32_data_write s1 p 0x800004 (env_ptr 0) (ko_wf (pr_ok (hm_proc H))) (Hwv 0x800004 ltac:(lia)))) as [H' Hk Hm He].
  set (s := set_kmem m' s1) in *. specialize (Hk 0 2 (hm_me H)).
  assert (forall va, is_u32 va -> va_legal va = true ->
    trans s 2 va = if decide (va = 0xeebfd000) then Some (pst, 7) else if decide (va = 0x800000) then Some (p, 7) else None) as T'.
  { intros va Hva Hl. rewrite (kept_trans s1 s 2 Hk), (mv_here Mv) by (done || by apply va_legal_user).
    by rewrite T. }
  assert (forall va, PDX va = PDX 0x800000 -> PTX va = PTX 0x800000 -> trans s 2 va = Some (p, 7)) as Hin.
  { intros va H1 H2. rewrite (trans_page s 2 va 0x800000 H1 H2), T' by done. by rewrite decide_False, decide_True. }
  destruct uxstack_legal as (U1 & U2 & _). destruct pftemp_low as (U3 & U4 & _).
  assert (is_u32 USTACKTOP /\ va_legal USTACKTOP = true) as [Gu Gl] by (split; [split; [by vm_compute|done]|done]).
  exists s, l, ce, p, pst. split; [split; [exact H'|split]|].
  - split; [apply Hwv; cbn; lia|]. exists 7. split; [by apply Hin; vm_compute|done].
  - split; [apply Hwv; cbn; lia|]. exists 7. split; [by apply Hin; vm_compute|done].
  - split; [apply Hwv; cbn; lia|]. exists p, 7. split; [by apply Hin; vm_compute|done].
  - split; [exists 7; split; [|done]|]; rewrite T' by done; [by rewrite decide_True|]. by rewrite !decide_False.
  - split; congruence.
  - right. split; [|split].
    + assert (at_page p 0x800000 = page_kva p + 0 /\ at_page p 0x800004 = page_kva p + 4) as [E0 E4] by by split.
      cbn [pgfault_handler_va page_image]. unfold s, m'. cbn [kmem set_kmem]. rewrite E0, E4.
      unfold ld32. rewrite !st32_out by lia.
      assert (forall x, page_kva p <= x < page_kva p + PGSIZE -> kmem s1 x = 0) as Zp.
      { intros x Hx. rewrite <- (mv_mem Mv p) by (rewrite ?M, ?b2z_true by done; lia). by apply Z0. }
      by rewrite !Zp by (unfold PGSIZE; lia).
    + rewrite T' by done. by rewrite !decide_False.
    + cbn [thisenv_va page_image]. unfold s, m'. cbn [kmem set_kmem]. by rewrite ld32_st32_eq.
  - split; [split; [rewrite T' by done; by rewrite !decide_False|by apply Hin; vm_compute]|]. split; [|split].
    + intros q. pose proof (dir_maps_le _ _ _ _ _ _ _ q H'). rewrite Hm, M1 in *. unfold b2z in *. repeat case_decide; lia.
    + etrans; [apply (tables_le s 2 s1 2); intros i [Hi _]%uslot_in; by rewrite (kept_tbl s1 s 2 Hk)|].
      pose proof (tables_moved s0 s1 l _ 1 0 ce 0 2 _ _ Mv (va_legal_slot _ Su Sl)).
      pose proof (tables_one s0 2 2 B). unfold b2z in *. case_decide; lia.
    + unfold b2z in L1. case_decide; lia.
Qed.

Lemma fork_correct_witness :
  exists s l ce p pst s' l' ce1 cid dc px x,
    (home s l (1 :: first_rest) 1 0 ce 2 /\ handler_vars s 0 ce 2 p p pst) /\
    fork s = Ret cid s' /\ 0 < cid < 2 ^ 31 /\ home s' l' first_rest 1 0 ce1 2 /\
    forked frame_lo frame_hi s s' 0 ce 2 cid 1 dc p px pst x.
Proof.
  destruct first_vars as (s & l & ce & p & pst & (H & V) & (Ht & _) & Hc & Htb & Hl).
  assert (pgfault_upcall (UserImage := page_image) <> 0) as Hn by done.
  destruct (fork_correct frame_lo frame_hi s l first_rest 1 0 ce 2 p p pst 1 word_frames_in Hn H V ltac:(by vm_compute) Ht Hc ltac:(lia))
    as (s' & l' & ce1 & cid & dc & px & x & C & Hcid & H' & F & _).
  exists s, l, ce, p, pst, s', l', ce1, cid, dc, px, x.
  exact (conj (conj H V) (conj C (conj Hcid (conj H' F)))).
Defined.
