(* ===== verification/Dumbfork.v ===== *)
(** * dumbfork: eager duplication of an address space

    The test program src/user/dumbfork.c, which forks by copying every page of
    its image and the page of its stack, over the user library of UserLib.v,
    against an abstract description of the copy. *)
From S2P Require Import Prelude Machine Mmu KState PageAlloc PageTable Vmem Kdebug Env Sched Syscall Isolation Reclaim UserLib UserCalls Fork TempPage.

Local Open Scope Z_scope.

(** ** src/user/dumbfork.c *)

(** The end of the program's image ([end]), and where dumbfork keeps its
    variable [addr]: on its stack. *)
Class DumbImage := { end_va : Z; addr_va : Z }.

Section Dumbfork.
Context {stabs : StabSections} {image : UserImage} {dumb : DumbImage}.

(** The flags of every mapping. *)
Definition PTE_PUW : Z := Z.lor (Z.lor PTE_P PTE_U) PTE_W.

Definition dumb_duppage (dstenv addr : Z) : M unit :=
  let! r := u_page_alloc dstenv addr PTE_PUW in
  (if r <? 0 then user_panic "sys_page_alloc: %e" [r] else kret tt) ;;
  let! r := u_page_map dstenv addr 0 UTEMP PTE_PUW in
  (if r <? 0 then user_panic "sys_page_map: %e" [r] else kret tt) ;;
  umemmove (Z.to_nat PGSIZE) UTEMP addr ;;
  let! r := u_page_unmap 0 UTEMP in
  if r <? 0 then user_panic "sys_page_unmap: %e" [r] else kret tt.

(** The loop over the image; the fuel is the number of pages there are. *)
Fixpoint dumb_pages (n : nat) (envid addr : Z) : M unit :=
  match n with
  | O => crash_with OutOfFuel
  | S n =>
      if addr <? end_va then
        dumb_duppage envid addr ;;
        dumb_pages n envid (u32 (addr + PGSIZE))
      else kret tt
  end.

Definition dumbfork : M Z :=
  let! envid := u_exofork in
  (if envid <? 0 then user_panic "sys_exofork: %e" [envid] else kret tt) ;;
  if envid =? 0 then set_thisenv ;; kret 0
  else
    dumb_pages (Z.to_nat (2 ^ 20)) envid UTEXT ;;
    dumb_duppage envid (ROUNDDOWN addr_va PGSIZE) ;;
    let! r := u_env_set_status envid 2 in
    (if r <? 0 then user_panic "sys_env_set_status: %e" [r] else kret tt) ;;
    kret envid.
End Dumbfork.

(** The pages dumbfork copies: the image and the page of its stack. *)
Definition dumb_page {dumb : DumbImage} (va : Z) : Prop := UTEXT <= va < end_va \/ va = ROUNDDOWN addr_va PGSIZE.
Definition image_pages {dumb : DumbImage} : Z := (end_va - UTEXT + PGSIZE - 1) / PGSIZE.

(** * Properties *)

(** ** Copying one page *)

Lemma utemp_legal : is_u32 UTEMP /\ va_legal UTEMP = true /\ 0 <= UTEMP < UTOP /\ UTEMP mod PGSIZE = 0 /\ PGNUM UTEMP < fork_lo.
Proof. split; [split; [by vm_compute|done]|]. split; [done|]. split; [split; [by vm_compute|done]|]. by split. Qed.

Section Page.
Context {stabs : StabSections} (le : list Z) (k me : Z) (ce : Env) (d cid e dc : Z).
#[local] Abbreviation kin s l := (forking s l le k me ce d cid e dc).

(** The child has a page [pp] of its own at [base], with the bytes of [p];
    nobody's other mappings and no mapped page have changed. *)
Record page_copied (s s' : kstate) (l l' : list Z) (base p pp : Z) : Prop := {
  pc_kin : kin s' l';
  pc_child : forall va, is_u32 va -> va_legal va = true ->
    trans s' dc va = if decide (va = base) then Some (pp, 7) else trans s dc va;
  pc_own : forall va, is_u32 va -> va_legal va = true -> trans s' d va = trans s d va;
  pc_other : forall t' d' va, t' <> me -> t' <> e -> space s t' = Some d' -> is_u32 va -> va_legal va = true ->
    trans s' d' va = trans s d' va;
  pc_copy : forall o, 0 <= o < PGSIZE -> kmem s' (page_kva pp + o) = kmem s (page_kva p + o);
  pc_mem : forall q, 0 < maps s q -> same_page s s' q;
  pc_new : maps s pp = 0;
  pc_maps : forall q, maps s' q = maps s q + b2z (pp = q);
  pc_temp : is_Some (tbl s' d (PDX UTEMP));
  pc_len : Z.of_nat (length l) <= Z.of_nat (length l') + 2 + b2z (tbl s d (PDX UTEMP) = None);
  pc_envs : envs s' = envs s }.

Section One.
Context (s : kstate) (l : list Z) (base p f : Z).
Hypothesis F : kin s l.
Hypothesis Hb : 0 <= base < UTOP.
Hypothesis H0 : base mod PGSIZE = 0.
Hypothesis Ht : trans s d base = Some (p, f).
Hypothesis Hf : Z.land f M_UR = M_UR.
Hypothesis Hc : trans s dc base = None.
Hypothesis Htmp : trans s d UTEMP = None.
Hypothesis Hlen : (3 <= length l)%nat.

Lemma dumb_duppage_spec : exists s' l' pp, dumb_duppage cid base s = Ret tt s' /\ page_copied s s' l l' base p pp.
Proof.
  destruct (page_base base Hb H0) as [Ub Lb]. destruct utemp_legal as (Ut & Lt & Rt & T0 & _).
  pose proof (fk_child F) as [Hdc Hne]. pose proof (hm_me F) as Hme. pose proof (fk_cid F) as [Hcid _]. pose proof (pr_ok (hm_proc F)) as K.
  assert (0 < maps s p) as Hp by by apply (mapped_maps s me d base p f (ko_envs K)).
  destruct (u_page_alloc_spec s l le k me ce (hm_proc F) cid e dc base 7 (fork_resolve le k me ce d cid e dc s l F)
    Hdc ltac:(lia) Ub Lb eq_refl ltac:(lia)) as (s1 & l1 & pp & C1 & M1 & Hpp & _ & R1 & L1). change (Z.lor PTE_P 7) with 7 in M1.
  pose proof (forking_moved le k me ce d cid e dc s s1 l l1 e dc base _ F M1) as F1.
  pose proof (free_unmapped s l k pp (@ko_maps _ _ _ _ K) Hpp) as Hpp0. assert (pp <> p) as Hpne by (intros ->; lia).
  pose proof (fun v => mv_other M1 (va' := v) (not_eq_sym Hne) Hme) as T1.
  assert (trans s1 dc base = Some (pp, 7)) as Hc1 by (by rewrite (mv_here M1), decide_True).
  assert (forall q, maps s1 q = maps s q + b2z (pp = q)) as N1.
  { intros q. rewrite (mv_maps M1), Hc. cbn [fmap option_fmap option_map fst]. unfold b2z. repeat case_decide; congruence || lia. }
  assert (forall q, 0 < maps s q -> 0 < maps s1 q) as P1 by (intros q Hq; rewrite N1; pose proof (b2z_nonneg (pp = q)); lia).
  set (temp := UTEMP) in *. assert (base <> temp) as Hbt by (intros E; rewrite E in Ht; congruence).
  assert (l1 <> []) as Hl1 by (intros ->; cbn [length] in L1; unfold b2z in L1; case_decide; lia).
  assert (with_temp d s1 pp temp base = Some (p, f)) as W1 by (unfold with_temp; by rewrite decide_False, T1).
  assert (with_temp d s1 pp temp temp = Some (pp, 7)) as W2 by (unfold with_temp; by rewrite decide_True).
  assert (0 < maps s1 pp) as Hpp1 by (rewrite N1, b2z_true by done; lia).
  destruct (temp_spec le k me ce d cid e dc s1 l1 base pp temp 0 F1 ltac:(by left) (conj Ub Lb) Hc1 ltac:(lia) (conj Rt T0) ltac:(by rewrite T1)
    Hl1 base temp p f pp 7 Hb H0 W1 Hf Rt T0 W2 eq_refl Hpne (P1 p Hp) Hpp1) as (s2 & s3 & s4 & l4 & C2 & C3 & C4 & V).
  destruct V as [V1 V2 V3 V4 V5 V6 V7 V8]. assert (forall t, space s1 t = space s t) as Sp1 by (intros t; apply space_ext; by rewrite (mv_envs M1)).
  exists s4, l4, pp. split.
  { unfold dumb_duppage, PTE_PUW. mstep C1. rewrite bind_if_false by done. mstep C2. rewrite bind_if_false by done. mstep C3. by mstep C4. }
  split; try done.
  - intros va Hv Hl. rewrite (V2 e) by (done || by rewrite Sp1). by apply (mv_here M1).
  - intros va Hv Hl. rewrite (V2 me) by (done || by rewrite Sp1). by apply T1.
  - intros t' d' va Hn1 Hn2 Hs Hv Hl. rewrite (V2 t') by (done || by rewrite Sp1). by apply (mv_other M1 Hn2).
  - intros o Ho. rewrite V3 by done. symmetry. apply (mv_mem M1 p Hp). lia.
  - intros q Hq y Hy. rewrite (mv_mem M1 q Hq y Hy). apply (V4 q (P1 q Hq)); [intros ->; lia|done].
  - intros q. by rewrite V5, N1.
  - rewrite (mv_tbl_other M1 (not_eq_sym Hne) Hme) in V7 by (by apply va_legal_slot). fold temp. unfold b2z in *. repeat case_decide; lia.
  - rewrite V8. apply (mv_envs M1).
Qed.
End One.

(** ** Copying many *)

Context (s0 : kstate) (l0 : list Z).

(** The pages at the addresses of [L] have been copied. *)
Record eager (L : list Z) (s : kstate) (l : list Z) : Prop := {
  ea_kin : kin s l;
  ea_copy : forall va, va ∈ L -> exists p f pp, trans s0 d va = Some (p, f) /\ trans s dc va = Some (pp, 7) /\
    maps s0 pp = 0 /\ maps s pp = 1 /\ forall o, 0 <= o < PGSIZE -> kmem s (page_kva pp + o) = kmem s0 (page_kva p + o);
  ea_else : forall va, is_u32 va -> va_legal va = true -> va ∉ L -> trans s dc va = None;
  ea_own : forall va, is_u32 va -> va_legal va = true -> trans s d va = trans s0 d va;
  ea_other : forall t' d' va, t' <> me -> t' <> e -> space s0 t' = Some d' -> is_u32 va -> va_legal va = true ->
    trans s d' va = trans s0 d' va;
  ea_mem : forall q, 0 < maps s0 q -> same_page s0 s q;
  ea_maps : forall q, maps s0 q <= maps s q;
  ea_len : Z.of_nat (length l0) + b2z (tbl s d (PDX UTEMP) = None) <= Z.of_nat (length l) + 2 * Z.of_nat (length L) + 1;
  ea_envs : envs s = envs s0 }.

Hypothesis F0 : kin s0 l0.

Lemma eager_start : (forall i, uslot i -> tbl s0 dc i = None) -> eager [] s0 l0.
Proof.
  intros Hn. split; try done.
  - intros va Hva. by apply elem_of_nil in Hva.
  - intros va Hv Hl _. unfold trans. by rewrite Hn by by apply va_legal_slot.
  - cbn [length]. unfold b2z. case_decide; lia.
Qed.

Lemma eager_dup L s l base p f :
  eager L s l -> base ∉ L -> 0 <= base < UTOP -> base mod PGSIZE = 0 -> trans s0 d base = Some (p, f) ->
  Z.land f M_UR = M_UR -> trans s0 d UTEMP = None -> (3 <= length l)%nat ->
  (forall va, va ∈ L -> is_u32 va /\ va_legal va = true) ->
  exists s' l', dumb_duppage cid base s = Ret tt s' /\ eager (base :: L) s' l'.
Proof.
  intros [E1 E2 E3 E4 E5 E6 E7 E8 E9] Hin Hb H0 Ht Hf Htmp Hlen HL. destruct (page_base base Hb H0) as [Ub Lb].
  destruct utemp_legal as (Ut & Lt & _). pose proof (pr_ok (hm_proc F0)) as K0.
  destruct (dumb_duppage_spec s l base p f E1 Hb H0 ltac:(by rewrite E4) Hf ltac:(by apply E3) ltac:(by rewrite E4) Hlen)
    as (s' & l' & pp & C & [D1 D2 D3 D4 D5 D6 D7 D8 D9 D10 D11]).
  assert (0 < maps s0 p) as Hp by by apply (mapped_maps s0 me d base p f (ko_envs K0) (hm_me F0) Ub Lb).
  assert (maps s0 pp = 0) as Hpp by (pose proof (E7 pp); pose proof (maps_nonneg s0 pp); lia).
  assert (forall q, 0 < maps s0 q -> 0 < maps s q) as P by (intros q Hq; specialize (E7 q); lia).
  exists s', l'. split; [exact C|]. split; try done.
  - intros va [->|Hva]%elem_of_cons.
    + exists p, f, pp. split; [done|]. split; [by rewrite D2, decide_True|]. split; [done|]. split; [rewrite D8, b2z_true by done; lia|].
      intros o Ho. rewrite D5 by done. symmetry. apply (E6 p Hp). lia.
    + destruct (E2 va Hva) as (q & g & qq & T0 & T & M0 & M & B). destruct (HL va Hva) as [Hv Hl]. exists q, g, qq. split; [done|].
      split; [rewrite D2, decide_False by (done || congruence); done|]. split; [done|].
      split; [rewrite D8, b2z_false by (intros ->; lia); lia|]. intros o Ho. rewrite <- B by done. symmetry. apply (D6 qq); lia.
  - intros va Hv Hl [Hne Hn]%not_elem_of_cons. rewrite D2, decide_False by done. by apply E3.
  - intros va Hv Hl. rewrite D3, E4 by done. done.
  - intros t' d' va Hn1 Hn2 Hs Hv Hl. rewrite (D4 t') by (done || (rewrite <- Hs; apply space_ext; congruence)). by apply (E5 t').
  - intros q Hq y Hy. rewrite (E6 q Hq y Hy). apply (D6 q (P q Hq) y Hy).
  - intros q. rewrite D8. pose proof (E7 q). pose proof (b2z_nonneg (pp = q)). lia.
  - rewrite (b2z_false (tbl s' d _ = None)) by (destruct D9 as [t ->]; done). cbn [length]. lia.
  - congruence.
Qed.

(** The loop. *)
Fixpoint strip (m : nat) (addr : Z) : list Z := match m with O => [] | S m => addr :: strip m (addr + PGSIZE) end.

Lemma elem_of_strip m addr va : va ∈ strip m addr <-> exists j, 0 <= j < Z.of_nat m /\ va = addr + PGSIZE * j.
Proof.
  revert addr. induction m as [|m IH]; intros addr; cbn [strip].
  - split; [by intros ?%elem_of_nil|]. intros (j & Hj & _). lia.
  - rewrite elem_of_cons, IH. split.
    + intros [->|(j & Hj & ->)]; [exists 0; lia|exists (j + 1); lia].
    + intros (j & Hj & ->). destruct (decide (j = 0)) as [->|]; [left; lia|right; exists (j - 1); lia].
Qed.

Lemma strip_length m addr : length (strip m addr) = m.
Proof. revert addr. induction m as [|m IH]; intros addr; [done|]. cbn [strip length]. by rewrite IH. Qed.

Context {dumb : DumbImage}.
Hypothesis Htmp : trans s0 d UTEMP = None.

Lemma dumb_pages_spec n : forall m addr L s l,
  (m < n)%nat -> 0 <= addr -> addr mod PGSIZE = 0 -> end_va <= UTOP ->
  end_va <= addr + PGSIZE * Z.of_nat m -> (0 < Z.of_nat m -> addr + PGSIZE * (Z.of_nat m - 1) < end_va) ->
  (forall va, va ∈ strip m addr -> (va ∉ L) /\ exists p f, trans s0 d va = Some (p, f) /\ Z.land f M_UR = M_UR) ->
  (forall va, va ∈ L -> is_u32 va /\ va_legal va = true) ->
  2 * Z.of_nat (length L) + 2 * Z.of_nat m + 2 <= Z.of_nat (length l0) -> eager L s l ->
  exists s' l', dumb_pages n cid addr s = Ret tt s' /\ eager (reverse (strip m addr) ++ L) s' l'.
Proof.
  induction n as [|n IH]; intros m addr L s l Hmn Ha H0 Htop Hend Hlast Hm HL Hroom E; [lia|]. cbn [dumb_pages].
  destruct m as [|m]; cbn [strip].
  - rewrite (proj2 (Z.ltb_ge _ _)) by lia. by exists s, l.
  - assert (addr < end_va) as Hlt by (unfold PGSIZE in *; lia). rewrite (proj2 (Z.ltb_lt _ _)) by done.
    destruct (Hm addr ltac:(by left)) as (Hin & p & f & Ht & Hf). pose proof (ea_len _ _ _ E) as Hlen.
    pose proof (b2z_nonneg (tbl s d (PDX UTEMP) = None)).
    destruct (eager_dup L s l addr p f E Hin ltac:(lia) H0 Ht Hf Htmp ltac:(lia) HL) as (s1 & l1 & C1 & E1).
    mstep C1. change UTOP with 0xEEC00000 in Htop. rewrite u32_id by (unfold is_u32, PGSIZE; lia).
    destruct (IH m (addr + PGSIZE) (addr :: L) s1 l1) as (s2 & l2 & C2 & E2); try done; try (unfold PGSIZE in *; lia).
    + unfold PGSIZE in *. word_lia.
    + intros va Hva. destruct (Hm va ltac:(by right)) as [Hn Hx]. split; [|done]. apply not_elem_of_cons. split; [|done].
      apply elem_of_strip in Hva as (j & Hj & ->). unfold PGSIZE. lia.
    + intros va [->|Hva]%elem_of_cons; [|by apply HL]. apply page_base; [change UTOP with 0xEEC00000; lia|done].
    + cbn [length]. lia.
    + exists s2, l2. split; [exact C2|]. rewrite reverse_cons, <- app_assoc. exact E2.
Qed.
End Page.

(** ** The whole call *)

Section Call.
Context {stabs : StabSections} {image : UserImage} {dumb : DumbImage}.

(** What dumbfork promises its caller [me] when it returns [cid]: environment
    [e] is a runnable child that will see the result 0; it has its own copy of
    each page of the image and of the stack page, and nothing else mapped; the
    caller and everybody else are as before. *)
Record dumbforked (s s' : kstate) (me : Z) (ce : Env) (d cid e dc : Z) (x : Env) : Prop := {
  df_child : envs s' !! e = Some x /\ env_id x = cid /\ ENVX cid = e /\ e <> me /\ env_parent_id x = env_id ce;
  df_ready : env_status x = ENV_RUNNABLE /\ env_tf x = with_eax (env_tf ce) 0;
  df_others : forall i, i <> e -> envs s' !! i = envs s !! i;
  df_spaces : space s' me = Some d /\ space s' e = Some dc;
  df_copied : forall va, is_u32 va -> va_legal va = true -> dumb_page va -> exists p f pp,
    trans s d va = Some (p, f) /\ trans s' dc va = Some (pp, 7) /\ maps s pp = 0 /\ maps s' pp = 1 /\
    forall o, 0 <= o < PGSIZE -> kmem s' (page_kva pp + o) = kmem s (page_kva p + o);
  df_else : forall va, is_u32 va -> va_legal va = true -> ~ dumb_page va -> trans s' dc va = None;
  df_own : forall va, is_u32 va -> va_legal va = true -> trans s' d va = trans s d va;
  df_mem : forall q, 0 < maps s q -> same_page s s' q }.

Context (s : kstate) (l le : list Z) (k me : Z) (ce : Env) (d e : Z).
Hypothesis H : home s l (e :: le) k me ce d.
Hypothesis Himage : UTEXT <= end_va <= ROUNDDOWN addr_va PGSIZE /\ 0 <= addr_va < UTOP.
Hypothesis Htemp : trans s d UTEMP = None.
Hypothesis Hmapped : forall va, is_u32 va -> va_legal va = true -> dumb_page va ->
  exists p f, trans s d va = Some (p, f) /\ Z.land f M_UR = M_UR.
Hypothesis Hroom : 2 * image_pages + 5 <= Z.of_nat (length l).

Let base := ROUNDDOWN addr_va PGSIZE.
Let text := strip (Z.to_nat image_pages) UTEXT.

Lemma stack_base : is_u32 base /\ va_legal base = true /\ 0 <= base < UTOP /\ base mod PGSIZE = 0.
Proof. destruct (round_page addr_va (proj2 Himage)) as (_ & _ & Hu & Hl & Hr & H0 & _). done. Qed.

Lemma pages_bounds : 0 <= image_pages /\ end_va <= UTEXT + PGSIZE * image_pages /\
  (0 < image_pages -> UTEXT + PGSIZE * (image_pages - 1) < end_va) /\ image_pages < 2 ^ 20 - 1.
Proof.
  destruct Himage as [Hi _]. destruct stack_base as (_ & _ & Hb & _). fold base in Hi. change UTOP with 0xEEC00000 in Hb.
  change UTEXT with 0x800000 in *. unfold image_pages. change UTEXT with 0x800000. unfold PGSIZE. word_lia.
Qed.

Lemma elem_of_text va : va ∈ text <-> is_u32 va /\ va_legal va = true /\ UTEXT <= va < end_va.
Proof.
  destruct pages_bounds as (P0 & P1 & P2 & _). destruct Himage as [Hi _]. destruct stack_base as (_ & _ & Hb & _). fold base in Hi.
  unfold text. rewrite elem_of_strip. rewrite Z2Nat.id by done. split.
  - intros (j & Hj & ->). assert (0 <= UTEXT + PGSIZE * j < UTOP) as Hr.
    { change UTOP with 0xEEC00000 in *. change UTEXT with 0x800000 in *. unfold PGSIZE in *. lia. }
    assert ((UTEXT + PGSIZE * j) mod PGSIZE = 0) as Hm.
    { change UTEXT with (2048 * PGSIZE). rewrite Z.mul_comm, <- Z.mul_add_distr_l, Z.mul_comm. by apply Z.mod_mul. }
    destruct (page_base _ Hr Hm). split; [done|]. split; [done|]. change UTEXT with 0x800000 in *. unfold PGSIZE in *. lia.
  - intros (Hu & [_ Hm%Z.eqb_eq]%andb_true_iff & Hr). exists ((va - UTEXT) / PGSIZE). change UTEXT with 0x800000 in *. unfold PGSIZE in *. word_lia.
Qed.

(** All the copying, from an empty child on. *)
Lemma dumb_copies s1 l1 cid dc :
  forking s1 l1 le k me ce d cid e dc -> (forall i, uslot i -> tbl s1 dc i = None) ->
  (forall va, is_u32 va -> va_legal va = true -> trans s1 d va = trans s d va) -> Z.of_nat (length l) <= Z.of_nat (length l1) + 1 ->
  exists s2 s3 l3, dumb_pages (Z.to_nat (2 ^ 20)) cid UTEXT s1 = Ret tt s2 /\ dumb_duppage cid base s2 = Ret tt s3 /\
    eager le k me ce d cid e dc s1 l1 (base :: reverse text ++ []) s3 l3.
Proof.
  intros F Hn T Hlen. destruct pages_bounds as (P0 & P1 & P2 & P3). destruct Himage as [Hi _]. fold base in Hi.
  destruct stack_base as (Ub & Lb & Rb & B0). destruct utemp_legal as (Ut & Lt & _).
  destruct (dumb_pages_spec le k me ce d cid e dc s1 l1 F (dumb := dumb) ltac:(by rewrite T) (Z.to_nat (2 ^ 20)) (Z.to_nat image_pages) UTEXT [] s1 l1)
    as (s2 & l2 & C2 & E2); try done.
  - lia.
  - lia.
  - rewrite Z2Nat.id by done. lia.
  - rewrite Z2Nat.id by done. lia.
  - intros va Hva. split; [apply not_elem_of_nil|]. fold text in Hva. apply elem_of_text in Hva as (Hu & Hl & Hr).
    rewrite T by done. apply Hmapped; [done|done|by left].
  - intros va Hva. by apply elem_of_nil in Hva.
  - cbn [length]. rewrite Z2Nat.id by done. lia.
  - by apply eager_start.
  - fold text in E2. pose proof (ea_len _ _ _ _ _ _ _ _ _ _ _ _ _ E2) as Hl2.
    rewrite app_nil_r, length_reverse in Hl2. unfold text in Hl2. rewrite strip_length, Z2Nat.id in Hl2 by done.
    pose proof (b2z_nonneg (tbl s2 d (PDX UTEMP) = None)).
    destruct (Hmapped base Ub Lb ltac:(by right)) as (p & f & Ht & Hf).
    destruct (eager_dup le k me ce d cid e dc s1 l1 F _ s2 l2 base p f E2) as (s3 & l3 & C3 & E3); try done.
    + rewrite app_nil_r, elem_of_reverse, elem_of_text. lia.
    + by rewrite T.
    + by rewrite T.
    + lia.
    + intros va. rewrite app_nil_r, elem_of_reverse, elem_of_text. tauto.
    + by exists s2, s3, l3.
Qed.

Lemma dumbfork_spec :
  exists s' l' cid dc x, dumbfork s = Ret cid s' /\ 0 < cid < 2 ^ 31 /\ home s' l' le k me ce d /\
    dumbforked s s' me ce d cid e dc x.
Proof.
  destruct stack_base as (Ub & Lb & _). destruct pages_bounds as (P0 & _).
  assert (exists n l1, l = n :: l1) as (n & l1 & El) by (destruct l as [|n l1]; [cbn [length] in Hroom; lia|by exists n, l1]).
  pose proof (pr_ok (hm_proc H)) as K. pose proof H as H1. rewrite El in H1.
  destruct (u_exofork_spec s n l1 e le k me ce d H1) as (s1 & x & C1 & [B1 B2 B3 B4 B5 B6 B7 B8]).
  assert (forall va, is_u32 va -> va_legal va = true -> trans s1 d va = trans s d va) as T1.
  { intros va Hv Hl. apply (kept_trans s s1 d B6). by apply va_legal_user. }
  destruct (dumb_copies s1 l1 (env_id x) n B1 B5 T1 ltac:(rewrite El; cbn [length]; lia)) as (s2 & s3 & l3 & C2 & C3 & [E1 E2 E3 E4 E5 E6 E7 E8 E9]).
  assert (forall va, is_u32 va -> va_legal va = true -> va ∈ base :: reverse text ++ [] <-> dumb_page va) as Hin.
  { intros va Hv Hl. rewrite elem_of_cons, app_nil_r, elem_of_reverse, elem_of_text. unfold dumb_page. fold base. tauto. }
  assert (envs s3 !! e = Some x) as Hx by (rewrite E9, B2; apply lookup_insert_eq).
  destruct (fk_rec E1) as (y & Hy & Hid & Hpar & Hu). assert (y = x) as -> by congruence. clear Hy Hid.
  destruct (fk_cid E1) as [Hcid Hcx]. destruct (fk_child E1) as [Hdc Hne].
  pose proof (fork_resolve le k me ce d (env_id x) e n s3 l3 E1) as R.
  destruct (u_runnable_spec s3 l3 le k me ce (env_id x) e x n (hm_proc E1) R Hx Hdc ltac:(lia)) as [C4 P4].
  set (x' := set_env_status ENV_RUNNABLE x) in *. set (s' := with_record s3 e x') in *.
  assert (own_record me ce e x' = ce) as Ho by (unfold own_record; by rewrite decide_False).
  assert (forall i, space s' i = space s3 i) as Hsp by exact (record_space s3 e x x' Hx Hu ltac:(done) eq_refl).
  assert (home s' l3 le k me ce d) as H'.
  { rewrite <- Ho. apply (home_record s3 l3 le k me ce e x n (hm_proc E1) Hx Hdc d x' s' E1); done. }
  exists s', l3, (env_id x), n, x'. split; [|split; [done|split; [done|]]].
  { unfold dumbfork. mstep C1. rewrite bind_if_false by (apply Z.ltb_ge; lia). rewrite (proj2 (Z.eqb_neq _ _)) by lia.
    mstep C2. fold base. mstep C3. mstep C4. done. }
  assert (forall q, maps s' q = maps s3 q) as Hm.
  { intros q. apply maps_ext. intros i _. unfold env_maps. by rewrite Hsp. }
  split.
  - split; [apply lookup_insert_eq|]. done.
  - done.
  - intros i Hi. unfold s'. cbn [with_record envs set_envs]. by rewrite lookup_insert_ne, E9, B2, lookup_insert_ne.
  - split; [apply (hm_me H')|by rewrite Hsp].
  - intros va Hv Hl Hd. destruct (E2 va (proj2 (Hin va Hv Hl) Hd)) as (p & f & pp & T0 & T & M0 & M & B).
    rewrite T1 in T0 by done. exists p, f, pp. rewrite B8 in M0. split; [done|]. split; [done|]. split; [done|]. split; [by rewrite Hm|].
    assert (0 < maps s p) as Hp by (apply (mapped_maps s me d va p f (ko_envs K) (hm_me H) Hv Hl T0)).
    intros o Hoo. change (kmem s') with (kmem s3). rewrite B by done. symmetry. apply (B7 p Hp). lia.
  - intros va Hv Hl Hd. apply (E3 va Hv Hl). by rewrite Hin.
  - intros va Hv Hl. rewrite <- T1 by done. by apply E4.
  - intros q Hq y Hyq. rewrite (B7 q Hq y Hyq). by apply (E6 q ltac:(by rewrite B8)).
Qed.
End Call.

(** C9. dumbfork's eager duplication of an address space.  Called by any process
    of a well-formed kernel that runs at home, with its image and stack mapped,
    the temporary page free, an environment [e] to spare and two free pages for
    each page to be copied (and a few more): it returns the id of [e], now a
    runnable child with the caller's registers (except that its call returns 0),
    whose address space has exactly the image and the stack page, each in a
    page that nobody else maps, with the bytes the caller's has; the caller's
    own address space, every other environment's record and the bytes of every
    page mapped before are unchanged. *)
Theorem dumbfork_correct {stabs : StabSections} {image : UserImage} {dumb : DumbImage}
    (s : kstate) (l le : list Z) (k me : Z) (ce : Env) (d e : Z) :
  home s l (e :: le) k me ce d -> UTEXT <= end_va <= ROUNDDOWN addr_va PGSIZE /\ 0 <= addr_va < UTOP -> trans s d UTEMP = None ->
  (forall va, is_u32 va -> va_legal va = true -> dumb_page va -> exists p f, trans s d va = Some (p, f) /\ Z.land f M_UR = M_UR) ->
  2 * image_pages + 5 <= Z.of_nat (length l) ->
  exists s' l' cid dc x, dumbfork s = Ret cid s' /\ 0 < cid < 2 ^ 31 /\ home s' l' le k me ce d /\
    dumbforked s s' me ce d cid e dc x.
Proof. intros H Hi Ht Hm Hr. exact (dumbfork_spec s l le k me ce d e H Hi Ht Hm Hr). Qed.

#[local] Instance no_stabs : StabSections :=
  {| STAB_BEGIN := 0; STAB_END := 0; STABSTR_BEGIN := 0; STABSTR_END := 0; lit_unknown := 0 |}.
#[local] Instance page_image : UserImage :=
  {| thisenv_va := 0x800004; pgfault_handler_va := 0x800000; pgfault_upcall := 0x800100; pgfault_code := 0x800200 |}.
(** An image of one page, and the stack below USTACKTOP. *)
#[local] Instance page_dumb : DumbImage := {| end_va := 0x800123; addr_va := 0xeebfdf00 |}.

(** The first process with a page of text and a stack. *)
Lemma first_stack : exists s l ce p pp, home s l (1 :: first_rest) 1 0 ce 2 /\ (7 <= length l)%nat /\
  forall va, is_u32 va -> va_legal va = true ->
    trans s 2 va = if decide (va = 0xeebfd000) then Some (pp, 7) else if decide (va = 0x800000) then Some (p, 7) else None.
Proof.
  destruct first_page as (s & l & ce & p & [H T _ _ _ L]). rewrite first_idle_cons in H. pose proof (hm_id H) as [Hid _].
  assert (is_u32 0xeebfd000 /\ va_legal 0xeebfd000 = true) as [Hu Hv] by (split; [by unfold is_u32|done]).
  destruct (u_page_alloc_spec s l _ 1 0 ce (hm_proc H) (env_id ce) 0 2 0xeebfd000 7 (home_resolve _ _ _ _ _ _ _ H) (hm_me H)
    ltac:(lia) Hu Hv eq_refl ltac:(lia)) as (s1 & l1 & pp & _ & M & _ & _ & _ & L1). change (Z.lor PTE_P 7) with 7 in M.
  exists s1, l1, ce, p, pp. split; [exact (home_moved s s1 l l1 _ 1 0 ce 2 0 2 _ _ H M)|]. split.
  - unfold b2z in L1. case_decide; lia.
  - intros va Hva Hl. rewrite (mv_here M) by done. case_decide; [done|]. by apply T.
Qed.

Lemma dumbfork_correct_witness :
  exists s l ce s' l' cid dc x, home s l (1 :: first_rest) 1 0 ce 2 /\ dumbfork s = Ret cid s' /\ 0 < cid < 2 ^ 31 /\
    home s' l' first_rest 1 0 ce 2 /\ dumbforked s s' 0 ce 2 cid 1 dc x.
Proof.
  destruct first_stack as (s & l & ce & p & pp & H & L & T). destruct utemp_legal as (U1 & U2 & _).
  destruct (dumbfork_correct s l first_rest 1 0 ce 2 1 H) as (s' & l' & cid & dc & x & C & Hc & H' & F).
  - split; [by vm_compute|split; [by vm_compute|reflexivity]].
  - rewrite T by assumption. reflexivity.
  - intros va Hu Hl Hd. rewrite T by assumption. assert (va = 0xeebfd000 \/ va = 0x800000) as [->| ->].
    { destruct Hd as [Hr|Hs]; [right|left; exact Hs]. apply andb_true_iff in Hl as [_ Hm%Z.eqb_eq].
      change UTEXT with 0x800000 in Hr. change end_va with 0x800123 in Hr. unfold PGSIZE in Hm. word_lia. }
    + exists pp, 7. split; reflexivity.
    + exists p, 7. split; reflexivity.
  - change image_pages with 1. lia.
  - exists s, l, ce, s', l', cid, dc, x. exact (conj H (conj C (conj Hc (conj H' F)))).
Defined.
