(* ===== verification/CowFork.v ===== *)
(** * Writing after a fork

    The copy-on-write promise as a program sees it: after fork (ForkCall.v),
    whichever of the parent and the child writes first to a page they share gets
    a private copy from the fault handler (Cow.v), and the other one keeps the
    page it had. *)
From S2P Require Import Prelude Machine Mmu KState PageAlloc PageTable Vmem Kdebug Env Sched Syscall Isolation Reclaim Protection UserLib UserCalls Cow Stack Fork ForkCall.

Local Open Scope Z_scope.

(** In [s1] the page of [va] is still shared as the fork left it, by the writer's
    directory [dw] and the other one's, [dx]; the writer's temporary address is
    free. *)
Definition still_shared (s s1 : kstate) (dw dx va : Z) : Prop :=
  trans s1 dw va = trans s dw va /\ trans s1 dx va = trans s dx va /\ trans s1 dw PFTEMP = None.

(** * Properties *)

Lemma dup_perm_cow f : has f PTE_W = true -> dup_perm f = 0x805 /\ Z.land 0x805 M_UR = M_UR /\ Z.land 0x805 PTE_COW <> 0.
Proof. intros Hf. unfold dup_perm. by rewrite Hf. Qed.

Lemma views_cow p f :
  has f PTE_W = true -> child_view (Some (p, f)) = Some (p, 0x805) /\ parent_view (Some (p, f)) = Some (p, 0x805).
Proof. intros Hf. cbn [child_view parent_view]. by destruct (dup_perm_cow f Hf) as [-> _]. Qed.

Section Shared.
Context {stabs : StabSections}.
Context (s : kstate) (l le : list Z) (k w : Z) (cw : Env) (dw o dx va p err : Z).

(** A page that [w], which runs, and [o] both map copy-on-write. *)
Lemma shared_write :
  home s l le k w cw dw -> space s o = Some dx -> o <> w -> 0 <= va < UTOP -> PGNUM va <> PGNUM PFTEMP ->
  trans s dw va = Some (p, 0x805) -> trans s dw PFTEMP = None -> (2 <= length l)%nat -> Z.land err FEC_WR <> 0 ->
  exists s' l' pp, pgfault va err s = Ret tt s' /\ home s' l' le k w cw dw /\ trans s' dw va = Some (pp, PTE_UPW) /\
    (forall b, 0 <= b < PGSIZE -> kmem s' (page_kva pp + b) = kmem s (page_kva p + b)) /\ (forall q, 0 < maps s q -> same_page s s' q) /\
    (forall va', is_u32 va' -> va_legal va' = true -> PGNUM va' <> PGNUM va -> trans s' dw va' = trans s dw va') /\
    (forall va', is_u32 va' -> va_legal va' = true ->
       trans s' dx va' = trans s dx va' /\ fst <$> trans s' dx va' <> Some pp).
Proof.
  intros H Ho Hne Hva Hpn Ht Htmp Hl Herr. pose proof (pr_ok (hm_proc H)) as K.
  assert (cow_page s l le k w cw dw va p 0x805) as C by (split; try done; by vm_compute).
  destruct (pgfault_spec s l le k w cw dw va p 0x805 C err Hl Herr) as (s' & l' & pp & E & [R1 [R2 [R2' _]] R3 R4 R5 R6 _ _ _ _ _ _]).
  destruct (round_page va Hva) as (_ & Hu & Hub & Hlb & _ & _ & Hd & Hx & Hn).
  exists s', l', pp. split; [exact E|]. split; [exact R1|]. split; [|split; [exact R5|split; [exact R6|split]]].
  - rewrite <- (trans_page s' dw _ _ Hd Hx), R3 by done. by rewrite decide_True.
  - intros va' Hv Hlv Hp. rewrite R3, decide_False; [done| |done|done]. intros ->. by rewrite Hn in Hp.
  - intros va' Hv Hlv. rewrite (R4 o dx va' Hne Ho Hv Hlv). split; [done|]. intros Hq.
    destruct (trans s dx va') as [[q f]|] eqn:E'; [|done]. injection Hq as ->.
    pose proof (mapped_maps s o dx va' pp f (ko_envs K) Ho Hv Hlv E'). lia.
Qed.
End Shared.

(** C8. The first write to a shared page after a fork.  [s1] is any later state in
    which the parent or the child, [w], runs at home with the temporary address
    free, and in which the page of [va], not the stack's, is mapped by both as
    fork left it (whatever happened to their other pages).  If the parent could
    write the page before the fork, a write by [w] faults into fork's handler,
    which returns with [w]'s page mapped to a fresh copy with the same bytes; the
    other one still maps the old page there, whose bytes have not changed,
    translates every address as before, and maps the copy nowhere, so that it
    does not see what [w] writes to it.  No mapped page is written and all other
    pages of [w] are mapped as before, so that the theorem applies again to a
    write to another page, by either of the two. *)
Theorem fork_write_private {stabs : StabSections} {image : UserImage} (lo hi : Z) (s s' s1 : kstate) (l1 le1 : list Z)
    (me : Z) (ce : Env) (d cid e dc ph px pst : Z) (x : Env) (k1 w : Z) (cw : Env) (dw o dx va p f err : Z) :
  forked lo hi s s' me ce d cid e dc ph px pst x ->
  (w = me /\ dw = d /\ o = e /\ dx = dc) \/ (w = e /\ dw = dc /\ o = me /\ dx = d) ->
  home s1 l1 le1 k1 w cw dw -> space s1 o = Some dx -> still_shared s' s1 dw dx va ->
  0 <= va < UTOP -> fork_lo <= PGNUM va < fork_hi -> PGNUM va <> PGNUM ustack ->
  trans s d va = Some (p, f) -> has f PTE_W = true -> (2 <= length l1)%nat -> Z.land err FEC_WR <> 0 ->
  exists s2 l2 pp, pgfault va err s1 = Ret tt s2 /\ home s2 l2 le1 k1 w cw dw /\
    trans s2 dw va = Some (pp, PTE_UPW) /\ fst <$> trans s2 dx va = Some p /\
    (forall b, 0 <= b < PGSIZE -> kmem s2 (page_kva pp + b) = kmem s1 (page_kva p + b)) /\ (forall q, 0 < maps s1 q -> same_page s1 s2 q) /\
    (forall va', is_u32 va' -> va_legal va' = true -> PGNUM va' <> PGNUM va -> trans s2 dw va' = trans s1 dw va') /\
    (forall va', is_u32 va' -> va_legal va' = true ->
       trans s2 dx va' = trans s1 dx va' /\ fst <$> trans s2 dx va' <> Some pp).
Proof.
  intros F Hw H Ho (Sw & Sx & Stmp) Hva Hr Hns Ht Hf Hl Herr. destruct pftemp_low as (U & L & Hpn).
  destruct (round_page va Hva) as (_ & Hu & Hub & Hlb & _ & _ & Hd & Hx & Hn).
  destruct (fd_copied _ _ _ _ _ _ _ _ _ _ _ _ _ _ F _ Hub Hlb ltac:(by rewrite Hn)) as [Cc Cp].
  specialize (Cp ltac:(intros E; by rewrite <- Hn, E in Hns)).
  rewrite (trans_page s d _ _ Hd Hx), Ht in Cc, Cp. destruct (views_cow p f Hf) as [Vc Vp]. rewrite Vc in Cc. rewrite Vp in Cp.
  rewrite (trans_page s' dc _ _ Hd Hx) in Cc. rewrite (trans_page s' d _ _ Hd Hx) in Cp.
  pose proof (fd_child _ _ _ _ _ _ _ _ _ _ _ _ _ _ F) as (_ & _ & _ & Hne & _).
  assert (o <> w /\ trans s1 dw va = Some (p, 0x805) /\ trans s1 dx va = Some (p, 0x805)) as (W1 & W2 & W3)
    by (rewrite Sw, Sx; destruct Hw as [(-> & -> & -> & ->)|(-> & -> & -> & ->)]; auto using not_eq_sym).
  destruct (shared_write s1 l1 le1 k1 w cw dw o dx va p err H Ho W1 Hva ltac:(lia) W2 Stmp Hl Herr)
    as (s2 & l2 & pp & E & H2 & T2 & B & M & W & O).
  exists s2, l2, pp. split; [exact E|]. split; [exact H2|]. split; [exact T2|]. split; [|split; [exact B|split; [exact M|split; [exact W|exact O]]]].
  destruct (O _ Hub Hlb) as [O1 _]. by rewrite <- (trans_page s2 dx _ _ Hd Hx), O1, (trans_page s1 dx _ _ Hd Hx), W3.
Qed.

#[local] Instance no_stabs : StabSections :=
  {| STAB_BEGIN := 0; STAB_END := 0; STABSTR_BEGIN := 0; STABSTR_END := 0; lit_unknown := 0 |}.

#[local] Existing Instance page_image.
#[local] Existing Instance word_frames.

(** The first process forks. *)
Lemma first_forked :
  exists s s' l' p pst ce ce1 cid dc px x, home s' l' first_rest 1 0 ce1 2 /\ (2 <= length l')%nat /\
    forked frame_lo frame_hi s s' 0 ce 2 cid 1 dc p px pst x /\ trans s' 2 PFTEMP = None /\ trans s 2 0x800123 = Some (p, 7).
Proof.
  destruct first_vars as (s & l & ce & p & pst & (H & V) & (Ht & Hp) & Hc & Htb & Hl).
  assert (pgfault_upcall <> 0) as Hn by done.
  destruct (fork_spec frame_lo frame_hi word_frames_in Hn s l first_rest 1 0 ce 2 p p pst 1 H V ltac:(by vm_compute) Ht Hc ltac:(lia))
    as (s' & l' & ce1 & cid & dc & px & x & _ & _ & H' & F & Hl').
  exists s, s', l', p, pst, ce, ce1, cid, dc, px, x. split; [exact H'|]. split; [lia|]. split; [exact F|]. split; [|exact Hp].
  destruct pftemp_low as (U & L & Hpn). rewrite <- Ht. apply (fd_below _ _ _ _ _ _ _ _ _ _ _ _ _ _ F PFTEMP U L). lia.
Qed.

(** It then writes to its page at 8 MB. *)
Lemma fork_write_private_witness :
  exists s s' p pst ce cid dc px x s2 pp, forked frame_lo frame_hi s s' 0 ce 2 cid 1 dc p px pst x /\ trans s 2 0x800123 = Some (p, 7) /\
    pgfault 0x800123 7 s' = Ret tt s2 /\ trans s2 2 0x800123 = Some (pp, PTE_UPW) /\ fst <$> trans s2 dc 0x800123 = Some p.
Proof.
  destruct first_forked as (s & s' & l' & p & pst & ce & ce1 & cid & dc & px & x & H & Hl & F & Htmp & Ht).
  destruct (fork_write_private frame_lo frame_hi s s' s' l' first_rest 0 ce 2 cid 1 dc p px pst x 1 0 ce1 2 1 dc 0x800123 p 7 7 F
    (or_introl (conj eq_refl (conj eq_refl (conj eq_refl eq_refl)))) H (proj2 (fd_spaces _ _ _ _ _ _ _ _ _ _ _ _ _ _ F))
    (conj eq_refl (conj eq_refl Htmp)) ltac:(by change UTOP with 0xEEC00000) ltac:(by vm_compute) ltac:(by vm_compute) Ht eq_refl Hl ltac:(by vm_compute))
    as (s2 & l2 & pp & E & _ & T & T' & _).
  exists s, s', p, pst, ce, cid, dc, px, x, s2, pp. exact (conj F (conj Ht (conj E (conj T T')))).
Defined.
