(* ===== verification/Switch.v ===== *)
(** * Changing the running environment

    env_run (src/kern/env.c), sched_yield and sched_halt (src/kern/sched.c) and
    the destruction of the running environment, against the kernel's invariant
    of Isolation.v: whichever environment the processor turns to, the invariant
    holds when it is entered, and no environment's registers, address space or
    memory has changed on the way. *)
From S2P Require Import Prelude Machine Mmu KState PageAlloc PageTable Vmem Exits Kdebug Spinlock Env Sched Syscall Isolation Reclaim Protection.

Local Open Scope Z_scope.

(** ** Computations that change nothing that matters

    Console output, the log, device and debugging variables. *)

Record same_kernel (s s' : kstate) : Prop := {
  sk_kmem : kmem s' = kmem s;
  sk_envs : envs s' = envs s;
  sk_env_free : env_free_list s' = env_free_list s;
  sk_cpus : cpus s' = cpus s;
  sk_cpunum : cpunum s' = cpunum s;
  sk_npages : npages s' = npages s;
  sk_dir : kern_pgdir s' = kern_pgdir s;
  sk_pages : pages s' = pages s;
  sk_free : page_free_list s' = page_free_list s;
  sk_cr3 : cr3 s' = cr3 s }.

(** [c] returns such a state or crashes; it does not leave the kernel. *)
Definition quiet {A} (c : M A) : Prop :=
  forall s, match c s with Ret _ s' => same_kernel s s' | Leave _ _ => False | Crash _ _ => True end.

Create HintDb quiet discriminated.

(** ** What switching keeps *)

(** The scheduler's fields apart, the record is the same. *)
Definition resched (y y' : Env) : Prop :=
  exists st n c, y' = set_env_cpunum c (set_env_runs n (set_env_status st y)) /\ (st = ENV_FREE <-> env_status y = ENV_FREE).

Definition same_envs (s s' : kstate) : Prop :=
  forall i y, envs s !! i = Some y -> exists y', envs s' !! i = Some y' /\ resched y y'.

(** Environment [e] has been entered. *)
Record entered (s : kstate) (l le : list Z) (k e : Z) (x : Env) : Prop := {
  en_proc : process s l le k e x;
  en_run : env_status x = ENV_RUNNING;
  en_cr3 : exists d, space s e = Some d /\ cr3 s = d * PGSIZE }.

Record switched (s s' : kstate) (l le : list Z) (k e : Z) (x : Env) : Prop := {
  sw_entered : entered s' l le k e x;
  sw_envs : same_envs s s';
  sw_mem : kmem s' = kmem s;
  sw_cpu : exists c, cpus s !! cpunum s = Some c /\ cpus s' !! cpunum s' = Some (set_cpu_env (Some e) c) /\
    forall i y, i <> e -> envs s !! i = Some y -> exists y', envs s' !! i = Some y' /\
      if decide (cpu_env c = Some i /\ env_status y = ENV_RUNNING) then y' = set_env_status ENV_RUNNABLE y else y' = y;
  sw_dead : panicstr s' = panicstr s }.

(** What a step on behalf of [me] leaves of the environments it has no
    authority over: the registers and the rest of the record, and of private
    memory every byte. *)
Definition frame (s s' : kstate) (me : Z) (ce : Env) : Prop :=
  forall e x, stranger s me ce e x ->
    (exists x', envs s' !! e = Some x' /\ resched x x') /\ (private s e -> undisturbed s s' e /\ private s' e).

(** The invariant in the kernel, where the running environment may be gone. *)
Definition in_kernel (s : kstate) (l le : list Z) (k : Z) : Prop :=
  kernel_ok s l le k /\
  forall c i y, cpus s !! cpunum s = Some c -> cpu_env c = Some i -> envs s !! i = Some y -> env_status y <> ENV_FREE.

(** * Properties *)

(** ** Quiet computations *)

Lemma same_kernel_refl s : same_kernel s s.
Proof. by split. Qed.

Lemma same_kernel_trans s1 s2 s3 : same_kernel s1 s2 -> same_kernel s2 s3 -> same_kernel s1 s3.
Proof. intros [] []. split; congruence. Qed.

Lemma quiet_ret {A} (a : A) : quiet (kret a).
Proof. intros s. by split. Qed.
Lemma quiet_get {A} (f : kstate -> A) : quiet (get f).
Proof. intros s. by split. Qed.
Lemma quiet_crash {A} e : quiet (@crash_with A e).
Proof. by intros s. Qed.
Lemma quiet_modify f : (forall s, same_kernel s (f s)) -> quiet (modify f).
Proof. intros H s. apply H. Qed.
Lemma quiet_bind {A B} (c : M A) (k : A -> M B) : quiet c -> (forall a, quiet (k a)) -> quiet (kbind c k).
Proof.
  intros Hc Hk s. specialize (Hc s). unfold kbind. destruct (c s) as [a s1| |]; [|done|done].
  specialize (Hk a s1). destruct (k a s1); [|done|done]. by apply (same_kernel_trans s s1).
Qed.
Lemma quiet_get_env i : quiet (get_env i).
Proof. intros s. unfold get_env. by destruct (_ !! _). Qed.
Lemma quiet_thiscpu : quiet thiscpu.
Proof. intros s. unfold thiscpu. by destruct (_ !! _). Qed.
Lemma quiet_cprintf f a : quiet (cprintf f a).
Proof. by apply quiet_modify. Qed.
#[export] Hint Resolve quiet_ret quiet_get quiet_crash quiet_get_env quiet_thiscpu quiet_cprintf : quiet.

Ltac quiet_step :=
  match goal with
  | |- forall _, _ => intros ?
  | |- quiet (kbind _ _) => apply quiet_bind
  | |- quiet (if ?b then _ else _) => destruct b
  | |- quiet (match ?x with _ => _ end) => destruct x
  | |- quiet (modify _) => apply quiet_modify; intros ?; by split
  | |- quiet _ => solve [auto with quiet nocore]
  end.
Ltac quiet_tac := repeat quiet_step.

Lemma quiet_curenv : quiet curenv.
Proof. unfold curenv. quiet_tac. Qed.
Lemma quiet_kptr p : quiet (kptr p).
Proof. unfold kptr. quiet_tac. Qed.
#[export] Hint Resolve quiet_curenv quiet_kptr : quiet.
Lemma quiet_read32 p : quiet (read32 p).
Proof. unfold read32. quiet_tac. Qed.
Lemma quiet_KADDR v : quiet (KADDR v).
Proof. unfold KADDR, panic. quiet_tac. Qed.
#[export] Hint Resolve quiet_read32 quiet_KADDR : quiet.
Lemma quiet_walk d va : quiet (pgdir_walk d va false).
Proof. unfold pgdir_walk. cbn [negb]. quiet_tac. Qed.
Lemma quiet_umc_err va pte : quiet (umc_err va pte).
Proof. unfold umc_err. quiet_tac. Qed.
#[export] Hint Resolve quiet_walk quiet_umc_err : quiet.

Lemma quiet_user_mem_check e va len perm : quiet (user_mem_check e va len perm).
Proof.
  assert (forall n d v end_va p, quiet (umc_loop n d v end_va p)) as H.
  { intros n d v end_va p. induction n as [|n IH]; cbn [umc_loop]; quiet_tac. }
  unfold user_mem_check. quiet_tac.
Qed.
#[export] Hint Resolve quiet_user_mem_check : quiet.

Lemma quiet_ret_inv {A} (c : M A) s a s' : quiet c -> c s = Ret a s' -> same_kernel s s'.
Proof. intros H E. specialize (H s). by rewrite E in H. Qed.

Lemma same_kernel_serves s s' l le k me ce :
  process s l le k me ce -> same_kernel s s' -> serves s s' k me ce /\ process s' l le k me ce.
Proof. intros P []. by apply (serves_quiet s s' l le k me ce P). Qed.

Lemma same_kernel_ok s s' l le k : kernel_ok s l le k -> same_kernel s s' -> kernel_ok s' l le k.
Proof. intros K []. by apply (quiet_ok s s' l le k K). Qed.

(** ** Records *)

Lemma resched_refl y : resched y y.
Proof. exists (env_status y), (env_runs y), (env_cpunum y). split; [by destruct y|done]. Qed.

Lemma resched_trans y1 y2 y3 : resched y1 y2 -> resched y2 y3 -> resched y1 y3.
Proof.
  intros (st & n & c & -> & H1) (st' & n' & c' & -> & H2). exists st', n', c'. split; [done|]. rewrite H2. exact H1.
Qed.

Lemma resched_status st y : (st = ENV_FREE <-> env_status y = ENV_FREE) -> resched y (set_env_status st y).
Proof. intros H. exists st, (env_runs y), (env_cpunum y). split; [by destruct y|done]. Qed.

Lemma resched_runs n y : resched y (set_env_runs n y).
Proof. exists (env_status y), n, (env_cpunum y). split; [by destruct y|done]. Qed.

Lemma resched_cpunum c y : resched y (set_env_cpunum c y).
Proof. exists (env_status y), (env_runs y), c. split; [by destruct y|done]. Qed.

Lemma resched_same y y' : resched y y' ->
  env_id y' = env_id y /\ env_parent_id y' = env_parent_id y /\ env_tf y' = env_tf y /\ env_pgdir y' = env_pgdir y /\
  (env_status y' = ENV_FREE <-> env_status y = ENV_FREE).
Proof. by intros (st & n & c & -> & H). Qed.

Lemma resched_used y y' : resched y y' -> env_status y <> ENV_FREE -> env_status y' <> ENV_FREE.
Proof. intros (_ & _ & _ & _ & H)%resched_same. tauto. Qed.

Lemma same_envs_refl s : same_envs s s.
Proof. intros i y Hy. exists y. split; [done|apply resched_refl]. Qed.

Lemma same_envs_trans s1 s2 s3 : same_envs s1 s2 -> same_envs s2 s3 -> same_envs s1 s3.
Proof.
  intros H1 H2 i y Hy. destruct (H1 i y Hy) as (y' & Hy' & R). destruct (H2 i y' Hy') as (y2 & Hy2 & R').
  exists y2. split; [done|by apply (resched_trans y y')].
Qed.

Lemma same_envs_eq s s' : envs s' = envs s -> same_envs s s'.
Proof. intros H i y Hy. exists y. split; [by rewrite H|apply resched_refl]. Qed.

Lemma same_envs_record s e x x' : envs s !! e = Some x -> resched x x' -> same_envs s (with_record s e x').
Proof.
  intros Hx R i y Hy. destruct (decide (i = e)) as [->|Hne].
  - exists x'. split; [apply record_here|]. by simplify_eq.
  - exists y. split; [by rewrite record_other|apply resched_refl].
Qed.

(** Where an address space is depends on nothing that rescheduling changes. *)
Lemma same_envs_space s s' e : same_envs s s' -> (forall i, is_Some (envs s' !! i) -> is_Some (envs s !! i)) -> space s' e = space s e.
Proof.
  intros H Hd. unfold space. destruct (envs s !! e) as [y|] eqn:Hy.
  - destruct (H e y Hy) as (y' & -> & (st & n & c & -> & Hs)). change (dir_of _) with (dir_of y). cbn [env_status set_env_cpunum set_env_runs set_env_status].
    destruct (decide (st = ENV_FREE)), (decide (env_status y = ENV_FREE)); tauto.
  - destruct (envs s' !! e) as [y'|] eqn:Hy'; [|done]. destruct (Hd e) as [z Hz]; [by exists y'|congruence].
Qed.

Lemma upd_env_keeps s l le k e x f :
  kernel_ok s l le k -> envs s !! e = Some x -> env_status x <> ENV_FREE -> resched x (f x) ->
  upd_env e f s = Ret tt (with_record s e (f x)) /\ kernel_ok (with_record s e (f x)) l le k.
Proof.
  intros K Hx Hu R. split; [by apply upd_env_eq|].
  destruct (resched_same x (f x) R) as (R1 & _ & _ & R4 & R5). by apply (kernel_ok_record s l le k e x (f x) K Hx Hu); [tauto|..].
Qed.

(** ** env_run *)

Lemma with_record_quiet s l le k e x' : kernel_ok (with_record s e x') l le k ->
  forall d, kernel_ok (set_cr3 d (with_record s e x')) l le k.
Proof. intros K d. by apply (quiet_ok _ _ l le k K). Qed.

(** The environment that was running becomes runnable. *)
Lemma run_step1 s l le k e x c :
  kernel_ok s l le k -> envs s !! e = Some x -> env_status x <> ENV_FREE -> cpus s !! cpunum s = Some c ->
  exists s1 x1, (match cpu_env c with
     | Some c => let! x := get_env c in
         if bool_decide (env_status x = ENV_RUNNING) then upd_env c (set_env_status ENV_RUNNABLE) else kret tt
     | None => kret tt end) s = Ret tt s1 /\
    kernel_ok s1 l le k /\ envs s1 !! e = Some x1 /\ resched x x1 /\ same_envs s s1 /\
    kmem s1 = kmem s /\ cpus s1 = cpus s /\ cpunum s1 = cpunum s /\ panicstr s1 = panicstr s /\ npages s1 = npages s.
Proof.
  intros K Hx Hu Hc. destruct (ko_cpu K) as (c' & Hc' & Hce). assert (c' = c) as -> by congruence.
  assert (exists s1 x1, Ret tt s = Ret tt s1 /\ kernel_ok s1 l le k /\ envs s1 !! e = Some x1 /\ resched x x1 /\
    same_envs s s1 /\ kmem s1 = kmem s /\ cpus s1 = cpus s /\ cpunum s1 = cpunum s /\ panicstr s1 = panicstr s /\ npages s1 = npages s) as Hsame.
  { exists s, x. by split_and!; [..|apply resched_refl|apply same_envs_refl| | | | |]. }
  destruct (cpu_env c) as [cu|]; [|exact Hsame]. destruct (Hce cu eq_refl) as [z Hz]. mstep (get_env_eq _ _ _ Hz).
  destruct (bool_decide_reflect (env_status z = ENV_RUNNING)) as [Hr|_]; [|exact Hsame].
  assert (resched z (set_env_status ENV_RUNNABLE z)) as R by (apply resched_status; rewrite Hr; split; discriminate).
  assert (env_status z <> ENV_FREE) as Huz by congruence.
  destruct (upd_env_keeps s l le k cu z (set_env_status ENV_RUNNABLE) K Hz Huz R) as [H1 K1].
  pose proof (same_envs_record s cu z _ Hz R) as He. destruct (He e x Hx) as (x1 & Hx1 & R1).
  exists (with_record s cu (set_env_status ENV_RUNNABLE z)), x1. done.
Qed.

Section Run.
Context {stabs : StabSections}.

Lemma env_run_switch s l le k e x0 :
  kernel_ok s l le k -> envs s !! e = Some x0 -> env_status x0 <> ENV_FREE ->
  exists s' x, env_run e s = Leave (ToUser e) s' /\ switched s s' l le k e x.
Proof.
  intros K Hx Hu. destruct (ko_cpu K) as (c & Hc & _).
  destruct (run_step1 s l le k e x0 c K Hx Hu Hc) as (s1 & x1 & H1 & K1 & Hx1 & R1 & E1 & M1 & C1 & N1 & D1 & Q1).
  assert (cpus s1 !! cpunum s1 = Some c) as Hc1 by congruence. pose proof (resched_used _ _ R1 Hu) as Hu1.
  pose proof (switch_process s1 l le k e x1 (set_cpu_env (Some e) c) K1 Hx1 Hu1 eq_refl) as P2.
  set (s2 := set_cpus (<[cpunum s1 := set_cpu_env (Some e) c]> (cpus s1)) s1) in *.
  destruct (used_space s2 l le k e x1 P2 e x1 Hx1 Hu1) as (d & Hd & Hpg).
  assert (resched x1 (set_env_status ENV_RUNNING x1)) as R2 by (apply resched_status; split; [discriminate|done]).
  destruct (upd_env_keeps s2 l le k e x1 (set_env_status ENV_RUNNING) (pr_ok P2) Hx1 Hu1 R2) as [H3 K3].
  set (x2 := set_env_status ENV_RUNNING x1) in *. set (s3 := with_record s2 e x2) in *.
  assert (envs s3 !! e = Some x2) as Hx3 by apply record_here. pose proof (resched_used _ _ R2 Hu1) as Hu2.
  set (x4 := set_env_runs (u32 (env_runs x2 + 1)) x2).
  destruct (upd_env_keeps s3 l le k e x2 (fun x => set_env_runs (u32 (env_runs x + 1)) x) K3 Hx3 Hu2 (resched_runs _ _)) as [H4 K4].
  fold x4 in H4, K4. set (s4 := with_record s3 e x4) in *. assert (envs s4 !! e = Some x4) as Hx4 by apply record_here.
  assert (0 <= d < npages s4) as Hdr by apply (pd_range _ _ _ (ko_pd (pr_ok P2) Hd)).
  set (s5 := set_cr3 (d * PGSIZE) s4).
  assert (kernel_ok s5 l le k) as K5 by by apply (with_record_quiet s3 l le k e x4).
  destruct (upd_env_keeps s5 l le k e x4 (set_env_cpunum (cpunum s5)) K5 Hx4 Hu2 (resched_cpunum _ _)) as [H6 K6].
  set (x6 := set_env_cpunum (cpunum s5) x4) in *. set (s6 := with_record s5 e x6) in *.
  assert (cpus s5 !! cpunum s5 = Some (set_cpu_env (Some e) c)) as Hc5 by apply lookup_insert_eq.
  assert (env_run e s = Leave (ToUser e) s6) as Hrun.
  { unfold env_run. mstep (curenv_eq _ _ Hc). mstep H1. mstep (set_curenv_eq c (Some e) s1 Hc1). fold s2. mstep H3. mstep H4.
    mstep (get_env_eq _ _ _ Hx4). change (env_pgdir x4) with (env_pgdir x1). rewrite Hpg.
    mstep (PADDR_page d s4 (ko_wf K4) Hdr). unfold lcr3. mrun. fold s5. unfold env_pop_tf.
    mstep (curenv_eq _ _ Hc5). cbn [deref cpu_env set_cpu_env]. mrun. by mstep H6. }
  exists s6, x6. split; [exact Hrun|]. split; [split; [split|done|]| | | |].
  - exact K6.
  - by exists (set_cpu_env (Some e) c).
  - apply record_here.
  - done.
  - exists d. split; [|done].
    transitivity (space s5 e); [exact (record_space s5 e x4 x6 Hx4 Hu2 Hu2 eq_refl e)|]. change (space s5 e) with (space s4 e).
    transitivity (space s3 e); [exact (record_space s3 e x2 x4 Hx3 Hu2 Hu2 eq_refl e)|]. rewrite <- Hd.
    exact (record_space s2 e x1 x2 Hx1 Hu1 Hu2 eq_refl e).
  - apply (same_envs_trans s s1 s6 E1). apply (same_envs_trans s1 s3); [apply (same_envs_record s2 e x1 x2 Hx1 R2)|].
    apply (same_envs_trans s3 s4); [exact (same_envs_record s3 e x2 x4 Hx3 (resched_runs _ _))|].
    exact (same_envs_record s5 e x4 x6 Hx4 (resched_cpunum _ _)).
  - exact M1.
  - exists c. split; [exact Hc|]. split; [exact Hc5|].
    destruct (env_run_spec s e d x0 c (ko_wf K) (ko_cpu K) Hc Hx) as (s' & y & Hrun' & _ & _ & _ & _ & _ & _ & _ & _ & Ho & _).
    { destruct (resched_same x0 x1 R1) as (_ & _ & _ & Hpg0 & _). congruence. }
    { change (npages s4) with (npages s1) in Hdr. by rewrite <- Q1. }
    rewrite Hrun in Hrun'. by injection Hrun' as ->.
  - exact D1.
Qed.
End Run.

(** ** sched_yield *)

(** The ways the kernel is left other than into an environment. *)
Definition not_user (l : leave) : Prop := match l with ToUser _ => False | _ => True end.

(** [c] never returns. *)
Definition no_return {A} (c : M A) : Prop := forall s a s', c s <> Ret a s'.

Lemma no_return_bind {A B} (c : M A) (k : A -> M B) : (forall a, no_return (k a)) -> no_return (kbind c k).
Proof. intros H s b s'. unfold kbind. destruct (c s); [apply H|done|done]. Qed.

Lemma no_return_first {A B} (c : M A) (k : A -> M B) : no_return c -> no_return (kbind c k).
Proof. intros H s b s'. unfold kbind. destruct (c s) as [a s1| |] eqn:E; [by destruct (H s a s1)|done|done]. Qed.

Lemma exits_curenv : exits not_user curenv.
Proof. unfold curenv. exits_tac. Qed.
Lemma exits_set_curenv e : exits not_user (set_curenv e).
Proof. unfold set_curenv, set_thiscpu. exits_tac. Qed.
#[export] Hint Resolve exits_curenv exits_set_curenv : exits.

Section Yield.
Context {stabs : StabSections}.

Lemma exits_unlock : exits not_user unlock_kernel.
Proof.
  assert (forall a, exits not_user (vread32 a)) as H0.
  { intros a. assert (forall b, exits not_user (vread8 b)) as Hv; [|unfold vread32; exits_tac].
    intros b. apply exits_bind; [|exits_tac]. intros s l s'. unfold vaddr. by destruct (translate _ _ _ _). }
  assert (forall a, exits not_user (debuginfo_eip a)) as H1 by (intros a; unfold debuginfo_eip; exits_tac).
  assert (forall l, exits not_user (report_pcs l)) as H2 by (intros l; induction l; cbn [report_pcs]; exits_tac).
  unfold unlock_kernel, spin_unlock, panic. exits_tac. unfold deref. exits_tac.
Qed.

Lemma exits_sched_halt : exits not_user sched_halt.
Proof.
  assert (forall n i, exits not_user (find_alive n i)) as H1 by (intros n; induction n; intros; cbn [find_alive]; exits_tac).
  pose proof exits_unlock. unfold sched_halt, lcr3, set_thiscpu. exits_tac; by apply exits_leave.
Qed.

Lemma sched_halt_ends : no_return sched_halt.
Proof. unfold sched_halt. repeat (apply no_return_bind; intros ?). by intros st r st'. Qed.

Lemma env_run_ends e : no_return (env_run e).
Proof. unfold env_run, env_pop_tf. repeat (apply no_return_bind; intros ?). by intros st r st'. Qed.

Lemma sched_yield_ends : no_return sched_yield.
Proof.
  unfold sched_yield. apply no_return_bind. intros idle. apply no_return_bind. intros start.
  apply no_return_bind. intros [i|]; [apply env_run_ends|]. apply no_return_bind. intros r.
  destruct idle, r; apply env_run_ends || apply sched_halt_ends.
Qed.

Lemma in_kernel_cpu s l le k : in_kernel s l le k ->
  exists c, cpus s !! cpunum s = Some c /\ forall i, cpu_env c = Some i -> exists y, envs s !! i = Some y /\ env_status y <> ENV_FREE.
Proof.
  intros [K H]. destruct (ko_cpu K) as (c & Hc & He). exists c. split; [done|]. intros i Hi.
  destruct (He i Hi) as [y Hy]. exists y. split; [done|]. by apply (H c i y).
Qed.

Lemma process_in_kernel s l le k me ce : process s l le k me ce -> in_kernel s l le k.
Proof.
  intros P. split; [apply P|]. intros c i y Hc Hi Hy. destruct (pr_cpu P) as (c' & Hc' & Hm).
  pose proof (pr_env P). assert (y = ce) as -> by congruence. apply (pr_used P).
Qed.

(** Whatever it decides, when an environment is entered the invariant holds. *)
Lemma sched_yield_switch s l le k e s' :
  in_kernel s l le k -> sched_yield s = Leave (ToUser e) s' -> exists x, switched s s' l le k e x.
Proof.
  intros Hk E. pose proof (proj1 Hk) as K. destruct (in_kernel_cpu s l le k Hk) as (c & Hc & Hcur).
  pose proof (sched_yield_spec s c (ko_envs K) Hc) as Y.
  specialize (Y ltac:(intros i Hi; destruct (Hcur i Hi) as (y & -> & _); by exists y)). cbv zeta in Y.
  assert (forall i y, envs s !! i = Some y -> env_status y <> ENV_FREE -> env_run i s = Leave (ToUser e) s' ->
    exists x, switched s s' l le k e x) as Hrun.
  { intros i y Hy Hu Hr. destruct (env_run_switch s l le k i y K Hy Hu) as (s1 & x & E1 & S).
    rewrite E1 in Hr. injection Hr as <- <-. by exists x. }
  assert (sched_halt s <> Leave (ToUser e) s') as Hhalt by (intros H; by apply (exits_sched_halt s _ s' H)).
  destruct (next_env s (cpu_env c)) as [i|].
  - destruct Y as (Y & (y & Hy & Hst) & _). apply (Hrun i y Hy); [congruence|by rewrite <- Y].
  - destruct Y as [_ Y]. destruct (cpu_env c) as [r|]; [|congruence].
    destruct (bool_decide_reflect (env_status <$> envs s !! r = Some ENV_RUNNING)) as [Hr|_]; [|congruence].
    destruct (envs s !! r) as [y|] eqn:Hy; [|done]. injection Hr as Hr. apply (Hrun r y Hy); [congruence|by rewrite <- Y].
Qed.

(** A runnable environment is enough for one to be entered. *)
Lemma sched_yield_runs s l le k i : in_kernel s l le k -> runnable s i -> exists e s', sched_yield s = Leave (ToUser e) s'.
Proof.
  intros Hk Hi. pose proof (proj1 Hk) as K. destruct (in_kernel_cpu s l le k Hk) as (c & Hc & Hcur).
  pose proof (sched_yield_spec s c (ko_envs K) Hc) as Y.
  specialize (Y ltac:(intros j Hj; destruct (Hcur j Hj) as (y & -> & _); by exists y)). cbv zeta in Y.
  destruct (next_env s (cpu_env c)) as [j|]; [|by destruct (proj1 Y i)]. destruct Y as (-> & (y & Hy & Hst) & _).
  destruct (env_run_switch s l le k j y K Hy ltac:(congruence)) as (s' & x & E & _). by exists j, s'.
Qed.
End Yield.

(** ** What is left of the others *)

Lemma frame_refl s me ce : frame s s me ce.
Proof. intros e x S. split; [exists x; split; [apply S|apply resched_refl]|]. intros Hp. split; [apply undisturbed_refl|done]. Qed.

Lemma frame_stranger s s' me ce ce' e x x' :
  stranger s me ce e x -> envs s' !! e = Some x' -> resched x x' -> env_id ce' = env_id ce -> stranger s' me ce' e x'.
Proof.
  intros [S1 S2 S3 S4] Hx R Hid. destruct (resched_same x x' R) as (_ & R2 & _ & _ & R5). split; [done|tauto|done|congruence].
Qed.

Lemma frame_trans s1 s2 s3 me ce ce2 :
  frame s1 s2 me ce -> env_id ce2 = env_id ce -> frame s2 s3 me ce2 -> frame s1 s3 me ce.
Proof.
  intros F1 Hid F2 e x S. destruct (F1 e x S) as [(x2 & Hx2 & R2) U1].
  destruct (F2 e x2 (frame_stranger s1 s2 me ce ce2 e x x2 S Hx2 R2 Hid)) as [(x3 & Hx3 & R3) U2].
  split; [exists x3; split; [done|by apply (resched_trans x x2)]|]. intros Hp. destruct (U1 Hp) as [D1 P1].
  destruct (U2 P1) as [D2 P2]. split; [by apply (undisturbed_trans s1 s2)|done].
Qed.

Lemma serves_frame s s' k me ce : serves s s' k me ce -> frame s s' me ce.
Proof.
  intros V e x S. split; [exists x; split; [by apply (sv_record _ _ _ _ _ V)|apply resched_refl]|].
  by apply (sv_space _ _ _ _ _ V e x).
Qed.

(** Only records and the processor change. *)
Lemma same_envs_frame s s' me ce :
  envs_wf s -> envs_wf s' -> same_envs s s' -> kmem s' = kmem s -> frame s s' me ce.
Proof.
  intros W W' E M. assert (forall e, space s' e = space s e) as Hsp.
  { intros e. apply same_envs_space; [done|]. intros i Hi. by apply W, W'. }
  assert (forall d p, dir_maps s' d p = dir_maps s d p) as Hdm by (intros; by apply dir_maps_kmem).
  intros e x S. split; [apply E, S|]. intros Hp. split.
  - split; [apply Hsp|]. intros d _ va _ _. split; [by apply trans_kmem|]. intros p f _ y _. by rewrite M.
  - intros d p. rewrite Hsp, Hdm. intros Hd Hpos. rewrite <- (Hp d p Hd Hpos). apply maps_ext. intros i _.
    unfold env_maps. rewrite Hsp. destruct (space s i); [apply Hdm|done].
Qed.

Section Destroy.
Context {stabs : StabSections}.
Context (s : kstate) (l le : list Z) (k me : Z) (ce : Env).
Hypothesis P : process s l le k me ce.

Lemma switched_frame s' l' le' e x : switched s s' l' le' k e x -> frame s s' me ce.
Proof.
  intros [E S M _ _]. apply same_envs_frame; [apply (ko_envs (pr_ok P))|apply (ko_envs (pr_ok (en_proc _ _ _ _ _ _ E)))|done|done].
Qed.

(** Freeing the running environment leads to the scheduler, in a well-formed
    kernel where it is free and the others are as they were. *)
Lemma free_self_yields :
  exists s3 l2, (env_free me ;; set_curenv None ;; sched_yield) s = sched_yield s3 /\ in_kernel s3 l2 (me :: le) k /\
    (forall i, i <> me -> envs s3 !! i = envs s !! i) /\ frame s s3 me ce.
Proof.
  pose proof (pr_ok P) as K. destruct (used_space s l le k me ce P me ce (pr_env P) (pr_used P)) as (d & Hd & _).
  destruct (pr_cpu P) as (c & Hc & Hm).
  destruct (env_free_spec s l le k me d K Hd) as (s2 & l2 & H2 & R). pose proof R as [R1 R2 R3 R4 R5 [R6 R7]].
  assert (cpus s2 !! cpunum s2 = Some c) as Hc2 by congruence.
  set (c' := set_cpu_env None c). set (s3 := set_cpus (<[cpunum s2 := c']> (cpus s2)) s2).
  exists s3, l2. split; [mstep H2; by mstep (set_curenv_eq c None s2 Hc2)|]. split; [|split].
  - split; [by apply (kernel_ok_cpu s2 l2 (me :: le) k c' R1)|]. intros c1 i y.
    assert (cpus s3 !! cpunum s3 = Some c') as -> by apply lookup_insert_eq. by intros [= <-].
  - intros i Hi. exact (proj1 (R5 i Hi)).
  - intros i y S. destruct (R5 i (st_me _ _ _ _ _ S)) as [He Hu].
    split; [exists y; split; [|apply resched_refl]; change (envs s3) with (envs s2); rewrite He; apply S|]. intros Hp. split; [exact Hu|].
    exact (freed_private s l le k me ce P me d s2 l2 i Hd R (st_me _ _ _ _ _ S) Hp).
Qed.

(** The running environment is destroyed: another one is entered, or none. *)
Lemma free_self :
  let c := env_free me ;; set_curenv None ;; sched_yield in
  (forall r s', c s <> Ret r s') /\
  forall e s', c s = Leave (ToUser e) s' -> exists l' x, entered s' l' (me :: le) k e x /\ frame s s' me ce.
Proof.
  destruct free_self_yields as (s3 & l2 & E & Hk & _ & F). cbv zeta. rewrite E. split; [intros ? ?; apply sched_yield_ends|]. intros e s' Hy.
  destruct (sched_yield_switch s3 l2 (me :: le) k e s' Hk Hy) as (x & [X1 X2 X3 _ _]). exists l2, x. split; [exact X1|].
  apply (frame_trans s s3 s' me ce ce F); [done|].
  apply same_envs_frame; [apply (ko_envs (proj1 Hk))|apply (ko_envs (pr_ok (en_proc _ _ _ _ _ _ X1)))|done|done].
Qed.

Lemma env_destroy_eq : env_destroy me s = (env_free me ;; set_curenv None ;; sched_yield) s.
Proof.
  destruct (used_space s l le k me ce P me ce (pr_env P) (pr_used P)) as (d & Hd & _). destruct (pr_cpu P) as (c & Hc & Hm).
  destruct (env_free_spec s l le k me d (pr_ok P) Hd) as (s2 & l2 & H2 & R). destruct R as [_ _ _ _ _ [R6 R7]].
  assert (cpus s2 !! cpunum s2 = Some c) as Hc2 by congruence.
  unfold env_destroy. mstep (get_env_eq _ _ _ (pr_env P)). mstep (curenv_eq _ _ Hc).
  rewrite Hm, (bool_decide_true (Some me = Some me)), andb_false_r by done. mstep H2. mstep (curenv_eq _ _ Hc2).
  rewrite Hm, bool_decide_true by done. by mstep H2.
Qed.

Lemma env_destroy_self :
  (forall r s', env_destroy me s <> Ret r s') /\
  forall e s', env_destroy me s = Leave (ToUser e) s' -> exists l' x, entered s' l' (me :: le) k e x /\ frame s s' me ce.
Proof. rewrite env_destroy_eq. apply free_self. Qed.

(** If another one can run, one runs. *)
Lemma env_destroy_runs i : i <> me -> runnable s i -> exists e s', env_destroy me s = Leave (ToUser e) s'.
Proof.
  intros Hi (y & Hy & Hst). rewrite env_destroy_eq. destruct free_self_yields as (s3 & l2 & -> & Hk & He & _).
  apply (sched_yield_runs s3 l2 (me :: le) k i Hk). exists y. by rewrite He.
Qed.
End Destroy.
