(* ===== verification/UserPrograms.v ===== *)
(** * User programs: src/user/

    The test programs that misbehave or stay within one environment's turn, and
    those that fork, over the user library of UserLib.v.  A run ends where the
    program hands the processor to another environment, so the programs whose
    point comes after sys_yield are not here; the compiler's locals are values,
    and [%s] arguments of cprintf are left out, as in UserLib.v.

    What is proved is the kernel's answer to bad pointers: the caller is
    destroyed, and the others go on. *)
From Stdlib Require Import Ascii.
From S2P Require Import Prelude Machine Mmu KState PageAlloc PageTable Vmem Kdebug Env Sched Syscall Isolation Reclaim Protection UserLib UserCalls Switch.

Local Open Scope Z_scope.

Section Programs.
Context {stabs : StabSections} {image : UserImage} {stack : StackUse}.

(** ** src/user/hello.c and the programs that pass bad pointers *)

Definition hello : M unit :=
  cprintf "hello, world" [] ;;
  let! p := uread32 thisenv_va in
  let! e := env_at p in
  cprintf "i am environment %08x" [env_id e].

Definition buggyhello : M unit := u_cputs 1 1.
Definition evilhello : M unit := u_cputs 0xf010000c 100.

(** [hello] is a variable that holds the address of the string. *)
Definition buggyhello2 (hello_va : Z) : M unit :=
  let! p := uread32 hello_va in u_cputs p (1024 * 1024).

(** ** The programs that fault *)

Definition faultread : M unit := let! v := uread32 0 in cprintf "I read %08x from location 0!" [v].
Definition faultreadkernel : M unit :=
  let! v := uread32 0xf0100000 in cprintf "I read %08x from location 0xf0100000!" [v].
Definition faultwrite : M unit := uwrite32 0 0.
Definition faultwritekernel : M unit := uwrite32 0xf0100000 0.

Definition faultnostack : M unit :=
  let! _ := u_env_set_pgfault_upcall 0 pgfault_upcall in uwrite32 0 0.
Definition faultbadhandler : M unit :=
  let! _ := u_page_alloc 0 (UXSTACKTOP - PGSIZE) PTE_UPW in
  let! _ := u_env_set_pgfault_upcall 0 0xDeadBeef in
  uwrite32 0 0.
Definition faultevilhandler : M unit :=
  let! _ := u_page_alloc 0 (UXSTACKTOP - PGSIZE) PTE_UPW in
  let! _ := u_env_set_pgfault_upcall 0 0xF0100020 in
  uwrite32 0 0.

(** src/user/faultdie.c: [handler] is the address of its code, which gets the
    address of the fault record. *)
Definition faultdie_handler (utf : Z) : M unit :=
  let! addr := uread32 utf in
  let! err := uread32 (utf + 4) in
  cprintf "i faulted at va %x, err %x" [addr; Z.land err 7] ;;
  let! id := u_getenvid in
  let! _ := u_env_destroy id in
  kret tt.
Definition faultdie (handler : Z) : M unit := set_pgfault_handler handler ;; uwrite32 0xDeadBeef 0.

(** ** src/user/testbss.c *)

Definition ARRAYSIZE : Z := 1024 * 1024.

Section Testbss.
Context (bigarray : Z).

Fixpoint bss_cleared (n : nat) (i : Z) : M unit :=
  match n with
  | O => kret tt
  | S n =>
      let! v := uread32 (bigarray + 4 * i) in
      (if negb (v =? 0) then user_panic "bigarray[%d] isn't cleared!" [i] else kret tt) ;;
      bss_cleared n (i + 1)
  end.

Fixpoint bss_fill (n : nat) (i : Z) : M unit :=
  match n with
  | O => kret tt
  | S n => uwrite32 (bigarray + 4 * i) i ;; bss_fill n (i + 1)
  end.

Fixpoint bss_filled (n : nat) (i : Z) : M unit :=
  match n with
  | O => kret tt
  | S n =>
      let! v := uread32 (bigarray + 4 * i) in
      (if negb (v =? i) then user_panic "bigarray[%d] didn't hold its value!" [i] else kret tt) ;;
      bss_filled n (i + 1)
  end.

Definition testbss : M unit :=
  cprintf "Making sure bss works right..." [] ;;
  bss_cleared (Z.to_nat ARRAYSIZE) 0 ;;
  bss_fill (Z.to_nat ARRAYSIZE) 0 ;;
  bss_filled (Z.to_nat ARRAYSIZE) 0 ;;
  cprintf "Yes, good.  Now doing a wild write off the end..." [] ;;
  uwrite32 (bigarray + 4 * (ARRAYSIZE + 1024)) 0 ;;
  user_panic "SHOULD HAVE TRAPPED!!!" [].
End Testbss.

(** ** Programs that fork *)

(** src/user/forktree.c. *)
Definition DEPTH : nat := 3.

Fixpoint forkchild (n : nat) (cur : string) (branch : ascii) : M unit :=
  if (DEPTH <=? String.length cur)%nat then kret tt
  else match n with
  | O => crash_with OutOfFuel
  | S n =>
      let nxt := String.substring 0 DEPTH (cur ++ String branch "") in
      let! r := fork in
      if r =? 0 then
        (let! id := u_getenvid in
         cprintf "%04x: I am '%s'" [id] ;;
         forkchild n nxt "0"%char ;;
         forkchild n nxt "1"%char) ;;
        exit
      else kret tt
  end.

Definition forktree (cur : string) : M unit :=
  let! id := u_getenvid in
  cprintf "%04x: I am '%s'" [id] ;;
  forkchild DEPTH cur "0"%char ;;
  forkchild DEPTH cur "1"%char.

(** src/user/pingpong.c: [who] is the address of the variable on the stack. *)
Section Pingpong.
Context (tries : nat) (who : Z).

Fixpoint pingpong_loop (rounds : nat) : M unit :=
  match rounds with
  | O => crash_with OutOfFuel
  | S rounds =>
      let! r := ipc_recv who 0 0 in
      let i := u32 r in
      let! id := u_getenvid in
      let! w := uread32 who in
      cprintf "%x got %d from %x" [id; i; w] ;;
      if i =? 10 then kret tt
      else
        let i := u32 (i + 1) in
        let! w := uread32 who in
        ipc_send tries (s32 w) i 0 0 ;;
        if i =? 10 then kret tt else pingpong_loop rounds
  end.

Definition pingpong (rounds : nat) : M unit :=
  let! r := fork in
  uwrite32 who (u32 r) ;;
  (if negb (r =? 0) then
     let! id := u_getenvid in
     let! w := uread32 who in
     cprintf "send 0 from %x to %x" [id; w] ;;
     ipc_send tries (s32 w) 0 0 0
   else kret tt) ;;
  pingpong_loop rounds.
End Pingpong.
End Programs.

(** * Properties *)

(** ** The end of a process

    The computation's outcome is the destruction of its process: it never
    returns; if an environment is entered, the kernel is well formed, [me] is
    free and the others are as they were; and if another one can run, one does. *)
Definition killed {A} (s : kstate) (le : list Z) (k me : Z) (ce : Env) (o : outcome A) : Prop :=
  (forall r s', o <> Ret r s') /\
  (forall e s', o = Leave (ToUser e) s' -> exists l' x, entered s' l' (me :: le) k e x /\ frame s s' me ce) /\
  forall i, i <> me -> runnable s i -> exists e s', o = Leave (ToUser e) s'.

Section Killed.
Context {stabs : StabSections}.
Context (s : kstate) (l le : list Z) (k me : Z) (ce : Env).
Hypothesis P : process s l le k me ce.

Lemma killed_destroy : killed s le k me ce (env_destroy me s).
Proof.
  destruct (env_destroy_self s l le k me ce P) as [D1 D2]. split; [exact D1|]. split.
  - intros e s' E. exact (D2 e s' E).
  - intros i Hi Hr. exact (env_destroy_runs s l le k me ce P i Hi Hr).
Qed.

Lemma killed_bind {A B} (c : M A) (f : A -> M B) s' : killed s le k me ce (c s') -> killed s le k me ce (kbind c f s').
Proof.
  intros (K1 & K2 & K3). unfold kbind. destruct (c s') as [a s1|w s1|w s1] eqn:E.
  - by destruct (K1 a s1).
  - split; [done|]. split; [intros e s2 [= -> ->]; by apply K2|]. intros i Hi Hr. destruct (K3 i Hi Hr) as (e & s2 & [= -> ->]).
    by exists e, s2.
  - split; [done|]. split; [done|]. intros i Hi Hr. by destruct (K3 i Hi Hr) as (e & s2 & ?).
Qed.

(** Quiet steps before it do not matter. *)
Lemma killed_quiet {A} s1 (o : outcome A) : same_kernel s s1 -> killed s1 le k me ce o -> killed s le k me ce o.
Proof.
  intros Q (K1 & K2 & K3). split; [exact K1|]. split.
  - intros e s' E. destruct (K2 e s' E) as (l' & x & X & F). exists l', x. split; [exact X|].
    apply (frame_trans s s1 s' me ce ce); [|done|exact F].
    exact (serves_frame s s1 k me ce (proj1 (same_kernel_serves s s1 l le k me ce P Q))).
  - intros i Hi (y & Hy & Hst). apply (K3 i Hi). exists y. by rewrite (sk_envs _ _ Q).
Qed.
End Killed.

Section Pointers.
Context {stabs : StabSections} {image : UserImage}.
Context (s : kstate) (l le : list Z) (k me : Z) (ce : Env) (d : Z).
Hypothesis H : home s l le k me ce d.

(** The first page of the range is not the process's to read. *)
Lemma cputs_killed va len :
  is_u32 va -> is_u32 len -> va < ROUNDUP (u32 (va + len)) PGSIZE ->
  allowed s d (Z.lor (Z.lor PTE_U PTE_U) PTE_P) va = false -> killed s le k me ce (u_cputs va len s).
Proof.
  intros Hva Hlen Hr Ha. pose proof (hm_proc H) as P. pose proof (pr_ok P) as K. destruct (ko_dir K (hm_me H)) as (x & Hx & Hd).
  pose proof (user_mem_check_eq s l me va len (Z.lor PTE_U PTE_U) d x (ko_wf K) (ko_pd K (hm_me H)) (hm_self H) Hva Hx Hd) as E.
  cbv zeta in E. assert (refused s d (Z.lor (Z.lor PTE_U PTE_U) PTE_P) va (ROUNDUP (u32 (va + len)) PGSIZE) = Some va) as Hf.
  { unfold refused. rewrite visited_cons by done. rewrite filter_cons, decide_True by exact Ha. done. }
  rewrite Hf in E. unfold refusal in E. rewrite Z.eqb_refl in E. set (s1 := set_user_mem_check_addr va s) in *.
  set (s2 := set_klog (("[%08x] user_mem_check assertion failure for va %08x", [env_id x; va]) :: klog s1) s1).
  assert (same_kernel s s2) as Q by by split.
  destruct (same_kernel_serves s s2 l le k me ce P Q) as [_ P2].
  apply (killed_quiet s l le k me ce P s2 _ Q). unfold u_cputs, usyscall, int_syscall. do 3 apply killed_bind.
  change (syscall SYS_cputs (u32 va) (u32 len) (u32 0) (u32 0) (u32 0)) with (sys_cputs (u32 va) (u32 len) ;; kret 0).
  rewrite !u32_id by done. apply killed_bind. unfold sys_cputs. rewrite (bind_Ret _ _ _ _ _ (cur_eq s l le k me ce P)). apply killed_bind.
  unfold user_mem_assert. assert (Z.lor PTE_U PTE_U = PTE_U) as Hp by done. rewrite (bind_Ret _ _ _ _ _ E).
  change (- E_FAULT <? 0) with true. cbn iota. rewrite (bind_Ret (get user_mem_check_addr) _ s1 va s1 eq_refl).
  rewrite (bind_Ret _ _ _ _ _ (get_env_eq me x s1 Hx)). exact (killed_destroy s2 l le k me ce P2).
Qed.

Lemma buggyhello_killed : trans s d 0 = None -> killed s le k me ce (buggyhello s).
Proof.
  intros Ht. unfold buggyhello. apply cputs_killed; [by unfold is_u32|by unfold is_u32|by vm_compute|].
  unfold allowed. unfold trans in Ht. change (PDX 1) with (PDX 0). destruct (tbl s d (PDX 0)) as [t|]; [|done].
  apply andb_false_iff. right. apply Z.eqb_neq. intros E. change (pte_addr t 1) with (pte_addr t 0) in E.
  unfold entry in Ht. destruct (has _ PTE_P) eqn:Hp; [done|].
  unfold has in Hp. apply negb_false_iff, Z.eqb_eq in Hp.
  apply (f_equal (fun z => Z.land z PTE_P)) in E. rewrite <- Z.land_assoc in E.
  change (Z.land (Z.lor (Z.lor PTE_U PTE_U) PTE_P) PTE_P) with PTE_P in E. rewrite Hp in E. discriminate.
Qed.

Lemma evilhello_killed : killed s le k me ce (evilhello s).
Proof.
  unfold evilhello. apply cputs_killed; [by unfold is_u32|by unfold is_u32|by vm_compute|]. unfold allowed.
  destruct (tbl s d _); [|done]. by change (0xf010000c <=? ULIM) with false.
Qed.
End Pointers.

(** C10. Bad pointers end the process that passes them and nobody else.  In any
    process of a well-formed kernel, printing from an unmapped page (buggyhello)
    or from kernel memory (evilhello) never returns; when an environment is
    entered next, the kernel is well formed, the caller's environment is free
    again, and no other environment's registers, address space or private memory
    has changed; and as long as another environment can run, one does. *)
Theorem bad_pointers_killed {stabs : StabSections} (s : kstate) (l le : list Z) (k me : Z) (ce : Env) (d : Z) :
  home s l le k me ce d -> trans s d 0 = None ->
  killed s le k me ce (buggyhello s) /\ killed s le k me ce (evilhello s).
Proof.
  intros H Ht. split; [exact (buggyhello_killed s l le k me ce d H Ht)|exact (evilhello_killed s l le k me ce d H)].
Qed.

#[local] Instance no_stabs : StabSections :=
  {| STAB_BEGIN := 0; STAB_END := 0; STABSTR_BEGIN := 0; STABSTR_END := 0; lit_unknown := 0 |}.

Lemma bad_pointers_killed_witness :
  exists s ce, home s first_free first_idle 1 0 ce 2 /\ killed s first_idle 1 0 ce (buggyhello s) /\ killed s first_idle 1 0 ce (evilhello s).
Proof.
  destruct first_home as (s & ce & H & _ & Ht & _). exists s, ce.
  assert (trans s 2 0 = None) as Hn by (unfold trans; rewrite Ht; [reflexivity|split; [vm_compute; discriminate|reflexivity]]).
  destruct (bad_pointers_killed s first_free first_idle 1 0 ce 2 H Hn) as [K1 K2]. exact (conj H (conj K1 K2)).
Defined.
