(* ===== verification/System.v ===== *)
(** * The machine between two turns of a process

    Every way from user mode into the kernel and back goes through trap
    (src/kern/trap.c).  This file follows it - system calls, timer interrupts,
    page faults with and without a handler, and fatal exceptions - for an
    arbitrary process, and closes the result under any number of turns of any
    processes. *)
From S2P Require Import Prelude Machine Mmu Devices KState PageAlloc PageTable Vmem Exits Kdebug Monitor Spinlock Env Sched Syscall Isolation Reclaim Protection UserLib Switch Trap.

Local Open Scope Z_scope.

(** * Properties *)

(** ** Stores through the page table *)

Lemma translate_write_read s pd va a : translate s pd va true = Some a -> translate s pd va false = Some a.
Proof.
  unfold translate. destruct (KERNBASE <=? va); [done|]. cbn [negb orb].
  destruct (has (mmu_pde s pd va) PTE_P), (has (mmu_pte s pd va) PTE_P); cbn [andb]; try done.
  by destruct (has (mmu_pde s pd va) PTE_W && has (mmu_pte s pd va) PTE_W).
Qed.

(** What the processor lets through is mapped. *)
Lemma translate_mapped s l d va b a :
  mem_wf s -> pgdir_ok s l d -> PDX va <> PDX UVPT -> is_u32 va -> va < KERNBASE ->
  translate s (d * PGSIZE) va b = Some a -> exists p f, trans s d va = Some (p, f) /\ a = page_kva p + va mod PGSIZE.
Proof.
  intros Hwf Hpd Hu Hva Hk Ht. pose proof (pd_range _ _ _ Hpd). pose proof (wf_npages _ Hwf).
  assert (translate s (d * PGSIZE) va false = Some a) as Hr by (destruct b; [by apply translate_write_read|done]).
  destruct (trans s d va) as [[p f]|] eqn:E.
  - exists p, f. split; [done|]. rewrite (translate_trans s l d va p f) in Hr by done. congruence.
  - rewrite (translate_unmapped s d va false) in Hr; [done|apply (wf_bytes _ Hwf)|lia|done|done].
Qed.

(** ** A turn of process [me], which began in state [s0] *)

Section Turn.
Context {stabs : StabSections} {mon : MonitorImage}.
Context (s0 : kstate) (k me : Z) (ce : Env).

(** The process still runs; everybody else is as in [s0]. *)
Definition mine (s : kstate) : Prop :=
  exists l le ce', process s l le k me ce' /\ env_id ce' = env_id ce /\ frame s0 s me ce.

(** Its own page tables are in use. *)
Definition at_home (s : kstate) : Prop := exists d, space s me = Some d /\ cr3 s = d * PGSIZE.

(** The outcome of a computation: it returns with [R], or an environment is
    entered with everybody else as in [s0], or the machine stops. *)
Definition turn {A} (c : M A) (R : A -> kstate -> Prop) (s : kstate) : Prop :=
  match c s with
  | Ret a s' => R a s'
  | Leave (ToUser e) s' => exists l le x, entered s' l le k e x /\ frame s0 s' me ce
  | _ => True
  end.

Lemma turn_bind {A B} (c : M A) (f : A -> M B) R s :
  turn c (fun a s' => turn (f a) R s') s -> turn (kbind c f) R s.
Proof. unfold turn, kbind. by destruct (c s) as [a s1|[]|]. Qed.

Lemma turn_ret {A} (a : A) (R : A -> kstate -> Prop) s : R a s -> turn (kret a) R s.
Proof. done. Qed.

Lemma turn_get {A} (f : kstate -> A) (R : A -> kstate -> Prop) s : R (f s) s -> turn (get f) R s.
Proof. done. Qed.

Lemma turn_step {A B} (c : M A) (f : A -> M B) R s a s1 :
  c s = Ret a s1 -> turn (f a) R s1 -> turn (kbind c f) R s.
Proof. intros E H. unfold turn. by rewrite (bind_Ret _ _ _ _ _ E). Qed.

Lemma turn_weaken {A} (c : M A) (R R' : A -> kstate -> Prop) s :
  turn c R s -> (forall a s', R a s' -> R' a s') -> turn c R' s.
Proof. unfold turn. destruct (c s) as [a s1|[]|]; auto. Qed.

Lemma mine_served s s' : mine s -> (forall l le ce', process s l le k me ce' -> serves s s' k me ce') -> mine s'.
Proof.
  intros (l & le & c1 & P & Hid & F) H. specialize (H l le c1 P). destruct (sv_ok _ _ _ _ _ H) as (l' & le' & c2 & P' & Hid').
  exists l', le', c2. split; [done|]. split; [congruence|]. apply (frame_trans s0 s s' me ce c1 F Hid). exact (serves_frame s s' k me c1 H).
Qed.

Lemma mine_quiet s s' : mine s -> same_kernel s s' -> mine s'.
Proof. intros H Q. apply (mine_served s s' H). intros l le c P. exact (proj1 (same_kernel_serves s s' l le k me c P Q)). Qed.

Lemma home_quiet s s' : at_home s -> same_kernel s s' -> at_home s'.
Proof. intros (d & H1 & H2) []. exists d. split; [|congruence]. rewrite <- H1. apply space_ext. congruence. Qed.

(** Quiet steps. *)
Lemma turn_quiet {A B} (c : M A) (f : A -> M B) R s :
  quiet c -> (forall a s', same_kernel s s' -> c s = Ret a s' -> turn (f a) R s') -> turn (kbind c f) R s.
Proof.
  intros Q H. unfold turn, kbind. specialize (Q s). destruct (c s) as [a s1|[]|] eqn:E; try done. by apply (H a s1).
Qed.

Lemma mine_cur s : mine s -> exists x, envs s !! me = Some x /\ env_status x <> ENV_FREE /\ curenv s = Ret (Some me) s /\ cur s = Ret me s.
Proof.
  intros (l & le & x & P & _ & _). exists x. destruct (pr_cpu P) as (c & Hc & Hm). split; [apply (pr_env P)|]. split; [apply (pr_used P)|].
  split; [rewrite (curenv_eq c s Hc); by rewrite Hm|by apply (cur_eq s l le k me x P)].
Qed.

(** Entering an environment ends the turn. *)
Lemma turn_switched {A} (c : M A) R s :
  mine s -> (forall a s', c s <> Ret a s') ->
  (forall l le ce' e s', process s l le k me ce' -> c s = Leave (ToUser e) s' ->
     exists l' le' x, entered s' l' le' k e x /\ frame s s' me ce') -> turn c R s.
Proof.
  intros (l & le & c1 & P & Hid & F) Hn H. unfold turn. destruct (c s) as [a s1|[e| |] s1|]; try done; [by destruct (Hn a s1)|].
  destruct (H l le c1 e s1 P eq_refl) as (l' & le' & x & X & F'). exists l', le', x. split; [done|]. by apply (frame_trans s0 s s1 me ce c1 F Hid).
Qed.

Lemma turn_yield {R} s : mine s -> turn sched_yield R s.
Proof.
  intros H. apply turn_switched; [done|intros; apply sched_yield_ends|]. intros l le c1 e s' P E.
  destruct (sched_yield_switch s l le k e s' (process_in_kernel s l le k me c1 P) E) as (x & S).
  exists l, le, x. split; [apply S|]. by apply (switched_frame s l le k me c1 P s' l le e x).
Qed.

Lemma turn_run_self {R} s : mine s -> turn (env_run me) R s.
Proof.
  intros H. apply turn_switched; [done|intros; apply env_run_ends|]. intros l le c1 e s' P E.
  destruct (env_run_switch s l le k me c1 (pr_ok P) (pr_env P) (pr_used P)) as (s1 & x & E1 & S).
  rewrite E1 in E. injection E as <- <-. exists l, le, x. split; [apply S|]. by apply (switched_frame s l le k me c1 P s1 l le me x).
Qed.

Lemma turn_destroy_self {R} s : mine s -> turn (env_destroy me) R s.
Proof.
  intros H. pose proof H as (l0 & le0 & c0 & P0 & _). apply turn_switched; [done|apply (env_destroy_self s l0 le0 k me c0 P0)|].
  intros l le c1 e s' P E. destruct (env_destroy_self s l le k me c1 P) as [_ D]. destruct (D e s' E) as (l' & x & X & F).
  by exists l', (me :: le), x.
Qed.

(** The process's own record changes. *)
Lemma mine_record s x f :
  mine s -> envs s !! me = Some x -> env_status (f x) = env_status x -> env_pgdir (f x) = env_pgdir x -> env_id (f x) = env_id x ->
  upd_env me f s = Ret tt (with_record s me (f x)) /\ mine (with_record s me (f x)).
Proof.
  intros H Hx Hst Hpg Hi. split; [by apply upd_env_eq|]. apply (mine_served s _ H). intros l le c1 P.
  pose proof (pr_env P) as Hc. assert (c1 = x) as -> by congruence.
  apply (record_process s l le k me x 0 me x (f x) P eq_refl Hx (pr_used P)); [rewrite Hst; apply (pr_used P)|done|done].
Qed.

(** A failed check of the process's own pointers is the end of it. *)
Lemma turn_assert {B} va len perm (f : M B) R s :
  mine s -> (forall s', same_kernel s s' -> mine s' -> turn f R s') -> turn (user_mem_assert me va len perm ;; f) R s.
Proof.
  intros H K. unfold user_mem_assert. apply turn_bind, turn_quiet; [apply quiet_user_mem_check|]. intros r s1 Q1 _.
  pose proof (mine_quiet s s1 H Q1) as H1. destruct (r <? 0); [|apply turn_ret; by apply K].
  apply turn_quiet; [auto with quiet|]. intros a s2 Q2 _. pose proof (mine_quiet s1 s2 H1 Q2) as H2.
  apply turn_quiet; [auto with quiet|]. intros y s3 Q3 _. pose proof (mine_quiet s2 s3 H2 Q3) as H3.
  apply turn_quiet; [auto with quiet|]. intros [] s4 Q4 _. pose proof (mine_quiet s3 s4 H3 Q4) as H4.
  by apply turn_destroy_self.
Qed.

(** ** The kernel's stores to the exception stack *)

Definition stores (c : M unit) : Prop := forall s, mine s -> at_home s -> turn c (fun _ s' => mine s' /\ at_home s') s.

Lemma stores_bind (c1 c2 : M unit) : stores c1 -> stores c2 -> stores (c1 ;; c2).
Proof.
  intros H1 H2 s M A. apply turn_bind. apply (turn_weaken c1 _ _ s (H1 s M A)). intros [] s' [M' A']. by apply H2.
Qed.

Lemma stores_vwrite8 va v : 0 <= va < UTOP -> stores (vwrite8 va v).
Proof.
  intros Hva s (l & le & c1 & P & Hid & F) (d & Hd & Hc). pose proof (pr_ok P) as K.
  destruct (round_page va Hva) as (_ & Hu & Hub & Hlb & _ & _ & Hpd & Hpt & _).
  unfold turn, vwrite8, kbind, vaddr. rewrite Hc. destruct (translate s (d * PGSIZE) va true) as [a|] eqn:E; [|done].
  destruct (translate_mapped s l d va true a (ko_wf K) (ko_pd K Hd)) as (p & f & Ht & ->); try done.
  { rewrite <- Hpd. by apply va_legal_user. }
  { change UTOP with 0xEEC00000 in Hva. unfold KERNBASE. lia. }
  set (m' := st8 (kmem s) (page_kva p + va mod PGSIZE) v). cbn [modify].
  assert (data_write s p m') as W.
  { split; [apply st8_bytes, (ko_wf K)|]. intros x Hx. unfold m', st8. case_bool; [|done]. unfold PGSIZE in *. word_lia. }
  destruct (serves_data s l le k me c1 d (ROUNDDOWN va PGSIZE) p f m' P Hd Hub Hlb) as [S P'];
    [by rewrite (trans_page s d _ _ Hpd Hpt)|done|].
  split; [|by exists d]. exists l, le, c1. split; [done|]. split; [done|]. apply (frame_trans s0 s _ me ce c1 F Hid).
  exact (serves_frame s _ k me c1 S).
Qed.

Lemma stores_vwrite32 a v : 0 <= a -> a + 4 <= UTOP -> stores (vwrite32 a v).
Proof.
  intros H0 H4. change UTOP with 0xEEC00000 in H4. unfold vwrite32.
  rewrite !u32_id by (unfold is_u32; lia). change 0xEEC00000 with UTOP in H4.
  repeat apply stores_bind; apply stores_vwrite8; lia.
Qed.

Lemma stores_push_utf utf va t : 0 <= utf -> utf + SIZEOF_UTRAPFRAME <= UTOP -> stores (push_utf utf va t).
Proof.
  intros H0 H1. unfold SIZEOF_UTRAPFRAME in H1. change UTOP with 0xEEC00000 in H1. unfold push_utf.
  rewrite !u32_id by lia. change 0xEEC00000 with UTOP in H1.
  repeat (apply stores_bind; [apply stores_vwrite32; lia|]). apply stores_vwrite32; lia.
Qed.

Lemma exception_frame_range esp : is_u32 esp ->
  0 <= exception_frame esp /\ exception_frame esp + SIZEOF_UTRAPFRAME <= UTOP.
Proof.
  intros He. unfold exception_frame, SIZEOF_UTRAPFRAME. change UXSTACKTOP with 0xEEC00000. change UTOP with 0xEEC00000.
  unfold PGSIZE. destruct ((_ <=? esp) && (esp <=? _)) eqn:E; [|lia]. apply andb_true_iff in E as [E1%Z.leb_le E2%Z.leb_le].
  rewrite u32_id by lia. lia.
Qed.

(** ** A page fault *)

Lemma quiet_read_tf p : quiet (read_tf p).
Proof. unfold read_tf. quiet_tac. Qed.

Lemma quiet_print_trapframe p cr2 : quiet (print_trapframe p cr2).
Proof. pose proof quiet_read_tf. unfold print_trapframe, print_regs. quiet_tac. Qed.

Lemma read_tf_eq s x : envs s !! me = Some x -> read_tf (InEnv me) s = Ret (env_tf x) s.
Proof. intros Hx. unfold read_tf. by mstep (get_env_eq _ _ _ Hx). Qed.

Lemma turn_if_panic {B} (b : bool) msg (f : M B) R s :
  (b = false -> turn f R s) -> turn ((if b then panic msg else kret tt) ;; f) R s.
Proof. intros H. destruct b; [done|]. apply turn_bind, turn_ret. by apply H. Qed.

Lemma turn_page_fault {R} va s x :
  mine s -> at_home s -> envs s !! me = Some x -> is_u32 (tf_esp (env_tf x)) -> turn (page_fault_handler (InEnv me) va) R s.
Proof.
  intros M A Hx Hesp. destruct (mine_cur s M) as (x' & Hx' & _ & _ & Hcur). assert (x' = x) as -> by congruence.
  unfold page_fault_handler. apply (turn_step _ _ _ _ _ _ (read_tf_eq s x Hx)). apply turn_if_panic. intros _.
  apply (turn_step _ _ _ _ _ _ Hcur). apply (turn_step _ _ _ _ _ _ (get_env_eq _ _ _ Hx)). destruct (env_pgfault_upcall x =? 0).
  - apply turn_quiet; [auto with quiet|]. intros [] s1 Q1 _. apply turn_quiet; [apply quiet_print_trapframe|]. intros [] s2 Q2 _.
    pose proof (mine_quiet s s2 M (same_kernel_trans s s1 s2 Q1 Q2)) as M2. destruct (mine_cur s2 M2) as (_ & _ & _ & _ & Hcur2).
    apply (turn_step _ _ _ _ _ _ Hcur2). by apply turn_destroy_self.
  - apply turn_assert; [done|]. intros s1 Q1 M1. pose proof (home_quiet s s1 A Q1) as A1.
    assert (envs s1 !! me = Some x) as Hx1 by (by rewrite (sk_envs _ _ Q1)).
    apply (turn_step _ _ _ _ _ _ (read_tf_eq s1 x Hx1)). destruct (exception_frame_range _ Hesp) as [E0 E1].
    apply turn_bind. apply (turn_weaken _ _ _ _ (stores_push_utf _ va (env_tf x) E0 E1 s1 M1 A1)). intros [] s2 [M2 _].
    destruct (mine_cur s2 M2) as (_ & _ & _ & _ & Hcur2). apply (turn_step _ _ _ _ _ _ Hcur2).
    apply turn_assert; [done|]. intros s3 Q3 M3. destruct (mine_cur s3 M3) as (x3 & Hx3 & _).
    apply (turn_step _ _ _ _ _ _ (get_env_eq _ _ _ Hx3)). apply (turn_step _ _ _ _ _ _ (read_tf_eq s3 x3 Hx3)).
    set (f := set_env_tf (with_esp_eip (env_tf x3) (exception_frame (tf_esp (env_tf x))) (env_pgfault_upcall x3))).
    destruct (mine_record s3 x3 f M3 Hx3) as [H4 M4]; try done. apply (turn_step _ _ _ _ _ _ H4).
    apply turn_bind. by apply turn_run_self.
Qed.

(** ** System calls *)

Lemma turn_self_destroy {R} s l le c1 id :
  mine s -> process s l le k me c1 -> resolve s me c1 id = Some me -> turn (sys_env_destroy id) R s.
Proof.
  intros M P E. pose proof (process_caller s l le k me c1 P) as C. unfold sys_env_destroy.
  apply (turn_step _ _ _ _ _ _ (envid2env_resolve s me c1 C id)). rewrite E. cbn [envid_result]. change (0 <? 0) with false. cbn iota.
  destruct (mine_cur s M) as (_ & _ & _ & Hcur & _). apply (turn_step _ _ _ _ _ _ Hcur). rewrite bool_decide_true by done.
  cbn [deref]. apply turn_quiet; [quiet_tac|]. intros [] s1 Q1 _. apply turn_bind, turn_ret, turn_bind.
  apply turn_destroy_self. by apply (mine_quiet s s1).
Qed.

Lemma resolve_record s c1 id e x x' :
  envs s !! e = Some x -> env_id x' = env_id x -> env_parent_id x' = env_parent_id x -> env_status x' = env_status x ->
  resolve (with_record s e x') me c1 id = resolve s me c1 id.
Proof.
  intros Hx H1 H2 H3. unfold resolve. destruct (id =? 0); [done|]. cbn [envs with_record set_envs].
  destruct (decide (ENVX id = e)) as [->|Hne]; [|by rewrite lookup_insert_ne].
  rewrite lookup_insert_eq, Hx. cbn [mbind option_bind]. by rewrite H1, H2, H3.
Qed.

Lemma resolve_ext s s' c1 id : envs s' = envs s -> resolve s' me c1 id = resolve s me c1 id.
Proof. intros H. unfold resolve. by rewrite H. Qed.

(** A failed check of another environment's pointer is the end of that one. *)
Lemma turn_assert_other s l le c1 id e va len perm :
  mine s -> process s l le k me c1 -> resolve s me c1 id = Some e -> e <> me ->
  turn (user_mem_assert e va len perm) (fun _ s' => mine s') s.
Proof.
  intros M P E Hne. unfold user_mem_assert. apply turn_quiet; [apply quiet_user_mem_check|]. intros r s1 Q1 _.
  destruct (r <? 0); [|by apply (mine_quiet s)]. apply turn_quiet; [auto with quiet|]. intros a s2 Q2 _.
  apply turn_quiet; [auto with quiet|]. intros y s3 Q3 _. apply turn_quiet; [auto with quiet|]. intros [] s4 Q4 _.
  pose proof (same_kernel_trans _ _ _ Q1 (same_kernel_trans _ _ _ Q2 (same_kernel_trans _ _ _ Q3 Q4))) as Q.
  pose proof (mine_quiet s s4 M Q) as M4. destruct (same_kernel_serves s s4 l le k me c1 P Q) as [_ P4].
  destruct (destroy_other s4 l le k me c1 P4 id e ltac:(by rewrite (resolve_ext s s4) by apply Q) Hne) as (s5 & H5 & S5).
  unfold turn. rewrite H5. apply (mine_served s4 s5 M4). intros l' le' c' P'. pose proof (pr_env P4). pose proof (pr_env P').
  by assert (c' = c1) as -> by congruence.
Qed.

Lemma turn_upcall s l le c1 id func :
  mine s -> process s l le k me c1 -> turn (sys_env_set_pgfault_upcall id func) (fun _ s' => mine s') s.
Proof.
  intros M P. pose proof (process_caller s l le k me c1 P) as C. unfold sys_env_set_pgfault_upcall.
  apply (turn_step _ _ _ _ _ _ (envid2env_resolve s me c1 C id)). destruct (resolve s me c1 id) as [e|] eqn:E; [|done].
  cbn [envid_result]. change (0 <? 0) with false. cbn iota. cbn [deref]. apply turn_bind, turn_ret.
  destruct (resolve_space s l le k me c1 P id e E) as (x & d & Hx & Hu & _). set (x' := set_env_pgfault_upcall func x).
  apply (turn_step _ _ _ _ _ _ (upd_env_eq e (set_env_pgfault_upcall func) x s Hx)).
  change (set_envs (<[e:=set_env_pgfault_upcall func x]> (envs s)) s) with (with_record s e x').
  destruct (record_process s l le k me c1 id e x x' P E Hx Hu Hu eq_refl eq_refl) as [S1 P1].
  assert (mine (with_record s e x')) as M1.
  { apply (mine_served s _ M). intros l' le' c' P'. pose proof (pr_env P). pose proof (pr_env P').
    assert (c' = c1) as -> by congruence. exact S1. }
  destruct (decide (e = me)) as [->|Hne].
  - apply turn_assert; [exact M1|]. intros s2 _ M2. by apply turn_ret.
  - unfold own_record in P1. rewrite decide_False in P1 by done. apply turn_bind.
    apply (turn_weaken _ _ _ _ (turn_assert_other _ l le c1 id e func 4 0 M1 P1 ltac:(by rewrite (resolve_record s c1 id e x x')) Hne)).
    intros [] s2 M2. by apply turn_ret.
Qed.

Lemma quiet_vread8 va : quiet (vread8 va).
Proof. intros s. unfold vread8, vaddr, kbind. by destruct (translate s (cr3 s) va false). Qed.
#[local] Hint Resolve quiet_vread8 : quiet.

Lemma quiet_read_text fuel : forall p precision, quiet (read_text fuel p precision).
Proof. induction fuel as [|fuel IH]; intros p precision; cbn [read_text]; quiet_tac; auto. Qed.
#[local] Hint Resolve quiet_read_text : quiet.

(** The calls considered: all but the kernel's holes, page_map of a source that
    has a page table but is not mapped, or whose 16-bit counter is full, and
    page_unmap of an address that has a page table but is not mapped. *)
Definition allowed_call (s : kstate) (num a1 a2 a3 a4 a5 : Z) : Prop :=
  is_u32 a2 /\ is_u32 a4 /\ (num = SYS_page_map \/ num = SYS_page_unmap -> harmless s me num a1 a2 a3 a4 a5).

Lemma turn_syscall s num a1 a2 a3 a4 a5 :
  mine s -> allowed_call s num a1 a2 a3 a4 a5 -> turn (syscall num a1 a2 a3 a4 a5) (fun _ s' => mine s') s.
Proof.
  intros HM (U2 & U4 & Ha). pose proof HM as (l & le & c1 & P & Hid & F).
  assert (forall c : M Z, served s k me c1 c -> turn c (fun _ s' => mine s') s) as Hserved.
  { intros c (r & s' & E & S). unfold turn. rewrite E. apply (mine_served s s' HM). intros l' le' c' P'.
    pose proof (pr_env P). pose proof (pr_env P'). by assert (c' = c1) as -> by congruence. }
  destruct (decide (num = SYS_page_map \/ num = SYS_page_unmap)) as [Hp|Hp].
  { apply Hserved. exact (served_syscall s l le k me c1 P num a1 a2 a3 a4 a5 (Ha Hp)). }
  unfold syscall. destruct (Z.eqb_spec num SYS_cputs) as [->|_].
  { apply turn_bind. unfold sys_cputs.
    destruct (mine_cur s HM) as (_ & _ & _ & _ & Hcur). apply (turn_step _ _ _ _ _ _ Hcur). apply turn_assert; [done|].
    intros s1 Q1 M1. apply turn_quiet; [destruct (a1 =? 0); auto with quiet|]. intros text s2 Q2 _.
    unfold cprintf, turn. cbn [modify]. unfold turn. cbn. apply (mine_quiet s2); [by apply (mine_quiet s1)|done]. }
  destruct (Z.eqb_spec num SYS_cgetc) as [->|_]; [by apply Hserved, (served_cgetc s l le)|].
  destruct (Z.eqb_spec num SYS_getenvid) as [->|_]; [by apply Hserved, (served_getenvid s l le)|].
  destruct (Z.eqb_spec num SYS_env_destroy) as [->|_].
  { destruct (decide (resolve s me c1 (s32 a1) = Some me)) as [E|E]; [by apply (turn_self_destroy s l le c1)|].
    by apply Hserved, (served_env_destroy s l le k me c1 P). }
  destruct (Z.eqb_spec num SYS_page_alloc) as [->|_]; [by apply Hserved, (served_page_alloc s l le)|].
  destruct (Z.eqb_spec num SYS_page_map) as [->|_]; [tauto|].
  destruct (Z.eqb_spec num SYS_page_unmap) as [->|_]; [tauto|].
  destruct (Z.eqb_spec num SYS_exofork) as [->|_]; [by apply Hserved, (served_exofork s l le)|].
  destruct (Z.eqb_spec num SYS_env_set_status) as [->|_]; [by apply Hserved, (served_set_status s l le)|].
  destruct (Z.eqb_spec num SYS_env_set_pgfault_upcall) as [->|_]; [by apply (turn_upcall s l le c1)|].
  destruct (num =? SYS_yield); [apply turn_bind; by apply turn_yield|].
  destruct (num =? SYS_ipc_try_send); [done|]. by destruct (num =? SYS_ipc_recv).
Qed.

(** ** The dispatcher *)

Lemma quiet_lapic_eoi : quiet lapic_eoi.
Proof. unfold lapic_eoi. quiet_tac. Qed.

(** A breakpoint hands the machine to the monitor, for good. *)
Lemma exits_monitor p cr2 : exits (fun w => w = MonitorLoop) (monitor p cr2).
Proof.
  assert (forall q, exits (fun w => w = MonitorLoop) (print_trapframe q cr2)) as Hp.
  { intros q. unfold print_trapframe, print_regs, read_tf. exits_tac. }
  assert (forall fuel b, exits (fun w => w = MonitorLoop) (runcmd fuel b)) as Hr.
  { intros fuel b. unfold runcmd, run, mon_help, mon_kerninfo. cbn [foldr commands]. exits_tac. }
  assert (forall fuel, exits (fun w => w = MonitorLoop) (monitor_loop fuel)) as Hl.
  { intros fuel. induction fuel as [|fuel IH]; cbn [monitor_loop]; exits_tac; auto using exits_leave with exits. }
  unfold monitor. exits_tac; auto.
Qed.

Lemma turn_monitor p cr2 R s : turn (monitor p cr2) R s.
Proof.
  unfold turn. destruct (monitor p cr2 s) as [[] s'|w s'|] eqn:E; [|by rewrite (exits_monitor p cr2 s w s' E)|done].
  exfalso. revert E. unfold monitor, kbind at 1. cbn [cprintf modify]. unfold kbind at 1. cbn [cprintf modify].
  unfold kbind at 1. destruct (match p with Some q => print_trapframe q cr2 | None => kret tt end _) as [[] s1| |]; [|done|done].
  apply monitor_loop_stays.
Qed.

(** A trap from user mode: a system call that is allowed, or anything else. *)
Definition allowed_trap (s : kstate) (tf : Trapframe) : Prop :=
  let r := tf_regs tf in
  is_u32 (tf_esp tf) /\
  (tf_trapno tf = T_SYSCALL -> allowed_call s (reg_eax r) (reg_edx r) (reg_ecx r) (reg_ebx r) (reg_edi r) (reg_esi r)).

Lemma turn_dispatch cr2 s x :
  mine s -> at_home s -> envs s !! me = Some x -> allowed_trap s (env_tf x) ->
  turn (trap_dispatch (InEnv me) cr2) (fun _ s' => mine s') s.
Proof.
  intros M A Hx (Hesp & Hcall). unfold trap_dispatch. apply (turn_step _ _ _ _ _ _ (read_tf_eq s x Hx)).
  assert (forall s' : kstate, same_kernel s s' -> mine s') as Hq by (intros; by apply (mine_quiet s)).
  destruct (tf_trapno (env_tf x) =? IRQ_OFFSET + IRQ_SPURIOUS).
  { apply turn_quiet; [auto with quiet|]. intros [] s1 Q1 _. unfold turn. pose proof (quiet_print_trapframe (InEnv me) cr2 s1) as Q.
    destruct (print_trapframe (InEnv me) cr2 s1); [|done|done]. apply Hq. by apply (same_kernel_trans s s1). }
  destruct (tf_trapno (env_tf x) =? T_PGFLT); [by apply (turn_page_fault _ s x)|].
  destruct (tf_trapno (env_tf x) =? T_BRKPT); [apply turn_monitor|].
  destruct (Z.eqb_spec (tf_trapno (env_tf x)) T_SYSCALL) as [Hs|_].
  { apply turn_bind. apply (turn_weaken _ _ _ _ (turn_syscall s _ _ _ _ _ _ M (Hcall Hs))). intros v s1 M1.
    destruct (mine_cur s1 M1) as (x1 & Hx1 & _). apply (turn_step _ _ _ _ _ _ (read_tf_eq s1 x1 Hx1)).
    destruct (mine_record s1 x1 (set_env_tf (with_eax (env_tf x1) (u32 v))) M1 Hx1) as [E M2]; try done.
    unfold turn, write_tf. by rewrite E. }
  destruct (tf_trapno (env_tf x) =? IRQ_OFFSET + IRQ_TIMER).
  { apply turn_quiet; [apply quiet_lapic_eoi|]. intros [] s1 Q1 _. by apply turn_yield, Hq. }
  apply turn_quiet; [apply quiet_print_trapframe|]. intros [] s1 Q1 _. destruct (tf_cs (env_tf x) =? GD_KT); [done|].
  pose proof (Hq s1 Q1) as M1. destruct (mine_cur s1 M1) as (_ & _ & _ & _ & Hcur). apply (turn_step _ _ _ _ _ _ Hcur).
  by apply turn_destroy_self.
Qed.

(** ** trap *)

(** After the dispatcher: the process goes on, or the scheduler decides. *)
Lemma turn_epilogue {R} s :
  mine s ->
  turn (let! co := curenv in
        let! running := (match co with
                         | Some c => let! x := get_env c in kret (bool_decide (env_status x = ENV_RUNNING))
                         | None => kret false
                         end) in
        match co, (running : bool) with
        | Some c, true => env_run c
        | _, _ => sched_yield
        end) R s.
Proof.
  intros M. destruct (mine_cur s M) as (x & Hx & _ & Hcur & _). apply (turn_step _ _ _ _ _ _ Hcur).
  apply turn_bind. apply (turn_step _ _ _ _ _ _ (get_env_eq _ _ _ Hx)), turn_ret.
  destruct (bool_decide _); [by apply turn_run_self|by apply turn_yield].
Qed.

Section Trap.
Context (l le : list Z) (c : CpuInfo) (tf : Trapframe).
Hypothesis P : process s0 l le k me ce.
Hypothesis Hc : cpus s0 !! cpunum s0 = Some c.

Definition started : kstate := set_cpus (<[cpunum s0 := set_cpu_status CPU_STARTED c]> (cpus s0)) s0.

Lemma started_process : process started l le k me ce /\ frame s0 started me ce.
Proof.
  destruct (pr_cpu P) as (c' & Hc' & Hm). assert (c' = c) as -> by congruence.
  pose proof (switch_process s0 l le k me ce (set_cpu_status CPU_STARTED c) (pr_ok P) (pr_env P) (pr_used P) Hm) as P1.
  split; [exact P1|]. apply same_envs_frame; [apply (ko_envs (pr_ok P))|apply (ko_envs (pr_ok P1))|by apply same_envs_eq|done].
Qed.

Lemma started_mine : mine started.
Proof. destruct started_process as [P1 F1]. by exists l, le, ce. Qed.

(** The saved registers are the process's own. *)
Lemma dispatching_mine : mine (dispatching s0 me ce c tf) /\ envs (dispatching s0 me ce c tf) !! me = Some (set_env_tf tf ce).
Proof.
  destruct (mine_record started ce (set_env_tf tf) started_mine (pr_env P) eq_refl eq_refl eq_refl) as [_ M].
  split; [|apply lookup_insert_eq]. by apply (mine_quiet (with_record started me (set_env_tf tf ce))).
Qed.

Lemma dispatching_process : process (dispatching s0 me ce c tf) l le k me (set_env_tf tf ce).
Proof.
  destruct started_process as [P1 _].
  destruct (record_process started l le k me ce 0 me ce (set_env_tf tf ce) P1 eq_refl (pr_env P1) (pr_used P) (pr_used P) eq_refl eq_refl)
    as [_ P2]. unfold own_record in P2. rewrite (decide_True _ _ (eq_refl me)) in P2.
  apply (same_kernel_serves (with_record started me (set_env_tf tf ce)) _ l le k me _ P2). by split.
Qed.

Lemma dispatching_home : at_home s0 -> at_home (dispatching s0 me ce c tf).
Proof.
  intros (d & Hd & H3). exists d. split; [|done]. rewrite <- Hd.
  exact (record_space s0 me ce (set_env_tf tf ce) (pr_env P) (pr_used P) (pr_used P) eq_refl me).
Qed.

Lemma turn_free_self {B R} (f : M B) s : mine s -> turn ((env_free me ;; set_curenv None ;; sched_yield) ;; f) R s.
Proof.
  intros M. apply turn_bind. pose proof M as (l0 & le0 & c0 & P0 & _). apply turn_switched; [done|apply (free_self s l0 le0 k me c0 P0)|].
  intros l1 le1 c1 e s' P1 E. destruct (free_self s l1 le1 k me c1 P1) as [_ D]. destruct (D e s' E) as (l' & x & X & F).
  by exists l', (me :: le1), x.
Qed.

Lemma turn_trap cr2 eflags tries ebp :
  at_home s0 -> cpu_status c <> CPU_HALTED -> Z.land (tf_cs tf) 3 = 3 -> allowed_trap (dispatching s0 me ce c tf) tf ->
  turn (trap tf cr2 eflags tries ebp) (fun _ _ => False) s0.
Proof.
  intros A Hh Hcs Ha. pose proof started_mine as M1. destruct dispatching_mine as [M3 Hx3]. pose proof (dispatching_home A) as A3.
  destruct (mine_cur started M1) as (y & Hy & _ & Hcur & Hcur'). assert (envs started !! me = Some ce) as Hce by apply (pr_env P).
  unfold trap. apply turn_bind, turn_get. destruct (panicstr s0); [done|]. apply turn_bind, turn_ret.
  apply (turn_step _ _ _ _ _ _ (thiscpu_eq _ _ Hc)).
  assert (set_thiscpu (set_cpu_status CPU_STARTED c) s0 = Ret tt started) as H1 by done. apply (turn_step _ _ _ _ _ _ H1).
  rewrite bool_decide_false by done. apply turn_bind, turn_ret. apply turn_bind. unfold assert at 1. destruct (negb (has eflags FL_IF)); [|done].
  apply turn_ret. rewrite Hcs, Z.eqb_refl. apply turn_bind. apply (turn_step _ _ _ _ _ _ Hcur). apply turn_bind.
  rewrite bool_decide_true by done. apply turn_ret. apply turn_bind, turn_ret. apply (turn_step _ _ _ _ _ _ (get_env_eq _ _ _ Hce)).
  destruct (bool_decide (env_status ce = ENV_DYING)); [by apply turn_free_self|]. apply turn_bind, turn_ret.
  apply (turn_step _ _ _ _ _ _ Hcur'). apply (turn_step _ _ _ _ _ _ (upd_env_eq me (set_env_tf tf) ce started Hce)). apply turn_ret.
  apply turn_bind. unfold turn at 1. cbn [modify]. change (set_last_tf (Some me) _) with (dispatching s0 me ce c tf).
  apply turn_bind. apply (turn_weaken _ _ _ _ (turn_dispatch cr2 _ _ M3 A3 Hx3 Ha)). intros [] s4 M4. by apply turn_epilogue.
Qed.
End Trap.
End Turn.

(** ** Any number of turns *)

Section System.
Context {stabs : StabSections} {mon : MonitorImage}.

Definition current (s : kstate) (me : Z) : Prop := exists c, cpus s !! cpunum s = Some c /\ cpu_env c = Some me.

Definition store_step (me : Z) (s s' : kstate) : Prop :=
  exists d va p f m', space s me = Some d /\ is_u32 va /\ va_legal va = true /\ trans s d va = Some (p, f) /\
    has f PTE_W = true /\ data_write s p m' /\ s' = set_kmem m' s.

(** The machine's steps as the processes see them: a store by the one that
    runs, or a trap from it that ends with some environment being entered.  The
    frame, the fault address and the flags are whatever the processor gives. *)
Inductive sys_step (s : kstate) : kstate -> Prop :=
  | sys_store me s' : current s me -> store_step me s s' -> sys_step s s'
  | sys_trap me ce c tf cr2 eflags tries ebp e s' :
      cpus s !! cpunum s = Some c -> cpu_env c = Some me -> envs s !! me = Some ce -> cpu_status c <> CPU_HALTED ->
      Z.land (tf_cs tf) 3 = 3 -> allowed_trap me (dispatching s me ce c tf) tf ->
      trap tf cr2 eflags tries ebp s = Leave (ToUser e) s' -> sys_step s s'.

(** The process that takes the step has no authority over [e]. *)
Definition others_step (e : Z) (s s' : kstate) : Prop :=
  sys_step s s' /\ forall me ce x, current s me -> envs s !! me = Some ce -> envs s !! e = Some x -> stranger s me ce e x.

Lemma current_process s l le k me ce me' : process s l le k me ce -> current s me' -> me' = me.
Proof. intros P (c & Hc & Hm). destruct (pr_cpu P) as (c' & Hc' & Hm'). congruence. Qed.

Lemma store_step_keeps s s' l le k me ce :
  entered s l le k me ce -> store_step me s s' -> entered s' l le k me ce /\ frame s s' me ce.
Proof.
  intros [P Hr (d0 & Hd0 & H3)] (d & va & p & f & m' & Hd & Hva & Hl & Ht & _ & W & ->).
  destruct (serves_data s l le k me ce d va p f m' P Hd Hva Hl Ht W) as [S P']. split; [|exact (serves_frame _ _ k me ce S)].
  split; [done|done|]. by exists d0.
Qed.

Lemma sys_step_keeps s s' l le k me ce :
  entered s l le k me ce -> sys_step s s' ->
  (exists l' le' e x, entered s' l' le' k e x) /\ frame s s' me ce.
Proof.
  intros X [me' s2 Hcur Hst|me' ce' c tf cr2 eflags tries ebp e s2 Hc Hm Hce Hh Hcs Ha E]; pose proof X as [P Hr (d0 & Hd0 & H3)].
  - pose proof (current_process s l le k me ce me' P Hcur) as ->. destruct (store_step_keeps s s2 l le k me ce X Hst) as [X' F].
    split; [by exists l, le, me, ce|done].
  - assert (me' = me) as -> by (apply (current_process s l le k me ce me' P); by exists c).
    pose proof (pr_env P). assert (ce' = ce) as -> by congruence.
    pose proof (turn_trap s k me ce l le c tf P Hc cr2 eflags tries ebp ltac:(by exists d0) Hh Hcs Ha) as T.
    unfold turn in T. rewrite E in T. destruct T as (l1 & le1 & x1 & X1 & F1). split; [by exists l1, le1, e, x1|done].
Qed.

(** C4. The kernel's invariant holds through every turn of every process:
    whatever the running processes store to their memory and however they trap
    into the kernel - any system call but the ones that step into the two holes
    (page_map from, and page_unmap of, an address with a page table but no
    mapping), timer interrupts, page faults with and without a handler,
    breakpoints, any other exception - when an environment is entered again it
    is marked running, its page tables are in use, the page tables of all
    environments are disjoint and well-formed, reference counts are exact, and
    both free lists are right. *)
Theorem system_invariant (s s' : kstate) (l le : list Z) (k me : Z) (ce : Env) :
  entered s l le k me ce -> rtc sys_step s s' -> exists l' le' e x, entered s' l' le' k e x.
Proof.
  intros X H. revert l le me ce X. induction H as [s|s1 s2 s3 H1 _ IH]; intros l le me ce X; [by exists l, le, me, ce|].
  destruct (sys_step_keeps s1 s2 l le k me ce X H1) as [(l' & le' & e & x & X2) _]. by apply (IH l' le' e x).
Qed.

(** C3. Time sharing.  While only processes without authority over environment
    [e] run (neither [e] itself nor its parent), through any number of context
    switches, [e]'s saved registers and the rest of its record stay the same,
    the scheduler's bookkeeping apart; its address space and, as no page of it
    is shared, every byte of its memory are as it left them.  The processes may
    store to their memory and trap as they like, except that they step into none
    of the holes of page_map and page_unmap ([allowed_call]: no address with a
    page table but no mapping, no page whose 16-bit counter is full), through
    which the isolation can be broken. *)
Theorem time_sharing (s s' : kstate) (l le : list Z) (k me e : Z) (ce x : Env) :
  entered s l le k me ce -> envs s !! e = Some x -> private s e -> rtc (others_step e) s s' ->
  (exists x', envs s' !! e = Some x' /\ resched x x') /\ undisturbed s s' e /\ private s' e.
Proof.
  intros X Hx Hp H. revert l le me ce x X Hx Hp.
  induction H as [s|s1 s2 s3 [H1 Hs] _ IH]; intros l le me ce x X Hx Hp.
  { split; [exists x; split; [done|apply resched_refl]|]. split; [apply undisturbed_refl|done]. }
  assert (stranger s1 me ce e x) as S by (apply Hs; [apply (pr_cpu (en_proc _ _ _ _ _ _ X))|apply (pr_env (en_proc _ _ _ _ _ _ X))|done]).
  destruct (sys_step_keeps s1 s2 l le k me ce X H1) as [(l' & le' & e' & x2 & X2) F].
  destruct (F e x S) as [(y & Hy & Ry) U]. destruct (U Hp) as [D P2].
  destruct (IH l' le' e' x2 y X2 Hy P2) as ((z & Hz & Rz) & D' & P3).
  split; [exists z; split; [done|by apply (resched_trans x y)]|]. split; [by apply (undisturbed_trans s1 s2)|done].
Qed.

(** ** Round robin *)

(** The scheduler's view of an environment. *)
Definition slots_ok (s : kstate) : Prop :=
  forall i y, envs s !! i = Some y -> env_status y <> ENV_FREE -> ENVX (env_id y) = i.

(** Environment [me] runs on a processor that is not halted. *)
Record ticking (s : kstate) (l le : list Z) (k me : Z) (ce : Env) : Prop := {
  tk_entered : entered s l le k me ce;
  tk_dead : panicstr s = false;
  tk_cpu : exists c, cpus s !! cpunum s = Some c /\ cpu_env c = Some me /\ cpu_status c <> CPU_HALTED;
  tk_slots : slots_ok s }.

(** A timer interrupt. *)
Definition timer_frame (tf : Trapframe) : Prop := Z.land (tf_cs tf) 3 = 3 /\ tf_trapno tf = IRQ_OFFSET + IRQ_TIMER.

(** What it leaves: [e] runs, [me], whose registers are saved, can run again. *)
Record ticked (s s' : kstate) (l le : list Z) (k me : Z) (ce : Env) (tf : Trapframe) (e : Z) (x : Env) : Prop := {
  ti_ticking : ticking s' l le k e x;
  ti_saved : exists ce', envs s' !! me = Some ce' /\ env_tf ce' = tf /\ (e <> me -> env_status ce' = ENV_RUNNABLE);
  ti_others : forall i y, i <> me -> i <> e -> envs s !! i = Some y -> envs s' !! i = Some y;
  ti_mem : kmem s' = kmem s }.

Lemma next_env_ext s s' cur :
  (forall i, runnable s' i <-> runnable s i) -> scan_start s' cur = scan_start s cur -> next_env s' cur = next_env s cur.
Proof. intros Hr Hs. unfold next_env. rewrite Hs. f_equal. by apply list_filter_iff. Qed.

Lemma dispatching_runnable s me ce c tf i :
  envs s !! me = Some ce -> runnable (dispatching s me ce c tf) i <-> runnable s i.
Proof.
  intros Hce. unfold runnable, dispatching. cbn [envs set_last_tf set_envs]. destruct (decide (i = me)) as [->|Hne].
  - rewrite lookup_insert_eq, Hce. split; intros (y & [= <-] & Hy); eauto.
  - by rewrite lookup_insert_ne.
Qed.

(** A timer interrupt saves the registers and calls the scheduler. *)
Lemma timer_trap s l le k me ce c tf cr2 eflags tries ebp :
  ticking s l le k me ce -> cpus s !! cpunum s = Some c -> cpu_status c <> CPU_HALTED -> timer_frame tf -> has eflags FL_IF = false ->
  let s1 := dispatching s me ce c tf in
  exists s2 f, trap tf cr2 eflags tries ebp s = (let! r := sched_yield in f r) s2 /\
    same_kernel s1 s2 /\ panicstr s2 = false /\ process s2 l le k me (set_env_tf tf ce).
Proof.
  intros [X Hdead (c' & Hc' & Hm & _) _] Hc Hh [Hcs Hno] Hif s1. assert (c' = c) as -> by congruence.
  pose proof X as [P Hrun _]. pose proof (pr_env P) as Hce. pose proof (dispatching_process s k me ce l le c tf P Hc) as P1. fold s1 in P1.
  assert (exists s2, lapic_eoi s1 = Ret tt s2 /\ same_kernel s1 s2 /\ panicstr s2 = panicstr s1) as (s2 & E2 & Q2 & D2).
  { unfold lapic_eoi. mrun. destruct (lapic s1 =? 0); eexists; (split; [reflexivity|split; [by split|done]]). }
  exists s2. eexists. split; [|split; [exact Q2|split; [by rewrite D2|exact (proj2 (same_kernel_serves s1 s2 l le k me _ P1 Q2))]]].
  rewrite (trap_entry s me ce c tf cr2 eflags tries ebp) by (done || congruence). unfold trap_dispatch. rewrite bind_assoc.
  mstep (read_tf_eq me s1 _ (pr_env P1)). change (env_tf (set_env_tf tf ce)) with tf. rewrite Hno.
  change (IRQ_OFFSET + IRQ_TIMER =? IRQ_OFFSET + IRQ_SPURIOUS) with false. change (IRQ_OFFSET + IRQ_TIMER =? T_PGFLT) with false.
  change (IRQ_OFFSET + IRQ_TIMER =? T_BRKPT) with false. change (IRQ_OFFSET + IRQ_TIMER =? T_SYSCALL) with false.
  rewrite Z.eqb_refl, bind_assoc. mstep E2. reflexivity.
Qed.

(** The scheduler, after the registers have been saved, chooses what it would
    have chosen before. *)
Lemma timer_choice s s2 l le k me ce c tf :
  ticking s l le k me ce -> cpus s !! cpunum s = Some c -> same_kernel (dispatching s me ce c tf) s2 ->
  process s2 l le k me (set_env_tf tf ce) ->
  let e := default me (next_env s (Some me)) in
  sched_yield s2 = env_run e s2 /\ exists y, envs s2 !! e = Some y /\ env_status y <> ENV_FREE.
Proof.
  intros [[P Hrun _] _ (c' & Hc' & Hm & _) _] Hc Q2 P2 e. assert (c' = c) as -> by congruence. pose proof (pr_env P) as Hce.
  set (c1 := set_cpu_status CPU_STARTED c). assert (cpus s2 !! cpunum s2 = Some c1) as Hc2.
  { rewrite (sk_cpus _ _ Q2), (sk_cpunum _ _ Q2). apply lookup_insert_eq. }
  pose proof (sched_yield_spec s2 c1 (ko_envs (pr_ok P2)) Hc2) as Y. change (cpu_env c1) with (cpu_env c) in Y. rewrite Hm in Y.
  specialize (Y ltac:(intros i [= <-]; rewrite (pr_env P2); by eexists)). cbv zeta in Y.
  assert (next_env s2 (Some me) = next_env s (Some me)) as Hnext.
  { apply next_env_ext.
    - intros i. rewrite <- (dispatching_runnable s me ce c tf i Hce). unfold runnable. by rewrite (sk_envs _ _ Q2).
    - unfold scan_start. by rewrite (pr_env P2), Hce. }
  rewrite Hnext in Y. unfold e. destruct (next_env s (Some me)) as [i|]; cbn [default].
  - destruct Y as (-> & (y & Hy & Hst) & _). split; [done|]. exists y. split; [done|congruence].
  - destruct Y as [_ ->]. rewrite (pr_env P2). rewrite bool_decide_true by (cbn; by rewrite <- Hrun).
    split; [done|]. exists (set_env_tf tf ce). split; [done|apply (pr_used P2)].
Qed.

(** A timer interrupt enters the next runnable environment around the table, or
    the same one when there is none. *)
Lemma timer_spec s l le k me ce tf cr2 eflags tries ebp :
  ticking s l le k me ce -> timer_frame tf -> has eflags FL_IF = false ->
  exists s' e x, trap tf cr2 eflags tries ebp s = Leave (ToUser e) s' /\ e = default me (next_env s (Some me)) /\
    ticked s s' l le k me ce tf e x.
Proof.
  intros T Htf Hif. pose proof T as [[P Hrun _] _ (c & Hc & Hm & Hh) Hslots]. pose proof (pr_env P) as Hce.
  destruct (timer_trap s l le k me ce c tf cr2 eflags tries ebp T Hc Hh Htf Hif) as (s2 & f & E & Q2 & D2 & P2).
  pose proof (dispatching_process s k me ce l le c tf P Hc) as P1. pose proof (pr_ok P2) as K2.
  destruct (timer_choice s s2 l le k me ce c tf T Hc Q2 P2) as [Ey (y & Hy & Hyu)].
  set (s1 := dispatching s me ce c tf) in *. set (e := default me (next_env s (Some me))) in *.
  set (c1 := set_cpu_status CPU_STARTED c). assert (cpus s2 !! cpunum s2 = Some c1) as Hc2.
  { rewrite (sk_cpus _ _ Q2), (sk_cpunum _ _ Q2). apply lookup_insert_eq. }
  destruct (env_run_switch s2 l le k e y K2 Hy Hyu) as (s' & x & Er & [Xe Se Me (c' & Hc' & Hcpu & Ho) De]).
  assert (c' = c1) as -> by congruence. exists s', e, x. split; [rewrite E; unfold kbind; by rewrite Ey, Er|]. split; [done|].
  assert (forall i z, envs s !! i = Some z -> exists z2, envs s2 !! i = Some z2 /\ env_id z2 = env_id z /\ env_status z2 = env_status z) as H2.
  { intros i z Hz. rewrite (sk_envs _ _ Q2). destruct (decide (i = me)) as [->|Hne].
    - exists (set_env_tf tf ce). split; [apply (pr_env P1)|]. by simplify_eq.
    - exists z. split; [|done]. unfold s1, dispatching. cbn [envs set_last_tf set_envs]. by rewrite lookup_insert_ne. }
  split.
  - split; [exact Xe|by rewrite De|exists (set_cpu_env (Some e) c1); done|].
    intros i z' Hz' Hu. pose proof (ko_envs (pr_ok (en_proc _ _ _ _ _ _ Xe)) i) as W. destruct (proj2 (ko_envs (pr_ok P) i)) as [z Hz].
    { apply W. by exists z'. }
    destruct (H2 i z Hz) as (z2 & Hz2 & Hi2 & Hs2). destruct (Se i z2 Hz2) as (z3 & Hz3 & R3).
    destruct (resched_same z2 z3 R3) as (Hi3 & _ & _ & _ & Hu3). assert (z3 = z') as -> by congruence.
    rewrite Hi3, Hi2. apply (Hslots i z Hz). rewrite <- Hs2. tauto.
  - destruct (Se me (set_env_tf tf ce) (pr_env P2)) as (z & Hz & R). destruct (resched_same _ z R) as (_ & _ & Htf2 & _).
    exists z. split; [done|]. split; [done|]. intros Hne. destruct (Ho me _ (not_eq_sym Hne) (pr_env P2)) as (z' & Hz' & Hd).
    rewrite decide_True in Hd by (split; [exact Hm|exact Hrun]). assert (z = z') as -> by congruence. by rewrite Hd.
  - intros i z Him Hie Hz. assert (envs s2 !! i = Some z) as Hz2.
    { rewrite (sk_envs _ _ Q2). unfold s1, dispatching. cbn [envs set_last_tf set_envs]. by rewrite lookup_insert_ne. }
    destruct (Ho i z Hie Hz2) as (z' & Hz' & Hd). rewrite decide_False in Hd; [by rewrite Hz', Hd|].
    intros [Hci _]. change (cpu_env c1) with (cpu_env c) in Hci. congruence.
  - rewrite Me, (sk_kmem _ _ Q2). done.
Qed.

(** The running environment's time slice: stores to its memory, and the timer. *)
Definition tick (s s' : kstate) : Prop :=
  exists tf cr2 eflags tries ebp e, timer_frame tf /\ has eflags FL_IF = false /\
    trap tf cr2 eflags tries ebp s = Leave (ToUser e) s'.

Definition quantum (s s' : kstate) : Prop :=
  exists me s1, current s me /\ rtc (store_step me) s s1 /\ tick s1 s'.

(** Environment [i] runs after at most [n] time slices, whatever is done in
    them; until then there is always a next one. *)
Fixpoint within (n : nat) (i : Z) (s : kstate) : Prop :=
  current s i \/
  match n with
  | O => False
  | S m => (exists s', quantum s s') /\ forall s', quantum s s' -> within m i s'
  end.

(** How far [i] is ahead of [me] around the table. *)
Definition distance (i me : Z) : Z := (i - me) mod NENV.

Lemma store_step_ticking s s' l le k me ce :
  ticking s l le k me ce -> store_step me s s' -> ticking s' l le k me ce /\ (forall i, runnable s' i <-> runnable s i).
Proof.
  intros [X Hd Hc Hs] St. destruct (store_step_keeps s s' l le k me ce X St) as [X' _].
  destruct St as (d & va & p & f & m' & _ & _ & _ & _ & _ & _ & ->). split; [by split|done].
Qed.

Lemma stores_ticking s s' l le k me ce :
  rtc (store_step me) s s' -> ticking s l le k me ce -> ticking s' l le k me ce /\ (forall i, runnable s' i <-> runnable s i).
Proof.
  induction 1 as [s|s1 s2 s3 St _ IH]; intros T; [done|]. destruct (store_step_ticking s1 s2 l le k me ce T St) as [T2 R2].
  destruct (IH T2) as [T3 R3]. split; [done|]. intros i. by rewrite R3.
Qed.

Lemma ticking_slot s l le k me ce : ticking s l le k me ce -> ENVX (env_id ce) = me /\ env_status ce = ENV_RUNNING.
Proof.
  intros [[P Hr _] _ _ Hs]. split; [|done]. apply (Hs me ce (pr_env P)). apply (pr_used P).
Qed.

Lemma ticking_current s l le k me ce : ticking s l le k me ce -> current s me.
Proof. intros [_ _ (c & Hc & Hm & _) _]. by exists c. Qed.

Lemma ticking_not_runnable s l le k me ce : ticking s l le k me ce -> ~ runnable s me.
Proof. intros [[P Hr _] _ _ _] (y & Hy & Hst). pose proof (pr_env P). simplify_eq. congruence. Qed.

Lemma ticking_range s l le k me ce i : ticking s l le k me ce -> is_Some (envs s !! i) -> 0 <= i < NENV.
Proof. intros [[P _ _] _ _ _]. apply (ko_envs (pr_ok P)). Qed.

(** One interrupt brings the scheduler closer to a waiting environment. *)
Lemma next_env_closer s l le k me ce i :
  ticking s l le k me ce -> runnable s i ->
  0 < distance i me /\ exists e, next_env s (Some me) = Some e /\ 0 <= distance i e < distance i me.
Proof.
  intros T Hi. pose proof (ticking_not_runnable _ _ _ _ _ _ T) as Hnm. pose proof (ticking_slot _ _ _ _ _ _ T) as [Hslot _].
  pose proof (fun j => ticking_range s l le k me ce j T) as W. destruct T as [[P _ _] _ (c & Hc & Hm & _) _].
  pose proof (pr_env P) as Hce. pose proof (sched_yield_spec s c (ko_envs (pr_ok P)) Hc) as Y. rewrite Hm in Y. cbv zeta in Y.
  specialize (Y ltac:(intros j [= <-]; by exists ce)).
  assert (scan_start s (Some me) = me) as Hstart by (unfold scan_start; rewrite Hce; exact Hslot).
  assert (forall j, runnable s j -> 0 <= j < NENV /\ j <> me) as Hrj.
  { intros j Hj. split; [apply W; destruct Hj as (y & Hy & _); by exists y|by intros ->]. }
  assert (0 <= me < NENV) as Hrm by (apply W; by exists ce). destruct (Hrj i Hi) as [Hri Hne].
  destruct (next_env s (Some me)) as [e|]; [|by destruct (proj1 Y i)].
  destruct Y as (_ & He & j & Hej & Hj & Hno). rewrite Hstart in *. destruct (Hrj e He) as [Hre Hne'].
  change NENV with 1024 in *. unfold distance. change NENV with 1024.
  assert (~ (i - me) mod 1024 < j) as Hlt.
  { intros Hlt. apply (Hno ((i - me) mod 1024)); [word_lia|]. by replace ((me + (i - me) mod 1024) mod 1024) with i by word_lia. }
  split; [word_lia|]. exists e. split; [done|]. word_lia.
Qed.

(** A slice leaves the waiting environment waiting, or runs it. *)
Lemma quantum_closer s s' l le k me ce i :
  ticking s l le k me ce -> runnable s i -> quantum s s' ->
  exists e x, ticking s' l le k e x /\ distance i e < distance i me /\ (e = i \/ runnable s' i).
Proof.
  intros T Hi (me' & s1 & Hcur & Hst & tf & cr2 & eflags & tries & ebp & e & Htf & Hif & E).
  pose proof (current_process s l le k me ce me' (en_proc _ _ _ _ _ _ (tk_entered _ _ _ _ _ _ T)) Hcur) as ->.
  destruct (stores_ticking s s1 l le k me ce Hst T) as [T1 R1]. apply R1 in Hi.
  destruct (timer_spec s1 l le k me ce tf cr2 eflags tries ebp T1 Htf Hif) as (s2 & e2 & x & E2 & He & K).
  rewrite E in E2. injection E2 as <- <-. destruct (next_env_closer s1 l le k me ce i T1 Hi) as (_ & e2 & He2 & Hd2).
  rewrite He2 in He. cbn in He. subst e2. exists e, x. split; [exact (ti_ticking _ _ _ _ _ _ _ _ _ _ K)|]. split; [lia|].
  destruct (decide (e = i)) as [->|Hne]; [by left|]. right. destruct Hi as (y & Hy & Hr). exists y. split; [|done].
  apply (ti_others _ _ _ _ _ _ _ _ _ _ K); [|done|done]. intros ->. apply (ticking_not_runnable _ _ _ _ _ _ T1). by exists y.
Qed.

Lemma quantum_exists s l le k me ce : ticking s l le k me ce -> exists s', quantum s s'.
Proof.
  intros T. set (tf := Build_Trapframe regs0 0 0 (IRQ_OFFSET + IRQ_TIMER) 0 0 3 0 0 0).
  destruct (timer_spec s l le k me ce tf 0 0 0 0 T) as (s' & e & x & E & _); [done|done|].
  exists s', me, s. split; [by apply (ticking_current s l le k me ce)|]. split; [done|]. by exists tf, 0, 0, 0%nat, 0, e.
Qed.

Lemma within_now n i s : current s i -> within n i s.
Proof. destruct n; by left. Qed.

Lemma within_ticking i n s l le k me ce :
  ticking s l le k me ce -> i = me \/ runnable s i /\ distance i me <= Z.of_nat n -> within n i s.
Proof.
  revert s me ce. induction n as [|n IH]; intros s me ce T H.
  - destruct H as [->|[Hi Hd]]; [by apply within_now, (ticking_current s l le k me ce)|].
    destruct (next_env_closer s l le k me ce i T Hi) as [? _]. lia.
  - destruct H as [->|[Hi Hd]]; [by apply within_now, (ticking_current s l le k me ce)|]. right.
    split; [by apply (quantum_exists s l le k me ce)|]. intros s' Q.
    destruct (quantum_closer s s' l le k me ce i T Hi Q) as (e & x & T' & Hc & H). apply (IH s' e x T').
    destruct H as [->|H]; [by left|]. right. split; [done|]. lia.
Qed.

(** C5. No starvation by the scheduler.  When the environments that run do nothing
    in their time slices but store to their own memory until the timer interrupts
    them - no system calls, no faults - a runnable environment [i] gets the
    processor after at most as many time slices as it is places ahead of the
    running one in the table (fewer than 1024), whatever is stored and whenever
    the timer interrupts; and until then there is always a next slice.  (With
    system calls there is no such promise: an unknown one panics the kernel.) *)
Theorem no_starvation (s : kstate) (l le : list Z) (k me i : Z) (ce : Env) :
  ticking s l le k me ce -> runnable s i -> distance i me < 1024 /\ within (Z.to_nat (distance i me)) i s.
Proof.
  intros T Hi. unfold distance. assert (0 <= (i - me) mod NENV < 1024) by (apply Z.mod_pos_bound; done).
  split; [lia|]. apply (within_ticking i _ s l le k me ce T). right. split; [done|]. unfold distance. lia.
Qed.
End System.

(** ** Two processes *)

Lemma pair_from s1 ce :
  process s1 (3 :: zrange 4 16) (1 :: zrange 2 (Z.to_nat (NENV - 2))) 1 0 ce -> env_parent_id ce = 0 ->
  env_status ce = ENV_RUNNABLE -> slots_ok s1 -> (forall e, e <> 0 -> space s1 e = None) ->
  exists s l le x, process s l le 1 1 x /\ cpus s !! cpunum s = Some (set_cpu_env (Some 1) cpu0) /\ slots_ok s /\
    runnable s 0 /\ stranger s 1 x 0 ce /\ private s 0 /\ panicstr s = false.
Proof.
  intros P Hpar Hst Hsl Hsp0. pose proof (pr_ok P) as K.
  destruct (env_alloc_spec s1 0 _ _ 1 (ko_wf K) (ko_envs K) (ko_cpu K) (ko_free K) (ko_chain K) (ko_tmpl K) (ko_ids K))
    as (s2 & x & x' & _ & Hx & He & [N1 N2 N3 N4 N5 N6 N7 N8 N9 N10] & Hch & Hns & Hm).
  assert (env_status x' <> ENV_FREE) as Hu by congruence. assert (0 <= env_id x' < 2 ^ 31) as Hid by lia.
  pose proof (kernel_ok_fresh s1 s2 3 1 _ _ 1 x' K He Hid Hu N8 Hns Hch Hm) as K2.
  assert (envs s2 !! 1 = Some x') as Hx1 by (rewrite He; apply lookup_insert_eq).
  assert (envs s2 !! 0 = Some ce) as Hx0 by (rewrite He, lookup_insert_ne by done; apply (pr_env P)).
  pose proof (switch_process s2 _ _ 1 1 x' (set_cpu_env (Some 1) cpu0) K2 Hx1 Hu eq_refl) as P3.
  set (s3 := set_cpus _ s2) in *. set (s4 := set_panicstr false s3).
  assert (same_kernel s3 s4) as Q by by split.
  exists s4, (zrange 4 16), (zrange 2 (Z.to_nat (NENV - 2))), x'.
  split; [exact (proj2 (same_kernel_serves s3 s4 _ _ 1 1 x' P3 Q))|]. split; [apply lookup_insert_eq|]. split; [|split; [|split; [|split; [|done]]]].
  - intros i y. change (envs s4) with (envs s2). rewrite He. destruct (decide (i = 1)) as [->|Hne].
    + rewrite lookup_insert_eq. by intros [= <-] _.
    + rewrite lookup_insert_ne by done. apply Hsl.
  - by exists ce.
  - split; [exact Hx0|apply (pr_used P)|done|]. rewrite Hpar. lia.
  - apply sole_private; [by unfold NENV|]. intros e' p Hne. unfold env_maps.
    assert (space s4 e' = if decide (e' = 1) then Some 3 else space s1 e') as -> by by apply (fresh_space s1 s2 3 1 x' He Hu N8).
    case_decide as H1; [by apply (fresh_dir_maps s1 s2 3 1 _ _ 1 K Hns)|]. by rewrite Hsp0.
Qed.

Lemma first_alone : exists s ce, process s (3 :: zrange 4 16) (1 :: zrange 2 (Z.to_nat (NENV - 2))) 1 0 ce /\
  env_parent_id ce = 0 /\ env_status ce = ENV_RUNNABLE /\ slots_ok s /\ (forall e, e <> 0 -> space s e = None).
Proof.
  destruct first_process_ok as (ce & P & _ & Hpar & _). destruct first_process_new as (x & x' & _ & He & Hn & _).
  assert (x' = ce) as ->.
  { pose proof (pr_env P) as Hce. rewrite He, lookup_insert_eq in Hce. by injection Hce. }
  assert (forall i y, i <> 0 -> envs first_process !! i = Some y -> env_status y = ENV_FREE) as Hf.
  { intros i y Hne Hy. assert (0 <= i < NENV) as Hr by (apply (ko_envs (pr_ok P)); by exists y).
    rewrite He, lookup_insert_ne in Hy by done. destruct linked_facts as (_ & _ & _ & Hcl & _).
    destruct (Hcl i Hr) as (z & Hz & _ & _ & _ & Hs & _). congruence. }
  exists first_process, ce. split; [exact P|]. split; [exact Hpar|]. split; [exact (ne_status _ _ _ _ _ Hn)|]. split.
  - intros i y Hy Hu. destruct (decide (i = 0)) as [->|Hne]; [|by destruct (Hu (Hf i y Hne Hy))].
    rewrite (pr_env P) in Hy. injection Hy as <-. exact (ne_slot _ _ _ _ _ Hn).
  - intros e Hne. unfold space. destruct (envs first_process !! e) as [y|] eqn:Hy; [|done].
    by rewrite decide_True by exact (Hf e y Hne Hy).
Qed.

(** The second runs, the first can run. *)
Lemma pair_running : exists s l le ce x, ticking s l le 1 1 ce /\ runnable s 0 /\ stranger s 1 ce 0 x /\ private s 0.
Proof.
  destruct first_alone as (s0 & c0 & P0 & Hpar & Hst & Hsl & Hsp). destruct (pair_from s0 c0 P0 Hpar Hst Hsl Hsp)
    as (s & l & le & x & P & Hc & Hs & Hr & S & Hp & Hd). clear P0 Hsl Hsp s0.
  destruct (env_run_switch s l le 1 1 x (pr_ok P) (pr_env P) (pr_used P)) as (s' & x' & _ & W).
  destruct (switched_frame s l le 1 1 x P s' l le 1 x' W 0 c0 S) as [_ U]. destruct (U Hp) as [_ Hp'].
  destruct W as [X Se Me (c & Hc1 & Hc2 & Ho) De]. pose proof (pr_ok (en_proc _ _ _ _ _ _ X)) as K'.
  assert (c = set_cpu_env (Some 1) cpu0) as -> by congruence. assert (envs s' !! 0 = Some c0) as H0.
  { destruct (Ho 0 c0 ltac:(done) (st_env _ _ _ _ _ S)) as (y & Hy & Hd'). rewrite decide_False in Hd' by (by intros [? _]). congruence. }
  assert (env_id x' = env_id x) as Hid.
  { destruct (Se 1 x (pr_env P)) as (y & Hy & (Hi & _)%resched_same). pose proof (pr_env (en_proc _ _ _ _ _ _ X)). congruence. }
  exists s', l, le, x', c0. split; [|split; [|split; [|exact Hp']]].
  - split; [exact X|congruence|eexists; split; [exact Hc2|done]|]. intros i z' Hz Hu.
    destruct (proj2 (ko_envs (pr_ok P) i)) as [z Hz0]; [apply (ko_envs K'); by exists z'|].
    destruct (Se i z Hz0) as (z2 & Hz2 & (Hi & _ & _ & _ & Hf)%resched_same). assert (z2 = z') as -> by congruence.
    rewrite Hi. apply (Hs i z Hz0). tauto.
  - by exists c0.
  - destruct S as [S1 S2 S3 S4]. split; [exact H0|done|done|congruence].
Qed.

#[local] Instance no_stabs : StabSections :=
  {| STAB_BEGIN := 0; STAB_END := 0; STABSTR_BEGIN := 0; STABSTR_END := 0; lit_unknown := 0 |}.
#[local] Instance some_image : MonitorImage :=
  {| readline_buf := 0xf0200000; sym_start := 0x10000c; sym_entry := 0xf010000c;
     sym_etext := 0xf0108000; sym_edata := 0xf0120000; sym_end := 0xf0300000 |}.

(** The timer interrupts the second. *)
Lemma pair_tick : exists s l le ce x s', ticking s l le 1 1 ce /\ stranger s 1 ce 0 x /\ private s 0 /\ sys_step s s'.
Proof.
  destruct pair_running as (s & l & le & ce & x & T & _ & S & Hp).
  set (tf := Build_Trapframe regs0 0 0 (IRQ_OFFSET + IRQ_TIMER) 0 0 3 0 0 0).
  destruct (timer_spec s l le 1 1 ce tf 0 0 0 0 T) as (s' & e & y & E & _); [done|done|].
  exists s, l, le, ce, x, s'. split; [exact T|]. split; [exact S|]. split; [exact Hp|]. destruct T as [X _ (c & Hc & Hm & Hh) _].
  apply (sys_trap s 1 ce c tf 0 0 0 0 e s' Hc Hm (pr_env (en_proc _ _ _ _ _ _ X)) Hh eq_refl); [|exact E].
  split; [by unfold is_u32|]. by split.
Qed.

Lemma system_invariant_witness :
  exists s l le ce s' l' le' e x, entered s l le 1 1 ce /\ sys_step s s' /\ entered s' l' le' 1 e x.
Proof.
  destruct pair_tick as (s & l & le & ce & x & s' & T & _ & _ & H).
  destruct (system_invariant s s' l le 1 1 ce (tk_entered _ _ _ _ _ _ T) (rtc_once _ _ H)) as (l' & le' & e & y & X).
  exists s, l, le, ce, s', l', le', e, y. exact (conj (tk_entered _ _ _ _ _ _ T) (conj H X)).
Defined.

Lemma time_sharing_witness :
  exists s l le ce x s' x', entered s l le 1 1 ce /\ envs s !! 0 = Some x /\ others_step 0 s s' /\
    envs s' !! 0 = Some x' /\ resched x x' /\ private s' 0.
Proof.
  destruct pair_tick as (s & l & le & ce & x & s' & T & S & Hp & H).
  assert (others_step 0 s s') as Ho.
  { split; [exact H|]. intros me c y Hcur Hc Hy. pose proof (en_proc _ _ _ _ _ _ (tk_entered _ _ _ _ _ _ T)) as P.
    rewrite (current_process s l le 1 1 ce me P Hcur) in *. pose proof (pr_env P). pose proof (st_env _ _ _ _ _ S).
    assert (c = ce /\ y = x) as [-> ->] by (split; congruence). exact S. }
  destruct (time_sharing s s' l le 1 1 0 ce x (tk_entered _ _ _ _ _ _ T) (st_env _ _ _ _ _ S) Hp (rtc_once _ _ Ho))
    as ((x' & Hx' & R) & _ & Hp').
  exists s, l, le, ce, x, s', x'.
  exact (conj (tk_entered _ _ _ _ _ _ T) (conj (st_env _ _ _ _ _ S) (conj Ho (conj Hx' (conj R Hp'))))).
Defined.

Lemma no_starvation_witness :
  exists s l le ce, ticking s l le 1 1 ce /\ runnable s 0 /\ within (Z.to_nat 1023) 0 s.
Proof.
  destruct pair_running as (s & l & le & ce & x & T & Hr & _).
  destruct (no_starvation s l le 1 1 0 ce T Hr) as [_ H]. exists s, l, le, ce. exact (conj T (conj Hr H)).
Defined.
