(* ===== verification/Mpconfig.v ===== *)
(** Multiprocessor start-up: the MP configuration table
    (src/kern/mpconfig.c), the local APIC (src/kern/lapic.c) and the AP boot of
    src/kern/init.c. *)

From S2P Require Import Prelude Machine Mmu Cstring Devices KState PageAlloc PageTable Vmem.

(** ** The table's structures: offsets of the fields used *)

Definition SIZEOF_MP : Z := 16.
Definition mp_physaddr (mp : Z) : Z := mp + 4.
Definition mp_type (mp : Z) : Z := mp + 11.
Definition mp_imcrp (mp : Z) : Z := mp + 12.

Definition conf_length (c : Z) : Z := c + 4.
Definition conf_version (c : Z) : Z := c + 6.
Definition conf_entry (c : Z) : Z := c + 34.
Definition conf_lapicaddr (c : Z) : Z := c + 36.
Definition conf_xlength (c : Z) : Z := c + 40.
Definition conf_xchecksum (c : Z) : Z := c + 42.
Definition conf_entries (c : Z) : Z := c + 44.

Definition SIZEOF_MPPROC : Z := 20.
Definition mpproc_apicid (p : Z) : Z := p + 1.
Definition mpproc_flags (p : Z) : Z := p + 3.
Definition MPPROC_BOOT : Z := 0x02.
Definition MPPROC : Z := 0x00.
Definition MPBUS : Z := 0x01.
Definition MPIOAPIC : Z := 0x02.
Definition MPIOINTR : Z := 0x03.
Definition MPLINTR : Z := 0x04.

(** The sum of [len] bytes, as a byte. *)
Fixpoint sum_loop (n : nat) (m : mem) (a acc : Z) : Z :=
  match n with O => acc | S n => sum_loop n m (a + 1) (s32 (acc + m a)) end.
Definition sum (m : mem) (addr len : Z) : Z := u8 (sum_loop (Z.to_nat len) m addr 0).

(** [memcmp(p, literal, 4) == 0]. *)
Definition sig_is (m : mem) (p : Z) (s : string) : bool :=
  bool_decide ((fun i => m (p + i)) <$> zrange 0 4 = bytes_of_string s).

(** ** Finding the table *)

Fixpoint mpsearch_loop (n : nat) (m : mem) (mp : Z) : option Z :=
  match n with
  | O => None
  | S n => if sig_is m mp "_MP_" && (sum m mp SIZEOF_MP =? 0) then Some mp
           else mpsearch_loop n m (mp + SIZEOF_MP)
  end.

Definition mpsearch1 (a len : Z) : M (option Z) :=
  let! mp := KADDR a in
  let! endp := KADDR (u32 (a + len)) in
  get (fun s => mpsearch_loop (Z.to_nat ((endp - mp + (SIZEOF_MP - 1)) / SIZEOF_MP)) (kmem s) mp).

Definition mpsearch : M (option Z) :=
  let! bda := KADDR (Z.shiftl 0x40 4) in
  let! p := get (fun s => ld16 (kmem s) (bda + 0x0E)) in
  let! r := (if negb (p =? 0) then mpsearch1 (u32 (Z.shiftl p 4)) 1024
             else let! k := get (fun s => ld16 (kmem s) (bda + 0x13)) in
                  mpsearch1 (u32 (k * 1024 - 1024)) 1024) in
  match r with
  | Some mp => kret (Some mp)
  | None => mpsearch1 0xF0000 0x10000
  end.

(** Returns the configuration table and [*pmp]. *)
Definition mpconfig : M (option (Z * Z)) :=
  let! r := mpsearch in
  match r with
  | None => kret None
  | Some mp =>
      let! m := get kmem in
      if (ld32 m (mp_physaddr mp) =? 0) || negb (m (mp_type mp) =? 0) then
        cprintf "SMP: Default configurations not implemented" [] ;; kret None
      else
        let! conf := KADDR (ld32 m (mp_physaddr mp)) in
        if negb (sig_is m conf "PCMP") then
          cprintf "SMP: Incorrect MP configuration table signature" [] ;; kret None
        else if negb (sum m conf (ld16 m (conf_length conf)) =? 0) then
          cprintf "SMP: Bad MP configuration checksum" [] ;; kret None
        else if negb (m (conf_version conf) =? 1) && negb (m (conf_version conf) =? 4) then
          cprintf "SMP: Unsupported MP version %d" [m (conf_version conf)] ;; kret None
        else if has (sum m (conf + ld16 m (conf_length conf)) (ld16 m (conf_xlength conf)) +
                     m (conf_xchecksum conf)) 0xff then
          cprintf "SMP: Bad MP configuration extended checksum" [] ;; kret None
        else kret (Some (conf, mp))
  end.

(** ** mp_init *)

Definition upd_cpu (i : Z) (f : CpuInfo -> CpuInfo) : M unit :=
  let! c := get (fun s => cpus s !! i) in
  match c with
  | Some c => modify (fun s => set_cpus (<[i := f c]> (cpus s)) s)
  | None => crash_with (WildAccess i)
  end.

(** One table entry at [p]: the address of the next one, or [None] for a type
    that is not known. *)
Definition mp_entry (p : Z) : M (option Z) :=
  let! m := get kmem in
  let t := m p in
  if t =? MPPROC then
    let! n := get ncpu in
    (if has (m (mpproc_flags p)) MPPROC_BOOT then modify (set_bootcpu (Some n)) else kret tt) ;;
    (if n <? NCPU then upd_cpu n (set_cpu_id (u8 n)) ;; modify (set_ncpu (n + 1))
     else cprintf "SMP: too many CPUs, CPU %d disabled" [m (mpproc_apicid p)]) ;;
    kret (Some (p + SIZEOF_MPPROC))
  else if (t =? MPBUS) || (t =? MPIOAPIC) || (t =? MPIOINTR) || (t =? MPLINTR) then kret (Some (p + 8))
  else
    cprintf "mpinit: unknown config type %x" [t] ;;
    modify (set_ismp false) ;;
    kret None.

Fixpoint mp_entries (n : nat) (p : Z) : M unit :=
  match n with
  | O => kret tt
  | S n =>
      let! q := mp_entry p in
      match q with Some q => mp_entries n q | None => kret tt end
  end.

(** [imcr] is what the interrupt mode configuration register holds, which is
    read at port 0x23 once it is selected. *)
Definition mp_init (imcr : Z) : M unit :=
  modify (set_bootcpu (Some 0)) ;;
  let! r := mpconfig in
  match r with
  | None => kret tt
  | Some (conf, mp) =>
      modify (set_ismp true) ;;
      modify (fun s => set_lapicaddr (ld32 (kmem s) (conf_lapicaddr conf)) s) ;;
      let! n := get (fun s => ld16 (kmem s) (conf_entry conf)) in
      mp_entries (Z.to_nat n) (conf_entries conf) ;;
      let! b := get bootcpu in
      let! b := deref b in
      upd_cpu b (set_cpu_status CPU_STARTED) ;;
      let! mpok := get ismp in
      if negb mpok then
        modify (set_ncpu 1) ;;
        modify (set_lapicaddr 0) ;;
        cprintf "SMP: configuration not found, SMP disabled" []
      else
        let! id := get (fun s => default 0 (cpu_id <$> cpus s !! b)) in
        let! n := get ncpu in
        cprintf "SMP: CPU %d found %d CPU(s)" [id; n] ;;
        let! m := get kmem in
        if negb (m (mp_imcrp mp) =? 0) then
          cprintf "SMP: Setting IMCR to switch from PIC mode to symmetric I/O mode" [] ;;
          modify (fun s => set_kio (outb 0x22 0x70 (kio s)) s) ;;
          modify (fun s => set_kio (outb 0x23 (Z.lor imcr 1) (kio s)) s)
        else kret tt
  end.

(** ** The local APIC: register indices *)

Definition ID : Z := 0x0020 / 4.
Definition VER : Z := 0x0030 / 4.
Definition TPR : Z := 0x0080 / 4.
Definition EOI : Z := 0x00B0 / 4.
Definition SVR : Z := 0x00F0 / 4.
Definition ESR : Z := 0x0280 / 4.
Definition ICRLO : Z := 0x0300 / 4.
Definition ICRHI : Z := 0x0310 / 4.
Definition TIMER : Z := 0x0320 / 4.
Definition PCINT : Z := 0x0340 / 4.
Definition LINT0 : Z := 0x0350 / 4.
Definition LINT1 : Z := 0x0360 / 4.
Definition ERROR : Z := 0x0370 / 4.
Definition TICR : Z := 0x0380 / 4.
Definition TDCR : Z := 0x03E0 / 4.
Definition ENABLE : Z := 0x00000100.
Definition INIT : Z := 0x00000500.
Definition STARTUP : Z := 0x00000600.
Definition DELIVS : Z := 0x00001000.
Definition ASSERT : Z := 0x00004000.
Definition LEVEL : Z := 0x00008000.
Definition BCAST : Z := 0x00080000.
Definition OTHERS : Z := 0x000C0000.
Definition FIXED : Z := 0.
Definition X1 : Z := 0x0000000B.
Definition PERIODIC : Z := 0x00020000.
Definition MASKED : Z := 0x00010000.
Definition IRQ_SPURIOUS_VEC : Z := IRQ_OFFSET + 7.
Definition IRQ_ERROR_VEC : Z := IRQ_OFFSET + 19.

(** A store through the NULL pointer before [lapic_init] is a crash. *)
Definition lapicw (index value : Z) : M unit :=
  let! l := get lapic in
  if l =? 0 then crash_with NullDeref
  else modify (fun s => set_lapic_out ((index, u32 value) :: lapic_out s) s).

(** [while (lapic[ICRLO] & DELIVS)]: the device clears the bit by itself. *)
Definition wait_delivered : M unit :=
  let! r := get (fun s => lapic_regs s ICRLO) in
  if has r DELIVS then crash_with OutOfFuel else kret tt.

Definition lapic_init : M unit :=
  let! la := get lapicaddr in
  if la =? 0 then kret tt
  else
    let! l := mmio_map_region la 4096 in
    modify (set_lapic l) ;;
    lapicw SVR (Z.lor ENABLE IRQ_SPURIOUS_VEC) ;;
    lapicw TDCR X1 ;;
    lapicw TIMER (Z.lor PERIODIC IRQ_OFFSET) ;;
    lapicw TICR 10000000 ;;
    let! b := get bootcpu in
    let! me := get cpunum in
    (if negb (bool_decide (b = Some me)) then lapicw LINT0 MASKED else kret tt) ;;
    lapicw LINT1 MASKED ;;
    let! ver := get (fun s => lapic_regs s VER) in
    (if 4 <=? Z.land (Z.shiftr ver 16) 0xFF then lapicw PCINT MASKED else kret tt) ;;
    lapicw ERROR IRQ_ERROR_VEC ;;
    lapicw ESR 0 ;; lapicw ESR 0 ;;
    lapicw EOI 0 ;;
    lapicw ICRHI 0 ;;
    lapicw ICRLO (Z.lor (Z.lor BCAST INIT) LEVEL) ;;
    wait_delivered ;;
    lapicw TPR 0.

(** The CPU's number as the source computes it. *)
Definition read_cpunum (s : kstate) : Z := if lapic s =? 0 then 0 else Z.shiftr (lapic_regs s ID) 24.

Definition lapic_startap (apicid addr : Z) : M unit :=
  modify (fun s => set_kio (outb (IO_RTC + 1) 0x0A (outb IO_RTC 0xF (kio s))) s) ;;
  let! wrv := KADDR (Z.lor (Z.shiftl 0x40 4) 0x67) in
  modify (fun s => set_kmem (st16 (st16 (kmem s) wrv 0) (wrv + 2) (Z.shiftr addr 4)) s) ;;
  lapicw ICRHI (Z.shiftl apicid 24) ;;
  lapicw ICRLO (Z.lor (Z.lor INIT LEVEL) ASSERT) ;;
  lapicw ICRLO (Z.lor INIT LEVEL) ;;
  lapicw ICRHI (Z.shiftl apicid 24) ;;
  lapicw ICRLO (Z.lor STARTUP (Z.shiftr addr 12)) ;;
  lapicw ICRHI (Z.shiftl apicid 24) ;;
  lapicw ICRLO (Z.lor STARTUP (Z.shiftr addr 12)).

Definition lapic_ipi (vector : Z) : M unit :=
  lapicw ICRLO (Z.lor (Z.lor OTHERS FIXED) vector) ;; wait_delivered.

(** ** Starting the other CPUs *)

Section BootAps.
(** The linker's symbols around the AP entry code. *)
Context (mpentry_start mpentry_end : Z).

(** The started CPU sets its status itself; a state in which it has not yet is
    one the loop waits in. *)
Definition wait_started (i : Z) : M unit :=
  let! c := get (fun s => cpus s !! i) in
  match c with
  | Some c => if bool_decide (cpu_status c = CPU_STARTED) then kret tt else crash_with OutOfFuel
  | None => crash_with (WildAccess i)
  end.

Fixpoint boot_aps_loop (n : nat) (i code : Z) : M unit :=
  match n with
  | O => kret tt
  | S n =>
      let! me := get cpunum in
      (if i =? me then kret tt
       else
         let! id := get (fun s => default 0 (cpu_id <$> cpus s !! i)) in
         let! pa := PADDR code in
         lapic_startap id pa ;;
         wait_started i) ;;
      boot_aps_loop n (i + 1) code
  end.

Definition boot_aps : M unit :=
  let! code := KADDR MPENTRY_PADDR in
  modify (fun s => set_kmem (memmove (kmem s) code mpentry_start (mpentry_end - mpentry_start)) s) ;;
  let! n := get ncpu in
  boot_aps_loop (Z.to_nat n) 0 code.
End BootAps.

(** * Properties *)

(** ** The processors the table lists *)

(** The array of CPUs, and how many of its slots are taken. *)
Definition cpus_wf (s : kstate) : Prop :=
  (forall i, is_Some (cpus s !! i) <-> 0 <= i < NCPU) /\ 0 <= ncpu s <= NCPU.

Lemma upd_cpu_eq i f c s : cpus s !! i = Some c -> upd_cpu i f s = Ret tt (set_cpus (<[i := f c]> (cpus s)) s).
Proof. intros H. unfold upd_cpu. mrun. by rewrite H. Qed.

Lemma cpus_wf_upd s i c : cpus_wf s -> 0 <= i < NCPU -> cpus_wf (set_cpus (<[i := c]> (cpus s)) s).
Proof.
  intros [H1 H2] Hi. split; [|done]. intros j. cbn [cpus set_cpus]. destruct (decide (i = j)) as [->|].
  - rewrite lookup_insert_eq. split; eauto.
  - rewrite lookup_insert_ne by done. apply H1.
Qed.

(** The type of entry and the processor's flags, as the loop reads them. *)
Definition is_proc (m : mem) (p : Z) : bool := m p =? MPPROC.
Definition is_boot (m : mem) (p : Z) : bool := is_proc m p && has (m (mpproc_flags p)) MPPROC_BOOT.

(** The entries the loop visits: up to [n], from [p], ending with the first of
    an unknown type. *)
Fixpoint walk (n : nat) (m : mem) (p : Z) : list Z :=
  match n with
  | O => []
  | S n => p :: (if is_proc m p then walk n m (p + SIZEOF_MPPROC)
                 else if (1 <=? m p) && (m p <=? 4) then walk n m (p + 8) else [])
  end.

Record entry_step (m : mem) (p : Z) (s s' : kstate) (q : option Z) : Prop := {
  es_wf : cpus_wf s';
  es_mem : kmem s' = m;
  es_ncpu : ncpu s' = if is_proc m p then Z.min NCPU (ncpu s + 1) else ncpu s;
  es_boot : bootcpu s' = if is_boot m p then Some (ncpu s) else bootcpu s;
  es_next : q = if is_proc m p then Some (p + SIZEOF_MPPROC)
                else if (1 <=? m p) && (m p <=? 4) then Some (p + 8) else None;
  es_old : forall i, i < ncpu s -> cpus s' !! i = cpus s !! i;
  es_new : is_proc m p = true -> ncpu s < NCPU -> cpu_id <$> cpus s' !! ncpu s = Some (u8 (ncpu s)) }.

Lemma mp_entry_eq s p : cpus_wf s -> exists q s', mp_entry p s = Ret q s' /\ entry_step (kmem s) p s s' q.
Proof.
  intros Hwf. pose proof Hwf as [Hc Hn]. unfold mp_entry. mrun. destruct (Z.eqb_spec (kmem s p) MPPROC) as [Hp|Hp].
  - assert (is_proc (kmem s) p = true) as Hip by by apply Z.eqb_eq.
    mrun. set (b := is_boot (kmem s) p).
    assert ((if has (kmem s (mpproc_flags p)) MPPROC_BOOT then modify (set_bootcpu (Some (ncpu s))) else kret tt) s =
      Ret tt (if b then set_bootcpu (Some (ncpu s)) s else s)) as Hb.
    { unfold b, is_boot. rewrite Hip. cbn [andb]. by destruct (has _ _). }
    mstep Hb. set (s1 := if b then _ else s).
    assert (cpus s1 = cpus s /\ ncpu s1 = ncpu s /\ kmem s1 = kmem s) as (E1 & E2 & E3) by (unfold s1; by destruct b).
    destruct (Z.ltb_spec (ncpu s) NCPU) as [Hlt|Hge].
    + destruct (proj2 (Hc (ncpu s))) as [c Hcs]; [lia|]. rewrite <- E1 in Hcs.
      rewrite bind_assoc. mstep (upd_cpu_eq (ncpu s) (set_cpu_id (u8 (ncpu s))) c s1 Hcs). mrun.
      do 2 eexists. split; [done|]. split; rewrite ?Hip.
      * destruct (cpus_wf_upd s (ncpu s) (set_cpu_id (u8 (ncpu s)) c) Hwf ltac:(lia)) as [W1 _].
        split; [|cbn [ncpu set_ncpu]; lia]. cbn [cpus set_ncpu set_cpus]. rewrite E1. exact W1.
      * exact E3.
      * cbn [ncpu set_ncpu]. lia.
      * cbn [bootcpu set_ncpu set_cpus]. unfold s1, b. by destruct (is_boot _ _).
      * done.
      * intros i Hi. cbn [cpus set_ncpu set_cpus]. rewrite lookup_insert_ne by lia. by rewrite E1.
      * intros _ _. cbn [cpus set_ncpu set_cpus]. by rewrite lookup_insert_eq.
    + unfold cprintf. mrun. do 2 eexists. split; [done|]. split; rewrite ?Hip.
      * split; cbn [cpus ncpu set_klog]; by rewrite ?E1, ?E2.
      * exact E3.
      * cbn [ncpu set_klog]. rewrite E2. lia.
      * cbn [bootcpu set_klog]. unfold s1, b. by destruct (is_boot _ _).
      * done.
      * intros i Hi. cbn [cpus set_klog]. by rewrite E1.
      * lia.
  - assert (is_proc (kmem s) p = false) as Hip by by apply Z.eqb_neq.
    assert (is_boot (kmem s) p = false) as Hib by (unfold is_boot; by rewrite Hip).
    assert ((kmem s p =? MPBUS) || (kmem s p =? MPIOAPIC) || (kmem s p =? MPIOINTR) || (kmem s p =? MPLINTR) =
            (1 <=? kmem s p) && (kmem s p <=? 4)) as ->.
    { unfold MPBUS, MPIOAPIC, MPIOINTR, MPLINTR. case_bool; done || lia. }
    destruct (_ && _) eqn:Ht; do 2 eexists; (split; [done|]); split; rewrite ?Hip, ?Hib, ?Ht; done.
Qed.

(** The last boot processor among [ps], as the index it is given when the first
    of [ps] gets [k]. *)
Fixpoint boot_index (m : mem) (k : Z) (b : option Z) (ps : list Z) : option Z :=
  match ps with
  | [] => b
  | q :: ps => boot_index m (Z.min NCPU (k + 1)) (if is_boot m q then Some k else b) ps
  end.

Lemma boot_index_none m k b ps : (forall q, q ∈ ps -> is_boot m q = false) -> boot_index m k b ps = b.
Proof.
  revert k b. induction ps as [|q ps IH]; intros k b H; cbn [boot_index]; [done|].
  rewrite (H q) by left. apply IH. intros q' Hq'. apply H. by right.
Qed.

Lemma boot_index_last m k b ps j q :
  0 <= k <= NCPU -> ps !! j = Some q -> is_boot m q = true ->
  (forall j' q', (j < j')%nat -> ps !! j' = Some q' -> is_boot m q' = false) ->
  boot_index m k b ps = Some (Z.min NCPU (k + Z.of_nat j)).
Proof.
  revert k b j. induction ps as [|q0 ps IH]; intros k b [|j] Hk Hj Hb Hl; simplify_eq/=.
  - rewrite Hb, boot_index_none; [f_equal; lia|]. intros q' [i Hi]%list_elem_of_lookup.
    apply (Hl (S i) q'); [lia|done].
  - rewrite (IH (Z.min NCPU (k + 1)) (if is_boot m q0 then Some k else b) j); [f_equal; lia|lia|done|done|].
    intros j' q' ??. apply (Hl (S j') q'); [lia|done].
Qed.

Definition procs (n : nat) (m : mem) (p : Z) : list Z := filter (fun q => is_proc m q = true) (walk n m p).

Lemma mp_entries_eq n s p : cpus_wf s -> exists s', mp_entries n p s = Ret tt s' /\
  let ps := procs n (kmem s) p in
  cpus_wf s' /\ kmem s' = kmem s /\ ncpu s' = Z.min NCPU (ncpu s + Z.of_nat (length ps)) /\
  bootcpu s' = boot_index (kmem s) (ncpu s) (bootcpu s) ps /\
  (forall i, i < ncpu s -> cpus s' !! i = cpus s !! i) /\
  (forall i, ncpu s <= i < ncpu s' -> cpu_id <$> cpus s' !! i = Some (u8 i)).
Proof.
  revert s p. induction n as [|n IH]; intros s p Hwf.
  { exists s. split; [done|]. destruct Hwf as [? ?]. cbn. split_and!; try done; lia. }
  destruct (mp_entry_eq s p Hwf) as (q & s1 & H1 & [W1 Hm1 Hn1 Hb1 -> Ho1 Hw1]).
  cbn [mp_entries]. mstep H1. pose proof Hwf as [_ Hn]. unfold procs. cbn [walk]. rewrite filter_cons.
  destruct (is_proc (kmem s) p) eqn:Hp.
  - rewrite decide_True by done.
    destruct (IH s1 (p + SIZEOF_MPPROC) W1) as (s' & -> & W' & Hm' & Hn' & Hb' & Ho' & Hw').
    exists s'. split; [done|]. unfold procs in *. rewrite Hm1 in *. rewrite Hn1, Hb1 in *. cbn [length boot_index].
    split_and!; try done; [lia| |].
    + intros i Hi. rewrite Ho' by lia. by apply Ho1.
    + intros i Hi. destruct (decide (i = ncpu s)) as [->|].
      * destruct (decide (ncpu s < NCPU)); [|lia]. rewrite Ho' by lia. by apply Hw1.
      * apply Hw'. lia.
  - rewrite decide_False by done. assert (is_boot (kmem s) p = false) as Hib by (unfold is_boot; by rewrite Hp).
    rewrite Hib in Hb1. destruct (_ && _).
    + destruct (IH s1 (p + 8) W1) as (s' & -> & W' & Hm' & Hn' & Hb' & Ho' & Hw').
      exists s'. split; [done|]. unfold procs in *. rewrite Hm1 in *. rewrite Hn1, Hb1 in *.
      split_and!; try done. intros i Hi. rewrite Ho' by lia. by apply Ho1.
    + exists s1. split; [done|]. cbn. rewrite Hn1, Hb1. split_and!; try done; lia.
Qed.

(** C33. Reading the MP table's entries never leaves the array of CPUs: each
    processor entry up to NCPU of them claims the next slot, whose id is its
    index, earlier slots stay, and further processors are ignored.  The boot
    processor is the last entry flagged so; flagged beyond the NCPU-th it is
    recorded as the element one past the array's end. *)
Theorem mp_entries_correct (s : kstate) (n : nat) (p : Z) :
  cpus_wf s ->
  exists s', mp_entries n p s = Ret tt s' /\ cpus_wf s' /\ kmem s' = kmem s /\
    let ps := procs n (kmem s) p in
    ncpu s' = Z.min NCPU (ncpu s + Z.of_nat (length ps)) /\
    (forall i, i < ncpu s -> cpus s' !! i = cpus s !! i) /\
    (forall i, ncpu s <= i < ncpu s' -> cpu_id <$> cpus s' !! i = Some (u8 i)) /\
    ((forall q, q ∈ ps -> is_boot (kmem s) q = false) -> bootcpu s' = bootcpu s) /\
    (forall j q, ps !! j = Some q -> is_boot (kmem s) q = true ->
       (forall j' q', (j < j')%nat -> ps !! j' = Some q' -> is_boot (kmem s) q' = false) ->
       bootcpu s' = Some (Z.min NCPU (ncpu s + Z.of_nat j))).
Proof.
  intros Hwf. pose proof Hwf as [_ Hn].
  destruct (mp_entries_eq n s p Hwf) as (s' & H1 & W & Hm & Hc & Hb & Ho & Hw). exists s'. cbn zeta.
  split_and!; try done.
  - intros H. rewrite Hb. apply boot_index_none, H.
  - intros j q Hj Hq Hl. rewrite Hb. apply (boot_index_last _ _ _ _ j q Hn Hj Hq Hl).
Qed.

(** A table of one boot processor and one bus, after a CPU-less start. *)
Definition one_cpu : kstate :=
  set_ncpu 0 (set_cpus (table cpu0 8) (set_kmem (fun x => if x =? KERNBASE + 3 then 3 else if x =? KERNBASE + 20 then 1 else 0)
    (sample 8 0))).

Lemma one_cpu_wf : cpus_wf one_cpu.
Proof.
  split; [|by vm_compute]. intros i. change (cpus one_cpu) with (table cpu0 8). rewrite lookup_table.
  unfold NCPU. case_decide; split; try lia; eauto. by intros [].
Qed.

Lemma mp_entries_correct_witness :
  exists s', mp_entries 2 KERNBASE one_cpu = Ret tt s' /\ ncpu s' = 1 /\ bootcpu s' = Some 0.
Proof.
  destruct (mp_entries_correct one_cpu 2 KERNBASE one_cpu_wf) as (s' & H1 & _ & _ & H2 & _ & _ & _ & H3).
  exists s'. split; [exact H1|]. split; [rewrite H2; reflexivity|].
  rewrite (H3 0%nat KERNBASE); [reflexivity|reflexivity|reflexivity|].
  intros [|j'] q' Hj; [lia|]. intros Hq. exfalso. revert Hq. destruct j'; discriminate.
Defined.
