(* ===== verification/KInit.v ===== *)
(** Starting the kernel: the page tables entry.S runs on (src/kern/entrypgdir.c),
    mem_init (src/kern/pmap.c), i386_init and mp_main (src/kern/init.c). *)

From S2P Require Import Prelude Machine Mmu Cstring Devices KState PageAlloc PageTable Vmem Exits SelfTest Kdebug Monitor Spinlock Env Sched Syscall Trap Mpconfig Isolation.

(** ** src/kern/entrypgdir.c *)

Definition PDXSHIFT : Z := 22.

(** The table's 1024 lines, and the directory's two initialised slots. *)
Definition entry_pgtable : list Z :=
  (fun i => Z.lor (Z.lor (i * 0x1000) PTE_P) PTE_W) <$> seqZ 0 NPTENTRIES.

Definition entry_pgdir (entry_pgtable_va : Z) : list Z :=
  (fun i => if i =? 0 then u32 (entry_pgtable_va - KERNBASE) + PTE_P
            else if i =? Z.shiftr KERNBASE PDXSHIFT then u32 (entry_pgtable_va - KERNBASE) + PTE_P + PTE_W
            else 0) <$> seqZ 0 NPDENTRIES.

(** ** mem_init *)

Section Init.
Context `{Platform} `{StabSections} `{MonitorImage}.
(** From the linker and the assembly files: the end of the initialised data,
    the entry stubs, the address of ts, the per-CPU stacks, the AP entry code
    and the image of the first program; and from the hardware, what the interrupt
    mode configuration register holds. *)
Context (link_edata : Z) (idt_entries : Z -> Z) (ts_addr : Z) (percpu_kstacks : Z -> Z).
Context (mpentry_start mpentry_end user_binary imcr : Z).

(** The two arrays are placed on memory; their content, the maps [pages] and
    [envs] of the state, is what that memory happens to hold. *)
Definition place_arrays : M unit :=
  let! pgdir := boot_alloc PGSIZE in
  modify (set_kern_pgdir pgdir) ;;
  kmemset pgdir 0 PGSIZE ;;
  let! pa := PADDR pgdir in
  write32 (pgdir + 4 * PDX UVPT) (Z.lor (Z.lor pa PTE_U) PTE_P) ;;
  let! n := get npages in
  let! p := boot_alloc (ROUNDUP (u32 (n * SIZEOF_PAGEINFO)) PGSIZE) in
  modify (set_pages_va p) ;;
  let! e := boot_alloc (ROUNDUP (NENV * SIZEOF_ENV) PGSIZE) in
  modify (set_envs_va e).

(** The mappings of the kernel's part of the address space. *)
Definition map_kernel : M unit :=
  let! pgdir := get kern_pgdir in
  let! n := get npages in
  let! pg := get pages_va in
  let! en := get envs_va in
  let pages_size := ROUNDUP (u32 (SIZEOF_PAGEINFO * n)) PGSIZE in
  let envs_size := ROUNDUP (SIZEOF_ENV * NENV) PGSIZE in
  let! pgpa := PADDR pg in
  boot_map_region pgdir UPAGES pages_size pgpa (Z.lor PTE_U PTE_P) ;;
  boot_map_region pgdir pg pages_size pgpa (Z.lor PTE_W PTE_P) ;;
  let! enpa := PADDR en in
  boot_map_region pgdir UENVS envs_size enpa (Z.lor PTE_U PTE_P) ;;
  boot_map_region pgdir en envs_size enpa (Z.lor PTE_W PTE_P) ;;
  let! stpa := PADDR link_bootstack in
  boot_map_region pgdir (KSTACKTOP - KSTKSIZE) KSTKSIZE stpa (Z.lor PTE_W PTE_P) ;;
  boot_map_region pgdir KERNBASE (ROUNDUP (0xFFFFFFFF - KERNBASE) PGSIZE) 0 (Z.lor PTE_W PTE_P).

(** Empty in the source: the stacks of the other CPUs are not mapped. *)
Definition mem_init_mp : M unit := kret tt.

(** The control register is not part of the state: its bits set here make the
    processor check kernel writes too, as [translate] assumes. *)
Definition mem_init : M unit :=
  i386_detect_memory ;;
  place_arrays ;;
  page_init ;;
  check_page_free_list true ;;
  check_page_alloc ;;
  check_page ;;
  map_kernel ;;
  mem_init_mp ;;
  check_kern_pgdir percpu_kstacks ;;
  let! pgdir := get kern_pgdir in
  let! pa := PADDR pgdir in
  lcr3 pa ;;
  check_page_free_list false ;;
  check_page_installed_pgdir.

(** ** src/kern/init.c *)

(** The variables without an initialiser read 0 (NULL, false) once the memory
    from edata to end is cleared. *)
Definition zero_gate : Gatedesc :=
  {| gd_off_15_0 := 0; gd_sel := 0; gd_args := 0; gd_rsv1 := 0; gd_type := 0; gd_s := 0; gd_dpl := 0; gd_p := 0;
     gd_off_31_16 := 0 |}.

Definition zero_io (d : io) : io :=
  set_didinit false (set_serial_exists false (set_shift 0 (set_cbuf (repeat 0 (Z.to_nat CONSBUFSIZE))
  (set_rpos 0 (set_wpos 0 d))))).

Definition zero_globals (s : kstate) : kstate :=
  set_kio (zero_io (kio s)) (set_idt (fun _ => zero_gate)
  (  set_nextfree 0 (set_kern_pgdir 0 (set_pages_va 0 (set_page_free_list None (set_user_mem_check_addr 0
  (set_envs_va 0 (set_env_free_list None
  (set_cpus (table {| cpu_id := 0; cpu_status := CPU_UNUSED; cpu_env := None; ts_esp0 := 0; ts_ss0 := 0 |} (Z.to_nat NCPU))
  (set_ts (0, 0, 0) (set_last_tf None (set_panicstr false (set_ncpu 0 (set_bootcpu None (set_ismp false
  (set_lapicaddr 0 (set_lapic 0 s))))))))))))))))).

Definition clear_bss : M unit :=
  kmemset link_edata 0 (link_end - link_edata) ;; modify zero_globals.

(** It loads the segment registers, which are not part of the state. *)
Definition env_init_percpu : M unit := kret tt.

Definition i386_init : M unit :=
  clear_bss ;;
  modify (fun s => set_kio (cons_init (kio s)) s) ;;
  cprintf "6828 decimal is %o octal!" [6828] ;;
  mem_init ;;
  env_init ;;
  trap_init idt_entries ts_addr ;;
  mp_init imcr ;;
  lapic_init ;;
  modify (fun s => set_kio (pic_init (kio s)) s) ;;
  boot_aps mpentry_start mpentry_end ;;
  env_create user_binary ENV_TYPE_USER ;;
  sched_yield.

(** The code of a started CPU. *)
Definition mp_main : M unit :=
  let! pgdir := get kern_pgdir in
  let! pa := PADDR pgdir in
  lcr3 pa ;;
  let! me := get cpunum in
  cprintf "SMP: CPU %d starting" [me] ;;
  lapic_init ;;
  env_init_percpu ;;
  trap_init_percpu ts_addr ;;
  let! c := thiscpu in
  set_thiscpu (set_cpu_status CPU_STARTED c) ;;
  sched_yield.

(** _panic itself: a second panic skips the message.  The [%s] arguments are
    left out; [panic msg], with which the model of a function ends, stands for
    a call of it. *)
Definition _panic (msg : string) (args : list Z) : M unit :=
  let! p := get panicstr in
  (if p then kret tt
   else
     modify (set_panicstr true) ;;
     let! me := get cpunum in
     cprintf "kernel panic on CPU %d at %s:%d: " [me] ;;
     cprintf msg args ;;
     cprintf "" []) ;;
  monitor None 0 ;;
  leave_with MonitorLoop.

Definition _warn (msg : string) (args : list Z) : M unit :=
  cprintf "kernel warning at %s:%d: " [] ;; cprintf msg args ;; cprintf "" [].
End Init.

(** * Properties *)

(** ** The entry page tables *)

(** Words [l] lie in memory from address [a] on. *)
Definition words_at (m : mem) (a : Z) (l : list Z) : Prop :=
  forall i w, l !! i = Some w -> ld32 m (a + 4 * Z.of_nat i) = w.

Lemma words_at_seqZ m a (f : Z -> Z) n i : words_at m a (f <$> seqZ 0 n) -> 0 <= i < n -> ld32 m (a + 4 * i) = f i.
Proof.
  intros W Hi. rewrite <- (W (Z.to_nat i) (f i)); [do 3 f_equal; lia|].
  rewrite list_lookup_fmap, (proj2 (lookup_seqZ 0 n (Z.to_nat i) i)); [done|lia].
Qed.

(** The physical address the processor finds for [va] under the directory in
    page [d], and whether it may be written. *)
Definition hw_walk (s : kstate) (d va : Z) : option (Z * bool) :=
  let pde := mmu_pde s (d * PGSIZE) va in
  let pte := mmu_pte s (d * PGSIZE) va in
  if has pde PTE_P && has pte PTE_P
  then Some (PTE_ADDR pte + PGOFF va, has pde PTE_W && has pte PTE_W) else None.

Lemma entry_bits n f : 0 <= n < 2 ^ 20 -> 0 <= f < 4 ->
  has (n * 4096 + f) PTE_P = Z.testbit f 0 /\ has (n * 4096 + f) PTE_W = Z.testbit f 1 /\
  PTE_ADDR (n * 4096 + f) = n * 4096.
Proof.
  intros Hn Hf. split; [|split].
  - by rewrite has_P_make, has_P.
  - change PTE_W with (2 ^ 1). rewrite has_bit by lia. rewrite <- (Z.mod_pow2_bits_low _ 12) by lia.
    f_equal. word_lia.
  - apply PTE_ADDR_make; lia.
Qed.

(** A slot that points to the table of the first 4 MB. *)
Lemma hw_walk_table s d t va f :
  0 <= t < 2 ^ 16 -> words_at (kmem s) (page_kva t) entry_pgtable -> is_u32 va ->
  mmu_pde s (d * PGSIZE) va = t * 4096 + f -> 0 <= f < 4 -> Z.testbit f 0 = true ->
  hw_walk s d va = Some (va mod PTSIZE, Z.testbit f 1).
Proof.
  intros Ht Wt Hva Hpde Hf Hf0. unfold hw_walk, mmu_pte. rewrite Hpde.
  destruct (entry_bits t f ltac:(lia) Hf) as (-> & -> & ->). rewrite PTX_eq, PGOFF_eq by done.
  change (KERNBASE + t * 4096) with (page_kva t).
  rewrite (words_at_seqZ _ _ _ NPTENTRIES ((va / 4096) mod 1024) Wt) by (unfold NPTENTRIES; word_lia).
  rewrite <- Z.lor_assoc. change (Z.lor PTE_P PTE_W) with 3. change 0x1000 with 4096. rewrite pte_make by lia.
  destruct (entry_bits ((va / 4096) mod 1024) 3 ltac:(word_lia) ltac:(lia)) as (-> & -> & ->).
  change (Z.testbit 3 0) with true. change (Z.testbit 3 1) with true. rewrite Hf0, !andb_true_r.
  change PTSIZE with 4194304. do 2 f_equal. clear. word_lia.
Qed.

(** The tables entry.S turns paging on with: once they are in memory, the
    processor finds the first 4 MB of physical memory at address 0, where it may
    only read them, and at KERNBASE, where it may write them too, and nothing at
    any other address. *)
Theorem entry_pgdir_correct (s : kstate) (d t va : Z) :
  0 <= d < 2 ^ 16 -> 0 <= t < 2 ^ 16 ->
  words_at (kmem s) (page_kva d) (entry_pgdir (page_kva t)) -> words_at (kmem s) (page_kva t) entry_pgtable ->
  is_u32 va ->
  hw_walk s d va =
    if va <? PTSIZE then Some (va, false)
    else if (KERNBASE <=? va) && (va <? KERNBASE + PTSIZE) then Some (va - KERNBASE, true)
    else None.
Proof.
  intros Hd Ht Wd Wt Hva.
  assert (mmu_pde s (d * PGSIZE) va = if PDX va =? 0 then t * 4096 + 1 else if PDX va =? 960 then t * 4096 + 3 else 0) as Hpde.
  { assert (u32 (page_kva t - KERNBASE) = t * 4096) as Htk by (unfold page_kva, KERNBASE, PGSIZE; word_lia).
    destruct (entry_bits d 0 ltac:(lia) ltac:(lia)) as (_ & _ & Hd0). rewrite Z.add_0_r in Hd0.
    unfold mmu_pde, PGSIZE. rewrite Hd0. change (KERNBASE + d * 4096) with (page_kva d).
    rewrite (words_at_seqZ _ _ _ NPDENTRIES (PDX va) Wd (PDX_in va)), Htk, <- Z.add_assoc.
    change (Z.shiftr KERNBASE PDXSHIFT) with 960. done. }
  pose proof (fun f => hw_walk_table s d t va f Ht Wt Hva) as Hw. rewrite PDX_eq in Hpde by done.
  change (2 ^ 22) with 4194304 in Hpde. change PTSIZE with 4194304 in *. unfold KERNBASE, is_u32 in *.
  destruct (Z.eqb_spec (va / 4194304) 0) as [E0|E0].
  { rewrite (proj2 (Z.ltb_lt va 4194304)) by word_lia. rewrite (Hw 1) by done. do 2 f_equal. word_lia. }
  rewrite (proj2 (Z.ltb_ge va 4194304)) by word_lia.
  destruct (Z.eqb_spec (va / 4194304) 960) as [E1|E1].
  { rewrite (proj2 (Z.leb_le _ va)), (proj2 (Z.ltb_lt va _)) by word_lia. rewrite (Hw 3) by done. cbn [andb].
    do 2 f_equal. word_lia. }
  unfold hw_walk. rewrite Hpde. change (has 0 PTE_P) with false. cbn [andb].
  destruct (Z.leb_spec 0xF0000000 va), (Z.ltb_spec va (0xF0000000 + 4194304)); cbn [andb]; try done. exfalso. word_lia.
Qed.

(** ** The kernel cannot start

    [stays c]: [c] returns or crashes, it does not leave the kernel;
    [stops pre c]: [c] runs like [pre] and then panics in mmio_map_region. *)

#[local] Abbreviation stays := (exits (fun _ => False)).
Definition stops {A B} (pre : M A) (c : M B) : Prop :=
  forall s, c s = kbind pre (fun _ => panic "mmio_map_region not implemented") s.

Lemma stops_bind {A B C} (c : M A) (pre : A -> M B) (k : A -> M C) :
  (forall a, stops (pre a) (k a)) -> stops (kbind c pre) (kbind c k).
Proof. intros H s. rewrite bind_assoc. unfold kbind at 1 2. destruct (c s) as [a s1|l s1|e s1]; [apply H|done..]. Qed.

Lemma stops_first {A B C} (pre : M A) (c : M B) (k : B -> M C) : stops pre c -> stops pre (kbind c k).
Proof. intros H s. unfold kbind at 1. rewrite H. unfold kbind. by destruct (pre s). Qed.

Lemma stays_check_va2pa d va : stays (check_va2pa d va).
Proof. unfold check_va2pa. exits_tac. Qed.
Lemma stays_must_alloc f : stays (must_alloc f).
Proof. unfold must_alloc. exits_tac. Qed.
Lemma stays_must_fail : stays must_fail.
Proof. unfold must_fail. exits_tac. Qed.
Lemma stays_ref_of p : stays (ref_of p).
Proof. unfold ref_of. exits_tac. Qed.
Lemma stays_set_ref p v : stays (set_ref p v).
Proof. unfold set_ref. exits_tac. Qed.
Lemma stays_set_link p v : stays (set_link p v).
Proof. unfold set_link. exits_tac. Qed.
#[local] Hint Resolve stays_check_va2pa stays_must_alloc stays_must_fail stays_ref_of stays_set_ref
  stays_set_link : exits.

(** check_page up to its last part, and i386_init up to there. *)
Section Before.
Context `{Platform}.

Definition before_mmio : M unit :=
  let! pgdir := get kern_pgdir in
  let! pp0 := must_alloc 0 in
  let! pp1 := must_alloc 0 in
  let! pp2 := must_alloc 0 in
  distinct3 pp0 pp1 pp2 ;;
  let! fl := get page_free_list in
  modify (set_page_free_list None) ;;
  must_fail ;;
  check_insert_remove pgdir pp0 pp1 pp2 ;;
  check_walk pgdir pp0 ;;
  modify (set_page_free_list fl) ;;
  page_free pp0 ;; page_free pp1 ;; page_free pp2 ;;
  kret tt.

Definition self_tests (edata : Z) : M unit :=
  clear_bss edata ;;
  modify (fun s => set_kio (cons_init (kio s)) s) ;;
  cprintf "6828 decimal is %o octal!" [6828] ;;
  i386_detect_memory ;;
  place_arrays ;;
  page_init ;;
  check_page_free_list true ;;
  check_page_alloc ;;
  before_mmio.
End Before.

Section Stops.
Context `{Platform}.

Lemma stays_device {A} (f : io -> A * io) : stays (device f).
Proof. unfold device. exits_tac. Qed.
#[local] Hint Resolve stays_device : exits.
Lemma stays_nvram_read r : stays (nvram_read r).
Proof. unfold nvram_read. exits_tac. Qed.
#[local] Hint Resolve stays_nvram_read : exits.
Lemma stays_detect : stays i386_detect_memory.
Proof. unfold i386_detect_memory. exits_tac. Qed.
Lemma stays_boot_alloc n : stays (boot_alloc n).
Proof. unfold boot_alloc. exits_tac. Qed.
#[local] Hint Resolve stays_detect stays_boot_alloc : exits.
Lemma stays_place_arrays : stays place_arrays.
Proof. unfold place_arrays. exits_tac. Qed.
Lemma stays_page_init : stays page_init.
Proof.
  assert (forall i r l, stays (set_pageinfo i r l)) as H1 by (intros; unfold set_pageinfo; exits_tac).
  assert (forall i, stays (push_free i)) as H2 by (intros; unfold push_free; exits_tac).
  assert (stays kernel_limit) as H3 by (unfold kernel_limit; exits_tac).
  assert (forall i, stays (page_init_step i)) as H4 by (intros; unfold page_init_step; exits_tac).
  assert (forall k i, stays (page_init_loop k i)) as H5
    by (intros k; induction k; intros i; cbn [page_init_loop]; exits_tac).
  unfold page_init. exits_tac.
Qed.

Lemma stays_check_page_free_list b : stays (check_page_free_list b).
Proof.
  assert (forall t l v, stays (store_tail t l v)) as H1 by (intros; unfold store_tail; exits_tac).
  assert (forall f lim p l1 l2 t1 t2, stays (sort_free f lim p l1 l2 t1 t2)) as H2
    by (intros f; induction f; intros; cbn [sort_free]; exits_tac).
  assert (forall lim p, stays (poison lim p)) as H3 by (intros; unfold poison; exits_tac).
  assert (forall f lim p, stays (for_free f (poison lim) p)) as H4
    by (intros f; induction f; intros; cbn [for_free]; exits_tac).
  assert (forall n p, stays (check_free_page n p)) as H5 by (intros; unfold check_free_page; exits_tac).
  assert (forall f n p nb ne, stays (check_free_pages f n p nb ne)) as H6
    by (intros f; induction f; intros; cbn [check_free_pages]; exits_tac).
  unfold check_page_free_list, walk_free, panic. exits_tac.
Qed.

Lemma stays_check_page_alloc : stays check_page_alloc.
Proof.
  assert (forall f p n k, stays (count_from f p n k)) as H1 by (intros f; induction f; intros; cbn [count_from]; exits_tac).
  assert (forall n c, stays (assert_zero n c)) as H2 by (intros n; induction n; intros; cbn [assert_zero]; exits_tac).
  unfold check_page_alloc, count_free, panic, distinct3, in_memory. exits_tac.
Qed.

Lemma stays_check_insert_remove d p0 p1 p2 : stays (check_insert_remove d p0 p1 p2).
Proof. unfold check_insert_remove, insert_fails, insert_is, table_is, maps_to, ref_is, walk_pte. exits_tac. Qed.

Lemma stays_check_walk d p : stays (check_walk d p).
Proof.
  assert (forall n c, stays (assert_absent n c)) as H1 by (intros n; induction n; intros; cbn [assert_absent]; exits_tac).
  unfold check_walk. exits_tac.
Qed.
#[local] Hint Resolve stays_place_arrays stays_page_init stays_check_page_free_list stays_check_page_alloc
  stays_check_insert_remove stays_check_walk : exits.

Lemma stays_before_mmio : stays before_mmio.
Proof. unfold before_mmio, distinct3. exits_tac. Qed.

Lemma stays_self_tests edata : stays (self_tests edata).
Proof. pose proof stays_before_mmio. unfold self_tests, clear_bss. exits_tac. Qed.

Lemma check_page_stops : stops before_mmio check_page.
Proof.
  unfold before_mmio, check_page. repeat (apply stops_bind; intros). intros s. unfold check_mmio, mmio_map_region. by rewrite bind_ret.
Qed.

Lemma i386_init_stops `{StabSections} `{MonitorImage} edata idt_entries ts_addr stacks mp0 mp1 binary imcr :
  stops (self_tests edata) (i386_init edata idt_entries ts_addr stacks mp0 mp1 binary imcr).
Proof.
  unfold self_tests, i386_init, mem_init. do 3 (apply stops_bind; intros). apply stops_first.
  do 5 (apply stops_bind; intros). apply stops_first, check_page_stops.
Qed.
End Stops.

(** *** A machine with 640 KB of base and 512 KB of extended memory

    On it every self-test up to that call passes. *)

#[local] Instance small_platform : Platform := {| link_end := 0xf0110000; link_bootstack := 0xf010e000 |}.

Definition small_nvram (r : Z) : Z :=
  if r =? 0x15 then 0x80 else if r =? 0x16 then 0x02 else if r =? 0x18 then 0x02 else 0.
Definition small_machine : kstate :=
  set_nextfree 0 (set_kio {| outs := []; nvram := small_nvram; irq_mask := irq_mask_init; didinit := false;
     com1_present := true; com1_rx := []; serial_exists := true; kbd_rx := []; shift := 0; cursor := 0; has_cga := true;
     addr_6845 := CGA_BASE; crt_buf := repeat 0 2000; crt_pos := 0; cbuf := repeat 0 512; rpos := 0;
     wpos := 0; printed := [] |} (sample 384 0)).

(** What the console shows when [c] has returned. *)
Definition log_of {A} (o : outcome A) : option (list (string * list Z)) :=
  match o with Ret _ s => Some (klog s) | _ => None end.

(** C29. The kernel at this commit never reaches its first environment.  From
    whatever the machine's state is, i386_init does what its steps do up to the
    call of mmio_map_region in the self-test check_page ([self_tests]), and then
    panics in mmio_map_region, which is not written: it neither returns nor
    enters user mode.  And the steps before do not fail by themselves: on a
    machine with 640 KB of base and 512 KB of extended memory all of them pass,
    the self-tests of the free list, of page_alloc and of page_insert,
    page_remove and pgdir_walk among them. *)
Theorem i386_init_never_starts :
  (forall (platform : Platform) (stabs : StabSections) (image : MonitorImage) (edata ts_addr mp0 mp1 binary imcr : Z)
     (idt_entries stacks : Z -> Z) (s : kstate),
     match self_tests edata s with
     | Ret _ s1 => i386_init edata idt_entries ts_addr stacks mp0 mp1 binary imcr s =
                   Crash (Panic "mmio_map_region not implemented") s1
     | Crash e s1 => i386_init edata idt_entries ts_addr stacks mp0 mp1 binary imcr s = Crash e s1
     | Leave _ _ => False
     end) /\
  log_of (self_tests 0xf010f000 small_machine) = Some
    [("check_page_alloc() succeeded!"%string, []);
     ("Physical memory: %uK available, base = %uK, extended = %uK"%string, [1536; 640; 512]);
     ("6828 decimal is %o octal!"%string, [6828])].
Proof.
  split; [|vm_compute; reflexivity]. intros. rewrite i386_init_stops. pose proof (stays_self_tests edata s) as Hs.
  unfold kbind. by destruct (self_tests edata s) as [a s1|l s1|e s1]; [|destruct (Hs l s1)|].
Qed.

(** ** The kernel's address space *)

(** The translations [f] after mapping [size] bytes at [va] to those at [pa]. *)
Definition region (va size pa perm : Z) (f : Z -> option (Z * Z)) (x : Z) : option (Z * Z) :=
  if decide (va <= x < va + size) then Some ((pa + (x - va)) / PGSIZE, Z.lor perm PTE_P) else f x.

(** The directory entries that cover the kernel's mappings: UENVS, UPAGES, the
    stack and everything from KERNBASE up. *)
Definition layout_slots : list Z := [PDX UENVS; PDX UPAGES] ++ zrange (PDX (KSTACKTOP - KSTKSIZE)) 65.

Lemma layout_slots_ok : NoDup layout_slots /\ (forall i, i ∈ layout_slots -> 0 <= i < NPDENTRIES) /\ length layout_slots = 67%nat.
Proof.
  split; [|split; [|done]]; [apply (bool_decide_unpack _); by vm_compute|].
  apply Forall_forall, (bool_decide_unpack _). by vm_compute.
Qed.

Lemma in_layout_slots i : i = 955 \/ i = 956 \/ 959 <= i < 1024 -> i ∈ layout_slots.
Proof.
  intros H. unfold layout_slots. rewrite elem_of_app, !elem_of_cons, elem_of_zrange.
  change (PDX UENVS) with 955. change (PDX UPAGES) with 956. change (PDX (KSTACKTOP - KSTKSIZE)) with 959. lia.
Qed.

(** [s] has been reached from [s0] by mapping; directory [d] translates as [f]
    says, and there are pages left for all the tables. *)
Record mapping (s0 : kstate) (d : Z) (f : Z -> option (Z * Z)) (s : kstate) (l : list Z) : Prop := {
  mp_wf : mem_wf s;
  mp_free : free_ok s l;
  mp_pd : pgdir_ok s l d;
  mp_mm : mm_frame s0 s;
  mp_room : missing layout_slots s d < Z.of_nat (length l);
  mp_trans : forall x, is_u32 x -> PDX x <> PDX UVPT -> trans s d x = f x }.

Lemma mapping_step s0 d f s l perm v n p va size pa :
  mapping s0 d f s l -> 0 <= perm < PGSIZE -> va = v * 4096 -> size = n * 4096 -> pa = p * 4096 ->
  0 < n -> 0 <= p -> p + n <= 0x100000 ->
  (0xEEC00 <= v /\ v + n <= 0xEF000) \/ (0xEF000 <= v /\ v + n <= 0xEF400) \/ (0xEFC00 <= v /\ v + n <= 0x100000) ->
  exists s' l', boot_map_region (page_kva d) va size pa perm s = Ret tt s' /\
    mapping s0 d (region va size pa perm f) s' l'.
Proof.
  intros [M1 M2 M3 M4 Mr M5] Hp -> -> -> Hn Hp0 Hpn Hv.
  destruct (boot_map_region_spec s l d (v * 4096) (n * 4096) (p * 4096) perm) as (s' & l' & k & E & Hk & Hl & [R1 R2 R3 R4 R5] & Hroom);
    try done; try lia; try (by rewrite Z.mod_mul).
  { intros a Ha. change (PDX UVPT) with 957. rewrite PDX_eq by (unfold is_u32; lia). clear - Ha Hv Hn. word_lia. }
  rewrite !u32_id in E by lia. exists s', l'. split; [exact E|].
  assert (missing layout_slots s' d < Z.of_nat (length l')) as Hr'.
  { destruct layout_slots_ok as (O1 & O2 & _). specialize (Hroom layout_slots O1 O2). enough (forall a, v * 4096 <= a < v * 4096 + n * 4096 ->
      PDX a ∈ layout_slots) as Hin by (specialize (Hroom Hin); lia).
    intros a Ha. apply in_layout_slots. rewrite PDX_eq by (unfold is_u32; lia). clear - Ha Hv Hn. word_lia. }
  split; try done; [by etrans|].
  intros x Hx Hxu. rewrite R4 by done.
  assert (k = n * 4096 / PGSIZE) as ->.
  { destruct (decide (k < n * 4096 / PGSIZE)) as [Hlt|]; [|lia]. rewrite (Hl Hlt) in Hr'. unfold missing in Hr'. cbn [length] in Hr'. lia. }
  change PGSIZE with 4096. rewrite Z.div_mul by done.
  unfold region. change PGSIZE with 4096. case_decide; [done|]. by apply M5.
Qed.

Section Layout.
Context `{Platform} (s : kstate) (d P E B : Z).

Definition pages_bytes : Z := ROUNDUP (u32 (SIZEOF_PAGEINFO * npages s)) PGSIZE.
Definition envs_bytes : Z := ROUNDUP (SIZEOF_ENV * NENV) PGSIZE.

(** The part of memlayout.h's picture that mem_init maps: all of physical
    memory from KERNBASE up and the boot stack below it for the kernel, the two
    arrays readable by the user.  The picture also has a stack for each of the
    other CPUs; mem_init_mp, which should map them, is empty. *)
Definition kernel_layout (va : Z) : option (Z * Z) :=
  if KERNBASE <=? va then Some ((va - KERNBASE) / PGSIZE, Z.lor PTE_W PTE_P)
  else if KSTACKTOP - KSTKSIZE <=? va then Some (B + (va - (KSTACKTOP - KSTKSIZE)) / PGSIZE, Z.lor PTE_W PTE_P)
  else if (UPAGES <=? va) && (va <? UPAGES + pages_bytes) then Some (P + (va - UPAGES) / PGSIZE, Z.lor PTE_U PTE_P)
  else if (UENVS <=? va) && (va <? UENVS + envs_bytes) then Some (E + (va - UENVS) / PGSIZE, Z.lor PTE_U PTE_P)
  else trans s d va.

(** The stack memlayout.h has for CPU [i]. *)
Definition in_kstack (i va : Z) : Prop :=
  let top := KSTACKTOP - i * (KSTKSIZE + KSTKGAP) in top - KSTKSIZE <= va < top.

Lemma pages_bytes_range : 0 < npages s <= 2 ^ 16 -> 0 < pages_bytes <= 2 ^ 19 /\ pages_bytes mod PGSIZE = 0.
Proof.
  intros Hn. unfold pages_bytes, SIZEOF_PAGEINFO. rewrite (u32_id (8 * _)) by lia.
  unfold ROUNDUP, ROUNDDOWN, PGSIZE in *. word_lia.
Qed.

Lemma in_kstack_va i va : 0 < npages s <= 2 ^ 16 -> 0 < i < NCPU -> in_kstack i va ->
  is_u32 va /\ PDX va <> PDX UVPT /\ kernel_layout va = trans s d va.
Proof.
  intros Hn Hi Hin. destruct (pages_bytes_range Hn) as [Hpb _]. unfold in_kstack in Hin.
  change KSTACKTOP with 0xF0000000 in Hin. change KSTKSIZE with 32768 in Hin. change KSTKGAP with 32768 in Hin. unfold NCPU in Hi.
  assert (0xEFF88000 <= va < 0xEFFF0000) as Hva by lia. clear Hin.
  assert (is_u32 va) as Hu by (unfold is_u32; lia). split; [done|]. split.
  { change (PDX UVPT) with 957. rewrite PDX_eq by done. clear - Hva. word_lia. }
  unfold kernel_layout. change KERNBASE with 0xF0000000. change (KSTACKTOP - KSTKSIZE) with 0xEFFF8000.
  change UPAGES with 0xEF000000. change UENVS with 0xEEC00000. change envs_bytes with (31 * 4096).
  rewrite (proj2 (Z.leb_gt _ va)), (proj2 (Z.leb_gt _ va)), (proj2 (Z.ltb_ge va _)), (proj2 (Z.ltb_ge va _)) by lia.
  by rewrite !andb_false_r.
Qed.

(** C20. What mem_init maps: with the two arrays and the boot stack on whole
    pages of memory and one free page more than there are page tables missing (at
    most 67 are), every address afterwards translates as [kernel_layout] says -
    the pages array at UPAGES and the envs array at UENVS for the user to read,
    the boot stack below KSTACKTOP and all of memory from KERNBASE up for the
    kernel - and every other address as before (the window at UVPT apart, which
    shows the page tables).  In particular the stacks that memlayout.h has for
    the other CPUs, and that check_kern_pgdir asserts, are not mapped. *)
Theorem map_kernel_correct (l : list Z) :
  mem_wf s -> free_ok s l -> pgdir_ok s l d -> kern_pgdir s = page_kva d ->
  pages_va s = page_kva P -> envs_va s = page_kva E -> link_bootstack = page_kva B ->
  0 < npages s -> 0 <= P -> P * PGSIZE + pages_bytes <= npages s * PGSIZE ->
  0 <= E -> E * PGSIZE + envs_bytes <= npages s * PGSIZE ->
  0 <= B -> B * PGSIZE + KSTKSIZE <= npages s * PGSIZE ->
  missing layout_slots s d < Z.of_nat (length l) ->
  exists s' l', map_kernel s = Ret tt s' /\ mem_wf s' /\ free_ok s' l' /\ pgdir_ok s' l' d /\ mm_frame s s' /\ l' <> [] /\
    (forall va, is_u32 va -> PDX va <> PDX UVPT -> trans s' d va = kernel_layout va) /\
    (forall i va, 0 < i < NCPU -> in_kstack i va -> trans s d va = None -> trans s' d va = None).
Proof.
  intros Hwf Hf Hpd Hk Hpv Hev Hbs Hn0 HP HPn HE HEn HB HBn Hroom. pose proof (wf_npages _ Hwf) as Hn.
  destruct (pages_bytes_range ltac:(lia)) as [Hpb Hpb0].
  assert (exists n, pages_bytes = n * 4096) as [n Hnp] by (exists (pages_bytes / 4096); unfold PGSIZE in Hpb0; clear - Hpb0; word_lia).
  clear Hpb0. assert (envs_bytes = 31 * 4096) as Heb by done. assert (KSTKSIZE = 8 * 4096) as Hkb by done.
  assert (mapping s d (trans s d) s l) as M0 by by split.
  assert (forall i s', mem_wf s' -> npages s' = npages s -> 0 <= i < npages s -> PADDR (page_kva i) s' = Ret (i * 4096) s')
    as Hpa by (intros i s' W N Hi; apply PADDR_page; [done|lia]).
  assert (forall i, page_kva i = (0xF0000 + i) * 4096) as Hkv by (intros i; unfold page_kva, KERNBASE, PGSIZE; lia).
  change PGSIZE with 4096 in HPn, HEn, HBn.
  unfold map_kernel. rewrite !bind_get, Hk, Hpv, Hev. fold pages_bytes envs_bytes.
  mstep (Hpa P s Hwf eq_refl ltac:(lia)).
  destruct (mapping_step s d _ s l (Z.lor PTE_U PTE_P) 0xEF000 n P UPAGES _ _ M0 ltac:(done) eq_refl Hnp eq_refl
    ltac:(lia) ltac:(lia) ltac:(lia) ltac:(lia)) as (s1 & l1 & E1 & M1). mstep E1.
  destruct (mapping_step s d _ s1 l1 (Z.lor PTE_W PTE_P) (0xF0000 + P) n P _ _ _ M1 ltac:(done) (Hkv P) Hnp eq_refl
    ltac:(lia) ltac:(lia) ltac:(lia) ltac:(lia)) as (s2 & l2 & E2 & M2). mstep E2.
  mstep (Hpa E s2 (mp_wf _ _ _ _ _ M2) (mm_npages _ _ (mp_mm _ _ _ _ _ M2)) ltac:(lia)).
  destruct (mapping_step s d _ s2 l2 (Z.lor PTE_U PTE_P) 0xEEC00 31 E UENVS _ _ M2 ltac:(done) eq_refl Heb eq_refl
    ltac:(lia) ltac:(lia) ltac:(lia) ltac:(lia)) as (s3 & l3 & E3 & M3). mstep E3.
  destruct (mapping_step s d _ s3 l3 (Z.lor PTE_W PTE_P) (0xF0000 + E) 31 E _ _ _ M3 ltac:(done) (Hkv E) Heb eq_refl
    ltac:(lia) ltac:(lia) ltac:(lia) ltac:(lia)) as (s4 & l4 & E4 & M4). mstep E4.
  rewrite Hbs. mstep (Hpa B s4 (mp_wf _ _ _ _ _ M4) (mm_npages _ _ (mp_mm _ _ _ _ _ M4)) ltac:(lia)).
  destruct (mapping_step s d _ s4 l4 (Z.lor PTE_W PTE_P) 0xEFFF8 8 B (KSTACKTOP - KSTKSIZE) _ _ M4 ltac:(done) eq_refl Hkb eq_refl
    ltac:(lia) ltac:(lia) ltac:(lia) ltac:(lia)) as (s5 & l5 & E5 & M5). mstep E5.
  destruct (mapping_step s d _ s5 l5 (Z.lor PTE_W PTE_P) 0xF0000 0x10000 0 KERNBASE (ROUNDUP (0xFFFFFFFF - KERNBASE) PGSIZE) 0
    M5 ltac:(done) eq_refl eq_refl eq_refl ltac:(lia) ltac:(lia) ltac:(lia) ltac:(lia))
    as (s6 & l6 & E6 & [W6 F6 P6 MM6 R6 T6]).
  clear E1 E2 E3 E4 E5 M0 M1 M2 M3 M4 M5.
  exists s6, l6. split; [exact E6|]. do 4 (split; [assumption|]). split; [intros ->; unfold missing in R6; cbn [length] in R6; lia|].
  assert (forall va, is_u32 va -> PDX va <> PDX UVPT -> trans s6 d va = kernel_layout va) as T;
    [|split; [exact T|intros i va Hi Hin Hnone; destruct (in_kstack_va i va ltac:(lia) Hi Hin) as (? & ? & El); by rewrite T, El]].
  intros va Hva Hu. rewrite T6 by done. clear - Hva Heb Hkb Hkv HP HE HB Hnp HPn HEn HBn Hn Hpb.
  change (ROUNDUP (0xFFFFFFFF - KERNBASE) PGSIZE) with 0x10000000. unfold region, kernel_layout.
  rewrite !Hkv, Heb, Hkb. change KERNBASE with 0xF0000000. change KSTACKTOP with 0xF0000000.
  change UPAGES with 0xEF000000. change UENVS with 0xEEC00000. unfold is_u32 in Hva. change PGSIZE with 4096.
  assert (forall p a x f, a + p * 4096 = x -> Some (x / 4096, Z.lor f PTE_P) = Some (p + a / 4096, Z.lor f PTE_P)) as Hshift.
  { intros p a x f <-. by rewrite Z.add_comm, Z.div_add_l, Z.add_comm by done. }
  destruct (Z.leb_spec 0xF0000000 va); [by rewrite decide_True by lia|]. rewrite decide_False by lia.
  destruct (Z.leb_spec (0xF0000000 - 8 * 4096) va).
  { rewrite decide_True by lia. change (Z.lor PTE_W PTE_P) with 3. apply (Hshift B _ _ 3). lia. }
  rewrite (decide_False (P := 0xF0000000 - 8 * 4096 <= va < _)) by lia.
  rewrite (decide_False (P := (0xF0000 + E) * 4096 <= va < _)) by lia.
  destruct (Z.leb_spec 0xEF000000 va), (Z.ltb_spec va (0xEF000000 + pages_bytes)); cbn [andb].
  - rewrite decide_False, decide_False, decide_True by lia. apply (Hshift P _ _ 5). lia.
  - rewrite !decide_False by lia. destruct (Z.leb_spec 0xEEC00000 va), (Z.ltb_spec va (0xEEC00000 + 31 * 4096)); done || lia.
  - destruct (Z.leb_spec 0xEEC00000 va), (Z.ltb_spec va (0xEEC00000 + 31 * 4096)); cbn [andb];
      [rewrite decide_True by lia; apply (Hshift E _ _ 5); lia|rewrite !decide_False by lia; done..].
  - lia.
Qed.
End Layout.

(** *** Witnesses *)

Definition freed : kstate := foldr after_free (sample 300 0) (zrange 100 68).
Definition unmapped : kstate := set_kern_pgdir (page_kva 1) (set_pages_va (page_kva 2) (set_envs_va (page_kva 3) freed)).

Lemma tbl_zero s d i : kmem s = (fun _ => 0) -> tbl s d i = None.
Proof. intros Hm. unfold tbl. by rewrite Hm. Qed.

Lemma unmapped_ok : mem_wf unmapped /\ free_ok unmapped (zrange 100 68) /\ pgdir_ok unmapped (zrange 100 68) 1 /\
  (forall i, tbl unmapped 1 i = None) /\ npages unmapped = 300.
Proof.
  assert (Hgen : forall s l, mem_wf s -> free_ok s l -> kmem s = (fun _ => 0) -> npages s = 300 ->
    let s' := set_kern_pgdir (page_kva 1) (set_pages_va (page_kva 2) (set_envs_va (page_kva 3) s)) in
    mem_wf s' /\ free_ok s' l /\ kmem s' = (fun _ => 0) /\ npages s' = 300) by (intros s l [W1 W2 W3] [F1 F2]; by split; split).
  assert (forall i, i ∈ zrange 100 68 -> 100 <= i < 168) as Hin by (intros i Hi%elem_of_zrange; lia).
  destruct (free_many (sample 300 0) (zrange 100 68)) as (W & F & M & N & _);
    [apply sample_wf; lia|by apply free_ok_nil|apply NoDup_zrange|intros i Hi%Hin; cbn; lia|].
  fold freed in W, F, M, N. destruct (Hgen freed (zrange 100 68) W F M N) as (W' & F' & M' & N').
  fold unmapped in W', F', M', N'. clear Hgen W F M N. pose proof (fun d i => tbl_zero unmapped d i M') as Ht.
  split; [exact W'|]. split; [exact F'|]. split; [|by split].
  split; [rewrite N'; lia|intros ?%Hin; lia| |]; intros i *; rewrite Ht; discriminate.
Qed.

Lemma map_kernel_correct_witness :
  exists s', map_kernel unmapped = Ret tt s' /\ mem_wf s' /\ trans s' 1 0xF0003123 = Some (3, Z.lor PTE_W PTE_P).
Proof.
  destruct unmapped_ok as (Hwf & Hf & Hpd & Ht & Hn).
  assert (missing layout_slots unmapped 1 < Z.of_nat (length (zrange 100 68))) as Hroom.
  { destruct layout_slots_ok as (_ & _ & L). unfold missing. eapply Z.le_lt_trans; [apply inj_le, length_filter|]. by rewrite L. }
  destruct (@map_kernel_correct small_platform unmapped 1 2 3 270 (zrange 100 68) Hwf Hf Hpd eq_refl eq_refl eq_refl eq_refl) as
    (s' & l' & H1 & H2 & _ & _ & _ & _ & H3 & _);
    [rewrite Hn; reflexivity|discriminate|unfold pages_bytes; rewrite Hn; discriminate|discriminate|rewrite Hn; discriminate|discriminate|
     rewrite Hn; discriminate|exact Hroom|].
  exists s'. split; [exact H1|]. split; [exact H2|]. rewrite H3; [reflexivity|split; [discriminate|reflexivity]|by vm_compute].
Defined.

(** The two tables in pages 1 and 2 of memory. *)
Definition entry_mem : mem :=
  store_words (store_words (fun _ => 0) (page_kva 1) (entry_pgdir (page_kva 2))) (page_kva 2) entry_pgtable.

Lemma words_at_store m a l : forallb (fun w => u32 w =? w) l = true -> words_at (store_words m a l) a l.
Proof.
  intros Hl i w Hi. rewrite (ld32_store_words _ _ _ _ _ Hi). apply Z.eqb_eq.
  apply (proj1 (forallb_forall _ _) Hl w). apply list_elem_of_In, (list_elem_of_lookup_2 _ _ _ Hi).
Qed.

Lemma words_at_out m a l b l' :
  a + 4 * Z.of_nat (length l) <= b -> words_at m a l -> words_at (store_words m b l') a l.
Proof.
  intros Hb W i w Hi. rewrite <- (W i w Hi). pose proof (lookup_lt_Some _ _ _ Hi).
  apply ld32_ext. intros x Hx. apply store_words_out. lia.
Qed.

Lemma entry_pgdir_correct_witness :
  let s := set_kmem entry_mem (sample 4 0) in
  hw_walk s 1 0x1234 = Some (0x1234, false) /\ hw_walk s 1 0xF0001234 = Some (0x1234, true) /\ hw_walk s 1 0x400000 = None.
Proof.
  intros s.
  assert (Wd : words_at (kmem s) (page_kva 1) (entry_pgdir (page_kva 2))).
  { apply words_at_out; [vm_compute; discriminate|]. apply words_at_store. vm_compute. reflexivity. }
  assert (Wt : words_at (kmem s) (page_kva 2) entry_pgtable) by (apply words_at_store; vm_compute; reflexivity).
  split; [|split].
  - exact (entry_pgdir_correct s 1 2 0x1234 ltac:(lia) ltac:(lia) Wd Wt ltac:(split; reflexivity || lia)).
  - exact (entry_pgdir_correct s 1 2 0xF0001234 ltac:(lia) ltac:(lia) Wd Wt ltac:(split; reflexivity || lia)).
  - exact (entry_pgdir_correct s 1 2 0x400000 ltac:(lia) ltac:(lia) Wd Wt ltac:(split; reflexivity || lia)).
Defined.
