(* ===== verification/Boot.v ===== *)
(** The boot loader: src/boot/main.c.

    It runs before paging, on physical memory; the disk is the sequence of its
    bytes.  Waiting for the disk to become ready is not modelled. *)

From S2P Require Import Prelude Machine Mmu Cstring Env.

Definition SECTSIZE : Z := 512.
Definition ELFHDR : Z := 0x10000.

Section Boot.
(** The disk, whose sectors are addressed with 28 bits. *)
Context (disk : Z -> Z).

(** insl: the [n] bytes of [sector] stored upwards from [dst]. *)
Definition read_bytes (m : mem) (dst sector n : Z) : mem :=
  fun x => if (dst <=? x) && (x <? dst + n)
           then u8 (disk (sector mod 2 ^ 28 * SECTSIZE + (x - dst))) else m x.

Definition readsect (m : mem) (dst offset : Z) : mem := read_bytes m dst offset SECTSIZE.

Fixpoint readseg_loop (fuel : nat) (m : mem) (pa end_pa offset : Z) : option mem :=
  if pa <? end_pa then
    match fuel with
    | O => None
    | S fuel => readseg_loop fuel (readsect m pa offset) (u32 (pa + SECTSIZE)) end_pa (u32 (offset + 1))
    end
  else Some m.

(** [None]: the loop does not end, because [end_pa] is in the last sector of
    the address space. *)
Definition readseg (m : mem) (pa count offset : Z) : option mem :=
  let end_pa := u32 (pa + count) in
  let pa := Z.land pa (u32 (Z.lnot (SECTSIZE - 1))) in
  let offset := u32 (offset / SECTSIZE + 1) in
  readseg_loop (Z.to_nat ((end_pa - pa) / SECTSIZE + 1)) m pa end_pa offset.

Fixpoint load_phdrs (n : nat) (m : mem) (ph : Z) : option mem :=
  match n with
  | O => Some m
  | S n =>
      m ← readseg m (ld32 m (p_pa ph)) (ld32 m (p_memsz ph)) (ld32 m (p_offset ph));
      load_phdrs n m (ph + SIZEOF_PROGHDR)
  end.

(** What the boot loader ends in: a jump to the kernel's entry point, or the
    [bad] loop. *)
Inductive booted_to := Entry (eip : Z) (m : mem) | Bad (m : mem).

Definition bootmain (m : mem) : option booted_to :=
  m ← readseg m ELFHDR (SECTSIZE * 8) 0;
  if negb (ld32 m ELFHDR =? ELF_MAGIC) then Some (Bad m)
  else
    let ph := u32 (ELFHDR + ld32 m (e_phoff ELFHDR)) in
    m' ← load_phdrs (Z.to_nat (ld16 m (e_phnum ELFHDR))) m ph;
    Some (Entry (ld32 m' (e_entry ELFHDR)) m').
End Boot.

(** * Properties *)

(** The bytes of the kernel image, which starts in sector 1. *)
Definition image (disk : Z -> Z) (i : Z) : Z := u8 (disk (SECTSIZE + i)).

Section ReadSeg.
Context (disk : Z -> Z).

(** The loop: [n] sectors from [off] on are stored upwards from [pa]. *)
Lemma readseg_loop_eq n m pa end_pa off fuel :
  (n <= fuel)%nat -> 0 <= pa -> 0 <= off -> off + Z.of_nat n < 2 ^ 28 ->
  pa + Z.of_nat n * SECTSIZE < 2 ^ 32 ->
  pa + (Z.of_nat n - 1) * SECTSIZE < end_pa <= pa + Z.of_nat n * SECTSIZE ->
  exists m', readseg_loop disk fuel m pa end_pa off = Some m' /\
    forall x, m' x = if (pa <=? x) && (x <? pa + Z.of_nat n * SECTSIZE)
                     then u8 (disk (off * SECTSIZE + (x - pa))) else m x.
Proof.
  revert m pa off fuel. unfold SECTSIZE in *.
  induction n as [|n IH]; intros m pa off fuel Hf Hpa Hoff Hs Hw Hend.
  - exists m. split; [|intros x; case_bool; done || lia].
    destruct fuel; cbn [readseg_loop]; by rewrite (proj2 (Z.ltb_ge pa end_pa)) by lia.
  - destruct fuel as [|fuel]; [lia|]. cbn [readseg_loop].
    destruct (Z.ltb_spec pa end_pa) as [Hlt|]; [|lia].
    unfold SECTSIZE. rewrite (u32_id (pa + 512)), (u32_id (off + 1)) by lia.
    destruct (decide (n = O)) as [->|Hn].
    + exists (readsect disk m pa off). split.
      * destruct fuel; cbn [readseg_loop]; by rewrite (proj2 (Z.ltb_ge (pa + 512) end_pa)) by lia.
      * intros x. unfold readsect, read_bytes, SECTSIZE. rewrite Z.mod_small by lia. done.
    + destruct (IH (readsect disk m pa off) (pa + 512) (off + 1) fuel) as (m' & -> & Hm); try lia.
      exists m'. split; [done|]. intros x. rewrite Hm. unfold readsect, read_bytes, SECTSIZE.
      rewrite Z.mod_small by lia. case_bool; try lia; do 2 f_equal; lia.
Qed.

(** The addresses of the whole sectors around [pa, pa + count). *)
Definition in_sectors (pa count x : Z) : Prop :=
  pa / SECTSIZE * SECTSIZE <= x < (pa + count + (SECTSIZE - 1)) / SECTSIZE * SECTSIZE.

(** C34. readseg terminates and loads the segment, provided [pa] and [offset]
    agree modulo the sector size (the loop rounds both down and reads whole
    sectors) and neither the addresses nor the sector numbers wrap: the sectors
    that contain [pa, pa + count), from the start of the first to the end of the
    last, afterwards hold the bytes of the kernel image around [offset] - so
    [pa + i] holds byte [offset + i] for every [i] below [count] - and no byte
    outside these sectors is written. *)
Theorem readseg_correct (m : mem) (pa count offset : Z) :
  0 <= pa -> 0 < count -> pa + count + SECTSIZE < 2 ^ 32 -> 0 <= offset -> offset + count + 2 * SECTSIZE < 2 ^ 37 ->
  pa mod SECTSIZE = offset mod SECTSIZE ->
  exists m', readseg disk m pa count offset = Some m' /\
    (forall x, pa <= x < pa + count -> in_sectors pa count x) /\
    (forall x, in_sectors pa count x -> m' x = image disk (offset + (x - pa))) /\
    (forall x, ~ in_sectors pa count x -> m' x = m x).
Proof.
  intros Hpa Hc Hw Ho How Heq. unfold readseg.
  assert (Z.land pa (u32 (Z.lnot (SECTSIZE - 1))) = pa - pa mod SECTSIZE) as ->.
  { change (u32 (Z.lnot (SECTSIZE - 1))) with (2 ^ 32 - 2 ^ 9). change SECTSIZE with (2 ^ 9) in *.
    apply land_high; lia. }
  rewrite (u32_id (pa + count)) by (unfold SECTSIZE in *; lia).
  set (base := pa - pa mod SECTSIZE). set (n := Z.to_nat ((pa + count - base + (SECTSIZE - 1)) / SECTSIZE)).
  rewrite (u32_id (offset / SECTSIZE + 1)) by (unfold SECTSIZE in *; word_lia).
  destruct (readseg_loop_eq n m base (pa + count) (offset / SECTSIZE + 1)
    (Z.to_nat ((pa + count - base) / SECTSIZE + 1))) as (m' & -> & Hm); [unfold base, n, SECTSIZE in *; word_lia..|].
  assert (forall x, in_sectors pa count x <-> base <= x < base + Z.of_nat n * 512) as Hin.
  { intros x. unfold in_sectors, base, n, SECTSIZE in *. word_lia. }
  exists m'. split; [done|]. split; [intros x Hx; unfold in_sectors, SECTSIZE; word_lia|].
  split; intros x Hx; rewrite Hin in Hx; rewrite Hm; change SECTSIZE with 512; case_bool; try lia.
  unfold image. do 2 f_equal. unfold base, SECTSIZE in *. word_lia.
Qed.
End ReadSeg.

Lemma readseg_correct_witness :
  exists m', readseg (fun i => i) (fun _ => 0) 0x100200 600 0x1200 = Some m' /\ m' 0x100203 = u8 (512 + 0x1203).
Proof.
  destruct (readseg_correct (fun i => i) (fun _ => 0) 0x100200 600 0x1200
    ltac:(lia) ltac:(lia) ltac:(unfold SECTSIZE; lia) ltac:(lia) ltac:(unfold SECTSIZE; lia) eq_refl)
    as (m' & H1 & H2 & H3 & _).
  exists m'. split; [exact H1|]. rewrite H3 by (apply H2; lia). reflexivity.
Defined.
